(* ===== verification/_CoqProject ===== *)
-Q . S2P
Prelude.v
GoBinary.v
GoCrypto.v
Sha1.v
Sha256.v
Aes.v
GoPath.v
GoStrings.v
Json.v
Marshal.v
Machine.v
Session.v
Ipmi.v
RmcpPlus.v
Rmcp.v
Handshake.v
Encrypted.v
Server.v
IpmiCommands.v
Console.v
Lan.v
RedfishTypes.v
Redfish.v
Tls.v
Qmp.v
Types.v
Host.v
Command.v
Forward.v
Netlink.v
Files.v
Dcnet.v
World.v
Cache.v
Volume.v
Qemu.v
Tap.v
Bmc.v
BmcEnv.v
Node.v
Netns.v
Runtime.v
Cluster.v
Api.v
Status.v
Lifecycle.v
Firewall.v
Machines.v
ClusterBmcs.v
Pmctl.v
Enter.v
ColoredLog.v
Run.v
