(* ===== verification/Prelude.v ===== *)
(** * A verification of placemat

    placemat builds a virtual data center on one host: it reads a cluster
    description, creates networks, volumes and QEMU virtual machines, and gives every
    machine a virtual BMC that answers IPMI over UDP and Redfish over HTTPS.  This
    library models the program's core in Rocq and proves what makes it correct.
    File names below are under src/v2/pkg.

    ** Parts of the program and where they are modelled

    - The Go language and its library.  [Prelude]: errors, panics, outcomes, a state
      monad [st], fixed-width integers and bytes.  [GoBinary]: encoding/binary, as
      codecs with laws.  [GoCrypto]: entropy, hex, and the interface [CryptoOps] with
      [CryptoLaws] for HMAC-SHA1 and AES; [Sha1] and [Aes] are executable
      implementations that satisfy it.  [GoPath]: path/filepath.  [GoStrings]: strconv,
      strings, unicode/utf8, bufio.Scanner.  [Json]: the parser of encoding/json,
      [Marshal]: its printer, the Go types that are printed and read ([JsonType]) and the
      round trip ([JsonLaws]).
    - virtualbmc/bmc_server.go, the [Machine] interface: [Machine], with
      [ReliableMachine] (what a working machine promises) and the abstract power
      specification [Power], against which both front ends are proved.
    - virtualbmc/rmcp_plus_session.go and bmc_user.go: [Session].  The BMC's state is
      the record [bmc]: the session map, the entropy position, the machine.
    - virtualbmc/ipmi.go, ipmi_app.go, ipmi_chassis.go: [Ipmi], and [IpmiCommands] with
      the network functions, commands and authentication types that are declared only.
    - virtualbmc/rmcp_plus.go: [RmcpPlus] (data, codecs, every handler), [Handshake]
      (the RAKP exchange, the session invariant, the abstract session table
      [Table]), [Encrypted] (encrypted requests).
    - virtualbmc/rmcp.go, ipmi_session.go and the UDP loop of bmc_server.go: [Rmcp];
      the loop is the transition [server_step] on a state with its receive buffer,
      and a panic stops the server.  [Server] has the invariants of runs, [Console] an
      executable IPMI console and the end-to-end theorems, [Lan] IPMI v1.5.
    - virtualbmc/redfish.go, redfish_system.go, redfish_chassis.go: [RedfishTypes]
      and [Redfish]; gin is the interface the handlers are written against.
      virtualbmc/gencert.go and StartRedfishServer: [Tls], on the interface [Pki].
    - vm/node.go, the power operations of a virtual machine: [Qmp], the dialogue
      with QEMU's monitor behind [QmpConn]; [QmpLaws] is what QMP documents, with
      events and failures, and [QmpQuiet] a monitor that works and sends only answers
      and the events of its commands.
    - types/cluster.go: [Types], specifications, validation and the parser; the YAML
      decoder and the document framer are interfaces.
    - The host.  [Host]: files, commands, processes, HTTP; [Files]: what they do to a
      view of the file system; [Netlink]: netlink, iptables and addresses, with what
      they do to a view of the kernel's links and chains ([NetLaws], [NetReliable]);
      [World]: a simulated host on which every law holds.
    - dcnet/link.go, nat.go, network.go: [Dcnet].  dcnet/netns.go: [Netns].
    - util/compress.go: [Host].  util/cache.go: [Cache], on [Sha256].
      util/colored_log.go: [ColoredLog].
    - vm/runtime.go: [GoPath] (paths), [Runtime].  vm/volume.go and vm/image.go:
      [Volume].  vm/qemu.go: [Qemu].  vm/tap.go: [Tap].  vm/bmc.go: [Bmc], and [BmcEnv]
      for guests, loop and servers running at the same time, on the interface
      [Environment] of package well.  vm/node.go: [Node]; nodes and taps
      are mutable objects, so their methods run on the host's state together with the
      object ([on_host]).
    - placemat/cluster.go: [Cluster] (phases, clean-up, registration of machines) and
      [Lifecycle] ([cluster_Setup] as a whole: deferred functions, and the events
      while the cluster runs).  placemat/server.go: [Api], written against the
      interface [VM].
    - cmd/placemat2/sub/run.go and root.go: [Run], which composes the parser, the runtime
      and the cluster.
    - cmd/pmctl2/cmd: [Command] (root.go, completion.go: what the commands share),
      [Forward] (forward*.go, on systemd behind [SystemdLaws]), [Status] (the API's
      structures as JSON), [Pmctl] (client.go and the node commands, written against
      [HttpClient]; [ApiClientLaws] ties the client to the handlers of [Api]) and [Enter]
      (node_enter.go, a step relation over the interleavings of its goroutines).

    Components interact through interfaces: BMC front ends see a [Machine], the API
    server a [VM], which the machine of [Node] implements with the dialogues of [Qmp];
    networks, taps, namespaces and nodes share the kernel through [NetOps].  Goroutines
    are sequences of whole steps in any order: the set-ups of nodes in the order in
    which they register, and afterwards the events of [Lifecycle]; the goroutines of
    [Enter] are interleaved at every channel operation and command, and those of [BmcEnv]
    at every message and every return of a server.

    ** What the theorems show

    - End to end: a console that knows a password logs in and controls power over the
      UDP loop, for every reliable machine ([Console.console_login_succeeds],
      [Console.console_controls_power]), and in particular for a QEMU machine with a
      quiet monitor ([Qmp.console_powers_vm]).  With any documented monitor, power
      operations that succeed have their effect unless QEMU refused the command, and an
      event can make a running machine look off ([Qmp.vm_power_with_events]).
    - Authentication: keys exist only after a correct RAKP message 3
      ([Handshake.rakp3_authenticates], [Console.keys_need_authentication]); each turn
      of the loop is a step of the abstract table ([Console.server_refines_table]) and
      keeps the session invariant ([Console.server_run_wf]).
    - Messages: responses with correct addresses, checksums and bits, effects and
      totality of the IPMI commands ([Ipmi]); the answer to every request, by a table in
      which all but five commands are refused ([IpmiCommands.commands_answered]); two
      authentication types that are offered are refused
      ([IpmiCommands.offered_types_refused]); round trips of the encryption and of the
      session wrapper; every outcome of the handlers, panics included.
    - Power: IPMI Chassis Control and the Redfish resets implement the same
      specification and agree with each other.
    - Redfish: authorization, error responses, links that resolve.
    - Cluster files: validation accepts exactly the valid resources, parsing ends and
      yields valid clusters, and parsing files one by one is parsing them together.
    - A run of the command: the firewall is as it was when the command returns, whatever
      happens ([Run.run_restores_firewall], on [Firewall], which shows what leaves the
      chains alone); files are loaded as one ([Run.files_loaded]).
    - The pmctl2 command: a node action reaches the machine of its node and no other
      ([Pmctl.pmctl_controls_nodes]), what is shown is what the API server has, through the
      JSON round trip ([Pmctl.pmctl_shows_nodes]); the forward commands implement a table
      of settings, each with a socat that forwards it ([Forward.forward_refines_table]),
      whose listing can be added again
      ([Forward.forward_text_roundtrip]); a console session ends and cleans up
      ([Enter.enter_terminates]) unless a signal comes at the wrong time
      ([Enter.enter_hangs]), and is one with the named node
      ([Enter.enter_reaches_node]).
    - TLS: the names of a certificate are exactly the host and its prefixes
      ([Tls.aliases_exact]), and a server that starts serves a matching key pair
      ([Tls.redfish_serves_tls]).
    - A cluster: its machines are registered under their serial numbers
      ([Machines.machines_registered]), the API controls the machine of the named node
      and no other ([Machines.api_controls_nodes]), and a guest's first line starts the
      BMC of its own machine ([Machines.guest_gets_its_bmc], [Bmc.bmc_start_correct]).
    - BMCs at the same time: no guest waits, messages arrive in order and started servers
      run on ([BmcEnv.bmc_servers_run]); the shut-down ends, with the result of whoever
      ended first ([BmcEnv.bmc_Start_ends]); one
      server that fails stops them all ([BmcEnv.bmc_failure_stops_all]).  [ClusterBmcs] puts
      this together with the set-up of a cluster: each guest gets the machine of its own
      node ([ClusterBmcs.cluster_bmcs_serve]).
    - Networks: exactly one bridge and its rules per network, and links that are found
      again by their prefix ([Dcnet]); namespaces whose set-up never panics, although their
      construction does for a null interface ([Netns]).
    - Nodes: built as specified, set up with the serial number and paths they return,
      taps that are removed exactly, files that are removed and only those ([Node]).
    - The image cache is atomic and downloads are complete ([Cache]); the runtime's
      directories ([Runtime]); log lines that do not depend on writes ([ColoredLog]).
    - Machines: valid volume specifications become the volumes they describe, or fail
      for exactly the reasons given, and creating a volume is idempotent; the QEMU command
      line as QEMU reads it, the CPUs of its NUMA nodes, and paths of different nodes that never clash.
    - Defects are stated as theorems too: requests that panic the server, integrity
      codes that are not checked, stale bytes of the receive buffer, commands without
      authentication.

    ** Fuel

    [getNewRMCPPlusSession] draws identifiers until one is unused: its fuel bounds the
    draws, and [Session.getNewRMCPPlusSession_terminates] shows how much is enough.
    [Types.readSingleYamlDoc] runs on fifteen rounds, since its buffer doubles from
    1 KiB to 16 MiB; [Types.Parse] takes the number of documents plus one, which
    [Types.Parse_documents] shows to be enough.  [Json.parse] takes twice the length of
    its text, as every value and member consumes at least a byte; [Marshal.parse_encode]
    shows it to be enough for every printed value.  The wait loops of
    [Node.wait_for] end when the sockets appear or the context is done:
    [Node.wait_for_ends] bounds the rounds by the ticks of the clock.

    ** Not modelled

    cobra's command tree and help texts, the parsing of flags and the log configuration;
    the insides of TLS, X.509 and HTTP (interfaces); the environment of the end-to-end
    tests.  Goroutines other than those of [Enter] and [BmcEnv] are not interleaved below
    the level of whole steps, and the runs of [BmcEnv] are those in which no server
    panics. *)

From stdpp Require Export base tactics list gmap strings numbers pretty.
From Stdlib Require Export ZArith Lia.

Local Open Scope Z_scope.

(** ** Go errors, panics and outcomes *)

(** A Go [error] value: the sentinel errors of package io the code compares
    or receives, [errors.New] (and [fmt.Errorf] without a cause), and
    [fmt.Errorf] with a wrapped cause. *)
Inductive error : Type :=
| EOF
| ErrUnexpectedEOF
| ErrShortBuffer
| errors_New (msg : string)
| Errorf (msg : string) (cause : error).

(** [err.Error()] *)
Fixpoint error_Error (e : error) : string :=
  match e with
  | EOF => "EOF"
  | ErrUnexpectedEOF => "unexpected EOF"
  | ErrShortBuffer => "short buffer"
  | errors_New msg => msg
  | Errorf msg cause => msg ++ ": " ++ error_Error cause
  end%string.

(** The run-time panics the modelled code can raise. *)
Inductive panic : Type :=
| SliceBounds
| IndexOutOfRange
| NilDereference
| DivideByZero
| PanicMsg (msg : string).

(** What running a Go function produces.  [Diverge] is the value of a loop
    whose fuel ran out. *)
Inductive outcome (A : Type) : Type :=
| Ok (a : A)
| Err (e : error)
| Panic (p : panic)
| Diverge.
Arguments Ok {A} a.
Arguments Err {A} e.
Arguments Panic {A} p.
Arguments Diverge {A}.

Definition obind {A B : Type} (m : outcome A) (f : A -> outcome B) : outcome B :=
  match m with
  | Ok a => f a
  | Err e => Err e
  | Panic p => Panic p
  | Diverge => Diverge
  end.

(** [fmt.Errorf("...: %w", err)] around a failing call. *)
Definition owrap {A : Type} (msg : string) (m : outcome A) : outcome A :=
  match m with
  | Err e => Err (Errorf msg e)
  | _ => m
  end.

(** ** Stateful Go code: an outcome and the state left behind

    The state survives errors and panics, as Go's mutations do. *)
Definition st (S A : Type) : Type := S -> outcome A * S.

Definition sret {S A : Type} (a : A) : st S A := fun s => (Ok a, s).
Definition slift {S A : Type} (m : outcome A) : st S A := fun s => (m, s).
Definition sbind {S A B : Type} (m : st S A) (f : A -> st S B) : st S B :=
  fun s => match m s with
           | (Ok a, s') => f a s'
           | (Err e, s') => (Err e, s')
           | (Panic p, s') => (Panic p, s')
           | (Diverge, s') => (Diverge, s')
           end.
(** [res, err := m()]: the error becomes a value; panics still propagate. *)
Definition stry {S A : Type} (m : st S A) : st S (A + error) :=
  fun s => match m s with
           | (Ok a, s') => (Ok (inl a), s')
           | (Err e, s') => (Ok (inr e), s')
           | (Panic p, s') => (Panic p, s')
           | (Diverge, s') => (Diverge, s')
           end.
(** [if err := m(); err != nil { return fmt.Errorf(msg + ": %w", err) }] *)
Definition swrap {S A : Type} (msg : string) (m : st S A) : st S A :=
  fun s => let (o, s') := m s in (owrap msg o, s').
(** [if err := m(); err != nil { log.Warn(...) }] *)
Definition swarn {S A : Type} (m : st S A) : st S unit :=
  fun s => match m s with
           | (Ok _, s') | (Err _, s') => (Ok tt, s')
           | (Panic p, s') => (Panic p, s')
           | (Diverge, s') => (Diverge, s')
           end.
(** [for _, x := range l { ... }] with early returns. *)
Fixpoint sfor {S A : Type} (l : list A) (body : A -> st S unit) : st S unit :=
  match l with
  | [] => sret tt
  | x :: l' => sbind (body x) (fun _ => sfor l' body)
  end.
(** The loop that appends one result per element. *)
Fixpoint smap {S A B : Type} (f : A -> st S B) (l : list A) : st S (list B) :=
  match l with
  | [] => sret []
  | x :: l' => sbind (f x) (fun y => sbind (smap f l') (fun ys => sret (y :: ys)))
  end.
Definition sget {S : Type} : st S S := fun s => (Ok s, s).
Definition sput {S : Type} (s' : S) : st S unit := fun _ => (Ok tt, s').
Definition sthrow {S A : Type} (e : error) : st S A := fun s => (Err e, s).

(** A call that does not touch the object. *)
Definition on_host {W X A : Type} (m : st W A) : st (W * X) A :=
  fun s => let (o, w') := m s.1 in (o, (w', s.2)).

(** [for _, x := range xs { y, err := x.f() ... ys = append(ys, y) }] on mutable
    objects: the objects keep what happened to them, up to the first failure. *)
Fixpoint each {W X B : Type} (f : st (W * X) B) (xs : list X) (w : W)
  : outcome (list B) * (W * list X) :=
  match xs with
  | [] => (Ok [], (w, []))
  | x :: xs' =>
      match f (w, x) with
      | (Ok y, (w', x')) =>
          let '(o, (w'', xs'')) := each f xs' w' in
          (obind o (fun ys => Ok (y :: ys)), (w'', x' :: xs''))
      | (Err e, (w', x')) => (Err e, (w', x' :: xs'))
      | (Panic p, (w', x')) => (Panic p, (w', x' :: xs'))
      | (Diverge, (w', x')) => (Diverge, (w', x' :: xs'))
      end
  end.

Declare Scope go_scope.
Delimit Scope go_scope with go.
Notation "'let!' x := m 'in' k" := (obind m (fun x => k))
  (at level 10, x pattern, m at level 100, k at level 200) : go_scope.
Notation "'let*' x := m 'in' k" := (sbind m (fun x => k))
  (at level 10, x pattern, m at level 100, k at level 200) : go_scope.
Notation "m '>>>' k" := (sbind m (fun _ => k))
  (at level 60, right associativity) : go_scope.

(** ** Fixed-width integers and bytes *)

Definition u8 (z : Z) : Z := z mod 2 ^ 8.
Definition u16 (z : Z) : Z := z mod 2 ^ 16.
Definition u32 (z : Z) : Z := z mod 2 ^ 32.

Definition is_u8 (z : Z) : bool := (0 <=? z) && (z <? 2 ^ 8).
Definition is_u16 (z : Z) : bool := (0 <=? z) && (z <? 2 ^ 16).
Definition is_u32 (z : Z) : bool := (0 <=? z) && (z <? 2 ^ 32).
Definition is_bytes (l : list Z) : bool := forallb is_u8 l.

(** [make([]byte, n)] *)
Definition zeros (n : nat) : list Z := replicate n 0.

(** [s[:n]] on a slice whose capacity is its length. *)
Definition slice_to (s : list Z) (n : nat) : outcome (list Z) :=
  if (n <=? length s)%nat then Ok (take n s) else Panic SliceBounds.

(** [copy(dst[:], src)]: the bytes of [src] that fit, then what was in [dst]. *)
Definition copy_into (dst src : list Z) : list Z :=
  take (length dst) src ++ drop (length src) dst.

(** [[]byte(s)] and [string(b)]. *)
Fixpoint bytes_of_string (s : string) : list Z :=
  match s with
  | EmptyString => []
  | String c s' => Z.of_N (Ascii.N_of_ascii c) :: bytes_of_string s'
  end.
Fixpoint string_of_bytes (l : list Z) : string :=
  match l with
  | [] => EmptyString
  | b :: l' => String (Ascii.ascii_of_N (Z.to_N b)) (string_of_bytes l')
  end.

(** ** Tactics *)

(** Case analysis on an outcome-producing call in the goal or a hypothesis. *)
Ltac go_case m :=
  let E := fresh "E" in destruct m eqn:E; simpl in *; try discriminate.

(** Inverts equations between outcomes and pairs. *)
Ltac go_inv :=
  repeat match goal with
         | H : Ok _ = Ok _ |- _ => injection H as H; subst
         | H : (_, _) = (_, _) |- _ => injection H as ??; subst
         | H : Ok _ = Err _ |- _ => discriminate H
         | H : Err _ = Ok _ |- _ => discriminate H
         | H : Panic _ = Ok _ |- _ => discriminate H
         | H : Diverge = Ok _ |- _ => discriminate H
         end.

(** Splits boolean conjunctions and turns integer tests into facts. *)
Ltac bools :=
  repeat match goal with
         | H : _ && _ = true |- _ => apply andb_prop in H as [? ?]
         | H : _ || _ = false |- _ => apply orb_false_elim in H as [? ?]
         | H : Is_true _ |- _ => apply Is_true_true in H
         | H : (_ =? _) = true |- _ => apply Z.eqb_eq in H
         | H : (_ =? _) = false |- _ => apply Z.eqb_neq in H
         | H : (_ <=? _) = true |- _ => apply Z.leb_le in H
         | H : (_ <? _) = true |- _ => apply Z.ltb_lt in H
         | H : (_ <=? _) = false |- _ => apply Z.leb_gt in H
         | H : (_ <? _) = false |- _ => apply Z.ltb_ge in H
         | H : (_ <=? _)%nat = true |- _ => apply Nat.leb_le in H
         | H : (_ <=? _)%nat = false |- _ => apply Nat.leb_gt in H
         | H : (_ =? _)%nat = true |- _ => apply Nat.eqb_eq in H
         end.

(** [lia] with quotients and remainders. *)
Ltac dlia := Z.to_euclidean_division_equations; lia.

Create HintDb bytes.
Create Rewrite HintDb bytes.

(** ** Generic lemmas *)

Lemma obind_ok {A B} (m : outcome A) (f : A -> outcome B) b :
  obind m f = Ok b -> exists a, m = Ok a /\ f a = Ok b.
Proof. destruct m; simpl; naive_solver. Qed.

Lemma owrap_ok {A} msg (m : outcome A) a : owrap msg m = Ok a <-> m = Ok a.
Proof. destruct m; simpl; naive_solver. Qed.

Lemma sbind_ok {S A B} (m : st S A) (f : A -> st S B) s b s' :
  sbind m f s = (Ok b, s') -> exists a s1, m s = (Ok a, s1) /\ f a s1 = (Ok b, s').
Proof. unfold sbind. destruct (m s) as [[] s1] eqn:E; naive_solver. Qed.

Lemma on_host_ok {W X A} (m : st W A) (s : W * X) a s' :
  on_host m s = (Ok a, s') -> m s.1 = (Ok a, s'.1) /\ s'.2 = s.2.
Proof. unfold on_host. destruct (m s.1) as [o w] eqn:E. intros [= -> <-]. done. Qed.

Lemma swrap_ok {S A} msg (m : st S A) s a s' : swrap msg m s = (Ok a, s') -> m s = (Ok a, s').
Proof. unfold swrap. destruct (m s) as [o s1] eqn:E. intros [= Eo <-]. by apply owrap_ok in Eo as ->. Qed.

Lemma on_host_run {W X A} (m : st W A) (w : W) (x : X) o s' :
  on_host m (w, x) = (o, s') -> m w = (o, s'.1) /\ s'.2 = x.
Proof. unfold on_host. cbn. destruct (m w). by intros [= <- <-]. Qed.

Lemma each_wrap {W X B} msg (f : st (W * X) B) xs w ys s :
  each (swrap msg f) xs w = (Ok ys, s) -> each f xs w = (Ok ys, s).
Proof.
  revert w ys s. induction xs as [|x xs IH]; intros w ys s; cbn [each]; [done|].
  unfold swrap at 1. destruct (f (w, x)) as [[y|e|p|] [w1 x1]]; cbn [owrap]; try done.
  destruct (each (swrap msg f) xs w1) as [o [w2 xs2]] eqn:E. destruct o as [ys2| | |]; try done.
  intros [= <- <-]. by rewrite (IH _ _ _ E).
Qed.

Lemma is_u8_spec z : is_u8 z = true <-> 0 <= z < 256.
Proof. unfold is_u8. rewrite andb_true_iff, Z.leb_le, Z.ltb_lt. lia. Qed.

Lemma is_u16_spec z : is_u16 z = true <-> 0 <= z < 65536.
Proof. unfold is_u16. rewrite andb_true_iff, Z.leb_le, Z.ltb_lt. lia. Qed.

Lemma is_u32_spec z : is_u32 z = true <-> 0 <= z < 4294967296.
Proof. unfold is_u32. rewrite andb_true_iff, Z.leb_le, Z.ltb_lt. lia. Qed.

Lemma is_u8_wrap z : is_u8 (u8 z) = true.
Proof. apply is_u8_spec. unfold u8. pose proof (Z.mod_pos_bound z (2 ^ 8)). lia. Qed.

Lemma is_bytes_Forall l : is_bytes l = true <-> Forall (fun b => 0 <= b < 256) l.
Proof.
  unfold is_bytes. rewrite forallb_forall, List.Forall_forall.
  split; intros H x Hx; specialize (H x Hx); by apply is_u8_spec.
Qed.

Lemma is_bytes_app l k : is_bytes (l ++ k) = is_bytes l && is_bytes k.
Proof. apply forallb_app. Qed.

Lemma is_bytes_take n l : is_bytes l = true -> is_bytes (take n l) = true.
Proof.
  rewrite <- (take_drop n l) at 1. rewrite is_bytes_app. intros H; bools; done.
Qed.

Lemma is_bytes_drop n l : is_bytes l = true -> is_bytes (drop n l) = true.
Proof.
  rewrite <- (take_drop n l) at 1. rewrite is_bytes_app. intros H; bools; done.
Qed.

Lemma is_bytes_zeros n : is_bytes (zeros n) = true.
Proof. induction n; simpl; auto. Qed.

Lemma length_zeros n : length (zeros n) = n.
Proof. apply length_replicate. Qed.

Lemma slice_to_ok s n t :
  slice_to s n = Ok t <-> (n <= length s)%nat /\ t = take n s.
Proof.
  unfold slice_to. destruct (Nat.leb_spec n (length s)); split.
  - by intros [= <-].
  - by intros [_ ->].
  - done.
  - lia.
Qed.

Lemma length_copy_into dst src : length (copy_into dst src) = length dst.
Proof. unfold copy_into. rewrite length_app, length_take, length_drop. lia. Qed.

Lemma copy_into_exact dst src : length src = length dst -> copy_into dst src = src.
Proof.
  intros H. unfold copy_into. rewrite <- H, firstn_all. rewrite H, drop_all. apply app_nil_r.
Qed.

Lemma is_bytes_copy_into dst src :
  is_bytes dst = true -> is_bytes src = true -> is_bytes (copy_into dst src) = true.
Proof.
  intros. unfold copy_into. rewrite is_bytes_app.
  by rewrite is_bytes_take, is_bytes_drop.
Qed.

Lemma string_of_bytes_of_string s : string_of_bytes (bytes_of_string s) = s.
Proof.
  induction s as [|c s IH]; simpl; [done|].
  by rewrite IH, N2Z.id, Ascii.ascii_N_embedding.
Qed.

Lemma bytes_of_string_bytes s : is_bytes (bytes_of_string s) = true.
Proof.
  induction s as [|c s IH]; simpl; [done|]. apply andb_true_iff; split; [|done].
  apply is_u8_spec. pose proof (Ascii.N_ascii_bounded c). lia.
Qed.

Lemma bytes_of_string_of_bytes l :
  is_bytes l = true -> bytes_of_string (string_of_bytes l) = l.
Proof.
  induction l as [|b l IH]; simpl; [done|]. intros H. bools.
  match goal with H : is_u8 b = true |- _ => apply is_u8_spec in H end.
  rewrite IH by done. rewrite Ascii.N_ascii_embedding by lia. f_equal. lia.
Qed.

Lemma length_bytes_of_string s : length (bytes_of_string s) = String.length s.
Proof. induction s; simpl; congruence. Qed.

#[export] Hint Resolve is_u8_wrap is_bytes_zeros is_bytes_take is_bytes_drop
  is_bytes_copy_into bytes_of_string_bytes : bytes.
#[export] Hint Rewrite is_bytes_app length_zeros length_copy_into
  @length_app @length_take @length_drop : bytes.

(** ** Reasoning about stateful code *)

(** Every run of [m], however it ends, relates the state before to the state
    after by [R]. *)
Definition preserves {S A : Type} (R : S -> S -> Prop) (m : st S A) : Prop :=
  forall s o s', m s = (o, s') -> R s s'.

(** Started in [P], [m] ends normally in [Q], and in [E] otherwise. *)
Definition triple {S A : Type} (P : S -> Prop) (m : st S A) (Q : A -> S -> Prop)
  (E : S -> Prop) : Prop :=
  forall s, P s -> match m s with
                   | (Ok a, s') => Q a s'
                   | (_, s') => E s'
                   end.

Section Preserves.
Context {S : Type} (R : S -> S -> Prop) `{!PreOrder R}.

Lemma preserves_ret {A} (a : A) : preserves R (sret a).
Proof. intros s o s' [= <- <-]. reflexivity. Qed.

Lemma preserves_lift {A} (m : outcome A) : preserves R (slift m).
Proof. intros s o s' [= <- <-]. reflexivity. Qed.

Lemma preserves_bind {A B} (m : st S A) (f : A -> st S B) :
  preserves R m -> (forall a, preserves R (f a)) -> preserves R (sbind m f).
Proof.
  intros Hm Hf s o s'. unfold sbind. destruct (m s) as [oa s1] eqn:E.
  pose proof (Hm _ _ _ E). destruct oa; intros H'; simplify_eq; auto.
  etransitivity; [done|]. by eapply Hf.
Qed.

Lemma preserves_try {A} (m : st S A) : preserves R m -> preserves R (stry m).
Proof.
  intros Hm s o s'. unfold stry. destruct (m s) as [oa s1] eqn:E.
  pose proof (Hm _ _ _ E). destruct oa; intros H'; by simplify_eq.
Qed.

Lemma preserves_wrap {A} msg (m : st S A) : preserves R m -> preserves R (swrap msg m).
Proof.
  intros Hm s o s'. unfold swrap. destruct (m s) as [oa s1] eqn:E. intros [= <- <-].
  by eapply Hm.
Qed.

Lemma preserves_warn {A} (m : st S A) : preserves R m -> preserves R (swarn m).
Proof.
  intros Hm s o s'. unfold swarn. destruct (m s) as [oa s1] eqn:E.
  pose proof (Hm _ _ _ E). destruct oa; intros H'; by simplify_eq.
Qed.

Lemma preserves_for {A} (l : list A) (body : A -> st S unit) :
  (forall x, preserves R (body x)) -> preserves R (sfor l body).
Proof.
  intros Hb. induction l as [|x l IH]; cbn [sfor]; [apply preserves_ret|].
  by apply preserves_bind.
Qed.

Lemma preserves_map {A B} (f : A -> st S B) (l : list A) :
  (forall x, preserves R (f x)) -> preserves R (smap f l).
Proof.
  intros Hb. induction l as [|x l IH]; cbn [smap]; [apply preserves_ret|].
  apply preserves_bind; [done|]. intros y. apply preserves_bind; [done|]. intros. apply preserves_ret.
Qed.

Lemma preserves_throw {A} e : preserves R (sthrow e : st S A).
Proof. intros s o s' [= <- <-]. reflexivity. Qed.

End Preserves.

Section Triples.
Context {S : Type}.

Lemma triple_bind {A B} (P : S -> Prop) (m : st S A) (Q : A -> S -> Prop)
  (f : A -> st S B) (R : B -> S -> Prop) (E : S -> Prop) :
  triple P m Q E -> (forall a, triple (Q a) (f a) R E) -> triple P (sbind m f) R E.
Proof.
  intros Hm Hf s Hs. specialize (Hm s Hs). unfold sbind.
  destruct (m s) as [[a| | |] s1]; auto. by apply Hf.
Qed.

Lemma triple_conseq {A} (P P' : S -> Prop) (m : st S A) (Q Q' : A -> S -> Prop)
  (E E' : S -> Prop) :
  triple P' m Q' E' -> (forall s, P s -> P' s) -> (forall a s, Q' a s -> Q a s) ->
  (forall s, E' s -> E s) -> triple P m Q E.
Proof.
  intros Hm HP HQ HE s Hs. specialize (Hm s (HP s Hs)).
  destruct (m s) as [[] ]; auto.
Qed.

Lemma triple_lift {A} (P : S -> Prop) (o : outcome A) (Q : A -> S -> Prop) :
  (forall a s, P s -> o = Ok a -> Q a s) -> triple P (slift o) Q P.
Proof. intros H s Hs. unfold slift. destruct o; auto. Qed.

Lemma triple_ret {A} (P : S -> Prop) (a : A) (Q : A -> S -> Prop) E :
  (forall s, P s -> Q a s) -> triple P (sret a) Q E.
Proof. intros H s Hs. cbn. auto. Qed.

Lemma triple_for {A} (l : list A) (body : A -> st S unit) (P E : S -> Prop) :
  (forall x, x ∈ l -> triple P (body x) (fun _ => P) E) -> triple P (sfor l body) (fun _ => P) E.
Proof.
  induction l as [|x l IH]; intros Hb; cbn [sfor]; [by apply triple_ret|].
  apply (triple_bind _ _ (fun _ => P)); [apply Hb; left|]. intros _. apply IH.
  intros y Hy. apply Hb. by right.
Qed.

End Triples.

(** Started in [P], [m] neither panics nor runs out of fuel: it ends with a value in
    [Q] or with an error in [E]. *)
Definition safe {S A : Type} (P : S -> Prop) (m : st S A) (Q : A -> S -> Prop)
  (E : S -> Prop) : Prop :=
  forall s, P s -> match m s with
                   | (Ok a, s') => Q a s'
                   | (Err _, s') => E s'
                   | _ => False
                   end.

Section Safe.
Context {S : Type}.

Lemma safe_ret {A} (P : S -> Prop) (a : A) (Q : A -> S -> Prop) E :
  (forall s, P s -> Q a s) -> safe P (sret a) Q E.
Proof. intros H s Hs. cbn. auto. Qed.

Lemma safe_bind {A B} (P : S -> Prop) (m : st S A) (Q : A -> S -> Prop)
  (f : A -> st S B) (R : B -> S -> Prop) (E : S -> Prop) :
  safe P m Q E -> (forall a, safe (Q a) (f a) R E) -> safe P (sbind m f) R E.
Proof.
  intros Hm Hf s Hs. specialize (Hm s Hs). unfold sbind.
  destruct (m s) as [[a| | |] s1]; auto. by apply Hf.
Qed.

Lemma safe_seq {A B} (P Q : S -> Prop) (m : st S A) (k : st S B) (R : B -> S -> Prop) E :
  safe P m (fun _ => Q) E -> safe Q k R E -> safe P (sbind m (fun _ => k)) R E.
Proof. intros Hm Hk. by apply (safe_bind P m (fun _ => Q)). Qed.

Lemma safe_conseq {A} (P P' : S -> Prop) (m : st S A) (Q Q' : A -> S -> Prop)
  (E E' : S -> Prop) :
  safe P' m Q' E' -> (forall s, P s -> P' s) -> (forall a s, Q' a s -> Q a s) ->
  (forall s, E' s -> E s) -> safe P m Q E.
Proof.
  intros Hm HP HQ HE s Hs. specialize (Hm s (HP s Hs)).
  destruct (m s) as [[] ]; auto.
Qed.

Lemma safe_wrap {A} P msg (m : st S A) Q E : safe P m Q E -> safe P (swrap msg m) Q E.
Proof. intros Hm s Hs. specialize (Hm s Hs). unfold swrap. destruct (m s) as [[] ]; auto. Qed.

Lemma safe_warn {A} P (m : st S A) (Q : S -> Prop) E :
  safe P m (fun _ => Q) Q -> safe P (swarn m) (fun _ => Q) E.
Proof. intros Hm s Hs. specialize (Hm s Hs). unfold swarn. destruct (m s) as [[] ]; auto. Qed.

Lemma safe_try {A} P (m : st S A) (Q : S -> Prop) E :
  safe P m (fun _ => Q) Q -> safe P (stry m) (fun _ => Q) E.
Proof. intros Hm s Hs. specialize (Hm s Hs). unfold stry. destruct (m s) as [[] ]; auto. Qed.

Lemma safe_for {A} (l : list A) (body : A -> st S unit) (I : S -> Prop) :
  (forall x, x ∈ l -> safe I (body x) (fun _ => I) I) -> safe I (sfor l body) (fun _ => I) I.
Proof.
  induction l as [|x l IH]; intros Hb; cbn [sfor]; [by apply safe_ret|].
  apply (safe_bind _ _ (fun _ => I)); [apply Hb; left|]. intros _. apply IH.
  intros y Hy. apply Hb. by right.
Qed.

(** Safe code, seen from any ending. *)
Lemma safe_triple {A} (P : S -> Prop) (m : st S A) Q E :
  safe P m Q E -> triple P m Q E.
Proof. intros Hm s Hs. specialize (Hm s Hs). by destruct (m s) as [[] ]. Qed.

Lemma safe_run {A} P (m : st S A) Q E s o s' :
  safe P m Q E -> P s -> m s = (o, s') ->
  (exists a, o = Ok a /\ Q a s') \/ (exists e, o = Err e /\ E s').
Proof.
  intros Hm Hs Em. specialize (Hm s Hs). rewrite Em in Hm.
  destruct o; try done; [left|right]; by eexists.
Qed.

End Safe.

(** A call that ends with a value or an error. *)
Definition total {S A : Type} (m : st S A) : Prop :=
  forall s, match (m s).1 with Ok _ | Err _ => True | _ => False end.

Lemma total_safe {S A} (m : st S A) : total m <-> safe (fun _ => True) m (fun _ _ => True) (fun _ => True).
Proof.
  split; intros Hm s; specialize (Hm s); [intros _|specialize (Hm I)]; by destruct (m s) as [[] ].
Qed.

Lemma total_ret {S A} (a : A) : total (S := S) (sret a).
Proof. done. Qed.

Lemma total_bind {S A B} (m : st S A) (f : A -> st S B) :
  total m -> (forall a, total (f a)) -> total (sbind m f).
Proof.
  intros Hm Hf s. specialize (Hm s). unfold sbind. destruct (m s) as [[a| | |] s1]; try done. apply Hf.
Qed.

Lemma total_wrap {S A} msg (m : st S A) : total m -> total (swrap msg m).
Proof. intros Hm s. specialize (Hm s). unfold swrap. by destruct (m s) as [[] ]. Qed.

Lemma total_warn {S A} (m : st S A) : total m -> total (swarn m).
Proof. intros Hm s. specialize (Hm s). unfold swarn. by destruct (m s) as [[] ]. Qed.

Lemma total_for {S A} (l : list A) (body : A -> st S unit) :
  (forall x, total (body x)) -> total (sfor l body).
Proof. intros Hb. induction l as [|x l IH]; cbn [sfor]; [apply total_ret|]. by apply total_bind. Qed.

Lemma total_map {S A B} (f : A -> st S B) l : (forall x, total (f x)) -> total (smap f l).
Proof.
  intros Hf. induction l as [|x l IH]; cbn [smap]; [apply total_ret|].
  apply total_bind; [done|]. intros y. apply total_bind; [done|]. intros. apply total_ret.
Qed.

Create HintDb total.
#[export] Hint Resolve total_ret : total.

(** Walks through calls that cannot panic, with the callees' lemmas in [total]. *)
Ltac total :=
  repeat first
    [ solve [eauto with total nocore]
    | apply total_wrap | apply total_warn
    | apply total_for; intros ? | apply total_map; intros ?
    | apply total_bind; [|intros ?] | case_match ].

Create HintDb preserves.

(** Walks through stateful code, with the callees' lemmas in [preserves]. *)
Ltac preserves :=
  repeat first
    [ solve [eauto with preserves nocore]
    | apply preserves_ret; apply _ | apply preserves_lift; apply _
    | apply preserves_throw; apply _ | apply preserves_try
    | apply preserves_wrap | apply preserves_warn
    | apply preserves_for; [apply _|intros ?] | apply preserves_map; [apply _|intros ?]
    | apply preserves_bind; [apply _| |intros ?]
    | case_match ].
