(* ===== verification/GoBinary.v ===== *)
(** * encoding/binary, io and bytes, as the BMC code uses them

    [binary.Read] and [binary.Write] with [binary.LittleEndian] over fixed-size
    values, [io.ReadFull] and [bytes.Buffer].  A fixed-size Go type is described
    by a [codec]: its size, its encoding and decoding, and which model values are
    values of the type.  [CodecOk] states the laws a codec satisfies; the
    combinators' instances derive them for every struct of the protocol. *)

From S2P Require Import Prelude.

Local Open Scope Z_scope.
Local Open Scope go_scope.

(** ** Little-endian integers *)

Fixpoint le_bytes (n : nat) (z : Z) : list Z :=
  match n with
  | O => []
  | S n' => z mod 256 :: le_bytes n' (z / 256)
  end.

Fixpoint le_value (l : list Z) : Z :=
  match l with
  | [] => 0
  | b :: l' => b + 256 * le_value l'
  end.

(** ** Readers and writers *)

(** [io.ReadFull(buf, make([]byte, n))] on the unread bytes of a [bytes.Buffer]. *)
Definition io_ReadFull (n : nat) (buf : list Z) : outcome (list Z * list Z) :=
  if (n <=? length buf)%nat then Ok (take n buf, drop n buf)
  else match buf with
       | [] => Err EOF
       | _ => Err ErrUnexpectedEOF
       end.

Record codec (A : Type) : Type := Codec {
  c_size : nat;
  c_enc : A -> list Z;
  c_dec : list Z -> A;
  c_wf : A -> bool
}.
Arguments Codec {A}.
Arguments c_size {A}.
Arguments c_enc {A}.
Arguments c_dec {A}.
Arguments c_wf {A}.

(** [binary.Read(buf, binary.LittleEndian, &v)] *)
Definition binary_Read {A : Type} (c : codec A) (buf : list Z) : outcome (A * list Z) :=
  let! (bs, rest) := io_ReadFull (c_size c) buf in Ok (c_dec c bs, rest).

(** [binary.Write(&obuf, binary.LittleEndian, v)]: a [bytes.Buffer] grows, the
    write itself never fails. *)
Definition binary_Write {A : Type} (c : codec A) (obuf : list Z) (a : A) : outcome (list Z) :=
  Ok (obuf ++ c_enc c a).

(** [binary.Write(&obuf, binary.LittleEndian, bs)] for a byte slice. *)
Definition binary_Write_slice (obuf bs : list Z) : outcome (list Z) := Ok (obuf ++ bs).

Definition u8c : codec Z :=
  {| c_size := 1; c_enc := le_bytes 1; c_dec := le_value; c_wf := is_u8 |}.
Definition u16c : codec Z :=
  {| c_size := 2; c_enc := le_bytes 2; c_dec := le_value; c_wf := is_u16 |}.
Definition u32c : codec Z :=
  {| c_size := 4; c_enc := le_bytes 4; c_dec := le_value; c_wf := is_u32 |}.

(** [[n]byte] *)
Definition arrc (n : nat) : codec (list Z) :=
  {| c_size := n; c_enc := fun l => l; c_dec := fun l => l;
     c_wf := fun l => (length l =? n)%nat && is_bytes l |}.

(** Struct fields in order. *)
Definition pairc {A B : Type} (ca : codec A) (cb : codec B) : codec (A * B) :=
  {| c_size := (c_size ca + c_size cb)%nat;
     c_enc := fun p => c_enc ca p.1 ++ c_enc cb p.2;
     c_dec := fun l => (c_dec ca (take (c_size ca) l), c_dec cb (drop (c_size ca) l));
     c_wf := fun p => c_wf ca p.1 && c_wf cb p.2 |}.

(** A struct as the product of its fields. *)
Definition isoc {A B : Type} (from : A -> B) (to : B -> A) (c : codec A) : codec B :=
  {| c_size := c_size c;
     c_enc := fun b => c_enc c (to b);
     c_dec := fun l => from (c_dec c l);
     c_wf := fun b => c_wf c (to b) |}.

Infix "**" := pairc (at level 38, right associativity) : go_scope.

(** ** Laws *)

Class CodecOk {A : Type} (c : codec A) : Prop := {
  enc_length : forall a, c_wf c a = true -> length (c_enc c a) = c_size c;
  enc_is_bytes : forall a, c_wf c a = true -> is_bytes (c_enc c a) = true;
  dec_enc : forall a, c_wf c a = true -> c_dec c (c_enc c a) = a;
  dec_wf : forall l, length l = c_size c -> is_bytes l = true -> c_wf c (c_dec c l) = true;
  enc_dec : forall l, length l = c_size c -> is_bytes l = true -> c_enc c (c_dec c l) = l
}.

Lemma le_bytes_length n z : length (le_bytes n z) = n.
Proof. revert z; induction n; simpl; auto. Qed.

Lemma le_bytes_is_bytes n z : is_bytes (le_bytes n z) = true.
Proof.
  revert z; induction n as [|n IH]; intros z; simpl; [done|].
  rewrite IH, andb_true_r. apply is_u8_spec. dlia.
Qed.

Lemma le_value_bytes n z : 0 <= z < 256 ^ Z.of_nat n -> le_value (le_bytes n z) = z.
Proof.
  revert z; induction n as [|n IH]; intros z Hz; simpl le_bytes; simpl le_value.
  - change (256 ^ Z.of_nat 0) with 1 in Hz. lia.
  - rewrite Nat2Z.inj_succ, Z.pow_succ_r in Hz by lia.
    rewrite IH; [dlia|]. split; [dlia|]. apply Z.div_lt_upper_bound; lia.
Qed.

Lemma le_value_bound l :
  is_bytes l = true -> 0 <= le_value l < 256 ^ Z.of_nat (length l).
Proof.
  induction l as [|b l IH]; cbn [le_value length]; [lia|]. simpl is_bytes. intros H; bools.
  match goal with H : is_u8 b = true |- _ => apply is_u8_spec in H end.
  rewrite Nat2Z.inj_succ, Z.pow_succ_r by lia. specialize (IH ltac:(done)). lia.
Qed.

Lemma le_bytes_value l : is_bytes l = true -> le_bytes (length l) (le_value l) = l.
Proof.
  induction l as [|b l IH]; simpl; [done|]. intros H; bools.
  match goal with H : is_u8 b = true |- _ => apply is_u8_spec in H end.
  f_equal; [dlia|]. replace ((b + 256 * le_value l) / 256) with (le_value l) by dlia. auto.
Qed.

(** The three integer codecs are one lemma. *)
Lemma int_codec_ok n (wf : Z -> bool) :
  (forall z, wf z = true <-> 0 <= z < 256 ^ Z.of_nat n) ->
  CodecOk {| c_size := n; c_enc := le_bytes n; c_dec := le_value; c_wf := wf |}.
Proof.
  intros Hwf. split; cbn [c_size c_enc c_dec c_wf].
  - intros; apply le_bytes_length.
  - intros; apply le_bytes_is_bytes.
  - intros a Ha. by apply le_value_bytes, Hwf.
  - intros l <- Hl. by apply Hwf, le_value_bound.
  - intros l <- Hl. by apply le_bytes_value.
Qed.

#[export] Instance u8c_ok : CodecOk u8c.
Proof. apply int_codec_ok. intros z. apply is_u8_spec. Qed.
#[export] Instance u16c_ok : CodecOk u16c.
Proof. apply int_codec_ok. intros z. apply is_u16_spec. Qed.
#[export] Instance u32c_ok : CodecOk u32c.
Proof. apply int_codec_ok. intros z. apply is_u32_spec. Qed.

#[export] Instance arrc_ok n : CodecOk (arrc n).
Proof.
  split; simpl; intros; bools; try done.
  apply andb_true_iff; split; [by apply Nat.eqb_eq | done].
Qed.

#[export] Instance pairc_ok {A B} (ca : codec A) (cb : codec B) :
  CodecOk ca -> CodecOk cb -> CodecOk (pairc ca cb).
Proof.
  intros Ha Hb. split; cbn [pairc c_size c_enc c_dec c_wf].
  - intros [a b] H; simpl in *; bools. rewrite length_app, !enc_length by done. done.
  - intros [a b] H; simpl in *; bools. by rewrite is_bytes_app, !enc_is_bytes.
  - intros [a b] H; simpl in *; bools.
    rewrite take_app_length', drop_app_length' by (by rewrite enc_length).
    by rewrite !dec_enc.
  - intros l Hl Hb'. simpl.
    rewrite !dec_wf; auto with bytes; rewrite ?length_take, ?length_drop; lia.
  - intros l Hl Hb'. simpl.
    rewrite !enc_dec; auto with bytes; rewrite ?length_take, ?length_drop; try lia.
    apply take_drop.
Qed.

Lemma isoc_ok {A B} (from : A -> B) (to : B -> A) (c : codec A) :
  (forall a, to (from a) = a) -> (forall b, from (to b) = b) ->
  CodecOk c -> CodecOk (isoc from to c).
Proof.
  intros Hft Htf Hc. split; cbn [isoc c_size c_enc c_dec c_wf].
  - intros; by apply enc_length.
  - intros; by apply enc_is_bytes.
  - intros; by rewrite dec_enc.
  - intros; rewrite Hft; by apply dec_wf.
  - intros; rewrite Hft; by apply enc_dec.
Qed.

(** Struct codecs: the two conversions are inverse by case analysis. *)
Ltac solve_struct_codec :=
  apply isoc_ok; [intros; repeat match goal with p : _ * _ |- _ => destruct p end; reflexivity
                 | intros []; reflexivity | typeclasses eauto].

Lemma io_ReadFull_app n bs rest :
  length bs = n -> io_ReadFull n (bs ++ rest) = Ok (bs, rest).
Proof.
  intros <-. unfold io_ReadFull.
  replace (length bs <=? length (bs ++ rest))%nat with true
    by (symmetry; apply Nat.leb_le; rewrite length_app; lia).
  by rewrite take_app_length, drop_app_length.
Qed.

Lemma io_ReadFull_ok n buf bs rest :
  io_ReadFull n buf = Ok (bs, rest) <-> length bs = n /\ buf = bs ++ rest.
Proof.
  split.
  - unfold io_ReadFull. destruct (n <=? length buf)%nat eqn:E; bools.
    + intros [= <- <-]. rewrite length_take, take_drop. split; [lia|done].
    + destruct buf; discriminate.
  - intros [Hn ->]. by apply io_ReadFull_app.
Qed.

Lemma io_ReadFull_err n buf :
  (length buf < n)%nat ->
  io_ReadFull n buf = Err (match buf with [] => EOF | _ => ErrUnexpectedEOF end).
Proof.
  intros H. unfold io_ReadFull. apply Nat.leb_gt in H. rewrite H. by destruct buf.
Qed.

(** Reading back what was written gives the value and leaves the rest. *)
Lemma binary_Read_enc {A} (c : codec A) `{!CodecOk c} a rest :
  c_wf c a = true -> binary_Read c (c_enc c a ++ rest) = Ok (a, rest).
Proof.
  intros Ha. unfold binary_Read. rewrite io_ReadFull_app by (by apply enc_length).
  simpl. by rewrite dec_enc.
Qed.

Lemma binary_Read_ok {A} (c : codec A) `{!CodecOk c} buf a rest :
  is_bytes buf = true -> binary_Read c buf = Ok (a, rest) ->
  c_wf c a = true /\ is_bytes rest = true /\ buf = c_enc c a ++ rest.
Proof.
  intros Hb. unfold binary_Read. intros H.
  apply obind_ok in H as ([bs r] & H1 & H2). simpl in H2. go_inv.
  apply io_ReadFull_ok in H1 as [Hl ->]. rewrite is_bytes_app in Hb. bools.
  by rewrite enc_dec, dec_wf.
Qed.

Lemma binary_Read_short {A} (c : codec A) buf :
  (length buf < c_size c)%nat ->
  binary_Read c buf = Err (match buf with [] => EOF | _ => ErrUnexpectedEOF end).
Proof. intros H. unfold binary_Read. by rewrite io_ReadFull_err. Qed.

Lemma binary_Read_total {A} (c : codec A) buf :
  (c_size c <= length buf)%nat ->
  binary_Read c buf = Ok (c_dec c (take (c_size c) buf), drop (c_size c) buf).
Proof.
  intros H. unfold binary_Read, io_ReadFull. apply Nat.leb_le in H. by rewrite H.
Qed.

Lemma binary_Read_rest {A} (c : codec A) buf a rest :
  binary_Read c buf = Ok (a, rest) -> rest = drop (c_size c) buf.
Proof.
  unfold binary_Read. intros H. apply obind_ok in H as ([bs r] & H1 & H2). simpl in H2. go_inv.
  apply io_ReadFull_ok in H1 as [<- ->]. by rewrite drop_app_length.
Qed.
