(* ===== verification/GoCrypto.v ===== *)
(** * crypto/rand, crypto/hmac, crypto/aes and crypto/cipher

    The primitives of Go's standard library behind the RMCP+ session code.
    [CryptoOps] is the interface the session code is written against (HMAC-SHA1
    and the AES-128 block functions), [CryptoLaws] what the session proofs use of
    it.  The CBC mode, with its panics, is defined here over the interface; Sha1
    and Aes give the standard functions themselves as an instance. *)

From S2P Require Import Prelude.

Local Open Scope Z_scope.
Local Open Scope go_scope.

(** ** crypto/rand *)

(** The system's entropy: the bytes it will deliver, in order, and the reads
    that fail. *)
Record entropy : Type := Entropy {
  ent_byte : nat -> Z;
  ent_fail : nat -> option error
}.

(** [n] bytes from position [pos]. *)
Definition ent_bytes (e : entropy) (pos n : nat) : list Z :=
  map (fun i => u8 (ent_byte e i)) (seq pos n).

(** [rand.Read(make([]byte, n))]; the state is the position in the stream. *)
Definition rand_Read (e : entropy) (n : nat) : st nat (list Z) :=
  fun pos => match ent_fail e pos with
             | Some err => (Err err, S pos)
             | None => (Ok (ent_bytes e pos n), (pos + n)%nat)
             end.

(** The entropy source as a part of a larger state. *)
Class Rand (W : Type) : Type := { Rand_Read : nat -> st W (list Z) }.

(** A read that succeeds fills the buffer. *)
Class RandLaws (W : Type) `{!Rand W} : Type := {
  Rand_Read_law : forall n w l w', Rand_Read n w = (Ok l, w') -> length l = n /\ is_bytes l = true;
  Rand_Read_safe : forall n w, match (Rand_Read n w).1 with Ok _ | Err _ => True | _ => False end
}.

(** ** encoding/hex *)

(** One digit of [hextable]. *)
Definition hex_digit (n : Z) : Z := if n <? 10 then 48 + n else 87 + n.

(** [hex.Encode] *)
Definition hex_Encode (l : list Z) : list Z :=
  flat_map (fun b => [hex_digit (b / 16); hex_digit (b mod 16)]) l.

(** ** HMAC-SHA1 and AES-128 *)

Definition sha1_Size : nat := 20.
Definition aes_BlockSize : nat := 16.

Class CryptoOps : Type := {
  (** [mac := hmac.New(sha1.New, key); mac.Write(msg); mac.Sum(nil)] *)
  hmac_sha1 : list Z -> list Z -> list Z;
  (** [aes.NewCipher(key)] with a 16-byte key: the block's Encrypt and Decrypt. *)
  aes_encrypt : list Z -> list Z -> list Z;
  aes_decrypt : list Z -> list Z -> list Z
}.

Class CryptoLaws `{!CryptoOps} : Prop := {
  hmac_length : forall k m, length (hmac_sha1 k m) = sha1_Size;
  hmac_bytes : forall k m, is_bytes (hmac_sha1 k m) = true;
  aes_encrypt_length : forall k b, length k = aes_BlockSize -> length b = aes_BlockSize ->
    length (aes_encrypt k b) = aes_BlockSize;
  aes_encrypt_bytes : forall k b, is_bytes k = true -> is_bytes b = true ->
    is_bytes (aes_encrypt k b) = true;
  aes_decrypt_length : forall k b, length k = aes_BlockSize -> length b = aes_BlockSize ->
    length (aes_decrypt k b) = aes_BlockSize;
  aes_decrypt_bytes : forall k b, is_bytes k = true -> is_bytes b = true ->
    is_bytes (aes_decrypt k b) = true;
  aes_decrypt_encrypt : forall k b, length k = aes_BlockSize -> is_bytes k = true ->
    length b = aes_BlockSize -> is_bytes b = true -> aes_decrypt k (aes_encrypt k b) = b
}.

Definition xor_bytes (a b : list Z) : list Z := zip_with Z.lxor a b.

Section CBC.
Context `{!CryptoOps}.

Fixpoint cbc_encrypt (n : nat) (key prev src : list Z) : list Z :=
  match n with
  | O => []
  | S n' => let c := aes_encrypt key (xor_bytes (take aes_BlockSize src) prev) in
            c ++ cbc_encrypt n' key c (drop aes_BlockSize src)
  end.

Fixpoint cbc_decrypt (n : nat) (key prev src : list Z) : list Z :=
  match n with
  | O => []
  | S n' => let c := take aes_BlockSize src in
            xor_bytes (aes_decrypt key c) prev ++ cbc_decrypt n' key c (drop aes_BlockSize src)
  end.

(** The checks [CryptBlocks(dst, src)] makes before it works. *)
Definition crypt_blocks_checks (dst_len : nat) (src : list Z) : outcome unit :=
  if negb (length src mod aes_BlockSize =? 0)%nat
  then Panic (PanicMsg "crypto/cipher: input not full blocks")
  else if (dst_len <? length src)%nat
  then Panic (PanicMsg "crypto/cipher: output smaller than input")
  else Ok tt.

(** [cipher.NewCBCEncrypter(block, iv).CryptBlocks(dst, src)] with [dst] fresh
    and zero: what [dst] holds afterwards. *)
Definition CBCEncrypter_CryptBlocks (key iv : list Z) (dst_len : nat) (src : list Z)
  : outcome (list Z) :=
  let! _ := crypt_blocks_checks dst_len src in
  Ok (copy_into (zeros dst_len) (cbc_encrypt (length src / aes_BlockSize) key iv src)).

(** [cipher.NewCBCDecrypter(block, iv).CryptBlocks(dst, src)] *)
Definition CBCDecrypter_CryptBlocks (key iv : list Z) (dst_len : nat) (src : list Z)
  : outcome (list Z) :=
  let! _ := crypt_blocks_checks dst_len src in
  Ok (copy_into (zeros dst_len) (cbc_decrypt (length src / aes_BlockSize) key iv src)).

End CBC.

(** ** Lemmas *)

Lemma ent_bytes_length e pos n : length (ent_bytes e pos n) = n.
Proof. unfold ent_bytes. by rewrite length_map, length_seq. Qed.

Lemma ent_bytes_bytes e pos n : is_bytes (ent_bytes e pos n) = true.
Proof.
  unfold ent_bytes, is_bytes. apply forallb_forall. intros x Hx.
  apply in_map_iff in Hx as (i & <- & _). apply is_u8_wrap.
Qed.

Lemma rand_Read_ok e n pos l pos' :
  rand_Read e n pos = (Ok l, pos') ->
  length l = n /\ is_bytes l = true /\ l = ent_bytes e pos n /\ pos' = (pos + n)%nat.
Proof.
  unfold rand_Read. destruct (ent_fail e pos); [done|]. intros [= <- <-].
  rewrite ent_bytes_length, ent_bytes_bytes. done.
Qed.

Lemma hex_Encode_length l : length (hex_Encode l) = (2 * length l)%nat.
Proof. induction l; simpl; lia. Qed.

Definition is_hex_digit (z : Z) : bool :=
  ((48 <=? z) && (z <=? 57)) || ((97 <=? z) && (z <=? 102)).

Lemma hex_digit_hex n : 0 <= n < 16 -> is_hex_digit (hex_digit n) = true.
Proof.
  intros H. unfold hex_digit, is_hex_digit.
  destruct (Z.ltb_spec n 10);
    rewrite orb_true_iff, !andb_true_iff, !Z.leb_le; lia.
Qed.

Lemma hex_Encode_hex l :
  is_bytes l = true -> forallb is_hex_digit (hex_Encode l) = true.
Proof.
  induction l as [|b l IH]; simpl; [done|]. intros H; bools.
  match goal with H : is_u8 b = true |- _ => apply is_u8_spec in H end.
  rewrite !hex_digit_hex by dlia. simpl. auto.
Qed.

Lemma hex_digits_bytes l : forallb is_hex_digit l = true -> is_bytes l = true.
Proof.
  unfold is_bytes. rewrite !forallb_forall. intros H x Hx. specialize (H x Hx).
  unfold is_hex_digit in H. apply is_u8_spec. apply orb_true_iff in H as [H|H]; bools; lia.
Qed.

Lemma take_flat_map_hex n l :
  take (2 * n) (hex_Encode l) = hex_Encode (take n l).
Proof.
  revert l; induction n as [|n IH]; intros [|b l]; try done.
  replace (2 * S n)%nat with (S (S (2 * n))) by lia. simpl. f_equal. f_equal. apply IH.
Qed.

Lemma lxor_u8 a b : is_u8 a = true -> is_u8 b = true -> is_u8 (Z.lxor a b) = true.
Proof.
  rewrite !is_u8_spec. intros Ha Hb.
  assert (Hx : 0 <= Z.lxor a b) by (apply Z.lxor_nonneg; lia). split; [done|].
  destruct (Z.eq_dec (Z.lxor a b) 0) as [->|Hne]; [lia|].
  apply (Z.log2_lt_pow2 _ 8); [lia|].
  eapply Z.le_lt_trans; [apply Z.log2_lxor; lia|].
  assert (Hl : forall c, 0 <= c < 256 -> Z.log2 c < 8).
  { intros c Hc. destruct (Z.eq_dec c 0) as [->|]; [simpl; lia|].
    apply Z.log2_lt_pow2; simpl; lia. }
  pose proof (Hl a Ha). pose proof (Hl b Hb). lia.
Qed.

Lemma xor_bytes_length a b : length a = length b -> length (xor_bytes a b) = length a.
Proof. intros H. unfold xor_bytes. rewrite length_zip_with_l_eq; done. Qed.

Lemma xor_bytes_bytes a b :
  is_bytes a = true -> is_bytes b = true -> is_bytes (xor_bytes a b) = true.
Proof.
  revert b; induction a as [|x a IH]; intros [|y b]; simpl; try done.
  intros Ha Hb; bools. by rewrite lxor_u8, IH.
Qed.

Lemma xor_bytes_cancel a b : length a = length b -> xor_bytes (xor_bytes a b) b = a.
Proof.
  revert b; induction a as [|x a IH]; intros [|y b]; simpl; try done.
  intros [= H]. unfold xor_bytes in *. simpl. f_equal; [|by apply IH].
  by rewrite Z.lxor_assoc, Z.lxor_nilpotent, Z.lxor_0_r.
Qed.

#[export] Hint Resolve lxor_u8 xor_bytes_bytes hmac_bytes ent_bytes_bytes : bytes.

Section CBCLemmas.
Context `{!CryptoOps} {L : CryptoLaws}.

Lemma cbc_encrypt_wf n key prev src :
  length key = aes_BlockSize -> is_bytes key = true ->
  length prev = aes_BlockSize -> is_bytes prev = true ->
  length src = (n * aes_BlockSize)%nat -> is_bytes src = true ->
  length (cbc_encrypt n key prev src) = (n * aes_BlockSize)%nat /\
  is_bytes (cbc_encrypt n key prev src) = true.
Proof.
  intros Hk Hkb. revert prev src.
  induction n as [|n IH]; intros prev src Hp Hpb Hs Hsb; [done|]. cbn [cbc_encrypt].
  assert (Hx : length (xor_bytes (take aes_BlockSize src) prev) = aes_BlockSize).
  { rewrite xor_bytes_length; rewrite length_take; unfold aes_BlockSize in *; lia. }
  assert (Hxb : is_bytes (xor_bytes (take aes_BlockSize src) prev) = true) by auto with bytes.
  destruct (IH (aes_encrypt key (xor_bytes (take aes_BlockSize src) prev)) (drop aes_BlockSize src))
    as [IHl IHb]; auto using aes_encrypt_length, aes_encrypt_bytes with bytes.
  { rewrite length_drop. unfold aes_BlockSize in *; lia. }
  rewrite length_app, is_bytes_app, aes_encrypt_length, IHl, IHb, aes_encrypt_bytes by done.
  done.
Qed.

Lemma cbc_decrypt_wf n key prev src :
  length key = aes_BlockSize -> is_bytes key = true ->
  length prev = aes_BlockSize -> is_bytes prev = true ->
  length src = (n * aes_BlockSize)%nat -> is_bytes src = true ->
  length (cbc_decrypt n key prev src) = (n * aes_BlockSize)%nat /\
  is_bytes (cbc_decrypt n key prev src) = true.
Proof.
  intros Hk Hkb. revert prev src.
  induction n as [|n IH]; intros prev src Hp Hpb Hs Hsb; [done|]. cbn [cbc_decrypt].
  assert (Hc : length (take aes_BlockSize src) = aes_BlockSize)
    by (rewrite length_take; unfold aes_BlockSize in *; lia).
  assert (Hd : length (aes_decrypt key (take aes_BlockSize src)) = aes_BlockSize)
    by (by apply aes_decrypt_length).
  destruct (IH (take aes_BlockSize src) (drop aes_BlockSize src)) as [IHl IHb];
    auto with bytes.
  { rewrite length_drop. unfold aes_BlockSize in *; lia. }
  rewrite length_app, is_bytes_app, xor_bytes_length, Hd, IHl, IHb by congruence.
  rewrite xor_bytes_bytes; auto using aes_decrypt_bytes with bytes.
Qed.

(** CBC decryption inverts CBC encryption, for any number of blocks. *)
Lemma cbc_decrypt_encrypt n key prev src :
  length key = aes_BlockSize -> is_bytes key = true ->
  length prev = aes_BlockSize -> is_bytes prev = true ->
  length src = (n * aes_BlockSize)%nat -> is_bytes src = true ->
  cbc_decrypt n key prev (cbc_encrypt n key prev src) = src.
Proof.
  intros Hk Hkb. revert prev src.
  induction n as [|n IH]; intros prev src Hp Hpb Hs Hsb.
  { destruct src; done. }
  cbn [cbc_encrypt cbc_decrypt].
  set (x := xor_bytes (take aes_BlockSize src) prev).
  assert (Hx : length x = aes_BlockSize).
  { unfold x. rewrite xor_bytes_length; rewrite length_take; unfold aes_BlockSize in *; lia. }
  assert (Hxb : is_bytes x = true) by (unfold x; auto with bytes).
  assert (Hc : length (aes_encrypt key x) = aes_BlockSize) by (by apply aes_encrypt_length).
  rewrite take_app_length', drop_app_length' by done.
  rewrite aes_decrypt_encrypt by done. unfold x at 1.
  rewrite xor_bytes_cancel by (rewrite length_take; unfold aes_BlockSize in *; lia).
  rewrite IH; auto using aes_encrypt_bytes with bytes.
  - apply take_drop.
  - rewrite length_drop. unfold aes_BlockSize in *; lia.
Qed.

Lemma crypt_blocks_checks_ok dst_len n src :
  length src = (n * aes_BlockSize)%nat -> (length src <= dst_len)%nat ->
  crypt_blocks_checks dst_len src = Ok tt.
Proof.
  intros Hs Hd. unfold crypt_blocks_checks. rewrite Hs, Nat.Div0.mod_mul. simpl.
  destruct (Nat.ltb_spec dst_len (n * aes_BlockSize)); [lia|done].
Qed.

Lemma crypt_blocks_checks_short dst_len n src :
  length src = (n * aes_BlockSize)%nat -> (dst_len < length src)%nat ->
  crypt_blocks_checks dst_len src = Panic (PanicMsg "crypto/cipher: output smaller than input").
Proof.
  intros Hs Hd. unfold crypt_blocks_checks. rewrite Hs, Nat.Div0.mod_mul. simpl.
  destruct (Nat.ltb_spec dst_len (n * aes_BlockSize)); [done|lia].
Qed.

End CBCLemmas.
