(* ===== verification/Sha1.v ===== *)
(** * SHA-1 and HMAC-SHA1 (FIPS 180-4, RFC 2104)

    What [crypto/sha1] and [crypto/hmac] compute, as executable functions on byte
    lists; checked against the published test vectors at the end. *)

From S2P Require Import Prelude GoCrypto.

Local Open Scope Z_scope.

Definition rotl32 (n x : Z) : Z := u32 (Z.lor (Z.shiftl x n) (Z.shiftr x (32 - n))).

(** Big-endian words. *)
Definition be32 (w : Z) : list Z :=
  [u8 (Z.shiftr w 24); u8 (Z.shiftr w 16); u8 (Z.shiftr w 8); u8 w].

Definition be64 (w : Z) : list Z := be32 (u32 (Z.shiftr w 32)) ++ be32 (u32 w).

Definition word_of (l : list Z) : Z :=
  match l with
  | [a; b; c; d] => a * 2 ^ 24 + b * 2 ^ 16 + c * 2 ^ 8 + d
  | _ => 0
  end.

Fixpoint words_of (n : nat) (l : list Z) : list Z :=
  match n with
  | O => []
  | S n' => word_of (take 4 l) :: words_of n' (drop 4 l)
  end.

(** Message padding: 0x80, zeros, the bit length. *)
Definition sha1_pad (m : list Z) : list Z :=
  let k := ((119 - length m mod 64) mod 64)%nat in
  m ++ [128] ++ zeros k ++ be64 (8 * Z.of_nat (length m)).

(** The message schedule, newest word first. *)
Fixpoint sha1_schedule (n : nat) (ws : list Z) : list Z :=
  match n with
  | O => ws
  | S n' =>
      let w := rotl32 1 (Z.lxor (Z.lxor (nth 2 ws 0) (nth 7 ws 0))
                                (Z.lxor (nth 13 ws 0) (nth 15 ws 0))) in
      sha1_schedule n' (w :: ws)
  end.

Definition sha1_state : Type := (Z * Z * Z * Z * Z)%type.

Definition sha1_init : sha1_state :=
  (0x67452301, 0xEFCDAB89, 0x98BADCFE, 0x10325476, 0xC3D2E1F0).

Definition not32 (x : Z) : Z := Z.lxor x 0xFFFFFFFF.

Definition sha1_f (t : nat) (b c d : Z) : Z * Z :=
  if (t <? 20)%nat then (Z.lor (Z.land b c) (Z.land (not32 b) d), 0x5A827999)
  else if (t <? 40)%nat then (Z.lxor (Z.lxor b c) d, 0x6ED9EBA1)
  else if (t <? 60)%nat
  then (Z.lor (Z.lor (Z.land b c) (Z.land b d)) (Z.land c d), 0x8F1BBCDC)
  else (Z.lxor (Z.lxor b c) d, 0xCA62C1D6).

Fixpoint sha1_rounds (t : nat) (ws : list Z) (s : sha1_state) : sha1_state :=
  match ws with
  | [] => s
  | w :: ws' =>
      let '(a, b, c, d, e) := s in
      let (f, k) := sha1_f t b c d in
      let tmp := u32 (rotl32 5 a + f + e + k + w) in
      sha1_rounds (S t) ws' (tmp, a, rotl32 30 b, c, d)
  end.

Definition sha1_block (s : sha1_state) (blk : list Z) : sha1_state :=
  let ws := rev (sha1_schedule 64 (rev (words_of 16 blk))) in
  let '(a, b, c, d, e) := sha1_rounds 0 ws s in
  let '(h0, h1, h2, h3, h4) := s in
  (u32 (h0 + a), u32 (h1 + b), u32 (h2 + c), u32 (h3 + d), u32 (h4 + e)).

Fixpoint sha1_blocks (n : nat) (s : sha1_state) (m : list Z) : sha1_state :=
  match n with
  | O => s
  | S n' => sha1_blocks n' (sha1_block s (take 64 m)) (drop 64 m)
  end.

(** [sha1.Sum(m)] *)
Definition sha1 (m : list Z) : list Z :=
  let p := sha1_pad m in
  let '(a, b, c, d, e) := sha1_blocks (length p / 64) sha1_init p in
  be32 a ++ be32 b ++ be32 c ++ be32 d ++ be32 e.

(** The key of RFC 2104: hashed when longer than a block, then zero-filled. *)
Definition hmac_key (key : list Z) : list Z :=
  let k := if (64 <? length key)%nat then sha1 key else key in
  k ++ zeros (64 - length k).

Definition hmac (key m : list Z) : list Z :=
  let k := hmac_key key in
  sha1 (map (Z.lxor 0x5c) k ++ sha1 (map (Z.lxor 0x36) k ++ m)).

Lemma be32_bytes w : is_bytes (be32 w) = true.
Proof. unfold be32, is_bytes. cbn [forallb]. by rewrite !is_u8_wrap. Qed.

Lemma sha1_length m : length (sha1 m) = 20%nat.
Proof. unfold sha1. destruct (sha1_blocks _ _ _) as [[[[a b] c] d] e]. reflexivity. Qed.

Lemma sha1_bytes m : is_bytes (sha1 m) = true.
Proof.
  unfold sha1. destruct (sha1_blocks _ _ _) as [[[[a b] c] d] e].
  by rewrite !is_bytes_app, !be32_bytes.
Qed.

(** FIPS 180: SHA-1 of the three-letter message abc. *)
Example sha1_abc :
  sha1 (bytes_of_string "abc") =
  [0xa9; 0x99; 0x3e; 0x36; 0x47; 0x06; 0x81; 0x6a; 0xba; 0x3e;
   0x25; 0x71; 0x78; 0x50; 0xc2; 0x6c; 0x9c; 0xd0; 0xd8; 0x9d].
Proof. vm_compute. reflexivity. Qed.

(** RFC 2202, test case 2. *)
Example hmac_jefe :
  hmac (bytes_of_string "Jefe") (bytes_of_string "what do ya want for nothing?") =
  [0xef; 0xfc; 0xdf; 0x6a; 0xe5; 0xeb; 0x2f; 0xa2; 0xd2; 0x74;
   0x16; 0xd5; 0xf1; 0x84; 0xdf; 0x9c; 0x25; 0x9a; 0x7c; 0x79].
Proof. vm_compute. reflexivity. Qed.

(** RFC 2202, test case 6: a key longer than the block. *)
Example hmac_long_key :
  hmac (replicate 80 0xaa) (bytes_of_string "Test Using Larger Than Block-Size Key - Hash Key First") =
  [0xaa; 0x4a; 0xe5; 0xe1; 0x52; 0x72; 0xd0; 0x0e; 0x95; 0x70;
   0x56; 0x37; 0xce; 0x8a; 0x3b; 0x55; 0xed; 0x40; 0x21; 0x12].
Proof. vm_compute. reflexivity. Qed.
