(* ===== verification/Sha256.v ===== *)
(** * SHA-256 (FIPS 180-4)

    What [crypto/sha256] computes, as an executable function on byte lists; checked
    against published test vectors at the end. *)

From S2P Require Import Prelude GoCrypto Sha1.

Local Open Scope Z_scope.

Definition rotr32 (n x : Z) : Z := u32 (Z.lor (Z.shiftr x n) (Z.shiftl x (32 - n))).

Definition xor3 (a b c : Z) : Z := Z.lxor (Z.lxor a b) c.

Definition big_sigma0 (x : Z) : Z := xor3 (rotr32 2 x) (rotr32 13 x) (rotr32 22 x).
Definition big_sigma1 (x : Z) : Z := xor3 (rotr32 6 x) (rotr32 11 x) (rotr32 25 x).
Definition small_sigma0 (x : Z) : Z := xor3 (rotr32 7 x) (rotr32 18 x) (Z.shiftr x 3).
Definition small_sigma1 (x : Z) : Z := xor3 (rotr32 17 x) (rotr32 19 x) (Z.shiftr x 10).

(** ** Constants

    The round constants and the initial state are the first 32 bits of the fractional
    parts of the cube roots and square roots of the first primes. *)

Definition is_prime (n : Z) : bool := forallb (fun d => negb (n mod d =? 0)) (seqZ 2 (n - 2)).

Definition first_primes (n : nat) : list Z := take n (filter (fun p => is_prime p = true) (seqZ 2 310)).

(** The integer cube root, bit by bit from the highest. *)
Fixpoint cube_root (bits : nat) (acc n : Z) : Z :=
  match bits with
  | O => acc
  | S b => let acc' := acc + 2 ^ Z.of_nat b in
           cube_root b (if acc' * acc' * acc' <=? n then acc' else acc) n
  end.

Definition sha256_k : list Z :=
  Eval vm_compute in map (fun p => u32 (cube_root 36 0 (p * 2 ^ 96))) (first_primes 64).

Definition sqrt_words : list Z :=
  Eval vm_compute in map (fun p => u32 (Z.sqrt (p * 2 ^ 64))) (first_primes 8).

(** The message schedule, newest word first. *)
Fixpoint sha256_schedule (n : nat) (ws : list Z) : list Z :=
  match n with
  | O => ws
  | S n' =>
      let w := u32 (small_sigma1 (nth 1 ws 0) + nth 6 ws 0 + small_sigma0 (nth 14 ws 0) +
                    nth 15 ws 0) in
      sha256_schedule n' (w :: ws)
  end.

Definition sha256_state : Type := (Z * Z * Z * Z * Z * Z * Z * Z)%type.

Definition sha256_init : sha256_state :=
  let word i := nth i sqrt_words 0 in
  (word 0%nat, word 1%nat, word 2%nat, word 3%nat, word 4%nat, word 5%nat, word 6%nat, word 7%nat).

Definition sha256_round (s : sha256_state) (kw : Z * Z) : sha256_state :=
  let '(a, b, c, d, e, f, g, h) := s in
  let ch := Z.lxor (Z.land e f) (Z.land (not32 e) g) in
  let maj := xor3 (Z.land a b) (Z.land a c) (Z.land b c) in
  let t1 := h + big_sigma1 e + ch + kw.1 + kw.2 in
  let t2 := big_sigma0 a + maj in
  (u32 (t1 + t2), a, b, c, u32 (d + t1), e, f, g).

Definition sha256_block (s : sha256_state) (blk : list Z) : sha256_state :=
  let ws := rev (sha256_schedule 48 (rev (words_of 16 blk))) in
  let '(a, b, c, d, e, f, g, h) := fold_left sha256_round (combine sha256_k ws) s in
  let '(h0, h1, h2, h3, h4, h5, h6, h7) := s in
  (u32 (h0 + a), u32 (h1 + b), u32 (h2 + c), u32 (h3 + d),
   u32 (h4 + e), u32 (h5 + f), u32 (h6 + g), u32 (h7 + h)).

Fixpoint sha256_blocks (n : nat) (s : sha256_state) (m : list Z) : sha256_state :=
  match n with
  | O => s
  | S n' => sha256_blocks n' (sha256_block s (take 64 m)) (drop 64 m)
  end.

(** [h := sha256.New(); h.Write(m); h.Sum(nil)]; the padding is that of SHA-1. *)
Definition sha256 (m : list Z) : list Z :=
  let p := sha1_pad m in
  let '(a, b, c, d, e, f, g, h) := sha256_blocks (length p / 64) sha256_init p in
  be32 a ++ be32 b ++ be32 c ++ be32 d ++ be32 e ++ be32 f ++ be32 g ++ be32 h.

Lemma sha256_length m : length (sha256 m) = 32%nat.
Proof. unfold sha256. destruct (sha256_blocks _ _ _) as [[[[[[[? ?] ?] ?] ?] ?] ?] ?]. reflexivity. Qed.

Lemma sha256_bytes m : is_bytes (sha256 m) = true.
Proof.
  unfold sha256. destruct (sha256_blocks _ _ _) as [[[[[[[? ?] ?] ?] ?] ?] ?] ?].
  by rewrite !is_bytes_app, !be32_bytes.
Qed.

(** FIPS 180: the one-block message abc. *)
Example sha256_abc :
  string_of_bytes (hex_Encode (sha256 (bytes_of_string "abc"))) =
  "ba7816bf8f01cfea414140de5dae2223b00361a396177a9cb410ff61f20015ad".
Proof. vm_compute. reflexivity. Qed.

(** FIPS 180: the two-block message. *)
Example sha256_two_blocks :
  string_of_bytes (hex_Encode (sha256 (bytes_of_string
    "abcdbcdecdefdefgefghfghighijhijkijkljklmklmnlmnomnopnopq"))) =
  "248d6a61d20638b8e5c026930c3e6039a33ce45964ff2167f6ecedd419db06c1".
Proof. vm_compute. reflexivity. Qed.
