(* ===== verification/Aes.v ===== *)
(** * AES-128 (FIPS 197)

    The block functions behind [aes.NewCipher] with a 16-byte key.  The state is
    the 16 bytes of a block, column by column.  Decryption inverts encryption for
    every key and block ([aes128_decrypt_encrypt]), which with Sha1 gives the
    [CryptoOps] instance used by the executable examples. *)

From S2P Require Import Prelude GoCrypto Sha1.
From Stdlib Require Import Btauto.

Local Open Scope Z_scope.

Definition sbox_table : list Z :=
  [99; 124; 119; 123; 242; 107; 111; 197; 48; 1; 103; 43; 254; 215; 171; 118;
   202; 130; 201; 125; 250; 89; 71; 240; 173; 212; 162; 175; 156; 164; 114; 192;
   183; 253; 147; 38; 54; 63; 247; 204; 52; 165; 229; 241; 113; 216; 49; 21;
   4; 199; 35; 195; 24; 150; 5; 154; 7; 18; 128; 226; 235; 39; 178; 117;
   9; 131; 44; 26; 27; 110; 90; 160; 82; 59; 214; 179; 41; 227; 47; 132;
   83; 209; 0; 237; 32; 252; 177; 91; 106; 203; 190; 57; 74; 76; 88; 207;
   208; 239; 170; 251; 67; 77; 51; 133; 69; 249; 2; 127; 80; 60; 159; 168;
   81; 163; 64; 143; 146; 157; 56; 245; 188; 182; 218; 33; 16; 255; 243; 210;
   205; 12; 19; 236; 95; 151; 68; 23; 196; 167; 126; 61; 100; 93; 25; 115;
   96; 129; 79; 220; 34; 42; 144; 136; 70; 238; 184; 20; 222; 94; 11; 219;
   224; 50; 58; 10; 73; 6; 36; 92; 194; 211; 172; 98; 145; 149; 228; 121;
   231; 200; 55; 109; 141; 213; 78; 169; 108; 86; 244; 234; 101; 122; 174; 8;
   186; 120; 37; 46; 28; 166; 180; 198; 232; 221; 116; 31; 75; 189; 139; 138;
   112; 62; 181; 102; 72; 3; 246; 14; 97; 53; 87; 185; 134; 193; 29; 158;
   225; 248; 152; 17; 105; 217; 142; 148; 155; 30; 135; 233; 206; 85; 40; 223;
   140; 161; 137; 13; 191; 230; 66; 104; 65; 153; 45; 15; 176; 84; 187; 22].

Definition inv_sbox_table : list Z :=
  [82; 9; 106; 213; 48; 54; 165; 56; 191; 64; 163; 158; 129; 243; 215; 251;
   124; 227; 57; 130; 155; 47; 255; 135; 52; 142; 67; 68; 196; 222; 233; 203;
   84; 123; 148; 50; 166; 194; 35; 61; 238; 76; 149; 11; 66; 250; 195; 78;
   8; 46; 161; 102; 40; 217; 36; 178; 118; 91; 162; 73; 109; 139; 209; 37;
   114; 248; 246; 100; 134; 104; 152; 22; 212; 164; 92; 204; 93; 101; 182; 146;
   108; 112; 72; 80; 253; 237; 185; 218; 94; 21; 70; 87; 167; 141; 157; 132;
   144; 216; 171; 0; 140; 188; 211; 10; 247; 228; 88; 5; 184; 179; 69; 6;
   208; 44; 30; 143; 202; 63; 15; 2; 193; 175; 189; 3; 1; 19; 138; 107;
   58; 145; 17; 65; 79; 103; 220; 234; 151; 242; 207; 206; 240; 180; 230; 115;
   150; 172; 116; 34; 231; 173; 53; 133; 226; 249; 55; 232; 28; 117; 223; 110;
   71; 241; 26; 113; 29; 41; 197; 137; 111; 183; 98; 14; 170; 24; 190; 27;
   252; 86; 62; 75; 198; 210; 121; 32; 154; 219; 192; 254; 120; 205; 90; 244;
   31; 221; 168; 51; 136; 7; 199; 49; 177; 18; 16; 89; 39; 128; 236; 95;
   96; 81; 127; 169; 25; 181; 74; 13; 45; 229; 122; 159; 147; 201; 156; 239;
   160; 224; 59; 77; 174; 42; 245; 176; 200; 235; 187; 60; 131; 83; 153; 97;
   23; 43; 4; 126; 186; 119; 214; 38; 225; 105; 20; 99; 85; 33; 12; 125].

Definition sbox (b : Z) : Z := nth (Z.to_nat b) sbox_table 0.
Definition inv_sbox (b : Z) : Z := nth (Z.to_nat b) inv_sbox_table 0.

(** Multiplication by x in GF(2^8). *)
Definition xtime (x : Z) : Z :=
  Z.lxor (Z.land (Z.shiftl x 1) 255) (if Z.testbit x 7 then 27 else 0).

Definition mix_column (a b c d : Z) : list Z :=
  [ Z.lxor (Z.lxor (xtime a) (Z.lxor (xtime b) b)) (Z.lxor c d);
    Z.lxor (Z.lxor a (xtime b)) (Z.lxor (Z.lxor (xtime c) c) d);
    Z.lxor (Z.lxor a b) (Z.lxor (xtime c) (Z.lxor (xtime d) d));
    Z.lxor (Z.lxor (Z.lxor (xtime a) a) b) (Z.lxor c (xtime d)) ].

Definition mul9 (x : Z) : Z := Z.lxor (xtime (xtime (xtime x))) x.
Definition mul11 (x : Z) : Z := Z.lxor (Z.lxor (xtime (xtime (xtime x))) (xtime x)) x.
Definition mul13 (x : Z) : Z := Z.lxor (Z.lxor (xtime (xtime (xtime x))) (xtime (xtime x))) x.
Definition mul14 (x : Z) : Z :=
  Z.lxor (Z.lxor (xtime (xtime (xtime x))) (xtime (xtime x))) (xtime x).

Definition inv_mix_column (a b c d : Z) : list Z :=
  [ Z.lxor (Z.lxor (mul14 a) (mul11 b)) (Z.lxor (mul13 c) (mul9 d));
    Z.lxor (Z.lxor (mul9 a) (mul14 b)) (Z.lxor (mul11 c) (mul13 d));
    Z.lxor (Z.lxor (mul13 a) (mul9 b)) (Z.lxor (mul14 c) (mul11 d));
    Z.lxor (Z.lxor (mul11 a) (mul13 b)) (Z.lxor (mul9 c) (mul14 d)) ].

Definition on_columns (f : Z -> Z -> Z -> Z -> list Z) (s : list Z) : list Z :=
  match s with
  | [a0; a1; a2; a3; b0; b1; b2; b3; c0; c1; c2; c3; d0; d1; d2; d3] =>
      f a0 a1 a2 a3 ++ f b0 b1 b2 b3 ++ f c0 c1 c2 c3 ++ f d0 d1 d2 d3
  | _ => zeros aes_BlockSize
  end.

Definition shift_rows (s : list Z) : list Z :=
  match s with
  | [a0; a1; a2; a3; b0; b1; b2; b3; c0; c1; c2; c3; d0; d1; d2; d3] =>
      [a0; b1; c2; d3; b0; c1; d2; a3; c0; d1; a2; b3; d0; a1; b2; c3]
  | _ => zeros aes_BlockSize
  end.

Definition inv_shift_rows (s : list Z) : list Z :=
  match s with
  | [a0; b1; c2; d3; b0; c1; d2; a3; c0; d1; a2; b3; d0; a1; b2; c3] =>
      [a0; a1; a2; a3; b0; b1; b2; b3; c0; c1; c2; c3; d0; d1; d2; d3]
  | _ => zeros aes_BlockSize
  end.

(** Key expansion: one round key from the previous one. *)
Definition next_round_key (rcon : Z) (k : list Z) : list Z :=
  match k with
  | [a0; a1; a2; a3; b0; b1; b2; b3; c0; c1; c2; c3; d0; d1; d2; d3] =>
      let w0 := [Z.lxor a0 (Z.lxor (sbox d1) rcon); Z.lxor a1 (sbox d2);
                 Z.lxor a2 (sbox d3); Z.lxor a3 (sbox d0)] in
      let w1 := xor_bytes w0 [b0; b1; b2; b3] in
      let w2 := xor_bytes w1 [c0; c1; c2; c3] in
      let w3 := xor_bytes w2 [d0; d1; d2; d3] in
      w0 ++ w1 ++ w2 ++ w3
  | _ => zeros aes_BlockSize
  end.

Fixpoint round_keys (rcons : list Z) (k : list Z) : list (list Z) :=
  match rcons with
  | [] => []
  | r :: rs => let k' := next_round_key r k in k' :: round_keys rs k'
  end.

(** The nine middle round keys and the last one. *)
Definition middle_keys (k : list Z) : list (list Z) :=
  round_keys [1; 2; 4; 8; 16; 32; 64; 128; 27] k.
Definition last_key (k : list Z) : list Z :=
  next_round_key 54 (List.last (middle_keys k) k).

Definition enc_round (s rk : list Z) : list Z :=
  xor_bytes (on_columns mix_column (shift_rows (map sbox s))) rk.
Definition dec_round (s rk : list Z) : list Z :=
  map inv_sbox (inv_shift_rows (on_columns inv_mix_column (xor_bytes s rk))).

Definition aes128_encrypt (key blk : list Z) : list Z :=
  let s := fold_left enc_round (middle_keys key) (xor_bytes blk key) in
  xor_bytes (shift_rows (map sbox s)) (last_key key).

Definition aes128_decrypt (key blk : list Z) : list Z :=
  let s := map inv_sbox (inv_shift_rows (xor_bytes blk (last_key key))) in
  xor_bytes (fold_left dec_round (reverse (middle_keys key)) s) key.

(** ** The state's shape *)

Definition is_block (s : list Z) : Prop := length s = aes_BlockSize /\ is_bytes s = true.

Ltac block16 s H :=
  let Hl := fresh in
  destruct H as [Hl ?];
  do 16 (destruct s as [|? s]; [discriminate Hl|]);
  destruct s; [clear Hl | discriminate Hl].

Lemma byte_cases (P : Z -> bool) :
  forallb (fun n => P (Z.of_nat n)) (seq 0 256) = true ->
  forall b, is_u8 b = true -> P b = true.
Proof.
  intros H b Hb. apply is_u8_spec in Hb. rewrite forallb_forall in H.
  specialize (H (Z.to_nat b)). rewrite Z2Nat.id in H by lia. apply H, in_seq. lia.
Qed.

Lemma sbox_u8 b : is_u8 b = true -> is_u8 (sbox b) = true.
Proof. apply (byte_cases (fun b => is_u8 (sbox b))). vm_compute. reflexivity. Qed.

Lemma inv_sbox_u8 b : is_u8 b = true -> is_u8 (inv_sbox b) = true.
Proof. apply (byte_cases (fun b => is_u8 (inv_sbox b))). vm_compute. reflexivity. Qed.

Lemma inv_sbox_sbox b : is_u8 b = true -> inv_sbox (sbox b) = b.
Proof.
  intros H. apply Z.eqb_eq. revert b H.
  apply (byte_cases (fun b => inv_sbox (sbox b) =? b)). vm_compute. reflexivity.
Qed.

Lemma land_255_u8 x : is_u8 (Z.land x 255) = true.
Proof.
  change 255 with (Z.ones 8). rewrite Z.land_ones by lia. apply is_u8_wrap.
Qed.

Lemma xtime_u8 x : is_u8 (xtime x) = true.
Proof.
  unfold xtime. apply lxor_u8; [apply land_255_u8|]. by destruct (Z.testbit x 7).
Qed.

(** Multiplication by x is linear. *)
Lemma xtime_lxor x y : xtime (Z.lxor x y) = Z.lxor (xtime x) (xtime y).
Proof.
  unfold xtime. rewrite Z.lxor_spec, Z.shiftl_lxor.
  apply Z.bits_inj'. intros n Hn.
  repeat rewrite ?Z.lxor_spec, ?Z.land_spec.
  destruct (Z.testbit x 7), (Z.testbit y 7); simpl xorb; cbv iota;
    rewrite ?Z.testbit_0_l; btauto.
Qed.

Ltac xor_ring :=
  repeat rewrite ?xtime_lxor; apply Z.bits_inj'; intros ? _;
  repeat rewrite Z.lxor_spec; btauto.

Lemma inv_mix_mix a b c d :
  match mix_column a b c d with
  | [p; q; r; s] => inv_mix_column p q r s = [a; b; c; d]
  | _ => False
  end.
Proof.
  cbv [mix_column inv_mix_column mul9 mul11 mul13 mul14].
  repeat match goal with |- _ :: _ = _ :: _ => f_equal end; xor_ring.
Qed.

Lemma mix_column_bytes a b c d :
  is_bytes [a; b; c; d] = true -> is_bytes (mix_column a b c d) = true.
Proof.
  unfold is_bytes, mix_column. cbn [forallb]. intros H; bools.
  rewrite ?andb_true_iff; split_and?; repeat first [apply xtime_u8 | apply lxor_u8]; auto.
Qed.

Lemma inv_mix_column_bytes a b c d :
  is_bytes [a; b; c; d] = true -> is_bytes (inv_mix_column a b c d) = true.
Proof.
  unfold is_bytes, inv_mix_column, mul9, mul11, mul13, mul14. cbn [forallb]. intros H; bools.
  rewrite ?andb_true_iff; split_and?; repeat first [apply xtime_u8 | apply lxor_u8]; auto.
Qed.

Lemma on_columns_inverse s : is_block s ->
  on_columns inv_mix_column (on_columns mix_column s) = s.
Proof.
  intros H. block16 s H. cbn [on_columns].
  repeat match goal with
         | |- context [mix_column ?a ?b ?c ?d] =>
             let H := fresh in
             pose proof (inv_mix_mix a b c d) as H;
             remember (mix_column a b c d) as l eqn:Heq;
             unfold mix_column in Heq; subst l; cbv iota beta in H
         end.
  cbn [app on_columns].
  repeat match goal with H : inv_mix_column _ _ _ _ = _ |- _ => rewrite H; clear H end.
  reflexivity.
Qed.

(** ** Every layer keeps the shape *)

Lemma map_sbox_block s : is_block s -> is_block (map sbox s).
Proof.
  intros [Hl Hb]. split; [by rewrite length_map|].
  unfold is_bytes in *. rewrite forallb_forall in *. intros x Hx.
  apply in_map_iff in Hx as (y & <- & Hy). by apply sbox_u8, Hb.
Qed.

Lemma map_inv_sbox_block s : is_block s -> is_block (map inv_sbox s).
Proof.
  intros [Hl Hb]. split; [by rewrite length_map|].
  unfold is_bytes in *. rewrite forallb_forall in *. intros x Hx.
  apply in_map_iff in Hx as (y & <- & Hy). by apply inv_sbox_u8, Hb.
Qed.

Ltac block_bytes :=
  unfold is_bytes in *; cbn [forallb] in *; bools;
  rewrite ?andb_true_iff; split_and?; auto.

Lemma shift_rows_block s : is_block s -> is_block (shift_rows s).
Proof. intros H. block16 s H. split; [done|]. cbn [shift_rows]. block_bytes. Qed.

Lemma inv_shift_rows_block s : is_block s -> is_block (inv_shift_rows s).
Proof. intros H. block16 s H. split; [done|]. cbn [inv_shift_rows]. block_bytes. Qed.

Lemma inv_shift_shift s : is_block s -> inv_shift_rows (shift_rows s) = s.
Proof. intros H. block16 s H. done. Qed.

Lemma on_columns_block f s :
  (forall a b c d, length (f a b c d) = 4%nat) ->
  (forall a b c d, is_bytes [a; b; c; d] = true -> is_bytes (f a b c d) = true) ->
  is_block s -> is_block (on_columns f s).
Proof.
  intros Hl Hf H. block16 s H. split; cbn [on_columns].
  - by rewrite !length_app, !Hl.
  - rewrite !is_bytes_app, !Hf; try done; block_bytes.
Qed.

Lemma xor_block a b : is_block a -> is_block b -> is_block (xor_bytes a b).
Proof.
  intros [Ha Hab] [Hb Hbb]. split; [rewrite xor_bytes_length; congruence|].
  auto with bytes.
Qed.

Lemma zeros_block : is_block (zeros aes_BlockSize).
Proof. done. Qed.

Lemma next_round_key_block r k : is_u8 r = true -> is_block k -> is_block (next_round_key r k).
Proof.
  intros Hr H. block16 k H. split; [done|]. cbn [next_round_key].
  assert (forall x, is_u8 x = true -> is_u8 (sbox x) = true) by apply sbox_u8.
  unfold is_bytes in *; cbn [forallb app xor_bytes zip_with] in *; bools.
  rewrite ?andb_true_iff; split_and?; repeat apply lxor_u8; auto.
Qed.

Lemma round_keys_blocks rs k :
  is_bytes rs = true -> is_block k -> Forall is_block (round_keys rs k).
Proof.
  revert k; induction rs as [|r rs IH]; intros k; cbn [round_keys is_bytes forallb]; [done|].
  intros H Hk. apply andb_prop in H as [? ?].
  constructor; [|apply IH; [done|]]; by apply next_round_key_block.
Qed.

Lemma middle_keys_blocks k : is_block k -> Forall is_block (middle_keys k).
Proof. intros H. by apply round_keys_blocks. Qed.

Lemma Forall_last_default {A} (P : A -> Prop) l d :
  Forall P l -> P d -> P (List.last l d).
Proof. induction 1 as [|x l Hx Hl IH]; [done|]. destruct l; simpl in *; auto. Qed.

Lemma last_key_block k : is_block k -> is_block (last_key k).
Proof.
  intros H. apply next_round_key_block; [done|].
  by apply Forall_last_default; [apply middle_keys_blocks|].
Qed.

Lemma enc_round_block s rk : is_block s -> is_block rk -> is_block (enc_round s rk).
Proof.
  intros Hs Hk. apply xor_block; [|done]. apply on_columns_block; [done| |].
  - apply mix_column_bytes.
  - by apply shift_rows_block, map_sbox_block.
Qed.

Lemma dec_round_block s rk : is_block s -> is_block rk -> is_block (dec_round s rk).
Proof.
  intros Hs Hk. apply map_inv_sbox_block, inv_shift_rows_block, on_columns_block; [done| |].
  - apply inv_mix_column_bytes.
  - by apply xor_block.
Qed.

Lemma fold_block (f : list Z -> list Z -> list Z) ks s :
  (forall s rk, is_block s -> is_block rk -> is_block (f s rk)) ->
  Forall is_block ks -> is_block s -> is_block (fold_left f ks s).
Proof.
  intros Hf Hks. revert s. induction Hks as [|k ks Hk Hks IH]; intros s Hs; [done|].
  apply IH; auto.
Qed.

(** ** Inversion *)

Lemma inv_sub_sub s : is_bytes s = true -> map inv_sbox (map sbox s) = s.
Proof.
  unfold is_bytes. induction s as [|b s IH]; simpl; [done|]. intros H; bools.
  by rewrite inv_sbox_sbox, IH.
Qed.

Lemma dec_enc_round s rk : is_block s -> is_block rk -> dec_round (enc_round s rk) rk = s.
Proof.
  intros Hs Hk. unfold dec_round, enc_round.
  assert (Hr : is_block (shift_rows (map sbox s))) by (by apply shift_rows_block, map_sbox_block).
  rewrite xor_bytes_cancel, on_columns_inverse, inv_shift_shift, inv_sub_sub; auto.
  - apply Hs.
  - by apply map_sbox_block.
  - destruct (on_columns_block mix_column _ (fun _ _ _ _ => eq_refl) mix_column_bytes Hr) as [-> _].
    symmetry. apply Hk.
Qed.

Lemma fold_dec_enc ks s : Forall is_block ks -> is_block s ->
  fold_left dec_round (reverse ks) (fold_left enc_round ks s) = s.
Proof.
  intros Hks. revert s. induction Hks as [|k ks Hk Hks IH]; intros s Hs; [done|].
  rewrite reverse_cons, fold_left_app. cbn [fold_left].
  rewrite IH by (by apply enc_round_block). by apply dec_enc_round.
Qed.

Lemma aes128_encrypt_block k b : is_block k -> is_block b -> is_block (aes128_encrypt k b).
Proof.
  intros Hk Hb. apply xor_block; [|by apply last_key_block].
  apply shift_rows_block, map_sbox_block, fold_block; auto using enc_round_block,
    middle_keys_blocks, xor_block.
Qed.

Lemma aes128_decrypt_block k b : is_block k -> is_block b -> is_block (aes128_decrypt k b).
Proof.
  intros Hk Hb. apply xor_block; [|done].
  apply fold_block; auto using dec_round_block.
  - by apply Forall_reverse, middle_keys_blocks.
  - apply map_inv_sbox_block, inv_shift_rows_block, xor_block; auto using last_key_block.
Qed.

Lemma aes128_decrypt_encrypt k b :
  is_block k -> is_block b -> aes128_decrypt k (aes128_encrypt k b) = b.
Proof.
  intros Hk Hb. unfold aes128_decrypt, aes128_encrypt.
  assert (Hs : is_block (fold_left enc_round (middle_keys k) (xor_bytes b k)))
    by (apply fold_block; auto using enc_round_block, middle_keys_blocks, xor_block).
  assert (Hr : is_block (shift_rows (map sbox (fold_left enc_round (middle_keys k) (xor_bytes b k)))))
    by (by apply shift_rows_block, map_sbox_block).
  rewrite xor_bytes_cancel, inv_shift_shift, inv_sub_sub, fold_dec_enc.
  - apply xor_bytes_cancel. destruct Hk, Hb; congruence.
  - by apply middle_keys_blocks.
  - by apply xor_block.
  - apply Hs.
  - by apply map_sbox_block.
  - destruct Hr, (last_key_block k Hk); congruence.
Qed.

(** FIPS 197, appendix B. *)
Example aes128_fips197 :
  aes128_encrypt
    [0x2b; 0x7e; 0x15; 0x16; 0x28; 0xae; 0xd2; 0xa6; 0xab; 0xf7; 0x15; 0x88; 0x09; 0xcf; 0x4f; 0x3c]
    [0x32; 0x43; 0xf6; 0xa8; 0x88; 0x5a; 0x30; 0x8d; 0x31; 0x31; 0x98; 0xa2; 0xe0; 0x37; 0x07; 0x34]
  = [0x39; 0x25; 0x84; 0x1d; 0x02; 0xdc; 0x09; 0xfb; 0xdc; 0x11; 0x85; 0x97; 0x19; 0x6a; 0x0b; 0x32].
Proof. vm_compute. reflexivity. Qed.

(** ** The instance *)

(** Only the block functions on blocks are specified; [go_aes] fixes the rest. *)
Definition on_block (f : list Z -> list Z -> list Z) (k b : list Z) : list Z :=
  if ((length k =? aes_BlockSize) && (length b =? aes_BlockSize))%nat && is_bytes k && is_bytes b
  then f k b else zeros aes_BlockSize.

#[export] Instance go_crypto : CryptoOps := {|
  hmac_sha1 := hmac;
  aes_encrypt := on_block aes128_encrypt;
  aes_decrypt := on_block aes128_decrypt
|}.

Lemma on_block_block f k b :
  (forall k b, is_block k -> is_block b -> is_block (f k b)) -> is_block (on_block f k b).
Proof.
  intros Hf. unfold on_block.
  destruct (_ && _ && _) eqn:E; [|apply zeros_block]. bools. by apply Hf.
Qed.

Lemma on_block_eq f k b : is_block k -> is_block b -> on_block f k b = f k b.
Proof.
  intros [Hk Hkb] [Hb Hbb]. unfold on_block. by rewrite Hk, Hb, Hkb, Hbb.
Qed.

#[export] Instance go_crypto_laws : CryptoLaws.
Proof.
  split; cbn [go_crypto hmac_sha1 aes_encrypt aes_decrypt]; intros.
  - apply sha1_length.
  - apply sha1_bytes.
  - apply (on_block_block _ k b aes128_encrypt_block).
  - apply (on_block_block _ k b aes128_encrypt_block).
  - apply (on_block_block _ k b aes128_decrypt_block).
  - apply (on_block_block _ k b aes128_decrypt_block).
  - assert (is_block k) by done. assert (is_block b) by done.
    rewrite (on_block_eq aes128_encrypt), on_block_eq by auto using aes128_encrypt_block.
    by apply aes128_decrypt_encrypt.
Qed.
