(* ===== verification/GoPath.v ===== *)
(** * Paths (path/filepath) and the paths of a run (vm/runtime.go)

    [filepath.Clean] and [filepath.Join] on Unix, the directories of a [Runtime] and
    the paths it gives the files and sockets of a node. *)

From S2P Require Import Prelude.

Local Open Scope Z_scope.
Local Open Scope go_scope.

(** ** path/filepath *)

Definition slash : Ascii.ascii := Ascii.Ascii true true true true false true false false.

(** The elements between slashes. *)
Fixpoint split_slash (s : string) : list string :=
  match s with
  | EmptyString => [""]
  | String c s' =>
      if bool_decide (c = slash) then "" :: split_slash s'
      else match split_slash s' with
           | e :: es => String c e :: es
           | [] => [String c ""]
           end
  end.

Fixpoint join_slash (es : list string) : string :=
  match es with
  | [] => ""
  | [e] => e
  | e :: es' => e +:+ String slash (join_slash es')
  end.

Definition rooted (s : string) : bool :=
  match s with
  | EmptyString => false
  | String c _ => bool_decide (c = slash)
  end.

(** One element on the stack of elements kept so far, the last one first. *)
Definition clean_step (r : bool) (stack : list string) (e : string) : list string :=
  if bool_decide (e = "") || bool_decide (e = ".") then stack
  else if bool_decide (e = "..") then
    match stack with
    | top :: stack' => if bool_decide (top = "..") then ".." :: stack else stack'
    | [] => if r then [] else [".."]
    end
  else e :: stack.

Definition clean_elems (r : bool) (es : list string) : list string :=
  reverse (fold_left (clean_step r) es []).

Definition Clean (path : string) : string :=
  match rooted path, clean_elems (rooted path) (split_slash path) with
  | true, es => String slash (join_slash es)
  | false, [] => "."
  | false, es => join_slash es
  end.

(** [strings.Join(elem[i:], "/")] for the first non-empty element. *)
Fixpoint Join (elems : list string) : string :=
  match elems with
  | [] => ""
  | e :: es => if bool_decide (e = "") then Join es else Clean (join_slash elems)
  end.

(** ** Runtime *)

(** util.Cache: a directory. *)
Record Cache : Type := NewCache { cache_dir : string }.

Record Runtime : Type := {
  Force : bool;
  Graphic : bool;
  RunDir : string;
  DataDir : string;
  ListenAddr : string;
  ImageCache : Cache
}.

Definition socketPath (r : Runtime) (host : string) : string := Join [RunDir r; host +:+ ".socket"].
Definition qmpSocketPath (r : Runtime) (host : string) : string := Join [RunDir r; host +:+ ".qmp"].
Definition guestSocketPath (r : Runtime) (host : string) : string :=
  Join [RunDir r; host +:+ ".guest"].
Definition nvramPath (r : Runtime) (host : string) : string :=
  Join [DataDir r; "nvram"; host +:+ ".fd"].
Definition swtpmSocketDirPath (r : Runtime) (host : string) : string := Join [RunDir r; host].
Definition swtpmSocketPath (r : Runtime) (host : string) : string :=
  Join [RunDir r; host; "swtpm.socket"].

(** ** Lemmas on paths *)

(** A path element: a file name. *)
Definition plain (e : string) : bool :=
  bool_decide (split_slash e = [e]) &&
  negb (bool_decide (e = "")) && negb (bool_decide (e = ".")) && negb (bool_decide (e = "..")).

Example clean_ex1 : Clean "/a/b/../c//./d/" = "/a/c/d". Proof. reflexivity. Qed.
Example clean_ex2 : Clean "../../a/.." = "../..". Proof. reflexivity. Qed.
Example clean_ex3 : Clean "/.." = "/". Proof. reflexivity. Qed.
Example clean_ex4 : Join ["run/"; "boot-0.qmp"] = "run/boot-0.qmp". Proof. reflexivity. Qed.
Example clean_ex5 : Join [""; ""] = "". Proof. reflexivity. Qed.

Lemma split_slash_nonempty s : split_slash s <> [].
Proof. destruct s; cbn; [done|]. case_bool_decide; [done|]. by destruct (split_slash s). Qed.

Lemma split_slash_app a b : split_slash (a +:+ String slash b) = split_slash a ++ split_slash b.
Proof.
  induction a as [|c a IH]; [reflexivity|].
  change (String c a +:+ String slash b) with (String c (a +:+ String slash b)).
  cbn [split_slash]. rewrite IH. case_bool_decide; [done|].
  pose proof (split_slash_nonempty a). by destruct (split_slash a).
Qed.

Lemma join_slash_snoc es x : es <> [] -> join_slash (es ++ [x]) = join_slash es +:+ String slash x.
Proof.
  induction es as [|e [|e' es] IH]; intros H; [done|reflexivity|].
  change (join_slash ((e :: e' :: es) ++ [x])) with (e +:+ String slash (join_slash ((e' :: es) ++ [x]))).
  rewrite IH by done.
  change (join_slash (e :: e' :: es)) with (e +:+ String slash (join_slash (e' :: es))).
  generalize (join_slash (e' :: es)). clear. intros s. induction e as [|c e IH]; [done|].
  exact (f_equal (String c) IH).
Qed.

Lemma rooted_app a b : a <> "" -> rooted (a +:+ b) = rooted a.
Proof. by destruct a. Qed.

Lemma plain_split e : plain e = true -> split_slash e = [e].
Proof. unfold plain. intros H. bools. by apply bool_decide_eq_true in H. Qed.

Lemma plain_rooted e : plain e = true -> rooted e = false.
Proof.
  intros H. pose proof (plain_split e H) as E. destruct e as [|c e]; [done|].
  cbn in E. case_bool_decide as Hc; [by pose proof (split_slash_nonempty e)|].
  by apply bool_decide_eq_false.
Qed.

Lemma clean_step_plain r stack e : plain e = true -> clean_step r stack e = e :: stack.
Proof.
  unfold plain, clean_step. intros H. bools. repeat case_bool_decide; done.
Qed.

Lemma clean_elems_snoc r es x :
  plain x = true -> clean_elems r (es ++ [x]) = clean_elems r es ++ [x].
Proof.
  intros Hx. unfold clean_elems. rewrite fold_left_app. cbn [fold_left].
  by rewrite clean_step_plain, reverse_cons by done.
Qed.

(** What [Clean] puts before the last element of a path in directory [d]. *)
Definition dir_prefix (d : string) : string :=
  match rooted d, clean_elems (rooted d) (split_slash d) with
  | true, [] => "/"
  | true, es => String slash (join_slash es) +:+ "/"
  | false, [] => ""
  | false, es => join_slash es +:+ "/"
  end.

Lemma string_app_nil_r (s : string) : s +:+ "" = s.
Proof. induction s as [|a s IH]; [done|]. change (String a s +:+ "") with (String a (s +:+ "")). by rewrite IH. Qed.

Lemma string_app_assoc (a b c : string) : (a +:+ b) +:+ c = a +:+ b +:+ c.
Proof. induction a as [|x a IH]; [done|]. exact (f_equal (String x) IH). Qed.

Lemma Clean_in_dir d x :
  d <> "" -> plain x = true -> Clean (d +:+ String slash x) = dir_prefix d +:+ x.
Proof.
  intros Hd Hx. unfold Clean, dir_prefix.
  rewrite rooted_app, split_slash_app, (plain_split x Hx), clean_elems_snoc by done.
  destruct (rooted d), (clean_elems _ (split_slash d)) as [|e es] eqn:E; cbn [app].
  - done.
  - change (e :: es ++ [x]) with ((e :: es) ++ [x]). rewrite join_slash_snoc by done.
    cbn. by rewrite string_app_assoc.
  - done.
  - change (e :: es ++ [x]) with ((e :: es) ++ [x]). rewrite join_slash_snoc by done.
    destruct es; by rewrite string_app_assoc.
Qed.

Lemma Clean_plain x : plain x = true -> Clean x = x.
Proof.
  intros Hx. unfold Clean. rewrite plain_rooted, plain_split by done.
  unfold clean_elems. cbn [fold_left]. by rewrite clean_step_plain.
Qed.

(** The directory part of [Join] of a path that ends with a file name. *)
Fixpoint join_prefix (es : list string) : string :=
  match es with
  | [] => ""
  | e :: es' => if bool_decide (e = "") then join_prefix es' else dir_prefix (join_slash es)
  end.

Lemma join_slash_nonempty e es : e <> "" -> join_slash (e :: es) <> "".
Proof. destruct e as [|c e]; [done|]. by destruct es. Qed.

Lemma Join_snoc es x : plain x = true -> Join (es ++ [x]) = join_prefix es +:+ x.
Proof.
  intros Hx. induction es as [|e es IH].
  - cbn. rewrite bool_decide_false by (intros ->; done). by apply Clean_plain.
  - cbn [app Join join_prefix]. case_bool_decide; [done|].
    change (e :: es ++ [x]) with ((e :: es) ++ [x]). rewrite join_slash_snoc by done.
    apply Clean_in_dir; [by apply join_slash_nonempty|done].
Qed.

(** ** The paths of different nodes *)

Lemma bytes_of_string_app a b :
  bytes_of_string (a +:+ b) = bytes_of_string a ++ bytes_of_string b.
Proof. induction a as [|c a IH]; [done|]. exact (f_equal (cons _) IH). Qed.

(** Endings of the same length: equal strings have equal endings. *)
Lemma ending_eq (a b s t : string) :
  String.length s = String.length t -> a +:+ s = b +:+ t -> bytes_of_string s = bytes_of_string t.
Proof.
  intros Hl E. apply (f_equal bytes_of_string) in E. rewrite !bytes_of_string_app in E.
  apply app_inj_2 in E; [by destruct E|].
  assert (Hb : forall u, length (bytes_of_string u) = String.length u).
  { induction u; cbn; congruence. }
  by rewrite !Hb.
Qed.

Lemma string_app_inj_r (a b s : string) : a +:+ s = b +:+ s -> a = b.
Proof.
  revert b. induction a as [|c a IH]; intros [|c' b] E; [done| | |].
  - apply (f_equal String.length) in E. exfalso. revert E.
    change ("" +:+ s) with s. change (String c' b +:+ s) with (String c' (b +:+ s)).
    assert (Hl : String.length (b +:+ s) = (String.length b + String.length s)%nat).
    { clear. induction b; [done|]. exact (f_equal S IHb). }
    cbn. rewrite Hl. lia.
  - apply (f_equal String.length) in E. exfalso. revert E.
    change ("" +:+ s) with s. change (String c a +:+ s) with (String c (a +:+ s)).
    assert (Hl : String.length (a +:+ s) = (String.length a + String.length s)%nat).
    { clear. induction a; [done|]. exact (f_equal S IHa). }
    cbn. rewrite Hl. lia.
  - injection E as -> E. f_equal. by apply IH.
Qed.

(** A node name: a non-empty string without slashes. *)
Definition node_name (h : string) : bool := plain h.

(** Appending an extension to a node name gives a file name. *)
Lemma plain_ext h ext :
  node_name h = true -> plain ext = true -> (2 <= String.length ext)%nat -> plain (h +:+ ext) = true.
Proof.
  intros Hh He Hl. pose proof (plain_split h Hh) as Sh. pose proof (plain_split ext He) as Se.
  assert (Ha : split_slash (h +:+ ext) = [h +:+ ext]).
  { clear -Sh Se. revert Sh. induction h as [|c h IH]; intros Sh; [done|].
    change (String c h +:+ ext) with (String c (h +:+ ext)). cbn [split_slash] in Sh |- *.
    case_bool_decide; [by pose proof (split_slash_nonempty h)|].
    rewrite IH; [done|]. pose proof (split_slash_nonempty h).
    destruct (split_slash h); [done|]. by injection Sh as -> ->. }
  unfold plain. rewrite Ha, bool_decide_true by done.
  destruct h as [|c h]; [done|]. change (String c h +:+ ext) with (String c (h +:+ ext)).
  assert (Hlen : (2 <= String.length (h +:+ ext))%nat).
  { clear -Hl. induction h; [done|]. change (String a h +:+ ext) with (String a (h +:+ ext)).
    cbn. lia. }
  rewrite !bool_decide_false; [done|..]; intros [= -> E]; rewrite E in Hlen; cbn in Hlen; lia.
Qed.

Section NodePaths.
Context (r : Runtime) (h1 h2 : string).
Hypothesis (H1 : node_name h1 = true) (H2 : node_name h2 = true).

Lemma Join_run_inj es x y :
  plain x = true -> plain y = true -> Join (es ++ [x]) = Join (es ++ [y]) <-> x = y.
Proof.
  intros Hx Hy. rewrite !Join_snoc by done. split; [apply (inj _)|by intros ->].
Qed.

(** Two files of the nodes, with extensions [e1] and [e2], in the same directory. *)
Lemma node_files es e1 e2 :
  plain e1 = true -> plain e2 = true ->
  (2 <= String.length e1)%nat -> (2 <= String.length e2)%nat ->
  Join (es ++ [h1 +:+ e1]) = Join (es ++ [h2 +:+ e2]) <-> h1 +:+ e1 = h2 +:+ e2.
Proof. intros. apply Join_run_inj; by apply plain_ext. Qed.

Lemma node_files_same es e :
  plain e = true -> (2 <= String.length e)%nat ->
  Join (es ++ [h1 +:+ e]) = Join (es ++ [h2 +:+ e]) <-> h1 = h2.
Proof.
  intros. rewrite node_files by done. split; [apply string_app_inj_r|by intros ->].
Qed.

(** Extensions whose last three characters differ. *)
Lemma node_files_differ es e1 e2 a1 t1 a2 t2 :
  plain e1 = true -> plain e2 = true ->
  (2 <= String.length e1)%nat -> (2 <= String.length e2)%nat ->
  e1 = a1 +:+ t1 -> e2 = a2 +:+ t2 -> String.length t1 = String.length t2 ->
  bytes_of_string t1 <> bytes_of_string t2 ->
  Join (es ++ [h1 +:+ e1]) <> Join (es ++ [h2 +:+ e2]).
Proof.
  intros He1 He2 L1 L2 -> -> Hl Hne E. apply node_files in E; [|done..].
  rewrite <- !string_app_assoc in E. by apply (ending_eq _ _ _ _ Hl) in E.
Qed.

End NodePaths.

(** ** Paths below a directory *)

(** [p] is [d] or below it. *)
Definition under (d p : string) : bool := String.eqb p d || String.prefix (d +:+ "/") p.

Lemma split_slash_cons c s : split_slash (String c s) = [String c s] -> c <> slash /\ split_slash s = [s].
Proof.
  cbn. case_bool_decide as Hc; [by intros [=]|]. pose proof (split_slash_nonempty s) as Hs.
  destruct (split_slash s) as [|e es]; [done|]. intros [= -> ->]. done.
Qed.

Lemma prefix_app (a b c : string) : String.prefix (a +:+ b) (a +:+ c) = String.prefix b c.
Proof.
  induction a as [|x a IH]; [done|]. change (String.prefix (String x (a +:+ b)) (String x (a +:+ c)) =
    String.prefix b c). cbn [String.prefix]. destruct (Ascii.ascii_dec x x); [done|congruence].
Qed.

(** A file name is not below anything. *)
Lemma no_prefix_of_plain a b : split_slash b = [b] -> String.prefix (a +:+ "/") b = false.
Proof.
  revert b. induction a as [|x a IH]; intros [|y b] Hb; try done.
  - change (String.prefix (String slash "") (String y b) = false).
    apply split_slash_cons in Hb as [Hy _]. cbn [String.prefix]. destruct (Ascii.ascii_dec slash y); [congruence|done].
  - change (String.prefix (String x (a +:+ "/")) (String y b) = false). cbn [String.prefix].
    apply split_slash_cons in Hb as [_ Hb]. destruct (Ascii.ascii_dec x y); [by apply IH|done].
Qed.

(** Two directories with a common path below them are the same. *)
Lemma prefix_same_dir a b rest :
  split_slash a = [a] -> split_slash b = [b] ->
  String.prefix (a +:+ "/") (b +:+ String slash rest) = true -> a = b.
Proof.
  revert b. induction a as [|x a IH]; intros [|y b] Ha Hb; [done| | |].
  - change (String.prefix (String slash "") (String y (b +:+ String slash rest)) = true -> "" = String y b).
    apply split_slash_cons in Hb as [Hy _]. cbn [String.prefix]. destruct (Ascii.ascii_dec slash y); [congruence|done].
  - change (String.prefix (String x (a +:+ "/")) (String slash rest) = true -> String x a = "").
    apply split_slash_cons in Ha as [Hx _]. cbn [String.prefix]. destruct (Ascii.ascii_dec x slash); [congruence|done].
  - change (String.prefix (String x (a +:+ "/")) (String y (b +:+ String slash rest)) = true ->
      String x a = String y b).
    apply split_slash_cons in Ha as [_ Ha], Hb as [_ Hb]. cbn [String.prefix].
    destruct (Ascii.ascii_dec x y) as [->|]; [|done]. intros Hp. f_equal. by apply IH.
Qed.

Lemma append_dir (j x : string) : (j +:+ String slash x) +:+ "/" = (j +:+ "/") +:+ x +:+ "/".
Proof. by rewrite !string_app_assoc. Qed.

Lemma dir_prefix_in d x :
  d <> "" -> plain x = true -> dir_prefix (d +:+ String slash x) = dir_prefix d +:+ x +:+ "/".
Proof.
  intros Hd Hx. unfold dir_prefix.
  rewrite rooted_app, split_slash_app, (plain_split x Hx), clean_elems_snoc by done.
  destruct (rooted d), (clean_elems _ (split_slash d)) as [|e es] eqn:E; cbn [app]; try done.
  - change (e :: es ++ [x]) with ((e :: es) ++ [x]). rewrite join_slash_snoc by done.
    destruct es; apply (append_dir (String slash _)).
  - change (e :: es ++ [x]) with ((e :: es) ++ [x]). rewrite join_slash_snoc by done.
    destruct es; apply append_dir.
Qed.

(** A file [x] in the directory of a node. *)
Lemma Join_in_node d h x :
  plain h = true -> plain x = true -> Join [d; h; x] = join_prefix [d] +:+ h +:+ String slash x.
Proof.
  intros Hh Hx. change [d; h; x] with ([d; h] ++ [x]). rewrite Join_snoc by done. cbn [join_prefix].
  assert (Hn : h <> "") by (intros ->; done). case_bool_decide as Hd.
  - rewrite bool_decide_false by done. cbn [join_slash].
    assert (E : dir_prefix h = h +:+ "/").
    { unfold dir_prefix. rewrite plain_rooted, plain_split by done.
      unfold clean_elems. cbn [fold_left]. by rewrite clean_step_plain. }
    rewrite E. by rewrite string_app_assoc.
  - cbn [join_slash]. rewrite dir_prefix_in by done. by rewrite !string_app_assoc.
Qed.

Lemma under_run d h x :
  plain h = true -> plain x = true -> under (Join [d; h]) (Join [d; x]) = String.eqb x h.
Proof.
  intros Hh Hx. unfold under. change [d; h] with ([d] ++ [h]). change [d; x] with ([d] ++ [x]).
  rewrite !Join_snoc by done.
  rewrite string_app_assoc, prefix_app, no_prefix_of_plain by by apply plain_split.
  rewrite orb_false_r. destruct (String.eqb_spec x h) as [->|Hne]; [apply String.eqb_refl|].
  apply String.eqb_neq. intros E. by apply (inj _) in E.
Qed.

Lemma under_run_in d h h' x :
  plain h = true -> plain h' = true -> plain x = true -> h <> h' ->
  under (Join [d; h]) (Join [d; h'; x]) = false.
Proof.
  intros Hh Hh' Hx Hne. unfold under. rewrite Join_in_node by done.
  change [d; h] with ([d] ++ [h]). rewrite Join_snoc by done.
  apply orb_false_intro.
  - apply String.eqb_neq. intros E. apply (inj _) in E. pose proof (plain_split h Hh) as Hs.
    rewrite <- E, split_slash_app, !plain_split in Hs by done. discriminate.
  - rewrite string_app_assoc, prefix_app. destruct (String.prefix _ _) eqn:E; [|done].
    apply prefix_same_dir in E; [done|by apply plain_split..].
Qed.

(** The files of a run do not clash.  For node names without slashes, two nodes
    share a console socket, a QMP socket, a guest socket, an NVRAM file or a TPM
    directory only if they are the same node; sockets of different purpose never
    share a path; and the TPM directory of a node is a socket path of another
    exactly when its name is that node's name with the socket's extension. *)
Theorem runtime_paths_distinct (r : Runtime) (h1 h2 : string) :
  node_name h1 = true -> node_name h2 = true ->
  (socketPath r h1 = socketPath r h2 <-> h1 = h2) /\
  (qmpSocketPath r h1 = qmpSocketPath r h2 <-> h1 = h2) /\
  (guestSocketPath r h1 = guestSocketPath r h2 <-> h1 = h2) /\
  (nvramPath r h1 = nvramPath r h2 <-> h1 = h2) /\
  (swtpmSocketDirPath r h1 = swtpmSocketDirPath r h2 <-> h1 = h2) /\
  socketPath r h1 <> qmpSocketPath r h2 /\
  socketPath r h1 <> guestSocketPath r h2 /\
  qmpSocketPath r h1 <> guestSocketPath r h2 /\
  (swtpmSocketDirPath r h1 = socketPath r h2 <-> h1 = h2 +:+ ".socket") /\
  (swtpmSocketDirPath r h1 = qmpSocketPath r h2 <-> h1 = h2 +:+ ".qmp") /\
  (swtpmSocketDirPath r h1 = guestSocketPath r h2 <-> h1 = h2 +:+ ".guest").
Proof.
  intros H1 H2. unfold socketPath, qmpSocketPath, guestSocketPath, nvramPath, swtpmSocketDirPath.
  split_and!.
  1-3: by apply (node_files_same h1 h2 H1 H2 [RunDir r]); [|cbn; lia].
  - by apply (node_files_same h1 h2 H1 H2 [DataDir r; "nvram"]); [|cbn; lia].
  - by apply (Join_run_inj [RunDir r]).
  - by apply (node_files_differ h1 h2 H1 H2 [RunDir r] ".socket" ".qmp" ".soc" "ket" "." "qmp");
      [..|cbn; lia|cbn; lia| | | |].
  - by apply (node_files_differ h1 h2 H1 H2 [RunDir r] ".socket" ".guest" ".soc" "ket" ".gu" "est");
      [..|cbn; lia|cbn; lia| | | |].
  - by apply (node_files_differ h1 h2 H1 H2 [RunDir r] ".qmp" ".guest" "." "qmp" ".gu" "est");
      [..|cbn; lia|cbn; lia| | | |].
  - apply (Join_run_inj [RunDir r]); [done|]. apply plain_ext; [done..|cbn; lia].
  - apply (Join_run_inj [RunDir r]); [done|]. apply plain_ext; [done..|cbn; lia].
  - apply (Join_run_inj [RunDir r]); [done|]. apply plain_ext; [done..|cbn; lia].
Qed.

Definition demo_runtime : Runtime :=
  {| Force := false; Graphic := false; RunDir := "/var/scratch/placemat/run/";
     DataDir := "/var/scratch/placemat"; ListenAddr := "127.0.0.1:10808";
     ImageCache := NewCache "/var/scratch/cache/image_cache" |}.

Lemma runtime_paths_distinct_witness :
  socketPath demo_runtime "boot-0" <> guestSocketPath demo_runtime "boot-1" /\
  swtpmSocketDirPath demo_runtime "boot-0.qmp" = qmpSocketPath demo_runtime "boot-0".
Proof.
  pose proof (runtime_paths_distinct demo_runtime "boot-0" "boot-1" eq_refl eq_refl) as H.
  pose proof (runtime_paths_distinct demo_runtime "boot-0.qmp" "boot-0" eq_refl eq_refl) as H'.
  split; [apply H|]. apply H'. reflexivity.
Defined.
