(* ===== verification/GoStrings.v ===== *)
(** * strconv, strings, unicode/utf8 and bufio

    Decimal numbers, splitting at a separator, the UTF-8 sequences of a byte string
    and the lines a [bufio.Scanner] delivers. *)

From S2P Require Import Prelude.

Local Open Scope Z_scope.
Local Open Scope go_scope.

(** ** strconv *)

Definition is_digit (b : Z) : bool := (48 <=? b) && (b <=? 57).

(** strconv.Atoi: an optional sign and decimal digits, within 64 bits. *)
Fixpoint parse_digits (acc : Z) (l : list Z) : option Z :=
  match l with
  | [] => Some acc
  | d :: l' => if is_digit d then parse_digits (acc * 10 + (d - 48)) l' else None
  end.

Definition is_int64 (z : Z) : bool := (- 2 ^ 63 <=? z) && (z <? 2 ^ 63).

Definition sign_of (l : list Z) : Z * list Z :=
  match l with
  | 45 :: l => (-1, l)
  | 43 :: l => (1, l)
  | _ => (1, l)
  end.

Definition Atoi (s : string) : outcome Z :=
  let '(sign, ds) := sign_of (bytes_of_string s) in
  match ds with
  | [] => Err (errors_New "invalid syntax")
  | _ => match parse_digits 0 ds with
         | None => Err (errors_New "invalid syntax")
         | Some n => if is_int64 (sign * n) then Ok (sign * n)
                     else Err (errors_New "value out of range")
         end
  end.

(** ** strings.Split with a separator of one byte *)

Fixpoint Split (sep : Ascii.ascii) (s : string) : list string :=
  match s with
  | EmptyString => [""]
  | String c s' =>
      if bool_decide (c = sep) then "" :: Split sep s'
      else match Split sep s' with
           | e :: es => String c e :: es
           | [] => [String c ""]
           end
  end.

(** [strings.Join] with a separator of one byte *)
Fixpoint Join_with (sep : Ascii.ascii) (es : list string) : string :=
  match es with
  | [] => ""
  | [e] => e
  | e :: es' => e +:+ String sep (Join_with sep es')
  end.

(** ** unicode/utf8 *)

Definition within (lo hi b : Z) : bool := (lo <=? b) && (b <=? hi).

(** The bounds of the second byte after a lead byte. *)
Definition second_ok (a b : Z) : bool :=
  if a =? 0xe0 then within 0xa0 0xbf b
  else if a =? 0xed then within 0x80 0x9f b
  else if a =? 0xf0 then within 0x90 0xbf b
  else if a =? 0xf4 then within 0x80 0x8f b
  else within 0x80 0xbf b.

(** The sequences of a byte string: one ASCII byte, a valid sequence of two to four
    bytes, or one byte that starts no valid sequence. *)
Inductive rune : Type :=
| Byte (b : Z)
| Seq (bs : list Z)
| Bad.

(** [utf8.DecodeRune] of a non-empty string: the first sequence and the rest. *)
Definition DecodeRune (a : Z) (l : list Z) : rune * list Z :=
  if a <? 0x80 then (Byte a, l)
  else if within 0xc2 0xdf a then
    match l with
    | b :: r => if second_ok a b then (Seq [a; b], r) else (Bad, l)
    | _ => (Bad, l)
    end
  else if within 0xe0 0xef a then
    match l with
    | b :: c :: r =>
        if second_ok a b && within 0x80 0xbf c then (Seq [a; b; c], r) else (Bad, l)
    | _ => (Bad, l)
    end
  else if within 0xf0 0xf4 a then
    match l with
    | b :: c :: d :: r =>
        if second_ok a b && within 0x80 0xbf c && within 0x80 0xbf d
        then (Seq [a; b; c; d], r) else (Bad, l)
    | _ => (Bad, l)
    end
  else (Bad, l).

Fixpoint runes_go (fuel : nat) (l : list Z) : list rune :=
  match fuel, l with
  | S fuel', a :: l' => let (x, r) := DecodeRune a l' in x :: runes_go fuel' r
  | _, _ => []
  end.

Definition runes (l : list Z) : list rune := runes_go (length l) l.

(** U+FFFD *)
Definition replacement : list Z := [0xef; 0xbf; 0xbd].

Definition rune_bytes (x : rune) : list Z :=
  match x with
  | Byte b => [b]
  | Seq bs => bs
  | Bad => replacement
  end.

(** [strings.ToValidUTF8(s, "\uFFFD")] byte by byte: what encoding/json makes of a
    string. *)
Definition to_valid (l : list Z) : list Z := concat (map rune_bytes (runes l)).

(** [utf8.Valid] *)
Definition utf8_Valid (l : list Z) : bool :=
  forallb (fun x => match x with Bad => false | _ => true end) (runes l).

(** ** bufio.Scanner with ScanLines *)

(** The lines of a text without their ends; text after the last newline is a line
    unless it is empty. *)
Fixpoint lines_go (acc : list Z) (l : list Z) : list (list Z) :=
  match l with
  | [] => if bool_decide (acc = []) then [] else [acc]
  | b :: l' => if b =? 10 then acc :: lines_go [] l' else lines_go (acc ++ [b]) l'
  end.

(** [dropCR]: a carriage return at the end of a line is removed. *)
Definition drop_cr (l : list Z) : list Z :=
  match reverse l with
  | 13 :: r => reverse r
  | _ => l
  end.

(** [bufio.MaxScanTokenSize]: a line of that many bytes ends the scan. *)
Definition MaxScanTokenSize : nat := Z.to_nat (64 * 1024).

Fixpoint until_long (ls : list (list Z)) : list (list Z) :=
  match ls with
  | [] => []
  | l :: ls' => if (MaxScanTokenSize <=? length l)%nat then [] else l :: until_long ls'
  end.

Definition scan_lines (text : list Z) : list (list Z) := map drop_cr (until_long (lines_go [] text)).

(** ** Lemmas *)

Lemma parse_digits_Some_nonneg l acc n : 0 <= acc -> parse_digits acc l = Some n -> 0 <= n.
Proof.
  revert acc. induction l as [|d l IH]; intros acc Ha; cbn [parse_digits]; [by intros [= <-]|].
  destruct (is_digit d) eqn:Hd; [|done]. apply IH. unfold is_digit in Hd. bools. lia.
Qed.

Lemma digit_char x : (x < 10)%N ->
  Z.of_N (Ascii.N_of_ascii (pretty_N_char x)) = 48 + Z.of_N x.
Proof.
  intros Hx. assert (x = 0 \/ x = 1 \/ x = 2 \/ x = 3 \/ x = 4 \/ x = 5 \/ x = 6 \/ x = 7 \/ x = 8 \/ x = 9)%N
    as Hc by lia. by repeat destruct Hc as [->|Hc]; [..|subst].
Qed.

Lemma is_digit_small x : (x < 10)%N -> is_digit (48 + Z.of_N x) = true.
Proof. intros Hx. unfold is_digit. apply andb_true_intro. split; apply Z.leb_le; lia. Qed.

(** Decimal notation, read from the left. *)
Lemma parse_pretty_go x s acc :
  parse_digits 0 (bytes_of_string (pretty_N_go x s)) = acc ->
  parse_digits (Z.of_N x) (bytes_of_string s) = acc.
Proof.
  intros <-. revert s. induction (N.lt_wf_0 x) as [x _ IH]; intros s.
  destruct (decide (x = 0%N)) as [->|Hx]; [done|].
  rewrite pretty_N_go_step by lia. rewrite <- (IH (x / 10)%N) by (apply N.div_lt; lia).
  cbn [bytes_of_string parse_digits]. rewrite digit_char by (apply N.mod_lt; lia).
  pose proof (N.mod_lt x 10 ltac:(done)) as Hm. pose proof (N.div_mod x 10 ltac:(done)) as Hd.
  rewrite is_digit_small by done. revert Hm Hd. generalize (x mod 10)%N, (x / 10)%N.
  intros m q Hm Hd. f_equal. lia.
Qed.

(** All digits, and no zero in front. *)
Lemma pretty_go_digits x s :
  forallb is_digit (bytes_of_string s) = true ->
  forallb is_digit (bytes_of_string (pretty_N_go x s)) = true.
Proof.
  revert s. induction (N.lt_wf_0 x) as [x _ IH]; intros s Hs.
  destruct (decide (x = 0%N)) as [->|Hx]; [done|]. rewrite pretty_N_go_step by lia.
  apply IH; [apply N.div_lt; lia|]. cbn [bytes_of_string forallb]. rewrite Hs, andb_true_r.
  rewrite digit_char by (apply N.mod_lt; lia). apply is_digit_small, N.mod_lt. done.
Qed.

Lemma pretty_go_head x s : (0 < x)%N ->
  exists d l, bytes_of_string (pretty_N_go x s) = d :: l /\ d <> 48.
Proof.
  revert s. induction (N.lt_wf_0 x) as [x _ IH]; intros s Hx.
  rewrite pretty_N_go_step by lia. destruct (decide (x < 10)%N) as [Hs|Hs].
  - rewrite N.div_small by done. rewrite pretty_N_go_0. cbn [bytes_of_string].
    do 2 eexists. split; [reflexivity|]. rewrite digit_char, N.mod_small by (try apply N.mod_lt; lia). lia.
  - apply IH; [apply N.div_lt; lia|]. apply N.div_str_pos. lia.
Qed.

(** The digits of a number. *)
Lemma pretty_N_bytes n : exists d l,
  bytes_of_string (pretty n) = d :: l /\ forallb is_digit (d :: l) = true /\
  parse_digits 0 (d :: l) = Some (Z.of_N n) /\ (d = 48 -> l = []).
Proof.
  unfold pretty, pretty_N. case_decide as Hn.
  - subst. exists 48, []. done.
  - destruct (pretty_go_head n "" ltac:(lia)) as (d & l & E & Hd). exists d, l.
    pose proof (pretty_go_digits n "" eq_refl) as Hg. pose proof (parse_pretty_go n "" _ eq_refl) as Hp.
    rewrite E in *. split_and!; [done..|]. done.
Qed.

Lemma digit_not_sign d : is_digit d = true -> d <> 45 /\ d <> 43 /\ d <> 46 /\ d <> 34.
Proof. unfold is_digit. intros Hd. bools. lia. Qed.

Lemma pretty_bytes (z : Z) b : b ∈ bytes_of_string (pretty z) -> b = 45 \/ is_digit b = true.
Proof.
  assert (Hd : forall n : N, b ∈ bytes_of_string (pretty n) -> is_digit b = true).
  { intros n. destruct (pretty_N_bytes n) as (d & l & -> & Hd & _). rewrite forallb_forall in Hd.
    intros Hb. apply Hd. by apply list_elem_of_In. }
  destruct z as [|p|p]; [right; by apply (Hd 0%N)|right; by apply (Hd (N.pos p))|].
  change (bytes_of_string (pretty (Z.neg p))) with (45 :: bytes_of_string (pretty (N.pos p))).
  intros [->|Hb]%elem_of_cons; [by left|right; by eapply Hd].
Qed.

Lemma pretty_avoids (z c : Z) :
  negb (c =? 45) && negb (is_digit c) = true -> Forall (fun b => b <> c) (bytes_of_string (pretty z)).
Proof.
  intros Hc. bools. apply Forall_forall. intros b Hb ->.
  destruct (pretty_bytes z c Hb) as [->|Hd]; [done|]. by rewrite Hd in *.
Qed.

Lemma sign_of_digit d l : d <> 45 -> d <> 43 -> sign_of (d :: l) = (1, d :: l).
Proof. intros H1 H2. unfold sign_of. by repeat case_match. Qed.

(** [strconv.Itoa] and [Atoi]. *)
Lemma Atoi_pretty z : is_int64 z = true -> Atoi (pretty z) = Ok z.
Proof.
  intros Hz. unfold Atoi. destruct z as [|p|p].
  - reflexivity.
  - change (pretty (Z.pos p)) with (pretty (N.pos p)).
    destruct (pretty_N_bytes (N.pos p)) as (d & l & -> & Hd & Hp & _).
    cbn [forallb] in Hd. apply andb_prop in Hd as [Hd _]. apply digit_not_sign in Hd as (H1 & H2 & _).
    rewrite sign_of_digit, Hp by done. change (1 * Z.of_N (N.pos p)) with (Z.pos p). by rewrite Hz.
  - change (pretty (Z.neg p)) with (String (Ascii.Ascii true false true true false true false false) (pretty (N.pos p))).
    cbn [bytes_of_string]. change (sign_of _) with (-1, bytes_of_string (pretty (N.pos p))). cbn match.
    destruct (pretty_N_bytes (N.pos p)) as (d & l & -> & _ & -> & _).
    change (-1 * Z.of_N (N.pos p)) with (Z.neg p). by rewrite Hz.
Qed.

Lemma Atoi_int64 s z : Atoi s = Ok z -> is_int64 z = true.
Proof. unfold Atoi. repeat case_match; try done. by intros [= <-]. Qed.

Lemma Atoi_safe s : match Atoi s with Ok _ | Err _ => True | _ => False end.
Proof. unfold Atoi. by repeat case_match. Qed.

(** A name without the separator is one element. *)
Definition avoids (sep : Ascii.ascii) (s : string) : Prop := Split sep s = [s].

Lemma Split_nonempty sep s : Split sep s <> [].
Proof. destruct s; cbn; [done|]. case_bool_decide; [done|]. by destruct (Split sep s). Qed.

Lemma Split_elements sep s e : e ∈ Split sep s -> avoids sep e.
Proof.
  revert e. induction s as [|c s IH]; intros e; cbn [Split].
  - intros ->%list_elem_of_singleton. done.
  - case_bool_decide as Hc.
    + intros [->|He]%elem_of_cons; [done|by apply IH].
    + destruct (Split sep s) as [|x es] eqn:E; [by apply Split_nonempty in E|].
      intros [->|He]%elem_of_cons; [|apply IH; by right].
      unfold avoids. cbn [Split]. rewrite bool_decide_false by done.
      by rewrite (IH x) by left.
Qed.

Lemma string_app_assoc_cons (a b c : string) sep :
  (a +:+ String sep b) +:+ c = a +:+ String sep (b +:+ c).
Proof.
  induction a as [|x a IH]; [done|].
  change (String x (a +:+ String sep b) +:+ c = String x (a +:+ String sep (b +:+ c))).
  change (String x ((a +:+ String sep b) +:+ c) = String x (a +:+ String sep (b +:+ c))). by rewrite IH.
Qed.

Lemma Split_append sep a b : Split sep (a +:+ String sep b) = Split sep a ++ Split sep b.
Proof.
  induction a as [|c a IH].
  - change ("" +:+ String sep b) with (String sep b). cbn [Split]. by rewrite bool_decide_true.
  - change (String c a +:+ String sep b) with (String c (a +:+ String sep b)). cbn [Split]. rewrite IH.
    case_bool_decide; [done|]. pose proof (Split_nonempty sep a). by destruct (Split sep a).
Qed.

Lemma Split_app sep a b : avoids sep a -> Split sep (a +:+ String sep b) = a :: Split sep b.
Proof. unfold avoids. intros Ha. by rewrite Split_append, Ha. Qed.

(** Splitting and joining are inverse. *)
Lemma Join_Split sep s : Join_with sep (Split sep s) = s.
Proof.
  induction s as [|c s IH]; [done|]. cbn [Split]. pose proof (Split_nonempty sep s) as Hn.
  case_bool_decide as Hc.
  - subst c. destruct (Split sep s) as [|e es]; [done|].
    change (Join_with sep ("" :: e :: es)) with (String sep (Join_with sep (e :: es))). by rewrite IH.
  - destruct (Split sep s) as [|e [|e' es]]; [done|cbn in *; by rewrite IH|].
    change (Join_with sep (String c e :: e' :: es)) with (String c (Join_with sep (e :: e' :: es))). by rewrite IH.
Qed.

Lemma Join_with_app sep a b : a <> [] -> b <> [] ->
  Join_with sep (a ++ b) = Join_with sep a +:+ String sep (Join_with sep b).
Proof.
  intros Ha Hb. induction a as [|x [|y a] IH]; [done|..].
  - by destruct b.
  - change ((x :: y :: a) ++ b) with (x :: ((y :: a) ++ b)).
    change (Join_with sep (x :: (y :: a) ++ b)) with (x +:+ String sep (Join_with sep ((y :: a) ++ b))).
    rewrite IH by done.
    change (Join_with sep (x :: y :: a)) with (x +:+ String sep (Join_with sep (y :: a))).
    symmetry. apply string_app_assoc_cons.
Qed.
