(* ===== verification/Json.v ===== *)
(** * encoding/json: values and parsing

    JSON values, a parser of JSON texts, and how [json.Unmarshal] matches the
    members of an object with the fields of a structure: by exact name or up to
    the case of ASCII letters.  Bytes of a string that are not UTF-8 become the
    replacement character. *)

From S2P Require Import Prelude GoStrings.

Local Open Scope Z_scope.
Local Open Scope go_scope.

Module Json.

Inductive value : Type :=
| Null
| Bool (b : bool)
| Number (text : list Z)
| Str (s : list Z)
| Array (l : list value)
| Object (l : list (list Z * value)).

(** ** Parsing *)

Definition is_space (b : Z) : bool := (b =? 32) || (b =? 9) || (b =? 10) || (b =? 13).

Fixpoint skip_space (l : list Z) : list Z :=
  match l with
  | b :: l' => if is_space b then skip_space l' else l
  | [] => []
  end.

Fixpoint digits (l : list Z) : list Z * list Z :=
  match l with
  | b :: l' => if is_digit b then let (d, r) := digits l' in (b :: d, r) else ([], l)
  | [] => ([], [])
  end.

(** At least one digit. *)
Definition digits1 (l : list Z) : option (list Z * list Z) :=
  match digits l with
  | ([], _) => None
  | (d, r) => Some (d, r)
  end.

(** The optional fraction and exponent of a number. *)
Definition fraction (l : list Z) : option (list Z * list Z) :=
  match l with
  | 46 :: l' => '(d, r) ← digits1 l'; Some (46 :: d, r)
  | _ => Some ([], l)
  end.
Definition exponent (l : list Z) : option (list Z * list Z) :=
  match l with
  | e :: l' =>
      if (e =? 101) || (e =? 69) then
        match l' with
        | s :: l'' => if (s =? 43) || (s =? 45)
                      then '(d, r) ← digits1 l''; Some (e :: s :: d, r)
                      else '(d, r) ← digits1 l'; Some (e :: d, r)
        | [] => None
        end
      else Some ([], l)
  | [] => Some ([], [])
  end.

(** The integer part has no leading zeros. *)
Definition int_part (l : list Z) : option (list Z * list Z) :=
  match l with
  | 48 :: l' => Some ([48], l')
  | _ => digits1 l
  end.
Definition unsigned (l : list Z) : option (list Z * list Z) :=
  '(int, l) ← int_part l;
  '(frac, l) ← fraction l;
  '(exp, l) ← exponent l;
  Some (int ++ frac ++ exp, l).
Definition sign (l : list Z) : list Z * list Z :=
  match l with
  | 45 :: l' => ([45], l')
  | _ => ([], l)
  end.

Definition number (l : list Z) : option (list Z * list Z) :=
  let (s, l) := sign l in
  '(t, l) ← unsigned l;
  Some (s ++ t, l).

Definition hex_value (b : Z) : option Z :=
  if is_digit b then Some (b - 48)
  else if (97 <=? b) && (b <=? 102) then Some (b - 87)
  else if (65 <=? b) && (b <=? 70) then Some (b - 55)
  else None.

Definition hex4 (l : list Z) : option (Z * list Z) :=
  match l with
  | a :: b :: c :: d :: r =>
      a ← hex_value a; b ← hex_value b; c ← hex_value c; d ← hex_value d;
      Some (4096 * a + 256 * b + 16 * c + d, r)
  | _ => None
  end.

(** UTF-8 of a code point; a lone surrogate gives the replacement character. *)
Definition utf8 (u : Z) : list Z :=
  if u <? 0x80 then [u]
  else if u <? 0x800 then [0xc0 + u / 64; 0x80 + u mod 64]
  else if (0xd800 <=? u) && (u <=? 0xdfff) then [0xef; 0xbf; 0xbd]
  else if u <? 0x10000 then [0xe0 + u / 4096; 0x80 + (u / 64) mod 64; 0x80 + u mod 64]
  else [0xf0 + u / 262144; 0x80 + (u / 4096) mod 64; 0x80 + (u / 64) mod 64; 0x80 + u mod 64].

(** The code point of an escape: a high surrogate takes the low one that follows. *)
Definition code_point (u : Z) (l : list Z) : Z * list Z :=
  if (0xd800 <=? u) && (u <? 0xdc00) then
    match l with
    | 92 :: 117 :: r =>
        match hex4 r with
        | Some (v, r') => if (0xdc00 <=? v) && (v <=? 0xdfff)
                          then (0x10000 + 0x400 * (u - 0xd800) + (v - 0xdc00), r') else (u, l)
        | None => (u, l)
        end
    | _ => (u, l)
    end
  else (u, l).

(** The rest of a string after its opening quote. *)
Fixpoint string_body (fuel : nat) (l : list Z) : option (list Z * list Z) :=
  match fuel with
  | O => None
  | S fuel' =>
      match l with
      | [] => None
      | 34 :: r => Some ([], r)
      | 92 :: 117 :: r =>
          '(u, r) ← hex4 r;
          let (u, r) := code_point u r in
          '(s, r) ← string_body fuel' r; Some (utf8 u ++ s, r)
      | 92 :: e :: r =>
          c ← (if (e =? 34) || (e =? 92) || (e =? 47) then Some e
               else if e =? 98 then Some 8
               else if e =? 102 then Some 12
               else if e =? 110 then Some 10
               else if e =? 114 then Some 13
               else if e =? 116 then Some 9
               else None);
          '(s, r) ← string_body fuel' r; Some (c :: s, r)
      | b :: r =>
          if b <? 32 then None
          else let (x, r) := DecodeRune b r in
               '(s, r) ← string_body fuel' r; Some (rune_bytes x ++ s, r)
      end
  end.

Definition literal (word l : list Z) (v : value) : option (value * list Z) :=
  if bool_decide (take (length word) l = word) then Some (v, drop (length word) l) else None.

(** One value; the fuel bounds the number of values and members of the text. *)
Fixpoint parse_value (fuel : nat) (l : list Z) : option (value * list Z) :=
  match fuel with
  | O => None
  | S fuel' =>
      match skip_space l with
      | (110 :: _) as l => literal [110; 117; 108; 108] l Null
      | (116 :: _) as l => literal [116; 114; 117; 101] l (Bool true)
      | (102 :: _) as l => literal [102; 97; 108; 115; 101] l (Bool false)
      | 34 :: l => '(s, r) ← string_body (S (length l)) l; Some (Str s, r)
      | 91 :: l =>
          match skip_space l with
          | 93 :: r => Some (Array [], r)
          | _ => '(vs, r) ← parse_items fuel' l; Some (Array vs, r)
          end
      | 123 :: l =>
          match skip_space l with
          | 125 :: r => Some (Object [], r)
          | _ => '(ms, r) ← parse_members fuel' l; Some (Object ms, r)
          end
      | l => '(n, r) ← number l; Some (Number n, r)
      end
  end
with parse_items (fuel : nat) (l : list Z) : option (list value * list Z) :=
  match fuel with
  | O => None
  | S fuel' =>
      '(v, l) ← parse_value fuel' l;
      match skip_space l with
      | 44 :: l => '(vs, r) ← parse_items fuel' l; Some (v :: vs, r)
      | 93 :: r => Some ([v], r)
      | _ => None
      end
  end
with parse_members (fuel : nat) (l : list Z) : option (list (list Z * value) * list Z) :=
  match fuel with
  | O => None
  | S fuel' =>
      match skip_space l with
      | 34 :: l =>
          '(k, l) ← string_body (S (length l)) l;
          match skip_space l with
          | 58 :: l =>
              '(v, l) ← parse_value fuel' l;
              match skip_space l with
              | 44 :: l => '(ms, r) ← parse_members fuel' l; Some ((k, v) :: ms, r)
              | 125 :: r => Some ([(k, v)], r)
              | _ => None
              end
          | _ => None
          end
      | _ => None
      end
  end.

(** A whole text: one value and white space. *)
Definition parse (l : list Z) : option value :=
  '(v, r) ← parse_value (2 * length l + 2) l;
  match skip_space r with
  | [] => Some v
  | _ => None
  end.

(** ** Matching members *)

Definition fold_byte (b : Z) : Z := if (97 <=? b) && (b <=? 122) then b - 32 else b.

(** A member's key selects a field by its exact name or up to letter case. *)
Definition key_is (name : string) (key : list Z) : bool :=
  bool_decide (map fold_byte key = map fold_byte (bytes_of_string name)).

Definition syntax_error : error := errors_New "json: invalid text".
Definition type_error : error := errors_New "json: cannot unmarshal value of another type".

(** Decoding goes on after a type error and reports the first one. *)
Definition first_error (a b : option error) : option error :=
  match a with Some e => Some e | None => b end.

End Json.
