(* ===== verification/Marshal.v ===== *)
(** * encoding/json: printing values

    [json.Marshal] of a value: compact, with strings quoted as Go quotes them (HTML
    characters, control characters, U+2028 and U+2029 escaped, bytes that are not UTF-8
    replaced).  Printing and parsing are inverse; interface [Marshaler] states it for
    the types the program sends. *)

From stdpp Require Import sorting.
From S2P Require Import Prelude GoStrings Json.

Local Open Scope Z_scope.
Local Open Scope go_scope.

Import Json.

(** ** Printing *)

Definition hex_digit (n : Z) : Z := if n <? 10 then 48 + n else 87 + n.

(** A backslash, u, 00 and two hexadecimal digits. *)
Definition escape_u00 (b : Z) : list Z := [92; 117; 48; 48; hex_digit (b / 16); hex_digit (b mod 16)].

Definition escape_byte (b : Z) : list Z :=
  if (b =? 34) || (b =? 92) then [92; b]
  else if b =? 8 then [92; 98]
  else if b =? 12 then [92; 102]
  else if b =? 10 then [92; 110]
  else if b =? 13 then [92; 114]
  else if b =? 9 then [92; 116]
  else if (b <? 32) || (b =? 60) || (b =? 62) || (b =? 38) then escape_u00 b
  else [b].

Definition escape_rune (x : rune) : list Z :=
  match x with
  | Byte b => escape_byte b
  | Seq bs =>
      if bool_decide (bs = [0xe2; 0x80; 0xa8]) then 92 :: bytes_of_string "u2028"
      else if bool_decide (bs = [0xe2; 0x80; 0xa9]) then 92 :: bytes_of_string "u2029"
      else bs
  | Bad => 92 :: bytes_of_string "ufffd"
  end.

Definition escape (s : list Z) : list Z := concat (map escape_rune (runes s)).

Definition quote (s : list Z) : list Z := 34 :: escape s ++ [34].

(** Elements separated by commas. *)
Fixpoint commas (l : list (list Z)) : list Z :=
  match l with
  | [] => []
  | [x] => x
  | x :: l' => x ++ 44 :: commas l'
  end.

Fixpoint encode (v : value) : list Z :=
  match v with
  | Null => bytes_of_string "null"
  | Bool true => bytes_of_string "true"
  | Bool false => bytes_of_string "false"
  | Number t => t
  | Str s => quote s
  | Array l => 91 :: commas (map encode l) ++ [93]
  | Object l => 123 :: commas (map (fun m => quote m.1 ++ 58 :: encode m.2) l) ++ [125]
  end.

(** What is read back: strings made valid. *)
Fixpoint valid_value (v : value) : value :=
  match v with
  | Str s => Str (to_valid s)
  | Array l => Array (map valid_value l)
  | Object l => Object (map (fun m => (to_valid m.1, valid_value m.2)) l)
  | _ => v
  end.

(** An integer. *)
Definition Int (z : Z) : value := Number (bytes_of_string (pretty z)).

(** The values the program prints: numbers are integers, strings are bytes. *)
Inductive printable : value -> Prop :=
| pr_null : printable Null
| pr_bool b : printable (Bool b)
| pr_int z : printable (Int z)
| pr_str s : is_bytes s = true -> printable (Str s)
| pr_array l : Forall printable l -> printable (Array l)
| pr_object l : Forall (fun m => is_bytes m.1 = true /\ printable m.2) l -> printable (Object l).

Example quote_html : encode (Str (bytes_of_string "a<b")) = 34 :: bytes_of_string "a\u003cb" ++ [34].
Proof. reflexivity. Qed.
Example encode_ex : parse (encode (Object [(bytes_of_string "k", Array [Int (-7); Str [10; 255]])])) =
  Some (Object [(bytes_of_string "k", Array [Int (-7); Str [10; 0xef; 0xbf; 0xbd]])]).
Proof. reflexivity. Qed.

(** ** Strings *)

Lemma hex_value_digit n : 0 <= n < 16 -> hex_value (hex_digit n) = Some n.
Proof.
  intros Hn. unfold hex_digit, hex_value, is_digit.
  destruct (Z.ltb_spec n 10); repeat case_match; bools; try (f_equal; lia); try lia; exfalso;
    repeat match goal with E : _ && _ = false |- _ => apply andb_false_iff in E as [?%Z.leb_gt|?%Z.leb_gt] end; lia.
Qed.

Lemma read_u00 b r fuel : 0 <= b < 128 ->
  string_body (S fuel) (escape_u00 b ++ r) = '(s, r) ← string_body fuel r; Some ([b] ++ s, r).
Proof.
  intros Hb. cbn [escape_u00 app string_body hex4].
  rewrite !hex_value_digit by dlia. change (hex_value 48) with (Some 0). cbn [mbind option_bind].
  replace (4096 * 0 + 256 * 0 + 16 * (b / 16) + b mod 16) with b by dlia.
  unfold code_point, utf8. destruct (Z.leb_spec 0xd800 b); [lia|]. cbn [andb].
  destruct (Z.ltb_spec b 0x80); [done|lia].
Qed.

(** A byte that needs no escape. *)
Lemma read_plain b l fuel : b <> 34 -> b <> 92 -> 32 <= b ->
  string_body (S fuel) (b :: l) =
  let (x, r) := DecodeRune b l in '(s, r) ← string_body fuel r; Some (rune_bytes x ++ s, r).
Proof.
  intros H1 H2 H3. cbn [string_body]. repeat case_match; try done; bools; lia.
Qed.

(** A sequence that is read back as it is, whatever follows. *)
Definition good_rune (x : rune) : Prop :=
  match x with
  | Byte b => 0 <= b < 128
  | Seq bs => exists a t, bs = a :: t /\ 128 <= a /\ is_bytes bs = true /\
      forall r, DecodeRune a (t ++ r) = (Seq bs, r)
  | Bad => True
  end.

Lemma DecodeRune_form a l x r :
  DecodeRune a l = (x, r) ->
  (x = Byte a /\ r = l /\ a < 128) \/ (x = Bad /\ r = l) \/
  exists t, x = Seq (a :: t) /\ l = t ++ r /\ 128 <= a /\ forall r', DecodeRune a (t ++ r') = (x, r').
Proof.
  unfold DecodeRune. destruct (a <? 0x80) eqn:Ha.
  { intros [= <- <-]. left. bools. split_and!; [done..|lia]. }
  repeat case_match; intros [= <- <-]; subst; try (right; left; done); right; right; bools;
    eexists (_ :: ?[t]); (split; [reflexivity|]); (split; [reflexivity|]); (split; [lia|]);
    intros r'; cbn [app];
    repeat match goal with E : ?c = _ |- context [if ?c then _ else _] => rewrite E end; try done.
  all: repeat match goal with E : ?c = true |- context [?c] => rewrite E end; done.
Qed.

Lemma is_bytes_cons a l : is_bytes (a :: l) = is_u8 a && is_bytes l.
Proof. done. Qed.

Lemma DecodeRune_good a l x r :
  is_bytes (a :: l) = true -> DecodeRune a l = (x, r) ->
  good_rune x /\ is_bytes r = true /\ (length r <= length l)%nat.
Proof.
  intros Hb E. assert (Ha := Hb). rewrite is_bytes_cons in Ha. apply andb_prop in Ha as [Ha Hl].
  apply is_u8_spec in Ha. destruct (DecodeRune_form _ _ _ _ E) as [(-> & -> & Hs)|[[-> ->]|(t & -> & -> & Hs & Hr)]].
  - cbn. split_and!; [lia..|done|done].
  - done.
  - rewrite is_bytes_app in Hl. apply andb_prop in Hl as [Ht Hl]. split_and!; [|done|rewrite length_app; lia].
    exists a, t. split_and!; [done|done| |done]. rewrite is_bytes_cons, Ht. by rewrite (proj2 (is_u8_spec a)).
Qed.

Lemma runes_go_good fuel l : is_bytes l = true -> Forall good_rune (runes_go fuel l).
Proof.
  revert l. induction fuel as [|fuel IH]; intros [|a l] Hl; try by constructor.
  cbn [runes_go]. destruct (DecodeRune a l) as [x r] eqn:E.
  destruct (DecodeRune_good _ _ _ _ Hl E) as (Hx & Hr & _). constructor; [done|by apply IH].
Qed.

Lemma runes_good l : is_bytes l = true -> Forall good_rune (runes l).
Proof. apply runes_go_good. Qed.

(** One escaped sequence is read back. *)
Lemma read_rune x r fuel : good_rune x ->
  string_body (S fuel) (escape_rune x ++ r) =
  '(s, r) ← string_body fuel r; Some (rune_bytes x ++ s, r).
Proof.
  destruct x as [b|bs|]; cbn [good_rune escape_rune rune_bytes]; [|intros (a & t & -> & Ha & _ & Hd)|done].
  - intros Hb. unfold escape_byte.
    destruct (Z.eqb_spec b 34) as [->|]; [done|]. destruct (Z.eqb_spec b 92) as [->|]; [done|].
    destruct (Z.eqb_spec b 8) as [->|]; [done|]. destruct (Z.eqb_spec b 12) as [->|]; [done|].
    destruct (Z.eqb_spec b 10) as [->|]; [done|]. destruct (Z.eqb_spec b 13) as [->|]; [done|].
    destruct (Z.eqb_spec b 9) as [->|]; [done|]. cbn [orb].
    destruct (Z.ltb_spec b 32); [by apply read_u00|]. cbn [orb].
    destruct ((b =? 60) || (b =? 62) || (b =? 38)); [by apply read_u00|]. cbn [app].
    rewrite read_plain by lia. unfold DecodeRune. by destruct (Z.ltb_spec b 0x80); [|lia].
  - case_bool_decide as E1; [by rewrite E1|]. case_bool_decide as E2; [by rewrite E2|].
    cbn [app]. rewrite read_plain, Hd by lia. done.
Qed.

Lemma escape_rune_nonempty x : good_rune x -> (1 <= length (escape_rune x))%nat.
Proof.
  destruct x as [b|bs|]; cbn [good_rune escape_rune]; [|intros (a & t & -> & _)|cbn; lia].
  - unfold escape_byte. repeat case_match; cbn; lia.
  - repeat case_match; cbn; lia.
Qed.

(** A printed string is read back, made valid; what follows is not touched. *)
Lemma read_string s r fuel :
  is_bytes s = true -> (length (escape s) < fuel)%nat ->
  string_body fuel (escape s ++ 34 :: r) = Some (to_valid s, r).
Proof.
  intros Hs. apply runes_good in Hs. unfold escape, to_valid. revert fuel.
  induction (runes s) as [|x rs IH]; intros fuel Hf; cbn [map concat] in *.
  - by destruct fuel; [lia|].
  - apply Forall_cons in Hs as [Hx Hs]. rewrite length_app in Hf. pose proof (escape_rune_nonempty x Hx).
    destruct fuel as [|fuel]; [lia|]. rewrite <- app_assoc, read_rune by done.
    rewrite IH by (done || lia). done.
Qed.

(** Printed text: bytes, and no control characters. *)
Definition is_graphic (b : Z) : Prop := 32 <= b < 256.

Lemma hex_digit_graphic n : 0 <= n < 16 -> is_graphic (hex_digit n).
Proof. intros Hn. unfold hex_digit, is_graphic. destruct (n <? 10); lia. Qed.

Ltac graphic := cbn; repeat (apply Forall_cons_2; [unfold is_graphic; lia|]); apply Forall_nil_2.

Lemma escape_graphic s : is_bytes s = true -> Forall is_graphic (escape s).
Proof.
  intros Hs. apply runes_good in Hs. unfold escape.
  induction Hs as [|x rs Hx _ IH]; cbn [map concat]; [constructor|]. apply Forall_app. split; [|done].
  destruct x as [b|bs|]; cbn [good_rune escape_rune] in *.
  - unfold escape_byte, escape_u00. repeat case_match; bools;
      repeat (apply Forall_cons; split; [try (unfold is_graphic; lia)|]); try apply Forall_nil_2;
      try apply hex_digit_graphic; dlia.
  - destruct Hx as (a & t & -> & Ha & Hb & Hd). case_bool_decide; [graphic|].
    case_bool_decide; [graphic|].
    pose proof (Hd []) as E. rewrite app_nil_r in E. unfold DecodeRune in E.
    destruct (Z.ltb_spec a 0x80); [done|].
    apply is_bytes_Forall in Hb.
    repeat case_match; try done; injection E as <-; subst; rewrite !Forall_cons in Hb;
      unfold second_ok, within in *; repeat case_match; bools; graphic.
  - graphic.
Qed.

(** ** Numbers *)

(** What may follow a number: not a digit, a fraction or an exponent. *)
Definition ends_number (r : list Z) : bool :=
  match r with
  | [] => true
  | b :: _ => negb (is_digit b) && negb (b =? 46) && negb (b =? 101) && negb (b =? 69)
  end.

Lemma digits_app l r :
  forallb is_digit l = true -> ends_number r = true -> digits (l ++ r) = (l, r).
Proof.
  intros Hl Hr. induction l as [|d l IH]; cbn [app].
  - destruct r as [|b r]; [done|]. cbn in *. destruct (is_digit b); done.
  - cbn [forallb] in Hl. apply andb_prop in Hl as [Hd Hl]. cbn [digits]. by rewrite Hd, IH.
Qed.

Lemma no_fraction r : ends_number r = true -> fraction r = Some ([], r).
Proof.
  destruct r as [|b r]; [done|]. cbn [ends_number]. intros Hr. bools.
  destruct (Z.eqb_spec b 46); [done|]. unfold fraction. by repeat case_match.
Qed.

Lemma no_exponent r : ends_number r = true -> exponent r = Some ([], r).
Proof.
  destruct r as [|b r]; [done|]. cbn [ends_number exponent]. intros Hr. bools.
  by destruct (Z.eqb_spec b 101), (Z.eqb_spec b 69).
Qed.

(** A printed natural number. *)
Lemma read_unsigned (n : N) r : ends_number r = true ->
  exists d l, bytes_of_string (pretty n) = d :: l /\ is_digit d = true /\
    unsigned ((d :: l) ++ r) = Some (d :: l, r).
Proof.
  intros Hr. destruct (pretty_N_bytes n) as (d & l & E & Hd & _ & H0). exists d, l. split; [done|].
  assert (Hi : int_part ((d :: l) ++ r) = Some (d :: l, r)).
  { destruct (decide (d = 48)) as [->|Hn]; [by rewrite H0|].
    assert (E1 : digits1 ((d :: l) ++ r) = Some (d :: l, r)) by (unfold digits1; by rewrite digits_app).
    rewrite <- E1. cbn [app int_part]. by repeat case_match. }
  cbn [forallb] in Hd. apply andb_prop in Hd as [Hd _]. split; [done|].
  unfold unsigned. rewrite Hi. cbn [mbind option_bind]. rewrite no_fraction by done.
  cbn [mbind option_bind]. rewrite no_exponent by done. cbn [mbind option_bind]. by rewrite app_nil_r.
Qed.

(** A printed integer: how it starts, and that it is read back. *)
Lemma read_number (z : Z) r : ends_number r = true ->
  exists d l, bytes_of_string (pretty z) = d :: l /\ (d = 45 \/ is_digit d = true) /\
    number ((d :: l) ++ r) = Some (d :: l, r).
Proof.
  intros Hr. assert (Hpos : forall n : N, exists d l, bytes_of_string (pretty n) = d :: l /\
    (d = 45 \/ is_digit d = true) /\ number ((d :: l) ++ r) = Some (d :: l, r)).
  { intros n. destruct (read_unsigned n r Hr) as (d & l & E & Hd & Eu). exists d, l.
    split_and!; [done|by right|]. unfold number.
    assert (Es : sign ((d :: l) ++ r) = ([], (d :: l) ++ r)).
    { apply digit_not_sign in Hd as (H1 & _). cbn [app sign]. by repeat case_match. }
    rewrite Es. cbn beta iota. by rewrite Eu. }
  destruct z as [|p|p]; [exact (Hpos 0%N)|exact (Hpos (N.pos p))|].
  destruct (read_unsigned (N.pos p) r Hr) as (d & l & E & _ & Eu). exists 45, (d :: l).
  split_and!; [|by left|].
  - change (bytes_of_string (pretty (Z.neg p))) with (45 :: bytes_of_string (pretty (N.pos p))). by rewrite E.
  - unfold number. change (sign ((45 :: d :: l) ++ r)) with ([45], (d :: l) ++ r). cbn beta iota. by rewrite Eu.
Qed.

(** ** Values *)

(** Induction on values, through arrays and objects. *)
Lemma value_rect_nested (P : value -> Prop) :
  P Null -> (forall b, P (Bool b)) -> (forall t, P (Number t)) -> (forall s, P (Str s)) ->
  (forall l, Forall P l -> P (Array l)) -> (forall l, Forall (fun m => P m.2) l -> P (Object l)) ->
  forall v, P v.
Proof.
  intros Hn Hb Hi Hs Ha Ho. fix IH 1. intros [|b|t|s|l|l]; [done|apply Hb|apply Hi|apply Hs|apply Ha|apply Ho].
  - induction l as [|v l IHl]; constructor; [apply IH|apply IHl].
  - induction l as [|[k v] l IHl]; constructor; [apply IH|apply IHl].
Qed.

(** What is read back after a value: everything but the rest. *)
Definition reads (v : value) : Prop :=
  (1 <= length (encode v))%nat /\
  (forall r, ends_number r = true ->
     head (encode v ++ r) <> Some 93 /\ skip_space (encode v ++ r) = encode v ++ r /\
     forall fuel, (2 * length (encode v) <= fuel)%nat ->
       parse_value fuel (encode v ++ r) = Some (valid_value v, r)).

(** Dispatch on the first byte. *)
Lemma parse_number_dispatch d l fuel :
  d = 45 \/ is_digit d = true ->
  skip_space (d :: l) = d :: l /\
  parse_value (S fuel) (d :: l) = '(n, r) ← number (d :: l); Some (Number n, r).
Proof.
  intros Hd. assert (In : d ∈ [45; 48; 49; 50; 51; 52; 53; 54; 55; 56; 57]).
  { destruct Hd as [->|Hd]; [by left|]. unfold is_digit in Hd. bools.
    assert (Hc : d = 48 \/ d = 49 \/ d = 50 \/ d = 51 \/ d = 52 \/ d = 53 \/ d = 54 \/ d = 55 \/
      d = 56 \/ d = 57) by lia. set_solver. }
  clear Hd. repeat (apply elem_of_cons in In as [->|In]; [done|]). by apply elem_of_nil in In.
Qed.

Lemma reads_int z : reads (Int z).
Proof.
  unfold reads. cbn [encode Int valid_value]. split.
  - destruct (read_number z [] eq_refl) as (d & l & -> & _). cbn. lia.
  - intros r Hr. destruct (read_number z r Hr) as (d & l & -> & Hd & E).
    destruct (parse_number_dispatch d (l ++ r) 0 Hd) as [Hs _]. cbn [app] in *. split_and!; [|done|].
    + cbn. intros [= ->]. destruct Hd; [lia|done].
    + intros [|fuel] Hf; [cbn in Hf; lia|].
      destruct (parse_number_dispatch d (l ++ r) fuel Hd) as [_ ->]. by rewrite E.
Qed.

Lemma reads_str s : is_bytes s = true -> reads (Str s).
Proof.
  intros Hs. unfold reads. cbn [encode valid_value]. unfold quote. split; [cbn; lia|].
  intros r _. split_and!; [done..|]. intros [|fuel] Hf; [cbn in Hf; lia|].
  cbn [app]. rewrite <- app_assoc. cbn [app parse_value skip_space is_space]. 
  change (is_space 34) with false. cbn iota.
  rewrite read_string; [done..|]. rewrite length_app. cbn. lia.
Qed.

(** Text that does not start with a closing bracket. *)
Lemma not_closed {A} (l : list Z) (f : list Z -> A) (a : A) :
  head l <> Some 93 -> match l with 93 :: r => f r | _ => a end = a.
Proof. intros Hl. destruct l as [|b l]; [done|]. repeat case_match; try done. Qed.

Lemma items_read l : l <> [] -> Forall reads l -> forall fuel r,
  (2 * length (commas (map encode l) ++ [93%Z]) <= fuel)%nat ->
  parse_items fuel (commas (map encode l) ++ 93 :: r) = Some (map valid_value l, r).
Proof.
  intros Hne Hl. induction Hl as [|v l [Hv1 Hv] Hl IH]; [done|]. clear Hne. intros fuel r Hf.
  destruct fuel as [|fuel]; [rewrite length_app in Hf; cbn in Hf; lia|]. cbn [parse_items].
  destruct l as [|v2 l]; cbn [map commas] in *.
  - destruct (Hv (93 :: r) eq_refl) as (_ & _ & Hp). rewrite Hp by (rewrite length_app in Hf; cbn in Hf; lia).
    done.
  - rewrite !length_app in Hf. cbn [length] in Hf. rewrite <- app_assoc. cbn [app].
    destruct (Hv (44 :: commas (encode v2 :: map encode l) ++ 93 :: r) eq_refl) as (_ & _ & Hp).
    rewrite Hp by lia. cbn [mbind option_bind skip_space]. change (is_space 44) with false. cbn iota.
    rewrite IH by (done || (rewrite length_app; cbn [length] in *; lia)). done.
Qed.

Lemma commas_start l r : l <> [] -> Forall reads l ->
  head (commas (map encode l) ++ 93 :: r) <> Some 93 /\
  skip_space (commas (map encode l) ++ 93 :: r) = commas (map encode l) ++ 93 :: r.
Proof.
  intros Hne Hl. destruct Hl as [|v l [_ Hv] _]; [done|]. destruct l as [|v2 l]; cbn [map commas].
  - by destruct (Hv (93 :: r) eq_refl) as (H1 & H2 & _).
  - rewrite <- app_assoc.
    by destruct (Hv ((44 :: commas (encode v2 :: map encode l)) ++ 93 :: r) eq_refl) as (H1 & H2 & _).
Qed.

Lemma reads_array l : Forall reads l -> reads (Array l).
Proof.
  intros Hl. unfold reads. cbn [encode valid_value]. split; [cbn; lia|]. intros r _.
  split_and!; [done..|]. intros [|fuel] Hf; [cbn in Hf; lia|]. cbn [app]. rewrite <- app_assoc.
  cbn [app parse_value skip_space]. change (is_space 91) with false. cbn iota.
  destruct (decide (l = [])) as [->|Hne]; [done|].
  destruct (commas_start l r Hne Hl) as [H1 H2]. rewrite H2, not_closed by done.
  rewrite items_read; [done..|]. cbn [length] in Hf. lia.
Qed.

Definition member_text (m : list Z * value) : list Z := quote m.1 ++ 58 :: encode m.2.

Lemma members_read l : l <> [] -> Forall (fun m => is_bytes m.1 = true /\ reads m.2) l ->
  forall fuel r, (2 * length (commas (map member_text l) ++ [125%Z]) <= fuel)%nat ->
  parse_members fuel (commas (map member_text l) ++ 125 :: r) =
  Some (map (fun m => (to_valid m.1, valid_value m.2)) l, r).
Proof.
  intros Hne Hl. induction Hl as [|[k v] l [Hk [Hv1 Hv]] Hl IH]; [done|]. clear Hne. cbn [fst snd] in *.
  intros [|fuel] r Hf; [rewrite length_app in Hf; cbn in Hf; lia|].
  assert (Hstep : forall rest, ends_number rest = true ->
    (2 * length (encode v) <= fuel)%nat ->
    parse_members (S fuel) (member_text (k, v) ++ rest) =
    match skip_space rest with
    | 44 :: l => '(ms, r) ← parse_members fuel l; Some ((to_valid k, valid_value v) :: ms, r)
    | 125 :: r => Some ([(to_valid k, valid_value v)], r)
    | _ => None
    end).
  { intros rest Hr Hlen. unfold member_text, quote. cbn [fst snd app parse_members skip_space].
    change (is_space 34) with false. cbn iota. rewrite <- !app_assoc. cbn [app].
    rewrite read_string by (done || (rewrite !length_app; cbn; lia)).
    cbn [mbind option_bind skip_space]. change (is_space 58) with false. cbn iota.
    destruct (Hv rest Hr) as (_ & _ & Hp). by rewrite Hp. }
  assert (Hlen : (length (encode v) + 1 <= length (member_text (k, v)))%nat)
    by (unfold member_text; rewrite length_app; cbn; lia).
  destruct l as [|m2 l]; cbn [map commas] in *.
  - rewrite Hstep; [done..|]. rewrite length_app in Hf. cbn [length] in Hf. lia.
  - rewrite !length_app in Hf. cbn [length] in Hf. rewrite <- app_assoc, Hstep; [|done|lia].
    cbn [app skip_space]. change (is_space 44) with false. cbn iota.
    rewrite IH by (done || (rewrite length_app; cbn [length] in *; lia)). done.
Qed.

Lemma reads_object l : Forall (fun m => is_bytes m.1 = true /\ reads m.2) l -> reads (Object l).
Proof.
  intros Hl. unfold reads. cbn [encode valid_value]. split; [cbn; lia|]. intros r _.
  split_and!; [done..|]. intros [|fuel] Hf; [cbn in Hf; lia|]. cbn [app]. rewrite <- app_assoc.
  change (map (fun m => quote m.1 ++ 58 :: encode m.2) l) with (map member_text l) in *.
  cbn [app parse_value skip_space]. change (is_space 123) with false. cbn iota.
  destruct (decide (l = [])) as [->|Hne]; [done|].
  assert (Hs : exists t, commas (map member_text l) ++ 125 :: r = 34 :: t).
  { destruct l as [|m [|m2 l]]; [done|..]; cbn [map commas]; unfold member_text at 1, quote;
      cbn [app]; eexists; reflexivity. }
  destruct Hs as [t Ht]. assert (Hm := members_read l Hne Hl fuel r ltac:(cbn [length] in Hf; lia)).
  rewrite Ht in *. cbn [skip_space]. change (is_space 34) with false. cbn iota. by rewrite Hm.
Qed.

Lemma printable_reads v : printable v -> reads v.
Proof.
  induction v as [|b|t|s|l IH|l IH] using value_rect_nested; inversion 1 as [| | | |l' Hl|l' Hl]; subst.
  - split; [cbn; lia|]. intros r _. split_and!; [done..|]. intros [|fuel] Hf; [cbn in Hf; lia|]. done.
  - destruct b; (split; [cbn; lia|]); intros r _; (split_and!; [done..|]);
      intros [|fuel] Hf; [cbn in Hf; lia|done|cbn in Hf; lia|done].
  - apply reads_int.
  - by apply reads_str.
  - apply reads_array. clear -IH Hl. induction Hl; inversion IH; subst; constructor; auto.
  - apply reads_object. clear -IH Hl.
    induction Hl as [|m l [Hk Hm] Hl IHl]; inversion IH; subst; constructor; auto.
Qed.

(** Printing and parsing: the text of a value followed by white space is the value. *)
Lemma parse_encode v ws :
  printable v -> forallb is_space ws = true -> parse (encode v ++ ws) = Some (valid_value v).
Proof.
  intros Hv Hw. destruct (printable_reads v Hv) as [_ Hr]. unfold parse.
  assert (He : ends_number ws = true).
  { destruct ws as [|b ws]; [done|]. cbn in *. apply andb_prop in Hw as [Hb _]. unfold is_space in Hb.
    repeat (apply orb_prop in Hb as [Hb|Hb]; [|by apply Z.eqb_eq in Hb as ->]).
    by apply Z.eqb_eq in Hb as ->. }
  destruct (Hr ws He) as (_ & _ & Hp). rewrite Hp by (rewrite length_app; lia).
  cbn [mbind option_bind]. assert (E : skip_space ws = []).
  { clear -Hw. induction ws as [|b ws IH]; [done|]. cbn in *. apply andb_prop in Hw as [-> Hw]. auto. }
  by rewrite E.
Qed.

(** A printed value has no line breaks. *)
Lemma commas_graphic ls : Forall (Forall is_graphic) ls -> Forall is_graphic (commas ls).
Proof.
  induction 1 as [|x l Hx Hl IH]; [constructor|]. destruct l as [|y l]; cbn [commas]; [done|].
  apply Forall_app. split; [done|]. by apply Forall_cons_2.
Qed.

Lemma quote_graphic s : is_bytes s = true -> Forall is_graphic (quote s).
Proof.
  intros Hs. unfold quote. apply Forall_cons_2; [done|]. apply Forall_app. split; [by apply escape_graphic|]. graphic.
Qed.

Lemma pretty_graphic (z : Z) : Forall is_graphic (bytes_of_string (pretty z)).
Proof.
  assert (Hd : forall n : N, Forall is_graphic (bytes_of_string (pretty n))).
  { intros n. destruct (pretty_N_bytes n) as (d & l & -> & Hd & _). rewrite Forall_forall. intros x Hx.
    rewrite forallb_forall in Hd. apply list_elem_of_In in Hx. specialize (Hd x Hx).
    unfold is_digit in Hd. bools. unfold is_graphic. lia. }
  destruct z as [|p|p]; [exact (Hd 0%N)|exact (Hd (N.pos p))|].
  change (Forall is_graphic (45 :: bytes_of_string (pretty (N.pos p)))). apply Forall_cons_2; [done|apply Hd].
Qed.

Lemma encode_graphic v : printable v -> Forall is_graphic (encode v).
Proof.
  induction v as [|b|t|s|l IH|l IH] using value_rect_nested; inversion 1 as [| | | |l' Hl|l' Hl]; subst;
    cbn [encode].
  - graphic.
  - destruct b; graphic.
  - apply pretty_graphic.
  - by apply quote_graphic.
  - apply Forall_cons_2; [done|]. apply Forall_app. split; [|graphic]. apply commas_graphic.
    clear -IH Hl. induction Hl; inversion IH; subst; constructor; auto.
  - apply Forall_cons_2; [done|]. apply Forall_app. split; [|graphic]. apply commas_graphic.
    clear -IH Hl. induction Hl as [|m l [Hk Hm] Hl IHl]; inversion IH; subst; constructor; auto.
    apply Forall_app. split; [by apply quote_graphic|]. apply Forall_cons_2; [done|auto].
Qed.

Lemma graphic_bytes l : Forall is_graphic l -> is_bytes l = true.
Proof. intros Hl. apply is_bytes_Forall. eapply Forall_impl; [exact Hl|]. unfold is_graphic. intros b Hb. lia. Qed.

(** Valid strings are kept. *)
Lemma to_valid_id s : utf8_Valid s = true -> to_valid s = s.
Proof.
  unfold utf8_Valid, to_valid, runes.
  assert (H : forall fuel l, (length l <= fuel)%nat ->
    forallb (fun x => match x with Bad => false | _ => true end) (runes_go fuel l) = true ->
    concat (map rune_bytes (runes_go fuel l)) = l).
  { induction fuel as [|fuel IH]; intros [|a l] Hl; try done; [cbn in Hl; lia|].
    cbn [runes_go]. destruct (DecodeRune a l) as [x r] eqn:E. cbn [forallb map concat].
    intros Hb. apply andb_prop in Hb as [Hx Hr]. cbn [length] in Hl.
    destruct (DecodeRune_form _ _ _ _ E) as [(-> & -> & _)|[[-> ->]|(t & -> & -> & _)]]; [..|done|].
    - rewrite IH by (done || lia). done.
    - rewrite length_app in Hl. rewrite IH by (done || lia). done. }
  by apply H.
Qed.

(** ** Go types *)

(** How a Go type is printed, and how a JSON value is stored in a variable of it:
    decoding goes on after a mismatch and reports the first one. *)
Class JsonType (A : Type) : Type := {
  json_zero : A;
  to_json : A -> value;
  from_json : value -> A -> A * option error
}.

(** [json.Marshal] *)
Definition json_Marshal {A : Type} `{!JsonType A} (a : A) : list Z := encode (to_json a).

(** [json.NewEncoder(w).Encode(a)]: what is written. *)
Definition json_Encode {A : Type} `{!JsonType A} (a : A) : list Z := json_Marshal a ++ [10].

Definition stored {A : Type} (r : A * option error) : outcome A :=
  match r with
  | (a, None) => Ok a
  | (_, Some e) => Err e
  end.

(** [json.Unmarshal(text, &a)] of a new variable *)
Definition json_Unmarshal {A : Type} `{!JsonType A} (text : list Z) : outcome A :=
  match parse text with
  | None => Err syntax_error
  | Some v => stored (from_json v json_zero)
  end.

(** [json.NewDecoder(r).Decode(&a)] of a new variable: the first value of the text. *)
Definition json_Decode {A : Type} `{!JsonType A} (text : list Z) : outcome A :=
  match skip_space text with
  | [] => Err EOF
  | _ => match parse_value (2 * length text + 2) text with
         | None => Err syntax_error
         | Some (v, _) => stored (from_json v json_zero)
         end
  end.

(** The values that survive: [good] says which. *)
Class JsonLaws (A : Type) `{!JsonType A} : Type := {
  good : A -> Prop;
  to_json_printable : forall a, good a -> printable (to_json a);
  from_to_json : forall a, good a -> from_json (valid_value (to_json a)) json_zero = (a, None)
}.

Section JsonTypes.
Context {A : Type} `{!JsonType A} {L : JsonLaws A}.

Lemma Unmarshal_Marshal a : good a -> json_Unmarshal (json_Marshal a) = Ok a.
Proof.
  intros Ha. unfold json_Unmarshal, json_Marshal. rewrite <- (app_nil_r (encode _)).
  rewrite parse_encode by (done || by apply to_json_printable). by rewrite from_to_json.
Qed.

Lemma Decode_Marshal a ws :
  good a -> ends_number ws = true -> json_Decode (json_Marshal a ++ ws) = Ok a.
Proof.
  intros Ha Hw. unfold json_Decode, json_Marshal.
  destruct (printable_reads _ (to_json_printable a Ha)) as [Hl Hr].
  destruct (Hr ws Hw) as (_ & Hs & Hp). rewrite Hs, Hp by (rewrite length_app; lia).
  rewrite from_to_json by done. destruct (encode (to_json a)); [cbn in Hl; lia|done].
Qed.

End JsonTypes.

#[export] Instance json_string : JsonType string := {|
  json_zero := "";
  to_json s := Str (bytes_of_string s);
  from_json v old := match v with
                     | Str s => (string_of_bytes s, None)
                     | Null => (old, None)
                     | _ => (old, Some type_error)
                     end
|}.

#[export] Instance json_bool : JsonType bool := {|
  json_zero := false;
  to_json := Bool;
  from_json v old := match v with
                     | Bool b => (b, None)
                     | Null => (old, None)
                     | _ => (old, Some type_error)
                     end
|}.

(** int, of 64 bits *)
#[export] Instance json_int : JsonType Z := {|
  json_zero := 0;
  to_json := Int;
  from_json v old := match v with
                     | Number t => match Atoi (string_of_bytes t) with
                                   | Ok z => (z, None)
                                   | _ => (old, Some type_error)
                                   end
                     | Null => (old, None)
                     | _ => (old, Some type_error)
                     end
|}.

(** Elements of a new slice. *)
Fixpoint from_items {A : Type} `{!JsonType A} (vs : list value) : list A * option error :=
  match vs with
  | [] => ([], None)
  | v :: vs' =>
      let (a, e) := from_json v json_zero in
      let (l, e') := from_items vs' in
      (a :: l, first_error e e')
  end.

(** A slice: [None] is nil. *)
#[export] Instance json_slice {A : Type} `{!JsonType A} : JsonType (option (list A)) := {|
  json_zero := None;
  to_json l := match l with
               | Some l => Array (map to_json l)
               | None => Null
               end;
  from_json v old := match v with
                     | Array vs => let (l, e) := from_items vs in (Some l, e)
                     | Null => (None, None)
                     | _ => (old, Some type_error)
                     end
|}.

(** The entries of a map in the order of their keys. *)
Definition key_le {A : Type} (x y : string * A) : Prop := String.leb x.1 y.1 = true.

#[export] Instance key_le_dec {A} (x y : string * A) : Decision (key_le x y).
Proof. unfold key_le. apply _. Defined.

Definition sorted_entries {A : Type} (m : gmap string A) : list (string * A) :=
  merge_sort key_le (map_to_list m).

(** Storing a member in a map. *)
Definition from_member {A : Type} `{!JsonType A} (s : gmap string A * option error)
  (m : list Z * value) : gmap string A * option error :=
  let (a, e) := from_json m.2 json_zero in
  (<[string_of_bytes m.1 := a]> s.1, first_error s.2 e).

(** A map with string keys: [None] is nil. *)
#[export] Instance json_map {A : Type} `{!JsonType A} : JsonType (option (gmap string A)) := {|
  json_zero := None;
  to_json m := match m with
               | Some m => Object (map (fun kv => (bytes_of_string kv.1, to_json kv.2)) (sorted_entries m))
               | None => Null
               end;
  from_json v old := match v with
                     | Object ms => let (m, e) := fold_left from_member ms (default ∅ old, None) in (Some m, e)
                     | Null => (None, None)
                     | _ => (old, Some type_error)
                     end
|}.

(** A field of a structure: its name and how a value is stored in it. *)
Definition json_field (S : Type) : Type := string * (value -> S -> S * option error).

Definition field {S B : Type} `{!JsonType B} (name : string) (get : S -> B) (set : B -> S -> S)
  : json_field S :=
  (name, fun v s => let (b, e) := from_json v (get s) in (set b s, e)).

(** A member of an object goes to the field of its name. *)
Fixpoint store_member {S : Type} (fs : list (json_field S)) (s : S * option error) (m : list Z * value)
  : S * option error :=
  match fs with
  | [] => s
  | f :: fs' =>
      if key_is f.1 m.1
      then let (x, e) := f.2 m.2 s.1 in (x, first_error s.2 e)
      else store_member fs' s m
  end.

Definition from_struct {S : Type} (fs : list (json_field S)) (v : value) (old : S) : S * option error :=
  match v with
  | Object ms => fold_left (store_member fs) ms (old, None)
  | Null => (old, None)
  | _ => (old, Some type_error)
  end.

(** ** Laws of the types *)

Definition good_string (s : string) : Prop := utf8_Valid (bytes_of_string s) = true.

Lemma good_string_id s : good_string s -> to_valid (bytes_of_string s) = bytes_of_string s.
Proof. apply to_valid_id. Qed.

#[export] Instance json_string_laws : JsonLaws string.
Proof.
  refine {| good := good_string |}.
  - intros s _. constructor. apply bytes_of_string_bytes.
  - intros s Hs. cbn. by rewrite good_string_id, string_of_bytes_of_string.
Defined.

#[export] Instance json_bool_laws : JsonLaws bool.
Proof. refine {| good := fun _ => True |}; [constructor|done]. Defined.

#[export] Instance json_int_laws : JsonLaws Z.
Proof.
  refine {| good := fun z => is_int64 z = true |}; [constructor|].
  intros z Hz. cbn. by rewrite string_of_bytes_of_string, Atoi_pretty.
Defined.

Lemma from_items_to {A} `{!JsonType A} {L : JsonLaws A} (l : list A) :
  Forall good l -> from_items (map valid_value (map to_json l)) = (l, None).
Proof.
  induction 1 as [|a l Ha Hl IH]; [done|]. cbn [map from_items]. by rewrite from_to_json, IH.
Qed.

#[export] Instance json_slice_laws {A} `{!JsonType A} {L : JsonLaws A} : JsonLaws (option (list A)).
Proof.
  refine {| good := fun l => match l with Some l => Forall good l | None => True end |}.
  - intros [l|] Hl; constructor. clear -Hl L. induction Hl; constructor; [by apply to_json_printable|done].
  - intros [l|] Hl; [|done]. cbn. by rewrite from_items_to.
Defined.

Lemma sorted_entries_perm {A} (m : gmap string A) : sorted_entries m ≡ₚ map_to_list m.
Proof. apply merge_sort_Permutation. Qed.

Lemma from_entries {A} `{!JsonType A} {L : JsonLaws A} (l : list (string * A)) (m0 : gmap string A) :
  NoDup l.*1 -> (forall k, k ∈ l.*1 -> m0 !! k = None) ->
  Forall (fun kv => good_string kv.1 /\ good kv.2) l ->
  fold_left from_member
    (map (fun m => (to_valid m.1, valid_value m.2)) (map (fun kv => (bytes_of_string kv.1, to_json kv.2)) l))
    (m0, None) = (list_to_map l ∪ m0, None).
Proof.
  revert m0. induction l as [|[k a] l IH]; intros m0 Hd H0 Hg; cbn [map fold_left list_to_map foldr].
  - by rewrite (left_id_L ∅ (∪)).
  - apply Forall_cons in Hg as [[Hk Ha] Hg]. cbn [fmap list_fmap fst] in Hd. apply NoDup_cons in Hd as [Hn Hd].
    unfold from_member at 2. cbn [fst snd]. rewrite from_to_json by done.
    rewrite good_string_id, string_of_bytes_of_string by done. cbn [first_error].
    rewrite IH; [|done| |done].
    + f_equal. cbn [uncurry fst snd]. rewrite <- insert_union_l, insert_union_r by by apply not_elem_of_list_to_map_1. done.
    + intros k' Hk'. rewrite lookup_insert_ne; [apply H0; by right|]. intros <-. done.
Qed.

#[export] Instance json_map_laws {A} `{!JsonType A} {L : JsonLaws A} : JsonLaws (option (gmap string A)).
Proof.
  refine {| good := fun m => match m with
                             | Some m => map_Forall (fun k a => good_string k /\ good a) m
                             | None => True
                             end |}.
  - intros [m|] Hm; constructor. apply Forall_map, Forall_forall. intros [k a] Hi. cbn [fst snd].
    rewrite sorted_entries_perm, elem_of_map_to_list in Hi. destruct (Hm k a Hi) as [_ Ha].
    split; [apply bytes_of_string_bytes|by apply to_json_printable].
  - intros [m|] Hm; [|done]. cbn [to_json json_map valid_value from_json json_zero default].
    rewrite from_entries.
    + cbn. rewrite (right_id_L ∅ (∪)). do 2 f_equal. rewrite <- (list_to_map_to_list m) at 2.
      apply list_to_map_proper; [|apply sorted_entries_perm].
      rewrite sorted_entries_perm. apply NoDup_fst_map_to_list.
    + rewrite sorted_entries_perm. apply NoDup_fst_map_to_list.
    + intros k _. apply lookup_empty.
    + apply Forall_forall. intros [k a] Hi. rewrite sorted_entries_perm, elem_of_map_to_list in Hi.
      exact (Hm k a Hi).
Defined.

(** A structure is stored field by field. *)
Lemma store_here {S B} `{!JsonType B} {L : JsonLaws B} name (get : S -> B) set fs (s : S) b :
  get s = json_zero -> good b ->
  store_member (field name get set :: fs) (s, None) (bytes_of_string name, valid_value (to_json b)) =
  (set b s, None).
Proof.
  intros Hz Hb. cbn [store_member field fst snd]. unfold key_is. rewrite bool_decide_true by done.
  by rewrite Hz, from_to_json.
Qed.

Lemma store_later {S} (f : json_field S) fs s k v :
  key_is f.1 (bytes_of_string k) = false ->
  store_member (f :: fs) s (bytes_of_string k, v) = store_member fs s (bytes_of_string k, v).
Proof. intros Hk. cbn [store_member fst]. by rewrite Hk. Qed.

Lemma store_cons {S} (fs : list (json_field S)) m ms s s' y :
  store_member fs s m = s' -> fold_left (store_member fs) ms s' = y ->
  fold_left (store_member fs) (m :: ms) s = y.
Proof. by intros <- <-. Qed.

(** The next member of an object, when its field is known. *)
Ltac store_field :=
  eapply store_cons;
  [repeat (rewrite store_later by reflexivity); apply store_here; [reflexivity|assumption]|].
