(* ===== verification/Machine.v ===== *)
(** * The Machine interface (bmc_server.go)

    [PowerStatus] and the [Machine] interface the two BMC front ends (IPMI and
    Redfish) are written against, the promises a reliable machine makes, and the
    abstract power specification both front ends are compared with. *)

From S2P Require Import Prelude.

Local Open Scope Z_scope.
Local Open Scope go_scope.

(** bmc_server.go: [type PowerStatus string] and its constants. *)
Inductive PowerStatus : Type :=
| PowerStatusOn
| PowerStatusPoweringOn
| PowerStatusOff
| PowerStatusPoweringOff
| PowerStatusUnknown.

#[export] Instance PowerStatus_eq_dec : EqDecision PowerStatus.
Proof. solve_decision. Defined.

(** The wire values of the constants. *)
Definition PowerStatus_string (p : PowerStatus) : string :=
  match p with
  | PowerStatusOn => "On"
  | PowerStatusPoweringOn => "PoweringOn"
  | PowerStatusOff => "Off"
  | PowerStatusPoweringOff => "PoweringOff"
  | PowerStatusUnknown => "Unknown"
  end.

(** bmc_server.go: [type Machine interface]; the state is the machine's. *)
Class Machine (M : Type) : Type := {
  machine_PowerStatus : st M PowerStatus;
  machine_PowerOn : st M unit;
  machine_PowerOff : st M unit
}.

(** [powerStatus == PowerStatusOn || powerStatus == PowerStatusPoweringOn] *)
Definition powered_on (p : PowerStatus) : bool :=
  bool_decide (p = PowerStatusOn) || bool_decide (p = PowerStatusPoweringOn).
(** [powerStatus == PowerStatusOff || powerStatus == PowerStatusPoweringOff] *)
Definition powered_off (p : PowerStatus) : bool :=
  bool_decide (p = PowerStatusOff) || bool_decide (p = PowerStatusPoweringOff).

(** A machine whose operations succeed when they are due: [is_on] is its power
    state, powering on is due when it is off and powering off when it is on. *)
Class ReliableMachine (M : Type) `{!Machine M} : Type := {
  is_on : M -> bool;
  status_reliable : forall m, exists m',
    machine_PowerStatus m = (Ok (if is_on m then PowerStatusOn else PowerStatusOff), m') /\
    is_on m' = is_on m;
  on_reliable : forall m, is_on m = false ->
    exists m', machine_PowerOn m = (Ok tt, m') /\ is_on m' = true;
  off_reliable : forall m, is_on m = true ->
    exists m', machine_PowerOff m = (Ok tt, m') /\ is_on m' = false
}.

(** ** The abstract power specification *)

Module Power.

(** What a management request asks of the machine. *)
Inductive request : Type :=
| PowerUp
| PowerDown
| PowerCycle
| NoChange.

(** The answer of a machine that is on or off: refused when there is nothing to
    do, otherwise the new power state. *)
Definition answer (r : request) (on : bool) : option bool :=
  match r, on with
  | PowerUp, true => None
  | PowerUp, false => Some true
  | PowerDown, true => Some false
  | PowerDown, false => None
  | PowerCycle, true => Some true
  | PowerCycle, false => None
  | NoChange, b => Some b
  end.

(** The specification of a stateful handler [h] of request [r]: it accepts
    exactly when [answer] does, and leaves the machine as [answer] says. *)
Definition implements {M A : Type} `{ReliableMachine M} (accepted : A -> bool)
  (h : st M A) (r : request) : Prop :=
  forall m, exists a m', h m = (Ok a, m') /\
    match answer r (is_on m) with
    | Some on' => accepted a = true /\ is_on m' = on'
    | None => accepted a = false /\ is_on m' = is_on m
    end.

End Power.

(** ** The mock machine of bmc_server_test.go *)

Record MachineMock : Type := { mock_status : PowerStatus }.

#[export] Instance MachineMock_Machine : Machine MachineMock := {|
  machine_PowerStatus := fun v => (Ok (mock_status v), v);
  machine_PowerOn := fun _ => (Ok tt, {| mock_status := PowerStatusOn |});
  machine_PowerOff := fun _ => (Ok tt, {| mock_status := PowerStatusOff |})
|}.

(** The mock restricted to the two stable states. *)
Record TwoStateMock : Type := { tsm_on : bool }.

#[export] Instance TwoStateMock_Machine : Machine TwoStateMock := {|
  machine_PowerStatus :=
    fun v => (Ok (if tsm_on v then PowerStatusOn else PowerStatusOff), v);
  machine_PowerOn := fun _ => (Ok tt, {| tsm_on := true |});
  machine_PowerOff := fun _ => (Ok tt, {| tsm_on := false |})
|}.

#[export] Instance TwoStateMock_Reliable : ReliableMachine TwoStateMock.
Proof.
  refine {| is_on := tsm_on |}.
  - intros m. by exists m.
  - intros m _. by exists {| tsm_on := true |}.
  - intros m _. by exists {| tsm_on := false |}.
Defined.

Lemma powered_on_status (b : bool) :
  powered_on (if b then PowerStatusOn else PowerStatusOff) = b.
Proof. by destruct b. Qed.

Lemma powered_off_status (b : bool) :
  powered_off (if b then PowerStatusOn else PowerStatusOff) = negb b.
Proof. by destruct b. Qed.
