(* ===== verification/Session.v ===== *)
(** * Sessions and users of the virtual BMC (rmcp_plus_session.go, bmc_user.go)

    The BMC's mutable state: the map of RMCP+ sessions, the position in the
    entropy stream and the machine.  A [*rmcpPlusSession] held by a handler
    aliases the map's entry, so the handlers' field assignments are inserts. *)

From S2P Require Import Prelude GoBinary GoCrypto Machine.

Local Open Scope Z_scope.
Local Open Scope go_scope.

Record rmcpPlusSession : Type := RmcpPlusSession {
  s_RemoteConsoleSessionId : Z;
  s_ManagedSystemSessionId : Z;
  s_RemoteConsoleRandomNumber : list Z;
  s_ManagedSystemRandomNumber : list Z;
  s_RequestedPrivilegeLevel : Z;
  s_ManagedSystemGuid : list Z;
  s_UserName : list Z;
  s_UserNameLength : Z;
  s_SessionIntegrityKey : list Z;
  s_IntegrityKey : list Z;
  s_ConfidentialityKey : list Z
}.

(** [&rmcpPlusSession{}]: the zero value. *)
Definition zero_session : rmcpPlusSession :=
  {| s_RemoteConsoleSessionId := 0;
     s_ManagedSystemSessionId := 0;
     s_RemoteConsoleRandomNumber := zeros 16;
     s_ManagedSystemRandomNumber := zeros 16;
     s_RequestedPrivilegeLevel := 0;
     s_ManagedSystemGuid := zeros 16;
     s_UserName := [];
     s_UserNameLength := 0;
     s_SessionIntegrityKey := [];
     s_IntegrityKey := [];
     s_ConfidentialityKey := [] |}.

(** bmc_user.go *)
Record bmcUser : Type := BmcUser { Username : string; Password : string }.

Abbreviation bmcUserHolder := (gmap string bmcUser).

Definition newBMCUserHolder : bmcUserHolder := ∅.
Definition addBMCUser (b : bmcUserHolder) (name password : string) : bmcUserHolder :=
  <[name := {| Username := name; Password := password |}]> b.
Definition getBMCUser (b : bmcUserHolder) (name : string) : option bmcUser := b !! name.

(** The state of one BMC. *)
Record bmc (M : Type) : Type := Bmc {
  sessions : gmap Z rmcpPlusSession;
  rnd : nat;
  machine : M
}.
Arguments Bmc {M}.
Arguments sessions {M}.
Arguments rnd {M}.
Arguments machine {M}.

Definition newRMCPPlusSessionHolder : gmap Z rmcpPlusSession := ∅.

Section Sessions.
Context {M : Type} (ent : entropy).

Definition set_sessions (ss : gmap Z rmcpPlusSession) (s : bmc M) : bmc M :=
  {| sessions := ss; rnd := rnd s; machine := machine s |}.

(** Assigning fields through a session pointer. *)
Definition store_session (id : Z) (v : rmcpPlusSession) : st (bmc M) unit :=
  fun s => (Ok tt, set_sessions (<[id := v]> (sessions s)) s).

(** [rand.Read] on the BMC's entropy. *)
Definition bmc_rand (n : nat) : st (bmc M) (list Z) :=
  fun s => let (o, pos) := rand_Read ent n (rnd s) in
           (o, {| sessions := sessions s; rnd := pos; machine := machine s |}).

(** A call on the machine. *)
Definition on_machine {A : Type} (m : st M A) : st (bmc M) A :=
  fun s => let (o, m') := m (machine s) in
           (o, {| sessions := sessions s; rnd := rnd s; machine := m' |}).

Definition generateRandomUint32 : st (bmc M) Z :=
  let* b := bmc_rand 4 in
  slift (let! (num, _) := binary_Read u32c b in Ok num).

Definition getRMCPPlusSession (id : Z) : st (bmc M) (option rmcpPlusSession) :=
  fun s => (Ok (sessions s !! id), s).

(** The loop of [getNewRMCPPlusSession]: draw until the id is not in use. *)
Fixpoint new_session_id (fuel : nat) (sessionId : Z) : st (bmc M) Z :=
  match fuel with
  | O => slift Diverge
  | S fuel' =>
      let* found := getRMCPPlusSession sessionId in
      match found with
      | Some _ => let* sessionId' := generateRandomUint32 in new_session_id fuel' sessionId'
      | None => sret sessionId
      end
  end.

Definition getNewRMCPPlusSession (fuel : nat) (remoteConsoleSessionId : Z)
  : st (bmc M) rmcpPlusSession :=
  let* sessionId0 := generateRandomUint32 in
  let* sessionId := new_session_id fuel sessionId0 in
  let session :=
    {| s_RemoteConsoleSessionId := remoteConsoleSessionId;
       s_ManagedSystemSessionId := sessionId;
       s_RemoteConsoleRandomNumber := s_RemoteConsoleRandomNumber zero_session;
       s_ManagedSystemRandomNumber := s_ManagedSystemRandomNumber zero_session;
       s_RequestedPrivilegeLevel := s_RequestedPrivilegeLevel zero_session;
       s_ManagedSystemGuid := s_ManagedSystemGuid zero_session;
       s_UserName := s_UserName zero_session;
       s_UserNameLength := s_UserNameLength zero_session;
       s_SessionIntegrityKey := s_SessionIntegrityKey zero_session;
       s_IntegrityKey := s_IntegrityKey zero_session;
       s_ConfidentialityKey := s_ConfidentialityKey zero_session |} in
  store_session sessionId session >>>
  sret session.

Definition removeRMCPPlusSession (id : Z) : st (bmc M) unit :=
  let* found := getRMCPPlusSession id in
  match found with
  | Some _ => fun s => (Ok tt, set_sessions (delete id (sessions s)) s)
  | None => sret tt
  end.

End Sessions.

(** ** Drawing identifiers *)

(** The [k]-th identifier drawn from position [pos]. *)
Definition draw (ent : entropy) (pos k : nat) : Z := le_value (ent_bytes ent (pos + 4 * k) 4).

Definition advance {M : Type} (n : nat) (s : bmc M) : bmc M :=
  {| sessions := sessions s; rnd := (rnd s + n)%nat; machine := machine s |}.

(** The session [getNewRMCPPlusSession] creates. *)
Definition opened_session (remoteConsoleSessionId sessionId : Z) : rmcpPlusSession :=
  {| s_RemoteConsoleSessionId := remoteConsoleSessionId;
     s_ManagedSystemSessionId := sessionId;
     s_RemoteConsoleRandomNumber := zeros 16;
     s_ManagedSystemRandomNumber := zeros 16;
     s_RequestedPrivilegeLevel := 0;
     s_ManagedSystemGuid := zeros 16;
     s_UserName := [];
     s_UserNameLength := 0;
     s_SessionIntegrityKey := [];
     s_IntegrityKey := [];
     s_ConfidentialityKey := [] |}.

Section SessionLemmas.
Context {M : Type} (ent : entropy).
Implicit Types s : bmc M.

Lemma draw_u32 pos k : is_u32 (draw ent pos k) = true.
Proof.
  apply is_u32_spec. unfold draw.
  pose proof (le_value_bound (ent_bytes ent (pos + 4 * k) 4) (ent_bytes_bytes _ _ _)) as H.
  rewrite ent_bytes_length in H. change (256 ^ Z.of_nat 4) with 4294967296 in H. lia.
Qed.

Lemma draw_advance pos k : draw ent (pos + 4) k = draw ent pos (S k).
Proof. unfold draw. by replace (pos + 4 + 4 * k)%nat with (pos + 4 * S k)%nat by lia. Qed.

Lemma generateRandomUint32_ok s :
  ent_fail ent (rnd s) = None ->
  generateRandomUint32 ent s = (Ok (draw ent (rnd s) 0), advance 4 s).
Proof.
  intros H. unfold generateRandomUint32, sbind, bmc_rand, rand_Read. rewrite H.
  unfold slift. rewrite binary_Read_total by (rewrite ent_bytes_length; done).
  unfold draw. simpl. by rewrite Nat.add_0_r.
Qed.

(** Whatever it returns is the draw at the current position. *)
Lemma generateRandomUint32_inv s id s' :
  generateRandomUint32 ent s = (Ok id, s') ->
  is_u32 id = true /\ sessions s' = sessions s /\ machine s' = machine s.
Proof.
  destruct (ent_fail ent (rnd s)) eqn:E.
  - unfold generateRandomUint32, sbind, bmc_rand, rand_Read. by rewrite E.
  - rewrite generateRandomUint32_ok by done. intros [= <- <-]. by rewrite draw_u32.
Qed.

(** Code that touches neither the sessions nor the machine. *)
Definition only_rnd (s s' : bmc M) : Prop :=
  sessions s' = sessions s /\ machine s' = machine s.

#[global] Instance only_rnd_preorder : PreOrder only_rnd.
Proof. split; [done|]. intros s1 s2 s3 [? ?] [? ?]. split; congruence. Qed.

Lemma bmc_rand_only_rnd n : preserves only_rnd (bmc_rand ent n).
Proof.
  intros s o s'. unfold bmc_rand. destruct (rand_Read ent n (rnd s)). by intros [= <- <-].
Qed.

Lemma getRMCPPlusSession_only_rnd id : preserves only_rnd (getRMCPPlusSession (M := M) id).
Proof. intros s o s' [= <- <-]. done. Qed.

Hint Resolve bmc_rand_only_rnd getRMCPPlusSession_only_rnd : preserves.

Lemma generateRandomUint32_only_rnd : preserves only_rnd (generateRandomUint32 (M := M) ent).
Proof. unfold generateRandomUint32. preserves. Qed.

Hint Resolve generateRandomUint32_only_rnd : preserves.

Lemma new_session_id_only_rnd fuel id : preserves only_rnd (new_session_id (M := M) ent fuel id).
Proof.
  revert id; induction fuel as [|fuel IH]; intros id; simpl; preserves.
Qed.

(** The identifier the loop settles on is not in use. *)
Lemma new_session_id_fresh fuel id s id' s' :
  is_u32 id = true -> new_session_id ent fuel id s = (Ok id', s') ->
  is_u32 id' = true /\ sessions s !! id' = None.
Proof.
  revert id s; induction fuel as [|fuel IH]; intros id s Hid; simpl; [done|].
  unfold sbind at 1, getRMCPPlusSession. destruct (sessions s !! id) eqn:E.
  - intros H. apply sbind_ok in H as (id1 & s1 & H1 & H2).
    apply generateRandomUint32_inv in H1 as (Hu & Hs & _).
    apply IH in H2; [|done]. by rewrite Hs in H2.
  - by intros [= <- <-].
Qed.

Lemma getNewRMCPPlusSession_ok fuel rc s v s' :
  getNewRMCPPlusSession ent fuel rc s = (Ok v, s') ->
  exists id, v = opened_session rc id /\ is_u32 id = true /\ sessions s !! id = None /\
    sessions s' = <[id := v]> (sessions s) /\ machine s' = machine s.
Proof.
  unfold getNewRMCPPlusSession. intros H.
  apply sbind_ok in H as (id0 & s1 & H1 & H2).
  apply generateRandomUint32_inv in H1 as (Hu0 & Hs1 & Hm1).
  apply sbind_ok in H2 as (id & s2 & H2 & H3).
  pose proof (new_session_id_only_rnd _ _ _ _ _ H2) as [Hs2 Hm2].
  apply new_session_id_fresh in H2 as [Hu Hfr]; [|done].
  unfold sbind, store_session, sret in H3. injection H3 as <- <-.
  exists id. simpl. rewrite Hs1 in Hfr. split_and!; try done; congruence.
Qed.

(** Pigeonhole: pairwise different identifiers, one more than the sessions,
    cannot all be in use. *)
Lemma distinct_draws_unused (ss : gmap Z rmcpPlusSession) (f : nat -> Z) :
  NoDup (f <$> seq 0 (S (size ss))) -> exists k, (k <= size ss)%nat /\ ss !! f k = None.
Proof.
  intros Hnd.
  destruct (decide (Forall (fun i => is_Some (ss !! f i)) (seq 0 (S (size ss))))) as [H|H].
  - exfalso.
    assert (Hsub : (list_to_set (f <$> seq 0 (S (size ss))) : gset Z) ⊆ dom ss).
    { intros x Hx. apply elem_of_list_to_set in Hx.
      apply list_elem_of_fmap in Hx as (i & -> & Hi).
      rewrite Forall_forall in H. by apply elem_of_dom, H. }
    apply subseteq_size in Hsub.
    rewrite size_list_to_set, length_fmap, length_seq, size_dom in Hsub by done. lia.
  - apply not_Forall_Exists in H; [|intros i; apply _].
    apply Exists_exists in H as (i & Hi & Hni). apply elem_of_seq in Hi.
    exists i. split; [lia|]. by apply eq_None_not_Some.
Qed.

(** The loop on an entropy source that does not fail: it looks at the draws from
    position [rnd s] on and stops at the first one not in use. *)
Lemma new_session_id_scan fuel s :
  (forall i, ent_fail ent i = None) ->
  forall p, rnd s = (p + 4)%nat ->
  match find (fun i => bool_decide (sessions s !! draw ent p i = None)) (seq 0 fuel) with
  | Some k => new_session_id ent fuel (draw ent p 0) s =
                (Ok (draw ent p k), advance (4 * k) s)
  | None => (new_session_id ent fuel (draw ent p 0) s).1 = Diverge
  end.
Proof.
  intros Hnf. revert s. induction fuel as [|fuel IH]; intros s p Hp; [done|].
  cbn [new_session_id seq find]. unfold sbind at 1 3, getRMCPPlusSession.
  destruct (sessions s !! draw ent p 0) as [v|] eqn:E.
  - rewrite bool_decide_false by done. unfold sbind.
    rewrite generateRandomUint32_ok by done. rewrite Hp, draw_advance.
    specialize (IH (advance 4 s) (p + 4)%nat). cbn [advance rnd sessions] in IH.
    specialize (IH ltac:(lia)). rewrite draw_advance in IH.
    assert (Hfind : forall l, find (fun i => bool_decide (sessions s !! draw ent p i = None))
                                (map S l) =
      S <$> find (fun i => bool_decide (sessions s !! draw ent (p + 4) i = None)) l).
    { induction l as [|x l IHl]; [done|]. cbn [map find]. rewrite draw_advance.
      by case_bool_decide. }
    rewrite <- seq_shift, Hfind.
    destruct (find _ (seq 0 fuel)) as [k|]; cbn [fmap option_fmap option_map];
      unfold advance in *; cbn [rnd sessions machine] in *; [|done].
    rewrite IH, draw_advance. by replace (rnd s + 4 + 4 * k)%nat with (rnd s + 4 * S k)%nat by lia.
  - rewrite bool_decide_true by done. unfold sret, advance. destruct s; cbn [rnd] in *.
    rewrite Nat.mul_0_r, Nat.add_0_r. done.
Qed.

Lemma getNewRMCPPlusSession_scan fuel rc s :
  (forall i, ent_fail ent i = None) ->
  match find (fun i => bool_decide (sessions s !! draw ent (rnd s) i = None)) (seq 0 fuel) with
  | Some k => getNewRMCPPlusSession ent fuel rc s =
      let v := opened_session rc (draw ent (rnd s) k) in
      (Ok v, set_sessions (<[draw ent (rnd s) k := v]> (sessions s)) (advance (4 * S k) s))
  | None => (getNewRMCPPlusSession ent fuel rc s).1 = Diverge
  end.
Proof.
  intros Hnf. pose proof (new_session_id_scan fuel (advance 4 s) Hnf (rnd s) eq_refl) as H.
  cbn [advance sessions] in H.
  destruct (find _ _) as [k|]; unfold getNewRMCPPlusSession, sbind;
    rewrite generateRandomUint32_ok by done.
  - rewrite H. unfold store_session, sret, set_sessions, advance. cbn [sessions rnd machine].
    by replace (rnd s + 4 + 4 * k)%nat with (rnd s + 4 * S k)%nat by lia.
  - by destruct (new_session_id _ _ _ _) as [[] ?].
Qed.

End SessionLemmas.

#[export] Hint Resolve bmc_rand_only_rnd getRMCPPlusSession_only_rnd
  generateRandomUint32_only_rnd new_session_id_only_rnd : preserves.

(** ** Properties *)

Lemma find_seq_first (f : nat -> bool) n k :
  find f (seq 0 n) = Some k ->
  (k < n)%nat /\ f k = true /\ forall i, (i < k)%nat -> f i = false.
Proof.
  enough (H : forall a, find f (seq a n) = Some k -> (a <= k < a + n)%nat /\ f k = true /\
    forall i, (a <= i < k)%nat -> f i = false).
  { intros E. destruct (H 0%nat E) as (? & ? & Hi). split_and!; [lia|done|].
    intros i Hik. apply Hi. lia. }
  induction n as [|n IH]; intros a; cbn [seq find]; [done|].
  destruct (f a) eqn:E.
  - intros [= ->]. split_and!; [lia..|done|]. intros i Hi. lia.
  - intros H. destruct (IH _ H) as (? & ? & Hi). split_and!; [lia..|done|].
    intros i Hia. destruct (Nat.eq_dec i a) as [->|]; [done|]. apply Hi. lia.
Qed.

(** Opening a session with working entropy.  The identifier is the first draw
    that no session uses; the new session is the zero session with the client's
    and that identifier, stored under it with every other session kept, and four
    bytes of entropy are consumed per draw; the loop keeps drawing exactly while
    every draw is in use. *)
Theorem getNewRMCPPlusSession_draws {M : Type} (ent : entropy) (fuel : nat) (rc : Z)
  (s : bmc M) :
  (forall i, ent_fail ent i = None) ->
  (exists k, (k < fuel)%nat /\
     sessions s !! draw ent (rnd s) k = None /\
     (forall i, (i < k)%nat -> is_Some (sessions s !! draw ent (rnd s) i)) /\
     getNewRMCPPlusSession ent fuel rc s =
       let v := opened_session rc (draw ent (rnd s) k) in
       (Ok v, set_sessions (<[draw ent (rnd s) k := v]> (sessions s)) (advance (4 * S k) s))) \/
  ((forall i, (i < fuel)%nat -> is_Some (sessions s !! draw ent (rnd s) i)) /\
   (getNewRMCPPlusSession ent fuel rc s).1 = Diverge).
Proof.
  intros Hnf. pose proof (getNewRMCPPlusSession_scan ent fuel rc s Hnf) as H.
  destruct (find _ _) as [k|] eqn:E.
  - left. apply find_seq_first in E as (Hk & Hn & Hi). exists k. split_and!; try done.
    + by apply bool_decide_eq_true in Hn.
    + intros i Hik. specialize (Hi i Hik). apply bool_decide_eq_false in Hi.
      by apply not_eq_None_Some.
  - right. split; [|done]. intros i Hi. pose proof (find_none _ _ E i) as Hf.
    specialize (Hf ltac:(apply in_seq; lia)). apply bool_decide_eq_false in Hf.
    by apply not_eq_None_Some.
Qed.

(** Entropy that delivers 0, 1, 2, ... and never fails. *)
Definition counting_entropy : entropy :=
  {| ent_byte := fun i => Z.of_nat i; ent_fail := fun _ => None |}.

(** A BMC whose first two draws are taken. *)
Definition two_sessions : bmc unit :=
  Bmc {[ 0x03020100 := opened_session 1 0x03020100; 0x07060504 := opened_session 2 0x07060504 ]}
      0 tt.

Lemma getNewRMCPPlusSession_draws_witness :
  (forall i, ent_fail counting_entropy i = None) /\
  ((exists k, (k < 5)%nat /\
     sessions two_sessions !! draw counting_entropy 0 k = None /\
     (forall i, (i < k)%nat -> is_Some (sessions two_sessions !! draw counting_entropy 0 i)) /\
     getNewRMCPPlusSession counting_entropy 5 9 two_sessions =
       let v := opened_session 9 (draw counting_entropy 0 k) in
       (Ok v, set_sessions (<[draw counting_entropy 0 k := v]> (sessions two_sessions))
                (advance (4 * S k) two_sessions))) \/
   ((forall i, (i < 5)%nat -> is_Some (sessions two_sessions !! draw counting_entropy 0 i)) /\
    (getNewRMCPPlusSession counting_entropy 5 9 two_sessions).1 = Diverge)).
Proof.
  split; [done|]. exact (getNewRMCPPlusSession_draws counting_entropy 5 9 two_sessions (fun _ => eq_refl)).
Defined.

(** Termination of the identifier loop.  If the entropy works and delivers
    more pairwise different identifiers than there are sessions, one draw per
    session plus one is enough: the loop ends and the new identifier is fresh. *)
Theorem getNewRMCPPlusSession_terminates {M : Type} (ent : entropy) (fuel : nat) (rc : Z)
  (s : bmc M) :
  (forall i, ent_fail ent i = None) ->
  NoDup (draw ent (rnd s) <$> seq 0 (S (size (sessions s)))) ->
  (size (sessions s) < fuel)%nat ->
  exists v s', getNewRMCPPlusSession ent fuel rc s = (Ok v, s') /\
    sessions s !! s_ManagedSystemSessionId v = None /\
    is_u32 (s_ManagedSystemSessionId v) = true /\
    sessions s' = <[s_ManagedSystemSessionId v := v]> (sessions s) /\
    (rnd s' <= rnd s + 4 * S (size (sessions s)))%nat.
Proof.
  intros Hnf Hnd Hfuel. pose proof (getNewRMCPPlusSession_scan ent fuel rc s Hnf) as H.
  destruct (distinct_draws_unused _ _ Hnd) as (j & Hj & Hfree).
  destruct (find _ _) as [k|] eqn:E.
  - apply find_seq_first in E as (Hk & Hn & Hi). apply bool_decide_eq_true in Hn.
    eexists _, _. split; [exact H|]. cbn. split_and!; [done|apply draw_u32|done|].
    assert (~ (j < k)%nat); [|lia]. intros Hjk. specialize (Hi j Hjk).
    by apply bool_decide_eq_false in Hi.
  - pose proof (find_none _ _ E j) as Hf. specialize (Hf ltac:(apply in_seq; lia)).
    by apply bool_decide_eq_false in Hf.
Qed.

Lemma getNewRMCPPlusSession_terminates_witness :
  NoDup (draw counting_entropy 0 <$> seq 0 3) /\
  exists v s', getNewRMCPPlusSession counting_entropy 3 9 two_sessions = (Ok v, s') /\
    sessions two_sessions !! s_ManagedSystemSessionId v = None /\
    is_u32 (s_ManagedSystemSessionId v) = true /\
    sessions s' = <[s_ManagedSystemSessionId v := v]> (sessions two_sessions) /\
    (rnd s' <= 12)%nat.
Proof.
  assert (H : NoDup (draw counting_entropy 0 <$> seq 0 3)).
  { apply (proj1 (bool_decide_eq_true _)). vm_compute. reflexivity. }
  split; [exact H|].
  apply (getNewRMCPPlusSession_terminates counting_entropy 3 9 two_sessions (fun _ => eq_refl) H).
  vm_compute. lia.
Defined.
