(* ===== verification/Ipmi.v ===== *)
(** * IPMI messages (ipmi.go, ipmi_app.go, ipmi_chassis.go)

    The message format with its two checksums, and the commands of the App and
    Chassis network functions.  The handlers run on the BMC's state; an error of
    a command becomes a completion code of the response, as in the source.
    Logging is not modelled. *)

From S2P Require Import Prelude GoBinary GoCrypto Machine Session.

Local Open Scope Z_scope.
Local Open Scope go_scope.

(** ** Constants *)

Definition ipmiNetFNChassis : Z := 0x00.
Definition ipmiNetFNApp : Z := 0x06.
Definition ipmiNetFNResponse : Z := 0x01.

Definition completionCodeOK : Z := 0x00.
Definition completionCodeCouldNotExecuteCommand : Z := 0xd5.

Definition ipmiMessageHeaderLength : Z := 6.

Definition ipmiCmdGetChannelAuthCapabilities : Z := 0x38.
Definition ipmiCmdSetSessionPrivilege : Z := 0x3b.
Definition ipmiCmdCloseSession : Z := 0x3c.

Definition authBitmaskNone : Z := 0x01.
Definition authBitmaskMD2 : Z := 0x02.
Definition authBitmaskMD5 : Z := 0x04.
Definition authBitmaskIPMIV2 : Z := 0x80.
Definition authStatusNullUser : Z := 0x02.
Definition authStatusNonNullUser : Z := 0x04.
Definition extendedCapabilitiesChannel20 : Z := 0x02.

Definition ipmiCmdGetChassisStatus : Z := 0x01.
Definition ipmiCmdChassisControl : Z := 0x02.
Definition chassisControlPowerDown : Z := 0x00.
Definition chassisControlPowerUp : Z := 0x01.
Definition chassisControlPowerCycle : Z := 0x02.
Definition chassisControlHardReset : Z := 0x03.
Definition chassisControlPulse : Z := 0x04.
Definition chassisControlPowerSoft : Z := 0x05.
Definition chassisPowerStateBitmaskPowerOn : Z := 0x01.

(** ** The message *)

Record ipmiMessage : Type := IpmiMessage {
  m_TargetAddress : Z;
  m_TargetLun : Z;
  m_Checksum : Z;
  m_SourceAddress : Z;
  m_SourceLun : Z;
  m_Command : Z;
  m_CompletionCode : Z;
  m_Data : list Z;
  m_DataChecksum : Z
}.

Definition deserializeIPMIMessage (buf : list Z) (ipmiMessageLen : Z)
  : outcome (ipmiMessage * list Z) :=
  let! (targetAddress, buf) := owrap "failed to read TargetAddress" (binary_Read u8c buf) in
  let! (targetLun, buf) := owrap "failed to read TargetLun" (binary_Read u8c buf) in
  let! (checksum, buf) := owrap "failed to read Checksum" (binary_Read u8c buf) in
  let! (sourceAddress, buf) := owrap "failed to read SourceAddress" (binary_Read u8c buf) in
  let! (sourceLun, buf) := owrap "failed to read SourceLun" (binary_Read u8c buf) in
  let! (command, buf) := owrap "failed to read Command" (binary_Read u8c buf) in
  let dataLen := ipmiMessageLen - ipmiMessageHeaderLength - 1 in
  let! (data, buf) :=
    if 0 <? dataLen
    then owrap "failed to read Data" (io_ReadFull (Z.to_nat dataLen) buf)
    else Ok ([], buf) in
  let! (dataChecksum, buf) := owrap "failed to read DataChecksum" (binary_Read u8c buf) in
  Ok ({| m_TargetAddress := targetAddress;
         m_TargetLun := targetLun;
         m_Checksum := checksum;
         m_SourceAddress := sourceAddress;
         m_SourceLun := sourceLun;
         m_Command := command;
         m_CompletionCode := 0;
         m_Data := data;
         m_DataChecksum := dataChecksum |}, buf).

Definition newIPMI (buf : list Z) (ipmiMessageLen : Z) : outcome (ipmiMessage * list Z) :=
  owrap "failed to desetialize ipmi message " (deserializeIPMIMessage buf ipmiMessageLen).

Definition isNetFunctionResponse (targetLun : Z) : bool :=
  Z.land (Z.shiftr targetLun 2) ipmiNetFNResponse =? ipmiNetFNResponse.

Definition serializeIPMIMessage (buf : list Z) (message : ipmiMessage) : outcome (list Z) :=
  let! buf := owrap "failed to write TargetAddress"
                (binary_Write u8c buf (m_TargetAddress message)) in
  let! buf := owrap "failed to write TargetLun" (binary_Write u8c buf (m_TargetLun message)) in
  let! buf := owrap "failed to write Checksum" (binary_Write u8c buf (m_Checksum message)) in
  let! buf := owrap "failed to write SourceAddress"
                (binary_Write u8c buf (m_SourceAddress message)) in
  let! buf := owrap "failed to write SourceLun" (binary_Write u8c buf (m_SourceLun message)) in
  let! buf := owrap "failed to write Command" (binary_Write u8c buf (m_Command message)) in
  let! buf :=
    if isNetFunctionResponse (m_TargetLun message)
    then owrap "failed to write CompletionCode"
           (binary_Write u8c buf (m_CompletionCode message))
    else Ok buf in
  let buf := buf ++ m_Data message in
  owrap "failed to write DataCheckSum" (binary_Write u8c buf (m_DataChecksum message)).

(** [sum += uint32(b)] for the bytes of [l]. *)
Definition sum_u32 (sum : Z) (l : list Z) : Z := fold_left (fun a b => u32 (a + b)) l sum.

Definition serializeIPMI (buf : list Z) (message : ipmiMessage) : outcome (list Z) :=
  let sum := 0 in
  let sum := u32 (sum + m_SourceAddress message) in
  let sum := u32 (sum + m_SourceLun message) in
  let sum := u32 (sum + m_Command message) in
  let sum := u32 (sum + m_CompletionCode message) in
  let sum := sum_u32 sum (m_Data message) in
  let dataChecksum := u8 (0x100 - Z.land sum 0xff) in
  let sum := u32 (m_TargetAddress message + m_TargetLun message) in
  let checksum := u8 (0x100 - Z.land sum 0xff) in
  serializeIPMIMessage buf
    {| m_TargetAddress := m_TargetAddress message;
       m_TargetLun := m_TargetLun message;
       m_Checksum := checksum;
       m_SourceAddress := m_SourceAddress message;
       m_SourceLun := m_SourceLun message;
       m_Command := m_Command message;
       m_CompletionCode := m_CompletionCode message;
       m_Data := m_Data message;
       m_DataChecksum := dataChecksum |}.

Definition buildResponseMessageTemplate (requestMessage : ipmiMessage) (netfn code : Z)
  : ipmiMessage :=
  let remoteLun := Z.land (m_SourceLun requestMessage) 0x03 in
  let localLun := Z.land (m_TargetLun requestMessage) 0x03 in
  {| m_TargetAddress := m_SourceAddress requestMessage;
     m_TargetLun := Z.lor remoteLun (u8 (Z.shiftl netfn 2));
     m_Checksum := 0;
     m_SourceAddress := m_TargetAddress requestMessage;
     m_SourceLun := Z.lor (Z.land (m_SourceLun requestMessage) 0xfc) localLun;
     m_Command := m_Command requestMessage;
     m_CompletionCode := code;
     m_Data := [];
     m_DataChecksum := 0 |}.

Definition appendIPMIMessageHeader (request : ipmiMessage) (response : list Z) (netfn code : Z)
  : outcome (list Z) :=
  let t := buildResponseMessageTemplate request netfn code in
  let responseMessage :=
    {| m_TargetAddress := m_TargetAddress t;
       m_TargetLun := m_TargetLun t;
       m_Checksum := m_Checksum t;
       m_SourceAddress := m_SourceAddress t;
       m_SourceLun := m_SourceLun t;
       m_Command := m_Command t;
       m_CompletionCode := m_CompletionCode t;
       m_Data := response;
       m_DataChecksum := m_DataChecksum t |} in
  serializeIPMI [] responseMessage.

(** ** The App network function *)

Record ipmiAuthenticationCapabilitiesRequest : Type := {
  acq_AutnticationTypeSupport : Z;
  acq_RequestedPrivilegeLevel : Z
}.

Definition ipmiAuthenticationCapabilitiesRequest_codec
  : codec ipmiAuthenticationCapabilitiesRequest :=
  isoc (fun '(a, b) => {| acq_AutnticationTypeSupport := a; acq_RequestedPrivilegeLevel := b |})
       (fun r => (acq_AutnticationTypeSupport r, acq_RequestedPrivilegeLevel r))
       (u8c ** u8c).

Record ipmiAuthenticationCapabilitiesResponse : Type := {
  acr_Channel : Z;
  acr_AuthenticationTypeSupport : Z;
  acr_AuthenticationStatus : Z;
  acr_ExtCapabilities : Z;
  acr_OEMID : list Z;
  acr_OEMAuxiliaryData : Z
}.

Definition ipmiAuthenticationCapabilitiesResponse_codec
  : codec ipmiAuthenticationCapabilitiesResponse :=
  isoc (fun '(a, (b, (c, (d, (e, f))))) =>
          {| acr_Channel := a; acr_AuthenticationTypeSupport := b;
             acr_AuthenticationStatus := c; acr_ExtCapabilities := d; acr_OEMID := e;
             acr_OEMAuxiliaryData := f |})
       (fun r => (acr_Channel r, (acr_AuthenticationTypeSupport r,
          (acr_AuthenticationStatus r, (acr_ExtCapabilities r, (acr_OEMID r,
          acr_OEMAuxiliaryData r))))))
       (u8c ** u8c ** u8c ** u8c ** arrc 3 ** u8c).

Definition handleIPMISetSessionPrivilegeLevel (message : ipmiMessage) : outcome (list Z) :=
  let! (requestPrivilegeLevel, _) :=
    owrap "failed to read ipmiSetSessionPrivilegeLevelRequest"
      (binary_Read u8c (m_Data message)) in
  let newPrivilegeLevel := requestPrivilegeLevel in
  binary_Write u8c [] newPrivilegeLevel.

Definition handleIPMIAuthenticationCapabilities (message : ipmiMessage) : outcome (list Z) :=
  let! (request, _) :=
    owrap "failed to read ipmiAuthenticationCapabilitiesRequest"
      (binary_Read ipmiAuthenticationCapabilitiesRequest_codec (m_Data message)) in
  let response :=
    {| acr_Channel := 1;
       acr_AuthenticationTypeSupport :=
         Z.lor (Z.lor (Z.lor authBitmaskIPMIV2 authBitmaskMD5) authBitmaskMD2) authBitmaskNone;
       acr_AuthenticationStatus := Z.lor authStatusNonNullUser authStatusNullUser;
       acr_ExtCapabilities := extendedCapabilitiesChannel20;
       acr_OEMID := zeros 3;
       acr_OEMAuxiliaryData := 0 |} in
  owrap "failed to write ipmiAuthenticationCapabilitiesResponse"
    (binary_Write ipmiAuthenticationCapabilitiesResponse_codec [] response).

(** The verb %x of package fmt on a uint8. *)
Definition fmt_x (n : Z) : string :=
  string_of_bytes (if n <? 16 then [hex_digit n] else [hex_digit (n / 16); hex_digit (n mod 16)]).

(** The error for an unknown command or network function. *)
Definition unsupported (what : string) (n : Z) : error :=
  errors_New (what ++ fmt_x n)%string.

Section Handlers.
Context {M : Type} `{!Machine M}.

Definition handleIPMICloseSession (message : ipmiMessage) : st (bmc M) unit :=
  let* (sessionID, _) := slift (binary_Read u32c (m_Data message)) in
  removeRMCPPlusSession sessionID.

Definition handleIPMIApp (message : ipmiMessage) : st (bmc M) (list Z) :=
  let c := m_Command message in
  if c =? ipmiCmdGetChannelAuthCapabilities
  then slift (handleIPMIAuthenticationCapabilities message)
  else if c =? ipmiCmdSetSessionPrivilege
  then slift (handleIPMISetSessionPrivilegeLevel message)
  else if c =? ipmiCmdCloseSession
  then handleIPMICloseSession message >>> sret []
  else sthrow (unsupported "unsupported Command: " c).

(** ** The Chassis network function *)

Record ipmiGetChassisStatusResponse : Type := {
  gcs_CurrentPowerState : Z;
  gcs_LastPowerEvent : Z;
  gcs_MiscChassisState : Z;
  gcs_FrontPanelButtonCapabilities : Z
}.

Definition ipmiGetChassisStatusResponse_codec : codec ipmiGetChassisStatusResponse :=
  isoc (fun '(a, (b, (c, d))) =>
          {| gcs_CurrentPowerState := a; gcs_LastPowerEvent := b;
             gcs_MiscChassisState := c; gcs_FrontPanelButtonCapabilities := d |})
       (fun r => (gcs_CurrentPowerState r, (gcs_LastPowerEvent r, (gcs_MiscChassisState r,
          gcs_FrontPanelButtonCapabilities r))))
       (u8c ** u8c ** u8c ** u8c).

Definition handleIPMIGetChassisStatus : st (bmc M) (list Z) :=
  let* powerStatus := on_machine machine_PowerStatus in
  let currentPowerState :=
    if powered_on powerStatus then Z.lor 0 chassisPowerStateBitmaskPowerOn else 0 in
  slift (binary_Write ipmiGetChassisStatusResponse_codec []
    {| gcs_CurrentPowerState := currentPowerState; gcs_LastPowerEvent := 0;
       gcs_MiscChassisState := 0; gcs_FrontPanelButtonCapabilities := 0 |}).

Definition already_off : error := errors_New "server is already powered off".
Definition already_on : error := errors_New "server is already powered on".

(** The switch of [handleIPMIChassisControl]. *)
Definition chassis_control (chassisControl : Z) : st (bmc M) unit :=
  if chassisControl =? chassisControlPowerDown then
    let* powerState := on_machine machine_PowerStatus in
    if powered_off powerState then sthrow already_off
    else on_machine machine_PowerOff
  else if chassisControl =? chassisControlPowerUp then
    let* powerState := on_machine machine_PowerStatus in
    if powered_on powerState then sthrow already_on
    else on_machine machine_PowerOn
  else if chassisControl =? chassisControlPowerCycle then
    let* powerState := on_machine machine_PowerStatus in
    if powered_off powerState then sthrow already_off
    else on_machine machine_PowerOff >>> on_machine machine_PowerOn
  else if chassisControl =? chassisControlHardReset then
    let* powerState := on_machine machine_PowerStatus in
    if powered_off powerState then sthrow already_off
    else on_machine machine_PowerOff >>> on_machine machine_PowerOn
  else if chassisControl =? chassisControlPulse then sret tt
  else if chassisControl =? chassisControlPowerSoft then sret tt
  else sret tt.

Definition handleIPMIChassisControl (message : ipmiMessage) : st (bmc M) unit :=
  let* (chassisControl, _) := slift (binary_Read u8c (m_Data message)) in
  chassis_control chassisControl.

Definition handleIPMIChassis (message : ipmiMessage) : st (bmc M) (list Z) :=
  let c := m_Command message in
  if c =? ipmiCmdGetChassisStatus then handleIPMIGetChassisStatus
  else if c =? ipmiCmdChassisControl then handleIPMIChassisControl message >>> sret []
  else sthrow (unsupported "unsupported Chassis command: " c).

(** ** Dispatch *)

Definition netFunction (message : ipmiMessage) : Z :=
  Z.shiftr (Z.land (m_TargetLun message) 0xFC) 2.

(** [res, err := ...; code := ...]: an error gives the error code and no data. *)
Definition completion (r : list Z + error) : list Z * Z :=
  match r with
  | inl res => (res, completionCodeOK)
  | inr _ => ([], completionCodeCouldNotExecuteCommand)
  end.

Definition ipmi_handle (message : ipmiMessage) : st (bmc M) (list Z) :=
  if netFunction message =? ipmiNetFNApp then
    let* r := stry (handleIPMIApp message) in
    let (res, code) := completion r in
    slift (appendIPMIMessageHeader message res (Z.lor ipmiNetFNApp ipmiNetFNResponse) code)
  else if netFunction message =? ipmiNetFNChassis then
    let* r := stry (handleIPMIChassis message) in
    let (res, code) := completion r in
    slift (appendIPMIMessageHeader message res (Z.lor ipmiNetFNChassis ipmiNetFNResponse) code)
  else sthrow (unsupported "unsupported NetFunction: " (netFunction message)).

End Handlers.

(** ** Well-formed messages *)

Definition msg_wf (m : ipmiMessage) : bool :=
  is_u8 (m_TargetAddress m) && is_u8 (m_TargetLun m) && is_u8 (m_Checksum m) &&
  is_u8 (m_SourceAddress m) && is_u8 (m_SourceLun m) && is_u8 (m_Command m) &&
  is_u8 (m_CompletionCode m) && is_bytes (m_Data m) && is_u8 (m_DataChecksum m).

(** The response a well-behaved BMC gives to [req]: addresses and LUNs swapped,
    sequence number and command kept, the response bit of the network function
    set, the completion code, the data, and both checksums adding up to zero. *)
Record response_for (req : ipmiMessage) (code : Z) (data resp : list Z) : Prop := {
  rf_shape : exists tl cs sl dcs,
    resp = [m_SourceAddress req; tl; cs; m_TargetAddress req; sl; m_Command req; code]
           ++ data ++ [dcs] /\
    tl / 4 = netFunction req + 1 /\ tl mod 4 = m_SourceLun req mod 4 /\
    sl / 4 = m_SourceLun req / 4 /\ sl mod 4 = m_TargetLun req mod 4;
  rf_header_checksum : foldr Z.add 0 (take 3 resp) mod 256 = 0;
  rf_data_checksum : foldr Z.add 0 (drop 3 resp) mod 256 = 0;
  rf_bytes : is_bytes resp = true
}.

(** A chassis control byte, as a request to the power specification. *)
Definition control_request (c : Z) : Power.request :=
  if c =? chassisControlPowerDown then Power.PowerDown
  else if c =? chassisControlPowerUp then Power.PowerUp
  else if (c =? chassisControlPowerCycle) || (c =? chassisControlHardReset) then Power.PowerCycle
  else Power.NoChange.

(** The BMC as a machine: power calls pass through. *)
#[export] Instance bmc_Machine {M} `{!Machine M} : Machine (bmc M) := {|
  machine_PowerStatus := on_machine machine_PowerStatus;
  machine_PowerOn := on_machine machine_PowerOn;
  machine_PowerOff := on_machine machine_PowerOff
|}.

#[export] Instance bmc_Reliable {M} `{ReliableMachine M} : ReliableMachine (bmc M).
Proof.
  refine {| is_on := fun s => is_on (machine s) |}; intros s;
    cbn [machine_PowerStatus machine_PowerOn machine_PowerOff bmc_Machine]; unfold on_machine.
  - destruct (status_reliable (machine s)) as (m' & -> & ?). by eexists.
  - intros Hon. destruct (on_reliable (machine s) Hon) as (m' & -> & ?). by eexists.
  - intros Hon. destruct (off_reliable (machine s) Hon) as (m' & -> & ?). by eexists.
Defined.

(** ** Lemmas on the format *)

#[export] Instance ipmiAuthenticationCapabilitiesRequest_codec_ok :
  CodecOk ipmiAuthenticationCapabilitiesRequest_codec.
Proof. solve_struct_codec. Qed.
#[export] Instance ipmiAuthenticationCapabilitiesResponse_codec_ok :
  CodecOk ipmiAuthenticationCapabilitiesResponse_codec.
Proof. solve_struct_codec. Qed.
#[export] Instance ipmiGetChassisStatusResponse_codec_ok :
  CodecOk ipmiGetChassisStatusResponse_codec.
Proof. solve_struct_codec. Qed.

Lemma u8c_enc z : is_u8 z = true -> c_enc u8c z = [z].
Proof. rewrite is_u8_spec. intros H. simpl. f_equal. dlia. Qed.

Lemma land_255 x : Z.land x 0xff = x mod 256.
Proof. change 0xff with (Z.ones 8). by rewrite Z.land_ones. Qed.

Lemma land_3 x : Z.land x 0x03 = x mod 4.
Proof. change 0x03 with (Z.ones 2). by rewrite Z.land_ones. Qed.

(** Splitting a byte into the six high bits and the two low ones. *)
Lemma lor_high_low h l : 0 <= l < 4 -> Z.lor (4 * h) l = 4 * h + l.
Proof.
  intros H. replace (4 * h) with (Z.shiftl h 2) by (rewrite Z.shiftl_mul_pow2; lia).
  rewrite <- Z.add_lor_land.
  replace (Z.land (Z.shiftl h 2) l) with 0; [lia|].
  symmetry. apply Z.bits_inj'. intros n Hn. rewrite Z.land_spec, Z.bits_0.
  destruct (Z.ltb_spec n 2).
  - by rewrite Z.shiftl_spec_low.
  - rewrite <- (Z.mod_small l (2 ^ 2)) by lia. rewrite Z.mod_pow2_bits_high by lia.
    apply andb_false_r.
Qed.

Lemma land_fc x : 0 <= x < 256 -> Z.land x 0xfc = 4 * (x / 4).
Proof.
  intros H.
  assert (E : forall n, (n < 256)%nat -> Z.land (Z.of_nat n) 0xfc = 4 * (Z.of_nat n / 4)).
  { intros n Hn.
    assert (forallb (fun n => Z.land (Z.of_nat n) 0xfc =? 4 * (Z.of_nat n / 4)) (seq 0 256) = true)
      as Hall by (vm_compute; reflexivity).
    rewrite forallb_forall in Hall. apply Z.eqb_eq, Hall, in_seq. lia. }
  specialize (E (Z.to_nat x)). rewrite Z2Nat.id in E by lia. apply E. lia.
Qed.

Lemma sum_u32_mod l a : sum_u32 a l mod 256 = (a + foldr Z.add 0 l) mod 256.
Proof.
  revert a; induction l as [|b l IH]; intros a; simpl.
  - f_equal. lia.
  - change (sum_u32 (u32 (a + b)) l mod 256 = (a + (b + foldr Z.add 0 l)) mod 256).
    rewrite IH. unfold u32. change (2 ^ 32) with 4294967296. dlia.
Qed.

(** A checksum byte makes the sum of the bytes it covers a multiple of 256. *)
Lemma checksum_zero sum total :
  sum mod 256 = total mod 256 ->
  (total + u8 (0x100 - Z.land sum 0xff)) mod 256 = 0.
Proof. rewrite land_255. unfold u8. change (2 ^ 8) with 256. intros. dlia. Qed.

Lemma isNetFunctionResponse_lun l netfn :
  0 <= l < 4 -> netfn = 1 \/ netfn = 7 ->
  isNetFunctionResponse (Z.lor l (u8 (Z.shiftl netfn 2))) = true.
Proof.
  intros Hl Hn. assert (l = 0 \/ l = 1 \/ l = 2 \/ l = 3) as Hl' by lia.
  destruct Hl' as [-> | [-> | [-> | ->]]], Hn as [-> | ->]; reflexivity.
Qed.

Lemma bytes_sum_app l k : foldr Z.add 0 (l ++ k) = foldr Z.add 0 l + foldr Z.add 0 k.
Proof. induction l; simpl; lia. Qed.

Ltac msg_fields H :=
  unfold msg_wf in H; rewrite !andb_true_iff in H; destruct_and! H.

(** What [appendIPMIMessageHeader] writes, and that it is the response. *)
Lemma appendIPMIMessageHeader_ok req data netfn code :
  msg_wf req = true -> is_bytes data = true -> is_u8 code = true ->
  netfn = netFunction req + 1 -> netfn = 1 \/ netfn = 7 ->
  exists resp, appendIPMIMessageHeader req data netfn code = Ok resp /\
    response_for req code data resp.
Proof.
  intros Hwf Hd Hc Hnf Hn. msg_fields Hwf.
  set (tl := Z.lor (Z.land (m_SourceLun req) 0x03) (u8 (Z.shiftl netfn 2))).
  set (sl := Z.lor (Z.land (m_SourceLun req) 0xfc) (Z.land (m_TargetLun req) 0x03)).
  assert (0 <= m_SourceLun req < 256) by (by apply is_u8_spec).
  assert (Htl : tl = 4 * netfn + m_SourceLun req mod 4).
  { unfold tl. rewrite land_3, Z.lor_comm.
    replace (u8 (Z.shiftl netfn 2)) with (4 * netfn) by (destruct Hn as [-> | ->]; reflexivity).
    apply lor_high_low. dlia. }
  assert (Hsl : sl = 4 * (m_SourceLun req / 4) + m_TargetLun req mod 4).
  { unfold sl. rewrite land_3, land_fc by done. apply lor_high_low. dlia. }
  assert (Htlu : is_u8 tl = true) by (apply is_u8_spec; destruct Hn; dlia).
  assert (Hslu : is_u8 sl = true) by (apply is_u8_spec; dlia).
  assert (Hresp : isNetFunctionResponse tl = true).
  { apply isNetFunctionResponse_lun; [|done]. rewrite land_3. dlia. }
  eexists. split.
  { unfold appendIPMIMessageHeader, buildResponseMessageTemplate, serializeIPMI,
      serializeIPMIMessage, binary_Write.
    cbn [m_TargetAddress m_TargetLun m_Checksum m_SourceAddress m_SourceLun m_Command
         m_CompletionCode m_Data m_DataChecksum owrap obind].
    fold tl sl. rewrite Hresp. cbn [owrap obind].
    rewrite !u8c_enc by auto with bytes. reflexivity. }
  split.
  - eexists tl, _, sl, _. split; [by rewrite <- !app_assoc|]. subst netfn. split_and!; dlia.
  - cbn [app take foldr]. rewrite Z.add_0_r, Z.add_assoc. apply checksum_zero.
    unfold u32. change (2 ^ 32) with 4294967296. dlia.
  - cbn [app drop foldr]. rewrite bytes_sum_app. cbn [foldr].
    match goal with |- context [u8 (0x100 - Z.land ?x 0xff)] => set (S := x) end.
    rewrite Z.add_0_r. rewrite !Z.add_assoc. apply checksum_zero. unfold S.
    rewrite sum_u32_mod. unfold u32. change (2 ^ 32) with 4294967296. dlia.
  - rewrite <- !app_assoc. rewrite !is_bytes_app. unfold is_bytes in *. cbn [forallb].
    rewrite !andb_true_iff. split_and!; auto using is_u8_wrap.
Qed.

Lemma binary_Read_u8_ok buf z rest :
  is_bytes buf = true -> binary_Read u8c buf = Ok (z, rest) ->
  is_u8 z = true /\ is_bytes rest = true /\ buf = z :: rest.
Proof.
  intros Hb H. apply (binary_Read_ok u8c) in H as (Hz & Hr & ->); [|done].
  cbn [c_wf u8c] in Hz. by rewrite u8c_enc.
Qed.

(** One field of a message read from a buffer of bytes. *)
Ltac read_u8_step H z rest :=
  let E := fresh "E" in
  apply obind_ok in H as ([z rest] & E & H); apply (proj1 (owrap_ok _ _ _)) in E;
  apply binary_Read_u8_ok in E as (? & ? & ->); [|done].

Lemma deserializeIPMIMessage_ok buf len m rest :
  is_bytes buf = true -> deserializeIPMIMessage buf len = Ok (m, rest) ->
  msg_wf m = true /\ is_bytes rest = true /\
  length (m_Data m) = Z.to_nat (len - 7) /\
  buf = [m_TargetAddress m; m_TargetLun m; m_Checksum m; m_SourceAddress m; m_SourceLun m;
         m_Command m] ++ m_Data m ++ [m_DataChecksum m] ++ rest.
Proof.
  intros Hb. unfold deserializeIPMIMessage. intros H.
  read_u8_step H ta b1. read_u8_step H tlun b2. read_u8_step H cs b3.
  read_u8_step H sa b4. read_u8_step H slun b5. read_u8_step H cmd b6.
  apply obind_ok in H as ([data r] & E & H).
  assert (Hdata : is_bytes data = true /\ is_bytes r = true /\ b6 = data ++ r /\
                  length data = Z.to_nat (len - 7)).
  { unfold ipmiMessageHeaderLength in E. destruct (Z.ltb_spec 0 (len - 6 - 1)).
    - apply (proj1 (owrap_ok _ _ _)), io_ReadFull_ok in E as [Hl ->].
      match goal with H : is_bytes (_ ++ _) = true |- _ => rewrite is_bytes_app in H end.
      bools. split_and!; try done. rewrite Hl. f_equal. lia.
    - go_inv. split_and!; try done. simpl. lia. }
  destruct Hdata as (? & ? & -> & ?).
  read_u8_step H dcs r'.
  go_inv. cbn [m_Data]. split_and!; try done.
  unfold msg_wf. cbn [m_TargetAddress m_TargetLun m_Checksum m_SourceAddress m_SourceLun m_Command
         m_CompletionCode m_Data m_DataChecksum].
  rewrite !andb_true_iff. split_and!; done.
Qed.

(** Reading back a serialised message: the client's view of a response. *)
Lemma deserializeIPMIMessage_frame ta tl cs sa sl cmd data dcs rest :
  is_bytes ([ta; tl; cs; sa; sl; cmd] ++ data ++ [dcs]) = true ->
  deserializeIPMIMessage ([ta; tl; cs; sa; sl; cmd] ++ data ++ [dcs] ++ rest)
    (Z.of_nat (length data) + 7) =
  Ok ({| m_TargetAddress := ta; m_TargetLun := tl; m_Checksum := cs; m_SourceAddress := sa;
         m_SourceLun := sl; m_Command := cmd; m_CompletionCode := 0; m_Data := data;
         m_DataChecksum := dcs |}, rest).
Proof.
  rewrite !is_bytes_app. unfold is_bytes at 1 3. cbn [forallb]. intros H.
  rewrite !andb_true_iff in H. destruct_and! H.
  assert (R : forall z l, is_u8 z = true -> binary_Read u8c (z :: l) = Ok (z, l)).
  { intros z l Hz. pose proof (binary_Read_enc u8c z l Hz) as E. by rewrite u8c_enc in E. }
  unfold deserializeIPMIMessage. cbn [app].
  do 6 (rewrite R by done; cbn [owrap obind]).
  unfold ipmiMessageHeaderLength.
  replace (Z.of_nat (length data) + 7 - 6 - 1) with (Z.of_nat (length data)) by lia.
  destruct (Z.ltb_spec 0 (Z.of_nat (length data))) as [Hp|Hp].
  - rewrite Nat2Z.id, io_ReadFull_app by done. cbn [owrap obind]. by rewrite R.
  - destruct data; [|simpl in Hp; lia]. cbn [obind app]. by rewrite R.
Qed.

(** ** Lemmas on the handlers *)

Lemma netFunction_range msg : msg_wf msg = true -> 0 <= netFunction msg < 64.
Proof.
  intros H. msg_fields H. unfold netFunction.
  assert (0 <= m_TargetLun msg < 256) by (by apply is_u8_spec).
  rewrite land_fc, Z.shiftr_div_pow2 by lia. change (2 ^ 2) with 4. dlia.
Qed.

Section HandlerLemmas.
Context {M : Type} `{!Machine M}.
Implicit Types s : bmc M.

Lemma caps_result msg res :
  handleIPMIAuthenticationCapabilities msg = Ok res ->
  res = [1; 0x87; 0x06; 0x02; 0; 0; 0; 0] /\ (2 <= length (m_Data msg))%nat.
Proof.
  unfold handleIPMIAuthenticationCapabilities. intros H.
  apply obind_ok in H as ([r rest] & E & H). apply (proj1 (owrap_ok _ _ _)) in E.
  apply (proj1 (owrap_ok _ _ _)) in H. injection H as <-. split; [reflexivity|].
  destruct (Nat.lt_ge_cases (length (m_Data msg)) 2) as [Hlt|]; [|done].
  by rewrite binary_Read_short in E.
Qed.

Lemma privilege_result msg res :
  msg_wf msg = true -> handleIPMISetSessionPrivilegeLevel msg = Ok res ->
  exists l rest, m_Data msg = l :: rest /\ res = [l] /\ is_u8 l = true.
Proof.
  intros Hwf. msg_fields Hwf. unfold handleIPMISetSessionPrivilegeLevel. intros H'.
  apply obind_ok in H' as ([l rest] & E & H'). apply (proj1 (owrap_ok _ _ _)) in E.
  apply binary_Read_u8_ok in E as (Hl & _ & E); [|done].
  unfold binary_Write in H'. rewrite u8c_enc in H' by done. injection H' as <-.
  by exists l, rest.
Qed.

Lemma app_result msg s res s' :
  msg_wf msg = true -> handleIPMIApp msg s = (Ok res, s') ->
  is_bytes res = true /\ (length res <= 8)%nat /\
  (length res = 8%nat -> m_Command msg = ipmiCmdGetChannelAuthCapabilities).
Proof.
  intros Hwf. unfold handleIPMIApp, slift.
  destruct (Z.eqb_spec (m_Command msg) ipmiCmdGetChannelAuthCapabilities).
  { destruct (handleIPMIAuthenticationCapabilities msg) eqn:E; intros H; go_inv; simplify_eq.
    by apply caps_result in E as [-> _]. }
  destruct (m_Command msg =? ipmiCmdSetSessionPrivilege).
  { destruct (handleIPMISetSessionPrivilegeLevel msg) eqn:E; intros H; simplify_eq.
    apply privilege_result in E as (l & rest & _ & -> & Hl); [|done].
    split_and!; [unfold is_bytes; simpl forallb; by rewrite Hl | simpl; lia | done]. }
  destruct (m_Command msg =? ipmiCmdCloseSession); [|done].
  intros H. apply sbind_ok in H as ([] & s1 & _ & [= <- <-]). split_and!; simpl; [done|lia|done].
Qed.

Lemma chassis_result msg s res s' :
  handleIPMIChassis msg s = (Ok res, s') -> is_bytes res = true /\ (length res <= 4)%nat.
Proof.
  unfold handleIPMIChassis.
  destruct (m_Command msg =? ipmiCmdGetChassisStatus).
  { unfold handleIPMIGetChassisStatus. intros H.
    apply sbind_ok in H as (p & s1 & _ & [= <- <-]).
    by destruct (powered_on p). }
  destruct (m_Command msg =? ipmiCmdChassisControl); [|done].
  intros H. apply sbind_ok in H as ([] & s1 & _ & [= <- <-]). split; simpl; [done|lia].
Qed.

(** Every response of [ipmi_handle], whatever the command did. *)
Lemma ipmi_handle_ok msg s resp s' :
  msg_wf msg = true -> ipmi_handle msg s = (Ok resp, s') ->
  exists code data, response_for msg code data resp /\ (length data <= 8)%nat /\
    (code = completionCodeOK \/ (code = completionCodeCouldNotExecuteCommand /\ data = [])) /\
    (length data = 8%nat ->
     netFunction msg = ipmiNetFNApp /\ m_Command msg = ipmiCmdGetChannelAuthCapabilities).
Proof.
  intros Hwf. unfold ipmi_handle.
  destruct (Z.eqb_spec (netFunction msg) ipmiNetFNApp) as [Happ|Hnapp];
    [|destruct (Z.eqb_spec (netFunction msg) ipmiNetFNChassis) as [Hch|]; [|done]];
    intros H; apply sbind_ok in H as (r & s1 & Hr & H).
  - assert (Hdata : forall res, r = inl res -> is_bytes res = true /\ (length res <= 8)%nat /\
        (length res = 8%nat -> m_Command msg = ipmiCmdGetChannelAuthCapabilities)).
    { intros res ->. unfold stry in Hr. destruct (handleIPMIApp msg s) as [[] ?] eqn:E;
        simplify_eq. by eapply app_result. }
    destruct r as [res|e]; cbn [completion] in H;
      [destruct (Hdata res eq_refl) as (? & ? & ?)|];
      unfold slift in H; injection H as H <-;
      (edestruct appendIPMIMessageHeader_ok as (resp' & E & HR);
        [exact Hwf| | |rewrite Happ; reflexivity|by right|rewrite E in H]); try done;
      injection H as <-; eexists _, _; split_and!; eauto; simpl; lia || done.
  - assert (Hdata : forall res, r = inl res -> is_bytes res = true /\ (length res <= 4)%nat).
    { intros res ->. unfold stry in Hr. destruct (handleIPMIChassis msg s) as [[] ?] eqn:E;
        simplify_eq. by eapply chassis_result. }
    destruct r as [res|e]; cbn [completion] in H;
      [destruct (Hdata res eq_refl) as (? & ?)|];
      unfold slift in H; injection H as H <-;
      (edestruct appendIPMIMessageHeader_ok as (resp' & E & HR);
        [exact Hwf| | |rewrite Hch; reflexivity|by left|rewrite E in H]); try done;
      injection H as <-; eexists _, _; split_and!; eauto; try (simpl; lia); simpl; intros; lia.
Qed.
End HandlerLemmas.

(** ** What the commands change *)

(** The sessions [ipmi_handle] leaves: a Close Session request whose data hold
    an identifier removes that session, nothing else touches them. *)
Definition sessions_after (msg : ipmiMessage) (ss : gmap Z rmcpPlusSession)
  : gmap Z rmcpPlusSession :=
  if (netFunction msg =? ipmiNetFNApp) && (m_Command msg =? ipmiCmdCloseSession)
     && (4 <=? length (m_Data msg))%nat
  then delete (le_value (take 4 (m_Data msg))) ss
  else ss.

Section Effects.
Context {M : Type} `{!Machine M}.
Implicit Types s : bmc M.

(** Code that changes at most the machine. *)
Definition only_machine (s s' : bmc M) : Prop := sessions s' = sessions s /\ rnd s' = rnd s.

#[global] Instance only_machine_preorder : PreOrder only_machine.
Proof. split; [done|]. intros s1 s2 s3 [? ?] [? ?]. split; congruence. Qed.

Lemma on_machine_only {A} (m : st M A) : preserves only_machine (on_machine m).
Proof. intros s o s'. unfold on_machine. destruct (m (machine s)). by intros [= <- <-]. Qed.

Hint Resolve on_machine_only : preserves.

Lemma handleIPMIChassis_only msg : preserves only_machine (handleIPMIChassis (M := M) msg).
Proof.
  unfold handleIPMIChassis, handleIPMIGetChassisStatus, handleIPMIChassisControl, chassis_control.
  preserves.
Qed.

Lemma removeRMCPPlusSession_eq id s :
  removeRMCPPlusSession id s = (Ok tt, set_sessions (delete id (sessions s)) s).
Proof.
  unfold removeRMCPPlusSession, getRMCPPlusSession, sbind.
  destruct (sessions s !! id) eqn:E; [done|].
  unfold sret, set_sessions. rewrite delete_id by done. by destruct s.
Qed.

Lemma handleIPMICloseSession_eq msg s :
  handleIPMICloseSession msg s =
  if (4 <=? length (m_Data msg))%nat
  then (Ok tt, set_sessions (delete (le_value (take 4 (m_Data msg))) (sessions s)) s)
  else (Err (match m_Data msg with [] => EOF | _ => ErrUnexpectedEOF end), s).
Proof.
  unfold handleIPMICloseSession, sbind, slift.
  destruct (Nat.leb_spec 4 (length (m_Data msg))).
  - rewrite binary_Read_total by done. cbn. apply removeRMCPPlusSession_eq.
  - by rewrite binary_Read_short.
Qed.

Lemma handleIPMIApp_effect msg s o s' :
  netFunction msg = ipmiNetFNApp -> handleIPMIApp msg s = (o, s') ->
  machine s' = machine s /\ rnd s' = rnd s /\ sessions s' = sessions_after msg (sessions s).
Proof.
  intros Hnf. unfold handleIPMIApp, sessions_after. rewrite Hnf. cbn [Z.eqb andb ipmiNetFNApp].
  destruct (Z.eqb_spec (m_Command msg) ipmiCmdGetChannelAuthCapabilities) as [->|].
  { by intros [= <- <-]. }
  destruct (Z.eqb_spec (m_Command msg) ipmiCmdSetSessionPrivilege) as [->|].
  { by intros [= <- <-]. }
  destruct (Z.eqb_spec (m_Command msg) ipmiCmdCloseSession); [|by intros [= <- <-]].
  unfold sbind. rewrite handleIPMICloseSession_eq. cbn [andb].
  by destruct (4 <=? length (m_Data msg))%nat; intros [= <- <-].
Qed.

Lemma ipmi_handle_sessions msg s o s' :
  ipmi_handle msg s = (o, s') ->
  rnd s' = rnd s /\ sessions s' = sessions_after msg (sessions s).
Proof.
  unfold ipmi_handle, sbind, stry.
  destruct (Z.eqb_spec (netFunction msg) ipmiNetFNApp) as [Happ|Hnapp].
  - destruct (handleIPMIApp msg s) as [[] s1] eqn:E;
      (apply handleIPMIApp_effect in E as (_ & Hr & Hs); [|done]);
      cbn [completion]; unfold slift; by intros [= <- <-].
  - assert (sessions_after msg (sessions s) = sessions s) as ->.
    { unfold sessions_after. apply Z.eqb_neq in Hnapp. by rewrite Hnapp. }
    destruct (Z.eqb_spec (netFunction msg) ipmiNetFNChassis); [|by intros [= <- <-]].
    destruct (handleIPMIChassis msg s) as [[] s1] eqn:E;
      apply handleIPMIChassis_only in E as [Hs Hr];
      cbn [completion]; unfold slift; by intros [= <- <-].
Qed.

End Effects.

Section PowerRefinement.
Context {M : Type} `{ReliableMachine M}.
Implicit Types s : bmc M.

Ltac power_call :=
  match goal with
  | |- context [on_machine machine_PowerStatus ?s] =>
      let m' := fresh "m" in
      destruct (status_reliable s) as (m' & E & ?);
      cbn [machine_PowerStatus bmc_Machine] in E; rewrite E; clear E
  | |- context [on_machine machine_PowerOn ?s] =>
      let m' := fresh "m" in
      let Hs := fresh "Hs" in
      assert (Hs : is_on s = false) by congruence; destruct (on_reliable s Hs) as (m' & E & ?);
      cbn [machine_PowerOn bmc_Machine] in E; rewrite E; clear E
  | |- context [on_machine machine_PowerOff ?s] =>
      let m' := fresh "m" in
      let Hs := fresh "Hs" in
      assert (Hs : is_on s = true) by congruence; destruct (off_reliable s Hs) as (m' & E & ?);
      cbn [machine_PowerOff bmc_Machine] in E; rewrite E; clear E
  end.

(** The chassis control switch follows the power specification. *)
Lemma chassis_control_answer c :
  Power.implements (fun r : unit + error => match r with inl _ => true | inr _ => false end)
    (stry (chassis_control (M := M) c)) (control_request c).
Proof.
  intros s. unfold stry, chassis_control, control_request, sbind, sthrow, sret.
  repeat match goal with
         | |- context [if ?b then Power.PowerDown else _] => destruct b
         | |- context [if ?b then Power.PowerUp else _] => destruct b
         | |- context [?a =? chassisControlPowerCycle] =>
             destruct (a =? chassisControlPowerCycle); cbn [orb]
         | |- context [?a =? chassisControlHardReset] =>
             destruct (a =? chassisControlHardReset); cbn [orb]
         end;
    repeat power_call; rewrite ?powered_on_status, ?powered_off_status;
    destruct (is_on s) eqn:Hon; cbn [negb Power.answer]; repeat power_call;
    try (eexists _, _; split; [reflexivity|]; split; [done|congruence]).
  all: destruct (c =? chassisControlPulse), (c =? chassisControlPowerSoft);
    eexists _, _; (split; [reflexivity|]); done.
Qed.

Lemma chassis_status_value s :
  exists s', handleIPMIGetChassisStatus s = (Ok [if is_on s then 1 else 0; 0; 0; 0], s') /\
    is_on s' = is_on s.
Proof.
  unfold handleIPMIGetChassisStatus, sbind. power_call. exists m.
  rewrite powered_on_status. split; [|done]. by destruct (is_on s).
Qed.

End PowerRefinement.

(** A call that neither panics nor diverges. *)
Definition returns {A : Type} (o : outcome A) : Prop :=
  match o with Ok _ | Err _ => True | _ => False end.

Lemma binary_Read_returns {A} (c : codec A) buf : returns (binary_Read c buf).
Proof.
  destruct (Nat.lt_ge_cases (length buf) (c_size c)).
  - by rewrite binary_Read_short.
  - by rewrite binary_Read_total.
Qed.

Lemma handleIPMIApp_returns {M} `{!Machine M} msg (s : bmc M) : returns (handleIPMIApp msg s).1.
Proof.
  unfold handleIPMIApp, slift.
  destruct (m_Command msg =? ipmiCmdGetChannelAuthCapabilities).
  { unfold handleIPMIAuthenticationCapabilities.
    pose proof (binary_Read_returns ipmiAuthenticationCapabilitiesRequest_codec (m_Data msg)).
    by destruct (binary_Read _ (m_Data msg)) as [[]| | |]. }
  destruct (m_Command msg =? ipmiCmdSetSessionPrivilege).
  { unfold handleIPMISetSessionPrivilegeLevel.
    pose proof (binary_Read_returns u8c (m_Data msg)).
    by destruct (binary_Read _ (m_Data msg)) as [[]| | |]. }
  destruct (m_Command msg =? ipmiCmdCloseSession); [|done].
  unfold sbind. rewrite handleIPMICloseSession_eq. by destruct (4 <=? _)%nat.
Qed.

Lemma handleIPMIChassis_returns {M} `{ReliableMachine M} msg (s : bmc M) :
  returns (handleIPMIChassis msg s).1.
Proof.
  unfold handleIPMIChassis.
  destruct (m_Command msg =? ipmiCmdGetChassisStatus).
  { by destruct (chassis_status_value s) as (s' & -> & _). }
  destruct (m_Command msg =? ipmiCmdChassisControl); [|done].
  unfold handleIPMIChassisControl, slift, sbind.
  pose proof (binary_Read_returns u8c (m_Data msg)).
  destruct (binary_Read _ (m_Data msg)) as [[c r]| | |]; try done.
  destruct (chassis_control_answer (M := M) c s) as (r' & s' & E & _).
  unfold stry in E. by destruct (chassis_control c s) as [[[]| | |] ?].
Qed.

Lemma append_returns_ok msg res netfn code :
  exists resp, appendIPMIMessageHeader msg res netfn code = Ok resp.
Proof.
  unfold appendIPMIMessageHeader, serializeIPMI, serializeIPMIMessage, binary_Write.
  cbn [owrap obind]. destruct (isNetFunctionResponse _); by eexists.
Qed.

Lemma stry_returns {S A} (m : st S A) s :
  returns (m s).1 -> exists r s', stry m s = (Ok r, s').
Proof. unfold stry. destruct (m s) as [[] ?]; simpl; by eauto. Qed.

(** A Chassis Control request implements the abstract power specification. *)
Lemma chassis_control_implements {M : Type} `{ReliableMachine M} (msg : ipmiMessage)
  (c : Z) (rest : list Z) :
  msg_wf msg = true -> netFunction msg = ipmiNetFNChassis ->
  m_Command msg = ipmiCmdChassisControl -> m_Data msg = c :: rest ->
  Power.implements (fun resp => nth 6 resp 0xff =? completionCodeOK)
    (ipmi_handle (M := M) msg) (control_request c).
Proof.
  intros Hwf Hnf Hcmd Hdata s.
  assert (Hc : binary_Read u8c (m_Data msg) = Ok (c, rest)).
  { rewrite Hdata. msg_fields Hwf. rewrite Hdata in *.
    assert (Hu : is_u8 c = true) by (unfold is_bytes in *; cbn [forallb] in *; by bools).
    pose proof (binary_Read_enc u8c c rest Hu) as E. by rewrite u8c_enc in E. }
  destruct (chassis_control_answer (M := M) c s) as (r & s' & E & Hr).
  assert (Eh : stry (handleIPMIChassis msg) s = (Ok (match r with inl _ => inl [] | inr e => inr e end), s')).
  { unfold handleIPMIChassis. rewrite Hcmd. cbn [Z.eqb ipmiCmdChassisControl ipmiCmdGetChassisStatus Pos.eqb].
    unfold handleIPMIChassisControl, slift, sbind, stry in *. rewrite Hc.
    destruct (chassis_control c s) as [[[]| | |] ?]; by simplify_eq. }
  unfold ipmi_handle. rewrite Hnf. change (ipmiNetFNChassis =? ipmiNetFNApp) with false.
  change (ipmiNetFNChassis =? ipmiNetFNChassis) with true. cbv iota. unfold sbind. rewrite Eh.
  assert (Hresp : forall code, is_u8 code = true -> exists resp,
    appendIPMIMessageHeader msg [] (Z.lor ipmiNetFNChassis ipmiNetFNResponse) code = Ok resp /\
    nth 6 resp 0xff = code).
  { intros code Hcode.
    destruct (appendIPMIMessageHeader_ok msg [] (Z.lor ipmiNetFNChassis ipmiNetFNResponse) code)
      as (resp & Ea & [(? & ? & ? & ? & -> & _) _ _ _]); try done.
    - by rewrite Hnf.
    - by left.
    - by eexists. }
  destruct r as [[]|e]; cbn [completion];
    [destruct (Hresp completionCodeOK eq_refl) as (resp & Ea & Hn)
    |destruct (Hresp completionCodeCouldNotExecuteCommand eq_refl) as (resp & Ea & Hn)];
    unfold slift; rewrite Ea; (eexists _, _; split; [reflexivity|]); rewrite Hn;
    destruct (Power.answer _ _); naive_solver.
Qed.

(** ** Properties *)

(** C9: every response [ipmi_handle] produces is a correct IPMI response to its
    request: source and target addresses and LUNs swapped, sequence number and
    command kept, the response bit of the network function set, header and data
    checksums that make their sections sum to zero modulo 256, every element a
    byte; the completion code is 0x00, or 0xd5 with no data. *)
Theorem ipmi_response_correct {M : Type} `{!Machine M} (msg : ipmiMessage) (s : bmc M)
  (resp : list Z) (s' : bmc M) :
  msg_wf msg = true -> ipmi_handle msg s = (Ok resp, s') ->
  exists code data, response_for msg code data resp /\
    (code = completionCodeOK \/ (code = completionCodeCouldNotExecuteCommand /\ data = [])).
Proof.
  intros Hwf H. apply ipmi_handle_ok in H as (code & data & HR & _ & Hc & _); eauto.
Qed.

(** A Chassis Control / Power Up request as ipmitool sends it. *)
Definition power_up_msg : ipmiMessage :=
  {| m_TargetAddress := 0x20; m_TargetLun := 0x00; m_Checksum := 0xe0;
     m_SourceAddress := 0x81; m_SourceLun := 0x04; m_Command := 0x02;
     m_CompletionCode := 0; m_Data := [1]; m_DataChecksum := 0x78 |}.

Definition mock_bmc (on : bool) : bmc TwoStateMock := Bmc ∅ 0 {| tsm_on := on |}.

Lemma ipmi_response_correct_witness :
  ipmi_handle power_up_msg (mock_bmc false) =
    (Ok [0x81; 0x04; 0x7b; 0x20; 0x04; 0x02; 0x00; 0xda], mock_bmc true) /\
  exists code data,
    response_for power_up_msg code data [0x81; 0x04; 0x7b; 0x20; 0x04; 0x02; 0x00; 0xda] /\
    (code = completionCodeOK \/ (code = completionCodeCouldNotExecuteCommand /\ data = [])).
Proof.
  assert (E : ipmi_handle power_up_msg (mock_bmc false) =
    (Ok [0x81; 0x04; 0x7b; 0x20; 0x04; 0x02; 0x00; 0xda], mock_bmc true)) by reflexivity.
  split; [exact E|].
  exact (ipmi_response_correct power_up_msg (mock_bmc false) _ _ eq_refl E).
Defined.

(** A client that parses the response with the message layout of the code
    gets the completion code followed by the command's data, the command it sent
    and nothing left over. *)
Theorem ipmi_response_parses {M : Type} `{!Machine M} (msg : ipmiMessage) (s : bmc M)
  (resp : list Z) (s' : bmc M) :
  msg_wf msg = true -> ipmi_handle msg s = (Ok resp, s') ->
  exists m code data, deserializeIPMIMessage resp (Z.of_nat (length resp)) = Ok (m, []) /\
    m_Data m = code :: data /\ m_Command m = m_Command msg /\
    m_TargetAddress m = m_SourceAddress msg /\ m_SourceAddress m = m_TargetAddress msg /\
    netFunction m = netFunction msg + 1.
Proof.
  intros Hwf H. apply ipmi_handle_ok in H as (code & data & HR & _); [|done].
  destruct HR as [(tl & cs & sl & dcs & -> & Htl & _) _ _ Hb].
  exists {| m_TargetAddress := m_SourceAddress msg; m_TargetLun := tl; m_Checksum := cs;
       m_SourceAddress := m_TargetAddress msg; m_SourceLun := sl; m_Command := m_Command msg;
       m_CompletionCode := 0; m_Data := code :: data; m_DataChecksum := dcs |}, code, data.
  pose proof (deserializeIPMIMessage_frame (m_SourceAddress msg) tl cs (m_TargetAddress msg) sl
    (m_Command msg) (code :: data) dcs []) as E.
  rewrite app_nil_r in E. cbn [app] in E, Hb |- *.
  replace (Z.of_nat (length _)) with (Z.of_nat (length (code :: data)) + 7)
    by (cbn [length]; rewrite length_app; cbn [length]; lia).
  split; [by apply E|]. split_and!; try done.
  unfold netFunction at 1. cbn [m_TargetLun].
  assert (0 <= tl < 256).
  { apply is_u8_spec. unfold is_bytes in Hb. cbn [forallb] in Hb. bools. done. }
  rewrite land_fc, Z.shiftr_div_pow2 by lia. change (2 ^ 2) with 4. dlia.
Qed.

Lemma ipmi_response_parses_witness :
  exists m code data,
    deserializeIPMIMessage [0x81; 0x04; 0x7b; 0x20; 0x04; 0x02; 0x00; 0xda] 8 = Ok (m, []) /\
    m_Data m = code :: data /\ m_Command m = 0x02 /\
    m_TargetAddress m = 0x81 /\ m_SourceAddress m = 0x20 /\
    netFunction m = netFunction power_up_msg + 1.
Proof.
  exact (ipmi_response_parses power_up_msg (mock_bmc false) _ (mock_bmc true) eq_refl eq_refl).
Defined.

(** A Chassis Control request follows the abstract power specification on
    every reliable machine: the completion code is 0x00 exactly when the
    specification accepts, and the machine ends in the state it prescribes
    (power up only when off, power down, cycle and hard reset only when on,
    pulse, soft and unknown controls change nothing). *)
Theorem ipmi_chassis_control_refines {M : Type} `{ReliableMachine M} (msg : ipmiMessage)
  (c : Z) (rest : list Z) :
  msg_wf msg = true -> netFunction msg = ipmiNetFNChassis ->
  m_Command msg = ipmiCmdChassisControl -> m_Data msg = c :: rest ->
  Power.implements (fun resp => nth 6 resp 0xff =? completionCodeOK)
    (ipmi_handle (M := M) msg) (control_request c).
Proof. apply chassis_control_implements. Qed.

Lemma ipmi_chassis_control_refines_witness :
  Power.implements (fun resp => nth 6 resp 0xff =? completionCodeOK)
    (ipmi_handle (M := TwoStateMock) power_up_msg) Power.PowerUp.
Proof.
  exact (ipmi_chassis_control_refines power_up_msg 1 [] eq_refl eq_refl eq_refl eq_refl).
Defined.

(** A request can change the BMC in exactly these ways: a Close Session
    request of the App function removes the session it names and nothing else,
    only Chassis requests reach the machine, and no request consumes entropy. *)
Theorem ipmi_handle_effects {M : Type} `{!Machine M} (msg : ipmiMessage) (s : bmc M)
  (o : outcome (list Z)) (s' : bmc M) :
  ipmi_handle msg s = (o, s') ->
  rnd s' = rnd s /\ sessions s' = sessions_after msg (sessions s) /\
  (netFunction msg <> ipmiNetFNChassis -> machine s' = machine s).
Proof.
  intros H. pose proof (ipmi_handle_sessions _ _ _ _ H) as [Hr Hs]. split_and!; [done..|].
  intros Hn. unfold ipmi_handle, sbind, stry in H.
  destruct (Z.eqb_spec (netFunction msg) ipmiNetFNApp) as [Happ|].
  - destruct (handleIPMIApp msg s) as [[] s1] eqn:E;
      (apply handleIPMIApp_effect in E as (Hm & _ & _); [|done]);
      cbn [completion] in H; unfold slift in H; by simplify_eq.
  - apply Z.eqb_neq in Hn. rewrite Hn in H. unfold sthrow in H. by simplify_eq.
Qed.

(** A Close Session request for session 0x11223344. *)
Definition close_msg : ipmiMessage :=
  {| m_TargetAddress := 0x20; m_TargetLun := 0x18; m_Checksum := 0xc8;
     m_SourceAddress := 0x81; m_SourceLun := 0x08; m_Command := 0x3c;
     m_CompletionCode := 0; m_Data := [0x44; 0x33; 0x22; 0x11]; m_DataChecksum := 0x91 |}.

Definition one_session_bmc : bmc TwoStateMock :=
  Bmc {[ 0x11223344 := opened_session 7 0x11223344 ]} 0 {| tsm_on := false |}.

Lemma ipmi_handle_effects_witness :
  let r := ipmi_handle close_msg one_session_bmc in
  rnd r.2 = 0%nat /\ sessions r.2 = delete 0x11223344 (sessions one_session_bmc) /\
  (netFunction close_msg <> ipmiNetFNChassis -> machine r.2 = machine one_session_bmc).
Proof.
  intros r. exact (ipmi_handle_effects close_msg one_session_bmc r.1 r.2 eq_refl).
Defined.

(** On a reliable machine a request of the App or Chassis function always
    gets a response (a failing command included), and any other network function
    is an error that leaves the BMC as it was; there is no panic. *)
Theorem ipmi_handle_total {M : Type} `{ReliableMachine M} (msg : ipmiMessage) (s : bmc M) :
  (netFunction msg = ipmiNetFNApp \/ netFunction msg = ipmiNetFNChassis ->
   exists resp s', ipmi_handle msg s = (Ok resp, s')) /\
  (netFunction msg <> ipmiNetFNApp /\ netFunction msg <> ipmiNetFNChassis ->
   ipmi_handle msg s = (Err (unsupported "unsupported NetFunction: " (netFunction msg)), s)).
Proof.
  unfold ipmi_handle, sbind, slift. split.
  - intros [-> | ->];
      [destruct (stry_returns _ _ (handleIPMIApp_returns msg s)) as (r & s' & E)
      |destruct (stry_returns _ _ (handleIPMIChassis_returns msg s)) as (r & s' & E)];
      cbn [Z.eqb ipmiNetFNApp ipmiNetFNChassis Pos.eqb]; rewrite E;
      destruct (completion r) as [res code];
      edestruct (append_returns_ok msg res) as [resp ->]; eauto.
  - intros [H1 H2]. apply Z.eqb_neq in H1, H2. by rewrite H1, H2.
Qed.
