(* ===== verification/RmcpPlus.v ===== *)
(** * RMCP+ sessions (rmcp_plus.go)

    The RMCP+ packet handlers: opening a session, the RAKP key exchange with
    HMAC-SHA1, and encrypted IPMI requests.  A handler is the Go method of the
    same name run on the BMC's state, with every early return, panic and session
    update of the source. *)

From S2P Require Import Prelude GoBinary GoCrypto Machine Session Ipmi.

Local Open Scope Z_scope.
Local Open Scope go_scope.

(** ** Constants *)

Definition authTypeRMCPPlus : Z := 0x06.

Definition payloadTypeRMCPPlusOpenSessionRequest : Z := 0x10.
Definition payloadTypeRMCPPlusOpenSessionResponse : Z := 0x11.
Definition payloadTypeRAKPMessage1 : Z := 0x12.
Definition payloadTypeRAKPMessage2 : Z := 0x13.
Definition payloadTypeRAKPMessage3 : Z := 0x14.
Definition payloadTypeRAKPMessage4 : Z := 0x15.

Definition maximumPrivilegeLevelAdministrator : Z := 0x04.
Definition rmcpPlusStatusNoErrors : Z := 0x00.
Definition authenticationAlgorithmRKAPHMACSHA1 : Z := 0x01.
Definition integrityAlgorithmHMACSHA1196 : Z := 0x01.
Definition confidentialityAlgorithmAESCBC128 : Z := 0x01.
Definition authenticationPayloadTypeAuthenticationAlgorithm : Z := 0x00.
Definition integrityPayloadTypeIntegrityAlgorithm : Z := 0x01.
Definition confidentialityPayloadTypeConfidentialityAlgorithm : Z := 0x02.

Definition randomNumberSize : nat := 16.

(** ** Packet structures *)

Record rmcpPlusSessionHeader : Type := {
  h_AuthenticationType : Z;
  h_PayloadType : Z;
  h_SessionId : Z;
  h_SessionSequenceNumber : Z;
  h_IpmiPayloadLen : Z
}.

Definition rmcpPlusSessionHeader_codec : codec rmcpPlusSessionHeader :=
  isoc (fun '(a, (b, (c, (d, e)))) =>
          {| h_AuthenticationType := a; h_PayloadType := b; h_SessionId := c;
             h_SessionSequenceNumber := d; h_IpmiPayloadLen := e |})
       (fun h => (h_AuthenticationType h, (h_PayloadType h, (h_SessionId h,
          (h_SessionSequenceNumber h, h_IpmiPayloadLen h)))))
       (u8c ** u8c ** u32c ** u32c ** u16c).

Record openSessionRequestPayload : Type := {
  osq_MessageTag : Z;
  osq_RequestedMaximumPrivilegeLevel : Z;
  osq_Reserved2 : list Z;
  osq_RemoteConsoleSessionId : Z;
  osq_AuthenticationPayloadType : Z;
  osq_Reserved3 : list Z;
  osq_AuthenticationPayloadLength : Z;
  osq_AuthenticationPayloadAlgorithm : Z;
  osq_Reserved5 : list Z;
  osq_IntegrityPayloadType : Z;
  osq_Reserved6 : list Z;
  osq_IntegrityPayloadLength : Z;
  osq_IntegrityPayloadAlgorithm : Z;
  osq_Reserved8 : list Z;
  osq_ConfidentialityPayloadType : Z;
  osq_Reserved9 : list Z;
  osq_ConfidentialityPayloadLength : Z;
  osq_ConfidentialityPayloadAlgorithm : Z;
  osq_Reserved11 : list Z
}.

Definition openSessionRequestPayload_codec : codec openSessionRequestPayload :=
  isoc (fun '(a, (b, (c, (d, (e, (f, (g, (h, (i, (j, (k, (l, (m, (n, (o, (p, (q, (r, s)))))))))))))))))) =>
          {| osq_MessageTag := a; osq_RequestedMaximumPrivilegeLevel := b; osq_Reserved2 := c;
             osq_RemoteConsoleSessionId := d; osq_AuthenticationPayloadType := e;
             osq_Reserved3 := f; osq_AuthenticationPayloadLength := g;
             osq_AuthenticationPayloadAlgorithm := h; osq_Reserved5 := i;
             osq_IntegrityPayloadType := j; osq_Reserved6 := k; osq_IntegrityPayloadLength := l;
             osq_IntegrityPayloadAlgorithm := m; osq_Reserved8 := n;
             osq_ConfidentialityPayloadType := o; osq_Reserved9 := p;
             osq_ConfidentialityPayloadLength := q; osq_ConfidentialityPayloadAlgorithm := r;
             osq_Reserved11 := s |})
       (fun x => (osq_MessageTag x, (osq_RequestedMaximumPrivilegeLevel x, (osq_Reserved2 x,
          (osq_RemoteConsoleSessionId x, (osq_AuthenticationPayloadType x, (osq_Reserved3 x,
          (osq_AuthenticationPayloadLength x, (osq_AuthenticationPayloadAlgorithm x,
          (osq_Reserved5 x, (osq_IntegrityPayloadType x, (osq_Reserved6 x,
          (osq_IntegrityPayloadLength x, (osq_IntegrityPayloadAlgorithm x, (osq_Reserved8 x,
          (osq_ConfidentialityPayloadType x, (osq_Reserved9 x,
          (osq_ConfidentialityPayloadLength x, (osq_ConfidentialityPayloadAlgorithm x,
          osq_Reserved11 x)))))))))))))))))))
       (u8c ** u8c ** arrc 2 ** u32c ** u8c ** arrc 2 ** u8c ** u8c ** arrc 3 **
        u8c ** arrc 2 ** u8c ** u8c ** arrc 3 ** u8c ** arrc 2 ** u8c ** u8c ** arrc 3).

Record openSessionResponsePayload : Type := {
  osr_MessageTag : Z;
  osr_RmcpPlusStatusCode : Z;
  osr_MaximumPrivilegeLevel : Z;
  osr_Reserved2 : list Z;
  osr_RemoteConsoleSessionId : Z;
  osr_ManagedSystemSessionId : Z;
  osr_AuthenticationPayloadType : Z;
  osr_Reserved3 : list Z;
  osr_AuthenticationPayloadLength : Z;
  osr_AuthenticationPayloadAlgorithm : Z;
  osr_Reserved5 : list Z;
  osr_IntegrityPayloadType : Z;
  osr_Reserved6 : list Z;
  osr_IntegrityPayloadLength : Z;
  osr_IntegrityPayloadAlgorithm : Z;
  osr_Reserved8 : list Z;
  osr_ConfidentialityPayloadType : Z;
  osr_Reserved9 : list Z;
  osr_ConfidentialityPayloadLength : Z;
  osr_ConfidentialityPayloadAlgorithm : Z;
  osr_Reserved11 : list Z
}.

Definition openSessionResponsePayload_codec : codec openSessionResponsePayload :=
  isoc (fun '(a, (b, (b', (c, (d, (d', (e, (f, (g, (h, (i, (j, (k, (l, (m, (n, (o, (p, (q, (r, s)))))))))))))))))))) =>
          {| osr_MessageTag := a; osr_RmcpPlusStatusCode := b; osr_MaximumPrivilegeLevel := b';
             osr_Reserved2 := c; osr_RemoteConsoleSessionId := d;
             osr_ManagedSystemSessionId := d'; osr_AuthenticationPayloadType := e;
             osr_Reserved3 := f; osr_AuthenticationPayloadLength := g;
             osr_AuthenticationPayloadAlgorithm := h; osr_Reserved5 := i;
             osr_IntegrityPayloadType := j; osr_Reserved6 := k; osr_IntegrityPayloadLength := l;
             osr_IntegrityPayloadAlgorithm := m; osr_Reserved8 := n;
             osr_ConfidentialityPayloadType := o; osr_Reserved9 := p;
             osr_ConfidentialityPayloadLength := q; osr_ConfidentialityPayloadAlgorithm := r;
             osr_Reserved11 := s |})
       (fun x => (osr_MessageTag x, (osr_RmcpPlusStatusCode x, (osr_MaximumPrivilegeLevel x,
          (osr_Reserved2 x, (osr_RemoteConsoleSessionId x, (osr_ManagedSystemSessionId x,
          (osr_AuthenticationPayloadType x, (osr_Reserved3 x,
          (osr_AuthenticationPayloadLength x, (osr_AuthenticationPayloadAlgorithm x,
          (osr_Reserved5 x, (osr_IntegrityPayloadType x, (osr_Reserved6 x,
          (osr_IntegrityPayloadLength x, (osr_IntegrityPayloadAlgorithm x, (osr_Reserved8 x,
          (osr_ConfidentialityPayloadType x, (osr_Reserved9 x,
          (osr_ConfidentialityPayloadLength x, (osr_ConfidentialityPayloadAlgorithm x,
          osr_Reserved11 x)))))))))))))))))))))
       (u8c ** u8c ** u8c ** arrc 1 ** u32c ** u32c ** u8c ** arrc 2 ** u8c ** u8c ** arrc 3 **
        u8c ** arrc 2 ** u8c ** u8c ** arrc 3 ** u8c ** arrc 2 ** u8c ** u8c ** arrc 3).

Record rakpMessage1Request : Type := {
  r1_MessageTag : Z;
  r1_Reserved1 : list Z;
  r1_ManagedSystemSessionId : Z;
  r1_RemoteConsoleRandomNumber : list Z;
  r1_RequestedMaximumPrivilegeLevelAndNameOnlyLookup : Z;
  r1_Reserved3 : list Z;
  r1_UserNameLength : Z;
  r1_UserName : list Z
}.

Definition rakpMessage1Request_codec : codec rakpMessage1Request :=
  isoc (fun '(a, (b, (c, (d, (e, (f, (g, h))))))) =>
          {| r1_MessageTag := a; r1_Reserved1 := b; r1_ManagedSystemSessionId := c;
             r1_RemoteConsoleRandomNumber := d;
             r1_RequestedMaximumPrivilegeLevelAndNameOnlyLookup := e; r1_Reserved3 := f;
             r1_UserNameLength := g; r1_UserName := h |})
       (fun x => (r1_MessageTag x, (r1_Reserved1 x, (r1_ManagedSystemSessionId x,
          (r1_RemoteConsoleRandomNumber x,
          (r1_RequestedMaximumPrivilegeLevelAndNameOnlyLookup x, (r1_Reserved3 x,
          (r1_UserNameLength x, r1_UserName x))))))))
       (u8c ** arrc 3 ** u32c ** arrc 16 ** u8c ** arrc 2 ** u8c ** arrc 20).

Record rakpMessage2Response : Type := {
  r2_MessageTag : Z;
  r2_RmcpPlusStatusCode : Z;
  r2_Reserved1 : list Z;
  r2_RemoteConsoleSessionId : Z;
  r2_ManagedSystemRandomNumber : list Z;
  r2_ManagedSystemGuid : list Z;
  r2_KeyExchangeAuthenticationCode : list Z
}.

Definition rakpMessage2Response_codec : codec rakpMessage2Response :=
  isoc (fun '(a, (b, (c, (d, (e, (f, g)))))) =>
          {| r2_MessageTag := a; r2_RmcpPlusStatusCode := b; r2_Reserved1 := c;
             r2_RemoteConsoleSessionId := d; r2_ManagedSystemRandomNumber := e;
             r2_ManagedSystemGuid := f; r2_KeyExchangeAuthenticationCode := g |})
       (fun x => (r2_MessageTag x, (r2_RmcpPlusStatusCode x, (r2_Reserved1 x,
          (r2_RemoteConsoleSessionId x, (r2_ManagedSystemRandomNumber x,
          (r2_ManagedSystemGuid x, r2_KeyExchangeAuthenticationCode x)))))))
       (u8c ** u8c ** arrc 2 ** u32c ** arrc 16 ** arrc 16 ** arrc 20).

Record rakpMessage3Request : Type := {
  r3_MessageTag : Z;
  r3_RmcpPlusStatusCode : Z;
  r3_Reserved1 : list Z;
  r3_ManagedSystemSessionId : Z;
  r3_KeyExchangeAuthenticationCode : list Z
}.

Definition rakpMessage3Request_codec : codec rakpMessage3Request :=
  isoc (fun '(a, (b, (c, (d, e)))) =>
          {| r3_MessageTag := a; r3_RmcpPlusStatusCode := b; r3_Reserved1 := c;
             r3_ManagedSystemSessionId := d; r3_KeyExchangeAuthenticationCode := e |})
       (fun x => (r3_MessageTag x, (r3_RmcpPlusStatusCode x, (r3_Reserved1 x,
          (r3_ManagedSystemSessionId x, r3_KeyExchangeAuthenticationCode x)))))
       (u8c ** u8c ** arrc 2 ** u32c ** arrc 20).

Record rakpMessage4Response : Type := {
  r4_MessageTag : Z;
  r4_RmcpPlusStatusCode : Z;
  r4_Reserved1 : list Z;
  r4_RemoteConsoleSessionId : Z;
  r4_IntegrityCheckValue : list Z
}.

Definition rakpMessage4Response_codec : codec rakpMessage4Response :=
  isoc (fun '(a, (b, (c, (d, e)))) =>
          {| r4_MessageTag := a; r4_RmcpPlusStatusCode := b; r4_Reserved1 := c;
             r4_RemoteConsoleSessionId := d; r4_IntegrityCheckValue := e |})
       (fun x => (r4_MessageTag x, (r4_RmcpPlusStatusCode x, (r4_Reserved1 x,
          (r4_RemoteConsoleSessionId x, r4_IntegrityCheckValue x)))))
       (u8c ** u8c ** arrc 2 ** u32c ** arrc 12).

Record ipmiSessionTrailer : Type := {
  t_IntegrityPad : list Z;
  t_PadLength : Z;
  t_NextHeader : Z
}.

Definition ipmiSessionTrailer_codec : codec ipmiSessionTrailer :=
  isoc (fun '(a, (b, c)) => {| t_IntegrityPad := a; t_PadLength := b; t_NextHeader := c |})
       (fun x => (t_IntegrityPad x, (t_PadLength x, t_NextHeader x)))
       (arrc 2 ** u8c ** u8c).

Definition deserializeRMCPPlusSessionHeader (buf : list Z) (authType : Z)
  : outcome (rmcpPlusSessionHeader * list Z) :=
  let! (payloadType, buf) := binary_Read u8c buf in
  let! (sessionId, buf) := binary_Read u32c buf in
  let! (sessionSequenceNumber, buf) := binary_Read u32c buf in
  let! (ipmiPayloadLen, buf) := binary_Read u16c buf in
  Ok ({| h_AuthenticationType := authType;
         h_PayloadType := payloadType;
         h_SessionId := sessionId;
         h_SessionSequenceNumber := sessionSequenceNumber;
         h_IpmiPayloadLen := ipmiPayloadLen |}, buf).

Definition deserializeOpenSessionRequestPayload (buf : list Z)
  : outcome (openSessionRequestPayload * list Z) :=
  binary_Read openSessionRequestPayload_codec buf.

Definition deserializeRAKPMessage1RequestPayload (buf : list Z)
  : outcome (rakpMessage1Request * list Z) :=
  binary_Read rakpMessage1Request_codec buf.

Definition deserializeRAKPMessage3RequestPayload (buf : list Z)
  : outcome (rakpMessage3Request * list Z) :=
  binary_Read rakpMessage3Request_codec buf.

(** ** Key exchange *)

Section Keys.
Context `{!CryptoOps}.

Definition generateAuthCode (remoteConsoleSessionId managedSystemSessionId : Z)
  (remoteConsoleRandomNumber managedSystemRandomNumber managedSystemGuid : list Z)
  (requestedPrivilegeLevel usernameLength : Z) (userName : list Z) (password : string)
  : outcome (list Z) :=
  let! buf := binary_Write u32c [] remoteConsoleSessionId in
  let! buf := binary_Write u32c buf managedSystemSessionId in
  let! buf := binary_Write (arrc 16) buf remoteConsoleRandomNumber in
  let! buf := binary_Write (arrc 16) buf managedSystemRandomNumber in
  let! buf := binary_Write (arrc 16) buf managedSystemGuid in
  let! buf := binary_Write u8c buf requestedPrivilegeLevel in
  let! buf := binary_Write u8c buf usernameLength in
  let! buf := binary_Write_slice buf userName in
  Ok (hmac_sha1 (bytes_of_string password) buf).

Definition validateAuthCode (authCode : list Z) (session : rmcpPlusSession) (password : string)
  : outcome bool :=
  let! buf := binary_Write (arrc 16) [] (s_ManagedSystemRandomNumber session) in
  let! buf := binary_Write u32c buf (s_RemoteConsoleSessionId session) in
  let! buf := binary_Write u8c buf (s_RequestedPrivilegeLevel session) in
  let! buf := binary_Write u8c buf (s_UserNameLength session) in
  let! buf := binary_Write_slice buf (s_UserName session) in
  let code := hmac_sha1 (bytes_of_string password) buf in
  Ok (bool_decide (authCode = code)).

Definition generateSessionIntegrityKey (session : rmcpPlusSession) (password : string)
  : outcome (list Z) :=
  let! buf := binary_Write (arrc 16) [] (s_RemoteConsoleRandomNumber session) in
  let! buf := binary_Write (arrc 16) buf (s_ManagedSystemRandomNumber session) in
  let! buf := binary_Write u8c buf (s_RequestedPrivilegeLevel session) in
  let! buf := binary_Write u8c buf (s_UserNameLength session) in
  let! buf := binary_Write_slice buf (s_UserName session) in
  Ok (hmac_sha1 (bytes_of_string password) buf).

(** The loop appends [b] [sha1.Size] times. *)
Definition generateAdditionalKeyingMaterials (sessionIntegrityKey : list Z) (b : Z) : list Z :=
  hmac_sha1 sessionIntegrityKey (replicate sha1_Size b).

Definition generateK1 (sessionIntegrityKey : list Z) : list Z :=
  generateAdditionalKeyingMaterials sessionIntegrityKey 0x01.
Definition generateK2 (sessionIntegrityKey : list Z) : list Z :=
  generateAdditionalKeyingMaterials sessionIntegrityKey 0x02.

Definition generateSessionIntegrityCheckValue (session : rmcpPlusSession)
  (sessionIntegrityKey : list Z) : outcome (list Z) :=
  let! buf := binary_Write (arrc 16) [] (s_RemoteConsoleRandomNumber session) in
  let! buf := binary_Write u32c buf (s_ManagedSystemSessionId session) in
  let! buf := binary_Write (arrc 16) buf (s_ManagedSystemGuid session) in
  slice_to (hmac_sha1 sessionIntegrityKey buf) 12.

Definition generateIntegrityData (data integrityKey : list Z) : outcome (list Z) :=
  slice_to (hmac_sha1 integrityKey data) 12.

(** ** Confidentiality *)

(** [pad[i] = byte(i + 1)] for the whole pad, then the last byte overwritten. *)
Definition padPKCS7 (data : list Z) : list Z :=
  let padSize := (aes_BlockSize - length data mod aes_BlockSize)%nat in
  let pad := map (fun i => u8 (Z.of_nat i + 1)) (seq 0 padSize) in
  data ++ <[(padSize - 1)%nat := u8 (Z.of_nat padSize - 1)]> pad.

(** [plain[len(plain)-1]] *)
Definition last_byte (plain : list Z) : outcome Z :=
  match last plain with
  | Some b => Ok b
  | None => Panic IndexOutOfRange
  end.

Definition decryptByCBCMode (key payload : list Z) : outcome (list Z) :=
  if (length payload <? aes_BlockSize)%nat
  then Err (errors_New "payload must be longer that block size")
  else if negb (length payload mod aes_BlockSize =? 0)%nat
  then Err (errors_New "payload must be multiple of block size")
  else
    let! block := slice_to key aes_BlockSize in
    let iv := take aes_BlockSize payload in
    let payload := drop aes_BlockSize payload in
    let! plain := CBCDecrypter_CryptBlocks block iv (length payload) payload in
    let! padLength := last_byte plain in
    slice_to plain (Z.to_nat (u8 (Z.of_nat aes_BlockSize - u8 (padLength + 1)))).

End Keys.

(** ** Handlers *)

Section RmcpPlus.
Context {M : Type} `{!Machine M} `{!CryptoOps}.
Context (ent : entropy) (users : bmcUserHolder) (fuel : nat).

Definition generateRandomNumber : st (bmc M) (list Z) :=
  let* b := bmc_rand ent randomNumberSize in
  let encoded := hex_Encode b in
  sret (copy_into (zeros randomNumberSize) encoded).

Definition encryptByCBCMode (key plain : list Z) : st (bmc M) (list Z) :=
  let* block := slift (slice_to key aes_BlockSize) in
  let paddedPlaintext := padPKCS7 plain in
  let* iv := generateRandomNumber in
  let* ciphered := slift (CBCEncrypter_CryptBlocks block iv aes_BlockSize paddedPlaintext) in
  sret (iv ++ ciphered).

(** The header of a session-less response. *)
Definition response_header (payloadType ipmiPayloadLen : Z) : rmcpPlusSessionHeader :=
  {| h_AuthenticationType := authTypeRMCPPlus;
     h_PayloadType := payloadType;
     h_SessionId := 0;
     h_SessionSequenceNumber := 0;
     h_IpmiPayloadLen := ipmiPayloadLen |}.

Definition open_session_response (payload : openSessionRequestPayload)
  (session : rmcpPlusSession) : openSessionResponsePayload :=
  {| osr_MessageTag := osq_MessageTag payload;
     osr_RmcpPlusStatusCode := rmcpPlusStatusNoErrors;
     osr_MaximumPrivilegeLevel := maximumPrivilegeLevelAdministrator;
     osr_Reserved2 := zeros 1;
     osr_RemoteConsoleSessionId := osq_RemoteConsoleSessionId payload;
     osr_ManagedSystemSessionId := s_ManagedSystemSessionId session;
     osr_AuthenticationPayloadType := authenticationPayloadTypeAuthenticationAlgorithm;
     osr_Reserved3 := zeros 2;
     osr_AuthenticationPayloadLength := 0x08;
     osr_AuthenticationPayloadAlgorithm := authenticationAlgorithmRKAPHMACSHA1;
     osr_Reserved5 := zeros 3;
     osr_IntegrityPayloadType := integrityPayloadTypeIntegrityAlgorithm;
     osr_Reserved6 := zeros 2;
     osr_IntegrityPayloadLength := 0x08;
     osr_IntegrityPayloadAlgorithm := integrityAlgorithmHMACSHA1196;
     osr_Reserved8 := zeros 3;
     osr_ConfidentialityPayloadType := confidentialityPayloadTypeConfidentialityAlgorithm;
     osr_Reserved9 := zeros 2;
     osr_ConfidentialityPayloadLength := 0x08;
     osr_ConfidentialityPayloadAlgorithm := confidentialityAlgorithmAESCBC128;
     osr_Reserved11 := zeros 3 |}.

Definition handleOpenSessionRequest (buf : list Z) : st (bmc M) (list Z) :=
  let* (payload, _) := slift (deserializeOpenSessionRequestPayload buf) in
  let* obuf := slift (binary_Write rmcpPlusSessionHeader_codec []
                 (response_header payloadTypeRMCPPlusOpenSessionResponse 36)) in
  let* session := getNewRMCPPlusSession ent fuel (osq_RemoteConsoleSessionId payload) in
  slift (binary_Write openSessionResponsePayload_codec obuf
           (open_session_response payload session)).

Definition session_not_activated : error := errors_New "session hasn't been activated".
Definition user_not_found : error := errors_New "user not found".

(** The fields RAKP message 1 assigns to the session. *)
Definition session_with_rakp1 (session : rmcpPlusSession) (payload : rakpMessage1Request)
  (managedSystemRandomNumber managedSystemGuid userName : list Z) : rmcpPlusSession :=
  {| s_RemoteConsoleSessionId := s_RemoteConsoleSessionId session;
     s_ManagedSystemSessionId := s_ManagedSystemSessionId session;
     s_RemoteConsoleRandomNumber := r1_RemoteConsoleRandomNumber payload;
     s_ManagedSystemRandomNumber := managedSystemRandomNumber;
     s_RequestedPrivilegeLevel := r1_RequestedMaximumPrivilegeLevelAndNameOnlyLookup payload;
     s_ManagedSystemGuid := managedSystemGuid;
     s_UserName := userName;
     s_UserNameLength := r1_UserNameLength payload;
     s_SessionIntegrityKey := s_SessionIntegrityKey session;
     s_IntegrityKey := s_IntegrityKey session;
     s_ConfidentialityKey := s_ConfidentialityKey session |}.

Definition handleRAKPMessage1Request (buf : list Z) : st (bmc M) (list Z) :=
  let* (payload, _) := slift (deserializeRAKPMessage1RequestPayload buf) in
  let* found := getRMCPPlusSession (r1_ManagedSystemSessionId payload) in
  match found with
  | None => sthrow session_not_activated
  | Some session =>
      let* obuf := slift (binary_Write rmcpPlusSessionHeader_codec []
                     (response_header payloadTypeRAKPMessage2 60)) in
      let* userName :=
        slift (slice_to (r1_UserName payload) (Z.to_nat (r1_UserNameLength payload))) in
      match getBMCUser users (string_of_bytes userName) with
      | None => sthrow user_not_found
      | Some user =>
          let* managedSystemRandomNumber := generateRandomNumber in
          let* managedSystemGuid := generateRandomNumber in
          let session := session_with_rakp1 session payload managedSystemRandomNumber
                           managedSystemGuid userName in
          store_session (r1_ManagedSystemSessionId payload) session >>>
          let* authCode := slift (generateAuthCode
            (s_RemoteConsoleSessionId session) (s_ManagedSystemSessionId session)
            (r1_RemoteConsoleRandomNumber payload) managedSystemRandomNumber managedSystemGuid
            (r1_RequestedMaximumPrivilegeLevelAndNameOnlyLookup payload)
            (r1_UserNameLength payload) userName (Password user)) in
          let fixedAuthCode := copy_into (zeros 20) authCode in
          slift (binary_Write rakpMessage2Response_codec obuf
            {| r2_MessageTag := r1_MessageTag payload;
               r2_RmcpPlusStatusCode := rmcpPlusStatusNoErrors;
               r2_Reserved1 := zeros 2;
               r2_RemoteConsoleSessionId := s_RemoteConsoleSessionId session;
               r2_ManagedSystemRandomNumber := managedSystemRandomNumber;
               r2_ManagedSystemGuid := managedSystemGuid;
               r2_KeyExchangeAuthenticationCode := fixedAuthCode |})
      end
  end.

(** The keys RAKP message 3 assigns to the session. *)
Definition session_with_keys (session : rmcpPlusSession) (sik : list Z) : rmcpPlusSession :=
  {| s_RemoteConsoleSessionId := s_RemoteConsoleSessionId session;
     s_ManagedSystemSessionId := s_ManagedSystemSessionId session;
     s_RemoteConsoleRandomNumber := s_RemoteConsoleRandomNumber session;
     s_ManagedSystemRandomNumber := s_ManagedSystemRandomNumber session;
     s_RequestedPrivilegeLevel := s_RequestedPrivilegeLevel session;
     s_ManagedSystemGuid := s_ManagedSystemGuid session;
     s_UserName := s_UserName session;
     s_UserNameLength := s_UserNameLength session;
     s_SessionIntegrityKey := sik;
     s_IntegrityKey := generateK1 sik;
     s_ConfidentialityKey := generateK2 sik |}.

Definition handleRAKPMessage3Request (buf : list Z) : st (bmc M) (list Z) :=
  let* (payload, _) := slift (deserializeRAKPMessage3RequestPayload buf) in
  let* found := getRMCPPlusSession (r3_ManagedSystemSessionId payload) in
  match found with
  | None => sthrow session_not_activated
  | Some session =>
      match getBMCUser users (string_of_bytes (s_UserName session)) with
      | None => sthrow user_not_found
      | Some user =>
          let* ok := slift (validateAuthCode (r3_KeyExchangeAuthenticationCode payload)
                              session (Password user)) in
          if negb ok then sthrow (errors_New "authentication failed")
          else
            let* obuf := slift (binary_Write rmcpPlusSessionHeader_codec []
                           (response_header payloadTypeRAKPMessage4 20)) in
            let* sik := slift (generateSessionIntegrityKey session (Password user)) in
            let session := session_with_keys session sik in
            store_session (r3_ManagedSystemSessionId payload) session >>>
            let* checkValue := slift (generateSessionIntegrityCheckValue session sik) in
            let fixedCheckValue := copy_into (zeros 12) checkValue in
            slift (binary_Write rakpMessage4Response_codec obuf
              {| r4_MessageTag := r3_MessageTag payload;
                 r4_RmcpPlusStatusCode := rmcpPlusStatusNoErrors;
                 r4_Reserved1 := zeros 2;
                 r4_RemoteConsoleSessionId := s_RemoteConsoleSessionId session;
                 r4_IntegrityCheckValue := fixedCheckValue |})
      end
  end.

Definition handleEncryptedRequest (header : rmcpPlusSessionHeader) (buf : list Z)
  : st (bmc M) (list Z) :=
  let* found := getRMCPPlusSession (h_SessionId header) in
  match found with
  | None => sthrow session_not_activated
  | Some session =>
      match getBMCUser users (string_of_bytes (s_UserName session)) with
      | None => sthrow user_not_found
      | Some _ =>
          let* (payload, _) := slift (io_ReadFull (Z.to_nat (h_IpmiPayloadLen header)) buf) in
          let* plain := slift (decryptByCBCMode (s_ConfidentialityKey session) payload) in
          let* (message, _) := slift (newIPMI plain (Z.of_nat (length plain))) in
          let* ipmiResponse := ipmi_handle message in
          let* ciphered := encryptByCBCMode (s_ConfidentialityKey session) ipmiResponse in
          let* obuf := slift (binary_Write rmcpPlusSessionHeader_codec []
            {| h_AuthenticationType := authTypeRMCPPlus;
               h_PayloadType := 0xc0;
               h_SessionId := s_RemoteConsoleSessionId session;
               h_SessionSequenceNumber := h_SessionSequenceNumber header;
               h_IpmiPayloadLen := u16 (Z.of_nat (length ciphered)) |}) in
          let* obuf := slift (binary_Write_slice obuf ciphered) in
          let* ret := slift (binary_Write ipmiSessionTrailer_codec obuf
            {| t_IntegrityPad := [0xff; 0xff]; t_PadLength := 0x02; t_NextHeader := 0x07 |}) in
          let* authCode := slift (generateIntegrityData ret (s_IntegrityKey session)) in
          sret (ret ++ authCode)
      end
  end.

Definition rmcpPlus_handle (header : rmcpPlusSessionHeader) (buf : list Z)
  : st (bmc M) (list Z) :=
  let payloadType := Z.land (h_PayloadType header) 0x3f in
  let authenticated := Z.shiftr (Z.land (h_PayloadType header) 0x40) 6 in
  let encrypted := Z.shiftr (Z.land (h_PayloadType header) 0x80) 7 in
  if (authenticated =? 1) && (encrypted =? 1) then handleEncryptedRequest header buf
  else if payloadType =? payloadTypeRMCPPlusOpenSessionRequest
  then handleOpenSessionRequest buf
  else if payloadType =? payloadTypeRAKPMessage1 then handleRAKPMessage1Request buf
  else if payloadType =? payloadTypeRAKPMessage3 then handleRAKPMessage3Request buf
  else sthrow (errors_New "unsupported payload type").

End RmcpPlus.

(** ** The structs' codecs satisfy the codec laws *)

#[export] Instance rmcpPlusSessionHeader_codec_ok : CodecOk rmcpPlusSessionHeader_codec.
Proof. solve_struct_codec. Qed.
#[export] Instance openSessionRequestPayload_codec_ok : CodecOk openSessionRequestPayload_codec.
Proof. solve_struct_codec. Qed.
#[export] Instance openSessionResponsePayload_codec_ok :
  CodecOk openSessionResponsePayload_codec.
Proof. solve_struct_codec. Qed.
#[export] Instance rakpMessage1Request_codec_ok : CodecOk rakpMessage1Request_codec.
Proof. solve_struct_codec. Qed.
#[export] Instance rakpMessage2Response_codec_ok : CodecOk rakpMessage2Response_codec.
Proof. solve_struct_codec. Qed.
#[export] Instance rakpMessage3Request_codec_ok : CodecOk rakpMessage3Request_codec.
Proof. solve_struct_codec. Qed.
#[export] Instance rakpMessage4Response_codec_ok : CodecOk rakpMessage4Response_codec.
Proof. solve_struct_codec. Qed.
#[export] Instance ipmiSessionTrailer_codec_ok : CodecOk ipmiSessionTrailer_codec.
Proof. solve_struct_codec. Qed.
