(* ===== verification/Rmcp.v ===== *)
(** * RMCP packets and the IPMI server (rmcp.go, ipmi_session.go, bmc_server.go)

    The outer packet layers: the RMCP header, the IPMI v1.5 session wrapper, the
    choice between v1.5 and RMCP+, and the UDP loop of [StartIPMIServer] as a
    transition system whose receive buffer is reused between datagrams. *)

From S2P Require Import Prelude GoBinary GoCrypto Machine Session Ipmi RmcpPlus.

Local Open Scope Z_scope.
Local Open Scope go_scope.

(** ** RMCP header *)

Definition RmcpVersion1 : Z := 0x06.
Definition RmcpClassAsf : Z := 0x06.
Definition RmcpClassIpmi : Z := 0x07.
Definition RmcpClassOem : Z := 0x08.

Record remoteManagementControlProtocolHeader : Type := {
  rmcp_Version : Z;
  rmcp_Reserved : Z;
  rmcp_Sequence : Z;
  rmcp_Class : Z
}.

Definition remoteManagementControlProtocolHeader_codec
  : codec remoteManagementControlProtocolHeader :=
  isoc (fun '(a, (b, (c, d))) =>
          {| rmcp_Version := a; rmcp_Reserved := b; rmcp_Sequence := c; rmcp_Class := d |})
       (fun h => (rmcp_Version h, (rmcp_Reserved h, (rmcp_Sequence h, rmcp_Class h))))
       (u8c ** u8c ** u8c ** u8c).

Definition deserializeRMCPHeader (buf : list Z)
  : outcome (remoteManagementControlProtocolHeader * list Z) :=
  binary_Read remoteManagementControlProtocolHeader_codec buf.

Definition serializeRMCP (buf : list Z) (header : remoteManagementControlProtocolHeader)
  : outcome (list Z) :=
  binary_Write remoteManagementControlProtocolHeader_codec buf header.

Definition buildUpRMCPForIPMI : remoteManagementControlProtocolHeader :=
  {| rmcp_Version := RmcpVersion1; rmcp_Reserved := 0x00; rmcp_Sequence := 0xff;
     rmcp_Class := RmcpClassIpmi |}.

Definition appendRMCPHeader (response : list Z) : outcome (list Z) :=
  let rmcp := buildUpRMCPForIPMI in
  let! obuf := serializeRMCP [] rmcp in
  binary_Write_slice obuf response.

Definition newRMCP (buf : list Z) : outcome (remoteManagementControlProtocolHeader * list Z) :=
  deserializeRMCPHeader buf.

(** ** IPMI session *)

Definition authTypeNone : Z := 0x00.

Record ipmiSessionWrapper : Type := {
  w_AuthenticationType : Z;
  w_SequenceNumber : Z;
  w_SessionId : Z;
  w_AuthenticationCode : list Z;
  w_MessageLen : Z
}.

Definition newIPMISession (buf : list Z) : outcome (Z * list Z) :=
  owrap "failed to read authentication type" (binary_Read u8c buf).

Definition isRMCPPlusFormat (authType : Z) : outcome bool :=
  if authType =? authTypeRMCPPlus then Ok true
  else if authType =? authTypeNone then Ok false
  else Err (errors_New ("unsupported authentication type " ++ pretty authType)%string).

Definition deserializeIPMISessionWrapper (buf : list Z) (authType : Z)
  : outcome (ipmiSessionWrapper * list Z) :=
  let! (sequenceNumber, buf) := owrap "failed to read SequenceNumber" (binary_Read u32c buf) in
  let! (sessionId, buf) := owrap "failed to read SessionId" (binary_Read u32c buf) in
  let! (authenticationCode, buf) :=
    if negb (sessionId =? 0x00)
    then owrap "failed to read AuthenticationCode" (binary_Read (arrc 16) buf)
    else Ok (zeros 16, buf) in
  let! (messageLen, buf) := owrap "failed to read MessageLen" (binary_Read u8c buf) in
  Ok ({| w_AuthenticationType := authType;
         w_SequenceNumber := sequenceNumber;
         w_SessionId := sessionId;
         w_AuthenticationCode := authenticationCode;
         w_MessageLen := messageLen |}, buf).

Definition serializeIPMISessionWrapper (buf : list Z) (wrapper : ipmiSessionWrapper)
  : outcome (list Z) :=
  let! buf := owrap "failed to write authenticationType"
                (binary_Write u8c buf (w_AuthenticationType wrapper)) in
  let! buf := owrap "failed to write SequenceNumber"
                (binary_Write u32c buf (w_SequenceNumber wrapper)) in
  let! buf := owrap "failed to write SessionId"
                (binary_Write u32c buf (w_SessionId wrapper)) in
  let! buf :=
    if negb (w_SessionId wrapper =? 0)
    then owrap "failed to write AuthenticationCode"
           (binary_Write (arrc 16) buf (w_AuthenticationCode wrapper))
    else Ok buf in
  owrap "failed to write MessageLen" (binary_Write u8c buf (w_MessageLen wrapper)).

Section Rmcp.
Context {M : Type} `{!Machine M} `{!CryptoOps}.
Context (ent : entropy) (users : bmcUserHolder) (fuel : nat).

Definition newRMCPPlus (buf : list Z) (authType : Z)
  : outcome (rmcpPlusSessionHeader * list Z) :=
  deserializeRMCPPlusSessionHeader buf authType.

Definition ipmiSession_handle (authType : Z) (buf : list Z) : st (bmc M) (list Z) :=
  let* rmcpPlus := slift (isRMCPPlusFormat authType) in
  if (rmcpPlus : bool) then
    let* (header, buf) := slift (newRMCPPlus buf authType) in
    rmcpPlus_handle ent users fuel header buf
  else
    let* (wrapper, buf) := slift (deserializeIPMISessionWrapper buf authType) in
    let* (message, _) := slift (newIPMI buf (w_MessageLen wrapper)) in
    let* res := ipmi_handle message in
    let responseWrapper :=
      {| w_AuthenticationType := authType;
         w_SequenceNumber := w_SequenceNumber wrapper;
         w_SessionId := w_SessionId wrapper;
         w_AuthenticationCode := zeros 16;
         w_MessageLen := u8 (Z.of_nat (length res)) |} in
    let* obuf := slift (serializeIPMISessionWrapper [] responseWrapper) in
    slift (owrap "failed to write ipmi response body" (binary_Write_slice obuf res)).

Definition rmcp_class_name (c : Z) : string :=
  if c =? RmcpClassAsf then "ASF" else if c =? RmcpClassOem then "OEM" else "".

Definition rmcp_handle (r : remoteManagementControlProtocolHeader) (buf : list Z)
  : st (bmc M) (list Z) :=
  if rmcp_Class r =? RmcpClassIpmi then
    let* (authType, buf) := slift (newIPMISession buf) in
    let* res := ipmiSession_handle authType buf in
    slift (appendRMCPHeader res)
  else sthrow (errors_New ("unsupported Class: " ++ rmcp_class_name (rmcp_Class r) ++ " "
                           ++ pretty (rmcp_Class r))%string).

Definition handleRMCPRequest (buf : list Z) : st (bmc M) (list Z) :=
  let* (rmcp, buf) := slift (newRMCP buf) in
  rmcp_handle rmcp buf.

(** ** The server loop *)

Definition recvBufSize : nat := 1024.

(** The goroutine of [StartIPMIServer]: running, or dead from a panic (which no
    [recover] catches), or stuck in the identifier loop. *)
Inductive serverState : Type :=
| Serving (buf : list Z) (b : bmc M)
| Crashed (p : panic)
| Spinning.

(** [bmcUser.addBMCUser("cybozu", "cybozu")] on a fresh holder. *)
Definition server_users : bmcUserHolder := addBMCUser newBMCUserHolder "cybozu" "cybozu".

Definition server_init (m : M) : serverState :=
  Serving (zeros recvBufSize) (Bmc newRMCPPlusSessionHolder 0 m).

(** [conn.ReadFrom(buf)]: the datagram's first bytes, the rest of the buffer as
    the previous datagrams left it. *)
Definition recv (buf datagram : list Z) : list Z := copy_into buf datagram.

(** One turn of the loop: receive, handle, and the reply written if any. *)
Definition server_step (buf : list Z) (b : bmc M) (datagram : list Z)
  : option (list Z) * serverState :=
  let buf := recv buf datagram in
  match handleRMCPRequest buf b with
  | (Ok res, b') => (Some res, Serving buf b')
  | (Err _, b') => (None, Serving buf b')
  | (Panic p, _) => (None, Crashed p)
  | (Diverge, _) => (None, Spinning)
  end.

(** The server as a labelled transition system. *)
Inductive server_run : serverState -> list (list Z * option (list Z)) -> serverState -> Prop :=
| run_nil s : server_run s [] s
| run_step buf b d r s tr s' :
    server_step buf b d = (r, s) -> server_run s tr s' ->
    server_run (Serving buf b) ((d, r) :: tr) s'.

End Rmcp.
Arguments serverState : clear implicits.
