(* ===== verification/Handshake.v ===== *)
(** * The RAKP key exchange: correctness

    The formulas of the RAKP exchange, the invariant of the session table, what
    each handshake handler does on every branch, and the exchange with an honest
    remote console. *)

From S2P Require Import Prelude GoBinary GoCrypto Sha1 Aes Machine Session Ipmi RmcpPlus.

Local Open Scope Z_scope.
Local Open Scope go_scope.

(** ** The key-exchange formulas of the protocol

    [rm] and [rc] are the random numbers of the console and of the BMC, [sidm]
    and [sidc] their session identifiers. *)
Module Rakp.
Section Formulas.
Context `{!CryptoOps}.

Definition identity (role : Z) (name : list Z) : list Z :=
  [role; Z.of_nat (length name)] ++ name.

Definition code2 (pw : string) (sidm sidc : Z) (rm rc guid : list Z) (role : Z)
  (name : list Z) : list Z :=
  hmac_sha1 (bytes_of_string pw)
    (le_bytes 4 sidm ++ le_bytes 4 sidc ++ rm ++ rc ++ guid ++ identity role name).

Definition code3 (pw : string) (sidm : Z) (rc : list Z) (role : Z) (name : list Z) : list Z :=
  hmac_sha1 (bytes_of_string pw) (rc ++ le_bytes 4 sidm ++ identity role name).

Definition sik (pw : string) (rm rc : list Z) (role : Z) (name : list Z) : list Z :=
  hmac_sha1 (bytes_of_string pw) (rm ++ rc ++ identity role name).

Definition icv4 (sik : list Z) (sidc : Z) (rm guid : list Z) : list Z :=
  take 12 (hmac_sha1 sik (rm ++ le_bytes 4 sidc ++ guid)).

End Formulas.
End Rakp.

(** ** The session invariant *)

Definition is_array (n : nat) (l : list Z) : bool := (length l =? n)%nat && is_bytes l.

Section Invariant.
Context `{!CryptoOps}.

(** The identification part of a session stored under [id]. *)
Definition session_fields_wf (id : Z) (v : rmcpPlusSession) : bool :=
  (s_ManagedSystemSessionId v =? id) && is_u32 (s_RemoteConsoleSessionId v) && is_u32 id &&
  is_array 16 (s_RemoteConsoleRandomNumber v) && is_array 16 (s_ManagedSystemRandomNumber v) &&
  is_u8 (s_RequestedPrivilegeLevel v) && is_array 16 (s_ManagedSystemGuid v) &&
  is_bytes (s_UserName v) && (s_UserNameLength v =? Z.of_nat (length (s_UserName v))) &&
  (length (s_UserName v) <=? 20)%nat.

(** No keys yet, or a session integrity key derived from the password of a
    registered user together with the two keys derived from it. *)
Definition session_keys_wf (users : bmcUserHolder) (v : rmcpPlusSession) : Prop :=
  (s_SessionIntegrityKey v = [] /\ s_IntegrityKey v = [] /\ s_ConfidentialityKey v = []) \/
  (exists name u data, users !! name = Some u /\
     s_SessionIntegrityKey v = hmac_sha1 (bytes_of_string (Password u)) data /\
     s_IntegrityKey v = generateK1 (s_SessionIntegrityKey v) /\
     s_ConfidentialityKey v = generateK2 (s_SessionIntegrityKey v)).

Definition session_wf (users : bmcUserHolder) (id : Z) (v : rmcpPlusSession) : Prop :=
  session_fields_wf id v = true /\ session_keys_wf users v.

Definition sessions_wf (users : bmcUserHolder) (ss : gmap Z rmcpPlusSession) : Prop :=
  map_Forall (session_wf users) ss.

End Invariant.

(** ** The session table as an abstract state machine

    [Table.step users msg ss ss']: handling the RMCP+ message [msg] may change the
    table from [ss] to [ss'].  A session is opened under an unused identifier,
    gets its parameters by RAKP message 1, its keys by a RAKP message 3 that proves
    knowledge of the user's password, and disappears when it is closed. *)
Module Table.
Section Step.
Context `{!CryptoOps} (users : bmcUserHolder) (msg : list Z).

Inductive step (ss : gmap Z rmcpPlusSession) : gmap Z rmcpPlusSession -> Prop :=
| keep : step ss ss
| opened id rc :
    ss !! id = None -> is_u32 id = true -> is_u32 rc = true ->
    step ss (<[id := opened_session rc id]> ss)
| identified v p msr guid name u :
    ss !! r1_ManagedSystemSessionId p = Some v ->
    c_wf rakpMessage1Request_codec p = true ->
    is_array 16 msr = true -> is_array 16 guid = true ->
    slice_to (r1_UserName p) (Z.to_nat (r1_UserNameLength p)) = Ok name ->
    users !! string_of_bytes name = Some u ->
    step ss (<[r1_ManagedSystemSessionId p := session_with_rakp1 v p msr guid name]> ss)
| authenticated v u p rest :
    ss !! r3_ManagedSystemSessionId p = Some v ->
    users !! string_of_bytes (s_UserName v) = Some u ->
    binary_Read rakpMessage3Request_codec msg = Ok (p, rest) ->
    r3_KeyExchangeAuthenticationCode p =
      Rakp.code3 (Password u) (s_RemoteConsoleSessionId v) (s_ManagedSystemRandomNumber v)
        (s_RequestedPrivilegeLevel v) (s_UserName v) ->
    step ss (<[r3_ManagedSystemSessionId p := session_with_keys v
      (Rakp.sik (Password u) (s_RemoteConsoleRandomNumber v) (s_ManagedSystemRandomNumber v)
         (s_RequestedPrivilegeLevel v) (s_UserName v))]> ss)
| closed id : step ss (delete id ss).

End Step.
End Table.

Ltac session_fields H :=
  unfold session_fields_wf in H; rewrite !andb_true_iff in H; destruct_and! H; bools.

Lemma is_array_spec n l : is_array n l = true <-> length l = n /\ is_bytes l = true.
Proof. unfold is_array. by rewrite andb_true_iff, Nat.eqb_eq. Qed.

(** The random number generated at entropy position [pos]: sixteen hexadecimal
    digits of eight bytes. *)
Definition random_number (ent : entropy) (pos : nat) : list Z :=
  hex_Encode (ent_bytes ent pos 8).

Lemma session_ids id v :
  session_fields_wf id v = true ->
  is_u32 id = true /\ is_u32 (s_RemoteConsoleSessionId v) = true.
Proof. intros Hf. by session_fields Hf. Qed.

(** ** Lemmas *)

Section Lemmas.
Context {M : Type} `{!Machine M} `{!CryptoOps} {L : CryptoLaws}.
Context (ent : entropy) (users : bmcUserHolder) (fuel : nat).
Implicit Types s : bmc M.

Lemma opened_session_wf rc id :
  is_u32 rc = true -> is_u32 id = true -> session_wf users id (opened_session rc id).
Proof.
  intros Hrc Hid. split; [|by left].
  unfold session_fields_wf. cbn. by rewrite Z.eqb_refl, Hrc, Hid.
Qed.

(** *** Randomness *)

Lemma generateRandomNumber_ok s :
  ent_fail ent (rnd s) = None ->
  generateRandomNumber ent s =
  (Ok (random_number ent (rnd s)), advance 16 s).
Proof.
  intros Hf. unfold generateRandomNumber, sbind, bmc_rand, rand_Read. rewrite Hf.
  unfold sret, copy_into, randomNumberSize. rewrite length_zeros.
  change 16%nat with (2 * 8)%nat at 1. rewrite take_flat_map_hex.
  rewrite hex_Encode_length, ent_bytes_length.
  rewrite (drop_ge (zeros _)) by (rewrite length_zeros; lia).
  by rewrite app_nil_r.
Qed.

(** Whatever [generateRandomNumber] returns is an array of 16 hexadecimal digits. *)
Lemma generateRandomNumber_inv s n s' :
  generateRandomNumber ent s = (Ok n, s') ->
  n = random_number ent (rnd s) /\ s' = advance 16 s.
Proof.
  destruct (ent_fail ent (rnd s)) eqn:E.
  - unfold generateRandomNumber, sbind, bmc_rand, rand_Read. by rewrite E.
  - rewrite generateRandomNumber_ok by done. by intros [= <- <-].
Qed.

Lemma random_number_array pos : is_array 16 (random_number ent pos) = true.
Proof.
  apply is_array_spec. unfold random_number. rewrite hex_Encode_length, ent_bytes_length. split; [done|].
  apply hex_digits_bytes, hex_Encode_hex, ent_bytes_bytes.
Qed.

Lemma generateRandomNumber_only_rnd : preserves only_rnd (generateRandomNumber (M := M) ent).
Proof. unfold generateRandomNumber. preserves. Qed.

(** *** Preservation of the session invariant *)

(** [binary.Read] of a struct gives a well-formed value. *)
Lemma read_wf {A} (c : codec A) `{!CodecOk c} buf a rest :
  is_bytes buf = true -> binary_Read c buf = Ok (a, rest) -> c_wf c a = true.
Proof. intros Hb E. by apply binary_Read_ok in E as (? & _ & _). Qed.

Lemma r1_fields p :
  c_wf rakpMessage1Request_codec p = true ->
  is_u8 (r1_MessageTag p) = true /\ is_u32 (r1_ManagedSystemSessionId p) = true /\
  is_array 16 (r1_RemoteConsoleRandomNumber p) = true /\
  is_u8 (r1_RequestedMaximumPrivilegeLevelAndNameOnlyLookup p) = true /\
  is_u8 (r1_UserNameLength p) = true /\ is_array 20 (r1_UserName p) = true.
Proof. destruct p. cbn -[Nat.eqb is_u8 is_u32 is_bytes]. intros E. bools. rewrite !is_array_spec. by split_and!. Qed.

Lemma session_with_rakp1_wf id v p msr guid name :
  session_wf users id v -> c_wf rakpMessage1Request_codec p = true ->
  is_array 16 msr = true -> is_array 16 guid = true ->
  slice_to (r1_UserName p) (Z.to_nat (r1_UserNameLength p)) = Ok name ->
  session_wf users id (session_with_rakp1 v p msr guid name).
Proof.
  intros [Hf Hk] Hp Hmsr Hguid Hname. split; [|exact Hk].
  apply r1_fields in Hp as (_ & _ & Hrn & Hrole & Hlen & Hun).
  apply is_u8_spec in Hlen. apply is_array_spec in Hun as [Hunl Hunb].
  apply slice_to_ok in Hname as [Hle ->]. session_fields Hf.
  unfold session_fields_wf, session_with_rakp1. cbn -[is_u8 is_u32 Nat.leb take].
  rewrite Hmsr, Hguid, Hrn, Hrole, is_bytes_take by done. rewrite length_take.
  rewrite !andb_true_iff, !Z.eqb_eq, Nat.leb_le. split_and!; done || lia.
Qed.

Lemma handleRAKPMessage1Request_step buf s o s' :
  is_bytes buf = true -> handleRAKPMessage1Request ent users buf s = (o, s') ->
  Table.step users buf (sessions s) (sessions s').
Proof.
  intros Hb. unfold handleRAKPMessage1Request, sbind at 1, slift.
  destruct (deserializeRAKPMessage1RequestPayload buf) as [[p rest]| | |] eqn:Ep;
    try by (intros [= _ <-]; constructor).
  apply read_wf in Ep; [|apply _|done].
  unfold sbind at 1, getRMCPPlusSession.
  destruct (sessions s !! r1_ManagedSystemSessionId p) as [v|] eqn:Ev; [|by (intros [= _ <-]; constructor)].
  unfold sbind at 1, binary_Write. unfold sbind at 1.
  destruct (slice_to _ _) as [name| | |] eqn:En; try by (intros [= _ <-]; constructor).
  unfold getBMCUser. destruct (users !! _) as [u|] eqn:Eu; [|by (intros [= _ <-]; constructor)].
  unfold sbind at 1. destruct (generateRandomNumber ent s) as [o1 s1] eqn:E1.
  pose proof (generateRandomNumber_only_rnd _ _ _ E1) as [Hs1 _].
  destruct o1 as [msr| | |]; try by (intros [= _ <-]; rewrite Hs1; constructor).
  apply generateRandomNumber_inv in E1 as [Hmsr _].
  unfold sbind at 1. destruct (generateRandomNumber ent s1) as [o2 s2] eqn:E2.
  pose proof (generateRandomNumber_only_rnd _ _ _ E2) as [Hs2 _].
  destruct o2 as [guid| | |]; try by (intros [= _ <-]; rewrite Hs2, Hs1; constructor).
  apply generateRandomNumber_inv in E2 as [Hguid _].
  unfold sbind, store_session, generateAuthCode, binary_Write, binary_Write_slice, set_sessions.
  cbn [obind]. intros [= _ <-]. cbn [sessions]. rewrite Hs2, Hs1.
  eapply Table.identified; try done.
  - rewrite Hmsr. apply random_number_array.
  - rewrite Hguid. apply random_number_array.
Qed.

(** *** The code computes the protocol's formulas *)

Lemma generateAuthCode_eq sidm sidc rm rc guid role name pw :
  is_u8 role = true -> (length name <= 20)%nat ->
  generateAuthCode sidm sidc rm rc guid role (Z.of_nat (length name)) name pw =
  Ok (Rakp.code2 pw sidm sidc rm rc guid role name).
Proof.
  intros Hr Hn. unfold generateAuthCode, Rakp.code2, Rakp.identity, binary_Write,
    binary_Write_slice. cbn [obind].
  rewrite !u8c_enc by (done || apply is_u8_spec; lia). cbn [c_enc u32c arrc].
  by rewrite <- !app_assoc.
Qed.

Lemma validateAuthCode_eq id v code pw :
  session_fields_wf id v = true ->
  validateAuthCode code v pw =
  Ok (bool_decide (code = Rakp.code3 pw (s_RemoteConsoleSessionId v)
        (s_ManagedSystemRandomNumber v) (s_RequestedPrivilegeLevel v) (s_UserName v))).
Proof.
  intros Hf. session_fields Hf. unfold validateAuthCode, Rakp.code3, Rakp.identity,
    binary_Write, binary_Write_slice. cbn [obind].
  rewrite !u8c_enc by (done || apply is_u8_spec; lia).
  replace (s_UserNameLength v) with (Z.of_nat (length (s_UserName v))).
  cbn [c_enc u32c arrc app]. by rewrite <- !app_assoc.
Qed.

Lemma generateSessionIntegrityKey_eq id v pw :
  session_fields_wf id v = true ->
  generateSessionIntegrityKey v pw =
  Ok (Rakp.sik pw (s_RemoteConsoleRandomNumber v) (s_ManagedSystemRandomNumber v)
        (s_RequestedPrivilegeLevel v) (s_UserName v)).
Proof.
  intros Hf. session_fields Hf. unfold generateSessionIntegrityKey, Rakp.sik, Rakp.identity,
    binary_Write, binary_Write_slice. cbn [obind].
  rewrite !u8c_enc by (done || apply is_u8_spec; lia).
  replace (s_UserNameLength v) with (Z.of_nat (length (s_UserName v))).
  cbn [c_enc u32c arrc app]. by rewrite <- !app_assoc.
Qed.

Lemma generateSessionIntegrityCheckValue_eq v sik :
  generateSessionIntegrityCheckValue v sik =
  Ok (Rakp.icv4 sik (s_ManagedSystemSessionId v) (s_RemoteConsoleRandomNumber v)
        (s_ManagedSystemGuid v)).
Proof.
  unfold generateSessionIntegrityCheckValue, binary_Write. cbn [obind].
  apply slice_to_ok. rewrite hmac_length. split; [unfold sha1_Size; lia|].
  unfold Rakp.icv4. cbn [c_enc u32c arrc app]. by rewrite <- !app_assoc.
Qed.

Lemma generateIntegrityData_eq data k :
  generateIntegrityData data k = Ok (take 12 (hmac_sha1 k data)).
Proof. apply slice_to_ok. rewrite hmac_length. split; [unfold sha1_Size; lia|done]. Qed.

(** *** RAKP message 3 *)

(** The session integrity key a session's parameters give. *)
Definition session_sik (v : rmcpPlusSession) (pw : string) : list Z :=
  Rakp.sik pw (s_RemoteConsoleRandomNumber v) (s_ManagedSystemRandomNumber v)
    (s_RequestedPrivilegeLevel v) (s_UserName v).

(** The authentication code a session expects in RAKP message 3. *)
Definition session_code3 (v : rmcpPlusSession) (pw : string) : list Z :=
  Rakp.code3 pw (s_RemoteConsoleSessionId v) (s_ManagedSystemRandomNumber v)
    (s_RequestedPrivilegeLevel v) (s_UserName v).

Definition rakp4_reply (tag : Z) (v : rmcpPlusSession) (pw : string) : list Z :=
  c_enc rmcpPlusSessionHeader_codec (response_header payloadTypeRAKPMessage4 20) ++
  c_enc rakpMessage4Response_codec
    {| r4_MessageTag := tag;
       r4_RmcpPlusStatusCode := rmcpPlusStatusNoErrors;
       r4_Reserved1 := zeros 2;
       r4_RemoteConsoleSessionId := s_RemoteConsoleSessionId v;
       r4_IntegrityCheckValue :=
         Rakp.icv4 (session_sik v pw) (s_ManagedSystemSessionId v)
           (s_RemoteConsoleRandomNumber v) (s_ManagedSystemGuid v) |}.

Lemma icv4_length sik sidc rm guid : length (Rakp.icv4 sik sidc rm guid) = 12%nat.
Proof. unfold Rakp.icv4. by rewrite length_take, hmac_length. Qed.

(** Everything [handleRAKPMessage3Request] can do. *)
Lemma handleRAKPMessage3Request_eq buf s :
  sessions_wf users (sessions s) ->
  handleRAKPMessage3Request users buf s =
  match binary_Read rakpMessage3Request_codec buf with
  | Ok (p, _) =>
      match sessions s !! r3_ManagedSystemSessionId p with
      | None => (Err session_not_activated, s)
      | Some v =>
          match users !! string_of_bytes (s_UserName v) with
          | None => (Err user_not_found, s)
          | Some u =>
              if bool_decide (r3_KeyExchangeAuthenticationCode p = session_code3 v (Password u))
              then (Ok (rakp4_reply (r3_MessageTag p) v (Password u)),
                    set_sessions
                      (<[r3_ManagedSystemSessionId p :=
                           session_with_keys v (session_sik v (Password u))]> (sessions s)) s)
              else (Err (errors_New "authentication failed"), s)
          end
      end
  | Err e => (Err e, s)
  | Panic x => (Panic x, s)
  | Diverge => (Diverge, s)
  end.
Proof.
  intros Hwf. unfold handleRAKPMessage3Request, sbind at 1, slift,
    deserializeRAKPMessage3RequestPayload.
  destruct (binary_Read _ buf) as [[p rest]| | |]; try done.
  unfold sbind at 1, getRMCPPlusSession.
  destruct (sessions s !! r3_ManagedSystemSessionId p) as [v|] eqn:Ev; [|done].
  unfold getBMCUser. destruct (users !! _) as [u|]; [|done].
  destruct (map_Forall_lookup_1 _ _ _ _ Hwf Ev) as [Hf _].
  unfold sbind at 1. rewrite (validateAuthCode_eq _ _ _ _ Hf). fold (session_code3 v (Password u)).
  case_bool_decide; [|done]. cbn [negb].
  unfold sbind at 1, binary_Write at 1. unfold sbind at 1.
  rewrite (generateSessionIntegrityKey_eq _ _ _ Hf). unfold sbind, store_session.
  rewrite generateSessionIntegrityCheckValue_eq.
  rewrite copy_into_exact by (by rewrite icv4_length, length_zeros). done.
Qed.

Lemma session_with_keys_wf id v name u :
  session_wf users id v -> users !! name = Some u ->
  session_wf users id (session_with_keys v (session_sik v (Password u))).
Proof.
  intros [Hf Hk] Hu. split; [exact Hf|]. right. exists name, u. by eexists.
Qed.

Lemma handleRAKPMessage3Request_step buf s o s' :
  sessions_wf users (sessions s) ->
  handleRAKPMessage3Request users buf s = (o, s') ->
  Table.step users buf (sessions s) (sessions s').
Proof.
  intros Hwf. rewrite handleRAKPMessage3Request_eq by done.
  destruct (binary_Read _ buf) as [[p rest]| | |] eqn:Ep; try by (intros [= _ <-]; constructor).
  destruct (sessions s !! r3_ManagedSystemSessionId p) as [v|] eqn:Ev;
    [|by (intros [= _ <-]; constructor)].
  destruct (users !! _) as [u|] eqn:Eu; [|by (intros [= _ <-]; constructor)].
  case_bool_decide; intros [= _ <-]; [|constructor]. by eapply Table.authenticated.
Qed.

(** *** Opening a session *)

Lemma osq_id_u32 p :
  c_wf openSessionRequestPayload_codec p = true -> is_u32 (osq_RemoteConsoleSessionId p) = true.
Proof. destruct p. cbn -[Nat.eqb is_u8 is_u32 is_bytes]. intros E. by bools. Qed.

Lemma getNewRMCPPlusSession_sessions rc s o s' :
  getNewRMCPPlusSession ent fuel rc s = (o, s') ->
  sessions s' = sessions s \/
  exists id, is_u32 id = true /\ sessions s !! id = None /\
    sessions s' = <[id := opened_session rc id]> (sessions s).
Proof.
  destruct o as [v| | |].
  { intros E. apply getNewRMCPPlusSession_ok in E as (id & -> & Hu & Hn & Hs & _). eauto. }
  all: unfold getNewRMCPPlusSession, sbind at 1; intros E; left;
    destruct (generateRandomUint32 ent s) as [o1 s1] eqn:E1;
    pose proof (generateRandomUint32_only_rnd _ _ _ _ E1) as [Hs1 _];
    destruct o1; try by simplify_eq.
  all: unfold sbind at 1 in E; destruct (new_session_id ent fuel _ s1) as [o2 s2] eqn:E2;
    pose proof (new_session_id_only_rnd _ _ _ _ _ _ E2) as [Hs2 _];
    destruct o2; simplify_eq; congruence.
Qed.

Lemma handleOpenSessionRequest_step buf s o s' :
  is_bytes buf = true -> handleOpenSessionRequest ent fuel buf s = (o, s') ->
  Table.step users buf (sessions s) (sessions s').
Proof.
  intros Hb. unfold handleOpenSessionRequest, sbind at 1, slift,
    deserializeOpenSessionRequestPayload.
  destruct (binary_Read _ buf) as [[p rest]| | |] eqn:Ep; try by (intros [= _ <-]; constructor).
  apply read_wf, osq_id_u32 in Ep; [|apply _|done].
  unfold sbind at 1, binary_Write at 1. unfold sbind.
  destruct (getNewRMCPPlusSession _ _ _ s) as [o1 s1] eqn:E1.
  assert (Hs1 : Table.step users buf (sessions s) (sessions s1)).
  { apply getNewRMCPPlusSession_sessions in E1 as [->|(id & Hid & Hn & ->)]; by constructor. }
  by destruct o1; intros [= _ <-].
Qed.

(** *** The invariant of the abstract machine *)

Lemma step_wf msg ss ss' :
  Table.step users msg ss ss' -> sessions_wf users ss -> sessions_wf users ss'.
Proof.
  intros Hstep Hwf. destruct Hstep as [|id rc ? ? ?|v p msr guid name u Hv|v u p rest Hv Hu|id].
  - done.
  - apply map_Forall_insert_2; [|done]. by apply opened_session_wf.
  - apply map_Forall_insert_2; [|done]. apply session_with_rakp1_wf; try done.
    by apply (map_Forall_lookup_1 _ _ _ _ Hwf).
  - apply map_Forall_insert_2; [|done]. eapply session_with_keys_wf; [|done].
    by apply (map_Forall_lookup_1 _ _ _ _ Hwf).
  - by apply map_Forall_delete.
Qed.

(** Keys appear in the table only by authentication. *)
Lemma step_keys msg ss ss' id v' :
  Table.step users msg ss ss' -> ss' !! id = Some v' -> s_ConfidentialityKey v' <> [] ->
  (exists v, ss !! id = Some v /\ s_ConfidentialityKey v = s_ConfidentialityKey v' /\
     s_IntegrityKey v = s_IntegrityKey v') \/
  (exists v u p rest, ss !! id = Some v /\
     users !! string_of_bytes (s_UserName v) = Some u /\
     binary_Read rakpMessage3Request_codec msg = Ok (p, rest) /\
     r3_ManagedSystemSessionId p = id /\
     r3_KeyExchangeAuthenticationCode p = session_code3 v (Password u) /\
     v' = session_with_keys v (session_sik v (Password u))).
Proof.
  intros Hstep. destruct Hstep as [|id0 rc|v p msr guid name u Hv|v u p rest Hv Hu Hp Hc|id0];
    rewrite ?lookup_insert_Some, ?lookup_delete_Some.
  - eauto 10.
  - intros [[_ <-]|[_ ?]]; [done|eauto 10].
  - intros [[<- <-]|[_ ?]] Hk; eauto 10.
  - intros [[<- <-]|[_ ?]] Hk; [|eauto 10]. right. by exists v, u, p, rest.
  - intros [_ ?]. eauto 10.
Qed.

(** *** RAKP message 1 *)

Definition rakp2_reply (p : rakpMessage1Request) (v : rmcpPlusSession) (pw : string)
  (msr guid name : list Z) : list Z :=
  c_enc rmcpPlusSessionHeader_codec (response_header payloadTypeRAKPMessage2 60) ++
  c_enc rakpMessage2Response_codec
    {| r2_MessageTag := r1_MessageTag p;
       r2_RmcpPlusStatusCode := rmcpPlusStatusNoErrors;
       r2_Reserved1 := zeros 2;
       r2_RemoteConsoleSessionId := s_RemoteConsoleSessionId v;
       r2_ManagedSystemRandomNumber := msr;
       r2_ManagedSystemGuid := guid;
       r2_KeyExchangeAuthenticationCode :=
         Rakp.code2 pw (s_RemoteConsoleSessionId v) (s_ManagedSystemSessionId v)
           (r1_RemoteConsoleRandomNumber p) msr guid
           (r1_RequestedMaximumPrivilegeLevelAndNameOnlyLookup p) name |}.

(** The name a RAKP message 1 carries. *)
Definition r1_name (p : rakpMessage1Request) : list Z :=
  take (Z.to_nat (r1_UserNameLength p)) (r1_UserName p).

Lemma handleRAKPMessage1Request_eq p rest s v u :
  c_wf rakpMessage1Request_codec p = true ->
  sessions s !! r1_ManagedSystemSessionId p = Some v ->
  r1_UserNameLength p <= 20 -> users !! string_of_bytes (r1_name p) = Some u ->
  ent_fail ent (rnd s) = None -> ent_fail ent (rnd s + 16) = None ->
  let msr := random_number ent (rnd s) in
  let guid := random_number ent (rnd s + 16) in
  handleRAKPMessage1Request ent users (c_enc rakpMessage1Request_codec p ++ rest) s =
  (Ok (rakp2_reply p v (Password u) msr guid (r1_name p)),
   set_sessions (<[r1_ManagedSystemSessionId p :=
                     session_with_rakp1 v p msr guid (r1_name p)]> (sessions s))
                (advance 32 s)).
Proof.
  intros Hp Hv Hle Hu Hf1 Hf2 msr guid. pose proof (r1_fields p Hp) as (_ & _ & _ & Hrole & Hul & Hun).
  apply is_u8_spec in Hul. apply is_array_spec in Hun as [Hunl _].
  unfold handleRAKPMessage1Request, deserializeRAKPMessage1RequestPayload, slift, sbind at 1.
  rewrite (binary_Read_enc rakpMessage1Request_codec) by done. unfold sbind at 1, getRMCPPlusSession. rewrite Hv.
  unfold sbind at 1, binary_Write at 1. unfold sbind at 1.
  rewrite (proj2 (slice_to_ok _ _ (r1_name p))) by (split; [lia|done]).
  unfold getBMCUser. rewrite Hu. unfold sbind at 1.
  rewrite generateRandomNumber_ok by done. unfold sbind at 1.
  rewrite generateRandomNumber_ok by done. unfold sbind, store_session.
  assert (Hlen : r1_UserNameLength p = Z.of_nat (length (r1_name p))).
  { unfold r1_name. rewrite length_take. lia. }
  rewrite Hlen at 1. rewrite generateAuthCode_eq; [|done|lia].
  rewrite copy_into_exact by (unfold Rakp.code2; by rewrite hmac_length, length_zeros).
  unfold set_sessions, advance. cbn [sessions rnd machine].
  by replace (rnd s + 16 + 16)%nat with (rnd s + 32)%nat by lia.
Qed.

Lemma handleRAKPMessage1Request_overflow p rest s v :
  c_wf rakpMessage1Request_codec p = true ->
  sessions s !! r1_ManagedSystemSessionId p = Some v -> 20 < r1_UserNameLength p ->
  handleRAKPMessage1Request ent users (c_enc rakpMessage1Request_codec p ++ rest) s =
  (Panic SliceBounds, s).
Proof.
  intros Hp Hv Hgt. pose proof (r1_fields p Hp) as (_ & _ & _ & _ & _ & Hun).
  apply is_array_spec in Hun as [Hunl _].
  unfold handleRAKPMessage1Request, deserializeRAKPMessage1RequestPayload, slift, sbind at 1.
  rewrite (binary_Read_enc rakpMessage1Request_codec) by done. unfold sbind at 1, getRMCPPlusSession. rewrite Hv.
  unfold sbind at 1, binary_Write at 1. unfold sbind, slice_to.
  rewrite Hunl, (proj2 (Nat.leb_gt _ _)) by lia. done.
Qed.

End Lemmas.

(** ** Properties *)

(** C6: RAKP message 3 authenticates.  The handler answers only if the message's
    code is the HMAC, under the password of the session's user, of the BMC's
    random number, the console's session identifier, the role and the name; it
    then stores the session integrity key of the protocol with the integrity and
    confidentiality keys derived from it, and its reply carries the protocol's
    check value.  Otherwise it is an error that changes nothing; it never panics. *)
Theorem rakp3_authenticates {M : Type} `{!Machine M} `{!CryptoOps} {L : CryptoLaws}
  (users : bmcUserHolder) (buf : list Z) (s s' : bmc M) (o : outcome (list Z)) :
  sessions_wf users (sessions s) ->
  handleRAKPMessage3Request users buf s = (o, s') ->
  match o with
  | Ok reply => exists p rest v u,
      binary_Read rakpMessage3Request_codec buf = Ok (p, rest) /\
      sessions s !! r3_ManagedSystemSessionId p = Some v /\
      users !! string_of_bytes (s_UserName v) = Some u /\
      r3_KeyExchangeAuthenticationCode p = session_code3 v (Password u) /\
      reply = rakp4_reply (r3_MessageTag p) v (Password u) /\
      s' = set_sessions (<[r3_ManagedSystemSessionId p :=
             session_with_keys v (session_sik v (Password u))]> (sessions s)) s
  | Err _ => s' = s
  | Panic _ | Diverge => False
  end.
Proof.
  intros Hwf. rewrite handleRAKPMessage3Request_eq by done.
  pose proof (binary_Read_returns rakpMessage3Request_codec buf) as Hr.
  destruct (binary_Read _ buf) as [[p rest]| | |] eqn:Ep; try done; [|by intros [= <- <-]].
  destruct (sessions s !! _) as [v|] eqn:Ev; [|by intros [= <- <-]].
  destruct (users !! _) as [u|] eqn:Eu; [|by intros [= <- <-]].
  case_bool_decide; intros [= <- <-]; [|done]. by exists p, rest, v, u.
Qed.

(** A BMC with one session that has received RAKP message 1 from user cybozu. *)
Definition demo_users : bmcUserHolder := addBMCUser newBMCUserHolder "cybozu" "cybozu".

Definition demo_session : rmcpPlusSession :=
  {| s_RemoteConsoleSessionId := 0xa4a3a2a0;
     s_ManagedSystemSessionId := 0x03020100;
     s_RemoteConsoleRandomNumber := replicate 16 0x5a;
     s_ManagedSystemRandomNumber := random_number counting_entropy 4;
     s_RequestedPrivilegeLevel := 0x14;
     s_ManagedSystemGuid := random_number counting_entropy 20;
     s_UserName := bytes_of_string "cybozu";
     s_UserNameLength := 6;
     s_SessionIntegrityKey := [];
     s_IntegrityKey := [];
     s_ConfidentialityKey := [] |}.

Definition demo_bmc : bmc TwoStateMock :=
  Bmc {[ 0x03020100 := demo_session ]} 36 {| tsm_on := false |}.

Lemma demo_bmc_wf : sessions_wf demo_users (sessions demo_bmc).
Proof. apply map_Forall_singleton. split; [reflexivity|by left]. Qed.

(** The RAKP message 3 of a console that knows the password. *)
Definition demo_rakp3 : list Z :=
  c_enc rakpMessage3Request_codec
    {| r3_MessageTag := 1; r3_RmcpPlusStatusCode := 0; r3_Reserved1 := zeros 2;
       r3_ManagedSystemSessionId := 0x03020100;
       r3_KeyExchangeAuthenticationCode := session_code3 demo_session "cybozu" |}.

Lemma rakp3_authenticates_witness :
  let r := handleRAKPMessage3Request demo_users demo_rakp3 demo_bmc in
  (exists reply, r.1 = Ok reply) /\
  match r.1 with
  | Ok reply => exists p rest v u,
      binary_Read rakpMessage3Request_codec demo_rakp3 = Ok (p, rest) /\
      sessions demo_bmc !! r3_ManagedSystemSessionId p = Some v /\
      demo_users !! string_of_bytes (s_UserName v) = Some u /\
      r3_KeyExchangeAuthenticationCode p = session_code3 v (Password u) /\
      reply = rakp4_reply (r3_MessageTag p) v (Password u) /\
      r.2 = set_sessions (<[r3_ManagedSystemSessionId p :=
             session_with_keys v (session_sik v (Password u))]> (sessions demo_bmc)) demo_bmc
  | Err _ => r.2 = demo_bmc
  | Panic _ | Diverge => False
  end.
Proof.
  intros r. split.
  - eexists. vm_compute. reflexivity.
  - exact (rakp3_authenticates demo_users demo_rakp3 demo_bmc r.2 r.1 demo_bmc_wf
             (surjective_pairing r)).
Defined.

(** Everything RAKP message 1 does, with working entropy: no session, no
    change; a name length above the 20 bytes of the field makes the handler panic;
    an unknown user is an error; otherwise the session takes the console's
    parameters and two fresh random numbers, and the reply carries the protocol's
    key-exchange code under the user's password. *)
Theorem rakp1_outcomes {M : Type} `{!Machine M} `{!CryptoOps} {L : CryptoLaws} (ent : entropy)
  (users : bmcUserHolder) (p : rakpMessage1Request) (rest : list Z) (s : bmc M) :
  c_wf rakpMessage1Request_codec p = true -> (forall i, ent_fail ent i = None) ->
  handleRAKPMessage1Request ent users (c_enc rakpMessage1Request_codec p ++ rest) s =
  match sessions s !! r1_ManagedSystemSessionId p with
  | None => (Err session_not_activated, s)
  | Some v =>
      if 20 <? r1_UserNameLength p then (Panic SliceBounds, s)
      else match users !! string_of_bytes (r1_name p) with
           | None => (Err user_not_found, s)
           | Some u =>
               let msr := random_number ent (rnd s) in
               let guid := random_number ent (rnd s + 16) in
               (Ok (rakp2_reply p v (Password u) msr guid (r1_name p)),
                set_sessions (<[r1_ManagedSystemSessionId p :=
                  session_with_rakp1 v p msr guid (r1_name p)]> (sessions s)) (advance 32 s))
           end
  end.
Proof.
  intros Hp Hnf. destruct (sessions s !! r1_ManagedSystemSessionId p) as [v|] eqn:Hv.
  - destruct (Z.ltb_spec 20 (r1_UserNameLength p)) as [Hgt|Hle].
    { by apply (handleRAKPMessage1Request_overflow _ _ _ _ _ v). }
    destruct (users !! string_of_bytes (r1_name p)) as [u|] eqn:Hu.
    { by apply handleRAKPMessage1Request_eq. }
    pose proof (r1_fields p Hp) as (_ & _ & _ & _ & Hul & Hun).
    apply is_u8_spec in Hul. apply is_array_spec in Hun as [Hunl _].
    unfold handleRAKPMessage1Request, deserializeRAKPMessage1RequestPayload, slift, sbind.
    rewrite (binary_Read_enc rakpMessage1Request_codec) by done.
    unfold getRMCPPlusSession, binary_Write. rewrite Hv.
    rewrite (proj2 (slice_to_ok _ _ (r1_name p))) by (split; [lia|done]).
    unfold getBMCUser. by rewrite Hu.
  - unfold handleRAKPMessage1Request, deserializeRAKPMessage1RequestPayload, slift, sbind.
    rewrite (binary_Read_enc rakpMessage1Request_codec) by done.
    unfold getRMCPPlusSession. by rewrite Hv.
Qed.

(** A RAKP message 1 that claims a 21-byte name. *)
Definition demo_rakp1_overflow : rakpMessage1Request :=
  {| r1_MessageTag := 0; r1_Reserved1 := zeros 3; r1_ManagedSystemSessionId := 0x03020100;
     r1_RemoteConsoleRandomNumber := zeros 16;
     r1_RequestedMaximumPrivilegeLevelAndNameOnlyLookup := 0x14; r1_Reserved3 := zeros 2;
     r1_UserNameLength := 21; r1_UserName := zeros 20 |}.

Lemma rakp1_outcomes_witness :
  handleRAKPMessage1Request counting_entropy demo_users
    (c_enc rakpMessage1Request_codec demo_rakp1_overflow ++ []) demo_bmc =
  (Panic SliceBounds, demo_bmc).
Proof.
  exact (rakp1_outcomes counting_entropy demo_users demo_rakp1_overflow [] demo_bmc eq_refl
    (fun _ => eq_refl)).
Defined.

(** A generated random number is sixteen lower-case hexadecimal digits, and only
    the first eight of the sixteen bytes read decide it: entropy that agrees on
    those gives the same number. *)
Theorem random_number_half_entropy {M : Type} (ent ent' : entropy) (s s1 s2 : bmc M)
  (n n' : list Z) :
  (forall i, (i < 8)%nat -> u8 (ent_byte ent (rnd s + i)) = u8 (ent_byte ent' (rnd s + i))) ->
  generateRandomNumber ent s = (Ok n, s1) -> generateRandomNumber ent' s = (Ok n', s2) ->
  length n = randomNumberSize /\ forallb is_hex_digit n = true /\ n = n'.
Proof.
  intros Heq E1 E2. apply generateRandomNumber_inv in E1 as [-> _], E2 as [-> _].
  unfold random_number. rewrite hex_Encode_length, ent_bytes_length. split; [done|].
  split; [apply hex_Encode_hex, ent_bytes_bytes|]. f_equal. unfold ent_bytes.
  apply map_ext_in. intros i Hi. apply in_seq in Hi.
  replace i with (rnd s + (i - rnd s))%nat by lia. apply Heq. lia.
Qed.

Lemma random_number_half_entropy_witness :
  let ent' := {| ent_byte := fun i => if (i <? 44)%nat then Z.of_nat i else 0;
                 ent_fail := fun _ => None |} in
  let n := [50; 52; 50; 53; 50; 54; 50; 55; 50; 56; 50; 57; 50; 97; 50; 98] in
  length n = randomNumberSize /\ forallb is_hex_digit n = true /\ n = n.
Proof.
  intros ent' n.
  refine (random_number_half_entropy counting_entropy ent' demo_bmc (advance 16 demo_bmc)
    (advance 16 demo_bmc) n n _ eq_refl eq_refl).
  intros i Hi. do 8 (destruct i as [|i]; [reflexivity|]). lia.
Defined.
