(* ===== verification/Encrypted.v ===== *)
(** * Encrypted RMCP+ requests: correctness

    The AES-CBC payload encryption with its padding, and what an encrypted
    request does: round trips, truncation and panics, and the refinement of the
    power specification by encrypted Chassis Control requests. *)

From S2P Require Import Prelude GoBinary GoCrypto Sha1 Aes Machine Session Ipmi RmcpPlus.
From S2P Require Import Handshake.

Local Open Scope Z_scope.
Local Open Scope go_scope.

(** ** Padding *)

Lemma pad_size_bounds n : (1 <= aes_BlockSize - n mod aes_BlockSize <= 16)%nat.
Proof. unfold aes_BlockSize. pose proof (Nat.mod_upper_bound n 16). lia. Qed.

Lemma padPKCS7_length d :
  length (padPKCS7 d) = (S (length d / aes_BlockSize) * aes_BlockSize)%nat.
Proof.
  unfold padPKCS7. rewrite length_app, length_insert, length_map, length_seq.
  unfold aes_BlockSize. pose proof (Nat.mod_upper_bound (length d) 16).
  pose proof (Nat.div_mod_eq (length d) 16). lia.
Qed.

Lemma padPKCS7_bytes d : is_bytes d = true -> is_bytes (padPKCS7 d) = true.
Proof.
  intros Hd. unfold padPKCS7. rewrite is_bytes_app, Hd. apply is_bytes_Forall, Forall_insert.
  - apply Forall_map, Forall_true. intros i. apply is_u8_spec, is_u8_wrap.
  - apply is_u8_spec, is_u8_wrap.
Qed.

(** The last byte is the number of pad bytes before it. *)
Lemma padPKCS7_last d :
  last (padPKCS7 d) = Some (15 - Z.of_nat (length d mod 16)).
Proof.
  unfold padPKCS7. pose proof (pad_size_bounds (length d)) as Hb.
  pose proof (Nat.mod_upper_bound (length d) 16) as Hm.
  unfold aes_BlockSize in *. set (n := (16 - length d mod 16)%nat) in *.
  rewrite last_app, last_lookup, length_insert, length_map, length_seq.
  replace (Nat.pred n) with (n - 1)%nat by lia.
  rewrite list_lookup_insert_eq by (rewrite length_map, length_seq; lia).
  f_equal. unfold u8. change (2 ^ 8) with 256. rewrite Z.mod_small; lia.
Qed.

Lemma padPKCS7_take d n : (n <= length d)%nat -> take n (padPKCS7 d) = take n d.
Proof. intros Hn. unfold padPKCS7. by rewrite take_app_le. Qed.

(** ** Encryption and decryption *)

(** The payload a console sends: the initialisation vector, then the padded
    plain text in CBC mode under the first 16 bytes of the key. *)
Definition cbc_packet `{!CryptoOps} (key iv plain : list Z) : list Z :=
  iv ++ cbc_encrypt (S (length plain / aes_BlockSize)) (take aes_BlockSize key) iv
          (padPKCS7 plain).

Section Cipher.
Context `{!CryptoOps} {L : CryptoLaws}.

Lemma cbc_packet_wf key iv plain :
  (16 <= length key)%nat -> is_bytes key = true -> is_array 16 iv = true ->
  is_bytes plain = true ->
  length (cbc_packet key iv plain) = (S (S (length plain / aes_BlockSize)) * aes_BlockSize)%nat /\
  is_bytes (cbc_packet key iv plain) = true.
Proof.
  intros Hk Hkb Hiv Hpl. apply is_array_spec in Hiv as [Hivl Hivb]. unfold cbc_packet.
  destruct (cbc_encrypt_wf (S (length plain / aes_BlockSize)) (take aes_BlockSize key) iv
    (padPKCS7 plain)) as [Hl Hb]; auto using padPKCS7_length, padPKCS7_bytes with bytes.
  { rewrite length_take. unfold aes_BlockSize. lia. }
  rewrite length_app, is_bytes_app, Hl, Hb, Hivl, Hivb. done.
Qed.

(** Decrypting a console's packet gives the plain text's bytes beyond its last
    full block count: all of it when it is shorter than a block. *)
Lemma decrypt_packet key iv plain :
  (16 <= length key)%nat -> is_bytes key = true -> is_array 16 iv = true ->
  is_bytes plain = true ->
  decryptByCBCMode key (cbc_packet key iv plain) = Ok (take (length plain mod 16) plain).
Proof.
  intros Hk Hkb Hiv Hpl. pose proof (cbc_packet_wf key iv plain Hk Hkb Hiv Hpl) as [Hl _].
  apply is_array_spec in Hiv as [Hivl Hivb]. unfold decryptByCBCMode. rewrite Hl.
  set (n := S (length plain / aes_BlockSize)) in *.
  assert (Hkl : length (take aes_BlockSize key) = aes_BlockSize)
    by (rewrite length_take; unfold aes_BlockSize; lia).
  rewrite (proj2 (Nat.ltb_ge _ _)) by (unfold aes_BlockSize; lia).
  rewrite Nat.Div0.mod_mul. cbn [Nat.eqb negb].
  rewrite (proj2 (slice_to_ok key aes_BlockSize _)) by (split; [unfold aes_BlockSize; lia|done]).
  cbn [obind]. unfold cbc_packet. rewrite take_app_length', drop_app_length' by done. fold n.
  destruct (cbc_encrypt_wf n (take aes_BlockSize key) iv (padPKCS7 plain)) as [Hcl Hcb];
    auto using padPKCS7_length, padPKCS7_bytes with bytes.
  unfold CBCDecrypter_CryptBlocks. rewrite (crypt_blocks_checks_ok _ n) by done. cbn [obind].
  rewrite Hcl, Nat.div_mul by done.
  rewrite cbc_decrypt_encrypt; auto using padPKCS7_length, padPKCS7_bytes with bytes.
  rewrite copy_into_exact by (by rewrite length_zeros, padPKCS7_length).
  unfold last_byte. rewrite padPKCS7_last. cbn [obind].
  pose proof (Nat.mod_upper_bound (length plain) 16) as Hm.
  pose proof (Nat.div_mod_eq (length plain) 16) as Hdm.
  replace (Z.to_nat _) with (length plain mod 16)%nat
    by (unfold u8, aes_BlockSize; change (2 ^ 8) with 256;
        rewrite (Z.mod_small (15 - _ + 1)) by lia; rewrite Z.mod_small; lia).
  apply slice_to_ok. rewrite padPKCS7_length. split; [unfold n, aes_BlockSize; lia|].
  rewrite padPKCS7_take; [done|]. lia.
Qed.

(** The decryption of a payload of [S k] blocks under an established key. *)
Lemma decrypt_blocks key payload k :
  (16 <= length key)%nat -> length payload = (S k * 16)%nat ->
  decryptByCBCMode key payload =
  (let plain := copy_into (zeros (k * 16))
     (cbc_decrypt k (take 16 key) (take 16 payload) (drop 16 payload)) in
   let! b := last_byte plain in slice_to plain (Z.to_nat (u8 (16 - u8 (b + 1))))).
Proof.
  intros Hk Hl. unfold decryptByCBCMode. rewrite Hl.
  rewrite (proj2 (Nat.ltb_ge _ _)) by (unfold aes_BlockSize; lia).
  change 16%nat with aes_BlockSize at 1. rewrite Nat.Div0.mod_mul. cbn [Nat.eqb negb].
  rewrite (proj2 (slice_to_ok key aes_BlockSize _)) by done. cbn [obind].
  unfold CBCDecrypter_CryptBlocks. assert (Hd : length (drop aes_BlockSize payload) = (k * 16)%nat).
  { rewrite length_drop, Hl. unfold aes_BlockSize. lia. }
  rewrite (crypt_blocks_checks_ok _ k) by done. cbn [obind].
  rewrite Hd. by replace (k * 16 / aes_BlockSize)%nat with k by (symmetry; by apply (Nat.div_mul k 16)).
Qed.

Lemma decrypt_rejects key payload :
  (forall k, length payload <> S k * 16)%nat -> exists e, decryptByCBCMode key payload = Err e.
Proof.
  intros Hl. unfold decryptByCBCMode.
  destruct (Nat.ltb_spec (length payload) aes_BlockSize) as [|Hge]; [eauto|].
  destruct (Nat.eqb_spec (length payload mod aes_BlockSize) 0) as [Hm|]; [|simpl; eauto].
  apply Nat.Div0.div_exact in Hm. exfalso. unfold aes_BlockSize in *.
  destruct (length payload / 16)%nat as [|k] eqn:E; [lia|]. apply (Hl k). lia.
Qed.

(** Started with working entropy, encryption succeeds exactly for less than a
    block of plain text. *)
Lemma encryptByCBCMode_eq {M} (ent : entropy) key plain (s : bmc M) :
  (16 <= length key)%nat -> is_bytes key = true -> is_bytes plain = true ->
  ent_fail ent (rnd s) = None ->
  encryptByCBCMode ent key plain s =
  (if (length plain <? 16)%nat then Ok (cbc_packet key (random_number ent (rnd s)) plain)
   else Panic (PanicMsg "crypto/cipher: output smaller than input"),
   advance 16 s).
Proof.
  intros Hk Hkb Hpl Hf. unfold encryptByCBCMode, slift, sbind at 1.
  rewrite (proj2 (slice_to_ok key aes_BlockSize _)) by done. unfold sbind at 1.
  rewrite generateRandomNumber_ok by done. unfold sbind, CBCEncrypter_CryptBlocks.
  pose proof (padPKCS7_length plain) as Hl.
  destruct (proj1 (is_array_spec _ _) (random_number_array ent (rnd s))) as [Hivl Hivb].
  destruct (Nat.ltb_spec (length plain) 16) as [Hlt|Hge].
  - rewrite (crypt_blocks_checks_ok _ _ _ Hl)
      by (rewrite Hl, Nat.div_small by done; unfold aes_BlockSize; lia).
    cbn [obind]. rewrite Hl, Nat.div_mul by done. rewrite copy_into_exact; [done|].
    destruct (cbc_encrypt_wf (S (length plain / aes_BlockSize)) (take aes_BlockSize key)
      (random_number ent (rnd s)) (padPKCS7 plain)) as [Hcl _];
      auto using padPKCS7_length, padPKCS7_bytes with bytes.
    + rewrite length_take. unfold aes_BlockSize. lia.
    + rewrite Hcl, length_zeros, Nat.div_small by done. unfold aes_BlockSize. lia.
  - rewrite (crypt_blocks_checks_short _ _ _ Hl); [done|].
    assert (1 <= length plain / aes_BlockSize)%nat by (by apply Nat.div_le_lower_bound).
    rewrite Hl. unfold aes_BlockSize in *. lia.
Qed.

End Cipher.

(** ** The encrypted request *)

(** The bytes of an IPMI message on the wire. *)
Definition frame (m : ipmiMessage) : list Z :=
  [m_TargetAddress m; m_TargetLun m; m_Checksum m; m_SourceAddress m; m_SourceLun m;
   m_Command m] ++ m_Data m ++ [m_DataChecksum m].

(** A message as [newIPMI] builds it: the completion code is not on the wire. *)
Definition request_wf (m : ipmiMessage) : bool :=
  msg_wf m && (m_CompletionCode m =? 0) && (length (m_Data m) <=? 8)%nat.

(** The reply to an encrypted request: header, payload, trailer, and the
    integrity code of all three. *)
Definition encrypted_reply `{!CryptoOps} (v : rmcpPlusSession) (seq : Z) (payload : list Z)
  : list Z :=
  let ret := c_enc rmcpPlusSessionHeader_codec
      {| h_AuthenticationType := authTypeRMCPPlus; h_PayloadType := 0xc0;
         h_SessionId := s_RemoteConsoleSessionId v; h_SessionSequenceNumber := seq;
         h_IpmiPayloadLen := u16 (Z.of_nat (length payload)) |} ++ payload ++
    c_enc ipmiSessionTrailer_codec
      {| t_IntegrityPad := [0xff; 0xff]; t_PadLength := 0x02; t_NextHeader := 0x07 |} in
  ret ++ take 12 (hmac_sha1 (s_IntegrityKey v) ret).

Section Request.
Context {M : Type} `{!Machine M} `{!CryptoOps} {L : CryptoLaws}.
Context (ent : entropy) (users : bmcUserHolder).
Implicit Types s : bmc M.

Lemma frame_length m : length (frame m) = (7 + length (m_Data m))%nat.
Proof. unfold frame. cbn [app length]. rewrite length_app. cbn [length]. lia. Qed.

Lemma frame_bytes m : msg_wf m = true -> is_bytes (frame m) = true.
Proof.
  intros Hm. msg_fields Hm. unfold frame. rewrite !is_bytes_app. unfold is_bytes.
  cbn [forallb]. rewrite !andb_true_iff. done.
Qed.

Lemma newIPMI_frame m :
  msg_wf m = true -> m_CompletionCode m = 0 ->
  newIPMI (frame m) (Z.of_nat (length (frame m))) = Ok (m, []).
Proof.
  intros Hm Hc. unfold newIPMI. pose proof (frame_bytes m Hm) as Hb.
  rewrite frame_length. unfold frame in *.
  pose proof (deserializeIPMIMessage_frame _ _ _ _ _ _ _ _ [] Hb) as E.
  rewrite app_nil_r in E. replace (Z.of_nat (7 + _)) with (Z.of_nat (length (m_Data m)) + 7) by lia.
  cbn [app] in *. rewrite E. cbn [owrap]. destruct m; cbn in *. by subst.
Qed.

(** A session whose keys are established has usable keys. *)
Lemma established_keys id v :
  session_wf users id v -> s_ConfidentialityKey v <> [] ->
  length (s_ConfidentialityKey v) = 20%nat /\ is_bytes (s_ConfidentialityKey v) = true.
Proof.
  intros [_ [(_ & _ & ->)|(? & ? & ? & _ & _ & _ & ->)]]; [done|]. intros _.
  unfold generateK2, generateAdditionalKeyingMaterials. by rewrite hmac_length, hmac_bytes.
Qed.

(** What an encrypted request of the holder of the keys does. *)
Lemma handleEncryptedRequest_eq header iv msg trailer s v u :
  sessions_wf users (sessions s) ->
  sessions s !! h_SessionId header = Some v -> s_ConfidentialityKey v <> [] ->
  users !! string_of_bytes (s_UserName v) = Some u ->
  request_wf msg = true -> is_array 16 iv = true ->
  h_IpmiPayloadLen header = 32 ->
  (forall i, ent_fail ent i = None) ->
  handleEncryptedRequest ent users header
    (cbc_packet (s_ConfidentialityKey v) iv (frame msg) ++ trailer) s =
  match ipmi_handle msg s with
  | (Ok resp, s1) =>
      (if (length resp <? 16)%nat
       then Ok (encrypted_reply v (h_SessionSequenceNumber header)
                  (cbc_packet (s_ConfidentialityKey v) (random_number ent (rnd s1)) resp))
       else Panic (PanicMsg "crypto/cipher: output smaller than input"),
       advance 16 s1)
  | r => r
  end.
Proof.
  intros Hwf Hv Hk Hu Hmsg Hiv Hlen Hnf.
  unfold request_wf in Hmsg. bools.
  destruct (established_keys _ v (map_Forall_lookup_1 _ _ _ _ Hwf Hv) Hk) as [Hkl Hkb].
  assert (Hfl : (length (frame msg) < 16)%nat) by (rewrite frame_length; lia).
  assert (Hfb : is_bytes (frame msg) = true) by (by apply frame_bytes).
  destruct (cbc_packet_wf (s_ConfidentialityKey v) iv (frame msg)) as [Hpl Hpb];
    [lia|done..|]. rewrite Nat.div_small in Hpl by done.
  unfold handleEncryptedRequest, slift, sbind at 1, getRMCPPlusSession. rewrite Hv.
  unfold getBMCUser. rewrite Hu. unfold sbind at 1.
  rewrite Hlen, (io_ReadFull_app (Z.to_nat 32)) by (by rewrite Hpl).
  unfold sbind at 1. rewrite decrypt_packet by (done || lia).
  rewrite Nat.mod_small, firstn_all by done. unfold sbind at 1.
  rewrite newIPMI_frame by done. unfold sbind at 1.
  destruct (ipmi_handle msg s) as [[resp| | |] s1] eqn:Er; try done.
  assert (Hrb : is_bytes resp = true).
  { apply ipmi_handle_ok in Er as (code & data & [_ _ _ Hrb] & _); done. }
  unfold sbind at 1. rewrite encryptByCBCMode_eq by (done || lia).
  destruct (length resp <? 16)%nat; [|done]. unfold sbind, binary_Write, binary_Write_slice.
  rewrite generateIntegrityData_eq. unfold sret, encrypted_reply. cbn [app].
  by rewrite <- !app_assoc.
Qed.

End Request.

(** ** Properties *)

(** C8: encryption and decryption of payloads.  With an established key and
    working entropy, a plain text shorter than a block is encrypted to two blocks
    that decrypt to it; a longer one makes the encryption panic. *)
Theorem payload_roundtrip {M : Type} `{!CryptoOps} {L : CryptoLaws} (ent : entropy)
  (key plain : list Z) (s : bmc M) :
  (16 <= length key)%nat -> is_bytes key = true -> is_bytes plain = true ->
  ent_fail ent (rnd s) = None ->
  if (length plain <? 16)%nat
  then exists payload s', encryptByCBCMode ent key plain s = (Ok payload, s') /\
         length payload = 32%nat /\ is_bytes payload = true /\
         decryptByCBCMode key payload = Ok plain
  else exists msg s', encryptByCBCMode ent key plain s = (Panic (PanicMsg msg), s').
Proof.
  intros Hk Hkb Hpl Hf. rewrite encryptByCBCMode_eq by done.
  destruct (Nat.ltb_spec (length plain) 16) as [Hlt|]; [|eauto].
  pose proof (random_number_array ent (rnd s)) as Hiv.
  destruct (cbc_packet_wf key (random_number ent (rnd s)) plain) as [Hl Hb]; try done.
  eexists _, _. split; [reflexivity|]. rewrite Hl, Nat.div_small by done. split_and!; [done..|].
  by rewrite decrypt_packet, Nat.mod_small, firstn_all.
Qed.

Lemma payload_roundtrip_witness :
  let key := hmac_sha1 [1] [2] in
  let plain := frame power_up_msg in
  if (length plain <? 16)%nat
  then exists payload s', encryptByCBCMode counting_entropy key plain demo_bmc = (Ok payload, s') /\
         length payload = 32%nat /\ is_bytes payload = true /\
         decryptByCBCMode key payload = Ok plain
  else exists msg s', encryptByCBCMode counting_entropy key plain demo_bmc = (Panic (PanicMsg msg), s').
Proof.
  intros key plain.
  refine (payload_roundtrip counting_entropy key plain demo_bmc _ (hmac_bytes _ _) eq_refl eq_refl).
  unfold key. rewrite hmac_length. apply Nat.leb_le. reflexivity.
Defined.

(** What the BMC decrypts of a correctly encrypted plain text of any length:
    only as many leading bytes as the plain text has beyond its last full block,
    so exactly the plain texts shorter than a block survive. *)
Theorem decrypt_keeps_partial_block `{!CryptoOps} {L : CryptoLaws} (key iv plain : list Z) :
  (16 <= length key)%nat -> is_bytes key = true -> is_array 16 iv = true ->
  is_bytes plain = true ->
  decryptByCBCMode key (cbc_packet key iv plain) = Ok (take (length plain mod 16) plain) /\
  (decryptByCBCMode key (cbc_packet key iv plain) = Ok plain <-> (length plain < 16)%nat).
Proof.
  intros Hk Hkb Hiv Hpl. rewrite decrypt_packet by done. split; [done|]. split.
  - intros [= E]. apply (f_equal length) in E. rewrite length_take in E.
    pose proof (Nat.mod_upper_bound (length plain) 16). lia.
  - intros Hlt. by rewrite Nat.mod_small, firstn_all.
Qed.

Lemma decrypt_keeps_partial_block_witness :
  let key := hmac_sha1 [1] [2] in
  let iv := zeros 16 in
  let plain := zeros 16 ++ [7; 8; 9] in
  decryptByCBCMode key (cbc_packet key iv plain) = Ok [0; 0; 0] /\
  (decryptByCBCMode key (cbc_packet key iv plain) = Ok plain <-> (length plain < 16)%nat).
Proof.
  intros key iv plain.
  refine (decrypt_keeps_partial_block key iv plain _ (hmac_bytes _ _) eq_refl eq_refl).
  unfold key. rewrite hmac_length. apply Nat.leb_le. reflexivity.
Defined.

(** The payloads that crash the decryption, exactly.  Under an established
    key it panics on a payload that is only an initialisation vector, and on a
    payload of [k] further blocks whose last decrypted byte, the pad length, is
    between 16 and 254 and asks for more bytes than there are; every other payload
    is decrypted or refused with an error. *)
Theorem decrypt_panics_exactly `{!CryptoOps} {L : CryptoLaws} (key payload : list Z) :
  (16 <= length key)%nat -> is_bytes key = true -> is_bytes payload = true ->
  (exists p, decryptByCBCMode key payload = Panic p) <->
  exists k, length payload = (S k * 16)%nat /\
    (k = 0%nat \/
     exists b, last (cbc_decrypt k (take 16 key) (take 16 payload) (drop 16 payload)) = Some b /\
       16 <= b <= 254 /\ 16 * Z.of_nat k < 271 - b).
Proof.
  intros Hk Hkb Hpb.
  assert (Hcase : (exists k, length payload = S k * 16)%nat \/
                  (forall k, length payload <> S k * 16)%nat).
  { destruct (decide (length payload mod 16 = 0 /\ 16 <= length payload)%nat) as [[Hm Hg]|Hn].
    - left. apply Nat.Div0.div_exact in Hm. exists (length payload / 16 - 1)%nat.
      destruct (length payload / 16)%nat; lia.
    - right. intros k Hk'. apply Hn. rewrite Hk', Nat.Div0.mod_mul. lia. }
  destruct Hcase as [(k & Hl)|Hl].
  2:{ split; [|intros (k & Hk' & _); by apply Hl in Hk'].
      destruct (decrypt_rejects key payload Hl) as [e ->]. by intros [p Hp]. }
  rewrite (decrypt_blocks key payload k) by done. cbv zeta.
  destruct (cbc_decrypt_wf k (take 16 key) (take 16 payload) (drop 16 payload)) as [Hcl Hcb];
    auto with bytes; try (rewrite ?length_take, ?length_drop, ?Hl; unfold aes_BlockSize; lia).
  rewrite copy_into_exact by (by rewrite length_zeros).
  set (plain := cbc_decrypt _ _ _ _) in *. unfold last_byte.
  destruct k as [|k].
  { destruct plain; [|done]. cbn. split; [|eauto]. intros _. exists 0%nat. eauto. }
  destruct (last plain) as [b|] eqn:Eb; [|apply last_None in Eb; by subst; rewrite Eb in Hcl].
  assert (Hb : 0 <= b < 256).
  { apply is_bytes_Forall in Hcb. rewrite Forall_forall in Hcb. apply Hcb.
    rewrite last_lookup in Eb. by apply list_elem_of_lookup_2 in Eb. }
  cbn [obind]. unfold slice_to. rewrite Hcl. unfold aes_BlockSize, u8. change (2 ^ 8) with 256.
  destruct (Nat.leb_spec (Z.to_nat ((16 - (b + 1) mod 256) mod 256)) (S k * 16)) as [Hle|Hgt].
  - split; [by intros [p Hp]|]. intros (k' & Hk' & [->|(b' & Hb' & Hr & Hlt)]); [lia|].
    assert (k' = S k) as -> by lia. fold plain in Hb'. rewrite Eb in Hb'. injection Hb' as <-.
    exfalso. revert Hle. rewrite (Z.mod_small (b + 1)) by lia. dlia.
  - split; [|eauto]. intros _. exists (S k). split; [done|]. right. exists b. fold plain.
    split; [done|]. revert Hgt. clear -Hb. dlia.
Qed.

Lemma decrypt_panics_exactly_witness :
  let key := hmac_sha1 [1] [2] in
  (exists p, decryptByCBCMode key (zeros 16) = Panic p) <->
  exists k, length (zeros 16) = (S k * 16)%nat /\
    (k = 0%nat \/
     exists b, last (cbc_decrypt k (take 16 key) (take 16 (zeros 16)) (drop 16 (zeros 16))) = Some b /\
       16 <= b <= 254 /\ 16 * Z.of_nat k < 271 - b).
Proof.
  intros key. refine (decrypt_panics_exactly key (zeros 16) _ (hmac_bytes _ _) eq_refl).
  unfold key. rewrite hmac_length. apply Nat.leb_le. reflexivity.
Defined.

(** What a console that holds the session's keys sends: header, encrypted
    message, and any trailer. *)
Definition request_header (id seq : Z) : rmcpPlusSessionHeader :=
  {| h_AuthenticationType := authTypeRMCPPlus; h_PayloadType := 0xc0; h_SessionId := id;
     h_SessionSequenceNumber := seq; h_IpmiPayloadLen := 32 |}.

(** An established session of a registered user. *)
Definition established `{!CryptoOps} {M : Type} (users : bmcUserHolder) (s : bmc M) (id : Z)
  (v : rmcpPlusSession) : Prop :=
  sessions_wf users (sessions s) /\ sessions s !! id = Some v /\ s_ConfidentialityKey v <> [] /\
  is_Some (users !! string_of_bytes (s_UserName v)).

Lemma keyed_established `{!CryptoOps} {L : CryptoLaws} {M : Type} (users : bmcUserHolder) id v u
  ss (s : bmc M) :
  session_wf users id v -> users !! string_of_bytes (s_UserName v) = Some u ->
  sessions_wf users ss ->
  let w := session_with_keys v (session_sik v (Password u)) in
  sessions s = <[id := w]> ss -> established users s id w.
Proof.
  intros Hv Hu Hss w Hs. split_and!.
  - rewrite Hs. apply map_Forall_insert_2; [|done]. by eapply session_with_keys_wf.
  - rewrite Hs. apply lookup_insert_eq.
  - intros E. apply (f_equal length) in E. unfold w in E.
    cbn [session_with_keys s_ConfidentialityKey] in E.
    unfold generateK2, generateAdditionalKeyingMaterials in E. by rewrite hmac_length in E.
  - by eexists.
Qed.

(** What follows the payload plays no role. *)
Lemma encrypted_trailer {M : Type} `{!Machine M} `{!CryptoOps} (ent : entropy)
  (users : bmcUserHolder) (header : rmcpPlusSessionHeader) (payload trailer : list Z)
  (s : bmc M) :
  Z.of_nat (length payload) = h_IpmiPayloadLen header ->
  handleEncryptedRequest ent users header (payload ++ trailer) s =
  handleEncryptedRequest ent users header payload s.
Proof.
  intros Hl. pose proof (io_ReadFull_app (length payload) payload [] eq_refl) as E.
  rewrite app_nil_r in E. unfold handleEncryptedRequest, sbind, getRMCPPlusSession, slift.
  destruct (sessions s !! _); [|done]. destruct (getBMCUser users _); [|done].
  rewrite <- Hl, Nat2Z.id, io_ReadFull_app, E; done.
Qed.

(** Power control over an encrypted session. *)
Lemma encrypted_control_ok {M : Type} `{ReliableMachine M} `{!CryptoOps} {L : CryptoLaws}
  (ent : entropy) (users : bmcUserHolder) (s : bmc M) (id seq : Z) (v : rmcpPlusSession)
  (iv trailer : list Z) (msg : ipmiMessage) (c : Z) (rest : list Z) :
  established users s id v -> (forall i, ent_fail ent i = None) ->
  is_array 16 iv = true -> request_wf msg = true ->
  netFunction msg = ipmiNetFNChassis -> m_Command msg = ipmiCmdChassisControl ->
  m_Data msg = c :: rest ->
  exists ret payload resp s',
    handleEncryptedRequest ent users (request_header id seq)
      (cbc_packet (s_ConfidentialityKey v) iv (frame msg) ++ trailer) s =
      (Ok (ret ++ take 12 (hmac_sha1 (s_IntegrityKey v) ret)), s') /\
    take 32 (drop 12 ret) = payload /\
    decryptByCBCMode (s_ConfidentialityKey v) payload = Ok resp /\
    match Power.answer (control_request c) (is_on s) with
    | Some on' => nth 6 resp 0xff = completionCodeOK /\ is_on s' = on'
    | None => nth 6 resp 0xff <> completionCodeOK /\ is_on s' = is_on s
    end.
Proof.
  intros (Hwf & Hv & Hk & [u Hu]) Hnf Hiv Hmsg Hfn Hcmd Hdata.
  rewrite (handleEncryptedRequest_eq ent users _ iv msg trailer s v u); try done.
  unfold request_wf in Hmsg. bools.
  pose proof (chassis_control_implements (M := M) msg c rest) as Himp.
  destruct (Himp ltac:(done) ltac:(done) ltac:(done) ltac:(done) s) as (resp & s1 & E & Ha).
  assert (Hr : (length resp < 16)%nat /\ is_bytes resp = true).
  { pose proof E as E'. apply ipmi_handle_ok in E' as (code & data & HR & Hd & _ & H8); [|done].
    destruct HR as [(? & ? & ? & ? & -> & _) _ _ Hb]. split; [|exact Hb].
    destruct (Nat.eq_dec (length data) 8) as [Hd8|].
    - apply H8 in Hd8 as [Happ _]. by rewrite Hfn in Happ.
    - cbn [app length]. rewrite length_app. cbn [length]. lia. }
  destruct Hr as [Hlt Hrb]. rewrite E, (proj2 (Nat.ltb_lt _ _)) by done.
  destruct (established_keys users _ v (map_Forall_lookup_1 _ _ _ _ Hwf Hv) Hk) as [Hkl Hkb].
  set (payload := cbc_packet _ _ resp).
  assert (Hpl : length payload = 32%nat /\
                decryptByCBCMode (s_ConfidentialityKey v) payload = Ok resp).
  { unfold payload. split.
    - destruct (cbc_packet_wf (s_ConfidentialityKey v) (random_number ent (rnd s1)) resp)
        as [Hl _]; try done; [lia|apply random_number_array|]. by rewrite Hl, Nat.div_small.
    - rewrite decrypt_packet; try done; [|lia|apply random_number_array].
      by rewrite Nat.mod_small, firstn_all. }
  destruct Hpl as [Hpl Hdec]. eexists _, payload, resp, _. split; [reflexivity|].
  split; [by rewrite drop_app_length', take_app_length'|]. split; [done|].
  destruct (Power.answer _ _); destruct Ha as [Ha Hon]; bools; split; try done.
Qed.

(** C7: power control over an encrypted session.  On a reliable machine, a Chassis
    Control request that a console encrypts under the session's key is answered by
    a packet whose integrity code verifies under the session's integrity key and
    whose payload decrypts to an IPMI response; its completion code is 0x00
    exactly when the power specification accepts the request, and the machine ends
    in the state the specification prescribes. *)
Theorem encrypted_power_control {M : Type} `{ReliableMachine M} `{!CryptoOps} {L : CryptoLaws}
  (ent : entropy) (users : bmcUserHolder) (s : bmc M) (id seq : Z) (v : rmcpPlusSession)
  (iv trailer : list Z) (msg : ipmiMessage) (c : Z) (rest : list Z) :
  established users s id v -> (forall i, ent_fail ent i = None) ->
  is_array 16 iv = true -> request_wf msg = true ->
  netFunction msg = ipmiNetFNChassis -> m_Command msg = ipmiCmdChassisControl ->
  m_Data msg = c :: rest ->
  exists ret payload resp s',
    handleEncryptedRequest ent users (request_header id seq)
      (cbc_packet (s_ConfidentialityKey v) iv (frame msg) ++ trailer) s =
      (Ok (ret ++ take 12 (hmac_sha1 (s_IntegrityKey v) ret)), s') /\
    take 32 (drop 12 ret) = payload /\
    decryptByCBCMode (s_ConfidentialityKey v) payload = Ok resp /\
    match Power.answer (control_request c) (is_on s) with
    | Some on' => nth 6 resp 0xff = completionCodeOK /\ is_on s' = on'
    | None => nth 6 resp 0xff <> completionCodeOK /\ is_on s' = is_on s
    end.
Proof. apply encrypted_control_ok. Qed.

(** The encrypted request that stops the server.  Get Channel Authentication
    Capabilities has a response of a full block, so a console that sends it
    encrypted makes the handler panic. *)
Theorem encrypted_capabilities_panics {M : Type} `{!Machine M} `{!CryptoOps} {L : CryptoLaws}
  (ent : entropy) (users : bmcUserHolder) (s : bmc M) (id seq : Z) (v : rmcpPlusSession)
  (iv trailer : list Z) (msg : ipmiMessage) :
  established users s id v -> (forall i, ent_fail ent i = None) ->
  is_array 16 iv = true -> request_wf msg = true ->
  netFunction msg = ipmiNetFNApp -> m_Command msg = ipmiCmdGetChannelAuthCapabilities ->
  (2 <= length (m_Data msg))%nat ->
  exists p, (handleEncryptedRequest ent users (request_header id seq)
      (cbc_packet (s_ConfidentialityKey v) iv (frame msg) ++ trailer) s).1 = Panic p.
Proof.
  intros (Hwf & Hv & Hk & [u Hu]) Hnf Hiv Hmsg Hfn Hcmd Hdata.
  rewrite (handleEncryptedRequest_eq ent users _ iv msg trailer s v u); try done.
  assert (E : exists res s1, stry (handleIPMIApp msg) s = (Ok (inl res), s1) /\ length res = 8%nat).
  { unfold stry, handleIPMIApp. rewrite Hcmd. cbn [Z.eqb ipmiCmdGetChannelAuthCapabilities Pos.eqb].
    unfold slift, handleIPMIAuthenticationCapabilities.
    rewrite binary_Read_total by done. cbn [owrap obind]. by eexists _, _. }
  destruct E as (res & s1 & E & Hres). unfold ipmi_handle. rewrite Hfn.
  change (ipmiNetFNApp =? ipmiNetFNApp) with true. cbv iota. unfold sbind. rewrite E.
  cbn [completion]. unfold request_wf in Hmsg. bools.
  assert (Hrb : is_bytes res = true).
  { unfold stry in E. destruct (handleIPMIApp msg s) as [[] ?] eqn:Ea; simplify_eq.
    by apply app_result in Ea as [? _]. }
  destruct (appendIPMIMessageHeader_ok msg res (Z.lor ipmiNetFNApp ipmiNetFNResponse)
    completionCodeOK) as (resp & Ea & [(? & ? & ? & ? & -> & _) _ _ _]); try done.
  { by rewrite Hfn. }
  { by right. }
  unfold slift. rewrite Ea. cbn [app length]. rewrite length_app, Hres. by eexists.
Qed.

(** The demonstration session after RAKP message 3. *)
Definition demo_keyed : rmcpPlusSession :=
  session_with_keys demo_session (session_sik demo_session "cybozu").

Definition demo_established : bmc TwoStateMock :=
  Bmc {[ 0x03020100 := demo_keyed ]} 36 {| tsm_on := false |}.

Lemma demo_established_ok : established demo_users demo_established 0x03020100 demo_keyed.
Proof.
  refine (keyed_established demo_users 0x03020100 demo_session (BmcUser "cybozu" "cybozu") ∅
    demo_established _ _ _ _).
  - split; [reflexivity|by left].
  - reflexivity.
  - apply map_Forall_empty.
  - reflexivity.
Qed.

Lemma encrypted_power_control_witness :
  exists ret payload resp s',
    handleEncryptedRequest counting_entropy demo_users (request_header 0x03020100 3)
      (cbc_packet (s_ConfidentialityKey demo_keyed) (zeros 16) (frame power_up_msg) ++ [0xff])
      demo_established =
      (Ok (ret ++ take 12 (hmac_sha1 (s_IntegrityKey demo_keyed) ret)), s') /\
    take 32 (drop 12 ret) = payload /\
    decryptByCBCMode (s_ConfidentialityKey demo_keyed) payload = Ok resp /\
    nth 6 resp 0xff = completionCodeOK /\ is_on s' = true.
Proof.
  exact (encrypted_power_control counting_entropy demo_users demo_established 0x03020100 3
    demo_keyed (zeros 16) [0xff] power_up_msg 1 [] demo_established_ok (fun _ => eq_refl)
    eq_refl eq_refl eq_refl eq_refl eq_refl).
Defined.

(** A Get Channel Authentication Capabilities request as ipmitool sends it. *)
Definition capabilities_msg : ipmiMessage :=
  {| m_TargetAddress := 0x20; m_TargetLun := 0x18; m_Checksum := 0xc8;
     m_SourceAddress := 0x81; m_SourceLun := 0x04; m_Command := 0x38;
     m_CompletionCode := 0; m_Data := [0x8e; 0x04]; m_DataChecksum := 0xb1 |}.

Lemma encrypted_capabilities_panics_witness :
  exists p, (handleEncryptedRequest counting_entropy demo_users (request_header 0x03020100 3)
      (cbc_packet (s_ConfidentialityKey demo_keyed) (zeros 16) (frame capabilities_msg) ++ [])
      demo_established).1 = Panic p.
Proof.
  exact (encrypted_capabilities_panics counting_entropy demo_users demo_established 0x03020100 3
    demo_keyed (zeros 16) [] capabilities_msg demo_established_ok (fun _ => eq_refl)
    eq_refl eq_refl eq_refl eq_refl (le_n 2)).
Defined.

(** The integrity trailer of a request is never looked at: two packets that
    agree on header and payload are handled alike, whatever pad, pad length and
    authentication code follow, and even if nothing follows. *)
Theorem request_integrity_ignored {M : Type} `{!Machine M} `{!CryptoOps} (ent : entropy)
  (users : bmcUserHolder) (header : rmcpPlusSessionHeader) (payload trailer : list Z)
  (s : bmc M) :
  Z.of_nat (length payload) = h_IpmiPayloadLen header ->
  handleEncryptedRequest ent users header (payload ++ trailer) s =
  handleEncryptedRequest ent users header payload s.
Proof. apply encrypted_trailer. Qed.

Lemma request_integrity_ignored_witness :
  let payload := cbc_packet (s_ConfidentialityKey demo_keyed) (zeros 16) (frame power_up_msg) in
  handleEncryptedRequest counting_entropy demo_users (request_header 0x03020100 3)
    (payload ++ [1; 2; 3]) demo_established =
  handleEncryptedRequest counting_entropy demo_users (request_header 0x03020100 3)
    payload demo_established.
Proof.
  intros payload.
  apply (request_integrity_ignored counting_entropy demo_users (request_header 0x03020100 3)
    payload [1; 2; 3] demo_established).
  vm_compute. reflexivity.
Defined.

(** An encrypted request on a session that has seen RAKP message 1 but no
    successful message 3 panics: the nil key is sliced, whatever the payload of
    full blocks is. *)
Theorem encrypted_without_keys_panics {M : Type} `{!Machine M} `{!CryptoOps} (ent : entropy)
  (users : bmcUserHolder) (header : rmcpPlusSessionHeader) (payload trailer : list Z) (k : nat)
  (v : rmcpPlusSession) (s : bmc M) :
  sessions s !! h_SessionId header = Some v -> s_ConfidentialityKey v = [] ->
  is_Some (users !! string_of_bytes (s_UserName v)) ->
  length payload = (S k * 16)%nat -> h_IpmiPayloadLen header = Z.of_nat (length payload) ->
  handleEncryptedRequest ent users header (payload ++ trailer) s = (Panic SliceBounds, s).
Proof.
  intros Hv Hk [u Hu] Hl Hlen.
  unfold handleEncryptedRequest, sbind, getRMCPPlusSession, slift, getBMCUser.
  rewrite Hv, Hu, Hlen, Nat2Z.id, io_ReadFull_app by done.
  unfold decryptByCBCMode. rewrite Hl, (proj2 (Nat.ltb_ge _ _)) by (unfold aes_BlockSize; lia).
  change 16%nat with aes_BlockSize at 1. rewrite Nat.Div0.mod_mul, Hk. done.
Qed.

Lemma encrypted_without_keys_panics_witness :
  handleEncryptedRequest counting_entropy demo_users (request_header 0x03020100 3)
    (zeros 32 ++ []) demo_bmc = (Panic SliceBounds, demo_bmc).
Proof.
  apply (encrypted_without_keys_panics counting_entropy demo_users (request_header 0x03020100 3)
    (zeros 32) [] 1 demo_session demo_bmc); try reflexivity. by eexists.
Defined.
