(* ===== verification/Server.v ===== *)
(** * The IPMI server: correctness

    The server loop refines the abstract session table: every datagram, however
    it is formed, performs one step of the table or stops the server.  From the
    refinement: the session invariant over whole runs, and that session keys come
    only from authenticated exchanges. *)

From S2P Require Import Prelude GoBinary GoCrypto Sha1 Aes Machine Session Ipmi RmcpPlus Rmcp.
From S2P Require Import Handshake Encrypted.

Local Open Scope Z_scope.
Local Open Scope go_scope.

#[export] Instance remoteManagementControlProtocolHeader_codec_ok :
  CodecOk remoteManagementControlProtocolHeader_codec.
Proof. solve_struct_codec. Qed.

Section Refinement.
Context {M : Type} `{!Machine M} `{!CryptoOps} {L : CryptoLaws}.
Context (ent : entropy) (users : bmcUserHolder) (fuel : nat).
Implicit Types s : bmc M.

Lemma encryptByCBCMode_only_rnd key plain :
  preserves only_rnd (encryptByCBCMode (M := M) ent key plain).
Proof.
  pose proof (generateRandomNumber_only_rnd (M := M) ent).
  unfold encryptByCBCMode. preserves.
Qed.

Lemma sessions_after_step msg m ss : Table.step users msg ss (sessions_after m ss).
Proof. unfold sessions_after. destruct (_ && _); constructor. Qed.

Lemma handleEncryptedRequest_step header buf s o s' :
  handleEncryptedRequest ent users header buf s = (o, s') ->
  Table.step users buf (sessions s) (sessions s').
Proof.
  unfold handleEncryptedRequest, sbind at 1, getRMCPPlusSession, slift.
  destruct (sessions s !! _) as [v|]; [|by (intros [= _ <-]; constructor)].
  destruct (getBMCUser _ _); [|by (intros [= _ <-]; constructor)].
  unfold sbind at 1. destruct (io_ReadFull _ _) as [[payload rest]| | |];
    try by (intros [= _ <-]; constructor).
  unfold sbind at 1. destruct (decryptByCBCMode _ _) as [plain| | |];
    try by (intros [= _ <-]; constructor).
  unfold sbind at 1. destruct (newIPMI _ _) as [[m ?]| | |]; try by (intros [= _ <-]; constructor).
  unfold sbind at 1. destruct (ipmi_handle m s) as [o1 s1] eqn:E1.
  apply ipmi_handle_sessions in E1 as [_ Hs1].
  assert (Hst : Table.step users buf (sessions s) (sessions s1))
    by (rewrite Hs1; apply sessions_after_step).
  destruct o1; try by intros [= _ <-].
  unfold sbind at 1. destruct (encryptByCBCMode _ _ _ s1) as [o2 s2] eqn:E2.
  apply encryptByCBCMode_only_rnd in E2 as [Hs2 _]. rewrite <- Hs2 in Hst.
  destruct o2; try by intros [= _ <-].
  unfold sbind, binary_Write, binary_Write_slice.
  destruct (generateIntegrityData _ _); by intros [= _ <-].
Qed.

Lemma rmcpPlus_handle_step header buf s o s' :
  is_bytes buf = true -> sessions_wf users (sessions s) ->
  rmcpPlus_handle ent users fuel header buf s = (o, s') ->
  Table.step users buf (sessions s) (sessions s').
Proof.
  intros Hb Hwf. unfold rmcpPlus_handle.
  destruct (_ && _); [apply handleEncryptedRequest_step|].
  destruct (_ =? _); [by apply handleOpenSessionRequest_step|].
  destruct (_ =? _); [by apply handleRAKPMessage1Request_step|].
  destruct (_ =? _); [by apply handleRAKPMessage3Request_step|].
  intros [= _ <-]. constructor.
Qed.

(** The RMCP+ header of the code: eleven bytes after the authentication type. *)
Lemma deserializeRMCPPlusSessionHeader_rest buf authType h rest :
  is_bytes buf = true -> deserializeRMCPPlusSessionHeader buf authType = Ok (h, rest) ->
  rest = drop 11 buf /\ is_bytes rest = true.
Proof.
  intros Hb. unfold deserializeRMCPPlusSessionHeader. intros E.
  apply obind_ok in E as ([a b1] & E1 & E). apply obind_ok in E as ([b b2] & E2 & E).
  apply obind_ok in E as ([c b3] & E3 & E). apply obind_ok in E as ([d b4] & E4 & E).
  cbn beta iota in E. go_inv.
  apply binary_Read_rest in E1, E2, E3, E4. subst. cbn [c_size u8c u16c u32c].
  rewrite !drop_drop. auto with bytes.
Qed.

Lemma ipmiSession_handle_step authType buf s o s' :
  is_bytes buf = true -> sessions_wf users (sessions s) ->
  ipmiSession_handle ent users fuel authType buf s = (o, s') ->
  Table.step users (drop 11 buf) (sessions s) (sessions s').
Proof.
  intros Hb Hwf. unfold ipmiSession_handle, sbind at 1, slift.
  destruct (isRMCPPlusFormat authType) as [[]| | |]; try by (intros [= _ <-]; constructor).
  - unfold sbind at 1, newRMCPPlus.
    destruct (deserializeRMCPPlusSessionHeader buf authType) as [[h rest]| | |] eqn:Eh;
      try by (intros [= _ <-]; constructor).
    apply deserializeRMCPPlusSessionHeader_rest in Eh as [-> Hr]; [|done].
    by apply rmcpPlus_handle_step.
  - unfold sbind at 1.
    destruct (deserializeIPMISessionWrapper buf authType) as [[w rest]| | |];
      try by (intros [= _ <-]; constructor).
    unfold sbind at 1. destruct (newIPMI _ _) as [[m ?]| | |]; try by (intros [= _ <-]; constructor).
    unfold sbind at 1. destruct (ipmi_handle m s) as [o1 s1] eqn:E1.
    apply ipmi_handle_sessions in E1 as [_ Hs1].
    assert (Hst : Table.step users (drop 11 buf) (sessions s) (sessions s1))
      by (rewrite Hs1; apply sessions_after_step).
    destruct o1; try by intros [= _ <-].
    unfold sbind. destruct (serializeIPMISessionWrapper _ _); by intros [= _ <-].
Qed.

Lemma handleRMCPRequest_step buf s o s' :
  is_bytes buf = true -> sessions_wf users (sessions s) ->
  handleRMCPRequest ent users fuel buf s = (o, s') ->
  Table.step users (drop 16 buf) (sessions s) (sessions s').
Proof.
  intros Hb Hwf. unfold handleRMCPRequest, newRMCP, deserializeRMCPHeader, sbind at 1, slift.
  destruct (binary_Read _ buf) as [[h b1]| | |] eqn:Eh; try by (intros [= _ <-]; constructor).
  apply binary_Read_rest in Eh as ->. unfold rmcp_handle.
  destruct (_ =? _); [|intros [= _ <-]; constructor].
  unfold sbind at 1, newIPMISession, slift.
  destruct (owrap _ (binary_Read u8c _)) as [[a b2]| | |] eqn:Ea;
    try by (intros [= _ <-]; constructor).
  apply (proj1 (owrap_ok _ _ _)), binary_Read_rest in Ea as ->.
  unfold sbind. destruct (ipmiSession_handle _ _ _ _ _ s) as [o1 s1] eqn:E1.
  apply ipmiSession_handle_step in E1; auto with bytes. rewrite !drop_drop in E1.
  cbn in E1. by destruct o1; intros [= _ <-].
Qed.

End Refinement.

(** ** Runs of the server *)

Section Runs.
Context {M : Type} `{!Machine M} `{!CryptoOps} {L : CryptoLaws}.
Context (ent : entropy) (users : bmcUserHolder) (fuel : nat).

(** The server's invariant: a full receive buffer and a well-formed table. *)
Definition server_inv (st : serverState M) : Prop :=
  match st with
  | Serving buf b => is_array recvBufSize buf = true /\ sessions_wf users (sessions b)
  | Crashed _ | Spinning => True
  end.

(** The datagrams of a trace are byte sequences. *)
Definition trace_wf (tr : list (list Z * option (list Z))) : Prop :=
  Forall (fun dr => is_bytes dr.1 = true) tr.

Lemma recv_array buf d :
  is_array recvBufSize buf = true -> is_bytes d = true -> is_array recvBufSize (recv buf d) = true.
Proof.
  rewrite !is_array_spec. intros [Hl Hb] Hd. unfold recv. rewrite length_copy_into.
  split; [done|]. by apply is_bytes_copy_into.
Qed.

Lemma server_init_inv m : server_inv (server_init m).
Proof.
  split; [|apply map_Forall_empty]. apply is_array_spec. split; [apply length_zeros|].
  apply is_bytes_zeros.
Qed.

Lemma server_step_table buf b d r buf' b' :
  server_inv (Serving buf b) -> is_bytes d = true ->
  server_step ent users fuel buf b d = (r, Serving buf' b') ->
  buf' = recv buf d /\ Table.step users (drop 16 buf') (sessions b) (sessions b').
Proof.
  intros [Hbuf Hwf] Hd. unfold server_step.
  pose proof (recv_array buf d Hbuf Hd) as [_ Hb]%is_array_spec.
  destruct (handleRMCPRequest _ _ _ _ b) as [o b1] eqn:E.
  apply handleRMCPRequest_step in E; [|done..].
  destruct o; intros [= <- <- <-]; done.
Qed.

Lemma server_step_inv buf b d r st :
  server_inv (Serving buf b) -> is_bytes d = true ->
  server_step ent users fuel buf b d = (r, st) -> server_inv st.
Proof.
  intros Hinv Hd E. destruct st as [buf' b'| |]; [|done..].
  apply server_step_table in E as [-> Hst]; [|done..]. destruct Hinv as [Hbuf Hwf].
  split; [by apply recv_array|]. by eapply step_wf.
Qed.

Lemma server_run_inv st tr st' :
  server_run ent users fuel st tr st' -> trace_wf tr -> server_inv st -> server_inv st'.
Proof.
  induction 1 as [|buf b d r st tr st' Hs Hr IH]; [done|].
  intros [Hd Htr]%Forall_cons Hinv. apply IH; [done|]. by eapply server_step_inv.
Qed.

Lemma server_run_app st tr1 tr2 st' :
  server_run ent users fuel st (tr1 ++ tr2) st' <->
  exists mid, server_run ent users fuel st tr1 mid /\ server_run ent users fuel mid tr2 st'.
Proof.
  split.
  - revert st. induction tr1 as [|dr tr1 IH]; intros st; cbn [app].
    + intros Hr. eexists. split; [constructor|done].
    + inversion 1 as [|buf b d r s1 ? ? Hs Hr]; subst. apply IH in Hr as (mid & ? & ?).
      exists mid. split; [|done]. by econstructor.
  - intros (mid & H1 & H2). induction H1; [done|]. cbn [app]. econstructor; eauto.
Qed.

Lemma server_run_snoc st tr d r buf b :
  server_run ent users fuel st (tr ++ [(d, r)]) (Serving buf b) ->
  exists buf1 b1, server_run ent users fuel st tr (Serving buf1 b1) /\
    server_step ent users fuel buf1 b1 d = (r, Serving buf b).
Proof.
  intros Hr. apply server_run_app in Hr as (mid & H1 & H2).
  inversion H2 as [|buf1 b1 ? ? s1 ? ? Hs Hn]; subst. inversion Hn; subst. eauto.
Qed.

(** A datagram handled along a run that authenticated the session [id], with the
    keys [k2] (confidentiality) and [k1] (integrity). *)
Definition authenticated_at (st : serverState M) (tr : list (list Z * option (list Z))) (id : Z)
  (k2 k1 : list Z) : Prop :=
  exists tr1 d r tr2 buf b v u p rest,
    tr = tr1 ++ (d, r) :: tr2 /\ server_run ent users fuel st tr1 (Serving buf b) /\
    sessions b !! id = Some v /\ users !! string_of_bytes (s_UserName v) = Some u /\
    binary_Read rakpMessage3Request_codec (drop 16 (recv buf d)) = Ok (p, rest) /\
    r3_ManagedSystemSessionId p = id /\
    r3_KeyExchangeAuthenticationCode p = session_code3 v (Password u) /\
    k2 = generateK2 (session_sik v (Password u)) /\ k1 = generateK1 (session_sik v (Password u)).

Lemma authenticated_at_snoc st tr dr id k2 k1 :
  authenticated_at st tr id k2 k1 -> authenticated_at st (tr ++ [dr]) id k2 k1.
Proof.
  intros (tr1 & d & r & tr2 & buf & b & v & u & p & rest & -> & Hrest).
  exists tr1, d, r, (tr2 ++ [dr]), buf, b, v, u, p, rest. by rewrite <- app_assoc.
Qed.

Lemma server_run_keys m tr buf b :
  server_run ent users fuel (server_init m) tr (Serving buf b) -> trace_wf tr ->
  forall id v, sessions b !! id = Some v -> s_ConfidentialityKey v <> [] ->
  authenticated_at (server_init m) tr id (s_ConfidentialityKey v) (s_IntegrityKey v).
Proof.
  revert buf b. induction tr as [|[d r] tr IH] using rev_ind; intros buf b Hrun Htr id v Hv Hk.
  { inversion Hrun; subst. done. }
  apply Forall_app in Htr as [Htr [Hd _]%Forall_cons].
  apply server_run_snoc in Hrun as (buf1 & b1 & Hrun & Hs).
  pose proof (server_run_inv _ _ _ Hrun Htr (server_init_inv m)) as Hinv.
  apply server_step_table in Hs as [-> Hst]; [|done..].
  destruct (step_keys users _ _ _ id v Hst Hv Hk)
    as [(w & Hw & Hk2 & Hk1)|(w & u & p & rest & Hw & Hu & Hp & Hid & Hc & ->)].
  - rewrite <- Hk2, <- Hk1. apply authenticated_at_snoc. apply (IH buf1 b1); try done. congruence.
  - by exists tr, d, r, [], buf1, b1, w, u, p, rest.
Qed.

End Runs.
