(* ===== verification/IpmiCommands.v ===== *)
(** * The IPMI commands the sources declare (ipmi.go, ipmi_app.go, ipmi_chassis.go,
    ipmi_session.go)

    The sources declare the network functions, the commands of two of them and the
    authentication types of the standard, and implement a few.  Here are the remaining
    declarations, with what the BMC answers to a request it does not implement and
    what it tells a client about the authentication types. *)

From S2P Require Import Prelude GoBinary GoCrypto Aes Machine Session Ipmi RmcpPlus Rmcp Server.

Local Open Scope Z_scope.
Local Open Scope go_scope.

(** ** Network functions *)

Definition ipmiNetFNBridge : Z := 0x02.
Definition ipmiNetFNSensorEvent : Z := 0x04.
Definition ipmiNetFNFirmware : Z := 0x08.
Definition ipmiNetFNStorage : Z := 0x0a.
Definition ipmiNetFNTransport : Z := 0x0c.
Definition ipmiNetFNGroupExtension : Z := 0x2c.
Definition ipmiNetFNOEMGroup : Z := 0x2e.

(** ** Commands of the App function *)

Definition ipmiCmdGetDeviceID : Z := 0x01.
Definition ipmiCmdBroadcastGetDeviceID : Z := 0x01.
Definition ipmiCmdColdReset : Z := 0x02.
Definition ipmiCmdWarmReset : Z := 0x03.
Definition ipmiCmdGetSelfTestResults : Z := 0x04.
Definition ipmiCmdManufacturingTestOn : Z := 0x05.
Definition ipmiCmdSetACPIPowerState : Z := 0x06.
Definition ipmiCmdGetACPIPowerState : Z := 0x07.
Definition ipmiCmdGetDeviceGUID : Z := 0x08.
Definition ipmiCmdResetWatchdogTimer : Z := 0x22.
Definition ipmiCmdSetWatchdogTimer : Z := 0x24.
Definition ipmiCmdGetWatchdogTimer : Z := 0x25.
Definition ipmiCmdSetBMCGlobalEnables : Z := 0x2e.
Definition ipmiCmdGetBMCGlobalEnables : Z := 0x2f.
Definition ipmiCmdClearMSGFlags : Z := 0x30.
Definition ipmiCmdGetMSGFlags : Z := 0x31.
Definition ipmiCmdEnableMessageChannelRCV : Z := 0x32.
Definition ipmiCmdGetMSG : Z := 0x33.
Definition ipmiCmdSendMSG : Z := 0x34.
Definition ipmiCmdReadEventMSGBuffer : Z := 0x35.
Definition ipmiCmdGetBTInterfaceCapabilities : Z := 0x36.
Definition ipmiCmdGetSystemGUID : Z := 0x37.
Definition ipmiCmdGetSessionChallenge : Z := 0x39.
Definition ipmiCmdActivateSession : Z := 0x3a.
Definition ipmiCmdGetSessionInfo : Z := 0x3d.
Definition ipmiCmdGetAuthCode : Z := 0x3f.
Definition ipmiCmdSetChannelAccess : Z := 0x40.
Definition ipmiCmdGetChannelAccess : Z := 0x41.
Definition ipmiCmdGetChannelInfo : Z := 0x42.
Definition ipmiCmdSetUserAccess : Z := 0x43.
Definition ipmiCmdGetUserAccess : Z := 0x44.
Definition ipmiCmdSetUserName : Z := 0x45.
Definition ipmiCmdGetUserName : Z := 0x46.
Definition ipmiCmdSetUserPassword : Z := 0x47.
Definition ipmiCmdActivatePayload : Z := 0x48.
Definition ipmiCmdDeactivatePayload : Z := 0x49.
Definition ipmiCmdGetPayloadActivationStatus : Z := 0x4a.
Definition ipmiCmdGetPayloadInstanceInfo : Z := 0x4b.
Definition ipmiCmdSetUserPayloadAccess : Z := 0x4c.
Definition ipmiCmdGetUserPayloadAccess : Z := 0x4d.
Definition ipmiCmdGetChannelPayloadSupport : Z := 0x4e.
Definition ipmiCmdGetChannelPayloadVersion : Z := 0x4f.
Definition ipmiCmdGetChannelOEMPayloadInfo : Z := 0x50.
Definition ipmiCmdMasterReadWrite : Z := 0x52.
Definition ipmiCmdGetChannelCipherSuites : Z := 0x54.
Definition ipmiCmdSuspendResumePayloadEncryption : Z := 0x55.
Definition ipmiCmdSetChannelSecurityKey : Z := 0x56.
Definition ipmiCmdGetSystemInterfaceCapabilities : Z := 0x57.

(** ** Commands of the Chassis function *)

Definition ipmiCmdGetChassisCapabilities : Z := 0x00.
Definition ipmiCmdChassisReset : Z := 0x03.
Definition ipmiCmdChassisIdentify : Z := 0x04.
Definition ipmiCmdSetChassisCapabilities : Z := 0x05.
Definition ipmiCmdSetPowerRestorePolicy : Z := 0x06.
Definition ipmiCmdGetSystemRestartCause : Z := 0x07.
Definition ipmiCmdSetSystemBootOptions : Z := 0x08.
Definition ipmiCmdGetSystemBootOptions : Z := 0x09.
Definition ipmiCmdGetPOHCounter : Z := 0x0f.

(** ** Authentication *)

Definition authBitmaskStraightKey : Z := 0x10.
Definition authBitmaskOEM : Z := 0x20.
Definition authStatusAnonymous : Z := 0x01.
Definition authStatusUserLevel : Z := 0x08.
Definition authStatusPerMessage : Z := 0x10.
Definition authStatusKG : Z := 0x20.
Definition extendedCapabilitiesChannel15 : Z := 0x01.

Definition authTypeMD2 : Z := 0x01.
Definition authTypeMD5 : Z := 0x02.
Definition authTypeStraightPasswordKey : Z := 0x04.
Definition authTypeOEM : Z := 0x05.

(** ** The declarations by name *)

Definition network_functions : list (string * Z) :=
  [("ipmiNetFNChassis", ipmiNetFNChassis);
   ("ipmiNetFNBridge", ipmiNetFNBridge);
   ("ipmiNetFNSensorEvent", ipmiNetFNSensorEvent);
   ("ipmiNetFNApp", ipmiNetFNApp);
   ("ipmiNetFNFirmware", ipmiNetFNFirmware);
   ("ipmiNetFNStorage", ipmiNetFNStorage);
   ("ipmiNetFNTransport", ipmiNetFNTransport);
   ("ipmiNetFNGroupExtension", ipmiNetFNGroupExtension);
   ("ipmiNetFNOEMGroup", ipmiNetFNOEMGroup)].

Definition app_commands : list (string * Z) :=
  [("ipmiCmdGetDeviceID", ipmiCmdGetDeviceID);
   ("ipmiCmdBroadcastGetDeviceID", ipmiCmdBroadcastGetDeviceID);
   ("ipmiCmdColdReset", ipmiCmdColdReset);
   ("ipmiCmdWarmReset", ipmiCmdWarmReset);
   ("ipmiCmdGetSelfTestResults", ipmiCmdGetSelfTestResults);
   ("ipmiCmdManufacturingTestOn", ipmiCmdManufacturingTestOn);
   ("ipmiCmdSetACPIPowerState", ipmiCmdSetACPIPowerState);
   ("ipmiCmdGetACPIPowerState", ipmiCmdGetACPIPowerState);
   ("ipmiCmdGetDeviceGUID", ipmiCmdGetDeviceGUID);
   ("ipmiCmdResetWatchdogTimer", ipmiCmdResetWatchdogTimer);
   ("ipmiCmdSetWatchdogTimer", ipmiCmdSetWatchdogTimer);
   ("ipmiCmdGetWatchdogTimer", ipmiCmdGetWatchdogTimer);
   ("ipmiCmdSetBMCGlobalEnables", ipmiCmdSetBMCGlobalEnables);
   ("ipmiCmdGetBMCGlobalEnables", ipmiCmdGetBMCGlobalEnables);
   ("ipmiCmdClearMSGFlags", ipmiCmdClearMSGFlags);
   ("ipmiCmdGetMSGFlags", ipmiCmdGetMSGFlags);
   ("ipmiCmdEnableMessageChannelRCV", ipmiCmdEnableMessageChannelRCV);
   ("ipmiCmdGetMSG", ipmiCmdGetMSG);
   ("ipmiCmdSendMSG", ipmiCmdSendMSG);
   ("ipmiCmdReadEventMSGBuffer", ipmiCmdReadEventMSGBuffer);
   ("ipmiCmdGetBTInterfaceCapabilities", ipmiCmdGetBTInterfaceCapabilities);
   ("ipmiCmdGetSystemGUID", ipmiCmdGetSystemGUID);
   ("ipmiCmdGetChannelAuthCapabilities", ipmiCmdGetChannelAuthCapabilities);
   ("ipmiCmdGetSessionChallenge", ipmiCmdGetSessionChallenge);
   ("ipmiCmdActivateSession", ipmiCmdActivateSession);
   ("ipmiCmdSetSessionPrivilege", ipmiCmdSetSessionPrivilege);
   ("ipmiCmdCloseSession", ipmiCmdCloseSession);
   ("ipmiCmdGetSessionInfo", ipmiCmdGetSessionInfo);
   ("ipmiCmdGetAuthCode", ipmiCmdGetAuthCode);
   ("ipmiCmdSetChannelAccess", ipmiCmdSetChannelAccess);
   ("ipmiCmdGetChannelAccess", ipmiCmdGetChannelAccess);
   ("ipmiCmdGetChannelInfo", ipmiCmdGetChannelInfo);
   ("ipmiCmdSetUserAccess", ipmiCmdSetUserAccess);
   ("ipmiCmdGetUserAccess", ipmiCmdGetUserAccess);
   ("ipmiCmdSetUserName", ipmiCmdSetUserName);
   ("ipmiCmdGetUserName", ipmiCmdGetUserName);
   ("ipmiCmdSetUserPassword", ipmiCmdSetUserPassword);
   ("ipmiCmdActivatePayload", ipmiCmdActivatePayload);
   ("ipmiCmdDeactivatePayload", ipmiCmdDeactivatePayload);
   ("ipmiCmdGetPayloadActivationStatus", ipmiCmdGetPayloadActivationStatus);
   ("ipmiCmdGetPayloadInstanceInfo", ipmiCmdGetPayloadInstanceInfo);
   ("ipmiCmdSetUserPayloadAccess", ipmiCmdSetUserPayloadAccess);
   ("ipmiCmdGetUserPayloadAccess", ipmiCmdGetUserPayloadAccess);
   ("ipmiCmdGetChannelPayloadSupport", ipmiCmdGetChannelPayloadSupport);
   ("ipmiCmdGetChannelPayloadVersion", ipmiCmdGetChannelPayloadVersion);
   ("ipmiCmdGetChannelOEMPayloadInfo", ipmiCmdGetChannelOEMPayloadInfo);
   ("ipmiCmdMasterReadWrite", ipmiCmdMasterReadWrite);
   ("ipmiCmdGetChannelCipherSuites", ipmiCmdGetChannelCipherSuites);
   ("ipmiCmdSuspendResumePayloadEncryption", ipmiCmdSuspendResumePayloadEncryption);
   ("ipmiCmdSetChannelSecurityKey", ipmiCmdSetChannelSecurityKey);
   ("ipmiCmdGetSystemInterfaceCapabilities", ipmiCmdGetSystemInterfaceCapabilities)].

Definition chassis_commands : list (string * Z) :=
  [("ipmiCmdGetChassisCapabilities", ipmiCmdGetChassisCapabilities);
   ("ipmiCmdGetChassisStatus", ipmiCmdGetChassisStatus);
   ("ipmiCmdChassisControl", ipmiCmdChassisControl);
   ("ipmiCmdChassisReset", ipmiCmdChassisReset);
   ("ipmiCmdChassisIdentify", ipmiCmdChassisIdentify);
   ("ipmiCmdSetChassisCapabilities", ipmiCmdSetChassisCapabilities);
   ("ipmiCmdSetPowerRestorePolicy", ipmiCmdSetPowerRestorePolicy);
   ("ipmiCmdGetSystemRestartCause", ipmiCmdGetSystemRestartCause);
   ("ipmiCmdSetSystemBootOptions", ipmiCmdSetSystemBootOptions);
   ("ipmiCmdGetSystemBootOptions", ipmiCmdGetSystemBootOptions);
   ("ipmiCmdGetPOHCounter", ipmiCmdGetPOHCounter)].

Definition authentication_types : list (string * Z) :=
  [("authTypeNone", authTypeNone);
   ("authTypeMD2", authTypeMD2);
   ("authTypeMD5", authTypeMD5);
   ("authTypeStraightPasswordKey", authTypeStraightPasswordKey);
   ("authTypeOEM", authTypeOEM);
   ("authTypeRMCPPlus", authTypeRMCPPlus)].

(** ** What the commands answer *)

(** The completion code and the data of the answer to a request, for a machine that is on
    or off: the table of the commands the BMC implements.  Every other command of the two
    network functions, and one whose data are too short, is answered with 0xd5 and no
    data; a request of another network function is not answered. *)
Definition answer_table (on : bool) (msg : ipmiMessage) : option (Z * list Z) :=
  let data := m_Data msg in
  let refused := (0xd5, []) in
  if netFunction msg =? 0x06 then Some
    (if (m_Command msg =? 0x38) && (2 <=? length data)%nat then (0, [1; 0x87; 0x06; 0x02; 0; 0; 0; 0])
     else if m_Command msg =? 0x3b then match data with level :: _ => (0, [level]) | [] => refused end
     else if (m_Command msg =? 0x3c) && (4 <=? length data)%nat then (0, [])
     else refused)
  else if netFunction msg =? 0x00 then Some
    (if m_Command msg =? 0x01 then (0, [if on then 1 else 0; 0; 0; 0])
     else if m_Command msg =? 0x02 then
       match data with
       | c :: _ => match Power.answer (control_request c) on with Some _ => (0, []) | None => refused end
       | [] => refused
       end
     else refused)
  else None.

(** The power state a request leaves. *)
Definition power_after (on : bool) (msg : ipmiMessage) : bool :=
  match m_Data msg with
  | c :: _ =>
      if (netFunction msg =? 0x00) && (m_Command msg =? 0x02)
      then default on (Power.answer (control_request c) on) else on
  | [] => on
  end.

(** The bit of an authentication type in the capabilities. *)
Definition type_bit (authType : Z) : Z := Z.shiftl 1 authType.

(** ** Lemmas *)

(** The outcome of a handler, as the code and the data of an answer. *)
Definition outcome_is (o : outcome (list Z)) (code : Z) (data : list Z) : Prop :=
  match o with
  | Ok d => code = 0 /\ data = d /\ is_bytes d = true
  | Err _ => code = 0xd5 /\ data = []
  | _ => False
  end.

Section Answers.
Context {M : Type} `{!Machine M}.
Implicit Types s : bmc M.

(** Whatever a handler does becomes an answer. *)
Lemma handler_answered msg (h : st (bmc M) (list Z)) s s' o code data netfn :
  msg_wf msg = true -> netfn = netFunction msg + 1 -> netfn = 1 \/ netfn = 7 ->
  h s = (o, s') -> outcome_is o code data ->
  exists resp,
    (let* r := stry h in
     let (res, code) := completion r in
     slift (appendIPMIMessageHeader msg res netfn code)) s = (Ok resp, s') /\
    response_for msg code data resp.
Proof.
  intros Hwf Hnf Hn Hh Ho. unfold sbind, stry. rewrite Hh.
  destruct o as [d|e|p|]; try done; cbn [completion]; unfold slift.
  - destruct Ho as (-> & -> & Hd).
    destruct (appendIPMIMessageHeader_ok msg d netfn completionCodeOK) as (resp & E & HR); [done..|].
    exists resp. by rewrite E.
  - destruct Ho as (-> & ->).
    destruct (appendIPMIMessageHeader_ok msg [] netfn completionCodeCouldNotExecuteCommand)
      as (resp & E & HR); [done..|]. exists resp. by rewrite E.
Qed.

Lemma capabilities_answer msg :
  outcome_is (handleIPMIAuthenticationCapabilities msg)
    (if (2 <=? length (m_Data msg))%nat then 0 else 0xd5)
    (if (2 <=? length (m_Data msg))%nat then [1; 0x87; 0x06; 0x02; 0; 0; 0; 0] else []).
Proof.
  unfold handleIPMIAuthenticationCapabilities. destruct (Nat.leb_spec 2 (length (m_Data msg))) as [H|H].
  - by rewrite binary_Read_total.
  - by rewrite binary_Read_short.
Qed.

Lemma privilege_answer msg :
  msg_wf msg = true ->
  match m_Data msg with
  | level :: _ => outcome_is (handleIPMISetSessionPrivilegeLevel msg) 0 [level]
  | [] => outcome_is (handleIPMISetSessionPrivilegeLevel msg) 0xd5 []
  end.
Proof.
  intros Hwf. unfold handleIPMISetSessionPrivilegeLevel. msg_fields Hwf.
  destruct (m_Data msg) as [|level rest]; [done|].
  assert (Hl : is_u8 level = true) by (unfold is_bytes in *; cbn [forallb] in *; by bools).
  pose proof (binary_Read_enc u8c level rest Hl) as E. rewrite u8c_enc in E by done. cbn [app] in E.
  rewrite E. cbn [owrap obind]. unfold binary_Write. rewrite u8c_enc by done. cbn.
  split_and!; [done..|]. by rewrite Hl.
Qed.

Lemma app_answered msg s on :
  msg_wf msg = true -> netFunction msg = ipmiNetFNApp ->
  exists o s' code data, handleIPMIApp msg s = (o, s') /\ outcome_is o code data /\
    answer_table on msg = Some (code, data).
Proof.
  intros Hwf Hn. unfold answer_table. rewrite Hn. cbn [Z.eqb ipmiNetFNApp Pos.eqb].
  unfold handleIPMIApp.
  destruct (Z.eqb_spec (m_Command msg) ipmiCmdGetChannelAuthCapabilities) as [->|H1].
  { eexists _, s, _, _. split; [reflexivity|]. split; [apply capabilities_answer|].
    destruct (2 <=? length (m_Data msg))%nat; reflexivity. }
  rewrite (proj2 (Z.eqb_neq (m_Command msg) 0x38) H1). cbn [andb].
  destruct (Z.eqb_spec (m_Command msg) ipmiCmdSetSessionPrivilege) as [->|H2].
  { pose proof (privilege_answer msg Hwf) as Hp.
    destruct (m_Data msg); eexists _, s, _, _; (split; [reflexivity|]; split; [exact Hp|done]). }
  rewrite (proj2 (Z.eqb_neq (m_Command msg) 0x3b) H2).
  destruct (Z.eqb_spec (m_Command msg) ipmiCmdCloseSession) as [->|H3].
  { unfold sbind. rewrite handleIPMICloseSession_eq. cbn [Z.eqb ipmiCmdCloseSession Pos.eqb andb].
    destruct (4 <=? length (m_Data msg))%nat; eexists _, _, _, _; (split; [reflexivity|]); done. }
  rewrite (proj2 (Z.eqb_neq (m_Command msg) 0x3c) H3). cbn [andb]. by eexists _, s, _, _.
Qed.

(** A command that is in neither switch. *)
Lemma app_refused msg s :
  m_Command msg ∉ [0x38; 0x3b; 0x3c] ->
  handleIPMIApp msg s = (Err (unsupported "unsupported Command: " (m_Command msg)), s).
Proof.
  unfold handleIPMIApp. rewrite !not_elem_of_cons. intros (H1 & H2 & H3 & _).
  by rewrite !(proj2 (Z.eqb_neq _ _)).
Qed.

Lemma chassis_refused msg s :
  m_Command msg ∉ [0x01; 0x02] ->
  handleIPMIChassis msg s = (Err (unsupported "unsupported Chassis command: " (m_Command msg)), s).
Proof.
  unfold handleIPMIChassis. rewrite !not_elem_of_cons. intros (H1 & H2 & _).
  by rewrite !(proj2 (Z.eqb_neq _ _)).
Qed.
End Answers.

(** No other declared name has the code of an implemented command. *)
Lemma declared_apart (ds : list (string * Z)) (names : list string) (codes : list Z) name c :
  bool_decide (Forall (fun d => d.1 ∈ names \/ d.2 ∉ codes) ds) = true ->
  (name, c) ∈ ds -> name ∉ names -> c ∉ codes.
Proof.
  intros Hd%bool_decide_eq_true Hin Hn. rewrite Forall_forall in Hd. by destruct (Hd _ Hin).
Qed.

Section ChassisAnswers.
Context {M : Type} `{ReliableMachine M}.
Implicit Types s : bmc M.

Lemma chassis_answered msg s :
  msg_wf msg = true -> netFunction msg = ipmiNetFNChassis ->
  exists o s' code data, handleIPMIChassis msg s = (o, s') /\ outcome_is o code data /\
    answer_table (is_on s) msg = Some (code, data) /\ is_on s' = power_after (is_on s) msg.
Proof.
  intros Hwf Hn. unfold answer_table, power_after. rewrite Hn. cbn [Z.eqb ipmiNetFNChassis].
  unfold handleIPMIChassis.
  destruct (Z.eqb_spec (m_Command msg) ipmiCmdGetChassisStatus) as [->|H1].
  { destruct (chassis_status_value s) as (s' & E & Hs). eexists _, s', _, _. split; [exact E|].
    split; [split; [reflexivity|split; [reflexivity|]]; by destruct (is_on s)|]. split; [done|].
    rewrite Hs. by destruct (m_Data msg). }
  rewrite (proj2 (Z.eqb_neq (m_Command msg) 0x01) H1).
  destruct (Z.eqb_spec (m_Command msg) ipmiCmdChassisControl) as [->|H2].
  2:{ rewrite (proj2 (Z.eqb_neq (m_Command msg) 0x02) H2). eexists _, s, _, _. split; [reflexivity|].
      split_and!; [done..|]. by destruct (m_Data msg). }
  cbn [Z.eqb ipmiCmdChassisControl Pos.eqb andb]. unfold handleIPMIChassisControl, sbind, slift.
  destruct (m_Data msg) as [|c rest] eqn:Ed; [eexists _, s, _, _; split; [reflexivity|]; split; [split; reflexivity|split; reflexivity]|].
  assert (Hc : is_u8 c = true).
  { msg_fields Hwf. rewrite Ed in *. unfold is_bytes in *. cbn [forallb] in *. by bools. }
  pose proof (binary_Read_enc u8c c rest Hc) as E. rewrite u8c_enc in E by done. cbn [app] in E.
  unfold sbind, slift. rewrite E. destruct (chassis_control_answer (M := M) c s) as (r & s' & Es & Hr).
  unfold stry in Es. destruct (chassis_control c s) as [[[]|e|p|] s1]; try done; injection Es as <- <-;
    destruct (Power.answer (control_request c) (is_on s)) as [on'|]; destruct Hr as [Hr1 Hr2]; try done.
  - exists (Ok []), s1, 0, []. split; [reflexivity|]. split; [by split_and!|]. split; [reflexivity|exact Hr2].
  - exists (Err e), s1, 0xd5, []. split; [reflexivity|]. split; [by split_and!|]. split; [reflexivity|exact Hr2].
Qed.
End ChassisAnswers.

(** A packet of another authentication type goes no further. *)
Lemma other_type_refused {M : Type} `{!Machine M} `{!CryptoOps} ent users fuel authType buf (s : bmc M) :
  authType <> authTypeNone -> authType <> authTypeRMCPPlus ->
  exists e, ipmiSession_handle ent users fuel authType buf s = (Err e, s).
Proof.
  intros H1 H2. unfold ipmiSession_handle, isRMCPPlusFormat.
  rewrite !(proj2 (Z.eqb_neq _ _)) by done. by eexists.
Qed.

(** The same for a whole datagram of class IPMI. *)
Lemma datagram_type_refused {M : Type} `{!Machine M} `{!CryptoOps} ent users fuel v r n authType rest (s : bmc M) :
  is_bytes [v; r; n; authType] = true -> authType <> authTypeNone -> authType <> authTypeRMCPPlus ->
  exists e, handleRMCPRequest ent users fuel ([v; r; n; RmcpClassIpmi; authType] ++ rest) s = (Err e, s).
Proof.
  intros Hb H1 H2. unfold is_bytes in Hb. cbn [forallb] in Hb. rewrite !andb_true_iff in Hb.
  destruct Hb as (Hv & Hr & Hn & Ht & _).
  destruct (other_type_refused ent users fuel authType rest s H1 H2) as [e E].
  exists e. unfold handleRMCPRequest, newRMCP, deserializeRMCPHeader.
  set (h := {| rmcp_Version := v; rmcp_Reserved := r; rmcp_Sequence := n; rmcp_Class := RmcpClassIpmi |}).
  replace ([v; r; n; RmcpClassIpmi; authType] ++ rest)
    with (c_enc remoteManagementControlProtocolHeader_codec h ++ c_enc u8c authType ++ rest)
    by (cbn -[u8c]; rewrite !u8c_enc by done; reflexivity).
  rewrite (binary_Read_enc remoteManagementControlProtocolHeader_codec)
    by (cbn; by rewrite Hv, Hr, Hn).
  unfold sbind at 1, slift at 1, rmcp_handle, newIPMISession. cbn [rmcp_Class h].
  rewrite (binary_Read_enc u8c) by done. unfold sbind, slift. cbn [owrap Z.eqb Pos.eqb RmcpClassIpmi]. by rewrite E.
Qed.

(** ** Properties *)

(** C11: what the BMC answers to every request.  On a reliable machine a well-formed request
    of the App or the Chassis function is answered with the code and the data of the
    table, by a well-formed response; the sessions, the random numbers and the power of
    the machine change only as described.  A request of another network function is an
    error that changes nothing.  So each of the five implemented commands does its work,
    and a command the sources declare under any other name is refused with 0xd5 and no
    data, without any effect on the BMC. *)
Theorem commands_answered {M : Type} `{ReliableMachine M} (msg : ipmiMessage) (s : bmc M) :
  msg_wf msg = true ->
  match answer_table (is_on (machine s)) msg with
  | Some (code, data) => exists resp s', ipmi_handle msg s = (Ok resp, s') /\
      response_for msg code data resp /\ sessions s' = sessions_after msg (sessions s) /\
      rnd s' = rnd s /\ is_on (machine s') = power_after (is_on (machine s)) msg
  | None => ipmi_handle msg s = (Err (unsupported "unsupported NetFunction: " (netFunction msg)), s)
  end /\
  (forall name, (name, m_Command msg) ∈ app_commands -> netFunction msg = ipmiNetFNApp ->
     name ∉ ["ipmiCmdGetChannelAuthCapabilities"; "ipmiCmdSetSessionPrivilege"; "ipmiCmdCloseSession"] ->
     exists resp, ipmi_handle msg s = (Ok resp, s) /\ response_for msg 0xd5 [] resp) /\
  (forall name, (name, m_Command msg) ∈ chassis_commands -> netFunction msg = ipmiNetFNChassis ->
     name ∉ ["ipmiCmdGetChassisStatus"; "ipmiCmdChassisControl"] ->
     exists resp, ipmi_handle msg s = (Ok resp, s) /\ response_for msg 0xd5 [] resp).
Proof.
  intros Hwf. assert (HnA : netFunction msg = ipmiNetFNApp -> Z.lor ipmiNetFNApp ipmiNetFNResponse = netFunction msg + 1)
    by (by intros ->).
  assert (HnC : netFunction msg = ipmiNetFNChassis -> Z.lor ipmiNetFNChassis ipmiNetFNResponse = netFunction msg + 1)
    by (by intros ->).
  split_and!.
  - destruct (Z.eqb_spec (netFunction msg) ipmiNetFNApp) as [Hn|Hn];
      [|destruct (Z.eqb_spec (netFunction msg) ipmiNetFNChassis) as [Hn'|Hn']].
    + destruct (app_answered msg s (is_on (machine s)) Hwf Hn) as (o & s' & code & data & E & Ho & ->).
      destruct (handler_answered msg _ s s' o code data _ Hwf (HnA Hn) (or_intror eq_refl) E Ho) as (resp & Er & HR).
      destruct (handleIPMIApp_effect _ _ _ _ Hn E) as (Hm & Hrnd & Hs).
      exists resp, s'. split_and!; try done; [unfold ipmi_handle; rewrite Hn; exact Er|].
      rewrite Hm. unfold power_after. rewrite Hn. by destruct (m_Data msg).
    + destruct (chassis_answered msg s Hwf Hn') as (o & s' & code & data & E & Ho & Ht & Hp).
      change (is_on (machine s)) with (is_on s). rewrite Ht.
      destruct (handler_answered msg _ s s' o code data _ Hwf (HnC Hn') (or_introl eq_refl) E Ho) as (resp & Er & HR).
      assert (Eh : ipmi_handle msg s = (Ok resp, s')) by (unfold ipmi_handle; rewrite Hn'; exact Er).
      destruct (ipmi_handle_sessions _ _ _ _ Eh) as [Hrnd Hs]. by exists resp, s'.
    + unfold answer_table, ipmi_handle. by rewrite !(proj2 (Z.eqb_neq (netFunction msg) _)).
  - intros name Hin Hn Hname. unfold ipmi_handle. rewrite Hn.
    eapply handler_answered; [done|by apply HnA|by right|apply app_refused|done].
    eapply declared_apart; [|exact Hin|exact Hname]. vm_compute. reflexivity.
  - intros name Hin Hn Hname. unfold ipmi_handle. rewrite Hn.
    eapply handler_answered; [done|by apply HnC|by left|apply chassis_refused|done].
    eapply declared_apart; [|exact Hin|exact Hname]. vm_compute. reflexivity.
Qed.

(** A Cold Reset request. *)
Definition cold_reset_msg : ipmiMessage :=
  {| m_TargetAddress := 0x20; m_TargetLun := 0x18; m_Checksum := 0xc8;
     m_SourceAddress := 0x81; m_SourceLun := 0x08; m_Command := ipmiCmdColdReset;
     m_CompletionCode := 0; m_Data := []; m_DataChecksum := 0x75 |}.

(** A Cold Reset request is refused, the power-up request of [Ipmi] turns the machine on. *)
Lemma commands_answered_witness :
  (exists resp, ipmi_handle cold_reset_msg one_session_bmc = (Ok resp, one_session_bmc) /\
    response_for cold_reset_msg 0xd5 [] resp) /\
  exists resp s', ipmi_handle power_up_msg (mock_bmc false) = (Ok resp, s') /\
    response_for power_up_msg 0 [] resp /\ is_on (machine s') = true.
Proof.
  split.
  - destruct (commands_answered cold_reset_msg one_session_bmc) as (_ & H & _); [vm_compute; reflexivity|].
    apply (H "ipmiCmdColdReset"); [|vm_compute; reflexivity|].
    + apply (bool_decide_unpack _). vm_compute. exact I.
    + apply (bool_decide_unpack _). vm_compute. exact I.
  - destruct (commands_answered power_up_msg (mock_bmc false)) as (H & _); [vm_compute; reflexivity|].
    change (answer_table _ power_up_msg) with (Some (0, [] : list Z)) in H.
    destruct H as (resp & s' & H1 & H2 & _ & _ & H5). exists resp, s'. split; [exact H1|]. split; [exact H2|exact H5].
Defined.

(** What a client is told about authentication, and what it gets.  A successful answer
    to Get Channel Authentication Capabilities lists, of the authentication types the
    sources declare, exactly none, MD2 and MD5, user names but no anonymous login, no
    user-level or per-message authentication, no BMC key, and IPMI v2.0 only.  But a
    datagram whose authentication type is neither none nor RMCP+, MD2 and MD5 included, is
    an error that leaves the BMC as it was: two of the types offered do not work. *)
Theorem offered_types_refused {M : Type} `{!Machine M} `{!CryptoOps} (ent : entropy) (users : bmcUserHolder)
  (fuel : nat) (msg : ipmiMessage) (res : list Z) (authType v r n : Z) (rest : list Z) (s : bmc M) :
  handleIPMIAuthenticationCapabilities msg = Ok res ->
  is_bytes [v; r; n; authType] = true -> authType ∉ [authTypeNone; authTypeRMCPPlus] ->
  filter (fun d => Z.land (nth 1 res 0) (type_bit d.2) <> 0) authentication_types =
    [("authTypeNone", authTypeNone); ("authTypeMD2", authTypeMD2); ("authTypeMD5", authTypeMD5)] /\
  map type_bit [authTypeNone; authTypeMD2; authTypeMD5; authTypeStraightPasswordKey; authTypeOEM] =
    [authBitmaskNone; authBitmaskMD2; authBitmaskMD5; authBitmaskStraightKey; authBitmaskOEM] /\
  Z.land (nth 2 res 0)
    (foldr Z.lor 0 [authStatusAnonymous; authStatusUserLevel; authStatusPerMessage; authStatusKG]) = 0 /\
  Z.land (nth 3 res 0) (Z.lor extendedCapabilitiesChannel15 extendedCapabilitiesChannel20) =
    extendedCapabilitiesChannel20 /\
  exists e, handleRMCPRequest ent users fuel ([v; r; n; RmcpClassIpmi; authType] ++ rest) s = (Err e, s).
Proof.
  intros Hres Hb Ht. apply caps_result in Hres as [-> _]. split_and!; [vm_compute; reflexivity..|].
  rewrite !not_elem_of_cons in Ht. destruct Ht as (H1 & H2 & _). by apply datagram_type_refused.
Qed.

Definition capabilities_msg : ipmiMessage :=
  {| m_TargetAddress := 0x20; m_TargetLun := 0x18; m_Checksum := 0xc8;
     m_SourceAddress := 0x81; m_SourceLun := 0x08; m_Command := ipmiCmdGetChannelAuthCapabilities;
     m_CompletionCode := 0; m_Data := [0x8e; 0x04]; m_DataChecksum := 0xad |}.

(** A datagram authenticated with MD5. *)
Lemma offered_types_refused_witness :
  handleIPMIAuthenticationCapabilities capabilities_msg = Ok [1; 0x87; 0x06; 0x02; 0; 0; 0; 0] /\
  exists e, handleRMCPRequest counting_entropy server_users 0
    [RmcpVersion1; 0; 0xff; RmcpClassIpmi; authTypeMD5; 0; 0; 0; 0] one_session_bmc = (Err e, one_session_bmc).
Proof.
  split; [vm_compute; reflexivity|].
  destruct (offered_types_refused counting_entropy server_users 0 capabilities_msg
    [1; 0x87; 0x06; 0x02; 0; 0; 0; 0] authTypeMD5 RmcpVersion1 0 0xff [0; 0; 0; 0] one_session_bmc)
    as (_ & _ & _ & _ & H); [vm_compute; reflexivity..| |exact H].
  apply (bool_decide_unpack _). vm_compute. exact I.
Defined.
