(* ===== verification/Console.v ===== *)
(** * A remote console talking to the server

    An executable remote console that follows the protocol (as ipmitool does):
    it opens a session, runs the RAKP exchange checking every code the server
    sends, and then sends encrypted commands.  The properties say that the server
    serves such a console end to end, over datagrams. *)

From S2P Require Import Prelude GoBinary GoCrypto Sha1 Aes Machine Session Ipmi RmcpPlus Rmcp.
From S2P Require Import Handshake Encrypted Server.

Local Open Scope Z_scope.
Local Open Scope go_scope.

(** ** The console *)

Record console : Type := {
  con_id : Z;
  con_random : list Z;
  con_role : Z;
  con_user : string;
  con_password : string
}.

Definition console_wf (c : console) : bool :=
  is_u32 (con_id c) && is_array 16 (con_random c) && is_u8 (con_role c) &&
  (String.length (con_user c) <=? 20)%nat.

Definition rmcp_header_bytes : list Z := [0x06; 0x00; 0xff; 0x07].

(** A datagram: the RMCP header, the RMCP+ header, the payload. *)
Definition datagram_of (h : rmcpPlusSessionHeader) (payload : list Z) : list Z :=
  rmcp_header_bytes ++ c_enc rmcpPlusSessionHeader_codec h ++ payload.

(** Parsing a session-less reply of payload type [ptype]. *)
Definition con_parse {A : Type} (c : codec A) (ptype : Z) (reply : list Z) : option A :=
  match binary_Read rmcpPlusSessionHeader_codec (drop 4 reply) with
  | Ok (h, rest) =>
      if bool_decide (take 4 reply = rmcp_header_bytes) && (h_PayloadType h =? ptype)
      then match binary_Read c rest with Ok (a, _) => Some a | _ => None end
      else None
  | _ => None
  end.

Definition open_payload (c : console) : openSessionRequestPayload :=
  {| osq_MessageTag := 0; osq_RequestedMaximumPrivilegeLevel := 0; osq_Reserved2 := zeros 2;
     osq_RemoteConsoleSessionId := con_id c;
     osq_AuthenticationPayloadType := 0; osq_Reserved3 := zeros 2;
     osq_AuthenticationPayloadLength := 8; osq_AuthenticationPayloadAlgorithm := 1;
     osq_Reserved5 := zeros 3;
     osq_IntegrityPayloadType := 1; osq_Reserved6 := zeros 2; osq_IntegrityPayloadLength := 8;
     osq_IntegrityPayloadAlgorithm := 1; osq_Reserved8 := zeros 3;
     osq_ConfidentialityPayloadType := 2; osq_Reserved9 := zeros 2;
     osq_ConfidentialityPayloadLength := 8; osq_ConfidentialityPayloadAlgorithm := 1;
     osq_Reserved11 := zeros 3 |}.

(** The user name in its 20-byte field. *)
Definition con_name_field (c : console) : list Z :=
  bytes_of_string (con_user c) ++ zeros (20 - String.length (con_user c)).

Definition rakp1_payload (c : console) (sidc : Z) : rakpMessage1Request :=
  {| r1_MessageTag := 0; r1_Reserved1 := zeros 3; r1_ManagedSystemSessionId := sidc;
     r1_RemoteConsoleRandomNumber := con_random c;
     r1_RequestedMaximumPrivilegeLevelAndNameOnlyLookup := con_role c;
     r1_Reserved3 := zeros 2;
     r1_UserNameLength := Z.of_nat (String.length (con_user c));
     r1_UserName := con_name_field c |}.

Definition session_less (ptype len : Z) : rmcpPlusSessionHeader :=
  {| h_AuthenticationType := authTypeRMCPPlus; h_PayloadType := ptype; h_SessionId := 0;
     h_SessionSequenceNumber := 0; h_IpmiPayloadLen := len |}.

Section Console.
Context {M : Type} `{!Machine M} `{!CryptoOps}.
Context (ent : entropy) (users : bmcUserHolder) (fuel : nat).

(** Sending a datagram to the server and waiting for the reply. *)
Definition exchange (d : list Z) (st : serverState M) : option (list Z * serverState M) :=
  match st with
  | Serving buf b => match server_step ent users fuel buf b d with
                     | (Some reply, st') => Some (reply, st')
                     | (None, _) => None
                     end
  | Crashed _ | Spinning => None
  end.

Definition rakp3_payload (c : console) (sidc : Z) (msr : list Z) : rakpMessage3Request :=
  {| r3_MessageTag := 0; r3_RmcpPlusStatusCode := 0; r3_Reserved1 := zeros 2;
     r3_ManagedSystemSessionId := sidc;
     r3_KeyExchangeAuthenticationCode :=
       Rakp.code3 (con_password c) (con_id c) msr (con_role c) (bytes_of_string (con_user c)) |}.

(** Opening an authenticated session: the server's identifier of it, and the
    session integrity key. *)
Definition console_login (c : console) (st : serverState M)
  : option (Z * list Z * serverState M) :=
  let name := bytes_of_string (con_user c) in
  '(reply, st) ← exchange (datagram_of (session_less payloadTypeRMCPPlusOpenSessionRequest 32)
                   (c_enc openSessionRequestPayload_codec (open_payload c))) st;
  r ← con_parse openSessionResponsePayload_codec payloadTypeRMCPPlusOpenSessionResponse reply;
  guard (osr_RmcpPlusStatusCode r = 0 /\ osr_RemoteConsoleSessionId r = con_id c);;
  let sidc := osr_ManagedSystemSessionId r in
  '(reply, st) ← exchange (datagram_of (session_less payloadTypeRAKPMessage1 48)
                   (c_enc rakpMessage1Request_codec (rakp1_payload c sidc))) st;
  r2 ← con_parse rakpMessage2Response_codec payloadTypeRAKPMessage2 reply;
  let msr := r2_ManagedSystemRandomNumber r2 in
  let guid := r2_ManagedSystemGuid r2 in
  guard (r2_RmcpPlusStatusCode r2 = 0 /\
         r2_KeyExchangeAuthenticationCode r2 =
           Rakp.code2 (con_password c) (con_id c) sidc (con_random c) msr guid (con_role c) name);;
  '(reply, st) ← exchange (datagram_of (session_less payloadTypeRAKPMessage3 28)
                   (c_enc rakpMessage3Request_codec (rakp3_payload c sidc msr))) st;
  r4 ← con_parse rakpMessage4Response_codec payloadTypeRAKPMessage4 reply;
  let sik := Rakp.sik (con_password c) (con_random c) msr (con_role c) name in
  guard (r4_RmcpPlusStatusCode r4 = 0 /\
         r4_IntegrityCheckValue r4 = Rakp.icv4 sik sidc (con_random c) guid);;
  Some (sidc, sik, st).

End Console.

(** ** Lemmas *)

Lemma recv_short buf d :
  (length d <= length buf)%nat -> recv buf d = d ++ drop (length d) buf.
Proof. intros Hl. unfold recv, copy_into. by rewrite firstn_all2. Qed.

Lemma header_fields h :
  c_wf rmcpPlusSessionHeader_codec h = true ->
  is_u8 (h_AuthenticationType h) = true /\ is_u8 (h_PayloadType h) = true /\
  is_u32 (h_SessionId h) = true /\ is_u32 (h_SessionSequenceNumber h) = true /\
  is_u16 (h_IpmiPayloadLen h) = true.
Proof. destruct h. cbn -[is_u8 is_u16 is_u32]. intros E. by bools. Qed.

Lemma deserialize_header h payload :
  c_wf rmcpPlusSessionHeader_codec h = true ->
  exists rest,
    binary_Read u8c (c_enc rmcpPlusSessionHeader_codec h ++ payload) =
      Ok (h_AuthenticationType h, rest) /\
    deserializeRMCPPlusSessionHeader rest (h_AuthenticationType h) = Ok (h, payload).
Proof.
  intros Hh. apply header_fields in Hh as (H1 & H2 & H3 & H4 & H5).
  cbn [rmcpPlusSessionHeader_codec isoc pairc c_enc fst snd]. rewrite <- !app_assoc.
  rewrite (binary_Read_enc u8c) by done. eexists. split; [reflexivity|].
  unfold deserializeRMCPPlusSessionHeader.
  rewrite (binary_Read_enc u8c) by done. cbn [obind].
  rewrite (binary_Read_enc u32c) by done. cbn [obind].
  rewrite (binary_Read_enc u32c) by done. cbn [obind].
  rewrite (binary_Read_enc u16c) by done. cbn [obind]. by destruct h.
Qed.

Section ConsoleLemmas.
Context {M : Type} `{!Machine M} `{!CryptoOps} {L : CryptoLaws}.
Context (ent : entropy) (users : bmcUserHolder) (fuel : nat).

(** The RMCP layers around an RMCP+ message. *)
Lemma handleRMCPRequest_framed h payload (b : bmc M) :
  c_wf rmcpPlusSessionHeader_codec h = true -> h_AuthenticationType h = authTypeRMCPPlus ->
  handleRMCPRequest ent users fuel (datagram_of h payload) b =
  match rmcpPlus_handle ent users fuel h payload b with
  | (Ok res, b') => (Ok (rmcp_header_bytes ++ res), b')
  | r => r
  end.
Proof.
  intros Hh Ha. destruct (deserialize_header h payload Hh) as (rest & E1 & E2).
  rewrite Ha in E1, E2.
  unfold handleRMCPRequest, newRMCP, deserializeRMCPHeader, datagram_of, sbind at 1, slift.
  change rmcp_header_bytes with
    (c_enc remoteManagementControlProtocolHeader_codec buildUpRMCPForIPMI) at 1.
  rewrite (binary_Read_enc remoteManagementControlProtocolHeader_codec) by done.
  unfold rmcp_handle. change (rmcp_Class buildUpRMCPForIPMI =? RmcpClassIpmi) with true.
  cbv iota. unfold newIPMISession, slift, sbind at 1. rewrite E1. cbn [owrap].
  unfold sbind at 1, ipmiSession_handle, slift, sbind at 1.
  change (isRMCPPlusFormat authTypeRMCPPlus) with (Ok true : outcome bool). cbv iota beta.
  unfold newRMCPPlus, sbind. rewrite E2.
  by destruct (rmcpPlus_handle ent users fuel h payload b) as [[] ?].
Qed.

(** A datagram whose message the RMCP+ layer answers. *)
Lemma exchange_ok h payload buf b res b' :
  c_wf rmcpPlusSessionHeader_codec h = true -> h_AuthenticationType h = authTypeRMCPPlus ->
  (length (datagram_of h payload) <= length buf)%nat ->
  (forall rest, rmcpPlus_handle ent users fuel h (payload ++ rest) b = (Ok res, b')) ->
  exists buf', exchange ent users fuel (datagram_of h payload) (Serving buf b) =
    Some (rmcp_header_bytes ++ res, Serving buf' b') /\ length buf' = length buf.
Proof.
  intros Hh Ha Hl Hr. exists (recv buf (datagram_of h payload)).
  split; [|apply length_copy_into]. unfold exchange, server_step. rewrite recv_short by done.
  unfold datagram_of at 1. rewrite <- !app_assoc. fold (datagram_of h (payload ++
    drop (length (datagram_of h payload)) buf)).
  rewrite handleRMCPRequest_framed, Hr by done. unfold datagram_of. by rewrite <- !app_assoc.
Qed.

Lemma con_parse_reply {A} (c : codec A) `{!CodecOk c} (a : A) h :
  c_wf rmcpPlusSessionHeader_codec h = true -> c_wf c a = true ->
  con_parse c (h_PayloadType h)
    (rmcp_header_bytes ++ c_enc rmcpPlusSessionHeader_codec h ++ c_enc c a) = Some a.
Proof.
  intros Hh Ha. unfold con_parse. rewrite drop_app_length' by done.
  rewrite (binary_Read_enc rmcpPlusSessionHeader_codec) by done.
  rewrite take_app_length' by done. rewrite bool_decide_true, Z.eqb_refl by done. cbn [andb].
  pose proof (binary_Read_enc c a [] Ha) as E. rewrite app_nil_r in E. by rewrite E.
Qed.

(** *** The messages are well formed *)

Lemma open_payload_wf c :
  console_wf c = true -> c_wf openSessionRequestPayload_codec (open_payload c) = true.
Proof. unfold console_wf. intros Hc. bools. cbn -[is_u32]. by rewrite !andb_true_r. Qed.

Lemma open_session_response_wf p v :
  c_wf openSessionRequestPayload_codec p = true ->
  is_u32 (s_ManagedSystemSessionId v) = true ->
  c_wf openSessionResponsePayload_codec (open_session_response p v) = true.
Proof.
  intros Hp Hv. pose proof (osq_id_u32 p Hp) as Hid.
  assert (Ht : is_u8 (osq_MessageTag p) = true)
    by (destruct p; cbn -[Nat.eqb is_u8 is_u32 is_bytes] in *; by bools).
  cbn -[is_u8 is_u32]. by rewrite Hid, Hv, Ht.
Qed.

Lemma rakp1_payload_wf c sidc :
  console_wf c = true -> is_u32 sidc = true ->
  c_wf rakpMessage1Request_codec (rakp1_payload c sidc) = true.
Proof.
  unfold console_wf. intros Hc Hs. bools.
  cbn [rakpMessage1Request_codec isoc pairc c_wf rakp1_payload fst snd u8c u32c
       r1_MessageTag r1_Reserved1 r1_ManagedSystemSessionId r1_RemoteConsoleRandomNumber
       r1_RequestedMaximumPrivilegeLevelAndNameOnlyLookup r1_Reserved3 r1_UserNameLength
       r1_UserName].
  rewrite !andb_true_iff. split_and!; try done.
  - apply is_u8_spec. lia.
  - apply is_array_spec. unfold con_name_field.
    rewrite length_app, is_bytes_app, length_bytes_of_string, length_zeros,
      bytes_of_string_bytes, is_bytes_zeros. split; [lia|done].
Qed.

Lemma r1_name_payload c sidc : r1_name (rakp1_payload c sidc) = bytes_of_string (con_user c).
Proof.
  unfold r1_name, rakp1_payload, con_name_field. cbn [r1_UserNameLength r1_UserName].
  rewrite Nat2Z.id, <- length_bytes_of_string. apply take_app_length.
Qed.

Lemma hmac_array k m : is_array 20 (hmac_sha1 k m) = true.
Proof. apply is_array_spec. by rewrite hmac_length, hmac_bytes. Qed.

Lemma hmac12_array k m : is_array 12 (take 12 (hmac_sha1 k m)) = true.
Proof. apply is_array_spec. rewrite length_take, hmac_length. split; [done|]. auto with bytes. Qed.

(** *** The exchanges *)

Lemma open_exchange c buf (b : bmc M) k :
  console_wf c = true -> length buf = recvBufSize -> (forall i, ent_fail ent i = None) ->
  find (fun i => bool_decide (sessions b !! draw ent (rnd b) i = None)) (seq 0 fuel) = Some k ->
  let v := opened_session (con_id c) (draw ent (rnd b) k) in
  exists buf',
    exchange ent users fuel
      (datagram_of (session_less payloadTypeRMCPPlusOpenSessionRequest 32)
         (c_enc openSessionRequestPayload_codec (open_payload c))) (Serving buf b) =
    Some (rmcp_header_bytes ++
          c_enc rmcpPlusSessionHeader_codec
            (response_header payloadTypeRMCPPlusOpenSessionResponse 36) ++
          c_enc openSessionResponsePayload_codec (open_session_response (open_payload c) v),
          Serving buf' (set_sessions (<[draw ent (rnd b) k := v]> (sessions b))
                          (advance (4 * S k) b))) /\
    length buf' = recvBufSize.
Proof.
  intros Hc Hbuf Hnf Hk v. rewrite <- Hbuf. apply exchange_ok; try done.
  { rewrite Hbuf. unfold datagram_of. rewrite !length_app, !enc_length by
      (done || by apply open_payload_wf). apply Nat.leb_le. reflexivity. }
  intros rest. unfold rmcpPlus_handle, handleOpenSessionRequest,
    deserializeOpenSessionRequestPayload, slift.
  change (Z.land (h_PayloadType _) 0x3f) with payloadTypeRMCPPlusOpenSessionRequest.
  cbn [session_less h_PayloadType Z.eqb Pos.eqb payloadTypeRMCPPlusOpenSessionRequest].
  change (_ && _) with false. cbv iota. unfold sbind at 1.
  rewrite (binary_Read_enc openSessionRequestPayload_codec) by (by apply open_payload_wf).
  unfold sbind at 1, binary_Write at 1. unfold sbind.
  pose proof (getNewRMCPPlusSession_scan ent fuel (con_id c) b Hnf) as E. rewrite Hk in E.
  cbn [open_payload osq_RemoteConsoleSessionId]. rewrite E. done.
Qed.

Lemma rakp1_exchange c buf (b : bmc M) sidc v u :
  console_wf c = true -> length buf = recvBufSize -> (forall i, ent_fail ent i = None) ->
  is_u32 sidc = true -> sessions b !! sidc = Some v -> users !! con_user c = Some u ->
  let msr := random_number ent (rnd b) in
  let guid := random_number ent (rnd b + 16) in
  let name := bytes_of_string (con_user c) in
  exists buf',
    exchange ent users fuel
      (datagram_of (session_less payloadTypeRAKPMessage1 48)
         (c_enc rakpMessage1Request_codec (rakp1_payload c sidc))) (Serving buf b) =
    Some (rmcp_header_bytes ++ rakp2_reply (rakp1_payload c sidc) v (Password u) msr guid name,
          Serving buf' (set_sessions
            (<[sidc := session_with_rakp1 v (rakp1_payload c sidc) msr guid name]> (sessions b))
            (advance 32 b))) /\
    length buf' = recvBufSize.
Proof.
  intros Hc Hbuf Hnf Hid Hv Hu msr guid name. rewrite <- Hbuf.
  pose proof (rakp1_payload_wf c sidc Hc Hid) as Hp.
  apply exchange_ok; try done.
  { rewrite Hbuf. unfold datagram_of. rewrite !length_app, !enc_length by done.
    apply Nat.leb_le. reflexivity. }
  intros rest. unfold rmcpPlus_handle.
  change (Z.land (h_PayloadType _) 0x3f) with payloadTypeRAKPMessage1.
  change (_ && _) with false. cbv iota.
  change (payloadTypeRAKPMessage1 =? payloadTypeRMCPPlusOpenSessionRequest) with false.
  change (payloadTypeRAKPMessage1 =? payloadTypeRAKPMessage1) with true. cbv iota.
  rewrite (handleRAKPMessage1Request_eq ent users (rakp1_payload c sidc) rest b v u); try done.
  - rewrite r1_name_payload. done.
  - cbn [rakp1_payload r1_UserNameLength]. unfold console_wf in Hc. bools. lia.
  - rewrite r1_name_payload, string_of_bytes_of_string. done.
Qed.

Lemma rakp3_exchange c buf (b : bmc M) sidc v u :
  length buf = recvBufSize -> sessions_wf users (sessions b) ->
  sessions b !! sidc = Some v -> users !! string_of_bytes (s_UserName v) = Some u ->
  session_code3 v (Password u) =
    r3_KeyExchangeAuthenticationCode (rakp3_payload c sidc (s_ManagedSystemRandomNumber v)) ->
  exists buf',
    exchange ent users fuel
      (datagram_of (session_less payloadTypeRAKPMessage3 28)
         (c_enc rakpMessage3Request_codec
            (rakp3_payload c sidc (s_ManagedSystemRandomNumber v)))) (Serving buf b) =
    Some (rmcp_header_bytes ++ rakp4_reply 0 v (Password u),
          Serving buf' (set_sessions
            (<[sidc := session_with_keys v (session_sik v (Password u))]> (sessions b)) b)) /\
    length buf' = recvBufSize.
Proof.
  intros Hbuf Hwf Hv Hu Hcode. rewrite <- Hbuf.
  destruct (map_Forall_lookup_1 _ _ _ _ Hwf Hv) as [Hf _]. session_fields Hf.
  assert (Hp : c_wf rakpMessage3Request_codec
                 (rakp3_payload c sidc (s_ManagedSystemRandomNumber v)) = true).
  { cbn [rakpMessage3Request_codec isoc pairc c_wf rakp3_payload fst snd u8c u32c
      r3_MessageTag r3_RmcpPlusStatusCode r3_Reserved1 r3_ManagedSystemSessionId
      r3_KeyExchangeAuthenticationCode].
    rewrite !andb_true_iff. split_and!; try done. apply hmac_array. }
  apply exchange_ok; try done.
  { rewrite Hbuf. unfold datagram_of. rewrite !length_app, !enc_length by done.
    apply Nat.leb_le. reflexivity. }
  intros rest. unfold rmcpPlus_handle.
  change (Z.land (h_PayloadType _) 0x3f) with payloadTypeRAKPMessage3.
  change (_ && _) with false. cbv iota.
  change (payloadTypeRAKPMessage3 =? payloadTypeRMCPPlusOpenSessionRequest) with false.
  change (payloadTypeRAKPMessage3 =? payloadTypeRAKPMessage1) with false.
  change (payloadTypeRAKPMessage3 =? payloadTypeRAKPMessage3) with true. cbv iota.
  rewrite handleRAKPMessage3Request_eq by done.
  rewrite (binary_Read_enc rakpMessage3Request_codec) by done.
  cbn [rakp3_payload r3_ManagedSystemSessionId r3_MessageTag]. rewrite Hv, Hu.
  by rewrite bool_decide_true.
Qed.

(** *** The replies parse *)

Lemma parse_rakp2 p v pw msr guid name :
  is_u8 (r1_MessageTag p) = true -> is_u32 (s_RemoteConsoleSessionId v) = true ->
  is_array 16 msr = true -> is_array 16 guid = true ->
  exists r2, con_parse rakpMessage2Response_codec payloadTypeRAKPMessage2
      (rmcp_header_bytes ++ rakp2_reply p v pw msr guid name) = Some r2 /\
    r2_RmcpPlusStatusCode r2 = 0 /\ r2_ManagedSystemRandomNumber r2 = msr /\
    r2_ManagedSystemGuid r2 = guid /\
    r2_KeyExchangeAuthenticationCode r2 =
      Rakp.code2 pw (s_RemoteConsoleSessionId v) (s_ManagedSystemSessionId v)
        (r1_RemoteConsoleRandomNumber p) msr guid
        (r1_RequestedMaximumPrivilegeLevelAndNameOnlyLookup p) name.
Proof.
  intros Ht Hid Hmsr Hguid. eexists. split.
  - refine (con_parse_reply rakpMessage2Response_codec _
      (response_header payloadTypeRAKPMessage2 60) eq_refl _).
    cbn [rakpMessage2Response_codec isoc pairc c_wf fst snd u8c u32c r2_MessageTag
      r2_RmcpPlusStatusCode r2_Reserved1 r2_RemoteConsoleSessionId r2_ManagedSystemRandomNumber
      r2_ManagedSystemGuid r2_KeyExchangeAuthenticationCode].
    rewrite !andb_true_iff. split_and!; try done. apply hmac_array.
  - done.
Qed.

Lemma parse_rakp4 v pw :
  is_u32 (s_RemoteConsoleSessionId v) = true ->
  exists r4, con_parse rakpMessage4Response_codec payloadTypeRAKPMessage4
      (rmcp_header_bytes ++ rakp4_reply 0 v pw) = Some r4 /\
    r4_RmcpPlusStatusCode r4 = 0 /\
    r4_IntegrityCheckValue r4 = Rakp.icv4 (session_sik v pw) (s_ManagedSystemSessionId v)
      (s_RemoteConsoleRandomNumber v) (s_ManagedSystemGuid v).
Proof.
  intros Hid. eexists. split.
  - refine (con_parse_reply rakpMessage4Response_codec _
      (response_header payloadTypeRAKPMessage4 20) eq_refl _).
    cbn [rakpMessage4Response_codec isoc pairc c_wf fst snd u8c u32c r4_MessageTag
      r4_RmcpPlusStatusCode r4_Reserved1 r4_RemoteConsoleSessionId r4_IntegrityCheckValue].
    rewrite !andb_true_iff. split_and!; try done. apply hmac12_array.
  - done.
Qed.

(** The session a console has after its RAKP message 1. *)
Definition identified_session (c : console) (id : Z) (msr guid : list Z) : rmcpPlusSession :=
  session_with_rakp1 (opened_session (con_id c) id) (rakp1_payload c id) msr guid
    (bytes_of_string (con_user c)).

Lemma identified_session_wf c id msr guid :
  console_wf c = true -> is_u32 id = true -> is_array 16 msr = true -> is_array 16 guid = true ->
  session_wf users id (identified_session c id msr guid).
Proof.
  intros Hc Hid Hmsr Hguid. pose proof (rakp1_payload_wf c id Hc Hid) as Hp.
  apply session_with_rakp1_wf; try done.
  - apply opened_session_wf; [|done]. unfold console_wf in Hc. by bools.
  - apply slice_to_ok. apply r1_fields in Hp as (_ & _ & _ & _ & _ & Hn).
    apply is_array_spec in Hn as [Hn _]. rewrite Hn. split.
    + unfold console_wf in Hc. bools. cbn [rakp1_payload r1_UserNameLength]. lia.
    + symmetry. apply (r1_name_payload c id).
Qed.

(** A console that receives these three replies accepts them. *)
Lemma console_login_eq c id msr guid st0 st1 st2 st3 :
  console_wf c = true -> is_u32 id = true -> is_array 16 msr = true -> is_array 16 guid = true ->
  let v1 := identified_session c id msr guid in
  exchange (M := M) ent users fuel
    (datagram_of (session_less payloadTypeRMCPPlusOpenSessionRequest 32)
       (c_enc openSessionRequestPayload_codec (open_payload c))) st0 =
    Some (rmcp_header_bytes ++
          c_enc rmcpPlusSessionHeader_codec
            (response_header payloadTypeRMCPPlusOpenSessionResponse 36) ++
          c_enc openSessionResponsePayload_codec
            (open_session_response (open_payload c) (opened_session (con_id c) id)), st1) ->
  exchange ent users fuel
    (datagram_of (session_less payloadTypeRAKPMessage1 48)
       (c_enc rakpMessage1Request_codec (rakp1_payload c id))) st1 =
    Some (rmcp_header_bytes ++
          rakp2_reply (rakp1_payload c id) (opened_session (con_id c) id) (con_password c)
            msr guid (bytes_of_string (con_user c)), st2) ->
  exchange ent users fuel
    (datagram_of (session_less payloadTypeRAKPMessage3 28)
       (c_enc rakpMessage3Request_codec (rakp3_payload c id msr))) st2 =
    Some (rmcp_header_bytes ++ rakp4_reply 0 v1 (con_password c), st3) ->
  console_login ent users fuel c st0 = Some (id, session_sik v1 (con_password c), st3).
Proof.
  intros Hc Hid Hmsr Hguid v1 E1 E2 E3.
  assert (Hcid : is_u32 (con_id c) = true) by (unfold console_wf in Hc; by bools).
  destruct (parse_rakp2 (rakp1_payload c id) (opened_session (con_id c) id) (con_password c) msr
    guid (bytes_of_string (con_user c)) eq_refl Hcid Hmsr Hguid) as (r2 & P2 & S2 & R2 & G2 & C2).
  destruct (parse_rakp4 v1 (con_password c) Hcid) as (r4 & P4 & S4 & C4).
  assert (P1 := con_parse_reply openSessionResponsePayload_codec
    (open_session_response (open_payload c) (opened_session (con_id c) id))
    (response_header payloadTypeRMCPPlusOpenSessionResponse 36) eq_refl
    (open_session_response_wf _ (opened_session (con_id c) id) (open_payload_wf c Hc) Hid)).
  change (h_PayloadType _) with payloadTypeRMCPPlusOpenSessionResponse in P1.
  unfold console_login. rewrite E1. cbn [mbind option_bind]. rewrite P1. cbn [mbind option_bind]. rewrite option_guard_True by done.
  cbn [mbind option_bind open_session_response osr_ManagedSystemSessionId opened_session
    s_ManagedSystemSessionId].
  rewrite E2. cbn [mbind option_bind]. rewrite P2. cbn [mbind option_bind].
  rewrite R2, G2, option_guard_True by done. cbn [mbind option_bind].
  rewrite E3. cbn [mbind option_bind]. rewrite P4. cbn [mbind option_bind].
  rewrite option_guard_True by done. done.
Qed.

End ConsoleLemmas.

(** ** Properties *)

(** What a server gives a console that logged in: the session is new, belongs to
    the console, and its keys are the ones the console derived. *)
Definition logged_in `{!CryptoOps} {M : Type} (users : bmcUserHolder) (c : console)
  (b b' : bmc M) (id : Z) (sik : list Z) : Prop :=
  sessions b !! id = None /\ delete id (sessions b') = sessions b /\ machine b' = machine b /\
  exists v, established users b' id v /\ s_RemoteConsoleSessionId v = con_id c /\
    s_UserName v = bytes_of_string (con_user c) /\
    s_IntegrityKey v = generateK1 sik /\ s_ConfidentialityKey v = generateK2 sik.

(** The key exchange completes. *)
Lemma login_ok {M : Type} `{!Machine M} `{!CryptoOps} {L : CryptoLaws}
  (ent : entropy) (users : bmcUserHolder) (fuel : nat) (c : console) (u : bmcUser)
  (buf : list Z) (b : bmc M) :
  server_inv users (Serving buf b) -> console_wf c = true ->
  users !! con_user c = Some u -> Password u = con_password c ->
  (forall i, ent_fail ent i = None) ->
  (exists k, (k < fuel)%nat /\ sessions b !! draw ent (rnd b) k = None) ->
  exists id sik buf' b',
    console_login ent users fuel c (Serving buf b) = Some (id, sik, Serving buf' b') /\
    length buf' = recvBufSize /\ logged_in users c b b' id sik.
Proof.
  intros [Hbuf Hwf] Hc Hu Hpw Hnf (k0 & Hk0 & Hfree). apply is_array_spec in Hbuf as [Hbuf _].
  destruct (find (fun i => bool_decide (sessions b !! draw ent (rnd b) i = None)) (seq 0 fuel))
    as [k|] eqn:Ek.
  2:{ pose proof (find_none _ _ Ek k0) as Hf. specialize (Hf ltac:(apply in_seq; lia)).
      by apply bool_decide_eq_false in Hf. }
  pose proof (find_seq_first _ _ _ Ek) as (_ & Hnew & _). apply bool_decide_eq_true in Hnew.
  destruct (open_exchange ent users fuel c buf b k Hc Hbuf Hnf Ek) as (buf1 & E1 & Hbuf1).
  set (id := draw ent (rnd b) k) in *. pose proof (draw_u32 ent (rnd b) k : is_u32 id = true) as Hid.
  set (b1 := set_sessions _ _) in E1.
  assert (Hv0 : sessions b1 !! id = Some (opened_session (con_id c) id)) by apply lookup_insert_eq.
  destruct (rakp1_exchange ent users fuel c buf1 b1 id _ u Hc Hbuf1 Hnf Hid Hv0 Hu)
    as (buf2 & E2 & Hbuf2).
  pose proof (random_number_array ent (rnd b1)) as Hmsr.
  pose proof (random_number_array ent (rnd b1 + 16)) as Hguid.
  set (msr := random_number ent (rnd b1)) in *. set (guid := random_number ent (rnd b1 + 16)) in *.
  fold (identified_session c id msr guid) in E2. set (v1 := identified_session c id msr guid) in *.
  set (b2 := set_sessions _ _) in E2.
  pose proof (identified_session_wf users c id msr guid Hc Hid Hmsr Hguid) as Hv1w. fold v1 in Hv1w.
  assert (Hb2 : sessions b2 = <[id := v1]> (sessions b)) by apply insert_insert_eq.
  assert (Hwf2 : sessions_wf users (sessions b2)).
  { rewrite Hb2. by apply map_Forall_insert_2. }
  assert (Hv1 : sessions b2 !! id = Some v1) by (rewrite Hb2; apply lookup_insert_eq).
  assert (Hu1 : users !! string_of_bytes (s_UserName v1) = Some u)
    by (cbn; by rewrite string_of_bytes_of_string).
  destruct (rakp3_exchange ent users fuel c buf2 b2 id v1 u Hbuf2 Hwf2 Hv1 Hu1) as (buf3 & E3 & Hbuf3).
  { unfold session_code3. by rewrite Hpw. }
  exists id, (session_sik v1 (con_password c)), buf3. eexists. split_and!; [|done|].
  - rewrite Hpw in *. by apply (console_login_eq _ _ _ c id msr guid _ _ _ _ Hc Hid Hmsr Hguid E1 E2).
  - split_and!; [done| |done|].
    + cbn [set_sessions sessions]. rewrite Hb2, insert_insert_eq. by rewrite delete_insert_id.
    + exists (session_with_keys v1 (session_sik v1 (con_password c))).
      split; [|done]. rewrite <- Hpw. eapply keyed_established; [done..|].
      by rewrite Hpw.
Qed.

(** *** Commands of a logged-in console *)

(** An encrypted command: payload, trailer and integrity code under the keys
    derived from [sik]. *)
Definition command_datagram `{!CryptoOps} (sik : list Z) (id seq : Z) (iv : list Z)
  (msg : ipmiMessage) : list Z :=
  let signed := c_enc rmcpPlusSessionHeader_codec (request_header id seq) ++
    cbc_packet (generateK2 sik) iv (frame msg) ++ [0xff; 0xff; 0x02; 0x07] in
  rmcp_header_bytes ++ signed ++ take 12 (hmac_sha1 (generateK1 sik) signed).

(** The console checks the integrity code of a reply and decrypts its payload. *)
Definition con_open_reply `{!CryptoOps} (sik reply : list Z) : option (list Z) :=
  let body := drop 4 reply in
  let signed := take (length body - 12) body in
  if bool_decide (drop (length body - 12) body = take 12 (hmac_sha1 (generateK1 sik) signed))
  then match decryptByCBCMode (generateK2 sik) (take 32 (drop 12 signed)) with
       | Ok plain => Some plain
       | _ => None
       end
  else None.

Lemma con_open_reply_ok `{!CryptoOps} {L : CryptoLaws} sik ret payload resp :
  take 32 (drop 12 ret) = payload -> decryptByCBCMode (generateK2 sik) payload = Ok resp ->
  con_open_reply sik (rmcp_header_bytes ++ ret ++ take 12 (hmac_sha1 (generateK1 sik) ret)) =
  Some resp.
Proof.
  intros Hp Hd. unfold con_open_reply. rewrite drop_app_length' by done.
  assert (Hl : length (take 12 (hmac_sha1 (generateK1 sik) ret)) = 12%nat)
    by (by rewrite length_take, hmac_length).
  rewrite length_app, Hl. replace (length ret + 12 - 12)%nat with (length ret) by lia.
  rewrite take_app_length, drop_app_length, bool_decide_true by done. by rewrite Hp, Hd.
Qed.

Lemma command_packet `{!CryptoOps} {L : CryptoLaws} sik iv msg :
  is_array 16 iv = true -> request_wf msg = true ->
  length (cbc_packet (generateK2 sik) iv (frame msg)) = 32%nat /\
  is_bytes (cbc_packet (generateK2 sik) iv (frame msg)) = true.
Proof.
  intros Hiv Hmsg. unfold request_wf in Hmsg. bools.
  destruct (cbc_packet_wf (generateK2 sik) iv (frame msg)) as [Hpl Hpb]; try done.
  - unfold generateK2, generateAdditionalKeyingMaterials. rewrite hmac_length.
    apply Nat.leb_le. reflexivity.
  - apply hmac_bytes.
  - by apply frame_bytes.
  - rewrite Nat.div_small in Hpl; [done|]. rewrite frame_length. unfold aes_BlockSize. lia.
Qed.

Lemma command_ok {M : Type} `{ReliableMachine M} `{!CryptoOps} {L : CryptoLaws}
  (ent : entropy) (users : bmcUserHolder) (fuel : nat) (sik : list Z) (id seq : Z) (iv buf : list Z)
  (msg : ipmiMessage) (ctl : Z) (rest : list Z) (b : bmc M) (v : rmcpPlusSession) :
  established users b id v -> s_IntegrityKey v = generateK1 sik ->
  s_ConfidentialityKey v = generateK2 sik -> length buf = recvBufSize ->
  (forall i, ent_fail ent i = None) -> is_u32 seq = true -> is_array 16 iv = true ->
  request_wf msg = true -> netFunction msg = ipmiNetFNChassis ->
  m_Command msg = ipmiCmdChassisControl -> m_Data msg = ctl :: rest ->
  exists reply resp buf' b',
    exchange ent users fuel (command_datagram sik id seq iv msg) (Serving buf b) =
      Some (reply, Serving buf' b') /\
    con_open_reply sik reply = Some resp /\
    match Power.answer (control_request ctl) (is_on b) with
    | Some on' => nth 6 resp 0xff = completionCodeOK /\ is_on b' = on'
    | None => nth 6 resp 0xff <> completionCodeOK /\ is_on b' = is_on b
    end.
Proof.
  intros Hest Hk1 Hk2 Hbuf Hnf Hseq Hiv Hmsg Hfn Hcmd Hdata.
  pose proof Hest as (Hwf & Hv & _).
  destruct (map_Forall_lookup_1 _ _ _ _ Hwf Hv) as [[Hid _]%session_ids _].
  destruct (command_packet sik iv msg Hiv Hmsg) as [Hpl _].
  assert (Hh : c_wf rmcpPlusSessionHeader_codec (request_header id seq) = true)
    by (cbn -[is_u8 is_u16 is_u32]; by rewrite Hseq, Hid).
  destruct (encrypted_control_ok ent users b id seq v iv [] msg ctl rest Hest Hnf Hiv Hmsg Hfn Hcmd
    Hdata) as (ret & payload & resp & b' & E & Hpay & Hdec & Hans).
  rewrite app_nil_r, Hk1, Hk2 in *.
  set (signed := c_enc rmcpPlusSessionHeader_codec (request_header id seq) ++
    cbc_packet (generateK2 sik) iv (frame msg) ++ [0xff; 0xff; 0x02; 0x07]).
  set (code := take 12 (hmac_sha1 (generateK1 sik) signed)).
  assert (Hd : command_datagram sik id seq iv msg = datagram_of (request_header id seq)
    (cbc_packet (generateK2 sik) iv (frame msg) ++ [0xff; 0xff; 0x02; 0x07] ++ code)).
  { unfold command_datagram, datagram_of. fold signed. fold code. unfold signed at 1.
    by rewrite <- !app_assoc. }
  destruct (exchange_ok ent users fuel (request_header id seq)
    (cbc_packet (generateK2 sik) iv (frame msg) ++ [0xff; 0xff; 0x02; 0x07] ++ code) buf b
    (ret ++ take 12 (hmac_sha1 (generateK1 sik) ret)) b') as (buf' & Ex & _); try done.
  { rewrite Hbuf. unfold datagram_of. rewrite !length_app, Hpl, enc_length by done.
    unfold code. rewrite length_take, hmac_length. apply Nat.leb_le. reflexivity. }
  { intros r. rewrite <- app_assoc. unfold rmcpPlus_handle. change (_ && _) with true. cbv iota.
    rewrite encrypted_trailer; [exact E|]. by rewrite Hpl. }
  rewrite Hd. eexists _, resp, buf', b'. split; [exact Ex|]. split; [|done].
  by eapply con_open_reply_ok.
Qed.

(** C2: the key exchange completes.  A console that follows the protocol and knows
    a registered user's password gets through all three exchanges with a running
    server whose entropy works and still has an unused identifier to offer: every
    check the console makes on the replies passes, and both sides end with the
    same keys, on a fresh session, with every other session untouched. *)
Theorem console_login_succeeds {M : Type} `{!Machine M} `{!CryptoOps} {L : CryptoLaws}
  (ent : entropy) (users : bmcUserHolder) (fuel : nat) (c : console) (u : bmcUser)
  (buf : list Z) (b : bmc M) :
  server_inv users (Serving buf b) -> console_wf c = true ->
  users !! con_user c = Some u -> Password u = con_password c ->
  (forall i, ent_fail ent i = None) ->
  (exists k, (k < fuel)%nat /\ sessions b !! draw ent (rnd b) k = None) ->
  exists id sik buf' b',
    console_login ent users fuel c (Serving buf b) = Some (id, sik, Serving buf' b') /\
    length buf' = recvBufSize /\ logged_in users c b b' id sik.
Proof. apply login_ok. Qed.

(** The console of the demonstrations. *)
Definition demo_console : console :=
  {| con_id := 0xa4a3a2a0; con_random := replicate 16 0x5a; con_role := 0x14;
     con_user := "cybozu"; con_password := "cybozu" |}.

Definition demo_server : serverState TwoStateMock := server_init {| tsm_on := false |}.

Definition demo_server_bmc : bmc TwoStateMock :=
  Bmc newRMCPPlusSessionHolder 0 {| tsm_on := false |}.

Lemma demo_server_inv : server_inv demo_users demo_server.
Proof. apply server_init_inv. Qed.

Lemma console_login_succeeds_witness :
  exists id sik buf' b',
    console_login counting_entropy demo_users 1 demo_console
      (Serving (zeros recvBufSize) demo_server_bmc) = Some (id, sik, Serving buf' b') /\
    length buf' = recvBufSize /\ logged_in demo_users demo_console demo_server_bmc b' id sik.
Proof.
  apply (console_login_succeeds counting_entropy demo_users 1 demo_console
    (BmcUser "cybozu" "cybozu") (zeros recvBufSize) demo_server_bmc demo_server_inv);
    try reflexivity.
  exists 0%nat. split; [apply le_n|reflexivity].
Defined.

(** Login, one encrypted Chassis Control command, and its reply. *)
Lemma power_session_ok {M : Type} `{ReliableMachine M} `{!CryptoOps} {L : CryptoLaws}
  (ent : entropy) (users : bmcUserHolder) (fuel : nat) (c : console) (u : bmcUser)
  (buf : list Z) (b : bmc M) (seq : Z) (iv : list Z) (msg : ipmiMessage) (ctl : Z)
  (rest : list Z) :
  server_inv users (Serving buf b) -> console_wf c = true ->
  users !! con_user c = Some u -> Password u = con_password c ->
  (forall i, ent_fail ent i = None) ->
  (exists k, (k < fuel)%nat /\ sessions b !! draw ent (rnd b) k = None) ->
  is_u32 seq = true -> is_array 16 iv = true ->
  request_wf msg = true -> netFunction msg = ipmiNetFNChassis ->
  m_Command msg = ipmiCmdChassisControl -> m_Data msg = ctl :: rest ->
  exists id sik st reply resp buf' b',
    console_login ent users fuel c (Serving buf b) = Some (id, sik, st) /\
    exchange ent users fuel (command_datagram sik id seq iv msg) st =
      Some (reply, Serving buf' b') /\
    con_open_reply sik reply = Some resp /\
    match Power.answer (control_request ctl) (is_on b) with
    | Some on' => nth 6 resp 0xff = completionCodeOK /\ is_on b' = on'
    | None => nth 6 resp 0xff <> completionCodeOK /\ is_on b' = is_on b
    end.
Proof.
  intros Hinv Hc Hu Hpw Hnf Hfree Hseq Hiv Hmsg Hfn Hcmd Hdata.
  destruct (login_ok ent users fuel c u buf b Hinv Hc Hu Hpw Hnf Hfree)
    as (id & sik & buf1 & b1 & El & Hbuf1 & _ & _ & Hm & v & Hest & _ & _ & Hk1 & Hk2).
  destruct (command_ok ent users fuel sik id seq iv buf1 msg ctl rest b1 v)
    as (reply & resp & buf2 & b2 & Ex & Ho & Hans); try done.
  exists id, sik, (Serving buf1 b1), reply, resp, buf2, b2. split_and!; try done.
  assert (Hon : is_on b1 = is_on b) by (cbn; by rewrite Hm). by rewrite <- Hon.
Qed.

(** C1: power control end to end.  On a reliable machine, a console that knows a
    registered user's password logs in and sends an encrypted Chassis Control
    command; the server answers, the console accepts the answer's integrity code
    and decrypts it, its completion code is 0x00 exactly when the power
    specification accepts the command, and the machine is left as the
    specification says. *)
Theorem console_controls_power {M : Type} `{ReliableMachine M} `{!CryptoOps} {L : CryptoLaws}
  (ent : entropy) (users : bmcUserHolder) (fuel : nat) (c : console) (u : bmcUser)
  (buf : list Z) (b : bmc M) (seq : Z) (iv : list Z) (msg : ipmiMessage) (ctl : Z)
  (rest : list Z) :
  server_inv users (Serving buf b) -> console_wf c = true ->
  users !! con_user c = Some u -> Password u = con_password c ->
  (forall i, ent_fail ent i = None) ->
  (exists k, (k < fuel)%nat /\ sessions b !! draw ent (rnd b) k = None) ->
  is_u32 seq = true -> is_array 16 iv = true ->
  request_wf msg = true -> netFunction msg = ipmiNetFNChassis ->
  m_Command msg = ipmiCmdChassisControl -> m_Data msg = ctl :: rest ->
  exists id sik st reply resp buf' b',
    console_login ent users fuel c (Serving buf b) = Some (id, sik, st) /\
    exchange ent users fuel (command_datagram sik id seq iv msg) st =
      Some (reply, Serving buf' b') /\
    con_open_reply sik reply = Some resp /\
    match Power.answer (control_request ctl) (is_on b) with
    | Some on' => nth 6 resp 0xff = completionCodeOK /\ is_on b' = on'
    | None => nth 6 resp 0xff <> completionCodeOK /\ is_on b' = is_on b
    end.
Proof. apply power_session_ok. Qed.

Lemma console_controls_power_witness :
  exists id sik st reply resp buf' b',
    console_login counting_entropy demo_users 1 demo_console
      (Serving (zeros recvBufSize) demo_server_bmc) = Some (id, sik, st) /\
    exchange counting_entropy demo_users 1
      (command_datagram sik id 3 (zeros 16) power_up_msg) st = Some (reply, Serving buf' b') /\
    con_open_reply sik reply = Some resp /\
    nth 6 resp 0xff = completionCodeOK /\ is_on b' = true.
Proof.
  refine (console_controls_power counting_entropy demo_users 1 demo_console
    (BmcUser "cybozu" "cybozu") (zeros recvBufSize) demo_server_bmc 3 (zeros 16) power_up_msg 1 []
    demo_server_inv eq_refl eq_refl eq_refl (fun _ => eq_refl) _ eq_refl eq_refl eq_refl eq_refl
    eq_refl eq_refl).
  exists 0%nat. split; [apply le_n|reflexivity].
Defined.

(** ** A recorded run *)

(** The datagrams of the demonstration console's login. *)
Definition demo_login : list (list Z) :=
  [ datagram_of (session_less payloadTypeRMCPPlusOpenSessionRequest 32)
      (c_enc openSessionRequestPayload_codec (open_payload demo_console));
    datagram_of (session_less payloadTypeRAKPMessage1 48)
      (c_enc rakpMessage1Request_codec (rakp1_payload demo_console 0x03020100));
    datagram_of (session_less payloadTypeRAKPMessage3 28)
      (c_enc rakpMessage3Request_codec
         (rakp3_payload demo_console 0x03020100 (random_number counting_entropy 4))) ].

(** Feeding datagrams to the server while it runs. *)
Fixpoint server_feed {M : Type} `{!Machine M} `{!CryptoOps} (ent : entropy)
  (users : bmcUserHolder) (fuel : nat) (ds : list (list Z)) (st : serverState M)
  : list (list Z * option (list Z)) * serverState M :=
  match ds, st with
  | d :: ds', Serving buf b =>
      let (r, st1) := server_step ent users fuel buf b d in
      let (tr, st2) := server_feed ent users fuel ds' st1 in ((d, r) :: tr, st2)
  | _, _ => ([], st)
  end.

Lemma server_feed_run {M : Type} `{!Machine M} `{!CryptoOps} ent users fuel ds (st : serverState M) :
  server_run ent users fuel st (server_feed ent users fuel ds st).1
    (server_feed ent users fuel ds st).2.
Proof.
  revert st. induction ds as [|d ds IH]; intros [buf b| |]; cbn [server_feed fst snd];
    try constructor.
  destruct (server_step ent users fuel buf b d) as [r st1] eqn:E. specialize (IH st1).
  destruct (server_feed ent users fuel ds st1) as [tr st2]. by econstructor.
Qed.

Definition demo_run := server_feed counting_entropy demo_users 1 demo_login demo_server.

(** The run reaches a server with an established session. *)
Lemma demo_run_established :
  exists buf b v,
    server_run counting_entropy demo_users 1 demo_server demo_run.1 (Serving buf b) /\
    trace_wf demo_run.1 /\ sessions b !! 0x03020100 = Some v /\ s_ConfidentialityKey v <> [].
Proof.
  assert (Hc : match demo_run with
               | (tr, Serving _ b) =>
                   forallb (fun dr => is_bytes dr.1) tr &&
                   match sessions b !! 0x03020100 with
                   | Some v => negb (bool_decide (s_ConfidentialityKey v = []))
                   | None => false
                   end
               | _ => false
               end = true) by (vm_compute; reflexivity).
  pose proof (server_feed_run counting_entropy demo_users 1 demo_login demo_server
    : server_run counting_entropy demo_users 1 demo_server demo_run.1 demo_run.2) as Hrun.
  destruct demo_run as [tr [buf b| |]]; try done. apply andb_prop in Hc as [Htr Hc].
  destruct (sessions b !! 0x03020100) as [v|] eqn:Ev; [|done].
  exists buf, b, v. split_and!; try done.
  - apply Forall_forall. intros dr Hdr. rewrite forallb_forall in Htr.
    apply Htr. by apply list_elem_of_In.
  - apply negb_true_iff, bool_decide_eq_false in Hc. done.
Qed.

(** ** Properties of the server *)

(** C4: the server refines the session table.  However a datagram is formed, and
    whatever earlier datagrams left in the receive buffer, a turn of the loop
    after which the server still runs performs one step of the abstract table on
    the message behind the packet headers. *)
Theorem server_refines_table {M : Type} `{!Machine M} `{!CryptoOps} {L : CryptoLaws}
  (ent : entropy) (users : bmcUserHolder) (fuel : nat) (buf buf' datagram : list Z)
  (b b' : bmc M) (reply : option (list Z)) :
  server_inv users (Serving buf b) -> is_bytes datagram = true ->
  server_step ent users fuel buf b datagram = (reply, Serving buf' b') ->
  buf' = recv buf datagram /\ Table.step users (drop 16 buf') (sessions b) (sessions b').
Proof. apply server_step_table. Qed.

Lemma server_refines_table_witness :
  let d := datagram_of (session_less payloadTypeRMCPPlusOpenSessionRequest 32)
             (c_enc openSessionRequestPayload_codec (open_payload demo_console)) in
  exists reply buf' b',
    server_step counting_entropy demo_users 1 (zeros recvBufSize) demo_server_bmc d =
      (reply, Serving buf' b') /\ is_Some reply /\
    buf' = recv (zeros recvBufSize) d /\
    Table.step demo_users (drop 16 buf') (sessions demo_server_bmc) (sessions b').
Proof.
  intros d.
  destruct (open_exchange counting_entropy demo_users 1 demo_console (zeros recvBufSize)
    demo_server_bmc 0 eq_refl eq_refl (fun _ => eq_refl) eq_refl) as (buf' & E & _).
  fold d in E. unfold exchange in E.
  destruct (server_step _ _ _ _ _ d) as [[reply|] st] eqn:Es; [|done]. injection E as E1 E2.
  subst st. eexists _, _, _. split; [reflexivity|]. split; [by eexists|].
  exact (server_refines_table counting_entropy demo_users 1 (zeros recvBufSize) _ d
    demo_server_bmc _ _ demo_server_inv eq_refl Es).
Defined.

(** C5: the session invariant over whole runs.  Whatever byte sequences arrive,
    as long as the server runs its sessions are well formed: each is stored under
    its own identifier, its numbers and names have their sizes, and its keys are
    absent or derived from the password of a registered user. *)
Theorem server_run_wf {M : Type} `{!Machine M} `{!CryptoOps} {L : CryptoLaws}
  (ent : entropy) (users : bmcUserHolder) (fuel : nat) (m : M)
  (tr : list (list Z * option (list Z))) (buf : list Z) (b : bmc M) :
  server_run ent users fuel (server_init m) tr (Serving buf b) -> trace_wf tr ->
  length buf = recvBufSize /\ sessions_wf users (sessions b).
Proof.
  intros Hrun Htr. pose proof (server_run_inv _ _ _ _ _ _ Hrun Htr (server_init_inv users m)) as [Hb Hw].
  by apply is_array_spec in Hb as [? _].
Qed.

Lemma server_run_wf_witness :
  exists buf b,
    server_run counting_entropy demo_users 1 demo_server demo_run.1 (Serving buf b) /\
    length buf = recvBufSize /\ sessions_wf demo_users (sessions b).
Proof.
  destruct demo_run_established as (buf & b & v & Hrun & Htr & _).
  exists buf, b. split; [exact Hrun|].
  exact (server_run_wf counting_entropy demo_users 1 {| tsm_on := false |} demo_run.1 buf b
    Hrun Htr).
Defined.

(** C3: no session keys without authentication.  If a session has keys, then some
    earlier datagram of the run was a RAKP message 3 for that session whose
    authentication code was the one only the user's password gives, and the keys
    are those derived from that exchange. *)
Theorem keys_need_authentication {M : Type} `{!Machine M} `{!CryptoOps} {L : CryptoLaws}
  (ent : entropy) (users : bmcUserHolder) (fuel : nat) (m : M)
  (tr : list (list Z * option (list Z))) (buf : list Z) (b : bmc M) (id : Z)
  (v : rmcpPlusSession) :
  server_run ent users fuel (server_init m) tr (Serving buf b) -> trace_wf tr ->
  sessions b !! id = Some v -> s_ConfidentialityKey v <> [] ->
  authenticated_at ent users fuel (server_init m) tr id
    (s_ConfidentialityKey v) (s_IntegrityKey v).
Proof. intros Hrun Htr. by apply (server_run_keys ent users fuel m tr buf b Hrun Htr). Qed.

Lemma keys_need_authentication_witness :
  exists v, authenticated_at counting_entropy demo_users 1 demo_server demo_run.1 0x03020100
    (s_ConfidentialityKey v) (s_IntegrityKey v).
Proof.
  destruct demo_run_established as (buf & b & v & Hrun & Htr & Hv & Hk).
  exists v.
  exact (keys_need_authentication counting_entropy demo_users 1 {| tsm_on := false |} demo_run.1
    buf b 0x03020100 v Hrun Htr Hv Hk).
Defined.
