(* ===== verification/Lan.v ===== *)
(** * IPMI v1.5 packets and the receive buffer

    Properties of the outer layers: the v1.5 session wrapper's round trip, that
    v1.5 requests are served without authentication, and what the reused receive
    buffer means for short datagrams. *)

From S2P Require Import Prelude GoBinary GoCrypto Sha1 Aes Machine Session Ipmi RmcpPlus Rmcp.
From S2P Require Import Handshake Encrypted Server Console.

Local Open Scope Z_scope.
Local Open Scope go_scope.

(** ** The session wrapper *)

(** A wrapper that can be on the wire: the code is absent, hence zero, outside a
    session. *)
Definition wrapper_wf (w : ipmiSessionWrapper) : bool :=
  is_u8 (w_AuthenticationType w) && is_u32 (w_SequenceNumber w) && is_u32 (w_SessionId w) &&
  is_array 16 (w_AuthenticationCode w) && is_u8 (w_MessageLen w) &&
  (negb (w_SessionId w =? 0) || bool_decide (w_AuthenticationCode w = zeros 16)).

(** The bytes of a wrapper after the authentication type. *)
Definition wrapper_tail (w : ipmiSessionWrapper) : list Z :=
  le_bytes 4 (w_SequenceNumber w) ++ le_bytes 4 (w_SessionId w) ++
  (if w_SessionId w =? 0 then [] else w_AuthenticationCode w) ++ [w_MessageLen w].

Lemma serialize_wrapper w buf :
  wrapper_wf w = true ->
  serializeIPMISessionWrapper buf w = Ok (buf ++ w_AuthenticationType w :: wrapper_tail w).
Proof.
  unfold wrapper_wf. intros Hw. apply andb_prop in Hw as [Hw _]. bools.
  unfold serializeIPMISessionWrapper, wrapper_tail, binary_Write. cbn [owrap obind].
  rewrite !u8c_enc by done.
  destruct (w_SessionId w =? 0); cbn [negb owrap obind c_enc u32c arrc]; rewrite <- !app_assoc; done.
Qed.

Lemma deserialize_wrapper w rest :
  wrapper_wf w = true ->
  deserializeIPMISessionWrapper (wrapper_tail w ++ rest) (w_AuthenticationType w) = Ok (w, rest).
Proof.
  unfold wrapper_wf. intros Hw. apply andb_prop in Hw as [Hw Hz]. bools.
  unfold deserializeIPMISessionWrapper, wrapper_tail. rewrite <- !app_assoc.
  change (le_bytes 4) with (c_enc u32c).
  rewrite (binary_Read_enc u32c) by done. cbn [owrap obind].
  rewrite (binary_Read_enc u32c) by done. cbn [owrap obind].
  rewrite <- (u8c_enc (w_MessageLen w)) by done.
  destruct (w_SessionId w =? 0); cbn [negb app].
  - cbn [obind]. rewrite (binary_Read_enc u8c) by done. cbn [owrap obind].
    apply bool_decide_eq_true in Hz. rewrite <- Hz. by destruct w.
  - change (w_AuthenticationCode w ++ ?r) with (c_enc (arrc 16) (w_AuthenticationCode w) ++ r).
    rewrite (binary_Read_enc (arrc 16)) by done. cbn [owrap obind].
    rewrite (binary_Read_enc u8c) by done. cbn [owrap obind]. by destruct w.
Qed.

(** The v1.5 session wrapper round trip: what [serializeIPMISessionWrapper]
    writes is read back by [newIPMISession] and [deserializeIPMISessionWrapper],
    inside a session (with its authentication code) and outside one (without),
    and nothing of what follows is consumed. *)
Theorem ipmi_session_wrapper_roundtrip (w : ipmiSessionWrapper) (rest out : list Z) :
  wrapper_wf w = true -> serializeIPMISessionWrapper [] w = Ok out ->
  exists buf, newIPMISession (out ++ rest) = Ok (w_AuthenticationType w, buf) /\
    deserializeIPMISessionWrapper buf (w_AuthenticationType w) = Ok (w, rest).
Proof.
  intros Hw. rewrite serialize_wrapper by done. intros [= <-]. cbn [app].
  exists (wrapper_tail w ++ rest). split; [|by apply deserialize_wrapper].
  unfold newIPMISession. apply owrap_ok.
  assert (Hu : is_u8 (w_AuthenticationType w) = true)
    by (unfold wrapper_wf in Hw; rewrite !andb_true_iff in Hw; by destruct_and! Hw).
  change (w_AuthenticationType w :: ?l) with ([w_AuthenticationType w] ++ l).
  rewrite <- (u8c_enc (w_AuthenticationType w)) by done. by apply (binary_Read_enc u8c).
Qed.

Lemma ipmi_session_wrapper_roundtrip_witness :
  let w := {| w_AuthenticationType := 0; w_SequenceNumber := 7; w_SessionId := 0x01020304;
              w_AuthenticationCode := replicate 16 0xab; w_MessageLen := 8 |} in
  exists buf, newIPMISession ([0; 7; 0; 0; 0; 4; 3; 2; 1] ++ replicate 16 0xab ++ [8; 99]) =
      Ok (0, buf) /\ deserializeIPMISessionWrapper buf 0 = Ok (w, [99]).
Proof.
  intros w. exact (ipmi_session_wrapper_roundtrip w [99] _ eq_refl eq_refl).
Defined.

(** ** Unauthenticated requests *)

(** A v1.5 datagram outside any session, as anyone can send it. *)
Definition sessionless_datagram (seq : Z) (msg : ipmiMessage) : list Z :=
  rmcp_header_bytes ++
  [authTypeNone] ++ le_bytes 4 seq ++ le_bytes 4 0 ++ [Z.of_nat (length (frame msg))] ++ frame msg.

Definition sessionless_wrapper (seq len : Z) : ipmiSessionWrapper :=
  {| w_AuthenticationType := authTypeNone; w_SequenceNumber := seq; w_SessionId := 0;
     w_AuthenticationCode := zeros 16; w_MessageLen := len |}.

Section Sessionless.
Context {M : Type} `{!Machine M} `{!CryptoOps}.
Context (ent : entropy) (users : bmcUserHolder) (fuel : nat).

Lemma newIPMI_frame_rest m rest :
  msg_wf m = true -> m_CompletionCode m = 0 ->
  newIPMI (frame m ++ rest) (Z.of_nat (length (frame m))) = Ok (m, rest).
Proof.
  intros Hm Hc. unfold newIPMI. pose proof (frame_bytes m Hm) as Hb.
  rewrite frame_length. unfold frame in *.
  pose proof (deserializeIPMIMessage_frame _ _ _ _ _ _ _ _ rest Hb) as E.
  replace (Z.of_nat (7 + _)) with (Z.of_nat (length (m_Data m)) + 7) by lia.
  rewrite <- !app_assoc. cbn [app] in *. rewrite E. cbn [owrap]. destruct m; cbn in *. by subst.
Qed.

(** A sessionless datagram is handled by running its message. *)
Lemma handleRMCPRequest_sessionless seq msg rest (b : bmc M) :
  is_u32 seq = true -> msg_wf msg = true -> m_CompletionCode msg = 0 ->
  (length (m_Data msg) <= 200)%nat ->
  handleRMCPRequest ent users fuel (sessionless_datagram seq msg ++ rest) b =
  match ipmi_handle msg b with
  | (Ok resp, b') =>
      (Ok (rmcp_header_bytes ++ authTypeNone ::
           wrapper_tail (sessionless_wrapper seq (u8 (Z.of_nat (length resp)))) ++ resp), b')
  | r => r
  end.
Proof.
  intros Hseq Hmsg Hc Hlen.
  assert (Hw : forall len, is_u8 len = true -> wrapper_wf (sessionless_wrapper seq len) = true).
  { intros len Hl. unfold wrapper_wf. cbn -[is_u8 is_u32]. by rewrite Hseq, Hl. }
  set (w := sessionless_wrapper seq (Z.of_nat (length (frame msg)))).
  assert (Hww : wrapper_wf w = true) by (apply Hw, is_u8_spec; rewrite frame_length; lia).
  assert (Hd : sessionless_datagram seq msg ++ rest =
    rmcp_header_bytes ++ [authTypeNone] ++ wrapper_tail w ++ frame msg ++ rest).
  { unfold sessionless_datagram, wrapper_tail, w. cbn [sessionless_wrapper w_SequenceNumber
      w_SessionId w_MessageLen Z.eqb app]. by rewrite <- !app_assoc. }
  rewrite Hd. unfold handleRMCPRequest, newRMCP, deserializeRMCPHeader, sbind at 1, slift.
  change rmcp_header_bytes with
    (c_enc remoteManagementControlProtocolHeader_codec buildUpRMCPForIPMI) at 1.
  rewrite (binary_Read_enc remoteManagementControlProtocolHeader_codec) by done.
  unfold rmcp_handle. change (rmcp_Class buildUpRMCPForIPMI =? RmcpClassIpmi) with true.
  cbv iota. unfold newIPMISession, slift, sbind at 1.
  change [authTypeNone] with (c_enc u8c authTypeNone). rewrite (binary_Read_enc u8c) by done.
  cbn [owrap]. unfold sbind at 1, ipmiSession_handle, slift, sbind at 1.
  change (isRMCPPlusFormat authTypeNone) with (Ok false : outcome bool). cbv iota beta.
  unfold sbind at 1. change authTypeNone with (w_AuthenticationType w) at 1.
  rewrite deserialize_wrapper by done. unfold sbind at 1.
  cbn [w sessionless_wrapper w_MessageLen]. rewrite newIPMI_frame_rest by done.
  unfold sbind. destruct (ipmi_handle msg b) as [[resp| | |] b']; try done.
  fold (sessionless_wrapper seq (u8 (Z.of_nat (length resp)))).
  cbn [w_SequenceNumber w_SessionId w sessionless_wrapper].
  rewrite serialize_wrapper by (apply Hw, is_u8_wrap). done.
Qed.

End Sessionless.

(** C10: v1.5 requests need no authentication.  Whatever users and sessions the BMC
    has, a single datagram outside any session that carries a Chassis Control
    command is executed: the reply's completion code is 0x00 exactly when the
    power specification accepts the command, and the machine is left as the
    specification says. *)
Theorem sessionless_power_control {M : Type} `{ReliableMachine M} `{!CryptoOps}
  (ent : entropy) (users : bmcUserHolder) (fuel : nat) (seq : Z) (msg : ipmiMessage) (ctl : Z)
  (rest : list Z) (buf : list Z) (b : bmc M) :
  length buf = recvBufSize -> is_u32 seq = true -> request_wf msg = true ->
  netFunction msg = ipmiNetFNChassis -> m_Command msg = ipmiCmdChassisControl ->
  m_Data msg = ctl :: rest ->
  exists reply buf' b',
    exchange ent users fuel (sessionless_datagram seq msg) (Serving buf b) =
      Some (reply, Serving buf' b') /\
    match Power.answer (control_request ctl) (is_on b) with
    | Some on' => nth 20 reply 0xff = completionCodeOK /\ is_on b' = on'
    | None => nth 20 reply 0xff <> completionCodeOK /\ is_on b' = is_on b
    end.
Proof.
  intros Hbuf Hseq Hmsg Hfn Hcmd Hdata. unfold request_wf in Hmsg. bools.
  pose proof (chassis_control_implements (M := M) msg ctl rest) as Himp.
  destruct (Himp ltac:(done) ltac:(done) ltac:(done) ltac:(done) b) as (resp & b' & E & Ha).
  unfold exchange, server_step. rewrite recv_short.
  2:{ rewrite Hbuf. unfold sessionless_datagram.
      rewrite !length_app, !le_bytes_length, frame_length.
      cbn [length rmcp_header_bytes]. unfold recvBufSize. lia. }
  rewrite handleRMCPRequest_sessionless, E by (done || lia).
  eexists _, _, b'. split; [reflexivity|].
  assert (Hn : forall l, nth 20 (rmcp_header_bytes ++ authTypeNone ::
    wrapper_tail (sessionless_wrapper seq l) ++ resp) 0xff = nth 6 resp 0xff).
  { intros l. change (nth 20 (rmcp_header_bytes ++ authTypeNone :: ?x) 0xff)
      with (nth 15 x 0xff). rewrite app_nth2; [done|].
    unfold wrapper_tail. cbn. lia. }
  rewrite Hn. destruct (Power.answer _ _); destruct Ha as [Ha Hon]; bools; done.
Qed.

Lemma sessionless_power_control_witness :
  exists reply buf' b',
    exchange counting_entropy ∅ 0 (sessionless_datagram 0 power_up_msg)
      (Serving (zeros recvBufSize) demo_server_bmc) = Some (reply, Serving buf' b') /\
    nth 20 reply 0xff = completionCodeOK /\ is_on b' = true.
Proof.
  exact (sessionless_power_control counting_entropy ∅ 0 0 power_up_msg 1 []
    (zeros recvBufSize) demo_server_bmc eq_refl eq_refl eq_refl eq_refl eq_refl eq_refl).
Defined.

(** ** The receive buffer *)

Lemma recv_prefix buf d n :
  (length d <= length buf)%nat -> recv (recv buf d) (take n d) = recv buf d.
Proof.
  intros Hl. rewrite (recv_short buf d) by done.
  rewrite recv_short by (rewrite length_app, length_take; lia).
  rewrite length_take. destruct (Nat.le_ge_cases n (length d)).
  - rewrite Nat.min_l by done. rewrite drop_app_le by done. by rewrite app_assoc, take_drop.
  - rewrite Nat.min_r, firstn_all2 by done. by rewrite drop_app_length.
Qed.

(** The receive buffer is reused.  After a datagram, any prefix of it, the
    empty datagram included, is handled exactly as the whole datagram: the bytes
    the prefix lacks are still in the buffer. *)
Theorem stale_buffer_replays {M : Type} `{!Machine M} `{!CryptoOps} (ent : entropy)
  (users : bmcUserHolder) (fuel : nat) (buf d : list Z) (n : nat) (b b1 : bmc M)
  (reply : option (list Z)) (buf1 : list Z) :
  (length d <= length buf)%nat ->
  server_step ent users fuel buf b d = (reply, Serving buf1 b1) ->
  server_step ent users fuel buf1 b1 (take n d) = server_step ent users fuel buf1 b1 d.
Proof.
  intros Hl. unfold server_step at 1.
  destruct (handleRMCPRequest _ _ _ _ b) as [[] ?]; intros [= <- <- <-]; unfold server_step;
    rewrite recv_prefix by done; pose proof (recv_prefix buf d (length d) Hl) as E;
    rewrite firstn_all in E; by rewrite E.
Qed.

(** An empty datagram after a sessionless power-up is a second power-up. *)
Lemma stale_buffer_replays_witness :
  let d := sessionless_datagram 0 power_up_msg in
  exists reply buf1 b1,
    server_step counting_entropy demo_users 1 (zeros recvBufSize) demo_server_bmc d =
      (reply, Serving buf1 b1) /\
    server_step counting_entropy demo_users 1 buf1 b1 [] =
      server_step counting_entropy demo_users 1 buf1 b1 d.
Proof.
  intros d.
  destruct (server_step counting_entropy demo_users 1 (zeros recvBufSize) demo_server_bmc d)
    as [reply [buf1 b1| |]] eqn:E; [|vm_compute in E; discriminate..].
  exists reply, buf1, b1. split; [reflexivity|].
  refine (stale_buffer_replays counting_entropy demo_users 1 (zeros recvBufSize) d 0
    demo_server_bmc b1 reply buf1 _ E).
  apply Nat.leb_le. vm_compute. reflexivity.
Defined.
