(* ===== verification/RedfishTypes.v ===== *)
(** * Redfish resources (redfish.go, redfish_system.go, redfish_chassis.go)

    The data of the Redfish service: the JSON structures as records with the
    source's fields (prefixed by the structure's name), and the fixed and computed
    resources the handlers answer with. *)

From S2P Require Import Prelude Machine.

Local Open Scope Z_scope.

(** redfish.go: [type ResetType string]; a request may carry any string. *)
Definition ResetType : Type := string.

Definition ResetTypeOn : ResetType := "On".
Definition ResetTypeForceOff : ResetType := "ForceOff".
Definition ResetTypeForceRestart : ResetType := "ForceRestart".
Definition ResetTypeGracefulShutdown : ResetType := "GracefulShutdown".
Definition ResetTypePushPowerButton : ResetType := "PushPowerButton".
Definition ResetTypeNmi : ResetType := "Nmi".

Definition systemID : string := "System.Embedded.1".

(** An [interface{}] value of the resources: nil or a string.  The one [float64]
    field, TotalSystemMemoryGiB, only holds an integral constant and is a Z. *)
Inductive any : Type :=
| anil
| astr (s : string).

(** ** Structures *)

Record OdataID : Type := mkOdataID {
  OdataID_OdataID : string
}.

Record ServiceRootLinks : Type := mkServiceRootLinks {
  ServiceRootLinks_Sessions : OdataID
}.

Record ServiceRootOem : Type := mkServiceRootOem {}.

Record ExpandQuery : Type := mkExpandQuery {
  ExpandQuery_ExpandAll : bool;
  ExpandQuery_Levels : bool;
  ExpandQuery_Links : bool;
  ExpandQuery_MaxLevels : Z;
  ExpandQuery_NoLinks : bool
}.

Record ProtocolFeaturesSupported : Type := mkProtocolFeaturesSupported {
  ProtocolFeaturesSupported_ExpandQuery : ExpandQuery;
  ProtocolFeaturesSupported_FilterQuery : bool;
  ProtocolFeaturesSupported_SelectQuery : bool
}.

Record ServiceRoot : Type := mkServiceRoot {
  ServiceRoot_OdataContext : string;
  ServiceRoot_OdataID : string;
  ServiceRoot_OdataType : string;
  ServiceRoot_AccountService : OdataID;
  ServiceRoot_Chassis : OdataID;
  ServiceRoot_Description : string;
  ServiceRoot_EventService : OdataID;
  ServiceRoot_Fabrics : OdataID;
  ServiceRoot_ID : string;
  ServiceRoot_JSONSchemas : OdataID;
  ServiceRoot_Links : ServiceRootLinks;
  ServiceRoot_Managers : OdataID;
  ServiceRoot_Name : string;
  ServiceRoot_Oem : ServiceRootOem;
  ServiceRoot_Product : string;
  ServiceRoot_ProtocolFeaturesSupported : ProtocolFeaturesSupported;
  ServiceRoot_RedfishVersion : string;
  ServiceRoot_Registries : OdataID;
  ServiceRoot_SessionService : OdataID;
  ServiceRoot_Systems : OdataID;
  ServiceRoot_Tasks : OdataID;
  ServiceRoot_UpdateService : OdataID
}.

Record ResourceCollection : Type := mkResourceCollection {
  ResourceCollection_OdataContext : string;
  ResourceCollection_OdataID : string;
  ResourceCollection_OdataType : string;
  ResourceCollection_Description : string;
  ResourceCollection_Members : list OdataID;
  ResourceCollection_MembersOdataCount : Z;
  ResourceCollection_Name : string
}.

Record RequestBody : Type := mkRequestBody {
  RequestBody_ResetType : ResetType
}.

Record MessageExtendedInfo : Type := mkMessageExtendedInfo {
  MessageExtendedInfo_Message : string;
  MessageExtendedInfo_MessageArgs : list string;
  MessageExtendedInfo_MessageArgsOdataCount : Z;
  MessageExtendedInfo_MessageID : string;
  MessageExtendedInfo_RelatedProperties : list any;
  MessageExtendedInfo_RelatedPropertiesOdataCount : Z;
  MessageExtendedInfo_Resolution : string;
  MessageExtendedInfo_Severity : string
}.

Record RedfishError : Type := mkRedfishError {
  Error_MessageExtendedInfo : list MessageExtendedInfo;
  Error_Code : string;
  Error_Message : string
}.

Record ErrorResponse : Type := mkErrorResponse {
  ErrorResponse_Error : RedfishError
}.

Record ComputerSystemReset : Type := mkComputerSystemReset {
  ComputerSystemReset_ResetTypeRedfishAllowableValues : list ResetType;
  ComputerSystemReset_Target : string
}.

Record ComputerSystemActions : Type := mkComputerSystemActions {
  ComputerSystemActions_ComputerSystemReset : ComputerSystemReset
}.

Record Boot : Type := mkBoot {
  Boot_BootOptions : OdataID;
  Boot_BootOrder : list string;
  Boot_BootOrderOdataCount : Z;
  Boot_BootSourceOverrideEnabled : string;
  Boot_BootSourceOverrideMode : string;
  Boot_BootSourceOverrideTarget : string;
  Boot_BootSourceOverrideTargetRedfishAllowableValues : list string;
  Boot_UefiTargetBootSourceOverride : string
}.

Record ResourceStatus : Type := mkResourceStatus {
  Status_State : string
}.

Record HostWatchdogTimer : Type := mkHostWatchdogTimer {
  HostWatchdogTimer_FunctionEnabled : bool;
  HostWatchdogTimer_Status : ResourceStatus;
  HostWatchdogTimer_TimeoutAction : string
}.

Record ComputerSystemLinksOem : Type := mkComputerSystemLinksOem {}.

Record ComputerSystemLinks : Type := mkComputerSystemLinks {
  ComputerSystemLinks_Chassis : list OdataID;
  ComputerSystemLinks_ChassisOdataCount : Z;
  ComputerSystemLinks_CooledBy : list OdataID;
  ComputerSystemLinks_CooledByOdataCount : Z;
  ComputerSystemLinks_ManagedBy : list OdataID;
  ComputerSystemLinks_ManagedByOdataCount : Z;
  ComputerSystemLinks_Oem : ComputerSystemLinksOem;
  ComputerSystemLinks_PoweredBy : list OdataID;
  ComputerSystemLinks_PoweredByOdataCount : Z
}.

Record MachineStatus : Type := mkMachineStatus {
  MachineStatus_Health : string;
  MachineStatus_HealthRollup : string;
  MachineStatus_State : string
}.

Record MemorySummary : Type := mkMemorySummary {
  MemorySummary_MemoryMirroring : string;
  MemorySummary_Status : MachineStatus;
  MemorySummary_TotalSystemMemoryGiB : Z
}.

Record ComputerSystemOem : Type := mkComputerSystemOem {}.

Record ProcessorSummary : Type := mkProcessorSummary {
  ProcessorSummary_Count : Z;
  ProcessorSummary_LogicalProcessorCount : Z;
  ProcessorSummary_Model : string;
  ProcessorSummary_Status : MachineStatus
}.

Record TrustedModule : Type := mkTrustedModule {
  TrustedModule_FirmwareVersion : string;
  TrustedModule_InterfaceType : string;
  TrustedModule_Status : ResourceStatus
}.

Record ComputerSystem : Type := mkComputerSystem {
  ComputerSystem_OdataContext : string;
  ComputerSystem_OdataID : string;
  ComputerSystem_OdataType : string;
  ComputerSystem_Actions : ComputerSystemActions;
  ComputerSystem_AssetTag : string;
  ComputerSystem_Bios : OdataID;
  ComputerSystem_BiosVersion : string;
  ComputerSystem_Boot : Boot;
  ComputerSystem_Description : string;
  ComputerSystem_EthernetInterfaces : OdataID;
  ComputerSystem_HostName : string;
  ComputerSystem_HostWatchdogTimer : HostWatchdogTimer;
  ComputerSystem_HostingRoles : list any;
  ComputerSystem_HostingRolesOdataCount : Z;
  ComputerSystem_ID : string;
  ComputerSystem_IndicatorLED : string;
  ComputerSystem_Links : ComputerSystemLinks;
  ComputerSystem_Manufacturer : string;
  ComputerSystem_Memory : OdataID;
  ComputerSystem_MemorySummary : MemorySummary;
  ComputerSystem_Model : string;
  ComputerSystem_Name : string;
  ComputerSystem_NetworkInterfaces : OdataID;
  ComputerSystem_Oem : ComputerSystemOem;
  ComputerSystem_PCIeDevices : list OdataID;
  ComputerSystem_PCIeDevicesOdataCount : Z;
  ComputerSystem_PCIeFunctions : list OdataID;
  ComputerSystem_PCIeFunctionsOdataCount : Z;
  ComputerSystem_PartNumber : string;
  ComputerSystem_PowerState : PowerStatus;
  ComputerSystem_ProcessorSummary : ProcessorSummary;
  ComputerSystem_Processors : OdataID;
  ComputerSystem_SKU : string;
  ComputerSystem_SecureBoot : OdataID;
  ComputerSystem_SerialNumber : string;
  ComputerSystem_SimpleStorage : OdataID;
  ComputerSystem_Status : MachineStatus;
  ComputerSystem_Storage : OdataID;
  ComputerSystem_SystemType : string;
  ComputerSystem_TrustedModules : list TrustedModule;
  ComputerSystem_UUID : string
}.

Record ChassisCollection : Type := mkChassisCollection {
  ChassisCollection_OdataContext : string;
  ChassisCollection_OdataID : string;
  ChassisCollection_OdataType : string;
  ChassisCollection_Description : string;
  ChassisCollection_Members : list OdataID;
  ChassisCollection_MembersOdataCount : Z;
  ChassisCollection_Name : string
}.

Record ChassisReset : Type := mkChassisReset {
  ChassisReset_ResetTypeRedfishAllowableValues : list ResetType;
  ChassisReset_Target : string
}.

Record ChassisActions : Type := mkChassisActions {
  ChassisActions_ChassisReset : ChassisReset
}.

Record ChassisLinks : Type := mkChassisLinks {
  ChassisLinks_ComputerSystems : list OdataID;
  ChassisLinks_ComputerSystemsOdataCount : Z;
  ChassisLinks_Contains : list OdataID;
  ChassisLinks_ContainsOdataCount : Z;
  ChassisLinks_CooledBy : list OdataID;
  ChassisLinks_CooledByOdataCount : Z;
  ChassisLinks_Drives : list any;
  ChassisLinks_DrivesOdataCount : Z;
  ChassisLinks_ManagedBy : list OdataID;
  ChassisLinks_ManagedByOdataCount : Z;
  ChassisLinks_ManagersInChassis : list OdataID;
  ChassisLinks_ManagersInChassisOdataCount : Z;
  ChassisLinks_PCIeDevices : list OdataID;
  ChassisLinks_PCIeDevicesOdataCount : Z;
  ChassisLinks_PoweredBy : list OdataID;
  ChassisLinks_PoweredByOdataCount : Z;
  ChassisLinks_Storage : list OdataID;
  ChassisLinks_StorageOdataCount : Z
}.

Record Placemat : Type := mkPlacemat {
  Placemat_Rack : string;
  Placemat_Row : string
}.

Record PostalAddress : Type := mkPostalAddress {
  PostalAddress_Building : string;
  PostalAddress_Room : string
}.

Record Location : Type := mkLocation {
  Location_Info : string;
  Location_InfoFormat : string;
  Location_Placement : Placemat;
  Location_PostalAddress : PostalAddress
}.

Record PhysicalSecurity : Type := mkPhysicalSecurity {
  PhysicalSecurity_IntrusionSensor : string;
  PhysicalSecurity_IntrusionSensorNumber : Z;
  PhysicalSecurity_IntrusionSensorReArm : string
}.

Record Chassis : Type := mkChassis {
  Chassis_OdataContext : string;
  Chassis_OdataID : string;
  Chassis_OdataType : string;
  Chassis_Actions : ChassisActions;
  Chassis_Assembly : OdataID;
  Chassis_AssetTag : any;
  Chassis_ChassisType : string;
  Chassis_Description : string;
  Chassis_ID : string;
  Chassis_IndicatorLED : string;
  Chassis_Links : ChassisLinks;
  Chassis_Location : Location;
  Chassis_Manufacturer : string;
  Chassis_Model : string;
  Chassis_Name : string;
  Chassis_NetworkAdapters : OdataID;
  Chassis_PartNumber : string;
  Chassis_PhysicalSecurity : PhysicalSecurity;
  Chassis_Power : OdataID;
  Chassis_PowerState : PowerStatus;
  Chassis_SKU : string;
  Chassis_SerialNumber : string;
  Chassis_Status : MachineStatus;
  Chassis_Thermal : OdataID
}.

(** ** Resources *)

Definition serviceRootResponse : ServiceRoot :=
  {| ServiceRoot_OdataContext := "/redfish/v1/$metadata#ServiceRoot.ServiceRoot";
     ServiceRoot_OdataID := "/redfish/v1";
     ServiceRoot_OdataType := "#ServiceRoot.v1_3_0.ServiceRoot";
     ServiceRoot_AccountService := {| OdataID_OdataID := "/redfish/v1/Managers/Embedded.1/AccountService" |};
     ServiceRoot_Chassis := {| OdataID_OdataID := "/redfish/v1/Chassis" |};
     ServiceRoot_Description := "Root Service";
     ServiceRoot_EventService := {| OdataID_OdataID := "/redfish/v1/EventService" |};
     ServiceRoot_Fabrics := {| OdataID_OdataID := "/redfish/v1/Fabrics" |};
     ServiceRoot_ID := "RootService";
     ServiceRoot_JSONSchemas := {| OdataID_OdataID := "/redfish/v1/JSONSchemas" |};
     ServiceRoot_Links := {| ServiceRootLinks_Sessions := {| OdataID_OdataID := "/redfish/v1/Sessions" |} |};
     ServiceRoot_Managers := {| OdataID_OdataID := "/redfish/v1/Managers" |};
     ServiceRoot_Name := "Root Service";
     ServiceRoot_Oem := mkServiceRootOem;
     ServiceRoot_Product := "Placemat";
     ServiceRoot_ProtocolFeaturesSupported := {| ProtocolFeaturesSupported_ExpandQuery := {| ExpandQuery_ExpandAll := true;
           ExpandQuery_Levels := true;
           ExpandQuery_Links := true;
           ExpandQuery_MaxLevels := 1;
           ExpandQuery_NoLinks := true |};
        ProtocolFeaturesSupported_FilterQuery := true;
        ProtocolFeaturesSupported_SelectQuery := true |};
     ServiceRoot_RedfishVersion := "1.4.0";
     ServiceRoot_Registries := {| OdataID_OdataID := "/redfish/v1/Registries" |};
     ServiceRoot_SessionService := {| OdataID_OdataID := "/redfish/v1/SessionService" |};
     ServiceRoot_Systems := {| OdataID_OdataID := "/redfish/v1/Systems" |};
     ServiceRoot_Tasks := {| OdataID_OdataID := "/redfish/v1/TaskService" |};
     ServiceRoot_UpdateService := {| OdataID_OdataID := "/redfish/v1/UpdateService" |} |}.

Definition computerSystemCollectionResponse : ResourceCollection :=
  {| ResourceCollection_OdataContext := "/redfish/v1/$metadata#ComputerSystemCollection.ComputerSystemCollection";
     ResourceCollection_OdataID := "/redfish/v1/Systems";
     ResourceCollection_OdataType := "#ComputerSystemCollection.ComputerSystemCollection";
     ResourceCollection_Description := "Collection of Computer Systems";
     ResourceCollection_Members := [{| OdataID_OdataID := ("/redfish/v1/Systems/" ++ systemID)%string |}];
     ResourceCollection_MembersOdataCount := 1;
     ResourceCollection_Name := "Computer System Collection" |}.

Definition serverIsAlreadyPoweredOffResponse : ErrorResponse :=
  {| ErrorResponse_Error := {| Error_MessageExtendedInfo := [{| MessageExtendedInfo_Message := "Server is already powered OFF";
            MessageExtendedInfo_MessageArgs := [];
            MessageExtendedInfo_MessageArgsOdataCount := 0;
            MessageExtendedInfo_MessageID := "X.X.X";
            MessageExtendedInfo_RelatedProperties := [];
            MessageExtendedInfo_RelatedPropertiesOdataCount := 0;
            MessageExtendedInfo_Resolution := "No response action is required.";
            MessageExtendedInfo_Severity := "Informational" |}];
        Error_Code := "Base.X.X.GeneralError";
        Error_Message := "A general error has occurred. See ExtendedInfo for more information" |} |}.

Definition serverIsAlreadyPoweredOnResponse : ErrorResponse :=
  {| ErrorResponse_Error := {| Error_MessageExtendedInfo := [{| MessageExtendedInfo_Message := "Server is already powered ON";
            MessageExtendedInfo_MessageArgs := [];
            MessageExtendedInfo_MessageArgsOdataCount := 0;
            MessageExtendedInfo_MessageID := "X.X.X";
            MessageExtendedInfo_RelatedProperties := [];
            MessageExtendedInfo_RelatedPropertiesOdataCount := 0;
            MessageExtendedInfo_Resolution := "No response action is required.";
            MessageExtendedInfo_Severity := "Informational" |}];
        Error_Code := "Base.X.X.GeneralError";
        Error_Message := "A general error has occurred. See ExtendedInfo for more information" |} |}.

Definition createComputerSystemResponse (systemID : string) (powerState : PowerStatus) : ComputerSystem :=
  {| ComputerSystem_OdataContext := "/redfish/v1/$metadata#ComputerSystem.ComputerSystem";
     ComputerSystem_OdataID := ("/redfish/v1/Systems/" ++ systemID)%string;
     ComputerSystem_OdataType := "#ComputerSystem.v1_5_0.ComputerSystem";
     ComputerSystem_Actions := {| ComputerSystemActions_ComputerSystemReset := {| ComputerSystemReset_ResetTypeRedfishAllowableValues := [ResetTypeOn;
            ResetTypeForceOff;
            ResetTypeForceRestart;
            ResetTypeGracefulShutdown;
            ResetTypePushPowerButton;
            ResetTypeNmi];
           ComputerSystemReset_Target := ("/redfish/v1/Systems/" ++ systemID ++ "/Actions/ComputerSystem.Reset")%string |} |};
     ComputerSystem_AssetTag := "";
     ComputerSystem_Bios := {| OdataID_OdataID := ("/redfish/v1/Systems/" ++ systemID ++ "/Bios")%string |};
     ComputerSystem_BiosVersion := "X.X.X";
     ComputerSystem_Boot := {| Boot_BootOptions := {| OdataID_OdataID := ("/redfish/v1/Systems/" ++ systemID ++ "/BootOptions")%string |};
        Boot_BootOrder := ["Boot0000";
         "Boot0001"];
        Boot_BootOrderOdataCount := 2;
        Boot_BootSourceOverrideEnabled := "Once";
        Boot_BootSourceOverrideMode := "UEFI";
        Boot_BootSourceOverrideTarget := "None";
        Boot_BootSourceOverrideTargetRedfishAllowableValues := ["None";
         "Pxe";
         "Floppy";
         "Cd";
         "Hdd";
         "BiosSetup";
         "Utilities";
         "UefiTarget";
         "SDCard";
         "UefiHttp"];
        Boot_UefiTargetBootSourceOverride := "" |};
     ComputerSystem_Description := "Computer System which represents a machine (physical or virtual) and the local resources such as memory, cpu and other devices that can be accessed from that machine.";
     ComputerSystem_EthernetInterfaces := {| OdataID_OdataID := ("/redfish/v1/Systems/" ++ systemID ++ "/EthernetInterfaces")%string |};
     ComputerSystem_HostName := "";
     ComputerSystem_HostWatchdogTimer := {| HostWatchdogTimer_FunctionEnabled := false;
        HostWatchdogTimer_Status := {| Status_State := "Disabled" |};
        HostWatchdogTimer_TimeoutAction := "None" |};
     ComputerSystem_HostingRoles := [];
     ComputerSystem_HostingRolesOdataCount := 0;
     ComputerSystem_ID := systemID;
     ComputerSystem_IndicatorLED := "Off";
     ComputerSystem_Links := {| ComputerSystemLinks_Chassis := [{| OdataID_OdataID := ("/redfish/v1/Chassis/" ++ systemID)%string |}];
        ComputerSystemLinks_ChassisOdataCount := 1;
        ComputerSystemLinks_CooledBy := [{| OdataID_OdataID := ("/redfish/v1/Chassis/" ++ systemID ++ "/Sensors/Fans/Fan.Embedded.1A")%string |};
         {| OdataID_OdataID := ("/redfish/v1/Chassis/" ++ systemID ++ "/Sensors/Fans/Fan.Embedded.1B")%string |}];
        ComputerSystemLinks_CooledByOdataCount := 2;
        ComputerSystemLinks_ManagedBy := [{| OdataID_OdataID := "/redfish/v1/Managers/1" |}];
        ComputerSystemLinks_ManagedByOdataCount := 1;
        ComputerSystemLinks_Oem := mkComputerSystemLinksOem;
        ComputerSystemLinks_PoweredBy := [{| OdataID_OdataID := ("/redfish/v1/Chassis/" ++ systemID ++ "/Power/PowerSupplies/PSU.Slot.1")%string |}];
        ComputerSystemLinks_PoweredByOdataCount := 1 |};
     ComputerSystem_Manufacturer := "Placemat";
     ComputerSystem_Memory := {| OdataID_OdataID := ("/redfish/v1/Systems/" ++ systemID ++ "/Memory")%string |};
     ComputerSystem_MemorySummary := {| MemorySummary_MemoryMirroring := "System";
        MemorySummary_Status := {| MachineStatus_Health := "OK";
           MachineStatus_HealthRollup := "OK";
           MachineStatus_State := "Enabled" |};
        MemorySummary_TotalSystemMemoryGiB := 300 |};
     ComputerSystem_Model := "XXX";
     ComputerSystem_Name := "System";
     ComputerSystem_NetworkInterfaces := {| OdataID_OdataID := ("/redfish/v1/Systems/" ++ systemID ++ "/NetworkInterfaces")%string |};
     ComputerSystem_Oem := mkComputerSystemOem;
     ComputerSystem_PCIeDevices := [{| OdataID_OdataID := ("/redfish/v1/Systems/" ++ systemID ++ "/PCIeDevice/0-31")%string |}];
     ComputerSystem_PCIeDevicesOdataCount := 1;
     ComputerSystem_PCIeFunctions := [{| OdataID_OdataID := ("/redfish/v1/Systems/" ++ systemID ++ "/PCIeFunction/0-31-4")%string |}];
     ComputerSystem_PCIeFunctionsOdataCount := 1;
     ComputerSystem_PartNumber := "XXXX";
     ComputerSystem_PowerState := powerState;
     ComputerSystem_ProcessorSummary := {| ProcessorSummary_Count := 2;
        ProcessorSummary_LogicalProcessorCount := 28;
        ProcessorSummary_Model := "XXXX";
        ProcessorSummary_Status := {| MachineStatus_Health := "OK";
           MachineStatus_HealthRollup := "OK";
           MachineStatus_State := "Enabled" |} |};
     ComputerSystem_Processors := {| OdataID_OdataID := ("/redfish/v1/Systems/" ++ systemID ++ "/Processors")%string |};
     ComputerSystem_SKU := "XXXX";
     ComputerSystem_SecureBoot := {| OdataID_OdataID := ("/redfish/v1/Systems/" ++ systemID ++ "/SecureBoot")%string |};
     ComputerSystem_SerialNumber := "XXXX";
     ComputerSystem_SimpleStorage := {| OdataID_OdataID := ("/redfish/v1/Systems/" ++ systemID ++ "/SimpleStorage/Controllers")%string |};
     ComputerSystem_Status := {| MachineStatus_Health := "OK";
        MachineStatus_HealthRollup := "OK";
        MachineStatus_State := "Enabled" |};
     ComputerSystem_Storage := {| OdataID_OdataID := ("/redfish/v1/Systems/" ++ systemID ++ "/Storage")%string |};
     ComputerSystem_SystemType := "Virtual";
     ComputerSystem_TrustedModules := [{| TrustedModule_FirmwareVersion := "X.X.X.X";
         TrustedModule_InterfaceType := "TPM2_0";
         TrustedModule_Status := {| Status_State := "Enabled" |} |}];
     ComputerSystem_UUID := "XXXX" |}.

Definition chassisCollectionResponse : ResourceCollection :=
  {| ResourceCollection_OdataContext := "/redfish/v1/$metadata#ChassisCollection.ChassisCollection";
     ResourceCollection_OdataID := "/redfish/v1/Chassis/";
     ResourceCollection_OdataType := "#ChassisCollection.ChassisCollection";
     ResourceCollection_Description := "Collection of Chassis";
     ResourceCollection_Members := [{| OdataID_OdataID := ("/redfish/v1/Chassis/" ++ systemID)%string |}];
     ResourceCollection_MembersOdataCount := 1;
     ResourceCollection_Name := "Chassis Collection" |}.

Definition createChassisResponse (chassisID : string) (powerState : PowerStatus) : Chassis :=
  {| Chassis_OdataContext := "/redfish/v1/$metadata#Chassis.Chassis";
     Chassis_OdataID := ("/redfish/v1/Chassis/" ++ chassisID)%string;
     Chassis_OdataType := "#Chassis.v1_6_0.Chassis";
     Chassis_Actions := {| ChassisActions_ChassisReset := {| ChassisReset_ResetTypeRedfishAllowableValues := [ResetTypeOn;
            ResetTypeForceOff];
           ChassisReset_Target := ("/redfish/v1/Chassis/" ++ chassisID ++ "/Actions/Chassis.Reset")%string |} |};
     Chassis_Assembly := {| OdataID_OdataID := ("/redfish/v1/Chassis/" ++ chassisID ++ "/Assembly")%string |};
     Chassis_AssetTag := anil;
     Chassis_ChassisType := "RackMount";
     Chassis_Description := "It represents the properties for physical components for any system.It represent racks, rackmount servers, blades, standalone, modular systems,enclosures, and all other containers.The non-cpu/device centric parts of the schema are all accessed either directly or indirectly through this resource.";
     Chassis_ID := chassisID;
     Chassis_IndicatorLED := "Off";
     Chassis_Links := {| ChassisLinks_ComputerSystems := [{| OdataID_OdataID := ("/redfish/v1/Systems/" ++ chassisID)%string |}];
        ChassisLinks_ComputerSystemsOdataCount := 1;
        ChassisLinks_Contains := [];
        ChassisLinks_ContainsOdataCount := 0;
        ChassisLinks_CooledBy := [{| OdataID_OdataID := ("/redfish/v1/Chassis/" ++ chassisID ++ "/Sensors/Fans/1A")%string |};
         {| OdataID_OdataID := ("/redfish/v1/Chassis/" ++ chassisID ++ "/Sensors/Fans/1B")%string |}];
        ChassisLinks_CooledByOdataCount := 2;
        ChassisLinks_Drives := [];
        ChassisLinks_DrivesOdataCount := 0;
        ChassisLinks_ManagedBy := [{| OdataID_OdataID := "/redfish/v1/Managers/1" |}];
        ChassisLinks_ManagedByOdataCount := 1;
        ChassisLinks_ManagersInChassis := [{| OdataID_OdataID := "/redfish/v1/Managers/1" |}];
        ChassisLinks_ManagersInChassisOdataCount := 1;
        ChassisLinks_PCIeDevices := [{| OdataID_OdataID := ("/redfish/v1/Systems/" ++ chassisID ++ "/PCIeDevice/0-31")%string |}];
        ChassisLinks_PCIeDevicesOdataCount := 1;
        ChassisLinks_PoweredBy := [{| OdataID_OdataID := ("/redfish/v1/Chassis/" ++ chassisID ++ "/Power/PowerSupplies/PSU.Slot.1")%string |}];
        ChassisLinks_PoweredByOdataCount := 1;
        ChassisLinks_Storage := [{| OdataID_OdataID := ("/redfish/v1/Systems/" ++ chassisID ++ "/Storage/CPU.1")%string |}];
        ChassisLinks_StorageOdataCount := 1 |};
     Chassis_Location := {| Location_Info := ";;;;1";
        Location_InfoFormat := "DataCenter;RoomName;Aisle;RackName;RackSlot";
        Location_Placement := {| Placemat_Rack := "";
           Placemat_Row := "" |};
        Location_PostalAddress := {| PostalAddress_Building := "";
           PostalAddress_Room := "" |} |};
     Chassis_Manufacturer := "Placemat Inc.";
     Chassis_Model := "Placemat XXX";
     Chassis_Name := "Computer System Chassis";
     Chassis_NetworkAdapters := {| OdataID_OdataID := ("/redfish/v1/Systems/" ++ chassisID ++ "/NetworkAdapters")%string |};
     Chassis_PartNumber := "0000";
     Chassis_PhysicalSecurity := {| PhysicalSecurity_IntrusionSensor := "XXX";
        PhysicalSecurity_IntrusionSensorNumber := 111;
        PhysicalSecurity_IntrusionSensorReArm := "XXX" |};
     Chassis_Power := {| OdataID_OdataID := ("/redfish/v1/Chassis/" ++ chassisID ++ "/Power")%string |};
     Chassis_PowerState := powerState;
     Chassis_SKU := "XXXXXX";
     Chassis_SerialNumber := "XXXXXX";
     Chassis_Status := {| MachineStatus_Health := "OK";
        MachineStatus_HealthRollup := "OK";
        MachineStatus_State := "Enabled" |};
     Chassis_Thermal := {| OdataID_OdataID := ("/redfish/v1/Chassis/" ++ chassisID ++ "/Thermal")%string |} |}.

Definition createChassisNotFoundErrorResponse (chassisID : string) : ErrorResponse :=
  {| ErrorResponse_Error := {| Error_MessageExtendedInfo := [{| MessageExtendedInfo_Message := ("Unable to complete the operation because the resource " ++ chassisID ++ " entered in not found.")%string;
            MessageExtendedInfo_MessageArgs := [chassisID];
            MessageExtendedInfo_MessageArgsOdataCount := 1;
            MessageExtendedInfo_MessageID := "X.X.X";
            MessageExtendedInfo_RelatedProperties := [];
            MessageExtendedInfo_RelatedPropertiesOdataCount := 0;
            MessageExtendedInfo_Resolution := "Enter the correct resource and retry the operation. For information about valid resource, see the Redfish Users Guide available on the support site.";
            MessageExtendedInfo_Severity := "Critical" |};
         {| MessageExtendedInfo_Message := ("The resource at the URI " ++ chassisID ++ " was not found.")%string;
            MessageExtendedInfo_MessageArgs := [chassisID];
            MessageExtendedInfo_MessageArgsOdataCount := 1;
            MessageExtendedInfo_MessageID := "Base.X.X.ResourceMissingAtURI";
            MessageExtendedInfo_RelatedProperties := [astr ""];
            MessageExtendedInfo_RelatedPropertiesOdataCount := 1;
            MessageExtendedInfo_Resolution := "Place a valid resource at the URI or correct the URI and resubmit the request.";
            MessageExtendedInfo_Severity := "Critical" |}];
        Error_Code := "Base.X.X.GeneralError";
        Error_Message := "A general error has occurred. See ExtendedInfo for more information" |} |}.
