(* ===== verification/Redfish.v ===== *)
(** * The Redfish server (redfish*.go, bmc_server.go)

    The handlers of the Redfish service over the machine, and the route table of
    [prepareRouter].  The gin framework (routing, basic authentication, JSON
    binding) is the parameter [GinOps]. *)

From S2P Require Import Prelude GoBinary GoCrypto Machine Session Ipmi RedfishTypes.

Local Open Scope Z_scope.
Local Open Scope go_scope.

(** ** Replies *)

Definition StatusOK : Z := 200.
Definition StatusNoContent : Z := 204.
Definition StatusMovedPermanently : Z := 301.
Definition StatusTemporaryRedirect : Z := 307.
Definition StatusBadRequest : Z := 400.
Definition StatusUnauthorized : Z := 401.
Definition StatusNotFound : Z := 404.
Definition StatusConflict : Z := 409.
Definition StatusInternalServerError : Z := 500.

(** The second argument of [c.JSON]; [FromGin] is a reply gin itself writes. *)
Inductive body : Type :=
| JNull
| JServiceRoot (r : ServiceRoot)
| JCollection (r : ResourceCollection)
| JSystem (r : ComputerSystem)
| JChassis (r : Chassis)
| JErrorResponse (r : ErrorResponse)
| JErrorText (msg : string)
| FromGin.

Definition reply : Type := Z * body.

(** ** Handlers *)

Record redfishServer : Type := { systemIDs : gset string }.

Definition newRedfishServer : redfishServer := {| systemIDs := {[ systemID ]} |}.

Section Handlers.
Context {M : Type} `{!Machine M}.

Definition json (status : Z) (b : body) : st M reply := sret (status, b).

Definition handleServiceRoot : st M reply := json StatusOK (JServiceRoot serviceRootResponse).

Definition handleComputerSystemCollection : st M reply :=
  json StatusOK (JCollection computerSystemCollectionResponse).

Definition handleChassisCollection : st M reply :=
  json StatusOK (JCollection chassisCollectionResponse).

Definition handleComputerSystem (r : redfishServer) (id : string) : st M reply :=
  if negb (bool_decide (id ∈ systemIDs r)) then json StatusNotFound JNull
  else
    let* status := stry machine_PowerStatus in
    match status with
    | inr _ => json StatusInternalServerError JNull
    | inl status => json StatusOK (JSystem (createComputerSystemResponse id status))
    end.

Definition handleChassis (r : redfishServer) (id : string) : st M reply :=
  if negb (bool_decide (id ∈ systemIDs r))
  then json StatusNotFound (JErrorResponse (createChassisNotFoundErrorResponse id))
  else
    let* status := stry machine_PowerStatus in
    match status with
    | inr _ => json StatusInternalServerError JNull
    | inl status => json StatusOK (JChassis (createChassisResponse id status))
    end.

(** [if err := m(); err != nil { 500 with the error; return }] *)
Definition power_op (m : st M unit) (next : st M reply) : st M reply :=
  let* r := stry m in
  match r with
  | inr err => json StatusInternalServerError (JErrorText (error_Error err))
  | inl _ => next
  end.

(** The status query at the head of a case: 500 if it fails, the conflict reply if
    the machine is already there. *)
Definition power_case (already : PowerStatus -> bool) (conflict : body) (next : st M reply)
  : st M reply :=
  let* r := stry machine_PowerStatus in
  match r with
  | inr _ => json StatusInternalServerError JNull
  | inl powerStatus => if already powerStatus then json StatusConflict conflict else next
  end.

Definition handleComputerSystemActionsReset (bound : RequestBody + error) : st M reply :=
  match bound with
  | inr err => json StatusBadRequest (JErrorText (error_Error err))
  | inl req =>
      let resetType := RequestBody_ResetType req in
      let done := json StatusNoContent JNull in
      if String.eqb resetType ResetTypeOn then
        power_case powered_on (JErrorResponse serverIsAlreadyPoweredOnResponse)
          (power_op machine_PowerOn done)
      else if String.eqb resetType ResetTypeForceOff then
        power_case powered_off (JErrorResponse serverIsAlreadyPoweredOffResponse)
          (power_op machine_PowerOff done)
      else if String.eqb resetType ResetTypeGracefulShutdown then
        power_case powered_off (JErrorResponse serverIsAlreadyPoweredOffResponse)
          (power_op machine_PowerOff done)
      else if String.eqb resetType ResetTypeForceRestart then
        power_case powered_off (JErrorResponse serverIsAlreadyPoweredOffResponse)
          (power_op machine_PowerOff (power_op machine_PowerOn done))
      else done
  end.

Definition handleChassisActionsReset (bound : RequestBody + error) : st M reply :=
  match bound with
  | inr err => json StatusBadRequest (JErrorText (error_Error err))
  | inl req =>
      let resetType := RequestBody_ResetType req in
      let done := json StatusNoContent JNull in
      if negb (String.eqb resetType ResetTypeOn) && negb (String.eqb resetType ResetTypeForceOff)
      then json StatusBadRequest (JErrorText "")
      else if String.eqb resetType ResetTypeOn then
        power_case powered_on JNull (power_op machine_PowerOn done)
      else
        power_case powered_off JNull (power_op machine_PowerOff done)
  end.

(** ** Routes *)

Inductive handler : Type :=
| HNull
| HServiceRoot
| HChassisCollection
| HChassis
| HChassisActionsReset
| HComputerSystemCollection
| HComputerSystem
| HComputerSystemActionsReset.

Record route : Type := Route {
  rt_method : string;
  rt_path : string;
  rt_authorized : bool;
  rt_handler : handler
}.

Definition accounts : list (string * string) := [("cybozu", "cybozu")].

Definition prepareRouter : list route :=
  [ Route "GET" "/" false HNull;
    Route "GET" "redfish/v1" false HServiceRoot;
    Route "GET" "redfish/v1/" false HServiceRoot;
    Route "GET" "redfish/v1/Chassis" true HChassisCollection;
    Route "GET" "redfish/v1/Chassis/:id" true HChassis;
    Route "POST" "redfish/v1/Chassis/:id/Actions/Chassis.Reset" true HChassisActionsReset;
    Route "GET" "redfish/v1/Systems" true HComputerSystemCollection;
    Route "GET" "redfish/v1/Systems/:id" true HComputerSystem;
    Route "POST" "redfish/v1/Systems/:id/Actions/ComputerSystem.Reset" true
      HComputerSystemActionsReset ].

(** What gin does with a request: the route it matches with the value of [:id]; when
    there is none, whether another path with or without a slash at the end has one
    ([RedirectTrailingSlash], on by default); whether the credentials are among the
    accounts; the method; and the JSON body. *)
Class GinOps (Req : Type) : Type := {
  gin_match : list route -> Req -> option (route * string);
  gin_redirects : list route -> Req -> bool;
  gin_Method : Req -> string;
  gin_BasicAuth : list (string * string) -> Req -> bool;
  gin_ShouldBindJSON : Req -> RequestBody + error
}.

Definition run_handler {Req : Type} `{!GinOps Req} (h : handler) (id : string) (req : Req)
  : st M reply :=
  match h with
  | HNull => json StatusOK JNull
  | HServiceRoot => handleServiceRoot
  | HChassisCollection => handleChassisCollection
  | HChassis => handleChassis newRedfishServer id
  | HChassisActionsReset => handleChassisActionsReset (gin_ShouldBindJSON req)
  | HComputerSystemCollection => handleComputerSystemCollection
  | HComputerSystem => handleComputerSystem newRedfishServer id
  | HComputerSystemActionsReset => handleComputerSystemActionsReset (gin_ShouldBindJSON req)
  end.

(** Serving one request: no route, no authorization, or the handler.  Without a route gin
    redirects to the path that has one, with 301 for GET and 307 otherwise. *)
Definition redfish_serve {Req : Type} `{!GinOps Req} (req : Req) : st M reply :=
  match gin_match prepareRouter req with
  | None =>
      if gin_redirects prepareRouter req
      then json (if String.eqb (gin_Method req) "GET" then StatusMovedPermanently else StatusTemporaryRedirect)
             FromGin
      else json StatusNotFound FromGin
  | Some (r, id) =>
      if rt_authorized r && negb (gin_BasicAuth accounts req)
      then json StatusUnauthorized FromGin
      else run_handler (rt_handler r) id req
  end.

End Handlers.

(** ** Specification *)

(** The power request of a ComputerSystem reset. *)
Definition reset_request (rt : ResetType) : Power.request :=
  if String.eqb rt ResetTypeOn then Power.PowerUp
  else if String.eqb rt ResetTypeForceOff then Power.PowerDown
  else if String.eqb rt ResetTypeGracefulShutdown then Power.PowerDown
  else if String.eqb rt ResetTypeForceRestart then Power.PowerCycle
  else Power.NoChange.

Definition accepted (r : reply) : bool := r.1 =? StatusNoContent.

(** A route's path with its [:id] filled in. *)
Fixpoint fill_id (path id : string) : string :=
  match path with
  | EmptyString => EmptyString
  | String c rest =>
      if String.prefix ":id" path then (id ++ String.substring 3 (String.length path - 3) path)%string
      else String c (fill_id rest id)
  end.

(** ** Lemmas *)

Section Lemmas.
Context {M : Type} `{ReliableMachine M}.

(** A power operation of a reliable machine goes on with the next step. *)
Lemma power_op_on next m :
  is_on m = false -> exists m', power_op machine_PowerOn next m = next m' /\ is_on m' = true.
Proof.
  intros Hm. destruct (on_reliable m Hm) as (m' & E & Hon). exists m'. split; [|done].
  unfold power_op, sbind, stry. by rewrite E.
Qed.

Lemma power_op_off next m :
  is_on m = true -> exists m', power_op machine_PowerOff next m = next m' /\ is_on m' = false.
Proof.
  intros Hm. destruct (off_reliable m Hm) as (m' & E & Hon). exists m'. split; [|done].
  unfold power_op, sbind, stry. by rewrite E.
Qed.

(** A case's head: the conflict reply, or the next step. *)
Lemma power_case_eq already conflict next m :
  exists m', is_on m' = is_on m /\
    power_case already conflict next m =
    if already (if is_on m then PowerStatusOn else PowerStatusOff)
    then (Ok (StatusConflict, conflict), m') else next m'.
Proof.
  destruct (status_reliable m) as (m' & E & Hon). exists m'. split; [done|].
  unfold power_case, sbind, stry. rewrite E. by destruct (already _).
Qed.

(** The three shapes of a case implement the three power requests. *)
Lemma power_up_case conflict :
  Power.implements accepted
    (power_case powered_on conflict (power_op machine_PowerOn (json StatusNoContent JNull)))
    Power.PowerUp.
Proof.
  intros m. destruct (power_case_eq powered_on conflict
    (power_op machine_PowerOn (json StatusNoContent JNull)) m) as (m1 & Hon & E).
  rewrite powered_on_status in E. destruct (is_on m) eqn:Em.
  - eexists _, _. split; [exact E|]. by rewrite Hon.
  - destruct (power_op_on (json StatusNoContent JNull) m1 Hon) as (m2 & E2 & Hon2).
    rewrite E2 in E. eexists _, _. split; [exact E|]. done.
Qed.

Lemma power_down_case conflict :
  Power.implements accepted
    (power_case powered_off conflict (power_op machine_PowerOff (json StatusNoContent JNull)))
    Power.PowerDown.
Proof.
  intros m. destruct (power_case_eq powered_off conflict
    (power_op machine_PowerOff (json StatusNoContent JNull)) m) as (m1 & Hon & E).
  rewrite powered_off_status in E. destruct (is_on m) eqn:Em; cbn [negb] in E.
  - destruct (power_op_off (json StatusNoContent JNull) m1 Hon) as (m2 & E2 & Hon2).
    rewrite E2 in E. eexists _, _. split; [exact E|]. done.
  - eexists _, _. split; [exact E|]. by rewrite Hon.
Qed.

Lemma power_cycle_case conflict :
  Power.implements accepted
    (power_case powered_off conflict
       (power_op machine_PowerOff (power_op machine_PowerOn (json StatusNoContent JNull))))
    Power.PowerCycle.
Proof.
  intros m. destruct (power_case_eq powered_off conflict
    (power_op machine_PowerOff (power_op machine_PowerOn (json StatusNoContent JNull))) m)
    as (m1 & Hon & E).
  rewrite powered_off_status in E. destruct (is_on m) eqn:Em; cbn [negb] in E.
  - destruct (power_op_off (power_op machine_PowerOn (json StatusNoContent JNull)) m1 Hon)
      as (m2 & E2 & Hon2).
    destruct (power_op_on (json StatusNoContent JNull) m2 Hon2) as (m3 & E3 & Hon3).
    rewrite E2, E3 in E. eexists _, _. split; [exact E|]. done.
  - eexists _, _. split; [exact E|]. by rewrite Hon.
Qed.

Lemma system_reset_implements rt :
  Power.implements accepted (handleComputerSystemActionsReset (inl (mkRequestBody rt)))
    (reset_request rt).
Proof.
  unfold handleComputerSystemActionsReset, reset_request. cbn [RequestBody_ResetType].
  repeat match goal with |- context [String.eqb rt ?x] => destruct (String.eqb rt x) end.
  - apply power_up_case.
  - apply power_down_case.
  - apply power_down_case.
  - apply power_cycle_case.
  - intros m. eexists _, m. split; [reflexivity|]. done.
Qed.

Lemma system_get_eq m :
  exists m', is_on m' = is_on m /\
    handleComputerSystem newRedfishServer systemID m =
    (Ok (StatusOK, JSystem (createComputerSystemResponse systemID
           (if is_on m then PowerStatusOn else PowerStatusOff))), m').
Proof.
  destruct (status_reliable m) as (m' & E & Hon). exists m'. split; [done|].
  unfold handleComputerSystem, sbind, stry.
  rewrite bool_decide_true by (cbn; set_solver). cbn [negb]. by rewrite E.
Qed.

Lemma chassis_get_eq m :
  exists m', is_on m' = is_on m /\
    handleChassis newRedfishServer systemID m =
    (Ok (StatusOK, JChassis (createChassisResponse systemID
           (if is_on m then PowerStatusOn else PowerStatusOff))), m').
Proof.
  destruct (status_reliable m) as (m' & E & Hon). exists m'. split; [done|].
  unfold handleChassis, sbind, stry.
  rewrite bool_decide_true by (cbn; set_solver). cbn [negb]. by rewrite E.
Qed.

End Lemmas.

(** ** Properties *)

(** C12: a ComputerSystem reset implements the abstract power specification on
    every reliable machine, for every reset type a request can carry: 204 and the
    prescribed power state, or a refusal that changes nothing. *)
Theorem redfish_system_reset_refines {M : Type} `{ReliableMachine M} (rt : ResetType) :
  Power.implements accepted (handleComputerSystemActionsReset (inl (mkRequestBody rt)))
    (reset_request rt).
Proof. apply system_reset_implements. Qed.

(** C13: the Redfish and the IPMI front ends agree.  If a reset type and a chassis
    control ask for the same thing, then on the same machine the ComputerSystem
    reset answers 204 exactly when the IPMI command's completion code is 0x00, and
    both leave the machine in the same power state. *)
Theorem redfish_agrees_with_ipmi {M : Type} `{ReliableMachine M} (rt : ResetType)
  (msg : ipmiMessage) (c : Z) (rest : list Z) (m : M) (ss : gmap Z rmcpPlusSession) (n : nat) :
  msg_wf msg = true -> netFunction msg = ipmiNetFNChassis ->
  m_Command msg = ipmiCmdChassisControl -> m_Data msg = c :: rest ->
  reset_request rt = control_request c ->
  exists r m1 resp b2,
    handleComputerSystemActionsReset (inl (mkRequestBody rt)) m = (Ok r, m1) /\
    ipmi_handle msg (Bmc ss n m) = (Ok resp, b2) /\
    accepted r = (nth 6 resp 0xff =? completionCodeOK) /\ is_on m1 = is_on (machine b2).
Proof.
  intros Hwf Hfn Hcmd Hdata Hreq.
  destruct (system_reset_implements rt m) as (r & m1 & E1 & H1).
  destruct (chassis_control_implements (M := M) msg c rest Hwf Hfn Hcmd Hdata (Bmc ss n m))
    as (resp & b2 & E2 & H2).
  exists r, m1, resp, b2. split; [done|]. split; [done|].
  change (is_on (Bmc ss n m)) with (is_on m) in H2. change (is_on b2) with (is_on (machine b2)) in H2.
  rewrite <- Hreq in H2. destruct (Power.answer (reset_request rt) (is_on m));
    destruct H1 as [-> ->], H2 as [-> ->]; done.
Qed.

Lemma redfish_agrees_with_ipmi_witness :
  exists r m1 resp b2,
    handleComputerSystemActionsReset (inl (mkRequestBody ResetTypeOn)) {| tsm_on := false |} =
      (Ok r, m1) /\
    ipmi_handle power_up_msg (mock_bmc false) = (Ok resp, b2) /\
    accepted r = (nth 6 resp 0xff =? completionCodeOK) /\ is_on m1 = is_on (machine b2).
Proof.
  exact (redfish_agrees_with_ipmi ResetTypeOn power_up_msg 1 [] {| tsm_on := false |} ∅ 0
    eq_refl eq_refl eq_refl eq_refl eq_refl).
Defined.

(** The Chassis reset takes exactly On and ForceOff, which implement power up
    and power down; any other reset type, and a body that does not bind, is a bad
    request that does not touch the machine. *)
Theorem redfish_chassis_reset_refines {M : Type} `{ReliableMachine M} :
  Power.implements accepted
    (handleChassisActionsReset (inl (mkRequestBody ResetTypeOn))) Power.PowerUp /\
  Power.implements accepted
    (handleChassisActionsReset (inl (mkRequestBody ResetTypeForceOff))) Power.PowerDown /\
  (forall rt m, rt ∉ [ResetTypeOn; ResetTypeForceOff] ->
     handleChassisActionsReset (inl (mkRequestBody rt)) m =
     (Ok (StatusBadRequest, JErrorText ""), m)) /\
  (forall err m, handleChassisActionsReset (inr err) m =
     (Ok (StatusBadRequest, JErrorText (error_Error err)), m)).
Proof.
  split_and!.
  - apply power_up_case.
  - apply power_down_case.
  - intros rt m Hrt. unfold handleChassisActionsReset. cbn [RequestBody_ResetType].
    destruct (String.eqb_spec rt ResetTypeOn) as [->|]; [exfalso; apply Hrt; set_solver|].
    destruct (String.eqb_spec rt ResetTypeForceOff) as [->|]; [exfalso; apply Hrt; set_solver|].
    done.
  - done.
Qed.

(** Reading back.  After any ComputerSystem reset of a reliable machine, the
    ComputerSystem and the Chassis resource both report the power state the
    specification prescribes, and reading does not change it. *)
Theorem redfish_reset_then_get {M : Type} `{ReliableMachine M} (rt : ResetType) (m : M) :
  let on' := match Power.answer (reset_request rt) (is_on m) with
             | Some b => b
             | None => is_on m
             end in
  exists r sys ch m1 m2 m3,
    handleComputerSystemActionsReset (inl (mkRequestBody rt)) m = (Ok r, m1) /\
    handleComputerSystem newRedfishServer systemID m1 = (Ok (StatusOK, JSystem sys), m2) /\
    handleChassis newRedfishServer systemID m2 = (Ok (StatusOK, JChassis ch), m3) /\
    PowerStatus_string (ComputerSystem_PowerState sys) = (if on' then "On" else "Off") /\
    Chassis_PowerState ch = ComputerSystem_PowerState sys /\ is_on m3 = on'.
Proof.
  intros on'. destruct (system_reset_implements rt m) as (r & m1 & E1 & H1).
  assert (Hon1 : is_on m1 = on')
    by (unfold on'; destruct (Power.answer _ _); by destruct H1 as [_ ->]).
  destruct (system_get_eq m1) as (m2 & Hon2 & E2). destruct (chassis_get_eq m2) as (m3 & Hon3 & E3).
  eexists r, _, _, m1, m2, m3. split; [done|]. split; [exact E2|]. split; [exact E3|].
  cbn [createComputerSystemResponse createChassisResponse ComputerSystem_PowerState
    Chassis_PowerState]. rewrite Hon3, Hon2, Hon1. by destruct on'.
Qed.

(** Machines that fail.  On any machine, if the status query fails, both reset
    handlers answer 500 without attempting a power operation, for every reset type
    that acts; and both resources answer 404 for an unknown identifier without
    querying the machine. *)
Theorem redfish_failures {M : Type} `{!Machine M} (m m' : M) (e : error) :
  machine_PowerStatus m = (Err e, m') ->
  (forall rt, reset_request rt <> Power.NoChange ->
     handleComputerSystemActionsReset (inl (mkRequestBody rt)) m =
     (Ok (StatusInternalServerError, JNull), m')) /\
  (forall rt, rt ∈ [ResetTypeOn; ResetTypeForceOff] ->
     handleChassisActionsReset (inl (mkRequestBody rt)) m =
     (Ok (StatusInternalServerError, JNull), m')) /\
  (forall id, id <> systemID ->
     (handleComputerSystem newRedfishServer id m = (Ok (StatusNotFound, JNull), m)) /\
     (handleChassis newRedfishServer id m =
      (Ok (StatusNotFound, JErrorResponse (createChassisNotFoundErrorResponse id)), m))).
Proof.
  intros E.
  assert (Hcase : forall already conflict next,
    power_case already conflict next m = (Ok (StatusInternalServerError, JNull), m')).
  { intros. unfold power_case, sbind, stry. by rewrite E. }
  split_and!.
  - intros rt Hrt. unfold handleComputerSystemActionsReset, reset_request in *.
    cbn [RequestBody_ResetType].
    repeat match goal with |- context [String.eqb rt ?x] => destruct (String.eqb rt x) end;
      rewrite ?Hcase; done.
  - intros rt Hrt. unfold handleChassisActionsReset. cbn [RequestBody_ResetType].
    repeat (apply elem_of_cons in Hrt as [->|Hrt]; [cbn; apply Hcase|]).
    by apply not_elem_of_nil in Hrt.
  - intros id Hid. unfold handleComputerSystem, handleChassis.
    rewrite bool_decide_false by (cbn; set_solver). done.
Qed.

(** A machine that cannot tell its status. *)
Record BrokenMock : Type := Broken { broken_on : bool }.

#[export] Instance BrokenMock_Machine : Machine BrokenMock := {|
  machine_PowerStatus := fun v => (Err (errors_New "broken"), v);
  machine_PowerOn := fun _ => (Ok tt, Broken true);
  machine_PowerOff := fun _ => (Ok tt, Broken false)
|}.

Lemma redfish_failures_witness :
  handleComputerSystemActionsReset (inl (mkRequestBody ResetTypeForceOff)) (Broken true) =
    (Ok (StatusInternalServerError, JNull), Broken true).
Proof.
  apply (@redfish_failures BrokenMock BrokenMock_Machine (Broken true) (Broken true)
    (errors_New "broken") eq_refl).
  discriminate.
Defined.

(** ** Authorization *)

(** gin answers from the table it was given. *)
Definition gin_matches_table {Req : Type} `{!GinOps Req} : Prop :=
  forall req r id, gin_match prepareRouter req = Some (r, id) -> r ∈ prepareRouter.

(** C14: nothing but the service root without credentials.  A request whose
    credentials are not the account's leaves the machine as it was, and is answered
    by the root, the service root, 401 or, when no route matches it, 404 or gin's redirect
    to the path with or without a slash at the end. *)
Theorem redfish_needs_authorization {Req M : Type} `{!GinOps Req} `{!Machine M} (req : Req)
  (m : M) :
  gin_matches_table (Req := Req) -> gin_BasicAuth accounts req = false ->
  exists r, redfish_serve req m = (Ok r, m) /\
    (r = (StatusOK, JNull) \/ r = (StatusOK, JServiceRoot serviceRootResponse) \/
     r = (StatusUnauthorized, FromGin) \/
     (gin_match prepareRouter req = None /\
      (r = (StatusNotFound, FromGin) \/
       (gin_redirects prepareRouter req = true /\
        (r = (StatusMovedPermanently, FromGin) \/ r = (StatusTemporaryRedirect, FromGin)))))).
Proof.
  intros Htab Hauth. unfold redfish_serve.
  destruct (gin_match prepareRouter req) as [[r id]|] eqn:E.
  2:{ destruct (gin_redirects prepareRouter req); [destruct (String.eqb (gin_Method req) "GET")|];
        eexists; (split; [reflexivity|]); right; right; right; auto. }
  apply Htab in E. rewrite Hauth. unfold prepareRouter in E.
  repeat (apply elem_of_cons in E as [->|E]; [cbn; by eauto 10|]).
  by apply not_elem_of_nil in E.
Qed.

(** A request as the demonstrations need it, with exact routes. *)
Record simple_request : Type := SimpleRequest {
  sr_method : string;
  sr_path : string;
  sr_auth : option (string * string);
  sr_reset : string
}.

(** Does a path match a route, and with which identifier? *)
Definition simple_match (rq : simple_request) (r : route) : option string :=
  if String.eqb (sr_method rq) (rt_method r) then
    if String.eqb (sr_path rq) ("/" ++ rt_path r) then Some ""
    else if String.eqb (sr_path rq) ("/" ++ fill_id (rt_path r) systemID) then Some systemID
    else None
  else None.

Definition simple_route (table : list route) (rq : simple_request) : option (route * string) :=
  foldr (fun r k => match simple_match rq r with Some id => Some (r, id) | None => k end) None table.

#[export] Instance simple_gin : GinOps simple_request := {|
  gin_match := simple_route;
  gin_redirects := fun table rq =>
    match simple_route table (SimpleRequest (sr_method rq) (sr_path rq ++ "/") (sr_auth rq) (sr_reset rq)) with
    | Some _ => true
    | None => false
    end;
  gin_Method := sr_method;
  gin_BasicAuth := fun accs rq => match sr_auth rq with
                                  | Some cred => bool_decide (cred ∈ accs)
                                  | None => false
                                  end;
  gin_ShouldBindJSON := fun rq => inl (mkRequestBody (sr_reset rq))
|}.

Lemma simple_route_in table rq r id : simple_route table rq = Some (r, id) -> r ∈ table.
Proof.
  induction table as [|x table IH]; cbn [simple_route foldr]; [done|].
  destruct (simple_match rq x); [|intros E; right; by apply IH].
  intros [= -> _]. left.
Qed.

Lemma simple_gin_matches_table : gin_matches_table (Req := simple_request).
Proof. intros req r id. apply simple_route_in. Qed.

(** A reset request without credentials. *)
Definition anonymous_reset : simple_request :=
  SimpleRequest "POST" "/redfish/v1/Systems/System.Embedded.1/Actions/ComputerSystem.Reset"
    None "ForceOff".

Lemma redfish_needs_authorization_witness :
  exists r, redfish_serve anonymous_reset {| tsm_on := true |} = (Ok r, {| tsm_on := true |}) /\
    (r = (StatusOK, JNull) \/ r = (StatusOK, JServiceRoot serviceRootResponse) \/
     r = (StatusUnauthorized, FromGin)).
Proof.
  destruct (redfish_needs_authorization anonymous_reset {| tsm_on := true |}
    simple_gin_matches_table eq_refl) as (r & E & H). exists r. split; [exact E|].
  destruct H as [H|[H|[H|[H _]]]]; [auto..|]. vm_compute in H. discriminate H.
Defined.

(** ** Consistency of the resources *)

(** [@odata.count] properties agree with their lists. *)
Definition system_counts (s : ComputerSystem) : Prop :=
  let l := ComputerSystem_Links s in
  let n {A : Type} (xs : list A) := Z.of_nat (length xs) in
  ComputerSystem_HostingRolesOdataCount s = n (ComputerSystem_HostingRoles s) /\
  ComputerSystem_PCIeDevicesOdataCount s = n (ComputerSystem_PCIeDevices s) /\
  ComputerSystem_PCIeFunctionsOdataCount s = n (ComputerSystem_PCIeFunctions s) /\
  Boot_BootOrderOdataCount (ComputerSystem_Boot s) = n (Boot_BootOrder (ComputerSystem_Boot s)) /\
  ComputerSystemLinks_ChassisOdataCount l = n (ComputerSystemLinks_Chassis l) /\
  ComputerSystemLinks_CooledByOdataCount l = n (ComputerSystemLinks_CooledBy l) /\
  ComputerSystemLinks_ManagedByOdataCount l = n (ComputerSystemLinks_ManagedBy l) /\
  ComputerSystemLinks_PoweredByOdataCount l = n (ComputerSystemLinks_PoweredBy l).

Definition chassis_counts (c : Chassis) : Prop :=
  let l := Chassis_Links c in
  let n {A : Type} (xs : list A) := Z.of_nat (length xs) in
  ChassisLinks_ComputerSystemsOdataCount l = n (ChassisLinks_ComputerSystems l) /\
  ChassisLinks_ContainsOdataCount l = n (ChassisLinks_Contains l) /\
  ChassisLinks_CooledByOdataCount l = n (ChassisLinks_CooledBy l) /\
  ChassisLinks_DrivesOdataCount l = n (ChassisLinks_Drives l) /\
  ChassisLinks_ManagedByOdataCount l = n (ChassisLinks_ManagedBy l) /\
  ChassisLinks_ManagersInChassisOdataCount l = n (ChassisLinks_ManagersInChassis l) /\
  ChassisLinks_PCIeDevicesOdataCount l = n (ChassisLinks_PCIeDevices l) /\
  ChassisLinks_PoweredByOdataCount l = n (ChassisLinks_PoweredBy l) /\
  ChassisLinks_StorageOdataCount l = n (ChassisLinks_Storage l).

(** The URL of a link is served: some route of the table, with some identifier
    filled in. *)
Definition served (url method : string) (h : handler) (id : string) : Prop :=
  exists r, r ∈ prepareRouter /\ rt_method r = method /\ rt_handler r = h /\
    url = ("/" ++ fill_id (rt_path r) id)%string.

Lemma app_empty (i : string) : (i ++ "")%string = i.
Proof.
  induction i as [|c i IH]; [done|].
  change ((String c i ++ "")%string) with (String c (i ++ "")). by rewrite IH.
Qed.

(** Following the links.  Every member of the two collections is a resource the
    server knows, each resource links to the other and to its reset action under
    URLs of the route table, with its own identifier, and every item count is the
    length of its list. *)
Theorem redfish_links_served (id : string) (p : PowerStatus) :
  let sys := createComputerSystemResponse id p in
  let ch := createChassisResponse id p in
  Forall (fun o => served (OdataID_OdataID o) "GET" HComputerSystem systemID)
    (ResourceCollection_Members computerSystemCollectionResponse) /\
  Forall (fun o => served (OdataID_OdataID o) "GET" HChassis systemID)
    (ResourceCollection_Members chassisCollectionResponse) /\
  Forall (fun o => served (OdataID_OdataID o) "GET" HChassis id)
    (ComputerSystemLinks_Chassis (ComputerSystem_Links sys)) /\
  Forall (fun o => served (OdataID_OdataID o) "GET" HComputerSystem id)
    (ChassisLinks_ComputerSystems (Chassis_Links ch)) /\
  served (ComputerSystemReset_Target (ComputerSystemActions_ComputerSystemReset
    (ComputerSystem_Actions sys))) "POST" HComputerSystemActionsReset id /\
  served (ChassisReset_Target (ChassisActions_ChassisReset (Chassis_Actions ch)))
    "POST" HChassisActionsReset id /\
  system_counts sys /\ chassis_counts ch.
Proof.
  intros sys ch.
  assert (Hs : forall i, served ("/redfish/v1/Systems/" ++ i) "GET" HComputerSystem i).
  { intros i. exists (Route "GET" "redfish/v1/Systems/:id" true HComputerSystem).
    split; [repeat first [by left|right]|]. cbn. by rewrite app_empty. }
  assert (Hc : forall i, served ("/redfish/v1/Chassis/" ++ i) "GET" HChassis i).
  { intros i. exists (Route "GET" "redfish/v1/Chassis/:id" true HChassis).
    split; [repeat first [by left|right]|]. cbn. by rewrite app_empty. }
  split_and!; try (repeat constructor; apply Hs || apply Hc); try done.
  - exists (Route "POST" "redfish/v1/Systems/:id/Actions/ComputerSystem.Reset" true
      HComputerSystemActionsReset). split; [repeat first [by left|right]|done].
  - exists (Route "POST" "redfish/v1/Chassis/:id/Actions/Chassis.Reset" true
      HChassisActionsReset). split; [repeat first [by left|right]|done].
Qed.
