(* ===== verification/Tls.v ===== *)
(** * The certificate of a BMC and the Redfish server (virtualbmc/gencert.go, bmc_server.go)

    [generateCertificate], [dnsAliases] and [StartRedfishServer].  RSA, X.509, PEM, TLS and
    the HTTP server are the interface [Pki]; that the two PEM texts of one key make a key
    pair is [PkiLaws]. *)

From S2P Require Import Prelude GoBinary GoCrypto GoStrings Machine Session Ipmi RmcpPlus Rmcp.
From S2P Require Import RedfishTypes Redfish.

Local Open Scope Z_scope.
Local Open Scope go_scope.

(** ** gencert.go *)

Definition dot : Ascii.ascii := Ascii.Ascii false true true true false true false false.

Definition dnsAliases (host : string) : list string :=
  let parts := Split dot host in
  map (fun i => Join_with dot (take (length parts - i) parts)) (seq 0 (length parts)).

(** Nanoseconds. *)
Definition time_Hour : Z := 3600 * 10 ^ 9.

Definition KeyUsageDigitalSignature : Z := 1.
Definition KeyUsageKeyEncipherment : Z := 4.
Definition ExtKeyUsageServerAuth : Z := 1.

(** The fields of x509.Certificate the code sets. *)
Record x509_Certificate : Type := {
  SerialNumber : Z;
  CommonName : string;
  NotBefore : Z;
  NotAfter : Z;
  KeyUsage : Z;
  ExtKeyUsage : list Z;
  BasicConstraintsValid : bool;
  DNSNames : list string
}.

Class Pki (W : Type) : Type := {
  rsa_PrivateKey : Type;
  tls_Certificate : Type;
  (** [rsa.GenerateKey(rand.Reader, bits)], [time.Now()] *)
  rsa_GenerateKey : Z -> st W rsa_PrivateKey;
  time_Now : W -> Z * W;
  (** [x509.CreateCertificate(rand.Reader, &template, &template, priv.Public(), priv)] *)
  x509_CreateCertificate : x509_Certificate -> rsa_PrivateKey -> st W (list Z);
  x509_MarshalPKCS8PrivateKey : rsa_PrivateKey -> outcome (list Z);
  (** [pem.EncodeToMemory(&pem.Block{Type: t, Bytes: b})] *)
  pem_EncodeToMemory : string -> list Z -> list Z;
  tls_X509KeyPair : list Z -> list Z -> outcome tls_Certificate;
  (** the goroutine that closes listener and server when the context is done *)
  close_when_done : option nat -> W -> W;
  (** [serv.Server.Serve(tls.NewListener(listener, cfg))] *)
  tls_Serve : list route -> tls_Certificate -> option nat -> st W unit
}.

Section Tls.
Context {W : Type} `{!Pki W}.

Definition cert_template (host : string) (notBefore validFor : Z) : x509_Certificate :=
  {| SerialNumber := 1; CommonName := "placemat"; NotBefore := notBefore; NotAfter := notBefore + validFor;
     KeyUsage := Z.lor KeyUsageDigitalSignature KeyUsageKeyEncipherment;
     ExtKeyUsage := [ExtKeyUsageServerAuth]; BasicConstraintsValid := true; DNSNames := dnsAliases host |}.

Definition generateCertificate (host : string) (validFor : Z) : st W (list Z * list Z) :=
  let* priv := swrap "failed to generate key" (rsa_GenerateKey 4096) in
  fun w =>
  let (notBefore, w) := time_Now w in
  (let* certBytes := swrap "failed to create certificate"
     (x509_CreateCertificate (cert_template host notBefore validFor) priv) in
   let* privBytes := swrap "failed to marshal private key" (slift (x509_MarshalPKCS8PrivateKey priv)) in
   sret (pem_EncodeToMemory "CERTIFICATE" certBytes, pem_EncodeToMemory "PRIVATE KEY" privBytes)) w.

(** ** bmc_server.go *)

(** A nil listener is one whose address could not be listened on. *)
Definition StartRedfishServer (listener : option nat) : st W unit :=
  let* (certPem, keyPem) := swrap "failed to generate certificate"
    (generateCertificate "placemat.com" (36500 * 24 * time_Hour)) in
  fun w =>
  let w := close_when_done listener w in
  (let* cert := slift (tls_X509KeyPair certPem keyPem) in
   tls_Serve prepareRouter cert listener) w.

End Tls.

(** The documented behaviour of the key pair: a certificate and the key it was made with. *)
Class PkiLaws (W : Type) `{!Pki W} : Type := {
  leaf : tls_Certificate -> x509_Certificate;
  keypair_law : forall t k cb kb w w', x509_CreateCertificate t k w = (Ok cb, w') ->
    x509_MarshalPKCS8PrivateKey k = Ok kb -> exists c,
    tls_X509KeyPair (pem_EncodeToMemory "CERTIFICATE" cb) (pem_EncodeToMemory "PRIVATE KEY" kb) = Ok c /\
    leaf c = t;
  keygen_law : forall n (w : W), match rsa_GenerateKey n w with (Ok _, _) | (Err _, _) => True | _ => False end;
  create_law : forall t k (w : W), match x509_CreateCertificate t k w with (Ok _, _) | (Err _, _) => True | _ => False end;
  marshal_law : forall k, match x509_MarshalPKCS8PrivateKey k with Ok _ | Err _ => True | _ => False end
}.

(** ** Lemmas *)

Lemma alias_ex : dnsAliases "placemat.com" = ["placemat.com"; "placemat"].
Proof. reflexivity. Qed.

(** A hundred years fit a time.Duration. *)
Example validity_fits : is_int64 (36500 * 24 * time_Hour) = true.
Proof. reflexivity. Qed.

Lemma alias_prefix k host x :
  (k < length (Split dot host))%nat ->
  x = Join_with dot (take (length (Split dot host) - k) (Split dot host)) ->
  x = host \/ exists rest, host = x +:+ String dot rest.
Proof.
  intros Hk ->. destruct k as [|k].
  - left. rewrite take_ge by lia. apply Join_Split.
  - right. set (n := (length (Split dot host) - S k)%nat).
    exists (Join_with dot (drop n (Split dot host))).
    rewrite <- Join_with_app, take_drop; [by rewrite Join_Split|..]; intros E; apply (f_equal length) in E;
      rewrite ?length_take, ?length_drop in E; cbn in E; lia.
Qed.

Lemma alias_all host x :
  x = host \/ (exists rest, host = x +:+ String dot rest) ->
  exists k, (k < length (Split dot host))%nat /\
    x = Join_with dot (take (length (Split dot host) - k) (Split dot host)).
Proof.
  pose proof (Split_nonempty dot x) as Hx. intros [->|[rest ->]].
  - exists 0%nat. rewrite Nat.sub_0_r, take_ge, Join_Split by lia. split; [|done].
    destruct (Split dot host); [done|cbn; lia].
  - rewrite Split_append. exists (length (Split dot rest)). rewrite length_app. split.
    + destruct (Split dot x); [done|cbn; lia].
    + replace (_ + _ - _)%nat with (length (Split dot x)) by lia. by rewrite take_app_length, Join_Split.
Qed.

(** What the certificate of a server says. *)
Definition bmc_certificate (now : Z) : x509_Certificate :=
  {| SerialNumber := 1; CommonName := "placemat"; NotBefore := now; NotAfter := now + 36500 * 24 * time_Hour;
     KeyUsage := 5; ExtKeyUsage := [1]; BasicConstraintsValid := true;
     DNSNames := ["placemat.com"; "placemat"] |}.

(** The certificate and the key that are generated make a key pair. *)
Lemma generate_pair {W : Type} `{!Pki W} {L : PkiLaws W} host validFor (w : W) :
  match generateCertificate host validFor w with
  | (Ok (certPem, keyPem), _) => exists now c, tls_X509KeyPair certPem keyPem = Ok c /\
      leaf c = cert_template host now validFor /\ exists k w1, rsa_GenerateKey 4096 w = (Ok k, w1) /\
      (time_Now w1).1 = now
  | (Err e, _) => exists msg cause, e = Errorf msg cause
  | _ => False
  end.
Proof.
  unfold generateCertificate, sbind at 1, swrap at 1. pose proof (keygen_law 4096 w) as Hk.
  destruct (rsa_GenerateKey 4096 w) as [[k|e| |] w1] eqn:Ek; try done; cbn [owrap]; [|by do 2 eexists].
  destruct (time_Now w1) as [now w2] eqn:En. unfold sbind at 1, swrap at 1.
  pose proof (create_law (cert_template host now validFor) k w2) as Hc.
  destruct (x509_CreateCertificate (cert_template host now validFor) k w2) as [[cb|e| |] w3] eqn:Ec; try done;
    cbn [owrap]; [|by do 2 eexists].
  unfold sbind, swrap, slift. pose proof (marshal_law k) as Hm.
  destruct (x509_MarshalPKCS8PrivateKey k) as [kb|e| |] eqn:Em; try done; cbn [owrap]; [|by do 2 eexists].
  destruct (keypair_law _ _ _ _ _ _ Ec Em) as (c & E & Hl). exists now, c. split_and!; [done..|].
  exists k, w1. by rewrite En.
Qed.

(** ** Properties *)

(** The names of a certificate.  [dnsAliases] lists the host name and exactly its
    prefixes that end before a dot, each once, the longest first. *)
Theorem aliases_exact (host x : string) :
  (x ∈ dnsAliases host <-> x = host \/ exists rest, host = x +:+ String dot rest) /\
  head (dnsAliases host) = Some host /\ length (dnsAliases host) = length (Split dot host).
Proof.
  unfold dnsAliases. set (n := length (Split dot host)). split_and!.
  - rewrite list_elem_of_In, in_map_iff. split.
    + intros (k & E & Hk%in_seq). eapply (alias_prefix k); [unfold n in Hk; lia|by symmetry].
    + intros (k & Hk & E)%alias_all. exists k. split; [by symmetry|]. apply in_seq. unfold n. lia.
  - pose proof (Split_nonempty dot host) as Hn. destruct n as [|m] eqn:En; [by destruct (Split dot host)|].
    cbn [seq map head]. rewrite <- En, Nat.sub_0_r. unfold n. rewrite take_ge by lia. by rewrite Join_Split.
  - by rewrite length_map, length_seq.
Qed.

(** What a BMC serves over TLS.  [StartRedfishServer] fails with a wrapped error when the
    key or the certificate cannot be made, and otherwise serves the route table on its
    listener with a certificate that matches its key: for server authentication, for the
    names placemat.com and placemat, and for a hundred years from the time it was made. *)
Theorem redfish_serves_tls {W : Type} `{!Pki W} {L : PkiLaws W} (listener : option nat) (w : W) :
  match (generateCertificate "placemat.com" (36500 * 24 * time_Hour) w) with
  | (Err e, w') => StartRedfishServer listener w = (Err (Errorf "failed to generate certificate" e), w') /\
      exists msg cause, e = Errorf msg cause
  | (Ok _, w') => exists k w1 c, rsa_GenerateKey 4096 w = (Ok k, w1) /\
      leaf c = bmc_certificate (time_Now w1).1 /\
      StartRedfishServer listener w = tls_Serve prepareRouter c listener (close_when_done listener w')
  | _ => False
  end.
Proof.
  pose proof (generate_pair "placemat.com" (36500 * 24 * time_Hour) w) as Hg.
  destruct (generateCertificate "placemat.com" (36500 * 24 * time_Hour) w) as [[[cp kp]|e| |] w'] eqn:Eg;
    try done.
  - destruct Hg as (now & c & E & Hl & k & w1 & Ek & <-). exists k, w1, c. split_and!; [done|exact Hl|].
    unfold StartRedfishServer, sbind, swrap, slift. rewrite Eg. cbn [owrap]. by rewrite E.
  - split; [|exact Hg]. unfold StartRedfishServer, sbind at 1, swrap at 1. by rewrite Eg.
Qed.

(** A library that works: a certificate is the code of its template. *)
#[export] Instance x509_eq_dec : EqDecision x509_Certificate.
Proof. solve_decision. Defined.

#[export] Instance x509_countable : Countable x509_Certificate.
Proof.
  refine (inj_countable'
    (fun t => (SerialNumber t, CommonName t, (NotBefore t, NotAfter t), KeyUsage t, ExtKeyUsage t,
               BasicConstraintsValid t, DNSNames t))
    (fun '(a, b, (c, d), e, f, g, h) =>
      {| SerialNumber := a; CommonName := b; NotBefore := c; NotAfter := d; KeyUsage := e;
         ExtKeyUsage := f; BasicConstraintsValid := g; DNSNames := h |}) _).
  by intros [].
Defined.

Record simPki : Type := { sp_now : Z; sp_served : list (x509_Certificate * option nat) }.

#[export] Instance simPki_Pki : Pki simPki := {|
  rsa_PrivateKey := unit; tls_Certificate := x509_Certificate;
  rsa_GenerateKey _ := sret tt;
  time_Now w := (sp_now w, w);
  x509_CreateCertificate t _ := sret [Z.pos (encode t)];
  x509_MarshalPKCS8PrivateKey _ := Ok [];
  pem_EncodeToMemory _ b := b;
  tls_X509KeyPair c _ := match c with
                         | [Z.pos p] => match decode p with
                                        | Some t => Ok t
                                        | None => Err (errors_New "no certificate")
                                        end
                         | _ => Err (errors_New "no certificate")
                         end;
  close_when_done _ w := w;
  tls_Serve _ c l w := (Ok tt, {| sp_now := sp_now w; sp_served := sp_served w ++ [(c, l)] |})
|}.

#[export] Instance simPki_laws : PkiLaws simPki.
Proof.
  refine {| leaf (t : tls_Certificate) := t |}; try done.
  intros t k cb kb w w' [= <- <-] [= <-]. exists t. split; [|done].
  cbn [tls_X509KeyPair simPki_Pki pem_EncodeToMemory]. by rewrite decode_encode.
Defined.

(** A server that is started at time 7. *)
Lemma redfish_serves_tls_witness :
  (StartRedfishServer (Some 3%nat) {| sp_now := 7; sp_served := [] |}).2 =
  {| sp_now := 7; sp_served := [(bmc_certificate 7, Some 3%nat)] |}.
Proof.
  pose proof (redfish_serves_tls (W := simPki) (Some 3%nat) {| sp_now := 7; sp_served := [] |}) as H.
  set (o := generateCertificate _ _ _) in H.
  assert (Ho : exists p, o = (Ok p, {| sp_now := 7; sp_served := [] |})) by (eexists; reflexivity).
  destruct Ho as [p Ho]. rewrite Ho in H. destruct H as (k & w1 & c & Ek & Hl & E). rewrite E.
  injection Ek as _ <-. cbn [leaf simPki_laws] in Hl. rewrite Hl. reflexivity.
Defined.
