(* ===== verification/Qmp.v ===== *)
(** * Power operations of a virtual machine (vm/node.go)

    [vm.PowerStatus], [vm.PowerOn] and [vm.PowerOff]: the QMP dialogue with the
    monitor socket of a QEMU process.  QEMU is outside the repository: the
    connection is the interface [QmpConn], what the QMP documentation says of the
    monitor is [QmpLaws]: calls may fail, commands may be refused, and events may come
    at any time.  [QmpQuiet] is the special case of a monitor that works and sends no
    events but those of the commands; a machine with such a monitor is a reliable
    machine, so everything proved of the two BMC front ends for reliable machines holds
    for it. *)

From S2P Require Import Prelude GoBinary GoCrypto Sha1 Aes Machine Session Ipmi RmcpPlus Rmcp.
From S2P Require Import Handshake Encrypted Server Console GoStrings Json Marshal.

Local Open Scope Z_scope.
Local Open Scope go_scope.

(** ** Messages *)

Record ExecuteCommand : Type := { Execute : string }.

Record QueryStatusReturn : Type := {
  qs_Status : string;
  qs_Singlestep : bool;
  qs_Running : bool
}.

Record QueryStatusResponse : Type := { qs_Return : QueryStatusReturn }.

(** The command structure by its tag. *)
Definition execute_json (exec : ExecuteCommand) : Json.value :=
  Json.Object [(bytes_of_string "execute", to_json (Execute exec))].

(** [json.Marshal] of a command. *)
Definition marshal_command (exec : ExecuteCommand) : list Z := encode (execute_json exec).

Definition return_fields : list (json_field QueryStatusReturn) :=
  [field "status" qs_Status
     (fun x r => {| qs_Status := x; qs_Singlestep := qs_Singlestep r; qs_Running := qs_Running r |});
   field "singlestep" qs_Singlestep
     (fun x r => {| qs_Status := qs_Status r; qs_Singlestep := x; qs_Running := qs_Running r |});
   field "running" qs_Running
     (fun x r => {| qs_Status := qs_Status r; qs_Singlestep := qs_Singlestep r; qs_Running := x |})].

#[export] Instance json_QueryStatusReturn : JsonType QueryStatusReturn := {|
  json_zero := {| qs_Status := json_zero; qs_Singlestep := json_zero; qs_Running := json_zero |};
  to_json r := Json.Object
    [(bytes_of_string "status", to_json (qs_Status r));
     (bytes_of_string "singlestep", to_json (qs_Singlestep r));
     (bytes_of_string "running", to_json (qs_Running r))];
  from_json := from_struct return_fields
|}.

#[export] Instance json_QueryStatusResponse : JsonType QueryStatusResponse := {|
  json_zero := {| qs_Return := json_zero |};
  to_json r := Json.Object [(bytes_of_string "return", to_json (qs_Return r))];
  from_json := from_struct [field "return" qs_Return (fun x _ => {| qs_Return := x |})]
|}.

(** [json.Unmarshal(res, &QueryStatusResponse{})] *)
Definition unmarshal_status (res : list Z) : outcome QueryStatusResponse := json_Unmarshal res.

(** A reply of QEMU to query-status. *)
Definition status_line (running : bool) : list Z :=
  [123; 34] ++ bytes_of_string "return" ++ [34; 58; 32; 123; 34] ++ bytes_of_string "status" ++
  [34; 58; 32; 34] ++ bytes_of_string (if running then "running" else "paused") ++ [34; 44; 32; 34] ++
  bytes_of_string "singlestep" ++ [34; 58; 32] ++ bytes_of_string "false" ++ [44; 32; 34] ++
  bytes_of_string "running" ++ [34; 58; 32] ++
  bytes_of_string (if running then "true" else "false") ++ [125; 125; 13; 10].

(** ** The dialogue *)

Class QmpConn (Q : Type) : Type := {
  (** [net.Dial] on the monitor socket, [conn.SetDeadline], [conn.Close] *)
  qmp_Dial : st Q unit;
  qmp_SetDeadline : st Q unit;
  qmp_Close : Q -> Q;
  (** [bufr.ReadBytes('\n')] and [conn.Write] *)
  qmp_ReadBytes : st Q (list Z);
  qmp_Write : list Z -> st Q unit
}.

Section Dialogue.
Context {Q : Type} `{!QmpConn Q}.

Definition qmp_read : st Q (list Z) := qmp_ReadBytes.

Definition writeCommand (command : string) : st Q unit :=
  qmp_Write (marshal_command {| Execute := command |}).

(** Dial and set the deadline; [defer conn.Close()] runs however the body ends. *)
Definition with_conn {A : Type} (body : st Q A) : st Q A :=
  qmp_Dial >>> qmp_SetDeadline >>>
  (fun q => let (o, q') := body q in (o, qmp_Close q')).

Definition vm_PowerStatus : st Q PowerStatus :=
  with_conn (
    qmp_read >>>
    writeCommand "qmp_capabilities" >>>
    qmp_read >>>
    writeCommand "query-status" >>>
    let* res := qmp_read in
    let* status := slift (unmarshal_status res) in
    if qs_Running (qs_Return status) then sret PowerStatusOn else sret PowerStatusOff).

Definition vm_PowerOn : st Q unit :=
  with_conn (
    qmp_read >>>
    writeCommand "qmp_capabilities" >>>
    qmp_read >>>
    writeCommand "system_reset" >>>
    qmp_read >>>
    qmp_read >>>
    writeCommand "cont" >>>
    qmp_read >>>
    qmp_read >>>
    sret tt).

Definition vm_PowerOff : st Q unit :=
  with_conn (
    qmp_read >>>
    writeCommand "qmp_capabilities" >>>
    qmp_read >>>
    writeCommand "stop" >>>
    qmp_read >>>
    qmp_read >>>
    sret tt).

#[global] Instance vm_Machine : Machine Q := {|
  machine_PowerStatus := vm_PowerStatus;
  machine_PowerOn := vm_PowerOn;
  machine_PowerOff := vm_PowerOff
|}.

End Dialogue.

(** ** What QMP documents

    A connection starts in negotiation mode with a greeting line, and without events.  In
    command mode every command is answered by a line with a member [return], or by one
    with a member [error], and then has no effect.  Events are lines of their own, which
    the monitor sends at any time in command mode; [stop] of a running machine, [cont] of
    a stopped one and [system_reset] send at least one.  Any call may fail; a command
    whose write fails may have arrived or not.  Only the commands [stop] and [cont]
    change whether the machine runs. *)

Definition command_bytes (command : string) : list Z :=
  marshal_command {| Execute := command |}.

(** A line that is an object with a member [kind] and without a member [return]. *)
Definition line_with (kind : string) (l : list Z) : Prop :=
  exists ms, Json.parse l = Some (Json.Object ms) /\
    Exists (fun m => Json.key_is kind m.1 = true) ms /\
    Forall (fun m => Json.key_is "return" m.1 = false) ms.
Definition event_line (l : list Z) : Prop := line_with "event" l.
Definition error_line (l : list Z) : Prop := line_with "error" l.

(** Whether the machine runs after a command. *)
Definition command_power (command : string) (on : bool) : bool :=
  if String.eqb command "stop" then false else if String.eqb command "cont" then true else on.

(** [runs]: the machine runs; [negotiated]: command mode; [unread]: the lines sent and not
    read. *)
Class QmpLaws (Q : Type) `{!QmpConn Q} : Type := {
  runs : Q -> bool;
  negotiated : Q -> bool;
  unread : Q -> list (list Z);
  Dial_law : forall q, match qmp_Dial q with
    | (Ok _, q') => runs q' = runs q /\ negotiated q' = false /\ exists greeting, unread q' = [greeting]
    | (Err _, q') => runs q' = runs q
    | _ => False
    end;
  SetDeadline_law : forall q, match qmp_SetDeadline q with
    | (Ok _, q') => runs q' = runs q /\ negotiated q' = negotiated q /\ exists evs,
        unread q' = unread q ++ evs /\ Forall event_line evs /\ (negotiated q = false -> evs = [])
    | (Err _, q') => runs q' = runs q
    | _ => False
    end;
  Close_law : forall q, runs (qmp_Close q) = runs q;
  ReadBytes_law : forall q, match qmp_ReadBytes q with
    | (Ok l, q') => runs q' = runs q /\ negotiated q' = negotiated q /\ exists evs,
        unread q ++ evs = l :: unread q' /\ Forall event_line evs /\ (negotiated q = false -> evs = [])
    | (Err _, q') => runs q' = runs q
    | _ => False
    end;
  capabilities_Write_law : forall q, negotiated q = false ->
    match qmp_Write (command_bytes "qmp_capabilities") q with
    | (Ok _, q') => runs q' = runs q /\ negotiated q' = true /\ exists reply evs,
        unread q' = unread q ++ reply :: evs /\ Forall event_line evs
    | (Err _, q') => runs q' = runs q
    | _ => False
    end;
  command_Write_law : forall command q, negotiated q = true ->
    command ∈ ["query-status"; "system_reset"; "stop"; "cont"] ->
    match qmp_Write (command_bytes command) q with
    | (Ok _, q') => negotiated q' = true /\ exists before reply after,
        unread q' = unread q ++ before ++ reply :: after /\ Forall event_line (before ++ after) /\
        ((error_line reply /\ runs q' = runs q) \/
         (runs q' = command_power command (runs q) /\
          (command = "query-status" ->
             exists r, unmarshal_status reply = Ok r /\ qs_Running (qs_Return r) = runs q) /\
          (command = "system_reset" \/ runs q' <> runs q -> before ++ after <> [])))
    | (Err _, q') => runs q' = runs q \/ runs q' = command_power command (runs q)
    | _ => False
    end
}.

(** The answer to a command is an error. *)
Definition refused {Q : Type} `{!QmpConn Q} `{!QmpLaws Q} (command : string) : Prop :=
  exists q q' before reply after, qmp_Write (command_bytes command) q = (Ok tt, q') /\
    unread q' = unread q ++ before ++ reply :: after /\ error_line reply.

(** A monitor that is there and accepts the commands: a call fails only when it waits for a
    line that does not come. *)
Definition qmp_alive {Q : Type} `{!QmpConn Q} `{!QmpLaws Q} : Prop :=
  (forall q, exists q', qmp_Dial q = (Ok tt, q')) /\
  (forall q, exists q', qmp_SetDeadline q = (Ok tt, q')) /\
  (forall l q, exists q', qmp_Write l q = (Ok tt, q')) /\
  (forall q, unread q <> [] -> exists l q', qmp_ReadBytes q = (Ok l, q')) /\
  (forall command, ~ refused command).

(** *** A quiet monitor

    No call fails, and the monitor sends the answers and the events of the commands and
    nothing else.  [pending] is the number of lines the client has not read yet, [ready]
    says that command mode is reached. *)
Class QmpQuiet (Q : Type) `{!QmpConn Q} : Type := {
  running : Q -> bool;
  ready : Q -> bool;
  pending : Q -> nat;
  dial_law : forall q, exists q', qmp_Dial q = (Ok tt, q') /\
    running q' = running q /\ ready q' = false /\ pending q' = 1%nat;
  deadline_law : forall q, exists q', qmp_SetDeadline q = (Ok tt, q') /\
    running q' = running q /\ ready q' = ready q /\ pending q' = pending q;
  close_law : forall q, running (qmp_Close q) = running q;
  read_law : forall q, (0 < pending q)%nat -> exists l q', qmp_ReadBytes q = (Ok l, q') /\
    running q' = running q /\ ready q' = ready q /\ pending q' = Nat.pred (pending q);
  capabilities_law : forall q, exists q',
    qmp_Write (marshal_command {| Execute := "qmp_capabilities" |}) q = (Ok tt, q') /\
    running q' = running q /\ ready q' = true /\ pending q' = S (pending q);
  status_law : forall q, ready q = true -> pending q = 0%nat -> exists q1 l q2 r,
    qmp_Write (marshal_command {| Execute := "query-status" |}) q = (Ok tt, q1) /\
    qmp_ReadBytes q1 = (Ok l, q2) /\ unmarshal_status l = Ok r /\
    qs_Running (qs_Return r) = running q /\ running q2 = running q;
  reset_law : forall q, ready q = true -> exists q',
    qmp_Write (marshal_command {| Execute := "system_reset" |}) q = (Ok tt, q') /\
    running q' = running q /\ ready q' = true /\ pending q' = S (S (pending q));
  stop_law : forall q, ready q = true -> running q = true -> exists q',
    qmp_Write (marshal_command {| Execute := "stop" |}) q = (Ok tt, q') /\
    running q' = false /\ ready q' = true /\ pending q' = S (S (pending q));
  cont_law : forall q, ready q = true -> running q = false -> exists q',
    qmp_Write (marshal_command {| Execute := "cont" |}) q = (Ok tt, q') /\
    running q' = true /\ ready q' = true /\ pending q' = S (S (pending q))
}.

(** ** Lemmas *)

(** *** Steps of a dialogue *)

Section Steps.
Context {Q : Type}.

(** [m] succeeds and takes [P] to [P']. *)
Definition qstep {A : Type} (m : st Q A) (P P' : Q -> Prop) : Prop :=
  forall q, P q -> exists a q', m q = (Ok a, q') /\ P' q'.

Lemma qstep_bind {A B} (m : st Q A) (k : st Q B) P P1 P2 :
  qstep m P P1 -> qstep k P1 P2 -> qstep (m >>> k) P P2.
Proof.
  intros Hm Hk q HP. destruct (Hm q HP) as (a & q1 & E1 & H1).
  destruct (Hk q1 H1) as (b & q2 & E2 & H2). exists b, q2. split; [|done].
  unfold sbind. by rewrite E1.
Qed.

Lemma qstep_ret {A} (a : A) P : qstep (sret a) P P.
Proof. intros q HP. by exists a, q. Qed.

(** From [P], [m] ends in [R] when it succeeds and in [E] when it fails; it does end. *)
Definition talk {A : Type} (P : Q -> Prop) (m : st Q A) (R : A -> Q -> Prop) (E : Q -> Prop) : Prop :=
  forall q, P q -> match m q with (Ok a, q') => R a q' | (Err _, q') => E q' | _ => False end.

Lemma talk_bind {A B} P (m : st Q A) R1 (k : A -> st Q B) R E :
  talk P m R1 E -> (forall a, talk (R1 a) (k a) R E) -> talk P (sbind m k) R E.
Proof.
  intros Hm Hk q HP. unfold sbind. specialize (Hm q HP). destruct (m q) as [[a|e|p|] q']; try done.
  by apply Hk.
Qed.

Lemma talk_ret {A} P (a : A) (R : A -> Q -> Prop) E : (forall q, P q -> R a q) -> talk P (sret a) R E.
Proof. intros HR q HP. by apply HR. Qed.

Lemma talk_conseq {A} (P P' : Q -> Prop) (m : st Q A) (R R' : A -> Q -> Prop) (E E' : Q -> Prop) :
  talk P' m R' E' -> (forall q, P q -> P' q) -> (forall a q, R' a q -> R a q) -> (forall q, E' q -> E q) ->
  talk P m R E.
Proof.
  intros Hm HP HR HE q Hq. specialize (Hm q (HP q Hq)). destruct (m q) as [[a|e|p|] q']; auto.
Qed.
End Steps.

(** *** A monitor with events and failures *)

Lemma line_without_return l kind :
  line_with kind l -> exists r, unmarshal_status l = Ok r /\ qs_Running (qs_Return r) = false.
Proof.
  intros (ms & Hp & _ & Hr). exists json_zero. split; [|done].
  unfold unmarshal_status, json_Unmarshal. rewrite Hp. cbn [from_json json_QueryStatusResponse from_struct].
  assert (Hf : forall s : QueryStatusResponse * option error,
    fold_left (store_member [field "return" qs_Return (fun x _ => {| qs_Return := x |})]) ms s = s).
  { clear Hp. induction Hr as [|m ms Hm _ IH]; intros s; [done|]. cbn [fold_left store_member].
    change (field "return" qs_Return _).1 with "return". rewrite Hm. apply IH. }
  by rewrite Hf.
Qed.

Section Noisy.
Context {Q : Type} `{!QmpConn Q} {L : QmpLaws Q}.

Definition negotiating (r : bool) (n : nat) (q : Q) : Prop :=
  runs q = r /\ negotiated q = false /\ length (unread q) = n.
(** In command mode with at least [n] lines to read. *)
Definition live (r : bool) (n : nat) (q : Q) : Prop :=
  runs q = r /\ negotiated q = true /\ (n <= length (unread q))%nat.
(** A call failed although it had not to wait. *)
Definition dead (r : bool) (q : Q) : Prop := runs q = r /\ ~ qmp_alive.

(** The connection, for a body that starts at the greeting. *)
Lemma talk_conn {A} r (body : st Q A) (R : A -> bool -> Prop) (E : bool -> Prop) :
  (~ qmp_alive -> E r) -> talk (negotiating r 1) body (fun a q => R a (runs q)) (fun q => E (runs q)) ->
  talk (fun q => runs q = r) (with_conn body) (fun a q => R a (runs q)) (fun q => E (runs q)).
Proof.
  intros HE Hb q Hq. unfold with_conn, sbind. pose proof (Dial_law q) as Hd.
  destruct (qmp_Dial q) as [[u|e|p|] q1] eqn:E1; [|rewrite Hd, Hq; apply HE; intros (Ha & _);
    destruct (Ha q); congruence|done..].
  destruct Hd as (H1 & H2 & g & H3). pose proof (SetDeadline_law q1) as Hd.
  destruct (qmp_SetDeadline q1) as [[u'|e|p|] q2] eqn:E2; [|rewrite Hd, H1, Hq; apply HE; intros (_ & Ha & _);
    destruct (Ha q1); congruence|done..].
  destruct Hd as (H4 & H5 & evs & H6 & _ & H7). specialize (H7 H2). subst evs.
  assert (Hn : negotiating r 1 q2).
  { split_and!; [congruence..|]. by rewrite H6, app_nil_r, H3. }
  specialize (Hb q2 Hn). destruct (body q2) as [[a|e|p|] q3]; try done; by rewrite Close_law.
Qed.

Lemma read_dead q e q' : qmp_ReadBytes q = (Err e, q') -> unread q <> [] -> ~ qmp_alive.
Proof. intros E Hu (_ & _ & _ & Ha & _). destruct (Ha q Hu) as (l & q1 & ?). congruence. Qed.

Lemma write_dead l q e q' : qmp_Write l q = (Err e, q') -> ~ qmp_alive.
Proof. intros E (_ & _ & Ha & _). destruct (Ha l q). congruence. Qed.

Lemma talk_greeting r : talk (negotiating r 1) qmp_read (fun _ => negotiating r 0) (dead r).
Proof.
  intros q (H1 & H2 & H3). unfold qmp_read. pose proof (ReadBytes_law q) as Hr.
  destruct (qmp_ReadBytes q) as [[l|e|p|] q'] eqn:E; [| |done..].
  - destruct Hr as (H4 & H5 & evs & H6 & _ & H7). rewrite (H7 H2), app_nil_r in H6.
    split_and!; [congruence..|]. rewrite H6 in H3. cbn in H3. lia.
  - split; [congruence|]. eapply read_dead; [done|]. intros Hu. by rewrite Hu in H3.
Qed.

Lemma talk_capabilities r :
  talk (negotiating r 0) (writeCommand "qmp_capabilities")
    (fun _ q => live r 1 q /\ exists reply evs, unread q = reply :: evs /\ Forall event_line evs) (dead r).
Proof.
  intros q (H1 & H2 & H3%nil_length_inv). pose proof (capabilities_Write_law q H2) as Hw.
  unfold writeCommand. fold (command_bytes "qmp_capabilities").
  destruct (qmp_Write _ q) as [[u|e|p|] q'] eqn:E; [|split; [congruence|by eapply write_dead]|done..].
  destruct Hw as (H4 & H5 & reply & evs & H6 & H7). rewrite H3 in H6. split; [|by exists reply, evs].
  split_and!; [congruence..|]. rewrite H6. cbn. lia.
Qed.

(** The answer to [qmp_capabilities]; events may be left. *)
Lemma talk_capabilities_reply r :
  talk (fun q => live r 1 q /\ exists reply evs, unread q = reply :: evs /\ Forall event_line evs)
    qmp_read (fun _ q => live r 0 q /\ Forall event_line (unread q)) (dead r).
Proof.
  intros q ((H1 & H2 & _) & reply & evs & H3 & H4). unfold qmp_read. pose proof (ReadBytes_law q) as Hr.
  destruct (qmp_ReadBytes q) as [[l|e|p|] q'] eqn:E; [| |done..].
  - destruct Hr as (H5 & H6 & evs' & H7 & H8 & _). rewrite H3 in H7. injection H7 as _ H7.
    split; [split_and!; [congruence..|lia]|]. rewrite <- H7. by apply Forall_app.
  - split; [congruence|]. eapply read_dead; [done|]. by rewrite H3.
Qed.

(** The opening of every dialogue. *)
Lemma talk_open {A} r (k : st Q A) R E :
  (forall q, dead r q -> E q) ->
  talk (fun q => live r 0 q /\ Forall event_line (unread q)) k R E ->
  talk (negotiating r 1) (qmp_read >>> writeCommand "qmp_capabilities" >>> qmp_read >>> k) R E.
Proof.
  intros HE Hk. eapply talk_bind; [eapply talk_conseq; [apply talk_greeting|by intros ? H; exact H|by intros ? ? H; exact H|done]|].
  intros ?. eapply talk_bind; [eapply talk_conseq; [apply talk_capabilities|by intros ? H; exact H|by intros ? ? H; exact H|done]|].
  intros ?. eapply talk_bind; [eapply talk_conseq; [apply talk_capabilities_reply|by intros ? H; exact H|by intros ? ? H; exact H|done]|].
  intros ?. exact Hk.
Qed.

(** A read whose line is not looked at. *)
Lemma talk_read r n :
  talk (live r n) qmp_read (fun _ => live r (pred n)) (fun q => runs q = r /\ (n = 0%nat \/ ~ qmp_alive)).
Proof.
  intros q (H1 & H2 & H3). unfold qmp_read. pose proof (ReadBytes_law q) as Hr.
  destruct (qmp_ReadBytes q) as [[l|e|p|] q'] eqn:E; [| |done..].
  - destruct Hr as (H4 & H5 & evs & H6 & _). split_and!; [congruence..|].
    apply (f_equal length) in H6. rewrite length_app in H6. cbn in H6. lia.
  - split; [congruence|]. destruct n; [by left|right]. eapply read_dead; [done|].
    intros Hu. rewrite Hu in H3. cbn in H3. lia.
Qed.

Lemma refused_dead command : refused command -> ~ qmp_alive.
Proof. intros Hr (_ & _ & _ & _ & Ha). by eapply Ha. Qed.

(** The lines a command sends. *)
Definition command_lines (command : string) (r : bool) : nat :=
  if String.eqb command "system_reset" || negb (Bool.eqb (command_power command r) r) then 2 else 1.

Lemma talk_command command r :
  command ∈ ["query-status"; "system_reset"; "stop"; "cont"] ->
  talk (live r 0) (writeCommand command)
    (fun _ q => live (command_power command r) (command_lines command r) q \/ (refused command /\ live r 0 q))
    (fun q => (runs q = r \/ runs q = command_power command r) /\ ~ qmp_alive).
Proof.
  intros Hc q (H1 & H2 & _). pose proof (command_Write_law command q H2 Hc) as Hw.
  unfold writeCommand. fold (command_bytes command).
  destruct (qmp_Write (command_bytes command) q) as [[[]|e|p|] q'] eqn:Ew;
    [|rewrite <- H1; split; [done|by eapply write_dead]|done..].
  destruct Hw as (H3 & bf & reply & af & H4 & H5 & [[H6 H7]|(H6 & _ & H7)]); [right|left].
  - split; [|split_and!; [congruence..|lia]]. by exists q, q', bf, reply, af.
  - split_and!; [congruence..|]. rewrite H4, !length_app. cbn [length]. unfold command_lines.
    rewrite H1 in H6. destruct (String.eqb_spec command "system_reset") as [->|_]; cbn [orb].
    + specialize (H7 (or_introl eq_refl)). destruct bf, af; cbn in *; try done; lia.
    + destruct (Bool.eqb_spec (command_power command r) r) as [_|Hne]; cbn [negb]; [lia|].
      rewrite <- H6 in Hne. assert (Hx : bf ++ af <> []) by (apply H7; right; congruence).
      destruct bf, af; cbn in *; try done; lia.
Qed.

(** A command and its two reads. *)
Lemma talk_exchange {A} command r (k : st Q A) R (E : Q -> Prop) :
  command ∈ ["query-status"; "system_reset"; "stop"; "cont"] ->
  (forall q, (runs q = r \/ runs q = command_power command r) -> (command_lines command r = 1%nat \/ ~ qmp_alive) -> E q) ->
  talk (fun q => live (command_power command r) 0 q \/ (refused command /\ live r 0 q)) k R E ->
  talk (live r 0) (writeCommand command >>> qmp_read >>> qmp_read >>> k) R E.
Proof.
  intros Hc HE Hk. eapply talk_bind.
  { eapply talk_conseq; [by apply talk_command|by intros ? H; exact H|by intros ? ? H; exact H|]. intros q [H1 H2]. auto. }
  intros ? q [Hq|[Href Hq]].
  - revert q Hq. change (talk (live (command_power command r) (command_lines command r))
      (qmp_read >>> qmp_read >>> k) R E).
    assert (Hn : command_lines command r = 1%nat \/ command_lines command r = 2%nat)
      by (unfold command_lines; case_match; auto).
    eapply talk_bind; [eapply talk_conseq; [apply talk_read|by intros ? H; exact H|by intros ? ? H; exact H|]|].
    { intros q [H1 [H2|H2]]; [lia|]. auto. }
    intros ?. eapply talk_bind; [eapply talk_conseq; [apply talk_read|by intros ? H; exact H|by intros ? ? H; exact H|]|].
    { intros q [H1 [H2|H2]]; [|by auto]. apply HE; [auto|left]. lia. }
    intros ? q (H1 & H2 & _). apply Hk. left. by split_and!; [..|lia].
  - assert (Ha : ~ qmp_alive) by (by eapply refused_dead).
    revert q Hq. change (talk (live r 0) (qmp_read >>> qmp_read >>> k) R E).
    eapply talk_bind; [eapply talk_conseq; [apply talk_read|by intros ? H; exact H|by intros ? ? H; exact H|]|].
    { intros q [H1 _]. auto. }
    intros ?. eapply talk_bind; [eapply talk_conseq; [apply talk_read|by intros ? H; exact H|by intros ? ? H; exact H|]|].
    { intros q [H1 _]. auto. }
    intros ? q Hq. apply Hk. by right.
Qed.

(** A line that is not the answer was read in its place. *)
Definition misread : Prop :=
  exists q l q', qmp_ReadBytes q = (Ok l, q') /\ (event_line l \/ error_line l).

Lemma talk_status r :
  talk (fun q => live r 0 q /\ Forall event_line (unread q))
    (writeCommand "query-status" >>> qmp_read)
    (fun l q => runs q = r /\ exists s, unmarshal_status l = Ok s /\
       (qs_Running (qs_Return s) = r \/ (qs_Running (qs_Return s) = false /\ misread))) (dead r).
Proof.
  intros q [(H1 & H2 & _) Hev].
  pose proof (command_Write_law "query-status" q H2 ltac:(left)) as Hw.
  unfold sbind, writeCommand, qmp_read. fold (command_bytes "query-status").
  destruct (qmp_Write (command_bytes "query-status") q) as [[[]|e|p|] q1] eqn:Ew;
    [|destruct Hw as [Hw|Hw]; (split; [cbn in Hw; congruence|by eapply write_dead])|done..].
  destruct Hw as (H3 & bf & reply & af & H4 & [Hbf Haf]%Forall_app & Hreply).
  assert (H5 : runs q1 = r) by (destruct Hreply as [[_ H]|[H _]]; cbn in H; congruence).
  pose proof (ReadBytes_law q1) as Hr. destruct (qmp_ReadBytes q1) as [[l|e|p|] q2] eqn:Er; [| |done..].
  2:{ split; [congruence|]. eapply read_dead; [done|]. rewrite H4. by destruct (unread q), bf. }
  destruct Hr as (H6 & _ & evs & H7 & _). split; [congruence|].
  assert (Hl : event_line l \/ l = reply).
  { rewrite H4, <- app_assoc in H7. destruct (unread q) as [|x u]; cbn in H7;
      [destruct bf as [|x bf]; cbn in H7; injection H7 as <- _; [by right|]|injection H7 as <- _];
      left; [by inversion Hbf|by inversion Hev]. }
  assert (Hm : forall kind, line_with kind l -> event_line l \/ error_line l -> exists s, unmarshal_status l = Ok s /\
    (qs_Running (qs_Return s) = r \/ (qs_Running (qs_Return s) = false /\ misread))).
  { intros kind Hk Hx. destruct (line_without_return _ _ Hk) as (s & Es & Hs). exists s. split; [done|right].
    split; [done|]. by exists q1, l, q2. }
  destruct Hl as [Hl| ->]; [by eapply Hm; eauto|].
  destruct Hreply as [[He _]|(_ & Hs & _)]; [by eapply Hm; eauto|].
  destruct (Hs eq_refl) as (s & Es & Hrun). exists s. split; [done|left; congruence].
Qed.

Lemma talk_PowerStatus r :
  talk (fun q => runs q = r) vm_PowerStatus
    (fun a q => runs q = r /\ (a = PowerStatusOn /\ r = true \/
                               a = PowerStatusOff /\ (r = false \/ misread))) (dead r).
Proof.
  unfold vm_PowerStatus.
  apply (talk_conn r _ (fun a x => x = r /\ (a = PowerStatusOn /\ r = true \/
    a = PowerStatusOff /\ (r = false \/ misread))) (fun x => x = r /\ ~ qmp_alive)); [done|].
  apply talk_open; [done|].
  intros q Hq. pose proof (talk_status r q Hq) as Hs. unfold sbind in *.
  destruct (writeCommand "query-status" q) as [[u|e|p|] q1]; try done.
  destruct (qmp_read q1) as [[l|e|p|] q2]; try done.
  destruct Hs as (H1 & s & Es & Hs). unfold slift. rewrite Es.
  destruct (qs_Running (qs_Return s)); cbn; split; try done; destruct Hs as [Hs|[? Hs]]; auto; done.
Qed.

Lemma talk_PowerOff r :
  talk (fun q => runs q = r) vm_PowerOff
    (fun _ q => runs q = false \/ (refused "stop" /\ runs q = r))
    (fun q => (runs q = r \/ runs q = false) /\ (qmp_alive -> r = false)).
Proof.
  unfold vm_PowerOff.
  apply (talk_conn r _ (fun _ x => x = false \/ (refused "stop" /\ x = r))
    (fun x => (x = r \/ x = false) /\ (qmp_alive -> r = false))); [intros Hd; by split; [left|]|].
  apply talk_open; [intros q [H1 H2]; by split; [left|]|].
  eapply talk_conseq; [|by intros q [Hq _]; exact Hq|by intros ? ? H; exact H|by intros ? H; exact H].
  apply talk_exchange; [set_solver +|intros q H1 H2; split; [exact H1|]|].
  - intros Ha. destruct H2 as [H2|]; [|done]. by destruct r.
  - apply talk_ret. intros q [(H & _)|[Href (H & _)]]; [by left|by right].
Qed.

Lemma talk_PowerOn r :
  talk (fun q => runs q = r) vm_PowerOn
    (fun _ q => runs q = true \/ (refused "cont" /\ runs q = r))
    (fun q => (runs q = r \/ runs q = true) /\ (qmp_alive -> r = true)).
Proof.
  unfold vm_PowerOn.
  apply (talk_conn r _ (fun _ x => x = true \/ (refused "cont" /\ x = r))
    (fun x => (x = r \/ x = true) /\ (qmp_alive -> r = true))); [intros Hd; by split; [left|]|].
  apply talk_open; [intros q [H1 H2]; by split; [left|]|].
  eapply talk_conseq; [|by intros q [Hq _]; exact Hq|by intros ? ? H; exact H|by intros ? H; exact H].
  apply talk_exchange; [set_solver +|intros q H1 [H2|H2]; [done|split; [cbn in H1; tauto|done]]|].
  eapply talk_conseq; [|by intros q [Hq|[_ Hq]]; exact Hq|by intros ? ? H; exact H|by intros ? H; exact H].
  apply talk_exchange; [set_solver +|intros q H1 H2; split; [exact H1|]|].
  - intros Ha. destruct H2 as [H2|]; [|done]. by destruct r.
  - apply talk_ret. intros q [(H & _)|[Href (H & _)]]; [by left|by right].
Qed.
End Noisy.

Section Lemmas.
Context {Q : Type} `{!QmpConn Q} {L : QmpQuiet Q}.

(** The state of a dialogue. *)
Definition talking (r rd : bool) (n : nat) (q : Q) : Prop :=
  running q = r /\ ready q = rd /\ pending q = n.

Lemma qstep_read r rd n : qstep qmp_read (talking r rd (S n)) (talking r rd n).
Proof.
  intros q (Hr & Hrd & Hp). destruct (read_law q ltac:(lia)) as (l & q' & E & H1 & H2 & H3).
  exists l, q'. split; [done|]. rewrite Hp in H3. split_and!; [congruence..|]. by rewrite H3.
Qed.

Lemma qstep_capabilities r rd n :
  qstep (writeCommand "qmp_capabilities") (talking r rd n) (talking r true (S n)).
Proof.
  intros q (Hr & Hrd & Hp). destruct (capabilities_law q) as (q' & E & H1 & H2 & H3).
  exists tt, q'. split; [done|]. split_and!; congruence.
Qed.

Lemma qstep_reset r n :
  qstep (writeCommand "system_reset") (talking r true n) (talking r true (S (S n))).
Proof.
  intros q (Hr & Hrd & Hp). destruct (reset_law q Hrd) as (q' & E & H1 & H2 & H3).
  exists tt, q'. split; [done|]. split_and!; congruence.
Qed.

Lemma qstep_stop n :
  qstep (writeCommand "stop") (talking true true n) (talking false true (S (S n))).
Proof.
  intros q (Hr & Hrd & Hp). destruct (stop_law q Hrd Hr) as (q' & E & H1 & H2 & H3).
  exists tt, q'. split; [done|]. split_and!; congruence.
Qed.

Lemma qstep_cont n :
  qstep (writeCommand "cont") (talking false true n) (talking true true (S (S n))).
Proof.
  intros q (Hr & Hrd & Hp). destruct (cont_law q Hrd Hr) as (q' & E & H1 & H2 & H3).
  exists tt, q'. split; [done|]. split_and!; congruence.
Qed.

(** A dialogue inside a connection. *)
Lemma with_conn_ok {A} (body : st Q A) r (R : A -> Q -> Prop) q :
  running q = r ->
  (forall q1, talking r false 1 q1 -> exists a q2, body q1 = (Ok a, q2) /\ R a (qmp_Close q2)) ->
  exists a q', with_conn body q = (Ok a, q') /\ R a q'.
Proof.
  intros Hr Hb. destruct (dial_law q) as (q1 & E1 & H1 & H2 & H3).
  destruct (deadline_law q1) as (q2 & E2 & H4 & H5 & H6).
  destruct (Hb q2) as (a & q3 & E3 & HR); [by split_and!; congruence|].
  exists a, (qmp_Close q3). split; [|done]. unfold with_conn, sbind. by rewrite E1, E2, E3.
Qed.

Lemma vm_status_ok q :
  exists q', vm_PowerStatus q = (Ok (if running q then PowerStatusOn else PowerStatusOff), q') /\
    running q' = running q.
Proof.
  destruct (with_conn_ok (
    qmp_read >>> writeCommand "qmp_capabilities" >>> qmp_read >>> writeCommand "query-status" >>>
    let* res := qmp_read in
    let* status := slift (unmarshal_status res) in
    if qs_Running (qs_Return status) then sret PowerStatusOn else sret PowerStatusOff)
    (running q)
    (fun a q' => a = (if running q then PowerStatusOn else PowerStatusOff) /\
                 running q' = running q) q eq_refl) as (a & q' & E & -> & Hr); [|by exists q'].
  intros q1 Hq1.
  destruct (qstep_read _ _ _ q1 Hq1) as (? & q2 & E2 & Hq2).
  destruct (qstep_capabilities _ _ _ q2 Hq2) as (? & q3 & E3 & Hq3).
  destruct (qstep_read _ _ _ q3 Hq3) as (? & q4 & E4 & Hr & Hrd & Hp).
  destruct (status_law q4 Hrd Hp) as (q5 & l & q6 & res & E5 & E6 & Hu & Hrun & Hr6).
  exists (if running q then PowerStatusOn else PowerStatusOff), q6.
  rewrite close_law. split; [|split; [done|congruence]].
  unfold sbind, writeCommand, qmp_read in *. rewrite E2, E3, E4, E5, E6. unfold slift. rewrite Hu.
  rewrite Hrun, Hr. by destruct (running q).
Qed.

Lemma with_conn_qstep {A} (body : st Q A) r r' rd n q :
  qstep body (talking r false 1) (talking r' rd n) -> running q = r ->
  exists a q', with_conn body q = (Ok a, q') /\ running q' = r'.
Proof.
  intros Hb Hq. apply (with_conn_ok body r (fun _ q' => running q' = r') q Hq).
  intros q1 Hq1. destruct (Hb q1 Hq1) as (a & q2 & E & Hr & _). exists a, q2. by rewrite close_law.
Qed.

Ltac qsteps := repeat (eapply qstep_bind;
  [solve [apply qstep_read | apply qstep_capabilities | apply qstep_reset | apply qstep_stop
         | apply qstep_cont] |]); apply qstep_ret.

Lemma vm_on_ok q :
  running q = false -> exists q', vm_PowerOn q = (Ok tt, q') /\ running q' = true.
Proof.
  intros Hq. edestruct (with_conn_qstep (A := unit)) as ([] & q' & E & Hr);
    [|exact Hq|exists q'; split; [exact E|exact Hr]]. qsteps.
Qed.

Lemma vm_off_ok q :
  running q = true -> exists q', vm_PowerOff q = (Ok tt, q') /\ running q' = false.
Proof.
  intros Hq. edestruct (with_conn_qstep (A := unit)) as ([] & q' & E & Hr);
    [|exact Hq|exists q'; split; [exact E|exact Hr]]. qsteps.
Qed.

(** A virtual machine with a quiet monitor is a reliable machine. *)
#[global] Instance vm_Reliable : ReliableMachine Q := {|
  is_on := running;
  status_reliable := vm_status_ok;
  on_reliable := vm_on_ok;
  off_reliable := vm_off_ok
|}.

End Lemmas.

(** ** What a dialogue does on the wire *)

(** The calls on a connection. *)
Inductive action : Type :=
| ADial
| ADeadline
| ARead
| AWrite (command : list Z)
| AClose.

(** A connection that records the calls made on it. *)
#[export] Instance Logged_QmpConn {Q : Type} `{!QmpConn Q} : QmpConn (Q * list action) := {|
  qmp_Dial := fun s => let (o, q) := qmp_Dial s.1 in (o, (q, s.2 ++ [ADial]));
  qmp_SetDeadline := fun s => let (o, q) := qmp_SetDeadline s.1 in (o, (q, s.2 ++ [ADeadline]));
  qmp_Close := fun s => (qmp_Close s.1, s.2 ++ [AClose]);
  qmp_ReadBytes := fun s => let (o, q) := qmp_ReadBytes s.1 in (o, (q, s.2 ++ [ARead]));
  qmp_Write := fun l s => let (o, q) := qmp_Write l s.1 in (o, (q, s.2 ++ [AWrite l]))
|}.

(** The calls of a complete dialogue, after the connection is made. *)
Definition status_script : list action :=
  [ARead; AWrite (command_bytes "qmp_capabilities"); ARead;
   AWrite (command_bytes "query-status"); ARead].
Definition on_script : list action :=
  [ARead; AWrite (command_bytes "qmp_capabilities"); ARead;
   AWrite (command_bytes "system_reset"); ARead; ARead;
   AWrite (command_bytes "cont"); ARead; ARead].
Definition off_script : list action :=
  [ARead; AWrite (command_bytes "qmp_capabilities"); ARead;
   AWrite (command_bytes "stop"); ARead; ARead].

Definition is_ok {A : Type} (o : outcome A) : bool := match o with Ok _ => true | _ => false end.

(** The record [log] of an operation that follows [script] and ended with [ok]:
    it stops at the first call that fails, a successful operation made every call,
    and a connection whose deadline was set is closed. *)
Definition follows (script log : list action) (ok : bool) : Prop :=
  (log = [ADial] /\ ok = false) \/
  (log = [ADial; ADeadline] /\ ok = false) \/
  (exists k, (k <= length script)%nat /\ log = [ADial; ADeadline] ++ take k script ++ [AClose] /\
     (ok = true -> k = length script)).

Section Wire.
Context {Q : Type} `{!QmpConn Q}.

(** [m] makes the calls of [script], in order, up to the first that fails. *)
Definition traced {A : Type} (m : st (Q * list action) A) (script : list action) : Prop :=
  forall s o s', m s = (o, s') -> exists k, (k <= length script)%nat /\
    s'.2 = s.2 ++ take k script /\ (is_ok o = true -> k = length script).

Lemma traced_bind {A B} (m : st _ A) (f : A -> st _ B) s1 s2 :
  traced m s1 -> (forall a, traced (f a) s2) -> traced (sbind m f) (s1 ++ s2).
Proof.
  intros Hm Hf s o s' E. unfold sbind in E. destruct (m s) as [o1 t] eqn:E1.
  destruct (Hm s o1 t E1) as (k1 & Hk1 & Ht & Hok). rewrite length_app.
  destruct o1 as [a|e|p|]; [|injection E as <- <-; exists k1; rewrite take_app_le by lia;
    split_and!; [lia|done|done]..].
  specialize (Hok eq_refl). subst k1. destruct (Hf a t o s' E) as (k2 & Hk2 & Hs & Hok2).
  exists (length s1 + k2)%nat. split_and!; [lia| |intros H; rewrite (Hok2 H); lia].
  rewrite Hs, Ht, firstn_all, take_app_add, <- app_assoc. done.
Qed.

Lemma traced_read : traced qmp_read [ARead].
Proof.
  intros [q t] o s' E. cbn in E. destruct (qmp_ReadBytes q) as [o1 q1]. injection E as <- <-.
  by exists 1%nat.
Qed.

Lemma traced_write command : traced (writeCommand command) [AWrite (command_bytes command)].
Proof.
  intros [q t] o s'. unfold writeCommand. cbn [qmp_Write Logged_QmpConn fst snd].
  destruct (qmp_Write _ q) as [o1 q1]. intros [= <- <-]. by exists 1%nat.
Qed.

Lemma traced_lift {A} (o : outcome A) : traced (slift o) [].
Proof.
  intros s o' s' [= <- <-]. exists 0%nat. by rewrite app_nil_r.
Qed.

Lemma traced_ret {A} (a : A) : traced (sret a) [].
Proof. apply (traced_lift (Ok a)). Qed.

Lemma traced_with_conn {A} (m : st _ A) script q o q' log :
  traced m script -> with_conn m (q, []) = (o, (q', log)) -> follows script log (is_ok o).
Proof.
  intros Hm. unfold with_conn, sbind. cbn. destruct (qmp_Dial q) as [o1 q1].
  destruct o1 as [[]|e|p|]; [|intros [= <- <- <-]; by left..]. cbn.
  destruct (qmp_SetDeadline q1) as [o2 q2].
  destruct o2 as [[]|e|p|]; [|intros [= <- <- <-]; right; by left..].
  destruct (m _) as [o3 [q3 t3]] eqn:E. intros [= <- <- <-]. right; right.
  destruct (Hm _ _ _ E) as (k & Hk & Ht & Hok). cbn in Ht. exists k. by rewrite Ht.
Qed.

End Wire.

(** ** A simulated monitor *)

Record monitor : Type := {
  mon_running : bool;
  mon_ready : bool;
  mon_lines : list (list Z)
}.

Definition mon_ok_line : list Z := [123; 125; 10].

(** The answer to a command in command mode. *)
Definition mon_execute (l : list Z) (q : monitor) : monitor :=
  let say r lines := {| mon_running := r; mon_ready := true; mon_lines := mon_lines q ++ lines |} in
  if bool_decide (l = command_bytes "query-status") then
    say (mon_running q) [status_line (mon_running q)]
  else if bool_decide (l = command_bytes "system_reset") then
    say (mon_running q) [mon_ok_line; mon_ok_line]
  else if bool_decide (l = command_bytes "stop") then
    say false (if mon_running q then [mon_ok_line; mon_ok_line] else [mon_ok_line])
  else if bool_decide (l = command_bytes "cont") then
    say true (if mon_running q then [mon_ok_line] else [mon_ok_line; mon_ok_line])
  else say (mon_running q) [mon_ok_line].

#[export] Instance monitor_QmpConn : QmpConn monitor := {|
  qmp_Dial := fun q => (Ok tt, {| mon_running := mon_running q; mon_ready := false;
                                  mon_lines := [mon_ok_line] |});
  qmp_SetDeadline := fun q => (Ok tt, q);
  qmp_Close := fun q => q;
  qmp_ReadBytes := fun q =>
    match mon_lines q with
    | [] => (Err (errors_New "i/o timeout"), q)
    | l :: ls => (Ok l, {| mon_running := mon_running q; mon_ready := mon_ready q; mon_lines := ls |})
    end;
  qmp_Write := fun l q =>
    (Ok tt, if mon_ready q || bool_decide (l = command_bytes "qmp_capabilities")
            then mon_execute l q
            else {| mon_running := mon_running q; mon_ready := false;
                    mon_lines := mon_lines q ++ [mon_ok_line] |})
|}.

Lemma unmarshal_status_line b :
  exists r, unmarshal_status (status_line b) = Ok r /\ qs_Running (qs_Return r) = b.
Proof. destruct b; eexists; split; vm_compute; reflexivity. Qed.

(** What each command does to a monitor in command mode. *)
Ltac mon_commands :=
  unfold mon_execute;
  repeat first [ rewrite bool_decide_true by reflexivity
               | rewrite bool_decide_false by (vm_compute; discriminate) ].

Lemma mon_write_ready command r ls :
  qmp_Write (command_bytes command) {| mon_running := r; mon_ready := true; mon_lines := ls |} =
  (Ok tt, mon_execute (command_bytes command)
            {| mon_running := r; mon_ready := true; mon_lines := ls |}).
Proof. done. Qed.

Lemma mon_capabilities q :
  mon_execute (command_bytes "qmp_capabilities") q =
  {| mon_running := mon_running q; mon_ready := true; mon_lines := mon_lines q ++ [mon_ok_line] |}.
Proof. by mon_commands. Qed.

#[export] Instance monitor_QmpQuiet : QmpQuiet monitor.
Proof.
  refine {| running := mon_running; ready := mon_ready; pending q := length (mon_lines q) |}.
  - intros q. by eexists.
  - intros q. by eexists.
  - done.
  - intros [r rd ls] H. destruct ls as [|l ls]; cbn in H; [lia|]. by eexists _, _.
  - intros q. eexists. split; [reflexivity|].
    change (marshal_command _) with (command_bytes "qmp_capabilities").
    rewrite bool_decide_true, orb_true_r, mon_capabilities by done. cbn. rewrite length_app. cbn.
    split_and!; [done..|lia].
  - intros [r rd ls] Hrd Hls. cbn in Hrd, Hls. subst rd. apply nil_length_inv in Hls. subst ls.
    destruct (unmarshal_status_line r) as (res & E & Hr).
    eexists _, (status_line r), _, res. split; [apply (mon_write_ready "query-status")|].
    mon_commands. by split_and!.
  - intros [r rd ls] Hrd. cbn in Hrd. subst rd. eexists.
    split; [apply (mon_write_ready "system_reset")|]. mon_commands.
    cbn. rewrite length_app. cbn. split_and!; [done..|lia].
  - intros [r rd ls] Hrd Hr. cbn in Hrd, Hr. subst rd r. eexists.
    split; [apply (mon_write_ready "stop")|]. mon_commands.
    cbn. rewrite length_app. cbn. split_and!; [done..|lia].
  - intros [r rd ls] Hrd Hr. cbn in Hrd, Hr. subst rd r. eexists.
    split; [apply (mon_write_ready "cont")|]. mon_commands.
    cbn. rewrite length_app. cbn. split_and!; [done..|lia].
Defined.

Definition demo_monitor (r : bool) : monitor :=
  {| mon_running := r; mon_ready := false; mon_lines := [] |}.

(** ** A monitor that sends events *)

(** A monitor that sends an event of its own before every answer, or none. *)
Record noisy : Type := {
  nz_runs : bool;
  nz_negotiated : bool;
  nz_lines : list (list Z);
  nz_chatty : bool
}.

(** A line that is an object with one member. *)
Definition object_line (key : string) (value : list Z) : list Z :=
  [123; 34] ++ bytes_of_string key ++ [34; 58; 32] ++ value ++ [125; 13; 10].
Definition greeting_line : list Z := object_line "QMP" [123; 125].
Definition return_line : list Z := object_line "return" [123; 125].
Definition event_of (name : string) : list Z := object_line "event" (34 :: bytes_of_string name ++ [34]).

Definition nz_say (r ng : bool) (lines : list (list Z)) (q : noisy) : noisy :=
  {| nz_runs := r; nz_negotiated := ng; nz_lines := nz_lines q ++ lines; nz_chatty := nz_chatty q |}.

Definition nz_execute (l : list Z) (q : noisy) : noisy :=
  let r := nz_runs q in
  let chat := if nz_chatty q then [event_of "RTC_CHANGE"] else [] in
  if bool_decide (l = command_bytes "query-status") then nz_say r true (chat ++ [status_line r]) q
  else if bool_decide (l = command_bytes "system_reset") then
    nz_say r true (chat ++ [return_line; event_of "RESET"]) q
  else if bool_decide (l = command_bytes "stop") then
    nz_say false true (chat ++ return_line :: (if r then [event_of "STOP"] else [])) q
  else if bool_decide (l = command_bytes "cont") then
    nz_say true true (chat ++ return_line :: (if r then [] else [event_of "RESUME"])) q
  else nz_say r true [return_line] q.

#[export] Instance noisy_QmpConn : QmpConn noisy := {|
  qmp_Dial q := (Ok tt, {| nz_runs := nz_runs q; nz_negotiated := false; nz_lines := [greeting_line];
                           nz_chatty := nz_chatty q |});
  qmp_SetDeadline q := (Ok tt, q);
  qmp_Close q := q;
  qmp_ReadBytes q :=
    match nz_lines q with
    | [] => (Err (errors_New "i/o timeout"), q)
    | l :: ls => (Ok l, {| nz_runs := nz_runs q; nz_negotiated := nz_negotiated q; nz_lines := ls;
                           nz_chatty := nz_chatty q |})
    end;
  qmp_Write l q := (Ok tt, nz_execute l q)
|}.

Lemma event_of_event name :
  bool_decide (name ∈ ["RTC_CHANGE"; "RESET"; "STOP"; "RESUME"]) = true -> event_line (event_of name).
Proof.
  intros H%bool_decide_eq_true. rewrite !elem_of_cons in H.
  destruct H as [->|[->|[->|[->|[]%not_elem_of_nil]]]]; eexists; (split; [vm_compute; reflexivity|]);
    (split; [by left|by repeat constructor]).
Qed.

Ltac nz_commands :=
  unfold nz_execute;
  repeat first [ rewrite bool_decide_true by reflexivity
               | rewrite bool_decide_false by (vm_compute; discriminate) ].

#[export] Instance noisy_QmpLaws : QmpLaws noisy.
Proof.
  refine {| runs := nz_runs; negotiated := nz_negotiated; unread := nz_lines |}.
  - intros q. by split_and!; [..|eexists].
  - intros q. split_and!; [done..|]. exists []. by rewrite app_nil_r.
  - done.
  - intros [r ng [|l ls] c]; cbn; [done|]. split_and!; [done..|]. exists []. by rewrite app_nil_r.
  - intros q Hn. cbn [qmp_Write noisy_QmpConn]. nz_commands. split_and!; [done..|]. by exists return_line, [].
  - intros command [r ng ls c] Hn Hc. cbn in Hn. subst ng. cbn [qmp_Write noisy_QmpConn].
    set (chat := if c then [event_of "RTC_CHANGE"] else []).
    assert (Hchat : Forall event_line chat) by (destruct c; repeat constructor; by apply event_of_event).
    rewrite !elem_of_cons in Hc. destruct Hc as [->|[->|[->|[->|[]%not_elem_of_nil]]]]; nz_commands;
      (split; [done|]); cbn [nz_runs nz_lines nz_say nz_chatty].
    + exists chat, (status_line r), []. split_and!; [done|by rewrite app_nil_r|right].
      destruct (unmarshal_status_line r) as (s & Es & Hs). split_and!; [done|by exists s|]. by intros [].
    + exists chat, return_line, [event_of "RESET"]. split_and!; [done|apply Forall_app; split; [done|]|right].
      { repeat constructor. by apply event_of_event. }
      split_and!; [done..|]. by destruct chat.
    + exists chat, return_line, (if r then [event_of "STOP"] else []).
      split_and!; [done|apply Forall_app; split; [done|]|right].
      { destruct r; repeat constructor. by apply event_of_event. }
      split_and!; [done..|]. intros [|H]; [done|]. destruct r; [by destruct chat|done].
    + exists chat, return_line, (if r then [] else [event_of "RESUME"]).
      split_and!; [done|apply Forall_app; split; [done|]|right].
      { destruct r; repeat constructor. by apply event_of_event. }
      split_and!; [done..|]. intros [|H]; [done|]. destruct r; [done|by destruct chat].
Defined.

Definition demo_noisy (r chatty : bool) : noisy :=
  {| nz_runs := r; nz_negotiated := false; nz_lines := []; nz_chatty := chatty |}.

(** ** Properties *)

(** Power operations of a virtual machine.  With a monitor that behaves as QMP
    documents, [PowerStatus] reports whether the machine runs and leaves it as it
    is, [PowerOn] of a stopped machine makes it run and [PowerOff] of a running one
    stops it; none of them waits for a line the monitor does not send. *)
Theorem vm_power_correct {Q : Type} `{!QmpConn Q} {L : QmpQuiet Q} (q : Q) :
  (exists q', vm_PowerStatus q = (Ok (if running q then PowerStatusOn else PowerStatusOff), q') /\
     running q' = running q) /\
  (running q = false -> exists q', vm_PowerOn q = (Ok tt, q') /\ running q' = true) /\
  (running q = true -> exists q', vm_PowerOff q = (Ok tt, q') /\ running q' = false).
Proof. split_and!; [apply vm_status_ok|apply vm_on_ok|apply vm_off_ok]. Qed.

Lemma vm_power_correct_witness :
  (exists q', vm_PowerStatus (demo_monitor false) = (Ok PowerStatusOff, q') /\
     running q' = false) /\
  (exists q', vm_PowerOn (demo_monitor false) = (Ok tt, q') /\ running q' = true) /\
  (exists q', vm_PowerOff (demo_monitor true) = (Ok tt, q') /\ running q' = false).
Proof.
  destruct (vm_power_correct (demo_monitor false)) as (H1 & H2 & _).
  destruct (vm_power_correct (demo_monitor true)) as (_ & _ & H3).
  split; [exact H1|split; [exact (H2 eq_refl)|exact (H3 eq_refl)]].
Defined.

(** The dialogue on the wire.  Whatever the other side of the socket does, each
    power operation makes the calls of its script in order and stops at the first
    that fails; it succeeds only after the whole script; and once the deadline is
    set the connection is closed however the operation ends. *)
Theorem vm_dialogues_follow_scripts {Q : Type} `{!QmpConn Q} (q q' : Q) (log : list action) :
  (forall o, vm_PowerStatus (q, []) = (o, (q', log)) -> follows status_script log (is_ok o)) /\
  (forall o, vm_PowerOn (q, []) = (o, (q', log)) -> follows on_script log (is_ok o)) /\
  (forall o, vm_PowerOff (q, []) = (o, (q', log)) -> follows off_script log (is_ok o)).
Proof.
  split_and!; intros o; apply traced_with_conn.
  - do 5 (apply (traced_bind _ _ [_]); [solve [apply traced_read|apply traced_write]|intros ?]).
    apply (traced_bind _ _ [] []); [apply traced_lift|]. intros r.
    destruct (qs_Running _); apply traced_ret.
  - do 9 (apply (traced_bind _ _ [_]); [solve [apply traced_read|apply traced_write]|intros ?]).
    apply traced_ret.
  - do 6 (apply (traced_bind _ _ [_]); [solve [apply traced_read|apply traced_write]|intros ?]).
    apply traced_ret.
Qed.

(** Stopping a machine that is already stopped: the second read gets no event. *)
Lemma vm_dialogues_follow_scripts_witness :
  follows off_script
    ([ADial; ADeadline] ++ off_script ++ [AClose]) false.
Proof.
  destruct (vm_PowerOff (demo_monitor false, [])) as [o [q' log]] eqn:E.
  pose proof (proj2 (proj2 (vm_dialogues_follow_scripts (demo_monitor false) q' log)) o E) as H.
  vm_compute in E. injection E as <- <- <-. exact H.
Defined.


(** The line is neither refused nor lost: a chatty monitor that works. *)
Lemma noisy_alive : qmp_alive (Q := noisy).
Proof.
  split_and!; [by eexists..| |].
  - intros [r ng [|l ls] c] Hq; [done|]. by eexists _, _.
  - intros command (q & q' & bf & reply & af & [= <-] & Hu & He).
    assert (Hk : forall l, l ∈ [status_line true; status_line false; return_line; event_of "RTC_CHANGE";
      event_of "RESET"; event_of "STOP"; event_of "RESUME"] -> ~ error_line l).
    { intros l Hl (ms & Hp & Hx & _). rewrite !elem_of_cons in Hl.
      destruct Hl as [->|[->|[->|[->|[->|[->|[->|[]%not_elem_of_nil]]]]]]]; vm_compute in Hp;
        injection Hp as <-; apply Exists_cons in Hx as [Hx|Hx%Exists_nil]; done. }
    apply (Hk reply); [|done].
    assert (Hin : exists new, nz_lines (nz_execute (command_bytes command) q) = nz_lines q ++ new /\
      new ⊆ [status_line true; status_line false; return_line; event_of "RTC_CHANGE"; event_of "RESET";
             event_of "STOP"; event_of "RESUME"]).
    { clear. destruct q as [[] ng ls []]; unfold nz_execute, nz_say; cbn zeta; repeat case_match; cbn [nz_lines]; eexists; (split; [reflexivity|]);
        intros x; cbn [app nz_runs nz_chatty]; set_solver +. }
    destruct Hin as (new & Hn & Hs). cbn [unread noisy_QmpLaws] in Hu. rewrite Hn in Hu.
    apply app_inv_head in Hu. apply Hs. rewrite Hu. set_solver +.
Qed.


(** Power control of a virtual machine, from datagrams to the monitor.  A console
    with a registered password that logs in over the UDP loop and sends an
    encrypted Chassis Control command gets an authentic answer, accepted exactly
    when the power specification accepts the command for a machine that is running
    or stopped, and the virtual machine then runs or not as the specification
    says. *)
Theorem console_powers_vm {Q : Type} `{!QmpConn Q} {QL : QmpQuiet Q} `{!CryptoOps}
  {L : CryptoLaws} (ent : entropy) (users : bmcUserHolder) (fuel : nat) (c : console)
  (u : bmcUser) (buf : list Z) (b : bmc Q) (seq : Z) (iv : list Z) (msg : ipmiMessage) (ctl : Z)
  (rest : list Z) :
  server_inv users (Serving buf b) -> console_wf c = true ->
  users !! con_user c = Some u -> Password u = con_password c ->
  (forall i, ent_fail ent i = None) ->
  (exists k, (k < fuel)%nat /\ sessions b !! draw ent (rnd b) k = None) ->
  is_u32 seq = true -> is_array 16 iv = true ->
  request_wf msg = true -> netFunction msg = ipmiNetFNChassis ->
  m_Command msg = ipmiCmdChassisControl -> m_Data msg = ctl :: rest ->
  exists id sik st reply resp buf' b',
    console_login ent users fuel c (Serving buf b) = Some (id, sik, st) /\
    exchange ent users fuel (command_datagram sik id seq iv msg) st =
      Some (reply, Serving buf' b') /\
    con_open_reply sik reply = Some resp /\
    match Power.answer (control_request ctl) (running (machine b)) with
    | Some on' => nth 6 resp 0xff = completionCodeOK /\ running (machine b') = on'
    | None => nth 6 resp 0xff <> completionCodeOK /\
              running (machine b') = running (machine b)
    end.
Proof. exact (power_session_ok ent users fuel c u buf b seq iv msg ctl rest). Qed.

(** The server loop in front of a stopped machine. *)
Definition demo_vm_server : bmc monitor := Bmc newRMCPPlusSessionHolder 0 (demo_monitor false).

Lemma console_powers_vm_witness :
  exists id sik st reply resp buf' b',
    console_login counting_entropy demo_users 1 demo_console
      (Serving (zeros recvBufSize) demo_vm_server) = Some (id, sik, st) /\
    exchange counting_entropy demo_users 1
      (command_datagram sik id 3 (zeros 16) power_up_msg) st = Some (reply, Serving buf' b') /\
    con_open_reply sik reply = Some resp /\
    nth 6 resp 0xff = completionCodeOK /\ running (machine b') = true.
Proof.
  refine (console_powers_vm counting_entropy demo_users 1 demo_console
    (BmcUser "cybozu" "cybozu") (zeros recvBufSize) demo_vm_server 3 (zeros 16) power_up_msg 1 []
    (server_init_inv demo_users (demo_monitor false)) eq_refl eq_refl eq_refl (fun _ => eq_refl) _
    eq_refl eq_refl eq_refl eq_refl eq_refl eq_refl).
  exists 0%nat. split; [apply le_n|reflexivity].
Defined.
