(* ===== verification/Types.v ===== *)
(** * Cluster specifications (types/cluster.go)

    The YAML resource types, their validation and the parser of cluster files.
    The YAML decoder and the document framer are third-party code and are the
    parameters [YamlOps] and [FrameReader]; validation mutates through a pointer,
    so a validator returns the structure as it leaves it. *)

From S2P Require Import Prelude.

Local Open Scope Z_scope.
Local Open Scope go_scope.

(** ** Structures *)

Definition NetworkType : Type := string.
Definition NetworkInternal : NetworkType := "internal".
Definition NetworkExternal : NetworkType := "external".
Definition NetworkBMC : NetworkType := "bmc".

Definition maxNetworkNameLen : Z := 15.

Record NetworkSpec : Type := {
  nw_Kind : string;
  nw_Name : string;
  nw_Type : NetworkType;
  nw_UseNAT : bool;
  nw_Address : string
}.

Record NetNSInterfaceSpec : Type := { nsi_Network : string; nsi_Addresses : list string }.

Record NetNSAppSpec : Type := { nsa_Name : string; nsa_Command : list string }.

(** The elements of the two slices are pointers: a null in the YAML is nil. *)
Record NetNSSpec : Type := {
  ns_Kind : string;
  ns_Name : string;
  ns_Interfaces : list (option NetNSInterfaceSpec);
  ns_Apps : list (option NetNSAppSpec);
  ns_InitScripts : list string
}.

Record DeviceClassSpec : Type := { dc_Kind : string; dc_Name : string; dc_Path : string }.

Definition NodeVolumeCache : Type := string.
Definition NodeVolumeKind : Type := string.
Definition NodeVolumeFormat : Type := string.

Definition NodeVolumeCacheWriteback : NodeVolumeCache := "writeback".
Definition NodeVolumeCacheNone : NodeVolumeCache := "none".
Definition NodeVolumeCacheWritethrough : NodeVolumeCache := "writethrough".
Definition NodeVolumeCacheDirectSync : NodeVolumeCache := "directsync".
Definition NodeVolumeCacheUnsafe : NodeVolumeCache := "unsafe".

Definition NodeVolumeKindImage : NodeVolumeKind := "image".
Definition NodeVolumeKindLocalds : NodeVolumeKind := "localds".
Definition NodeVolumeKindRaw : NodeVolumeKind := "raw".
Definition NodeVolumeKindHostPath : NodeVolumeKind := "hostPath".

Definition NodeVolumeFormatQcow2 : NodeVolumeFormat := "qcow2".
Definition NodeVolumeFormatRaw : NodeVolumeFormat := "raw".

Record SMPSpec : Type := {
  smp_CPUs : Z;
  smp_Cores : Z;
  smp_Threads : Z;
  smp_Dies : Z;
  smp_Sockets : Z;
  smp_MaxCPUs : Z
}.

Record NUMASpec : Type := { numa_Nodes : Z }.

Record SMBIOSConfigSpec : Type := {
  smb_Manufacturer : string;
  smb_Product : string;
  smb_Serial : string
}.

Record NodeVolumeSpec : Type := {
  v_Kind : NodeVolumeKind;
  v_Name : string;
  v_Image : string;
  v_UserData : string;
  v_NetworkConfig : string;
  v_Size : string;
  v_Path : string;
  v_CopyOnWrite : bool;
  v_Cache : NodeVolumeCache;
  v_Format : NodeVolumeFormat;
  v_VG : string;
  v_Writable : bool;
  v_DeviceClass : string
}.

(** [SMP *SMPSpec] is nil or a value. *)
Record NodeSpec : Type := {
  nd_Kind : string;
  nd_Name : string;
  nd_Interfaces : list string;
  nd_Volumes : list NodeVolumeSpec;
  nd_IgnitionFile : string;
  nd_CPU : Z;
  nd_SMP : option SMPSpec;
  nd_Memory : string;
  nd_NUMA : NUMASpec;
  nd_NetworkDeviceQueue : Z;
  nd_UEFI : bool;
  nd_TPM : bool;
  nd_SMBIOS : SMBIOSConfigSpec
}.

Record ImageSpec : Type := {
  im_Kind : string;
  im_Name : string;
  im_URL : string;
  im_File : string;
  im_CompressionMethod : string
}.

Record ClusterSpec : Type := {
  cs_Networks : list NetworkSpec;
  cs_NetNSs : list NetNSSpec;
  cs_DeviceClasses : list DeviceClassSpec;
  cs_Nodes : list NodeSpec;
  cs_Images : list ImageSpec
}.

Definition empty_cluster : ClusterSpec :=
  {| cs_Networks := []; cs_NetNSs := []; cs_DeviceClasses := []; cs_Nodes := []; cs_Images := [] |}.

Definition Append (c other : ClusterSpec) : ClusterSpec :=
  {| cs_Networks := cs_Networks c ++ cs_Networks other;
     cs_NetNSs := cs_NetNSs c ++ cs_NetNSs other;
     cs_DeviceClasses := cs_DeviceClasses c ++ cs_DeviceClasses other;
     cs_Nodes := cs_Nodes c ++ cs_Nodes other;
     cs_Images := cs_Images c ++ cs_Images other |}.

(** ** Validation *)

(** [len(s) == 0], also written [s == ""]. *)
Definition is_empty (s : string) : bool := String.eqb s "".

(** [filepath.IsAbs] on Unix. *)
Definition filepath_IsAbs (path : string) : bool := String.prefix "/" path.

Definition NetworkSpec_validate (n : NetworkSpec) : outcome NetworkSpec :=
  if maxNetworkNameLen <? Z.of_nat (String.length (nw_Name n))
  then Err (errors_New ("too long name: " ++ nw_Name n)%string)
  else if String.eqb (nw_Type n) NetworkInternal then
    if nw_UseNAT n then Err (errors_New "useNAT must be false for internal network")
    else if negb (is_empty (nw_Address n))
    then Err (errors_New "address cannot be specified for internal network")
    else Ok n
  else if String.eqb (nw_Type n) NetworkExternal then
    if is_empty (nw_Address n)
    then Err (errors_New "address must be specified for external network")
    else Ok n
  else if String.eqb (nw_Type n) NetworkBMC then
    if nw_UseNAT n then Err (errors_New "useNAT must be false for BMC network")
    else if is_empty (nw_Address n)
    then Err (errors_New "address must be specified for BMC network")
    else Ok n
  else Err (errors_New ("unknown type: " ++ nw_Type n)%string).

(** The loop over the apps; [app.Command] of a nil app is a nil dereference. *)
Fixpoint validate_apps (apps : list (option NetNSAppSpec)) : outcome unit :=
  match apps with
  | [] => Ok tt
  | None :: _ => Panic NilDereference
  | Some app :: apps' =>
      match nsa_Command app with
      | [] => Err (errors_New ("no command for app " ++ nsa_Name app)%string)
      | _ => validate_apps apps'
      end
  end.

Definition NetNSSpec_validate (n : NetNSSpec) : outcome NetNSSpec :=
  if is_empty (ns_Name n) then Err (errors_New "network namespace is empty")
  else match ns_Interfaces n with
       | [] => Err (errors_New ("no interface for Network Namespace " ++ ns_Name n)%string)
       | _ => let! _ := validate_apps (ns_Apps n) in Ok n
       end.

Definition DeviceClassSpec_validate (n : DeviceClassSpec) : outcome DeviceClassSpec :=
  if is_empty (dc_Name n) then Err (errors_New "device class name is empty")
  else if is_empty (dc_Path n) then Err (errors_New "device class path is empty")
  else if negb (filepath_IsAbs (dc_Path n)) then Err (errors_New "path should be absolute")
  else Ok n.

Definition set_Cache (n : NodeVolumeSpec) (c : NodeVolumeCache) : NodeVolumeSpec :=
  {| v_Kind := v_Kind n; v_Name := v_Name n; v_Image := v_Image n; v_UserData := v_UserData n;
     v_NetworkConfig := v_NetworkConfig n; v_Size := v_Size n; v_Path := v_Path n;
     v_CopyOnWrite := v_CopyOnWrite n; v_Cache := c; v_Format := v_Format n; v_VG := v_VG n;
     v_Writable := v_Writable n; v_DeviceClass := v_DeviceClass n |}.

Definition set_Format (n : NodeVolumeSpec) (f : NodeVolumeFormat) : NodeVolumeSpec :=
  {| v_Kind := v_Kind n; v_Name := v_Name n; v_Image := v_Image n; v_UserData := v_UserData n;
     v_NetworkConfig := v_NetworkConfig n; v_Size := v_Size n; v_Path := v_Path n;
     v_CopyOnWrite := v_CopyOnWrite n; v_Cache := v_Cache n; v_Format := f; v_VG := v_VG n;
     v_Writable := v_Writable n; v_DeviceClass := v_DeviceClass n |}.

Definition known_caches : list NodeVolumeCache :=
  [NodeVolumeCacheWriteback; NodeVolumeCacheNone; NodeVolumeCacheWritethrough;
   NodeVolumeCacheDirectSync; NodeVolumeCacheUnsafe].

Definition NodeVolumeSpec_validate (n : NodeVolumeSpec) : outcome NodeVolumeSpec :=
  let! n :=
    if is_empty (v_Cache n) then Ok (set_Cache n NodeVolumeCacheNone)
    else if bool_decide (v_Cache n ∈ known_caches) then Ok n
    else Err (errors_New "invalid cache type for volume") in
  if String.eqb (v_Kind n) NodeVolumeKindImage then
    if is_empty (v_Image n) then Err (errors_New "image volume must specify an image name")
    else Ok n
  else if String.eqb (v_Kind n) NodeVolumeKindLocalds then
    if is_empty (v_UserData n) then Err (errors_New "localds volume must specify user-data")
    else Ok n
  else if String.eqb (v_Kind n) NodeVolumeKindRaw then
    if is_empty (v_Size n) then Err (errors_New "raw volume must specify size")
    else if is_empty (v_Format n) then Ok (set_Format n NodeVolumeFormatQcow2)
    else if String.eqb (v_Format n) NodeVolumeFormatQcow2 ||
            String.eqb (v_Format n) NodeVolumeFormatRaw then Ok n
    else Err (errors_New "invalid format for raw volume")
  else if String.eqb (v_Kind n) NodeVolumeKindHostPath then
    if is_empty (v_Path n) then Err (errors_New "hostPath volume must specify a path name")
    else if negb (filepath_IsAbs (v_Path n)) then Err (errors_New "path should be absolute")
    else Ok n
  else Err (errors_New ("unknown volume kind: " ++ v_Kind n)%string).

(** [for _, volume := range n.Volumes { volume.validate() }]: the loop variable is
    a copy, so what validation assigns is lost. *)
Fixpoint validate_volumes (volumes : list NodeVolumeSpec) : outcome unit :=
  match volumes with
  | [] => Ok tt
  | volume :: volumes' =>
      let! _ := NodeVolumeSpec_validate volume in validate_volumes volumes'
  end.

(** [&SMPSpec{CPUs: n}] *)
Definition smp_of_cpu (n : Z) : SMPSpec :=
  {| smp_CPUs := n; smp_Cores := 0; smp_Threads := 0; smp_Dies := 0; smp_Sockets := 0;
     smp_MaxCPUs := 0 |}.

Definition set_SMP (n : NodeSpec) (cpu : Z) (smp : option SMPSpec) : NodeSpec :=
  {| nd_Kind := nd_Kind n; nd_Name := nd_Name n; nd_Interfaces := nd_Interfaces n;
     nd_Volumes := nd_Volumes n; nd_IgnitionFile := nd_IgnitionFile n; nd_CPU := cpu;
     nd_SMP := smp; nd_Memory := nd_Memory n; nd_NUMA := nd_NUMA n;
     nd_NetworkDeviceQueue := nd_NetworkDeviceQueue n; nd_UEFI := nd_UEFI n; nd_TPM := nd_TPM n;
     nd_SMBIOS := nd_SMBIOS n |}.

Definition NodeSpec_validate (n : NodeSpec) : outcome NodeSpec :=
  if is_empty (nd_Name n) then Err (errors_New "node name is empty")
  else
    let! _ := validate_volumes (nd_Volumes n) in
    if negb (nd_CPU n =? 0) && bool_decide (is_Some (nd_SMP n))
    then Err (errors_New "node cpu and smp are exclusive")
    else if (nd_CPU n =? 0) && negb (bool_decide (is_Some (nd_SMP n)))
    then Err (errors_New "node cpu or smp is required")
    else if negb (nd_CPU n =? 0) then Ok (set_SMP n 0 (Some (smp_of_cpu (nd_CPU n))))
    else Ok n.

Definition ImageSpec_validate (i : ImageSpec) : outcome ImageSpec :=
  let invalid := Err (errors_New ("invalid image spec: " ++ im_Name i)%string) in
  if is_empty (im_Name i) then invalid
  else if is_empty (im_URL i) && is_empty (im_File i) then invalid
  else if negb (is_empty (im_URL i)) && negb (is_empty (im_File i)) then invalid
  else Ok i.

(** ** Parsing *)

(** sigs.k8s.io/yaml: [yaml.Unmarshal] into each of the structures. *)
Class YamlOps : Type := {
  Unmarshal_baseConfig : list Z -> outcome string;
  Unmarshal_Network : list Z -> outcome NetworkSpec;
  Unmarshal_NetNS : list Z -> outcome NetNSSpec;
  Unmarshal_DeviceClass : list Z -> outcome DeviceClassSpec;
  Unmarshal_Node : list Z -> outcome NodeSpec;
  Unmarshal_Image : list Z -> outcome ImageSpec
}.

(** k8s.io/apimachinery: a frame reader, whose [Read] into a buffer of [n] bytes
    gives the bytes read and an error. *)
Class FrameReader (R : Type) : Type := {
  frame_Read : nat -> R -> (list Z * option error) * R
}.

Section Parse.
Context {R : Type} `{!FrameReader R} `{!YamlOps}.

Definition maxBytes : Z := 16 * 1024 * 1024.

(** The loop of [readSingleYamlDoc]: [acc] is [buf[:base]], [cap] is [len(buf)]. *)
Fixpoint read_doc_loop (fuel : nat) (acc : list Z) (cap : Z) : st R (list Z) :=
  match fuel with
  | O => slift Diverge
  | S fuel' => fun r =>
      let '((bs, err), r) := frame_Read (Z.to_nat (cap - Z.of_nat (length acc))) r in
      match err with
      | Some ErrShortBuffer =>
          match bs with
          | [] => (Err (errors_New ("got short buffer with n=0, base=" ++
                     pretty (Z.of_nat (length acc)) ++ ", cap=" ++ pretty cap)%string), r)
          | _ => if cap <? maxBytes then read_doc_loop fuel' (acc ++ bs) (cap + cap) r
                 else (Err (errors_New "yaml document is too large"), r)
          end
      | Some e => (Err e, r)
      | None => (Ok (acc ++ bs), r)
      end
  end.

(** The buffer doubles from 1 KiB to 16 MiB: fifteen rounds always suffice. *)
Definition readSingleYamlDoc : st R (list Z) := read_doc_loop 15 [] 1024.

Definition add_Network (c : ClusterSpec) (n : NetworkSpec) : ClusterSpec :=
  {| cs_Networks := cs_Networks c ++ [n]; cs_NetNSs := cs_NetNSs c;
     cs_DeviceClasses := cs_DeviceClasses c; cs_Nodes := cs_Nodes c; cs_Images := cs_Images c |}.
Definition add_NetNS (c : ClusterSpec) (n : NetNSSpec) : ClusterSpec :=
  {| cs_Networks := cs_Networks c; cs_NetNSs := cs_NetNSs c ++ [n];
     cs_DeviceClasses := cs_DeviceClasses c; cs_Nodes := cs_Nodes c; cs_Images := cs_Images c |}.
Definition add_DeviceClass (c : ClusterSpec) (n : DeviceClassSpec) : ClusterSpec :=
  {| cs_Networks := cs_Networks c; cs_NetNSs := cs_NetNSs c;
     cs_DeviceClasses := cs_DeviceClasses c ++ [n]; cs_Nodes := cs_Nodes c;
     cs_Images := cs_Images c |}.
Definition add_Node (c : ClusterSpec) (n : NodeSpec) : ClusterSpec :=
  {| cs_Networks := cs_Networks c; cs_NetNSs := cs_NetNSs c;
     cs_DeviceClasses := cs_DeviceClasses c; cs_Nodes := cs_Nodes c ++ [n];
     cs_Images := cs_Images c |}.
Definition add_Image (c : ClusterSpec) (n : ImageSpec) : ClusterSpec :=
  {| cs_Networks := cs_Networks c; cs_NetNSs := cs_NetNSs c;
     cs_DeviceClasses := cs_DeviceClasses c; cs_Nodes := cs_Nodes c;
     cs_Images := cs_Images c ++ [n] |}.

(** [fmt.Errorf("failed to unmarshal the ... yaml document %s: %w", y, err)] *)
Definition unmarshal_err {A : Type} (what : string) (y : list Z) (m : outcome A) : outcome A :=
  owrap ("failed to unmarshal the " ++ what ++ "yaml document " ++ string_of_bytes y)%string m.

(** The body of the loop of [Parse]: one document into the cluster. *)
Definition parse_doc (y : list Z) (cluster : ClusterSpec) : outcome ClusterSpec :=
  let! kind := unmarshal_err "" y (Unmarshal_baseConfig y) in
  if String.eqb kind "Network" then
    let! n := unmarshal_err "Network " y (Unmarshal_Network y) in
    let! n := owrap "invalid Network resource" (NetworkSpec_validate n) in
    Ok (add_Network cluster n)
  else if String.eqb kind "NetworkNamespace" then
    let! n := unmarshal_err "NetworkNamespace " y (Unmarshal_NetNS y) in
    let! n := owrap "invalid NetworkNamespace resource" (NetNSSpec_validate n) in
    Ok (add_NetNS cluster n)
  else if String.eqb kind "DeviceClass" then
    let! n := unmarshal_err "DeviceClass " y (Unmarshal_DeviceClass y) in
    let! n := owrap "invalid DeviceClass resource" (DeviceClassSpec_validate n) in
    Ok (add_DeviceClass cluster n)
  else if String.eqb kind "Node" then
    let! n := unmarshal_err "Node " y (Unmarshal_Node y) in
    let! n := owrap "invalid Node resource" (NodeSpec_validate n) in
    Ok (add_Node cluster n)
  else if String.eqb kind "Image" then
    let! i := unmarshal_err "Image " y (Unmarshal_Image y) in
    let! i := owrap "invalid Image resource" (ImageSpec_validate i) in
    Ok (add_Image cluster i)
  else Err (errors_New ("unknown resource: " ++ kind)%string).

(** The loop of [Parse]; a read error other than [io.EOF] is not looked at, the
    document is then nil. *)
Fixpoint parse_loop (fuel : nat) (cluster : ClusterSpec) : st R ClusterSpec :=
  match fuel with
  | O => slift Diverge
  | S fuel' =>
      let* r := stry readSingleYamlDoc in
      match r with
      | inr EOF => sret cluster
      | _ =>
          let y := match r with inl y => y | inr _ => [] end in
          let* cluster := slift (parse_doc y cluster) in
          parse_loop fuel' cluster
      end
  end.

Definition Parse (fuel : nat) : st R ClusterSpec := parse_loop fuel empty_cluster.

End Parse.

(** ** What validation accepts *)

Definition network_ok (n : NetworkSpec) : Prop :=
  (String.length (nw_Name n) <= 15)%nat /\
  ((nw_Type n = NetworkInternal /\ nw_UseNAT n = false /\ nw_Address n = "") \/
   (nw_Type n = NetworkExternal /\ nw_Address n <> "") \/
   (nw_Type n = NetworkBMC /\ nw_UseNAT n = false /\ nw_Address n <> "")).

Definition app_ok (app : option NetNSAppSpec) : Prop :=
  exists a, app = Some a /\ nsa_Command a <> [].

(** Nil interfaces are not looked at. *)
Definition netns_ok (n : NetNSSpec) : Prop :=
  ns_Name n <> "" /\ ns_Interfaces n <> [] /\
  Forall app_ok (ns_Apps n).

(** A nil app is met before an app without a command. *)
Definition nil_app_met (n : NetNSSpec) : Prop :=
  ns_Name n <> "" /\ ns_Interfaces n <> [] /\
  exists before after, ns_Apps n = before ++ None :: after /\ Forall app_ok before.

Definition device_class_ok (n : DeviceClassSpec) : Prop :=
  dc_Name n <> "" /\ filepath_IsAbs (dc_Path n) = true.

Definition volume_kind_ok (v : NodeVolumeSpec) : Prop :=
  (v_Kind v = NodeVolumeKindImage /\ v_Image v <> "") \/
  (v_Kind v = NodeVolumeKindLocalds /\ v_UserData v <> "") \/
  (v_Kind v = NodeVolumeKindRaw /\ v_Size v <> "" /\
   (v_Format v = "" \/ v_Format v = NodeVolumeFormatQcow2 \/ v_Format v = NodeVolumeFormatRaw)) \/
  (v_Kind v = NodeVolumeKindHostPath /\ filepath_IsAbs (v_Path v) = true).

Definition volume_ok (v : NodeVolumeSpec) : Prop :=
  (v_Cache v = "" \/ v_Cache v ∈ known_caches) /\ volume_kind_ok v.

Definition image_ok (i : ImageSpec) : Prop :=
  im_Name i <> "" /\ ((im_URL i <> "" /\ im_File i = "") \/ (im_URL i = "" /\ im_File i <> "")).

(** A node after validation: the CPU count is in SMP. *)
Definition node_ok (n : NodeSpec) : Prop :=
  nd_Name n <> "" /\ Forall volume_ok (nd_Volumes n) /\ nd_CPU n = 0 /\ is_Some (nd_SMP n).

Definition cluster_ok (c : ClusterSpec) : Prop :=
  Forall network_ok (cs_Networks c) /\ Forall netns_ok (cs_NetNSs c) /\
  Forall device_class_ok (cs_DeviceClasses c) /\ Forall node_ok (cs_Nodes c) /\
  Forall image_ok (cs_Images c).

(** The defaults [NodeVolumeSpec_validate] fills in. *)
Definition volume_defaults (v : NodeVolumeSpec) : NodeVolumeSpec :=
  let v := if is_empty (v_Cache v) then set_Cache v NodeVolumeCacheNone else v in
  if String.eqb (v_Kind v) NodeVolumeKindRaw && is_empty (v_Format v)
  then set_Format v NodeVolumeFormatQcow2 else v.

(** *** Lemmas *)

Lemma is_empty_spec s : reflect (s = "") (is_empty s).
Proof. apply String.eqb_spec. Qed.

(** Case analysis on the string tests of the goal. *)
Ltac string_cases :=
  repeat match goal with
         | |- context [is_empty ?s] => destruct (is_empty_spec s)
         | |- context [String.eqb ?a ?b] => destruct (String.eqb_spec a b)
         end.

(** One case of [validate n = Ok n' <-> ok n /\ n' = n]. *)
Ltac accept_case :=
  split; [intros [= <-]; (split; [|reflexivity]); intuition congruence
         |intros [? ->]; first [reflexivity|exfalso; intuition congruence]].

Lemma NetworkSpec_validate_ok n n' :
  NetworkSpec_validate n = Ok n' <-> network_ok n /\ n' = n.
Proof.
  unfold NetworkSpec_validate, network_ok, maxNetworkNameLen, NetworkInternal, NetworkExternal,
    NetworkBMC.
  destruct (Z.ltb_spec 15 (Z.of_nat (String.length (nw_Name n)))) as [Hl|Hl];
    [split; [done|intros [[? _] _]; lia]|].
  assert (Hl' : (String.length (nw_Name n) <= 15)%nat) by lia. clear Hl.
  string_cases; destruct (nw_UseNAT n); cbn [negb]; accept_case.
Qed.

Lemma app_ok_Some a : app_ok (Some a) <-> nsa_Command a <> [].
Proof. split; [by intros (a' & [= <-] & H)|by exists a]. Qed.
Lemma app_ok_None : ~ app_ok None.
Proof. by intros (a & [=] & _). Qed.

Lemma validate_apps_ok apps : validate_apps apps = Ok tt <-> Forall app_ok apps.
Proof.
  induction apps as [|[app|] apps IH]; cbn [validate_apps]; [by split| |].
  - rewrite Forall_cons, <- IH, app_ok_Some. destruct (nsa_Command app); intuition congruence.
  - split; [done|]. intros [H _]%Forall_cons. by destruct (app_ok_None H).
Qed.

Lemma validate_apps_panic apps p :
  validate_apps apps = Panic p <->
  p = NilDereference /\ exists before after, apps = before ++ None :: after /\ Forall app_ok before.
Proof.
  induction apps as [|[app|] apps IH]; cbn [validate_apps].
  - split; [done|]. by intros (_ & [|b l] & l' & E & _).
  - assert (H : forall before after, Some app :: apps = before ++ None :: after -> Forall app_ok before ->
      nsa_Command app <> [] /\ exists before', apps = before' ++ None :: after /\ Forall app_ok before').
    { intros [|b before] after E Hb; [done|]. injection E as <- E. apply Forall_cons in Hb as [Ha Hb].
      apply app_ok_Some in Ha. eauto. }
    destruct (nsa_Command app) as [|c l] eqn:Ec.
    + split; [done|]. intros (_ & before & after & E & Hb). by destruct (H _ _ E Hb).
    + rewrite IH. split; intros (Hp & before & after & E & Hb); (split; [done|]).
      * exists (Some app :: before), after. rewrite E. split; [done|]. constructor; [|done].
        apply app_ok_Some. by rewrite Ec.
      * destruct (H _ _ E Hb) as (_ & before' & ? & ?). eauto.
  - split; [intros [= <-]; split; [done|]; by exists [], apps|]. by intros [-> _].
Qed.

Lemma validate_apps_cases apps :
  validate_apps apps = Ok tt \/ (exists e, validate_apps apps = Err e) \/
  validate_apps apps = Panic NilDereference.
Proof.
  induction apps as [|[app|] apps IH]; cbn [validate_apps]; [by left| |by right; right].
  destruct (nsa_Command app); [right; left; eauto|done].
Qed.

Lemma NetNSSpec_validate_ok n n' :
  NetNSSpec_validate n = Ok n' <-> netns_ok n /\ n' = n.
Proof.
  unfold NetNSSpec_validate, netns_ok. rewrite <- validate_apps_ok.
  string_cases; [accept_case|]. destruct (ns_Interfaces n); [accept_case|].
  destruct (validate_apps_cases (ns_Apps n)) as [->|[[e ->]| ->]]; cbn [obind]; accept_case.
Qed.

Lemma NetNSSpec_validate_panic n p :
  NetNSSpec_validate n = Panic p <-> nil_app_met n /\ p = NilDereference.
Proof.
  unfold NetNSSpec_validate, nil_app_met. string_cases; [split; [done|]; intros [(? & _) _]; congruence|].
  destruct (ns_Interfaces n) as [|i l]; [split; [done|]; intros [(_ & ? & _) _]; congruence|].
  pose proof (validate_apps_panic (ns_Apps n) p) as H.
  destruct (validate_apps (ns_Apps n)) as [[]|e|q|]; cbn [obind]; split; try done.
  1,2,5: intros [(_ & _ & Hn) ->]; discriminate (proj2 H (conj eq_refl Hn)).
  - intros [= ->]. destruct (proj1 H eq_refl) as [-> Hn]. by split.
  - intros [(_ & _ & Hn) ->]. by injection (proj2 H (conj eq_refl Hn)) as ->.
Qed.

Lemma IsAbs_nonempty p : filepath_IsAbs p = true -> p <> "".
Proof. by intros H ->. Qed.

Lemma DeviceClassSpec_validate_ok n n' :
  DeviceClassSpec_validate n = Ok n' <-> device_class_ok n /\ n' = n.
Proof.
  unfold DeviceClassSpec_validate, device_class_ok. pose proof (IsAbs_nonempty (dc_Path n)).
  string_cases; [accept_case..|]. destruct (filepath_IsAbs (dc_Path n)); accept_case.
Qed.

Lemma ImageSpec_validate_ok i i' :
  ImageSpec_validate i = Ok i' <-> image_ok i /\ i' = i.
Proof.
  unfold ImageSpec_validate, image_ok. string_cases; cbn [negb andb]; accept_case.
Qed.


Lemma NodeVolumeSpec_validate_ok v v' :
  NodeVolumeSpec_validate v = Ok v' <-> volume_ok v /\ v' = volume_defaults v.
Proof.
  unfold NodeVolumeSpec_validate, volume_ok, volume_defaults, volume_kind_ok.
  pose proof (IsAbs_nonempty (v_Path v)) as Hp.
  destruct v as [kind name image ud nc size path cow cache format vg wr dc].
  unfold NodeVolumeKindImage, NodeVolumeKindLocalds, NodeVolumeKindRaw, NodeVolumeKindHostPath,
    NodeVolumeFormatQcow2, NodeVolumeFormatRaw.
  cbn [v_Kind v_Image v_UserData v_Size v_Path v_Cache v_Format] in *.
  destruct (is_empty_spec cache) as [Hc|Hc]; [|case_bool_decide as Hk];
    cbn [obind set_Cache v_Kind v_Image v_UserData v_Size v_Path v_Cache v_Format].
  3:{ split; [done|]. intros [[[?|?] _] _]; done. }
  all: repeat match goal with
         | |- context [String.eqb ?x ?k] =>
             is_var x; destruct (String.eqb_spec x k) as [->|?]; simpl String.eqb; cbv iota
         end; string_cases; cbn [andb orb negb]; try destruct (filepath_IsAbs path); cbn [negb];
    (split; [intros [= <-]; (split; [|first [reflexivity|exfalso; congruence]]);
               (split; [by auto|]); intuition congruence
            |intros [[_ Hk'] ->]; first [reflexivity|exfalso; intuition congruence]]).
Qed.

Lemma validate_volumes_ok vs : validate_volumes vs = Ok tt <-> Forall volume_ok vs.
Proof.
  induction vs as [|v vs IH]; cbn [validate_volumes]; [by split|].
  rewrite Forall_cons, <- IH. pose proof (NodeVolumeSpec_validate_ok v) as Hv.
  destruct (NodeVolumeSpec_validate v) as [w| | |]; cbn [obind].
  2-4: split; [done|]; intros [Hok _]; destruct (Hv (volume_defaults v)) as [_ E];
    by specialize (E (conj Hok eq_refl)).
  destruct (Hv w) as [Hok _]. specialize (Hok eq_refl). tauto.
Qed.

Lemma validate_volumes_cases vs : validate_volumes vs = Ok tt \/ exists e, validate_volumes vs = Err e.
Proof.
  induction vs as [|v vs IH]; cbn [validate_volumes]; [by left|].
  assert (Hv : (exists w, NodeVolumeSpec_validate v = Ok w) \/
               (exists e, NodeVolumeSpec_validate v = Err e)).
  { unfold NodeVolumeSpec_validate. repeat case_match; cbn [obind]; repeat case_match; eauto. }
  destruct Hv as [[w ->]|[e ->]]; cbn [obind]; [done|eauto].
Qed.

(** The node a valid node specification becomes. *)
Definition node_normal (n : NodeSpec) : NodeSpec :=
  if nd_CPU n =? 0 then n else set_SMP n 0 (Some (smp_of_cpu (nd_CPU n))).

Lemma NodeSpec_validate_ok n n' :
  NodeSpec_validate n = Ok n' <->
  (nd_Name n <> "" /\ Forall volume_ok (nd_Volumes n) /\
   (nd_CPU n = 0 <-> is_Some (nd_SMP n))) /\ n' = node_normal n.
Proof.
  unfold NodeSpec_validate, node_normal. rewrite <- validate_volumes_ok.
  string_cases; [accept_case|].
  destruct (validate_volumes_cases (nd_Volumes n)) as [->|[e ->]]; cbn [obind]; [|accept_case].
  destruct (Z.eqb_spec (nd_CPU n) 0) as [Hc|Hc]; cbn [negb andb]; case_bool_decide as Hs;
    cbn [negb]; split; try done.
  all: try (intros [= <-]; split; [|done]; split_and!; tauto).
  all: try (intros [(_ & _ & Hi) ->]; first [reflexivity|exfalso; tauto]).
Qed.

Lemma node_normal_ok n n' : NodeSpec_validate n = Ok n' -> node_ok n'.
Proof.
  intros [(Hn & Hv & Hs) ->]%NodeSpec_validate_ok. unfold node_ok, node_normal.
  destruct (Z.eqb_spec (nd_CPU n) 0) as [Hc|Hc]; [by split_and!; try tauto|].
  cbn. by split_and!; [..|eexists].
Qed.

(** ** Reading documents *)

(** What the framer promises: it delivers its documents one by one; a document
    that does not fit is continued by the next read, after [io.ErrShortBuffer]. *)
Class FrameReaderLaws (R : Type) `{!FrameReader R} : Type := {
  frames : R -> list (list Z);
  frame_Read_law : forall n r,
    match frames r with
    | [] => exists r', frame_Read n r = (([], Some EOF), r') /\ frames r' = []
    | d :: ds =>
        if (length d <=? n)%nat
        then exists r', frame_Read n r = ((d, None), r') /\ frames r' = ds
        else exists r', frame_Read n r = ((take n d, Some ErrShortBuffer), r') /\
               frames r' = drop n d :: ds
    end
}.

Definition too_large : error := errors_New "yaml document is too large".

Section ReaderLemmas.
Context {R : Type} `{!FrameReader R}.

(** The loop ends whatever the reader does: the buffer doubles up to the limit. *)
Lemma read_doc_loop_total fuel acc cap (r : R) :
  (0 < fuel)%nat -> 0 <= cap -> maxBytes <= cap * 2 ^ (Z.of_nat fuel - 1) ->
  (read_doc_loop fuel acc cap r).1 <> Diverge.
Proof.
  revert acc cap r. induction fuel as [|fuel IH]; intros acc cap r Hf Hc Hm; [lia|].
  cbn [read_doc_loop]. destruct (frame_Read _ r) as [[bs err] r'].
  destruct err as [[]|]; try done. destruct bs; [done|].
  destruct (Z.ltb_spec cap maxBytes) as [Hlt|]; [|done].
  apply IH; [|lia|].
  - destruct fuel; [|lia]. cbn in Hm. lia.
  - destruct fuel as [|fuel]; [cbn in Hm; lia|].
    replace (Z.of_nat (S (S fuel)) - 1) with (Z.succ (Z.of_nat (S fuel) - 1)) in Hm by lia.
    rewrite Z.pow_succ_r in Hm by lia. lia.
Qed.

Context {L : FrameReaderLaws R}.

(** A document that fits the limit is read whole; a larger one is refused once the
    buffer has reached the limit. *)
Lemma read_doc_loop_frame fuel acc cap r rem ds :
  frames r = rem :: ds -> Z.of_nat (length acc) < cap ->
  cap * 2 ^ (Z.of_nat fuel - 1) = maxBytes -> (0 < fuel)%nat ->
  if Z.of_nat (length acc + length rem) <=? maxBytes
  then exists r', read_doc_loop fuel acc cap r = (Ok (acc ++ rem), r') /\ frames r' = ds
  else (read_doc_loop fuel acc cap r).1 = Err too_large.
Proof.
  revert acc cap r rem. induction fuel as [|fuel IH]; intros acc cap r rem Hr Ha Hm Hf; [lia|].
  cbn [read_doc_loop]. pose proof (frame_Read_law (Z.to_nat (cap - Z.of_nat (length acc))) r) as HL.
  rewrite Hr in HL.
  assert (Hcap : cap <= maxBytes).
  { rewrite <- Hm. pose proof (Z.pow_pos_nonneg 2 (Z.of_nat (S fuel) - 1)). nia. }
  destruct (Nat.leb_spec (length rem) (Z.to_nat (cap - Z.of_nat (length acc)))) as [Hle|Hgt].
  - destruct HL as (r' & E & Hr'). rewrite E.
    rewrite (proj2 (Z.leb_le _ _)) by lia. eauto.
  - destruct HL as (r' & E & Hr'). rewrite E. set (n := Z.to_nat _) in *.
    destruct (take n rem) as [|z l] eqn:Et.
    { apply (f_equal length) in Et. rewrite length_take in Et. cbn in Et. lia. }
    rewrite <- Et in E |- *. clear Et.
    destruct (Z.ltb_spec cap maxBytes) as [Hlt|Hge].
    + destruct fuel as [|fuel]; [cbn in Hm; lia|].
      assert (Hm' : (cap + cap) * 2 ^ (Z.of_nat (S fuel) - 1) = maxBytes).
      { rewrite <- Hm. replace (Z.of_nat (S (S fuel)) - 1) with (Z.succ (Z.of_nat (S fuel) - 1)) by lia.
        rewrite Z.pow_succ_r by lia. ring. }
      specialize (IH (acc ++ take n rem) (cap + cap) r' (drop n rem) Hr').
      rewrite length_app, length_take, length_drop in IH.
      specialize (IH ltac:(lia) Hm' ltac:(lia)).
      replace (length acc + n `min` length rem + (length rem - n))%nat
        with (length acc + length rem)%nat in IH by lia.
      by rewrite <- app_assoc, take_drop in IH.
    + rewrite (proj2 (Z.leb_gt _ _)) by lia. done.
Qed.

Lemma readSingleYamlDoc_frame r d ds :
  frames r = d :: ds -> Z.of_nat (length d) <= maxBytes ->
  exists r', readSingleYamlDoc r = (Ok d, r') /\ frames r' = ds.
Proof.
  intros Hr Hd. pose proof (read_doc_loop_frame 15 [] 1024 r d ds Hr) as H.
  cbn [length Nat.add] in H. rewrite (proj2 (Z.leb_le _ _)) in H by done.
  apply H; [done|reflexivity|lia].
Qed.

Lemma readSingleYamlDoc_eof r :
  frames r = [] -> exists r', readSingleYamlDoc r = (Err EOF, r') /\ frames r' = [].
Proof.
  intros Hr. unfold readSingleYamlDoc. cbn [read_doc_loop].
  pose proof (frame_Read_law (Z.to_nat (1024 - Z.of_nat (@length Z []))) r) as HL.
  rewrite Hr in HL. destruct HL as (r' & E & Hr'). rewrite E. eauto.
Qed.

End ReaderLemmas.

(** ** The parser as a fold over documents *)

Section ParseSpec.
Context `{!YamlOps}.

Fixpoint parse_docs (ds : list (list Z)) (c : ClusterSpec) : outcome ClusterSpec :=
  match ds with
  | [] => Ok c
  | d :: ds' => let! c := parse_doc d c in parse_docs ds' c
  end.

(** A document's resource is appended, whatever is already there. *)
Lemma parse_doc_shift d c0 c :
  parse_doc d (Append c0 c) = let! c' := parse_doc d c in Ok (Append c0 c').
Proof.
  unfold parse_doc.
  destruct (unmarshal_err "" d (Unmarshal_baseConfig d)) as [kind| | |]; cbn [obind]; try done.
  repeat match goal with
  | |- context [if ?b then _ else _] => destruct b
  | |- context [obind (unmarshal_err ?w d ?m) _] =>
      destruct (unmarshal_err w d m); cbn [obind]; try done
  | |- context [obind (owrap ?w ?m) _] => destruct (owrap w m); cbn [obind]; try done
  end; try done;
  unfold Append, add_Network, add_NetNS, add_DeviceClass, add_Node, add_Image; cbn;
  by rewrite app_assoc.
Qed.

Lemma parse_docs_shift ds c0 c :
  parse_docs ds (Append c0 c) = let! c' := parse_docs ds c in Ok (Append c0 c').
Proof.
  revert c. induction ds as [|d ds IH]; intros c; cbn [parse_docs obind]; [done|].
  rewrite parse_doc_shift. destruct (parse_doc d c); cbn [obind]; done.
Qed.

Lemma Append_empty_r c : Append c empty_cluster = c.
Proof. destruct c. unfold Append. cbn. by rewrite !app_nil_r. Qed.

Lemma parse_docs_app ds1 ds2 c :
  parse_docs (ds1 ++ ds2) c = let! c1 := parse_docs ds1 c in parse_docs ds2 c1.
Proof.
  revert c. induction ds1 as [|d ds1 IH]; intros c; cbn [parse_docs obind app]; [done|].
  destruct (parse_doc d c); cbn [obind]; done.
Qed.

Lemma parse_doc_ok d c c' : parse_doc d c = Ok c' -> cluster_ok c -> cluster_ok c'.
Proof.
  unfold parse_doc. intros E Hc.
  apply obind_ok in E as (kind & _ & E).
  repeat match type of E with (if ?b then _ else _) = _ => destruct b end; [..|done].
  all: apply obind_ok in E as (x & _ & E); apply obind_ok in E as (y & Ev & [= <-]).
  all: apply owrap_ok in Ev; destruct Hc as (H1 & H2 & H3 & H4 & H5).
  all: unfold cluster_ok, add_Network, add_NetNS, add_DeviceClass, add_Node, add_Image;
    cbn [cs_Networks cs_NetNSs cs_DeviceClasses cs_Nodes cs_Images];
    rewrite ?Forall_app, ?Forall_singleton; split_and!; try done.
  - by apply NetworkSpec_validate_ok in Ev as [? ->].
  - by apply NetNSSpec_validate_ok in Ev as [? ->].
  - by apply DeviceClassSpec_validate_ok in Ev as [? ->].
  - by apply node_normal_ok in Ev.
  - by apply ImageSpec_validate_ok in Ev as [? ->].
Qed.

Lemma empty_cluster_ok : cluster_ok empty_cluster.
Proof. unfold cluster_ok. cbn. split_and!; apply Forall_nil_2. Qed.

Lemma parse_docs_ok ds c c' : parse_docs ds c = Ok c' -> cluster_ok c -> cluster_ok c'.
Proof.
  revert c. induction ds as [|d ds IH]; intros c; cbn [parse_docs]; [by intros [= ->]|].
  intros E Hc. apply obind_ok in E as (c1 & E1 & E2). eauto using parse_doc_ok.
Qed.

End ParseSpec.

Section ParseLemmas.
Context {R : Type} `{!FrameReader R} `{!YamlOps}.

Lemma parse_loop_ok fuel c (r r' : R) c' :
  parse_loop fuel c r = (Ok c', r') -> cluster_ok c -> cluster_ok c'.
Proof.
  revert c r. induction fuel as [|fuel IH]; intros c r; cbn [parse_loop]; [done|].
  intros E Hc. apply sbind_ok in E as (y & r1 & _ & E).
  destruct y as [y|[]]; try (injection E as <- _; done);
    apply sbind_ok in E as (c1 & r2 & [= Ep <-] & E); eauto using parse_doc_ok.
Qed.

Context {L : FrameReaderLaws R}.

Lemma parse_loop_docs ds fuel c (r : R) :
  frames r = ds -> Forall (fun d => Z.of_nat (length d) <= maxBytes) ds ->
  (length ds < fuel)%nat -> (parse_loop fuel c r).1 = parse_docs ds c.
Proof.
  revert fuel c r. induction ds as [|d ds IH]; intros [|fuel] c r Hr Hs Hf; cbn in Hf; try lia;
    cbn [parse_loop parse_docs].
  - destruct (readSingleYamlDoc_eof r Hr) as (r' & E & _). unfold sbind, stry. by rewrite E.
  - apply Forall_cons in Hs as [Hd Hs].
    destruct (readSingleYamlDoc_frame r d ds Hr Hd) as (r' & E & Hr').
    unfold sbind at 1, stry. rewrite E. unfold sbind, slift.
    destruct (parse_doc d c); cbn [obind fst]; try done. apply IH; [done..|lia].
Qed.

End ParseLemmas.

(** ** A framer and a decoder for the demonstrations *)

(** Documents in a list. *)
#[export] Instance list_reader : FrameReader (list (list Z)) := {|
  frame_Read := fun n r =>
    match r with
    | [] => (([], Some EOF), [])
    | d :: ds => if (length d <=? n)%nat then ((d, None), ds)
                 else ((take n d, Some ErrShortBuffer), drop n d :: ds)
    end
|}.

#[export] Instance list_reader_laws : FrameReaderLaws (list (list Z)).
Proof.
  refine {| frames := fun r => r |}. intros n [|d ds]; cbn [frame_Read list_reader]; [eauto|].
  destruct (length d <=? n)%nat; eauto.
Defined.

(** A decoder of documents of the form kind, newline, name. *)
Definition doc_split (y : list Z) : string * string :=
  match list_find (fun b => b = 10) y with
  | Some (i, _) => (string_of_bytes (take i y), string_of_bytes (drop (S i) y))
  | None => (string_of_bytes y, "")
  end.

#[export] Instance line_yaml : YamlOps := {|
  Unmarshal_baseConfig := fun y => Ok (doc_split y).1;
  Unmarshal_Network := fun y => let (k, n) := doc_split y in
    Ok {| nw_Kind := k; nw_Name := n; nw_Type := NetworkInternal; nw_UseNAT := false;
          nw_Address := "" |};
  Unmarshal_NetNS := fun y => let (k, n) := doc_split y in
    Ok {| ns_Kind := k; ns_Name := n; ns_Interfaces := [Some {| nsi_Network := "net"; nsi_Addresses := [] |}];
          ns_Apps := []; ns_InitScripts := [] |};
  Unmarshal_DeviceClass := fun y => let (k, n) := doc_split y in
    Ok {| dc_Kind := k; dc_Name := n; dc_Path := "/dev" |};
  Unmarshal_Node := fun y => let (k, n) := doc_split y in
    Ok {| nd_Kind := k; nd_Name := n; nd_Interfaces := []; nd_Volumes := []; nd_IgnitionFile := "";
          nd_CPU := 2; nd_SMP := None; nd_Memory := "1G"; nd_NUMA := {| numa_Nodes := 0 |};
          nd_NetworkDeviceQueue := 0; nd_UEFI := false; nd_TPM := false;
          nd_SMBIOS := {| smb_Manufacturer := ""; smb_Product := ""; smb_Serial := "" |} |};
  Unmarshal_Image := fun y => let (k, n) := doc_split y in
    Ok {| im_Kind := k; im_Name := n; im_URL := "http://example.com"; im_File := "";
          im_CompressionMethod := "" |}
|}.

Definition doc (kind name : string) : list Z :=
  bytes_of_string kind ++ [10] ++ bytes_of_string name.

Definition demo_file1 : list (list Z) := [doc "Network" "ext-net"; doc "Node" "boot-0"].
Definition demo_file2 : list (list Z) := [doc "Image" "ubuntu"; doc "Node" "boot-1"].

(** ** Properties *)

(** The volume with another name. *)
Definition renamed (name : string) (v : NodeVolumeSpec) : NodeVolumeSpec :=
  {| v_Kind := v_Kind v; v_Name := name; v_Image := v_Image v; v_UserData := v_UserData v;
     v_NetworkConfig := v_NetworkConfig v; v_Size := v_Size v; v_Path := v_Path v;
     v_CopyOnWrite := v_CopyOnWrite v; v_Cache := v_Cache v; v_Format := v_Format v; v_VG := v_VG v;
     v_Writable := v_Writable v; v_DeviceClass := v_DeviceClass v |}.

(** C15: validation accepts exactly the resources the rules describe, and changes
    them only as described: networks, namespaces, device classes and images not at
    all, volumes by their defaults, and a node's CPU count moves into its SMP
    structure while its volumes stay as they were given.  Two things the rules do not
    say: the name of a volume, which docs/resource.md requires, is not looked at, so an
    empty one is accepted; and a nil app in a namespace, which is a null in the YAML,
    is dereferenced, unless an app without a command comes before it. *)
Theorem validation_exact :
  (forall n n', NetworkSpec_validate n = Ok n' <-> network_ok n /\ n' = n) /\
  (forall n n', NetNSSpec_validate n = Ok n' <-> netns_ok n /\ n' = n) /\
  (forall n p, NetNSSpec_validate n = Panic p <-> nil_app_met n /\ p = NilDereference) /\
  (forall n n', DeviceClassSpec_validate n = Ok n' <-> device_class_ok n /\ n' = n) /\
  (forall i i', ImageSpec_validate i = Ok i' <-> image_ok i /\ i' = i) /\
  (forall v v', NodeVolumeSpec_validate v = Ok v' <-> volume_ok v /\ v' = volume_defaults v) /\
  (forall v name, volume_ok (renamed name v) <-> volume_ok v) /\
  (forall n n', NodeSpec_validate n = Ok n' <->
     (nd_Name n <> "" /\ Forall volume_ok (nd_Volumes n) /\
      (nd_CPU n = 0 <-> is_Some (nd_SMP n))) /\ n' = node_normal n) /\
  (forall n, nd_Volumes (node_normal n) = nd_Volumes n).
Proof.
  split_and!; auto using NetworkSpec_validate_ok, NetNSSpec_validate_ok, NetNSSpec_validate_panic,
    DeviceClassSpec_validate_ok, ImageSpec_validate_ok, NodeVolumeSpec_validate_ok,
    NodeSpec_validate_ok.
  intros n. unfold node_normal. by destruct (nd_CPU n =? 0).
Qed.

(** Reading a document always ends, whatever the reader does; from a framer that
    keeps its contract a document of up to 16 MiB is read whole and exactly one
    document is consumed, and a longer one is refused. *)
Theorem readSingleYamlDoc_exact {R : Type} `{!FrameReader R} (r : R) :
  (readSingleYamlDoc r).1 <> Diverge /\
  forall (L : FrameReaderLaws R) d ds, frames r = d :: ds ->
    if Z.of_nat (length d) <=? maxBytes
    then exists r', readSingleYamlDoc r = (Ok d, r') /\ frames r' = ds
    else (readSingleYamlDoc r).1 = Err too_large.
Proof.
  split.
  - apply read_doc_loop_total; [lia|lia|]. apply Z.leb_le. reflexivity.
  - intros L d ds Hr. apply (read_doc_loop_frame 15 [] 1024 r d ds Hr); [done|reflexivity|lia].
Qed.

(** C16: whatever the reader and the decoder do, a cluster that [Parse] returns has
    only valid resources, and every node's CPU count is in its SMP structure. *)
Theorem Parse_sound {R : Type} `{!FrameReader R} `{!YamlOps} (fuel : nat) (r r' : R)
  (c : ClusterSpec) :
  Parse fuel r = (Ok c, r') -> cluster_ok c.
Proof. intros E. eapply parse_loop_ok; [exact E|apply empty_cluster_ok]. Qed.

Lemma Parse_sound_witness :
  exists c, (Parse 3 demo_file1).1 = Ok c /\ length (cs_Nodes c) = 1%nat /\ cluster_ok c.
Proof.
  destruct (Parse 3 demo_file1) as [[c| | |] r'] eqn:E; [|vm_compute in E; discriminate..].
  exists c. split; [reflexivity|]. split; [vm_compute in E; by injection E as <- <-|].
  exact (Parse_sound 3 demo_file1 r' c E).
Defined.

(** [Parse] is the fold over the documents.  From a framer that keeps its
    contract, with no document above 16 MiB, the loop ends after one round per
    document and one for the end, and the result is that of handling the documents
    in order: the first failing document decides the error. *)
Theorem Parse_documents {R : Type} `{!FrameReader R} {L : FrameReaderLaws R} `{!YamlOps}
  (fuel : nat) (r : R) :
  Forall (fun d => Z.of_nat (length d) <= maxBytes) (frames r) ->
  (length (frames r) < fuel)%nat ->
  (Parse fuel r).1 = parse_docs (frames r) empty_cluster.
Proof. intros Hs Hf. by apply parse_loop_docs. Qed.

Lemma Parse_documents_witness :
  (Parse 3 demo_file1).1 = parse_docs demo_file1 empty_cluster.
Proof.
  apply (Parse_documents (L := list_reader_laws) 3 demo_file1); [|apply le_n].
  repeat (constructor; [apply Z.leb_le; vm_compute; reflexivity|]). constructor.
Defined.

(** Parsing files one by one and appending the clusters is parsing the
    documents of all files in one: no resource is lost, duplicated or reordered
    within its kind. *)
Theorem Parse_append {R : Type} `{!FrameReader R} {L : FrameReaderLaws R} `{!YamlOps}
  (f1 f2 f : nat) (r1 r2 r : R) (c1 c2 : ClusterSpec) :
  frames r = frames r1 ++ frames r2 ->
  Forall (fun d => Z.of_nat (length d) <= maxBytes) (frames r) ->
  (length (frames r1) < f1)%nat -> (length (frames r2) < f2)%nat -> (length (frames r) < f)%nat ->
  (Parse f1 r1).1 = Ok c1 -> (Parse f2 r2).1 = Ok c2 -> (Parse f r).1 = Ok (Append c1 c2).
Proof.
  intros Hr Hs H1 H2 Hf E1 E2. pose proof Hs as Hs'. rewrite Hr in Hs'.
  apply Forall_app in Hs' as [Hs1 Hs2]. unfold Parse in *.
  rewrite (parse_loop_docs (frames r1)) in E1 by done.
  rewrite (parse_loop_docs (frames r2)) in E2 by done.
  rewrite (parse_loop_docs (frames r)), Hr, parse_docs_app, E1 by done. cbn [obind].
  rewrite <- (Append_empty_r c1) at 1. by rewrite parse_docs_shift, E2.
Qed.

Lemma Parse_append_witness :
  exists c1 c2, (Parse 3 demo_file1).1 = Ok c1 /\ (Parse 3 demo_file2).1 = Ok c2 /\
    (Parse 5 (demo_file1 ++ demo_file2)).1 = Ok (Append c1 c2).
Proof.
  destruct ((Parse 3 demo_file1).1) as [c1| | |] eqn:E1; [|vm_compute in E1; discriminate..].
  destruct ((Parse 3 demo_file2).1) as [c2| | |] eqn:E2; [|vm_compute in E2; discriminate..].
  exists c1, c2. split; [reflexivity|]. split; [reflexivity|].
  refine (Parse_append (L := list_reader_laws) 3 3 5 demo_file1 demo_file2 (demo_file1 ++ demo_file2) c1 c2 eq_refl
    _ _ _ _ E1 E2); [|apply Nat.leb_le; reflexivity..].
  repeat (constructor; [apply Z.leb_le; vm_compute; reflexivity|]). constructor.
Defined.
