(* ===== verification/Host.v ===== *)
(** * The host (os, os/exec, io) and util/compress.go

    The operations of the host the program calls, as an interface on the host's
    state: file system calls, files, commands.  A file or reader is a handle; what a
    command does is the host's.  [util.WriteToFile] and the decompressors are built
    on them. *)

From S2P Require Import Prelude GoPath.

Local Open Scope Z_scope.
Local Open Scope go_scope.

(** What [os.Stat] reports; [os.IsNotExist] tells the second from the third. *)
Inductive stat_result : Type :=
| Exists (isDir : bool)
| NotExist
| StatFailed (err : error).

Abbreviation file := nat.

Class Host (H : Type) : Type := {
  os_Stat : string -> H -> stat_result * H;
  os_MkdirAll : string -> st H unit;
  os_Getwd : st H string;
  os_Open : string -> st H file;
  os_Create : string -> st H file;
  (** [os.OpenFile(p, os.O_WRONLY|os.O_CREATE, 0644)] *)
  os_OpenFile : string -> st H file;
  file_Close : file -> H -> H;
  (** [io.Copy(dst, src)] *)
  io_Copy : file -> file -> st H unit;
  gzip_NewReader : file -> st H file;
  bzip2_NewReader : file -> st H file;
  (** [well.CommandContext(ctx, args...).Run()] and [.Output()] *)
  exec_Run : list string -> st H unit;
  exec_Output : list string -> st H (list Z)
}.

(** Files made, moved and removed one at a time. *)
Class HostFiles (H : Type) : Type := {
  os_Remove : string -> st H unit;
  os_RemoveAll : string -> st H unit;
  os_Mkdir : string -> st H unit;
  (** [f, err := os.CreateTemp(dir, pattern)] with [f.Name()] *)
  os_CreateTemp : string -> string -> st H (file * string);
  file_Sync : file -> st H unit;
  os_Rename : string -> string -> st H unit
}.

(** net/http: [http.NewRequest("GET", url, nil)] and [client.Do(req)]. *)
Record response : Type := {
  StatusCode : Z;
  Status : string;
  ContentLength : string;
  Body : file
}.

Class Http (H : Type) : Type := {
  http_NewRequest : string -> outcome unit;
  http_Do : string -> st H response
}.

(** Processes, sockets and time. *)
Class Procs (H : Type) : Type := {
  (** [well.CommandContext(ctx, args...)], then [Start()] and [Wait()] *)
  exec_Start : list string -> st H nat;
  proc_Wait : nat -> st H unit;
  (** [net.Dial("unix", path)] and [conn.Close()] *)
  net_Dial : string -> st H nat;
  conn_Close : nat -> st H unit;
  (** [select] on 100 ms and [ctx.Done()]: whether the time passed *)
  wait_tick : H -> bool * H
}.

Inductive Decompressor : Type :=
| bzip2Decompressor
| gzipDecompressor.

(** [NewDecompressor]: the empty format gives a nil decompressor. *)
Definition NewDecompressor (format : string) : outcome (option Decompressor) :=
  if String.eqb format "bzip2" then Ok (Some bzip2Decompressor)
  else if String.eqb format "gzip" then Ok (Some gzipDecompressor)
  else if String.eqb format "" then Ok None
  else Err (errors_New ("unsupported compression format: " +:+ format)).

Section Host.
Context {H : Type} `{!Host H}.

Definition Decompress (d : Decompressor) (r : file) : st H file :=
  match d with
  | bzip2Decompressor => bzip2_NewReader r
  | gzipDecompressor => gzip_NewReader r
  end.

(** [defer f.Close()] around a body. *)
Definition with_file {A : Type} (f : file) (body : st H A) : st H A :=
  fun h => let (o, h') := body h in (o, file_Close f h').

(** [filepath.Abs] *)
Definition filepath_Abs (path : string) : st H string :=
  if rooted path then sret (Clean path)
  else let* wd := os_Getwd in sret (Join [wd; path]).

Definition WriteToFile (srcPath destPath : string) (decomp : option Decompressor) : st H unit :=
  let* f := os_Open srcPath in
  with_file f (
    let* destFile := os_OpenFile destPath in
    with_file destFile (
      let* src := match decomp with
                  | Some d => Decompress d f
                  | None => sret f
                  end in
      io_Copy destFile src)).

End Host.
