(* ===== verification/Command.v ===== *)
(** * The pmctl2 command line (cmd/pmctl2/cmd/root.go, completion.go)

    What the commands of pmctl2 share: the endpoint, standard output, how cobra runs a
    command.  A command that fails ends the process with status 1: its error. *)

From S2P Require Import Prelude GoBinary GoCrypto GoPath Host.

Local Open Scope Z_scope.
Local Open Scope go_scope.

Inductive shell : Type := Bash | Zsh | Fish | PowerShell.

(** Standard output, the log configuration, and cobra's completion scripts. *)
Class Terminal (W : Type) : Type := {
  stdout_Write : list Z -> st W unit;
  LogConfig_Apply : st W unit;
  GenCompletion : shell -> st W unit
}.

(** root.go: the flag [--endpoint] and its default. *)
Record globalParams : Type := { endpoint : string }.
Definition default_params : globalParams := {| endpoint := "http://localhost:10808" |}.

Section Command.
Context {W : Type} `{!Terminal W}.

(** [fmt.Printf], [fmt.Println]: errors are ignored. *)
Definition fmt_Print (text : list Z) : st W unit := swarn (stdout_Write text).

(** A command: cobra checks the arguments, runs [PersistentPreRun] of the root, then the
    command.  [well.Go(f); well.Stop(); well.Wait()] gives the error of [f]. *)
Definition run_command (Args : list string -> outcome unit) (Run : list string -> st W unit)
  (args : list string) : st W unit :=
  slift (Args args) >>> LogConfig_Apply >>> Run args.

(** [Execute] of root.go, around what cobra did: the exit status of the process. *)
Definition Execute (rootCmd_Execute : st W unit) : st W Z :=
  let* r := stry rootCmd_Execute in
  match r with
  | inl _ => sret 0
  | inr err => fmt_Print (bytes_of_string (error_Error err) ++ [10]) >>> sret 1
  end.

(** [args[i]] *)
Definition arg (args : list string) (i : nat) : outcome string :=
  match args !! i with
  | Some a => Ok a
  | None => Panic IndexOutOfRange
  end.

(** A command without [Args] takes any arguments. *)
Definition any_args (args : list string) : outcome unit := Ok tt.

(** completion.go *)
Definition completion_ValidArgs : list string := ["bash"; "zsh"; "fish"; "powershell"].

(** [cobra.MatchAll(cobra.ExactArgs(1), cobra.OnlyValidArgs)] *)
Definition completion_Args (args : list string) : outcome unit :=
  if negb (length args =? 1)%nat then Err (errors_New "accepts 1 arg(s)")
  else if forallb (fun a => bool_decide (a ∈ completion_ValidArgs)) args then Ok tt
  else Err (errors_New "invalid argument").

(** The errors of the generators are dropped. *)
Definition completion_Run (args : list string) : st W unit :=
  let* a := slift (arg args 0) in
  if String.eqb a "bash" then swarn (GenCompletion Bash)
  else if String.eqb a "zsh" then swarn (GenCompletion Zsh)
  else if String.eqb a "fish" then swarn (GenCompletion Fish)
  else if String.eqb a "powershell" then swarn (GenCompletion PowerShell)
  else sret tt.

(** A command whose arguments are refused does nothing. *)
Lemma refused_args Args Run args e (w : W) :
  Args args = Err e -> run_command Args Run args w = (Err e, w).
Proof. intros H. unfold run_command, sbind, slift. by rewrite H. Qed.

(** A command whose arguments are accepted runs. *)
Lemma accepted_args Args Run args (w w1 : W) :
  Args args = Ok tt -> LogConfig_Apply w = (Ok tt, w1) -> run_command Args Run args w = Run args w1.
Proof. intros H H1. unfold run_command, sbind, slift. by rewrite H, H1. Qed.

End Command.
