(* ===== verification/Forward.v ===== *)
(** * Port forwarding (cmd/pmctl2/cmd/forward.go, forward_add.go, forward_delete.go, forward_list.go)

    A forward setting is a transient systemd service that runs socat; the setting itself
    is kept as JSON in the description of the service.  systemd is the host's: what it
    documents of its services is [SystemdLaws].  The commands implement a table of
    settings by local port. *)

From S2P Require Import Prelude GoPath GoStrings Json Marshal Host Command.

Local Open Scope Z_scope.
Local Open Scope go_scope.

(** ** forward.go *)

Record ForwardSetting : Type := {
  LocalPort : Z;
  PodName : string;
  RemoteHost : string;
  RemotePort : Z
}.

#[export] Instance ForwardSetting_eq_dec : EqDecision ForwardSetting.
Proof. solve_decision. Defined.

Definition set_LocalPort (x : Z) (f : ForwardSetting) : ForwardSetting :=
  {| LocalPort := x; PodName := PodName f; RemoteHost := RemoteHost f; RemotePort := RemotePort f |}.
Definition set_PodName (x : string) (f : ForwardSetting) : ForwardSetting :=
  {| LocalPort := LocalPort f; PodName := x; RemoteHost := RemoteHost f; RemotePort := RemotePort f |}.
Definition set_RemoteHost (x : string) (f : ForwardSetting) : ForwardSetting :=
  {| LocalPort := LocalPort f; PodName := PodName f; RemoteHost := x; RemotePort := RemotePort f |}.
Definition set_RemotePort (x : Z) (f : ForwardSetting) : ForwardSetting :=
  {| LocalPort := LocalPort f; PodName := PodName f; RemoteHost := RemoteHost f; RemotePort := x |}.

Definition forward_fields : list (json_field ForwardSetting) :=
  [field "local_port" LocalPort set_LocalPort; field "pod" PodName set_PodName;
   field "remote_host" RemoteHost set_RemoteHost; field "remote_port" RemotePort set_RemotePort].

#[export] Instance json_ForwardSetting : JsonType ForwardSetting := {|
  json_zero := {| LocalPort := 0; PodName := ""; RemoteHost := ""; RemotePort := 0 |};
  to_json f := Json.Object
    [(bytes_of_string "local_port", to_json (LocalPort f));
     (bytes_of_string "pod", to_json (PodName f));
     (bytes_of_string "remote_host", to_json (RemoteHost f));
     (bytes_of_string "remote_port", to_json (RemotePort f))];
  from_json := from_struct forward_fields
|}.

(** ** forward_add.go *)

Definition colon : Ascii.ascii := Ascii.Ascii false true false true true true false false.

Definition forwardAdd_Args (args : list string) : outcome unit :=
  if negb (length args =? 2)%nat then Err (errors_New "wrong number of arguments") else Ok tt.

(** The setting of the two arguments. *)
Definition forward_of_args (local remote : string) : outcome ForwardSetting :=
  let! localPort := Atoi local in
  let remotes := Split colon remote in
  if negb (length remotes =? 3)%nat
  then Err (errors_New "remote spec must be POD:REMOTE_HOST:REMOTE_PORT")
  else
    let! pod := arg remotes 0 in
    let! host := arg remotes 1 in
    let! port := arg remotes 2 in
    let! remotePort := Atoi port in
    Ok {| LocalPort := localPort; PodName := pod; RemoteHost := host; RemotePort := remotePort |}.

Definition unit_name (port : Z) : string := "pmctl-forward-" +:+ pretty port +:+ ".service".

Definition socat_args (f : ForwardSetting) : list string :=
  ["socat"; "tcp-listen:" +:+ pretty (LocalPort f) +:+ ",fork,reuseaddr";
   "exec:ip netns exec " +:+ PodName f +:+ " socat STDIO tcp-connect\:" +:+ RemoteHost f +:+
   "\:" +:+ pretty (RemotePort f) +:+ ",nofork"].

(** ** forward_list.go *)

(** The text of a setting: "%d %s:%s:%d". *)
Definition remote_text (f : ForwardSetting) : string :=
  PodName f +:+ String colon (RemoteHost f +:+ String colon (pretty (RemotePort f))).
Definition forward_text (f : ForwardSetting) : list Z :=
  bytes_of_string (pretty (LocalPort f) +:+ " " +:+ remote_text f) ++ [10].

(** [forwards = append(forwards, forward)] for every line that is not empty; the list is
    nil before the first. *)
Fixpoint read_forwards (acc : option (list ForwardSetting)) (ls : list (list Z))
  : outcome (option (list ForwardSetting)) :=
  match ls with
  | [] => Ok acc
  | [] :: ls' => read_forwards acc ls'
  | line :: ls' =>
      let! forward := json_Unmarshal line in
      read_forwards (Some (default [] acc ++ [forward])) ls'
  end.

Section Forward.
Context {W : Type} `{!Host W} `{!HostFiles W} `{!Terminal W}.

Definition forwardAdd_Run (args : list string) : st W unit :=
  let* local := slift (arg args 0) in
  let* remote := slift (arg args 1) in
  let* forward := slift (forward_of_args local remote) in
  let forwardJSON := json_Marshal forward in
  exec_Run (["systemd-run"; "--unit=" +:+ unit_name (LocalPort forward);
             "--description=" +:+ string_of_bytes forwardJSON] ++ socat_args forward).

Definition forwardAddCmd : list string -> st W unit := run_command forwardAdd_Args forwardAdd_Run.

Definition forwardDelete_Args (args : list string) : outcome unit :=
  if negb (length args =? 1)%nat then Err (errors_New "wrong number of arguments") else Ok tt.

Definition forwardDelete_Run (args : list string) : st W unit :=
  let* local := slift (arg args 0) in
  let* localPort := slift (Atoi local) in
  let service := unit_name localPort in
  exec_Run ["systemctl"; "stop"; service] >>>
  exec_Run ["systemctl"; "disable"; service] >>>
  os_Remove (Join ["/run/systemd/transient"; service]) >>>
  exec_Run ["systemctl"; "daemon-reload"] >>>
  exec_Run ["systemctl"; "reset-failed"; service].

Definition forwardDeleteCmd : list string -> st W unit :=
  run_command forwardDelete_Args forwardDelete_Run.

Definition show_args : list string :=
  ["systemctl"; "show"; "pmctl-forward-*.service"; "--property"; "Description"; "--value"].

Definition forwardList_Run (json : bool) (args : list string) : st W unit :=
  let* output := exec_Output show_args in
  let* forwards := slift (read_forwards None (scan_lines output)) in
  if json then stdout_Write (json_Encode forwards)
  else sfor (default [] forwards) (fun forward => fmt_Print (forward_text forward)).

Definition forwardListCmd (json : bool) : list string -> st W unit :=
  run_command any_args (forwardList_Run json).

End Forward.

(** ** What systemd documents *)

(** A loaded service: its description and command, and whether it is active or has failed. *)
Record service : Type := { sv_description : string; sv_command : list string; sv_active : bool }.

Definition failed (s : service) : service :=
  {| sv_description := sv_description s; sv_command := sv_command s; sv_active := false |}.

(** The values of one property of several units: an empty line between them. *)
Fixpoint listing (ds : list string) : list Z :=
  match ds with
  | [] => []
  | [d] => bytes_of_string d ++ [10]
  | d :: ds' => bytes_of_string d ++ [10; 10] ++ listing ds'
  end.

Class SystemdLaws (W : Type) `{!Host W} `{!HostFiles W} `{!Terminal W} : Type := {
  (** The loaded services of the program, their transient unit files, and what was
      written to standard output. *)
  services : W -> gmap string service;
  fragments : W -> gset string;
  written : W -> list Z;
  (** Whether the way a command ends on SIGTERM counts as clean: by the signal, or with an
      exit status that is a success. *)
  ends_clean : list string -> bool;
  (** A transient service is made under a name that is not in use. *)
  run_law : forall n d cmd w,
    let args := ["systemd-run"; "--unit=" +:+ unit_name n; "--description=" +:+ d] ++ cmd in
    (services w !! unit_name n = None -> exists w', exec_Run args w = (Ok tt, w') /\
       services w' =
         <[unit_name n := {| sv_description := d; sv_command := cmd; sv_active := true |}]> (services w) /\
       fragments w' = {[unit_name n]} ∪ fragments w) /\
    (is_Some (services w !! unit_name n) -> exists e w', exec_Run args w = (Err e, w') /\
       services w' = services w /\ fragments w' = fragments w);
  (** Stopping fails on a unit that is not loaded.  A command that ends cleanly leaves the
      unit inactive, and a transient unit is then unloaded with its file; otherwise the
      unit has failed, and stays loaded. *)
  stop_unit_law : forall n w,
    (forall s, services w !! unit_name n = Some s -> exists w',
       exec_Run ["systemctl"; "stop"; unit_name n] w = (Ok tt, w') /\
       if ends_clean (sv_command s)
       then services w' = delete (unit_name n) (services w) /\ fragments w' = fragments w ∖ {[unit_name n]}
       else services w' = <[unit_name n := failed s]> (services w) /\ fragments w' = fragments w) /\
    (services w !! unit_name n = None -> exists e w',
       exec_Run ["systemctl"; "stop"; unit_name n] w = (Err e, w') /\
       services w' = services w /\ fragments w' = fragments w);
  (** Disabling changes nothing here, and fails without a unit file. *)
  disable_law : forall n w, exists o w',
    exec_Run ["systemctl"; "disable"; unit_name n] w = (o, w') /\
    services w' = services w /\ fragments w' = fragments w /\
    if bool_decide (unit_name n ∈ fragments w) then o = Ok tt else exists e, o = Err e;
  fragment_law : forall n w, unit_name n ∈ fragments w -> exists w',
    os_Remove ("/run/systemd/transient/" +:+ unit_name n) w = (Ok tt, w') /\
    services w' = services w /\ fragments w' = fragments w ∖ {[unit_name n]};
  reload_law : forall w, exists w', exec_Run ["systemctl"; "daemon-reload"] w = (Ok tt, w') /\
    services w' = services w /\ fragments w' = fragments w;
  (** A unit that is neither active nor failed and has no file is unloaded. *)
  reset_failed_law : forall n s w,
    services w !! unit_name n = Some (failed s) -> unit_name n ∉ fragments w -> exists w',
    exec_Run ["systemctl"; "reset-failed"; unit_name n] w = (Ok tt, w') /\
    services w' = delete (unit_name n) (services w) /\ fragments w' = fragments w;
  (** The units that match the pattern, in some order. *)
  show_law : forall w, exists l w',
    l ≡ₚ map_to_list (services w) /\
    exec_Output show_args w = (Ok (listing (map (fun kv => sv_description kv.2) l)), w') /\
    services w' = services w /\ fragments w' = fragments w /\ written w' = written w;
  log_law : forall w, exists w', LogConfig_Apply w = (Ok tt, w') /\
    services w' = services w /\ fragments w' = fragments w /\ written w' = written w;
  stdout_law : forall t w, exists w', stdout_Write t w = (Ok tt, w') /\
    services w' = services w /\ fragments w' = fragments w /\ written w' = written w ++ t
}.

(** ** Lemmas *)

#[export] Instance json_ForwardSetting_laws : JsonLaws ForwardSetting.
Proof.
  refine {| good f := is_int64 (LocalPort f) = true /\ good_string (PodName f) /\
                      good_string (RemoteHost f) /\ is_int64 (RemotePort f) = true |}.
  - intros f (H1 & H2 & H3 & H4). constructor.
    repeat (apply Forall_cons_2; [split; [done|by apply to_json_printable]|]). constructor.
  - intros [lp pod host rp] (H1 & H2 & H3 & H4). cbn [LocalPort PodName RemoteHost RemotePort] in *.
    change (fold_left (store_member forward_fields)
      [(bytes_of_string "local_port", valid_value (to_json lp));
       (bytes_of_string "pod", valid_value (to_json pod));
       (bytes_of_string "remote_host", valid_value (to_json host));
       (bytes_of_string "remote_port", valid_value (to_json rp))]
      (json_zero, None) = ({| LocalPort := lp; PodName := pod; RemoteHost := host; RemotePort := rp |}, None)).
    unfold forward_fields. repeat store_field. reflexivity.
Defined.

(** Names of units are file names, one per port. *)
Lemma no_slash s : Forall (fun b => b <> 47) (bytes_of_string s) -> split_slash s = [s].
Proof.
  induction s as [|c s IH]; [done|]. cbn [bytes_of_string split_slash]. intros [Hc Hs]%Forall_cons.
  rewrite bool_decide_false, IH; [done..|]. intros ->. by apply Hc.
Qed.

Lemma pretty_plain (z : Z) : plain (pretty z) = true.
Proof.
  unfold plain. rewrite no_slash, bool_decide_true by (done || by apply pretty_avoids).
  destruct (read_number z [] eq_refl) as (d & l & E & _).
  rewrite !bool_decide_false; [done|..]; intros Ez;
    pose proof (pretty_avoids z 46 eq_refl) as Ha; rewrite Ez in *; [by apply Forall_cons in Ha as [? _]..|done].
Qed.

Lemma unit_name_plain n : plain (unit_name n) = true.
Proof.
  unfold unit_name. apply plain_ext; [done| |].
  - apply plain_ext; [apply pretty_plain|done|cbn; lia].
  - rewrite <- length_bytes_of_string, bytes_of_string_app, length_app. cbn. lia.
Qed.

#[export] Instance unit_name_inj : Inj (=) (=) unit_name.
Proof.
  intros n m. unfold unit_name. intros E. apply (inj (String.append "pmctl-forward-")) in E.
  apply string_app_inj_r in E. by apply (inj pretty).
Qed.

Lemma fragment_path n :
  Join ["/run/systemd/transient"; unit_name n] = "/run/systemd/transient/" +:+ unit_name n.
Proof. exact (Join_snoc ["/run/systemd/transient"] _ (unit_name_plain n)). Qed.

(** ** Arguments *)

Lemma forward_of_args_ok local remote f :
  forward_of_args local remote = Ok f <->
  Atoi local = Ok (LocalPort f) /\ exists port,
    Split colon remote = [PodName f; RemoteHost f; port] /\ Atoi port = Ok (RemotePort f).
Proof.
  unfold forward_of_args. split.
  - destruct (Atoi local) as [lp|e|p|]; cbn [obind]; try done.
    destruct (Split colon remote) as [|pod [|host [|port [|]]]]; cbn; try done.
    destruct (Atoi port) as [rp|e|p|] eqn:E; cbn; try done. intros [= <-]. cbn. eauto.
  - intros (-> & port & -> & E). cbn. rewrite E. by destruct f.
Qed.

Lemma forward_of_args_wf local remote f :
  forward_of_args local remote = Ok f ->
  is_int64 (LocalPort f) = true /\ is_int64 (RemotePort f) = true /\
  avoids colon (PodName f) /\ avoids colon (RemoteHost f).
Proof.
  intros (E1 & port & E2 & E3)%forward_of_args_ok. split_and!; [by eapply Atoi_int64..| |];
    apply (Split_elements _ remote); rewrite E2; set_solver.
Qed.

Lemma avoids_byte sep s :
  Forall (fun b => b <> Z.of_N (Ascii.N_of_ascii sep)) (bytes_of_string s) -> avoids sep s.
Proof.
  unfold avoids. induction s as [|c s IH]; [done|]. cbn [bytes_of_string Split]. intros [Hc Hs]%Forall_cons.
  rewrite bool_decide_false, IH; [done..|]. intros ->. by apply Hc.
Qed.

(** ** How socat reads its arguments *)

Definition space : Ascii.ascii := Ascii.Ascii false false false false false true false false.
Definition comma : Ascii.ascii := Ascii.Ascii false false true true false true false false.
Definition backslash : Ascii.ascii := Ascii.Ascii false false true true true false true false.

(** The text of an address up to its options: a backslash quotes the next character. *)
Fixpoint socat_text (s : string) : string :=
  match s with
  | "" => ""
  | String c s' =>
      if bool_decide (c = backslash) then
        match s' with
        | String d s'' => String d (socat_text s'')
        | "" => ""
        end
      else if bool_decide (c = comma) then ""
      else String c (socat_text s')
  end.

Fixpoint strip_prefix (p s : string) : option string :=
  match p, s with
  | "", _ => Some s
  | String a p', String b s' => if bool_decide (a = b) then strip_prefix p' s' else None
  | _, _ => None
  end.

Definition port_of (s : string) : option Z := match Atoi s with Ok n => Some n | _ => None end.

(** The port socat listens on, for any number of connections, and the namespace, host and
    port each connection goes to. *)
Definition socat_setting (command : list string) : option ForwardSetting :=
  match command with
  | ["socat"; listen; target] =>
      listen ← strip_prefix "tcp-listen:" listen;
      target ← strip_prefix "exec:" target;
      local ← port_of (socat_text listen);
      match Split comma listen, Split space (socat_text target) with
      | [_; "fork"; "reuseaddr"], ["ip"; "netns"; "exec"; pod; "socat"; "STDIO"; address] =>
          match Split colon address with
          | ["tcp-connect"; host; port] =>
              remote ← port_of port;
              Some {| LocalPort := local; PodName := pod; RemoteHost := host; RemotePort := remote |}
          | _ => None
          end
      | _, _ => None
      end
  | _ => None
  end.

(** Names of namespaces and hosts: nothing socat or a shell gives a meaning to. *)
Definition word_byte (b : Z) : bool :=
  is_digit b || (97 <=? b) && (b <=? 122) || (65 <=? b) && (b <=? 90) || (b =? 45) || (b =? 46) || (b =? 95).
Definition word (s : string) : bool := forallb word_byte (bytes_of_string s).

Lemma word_avoids sep s :
  word_byte (Z.of_N (Ascii.N_of_ascii sep)) = false -> word s = true -> avoids sep s.
Proof.
  intros Hs Hw. apply avoids_byte. unfold word in Hw. rewrite forallb_forall in Hw. apply Forall_forall.
  intros b Hb ->. specialize (Hw _ (proj1 (list_elem_of_In _ _) Hb)). congruence.
Qed.

(** Text without commas and backslashes is taken as it is. *)
Lemma socat_text_app s r :
  avoids comma s -> avoids backslash s -> socat_text (s +:+ r) = s +:+ socat_text r.
Proof.
  induction s as [|c s IH]; [done|]. intros H1 H2. change (String c s +:+ r) with (String c (s +:+ r)).
  unfold avoids in *. cbn [Split] in H1, H2. cbn [socat_text].
  destruct (bool_decide_reflect (c = backslash)) as [->|]; [by destruct s|].
  destruct (bool_decide_reflect (c = comma)) as [->|]; [by destruct s|].
  change (String c s +:+ socat_text r) with (String c (s +:+ socat_text r)). f_equal. apply IH.
  - pose proof (Split_nonempty comma s). destruct (Split comma s); [done|congruence].
  - pose proof (Split_nonempty backslash s). destruct (Split backslash s); [done|congruence].
Qed.

Lemma pretty_avoids_char sep (z : Z) :
  negb (Z.of_N (Ascii.N_of_ascii sep) =? 45) && negb (is_digit (Z.of_N (Ascii.N_of_ascii sep))) = true ->
  avoids sep (pretty z).
Proof. intros H. apply avoids_byte. by apply pretty_avoids. Qed.

Ltac avoiding :=
  first [reflexivity | apply word_avoids; [reflexivity|assumption] | apply pretty_avoids_char; reflexivity].

(** A quoted colon. *)
Lemma socat_text_colon r : socat_text ("\:" +:+ r) = String colon (socat_text r).
Proof. reflexivity. Qed.

(** The command of the target without the quotes. *)
Lemma socat_target pod host (port : Z) :
  word pod = true -> word host = true ->
  socat_text ("ip netns exec " +:+ pod +:+ " socat STDIO tcp-connect\:" +:+ host +:+ "\:" +:+ pretty port +:+ ",nofork") =
  "ip netns exec " +:+ pod +:+ " socat STDIO tcp-connect" +:+ String colon (host +:+ String colon (pretty port +:+ "")).
Proof.
  intros Hp Hh. change " socat STDIO tcp-connect\:" with (" socat STDIO tcp-connect" +:+ "\:").
  rewrite string_app_assoc, (socat_text_app "ip netns exec "), (socat_text_app pod),
    (socat_text_app " socat STDIO tcp-connect"), socat_text_colon, (socat_text_app host), socat_text_colon,
    (socat_text_app (pretty port)) by avoiding.
  reflexivity.
Qed.

Lemma address_avoids host (port : Z) :
  word host = true -> avoids space ("tcp-connect" +:+ String colon (host +:+ String colon (pretty port))).
Proof.
  intros Hw. apply avoids_byte.
  assert (E : bytes_of_string ("tcp-connect" +:+ String colon (host +:+ String colon (pretty port))) =
    bytes_of_string "tcp-connect" ++ 58 :: bytes_of_string host ++ 58 :: bytes_of_string (pretty port)).
  { rewrite bytes_of_string_app. f_equal. cbn [bytes_of_string]. f_equal. by rewrite bytes_of_string_app. }
  rewrite E. apply Forall_app. split; [by repeat constructor|]. constructor; [done|].
  apply Forall_app. split; [|constructor; [done|by apply pretty_avoids]].
  unfold word in Hw. rewrite forallb_forall in Hw. apply Forall_forall. intros b Hb ->.
  by specialize (Hw _ (proj1 (list_elem_of_In _ _) Hb)).
Qed.

(** The words of the command. *)
Lemma socat_words pod host port :
  word pod = true -> avoids space ("tcp-connect" +:+ String colon (host +:+ String colon port)) ->
  Split space ("ip netns exec " +:+ pod +:+ " socat STDIO tcp-connect" +:+ String colon (host +:+ String colon port)) =
  ["ip"; "netns"; "exec"; pod; "socat"; "STDIO"; "tcp-connect" +:+ String colon (host +:+ String colon port)].
Proof.
  intros Hp Ha. set (address := "tcp-connect" +:+ _) in *.
  change (Split space ("ip" +:+ String space ("netns" +:+ String space ("exec" +:+ String space
    (pod +:+ String space ("socat" +:+ String space ("STDIO" +:+ String space address)))))) =
    ["ip"; "netns"; "exec"; pod; "socat"; "STDIO"; address]).
  rewrite !Split_app by avoiding. unfold avoids in Ha. by rewrite Ha.
Qed.

Lemma port_of_pretty z : is_int64 z = true -> port_of (pretty z) = Some z.
Proof. intros Hz. unfold port_of. by rewrite Atoi_pretty. Qed.

Lemma socat_setting_args f :
  is_int64 (LocalPort f) = true -> is_int64 (RemotePort f) = true ->
  word (PodName f) = true -> word (RemoteHost f) = true -> socat_setting (socat_args f) = Some f.
Proof.
  destruct f as [lp pod host rp]. cbn [LocalPort PodName RemoteHost RemotePort]. intros Hl Hr Hp Hh.
  unfold socat_setting, socat_args. cbn [LocalPort PodName RemoteHost RemotePort].
  change (strip_prefix "tcp-listen:" ("tcp-listen:" +:+ pretty lp +:+ ",fork,reuseaddr"))
    with (Some (pretty lp +:+ ",fork,reuseaddr")). cbn [mbind option_bind].
  set (target := "exec:ip netns exec " +:+ _).
  replace (strip_prefix "exec:" target) with (Some ("ip netns exec " +:+ pod +:+ " socat STDIO tcp-connect\:" +:+ host +:+ "\:" +:+ pretty rp +:+ ",nofork")) by reflexivity.
  clear target. cbn [mbind option_bind].
  rewrite (socat_text_app (pretty lp)) by avoiding.
  change (pretty lp +:+ socat_text ",fork,reuseaddr") with (pretty lp +:+ "").
  rewrite string_app_nil_r, port_of_pretty by done. cbn [mbind option_bind].
  change ",fork,reuseaddr" with (String comma "fork,reuseaddr").
  rewrite (Split_app comma) by avoiding.
  change (Split comma "fork,reuseaddr") with ["fork"; "reuseaddr"].
  rewrite socat_target by done.
  rewrite string_app_nil_r, socat_words by (done || by apply address_avoids).
  rewrite (Split_app colon "tcp-connect"), (Split_app colon host) by avoiding.
  assert (Hc : avoids colon (pretty rp)) by avoiding. unfold avoids in Hc. rewrite Hc.
  by rewrite port_of_pretty.
Qed.

(** ** The listing *)

(** What survives being kept in a description and a command: valid strings, less text
    than a scanner takes for a line, and names. *)
Definition keeps (f : ForwardSetting) : Prop :=
  good f /\ (length (json_Marshal f) < MaxScanTokenSize)%nat /\ word (PodName f) = true /\ word (RemoteHost f) = true.

Definition description (f : ForwardSetting) : string := string_of_bytes (json_Marshal f).

Lemma marshal_graphic f : good f -> Forall is_graphic (json_Marshal f).
Proof. intros Hf. by apply encode_graphic, to_json_printable. Qed.

Lemma description_bytes f : good f -> bytes_of_string (description f) = json_Marshal f.
Proof. intros Hf. apply bytes_of_string_of_bytes, graphic_bytes. by apply marshal_graphic. Qed.

(** Lines with empty lines between them. *)
Fixpoint spaced (ls : list (list Z)) : list (list Z) :=
  match ls with
  | [] => []
  | [l] => [l]
  | l :: ls' => l :: [] :: spaced ls'
  end.

Lemma lines_go_line acc l r :
  Forall is_graphic l -> lines_go acc (l ++ 10 :: r) = (acc ++ l) :: lines_go [] r.
Proof.
  intros Hl. revert acc. induction Hl as [|b l Hb Hl IH]; intros acc; cbn [app lines_go].
  - by rewrite app_nil_r.
  - destruct (Z.eqb_spec b 10) as [->|]; [by destruct Hb|]. rewrite IH. by rewrite <- app_assoc.
Qed.

Lemma listing_cons d ds : ds <> [] -> listing (d :: ds) = bytes_of_string d ++ [10; 10] ++ listing ds.
Proof. by destruct ds. Qed.

Lemma spaced_cons l ls : ls <> [] -> spaced (l :: ls) = l :: [] :: spaced ls.
Proof. by destruct ls. Qed.

Lemma map_nonempty {A B} (g : A -> B) l : l <> [] -> map g l <> [].
Proof. by destruct l. Qed.

Lemma listing_lines fs :
  Forall good fs -> lines_go [] (listing (map description fs)) = spaced (map json_Marshal fs).
Proof.
  induction 1 as [|f fs Hf Hfs IH]; [done|].
  destruct (decide (fs = [])) as [->|Hne]; cbn [map].
  - cbn [listing spaced]. rewrite description_bytes by done. by rewrite lines_go_line by by apply marshal_graphic.
  - rewrite listing_cons, spaced_cons, <- IH, description_bytes by (done || by apply map_nonempty).
    cbn [app]. by rewrite lines_go_line by by apply marshal_graphic.
Qed.

Lemma drop_cr_graphic l : Forall is_graphic l -> drop_cr l = l.
Proof.
  intros Hl. unfold drop_cr. destruct (reverse l) as [|b r] eqn:E; [done|].
  assert (Hb : is_graphic b).
  { rewrite Forall_forall in Hl. apply Hl. apply elem_of_reverse. rewrite E. left. }
  destruct (Z.eqb_spec b 13) as [->|]; [by destruct Hb|]. by repeat case_match.
Qed.

Lemma scan_listing fs :
  Forall keeps fs -> scan_lines (listing (map description fs)) = spaced (map json_Marshal fs).
Proof.
  intros Hk. unfold scan_lines. rewrite listing_lines by (eapply Forall_impl; [exact Hk|by intros f []]).
  induction Hk as [|f fs (Hg & Hs & _) Hfs IH]; [done|].
  assert (Hd : drop_cr (json_Marshal f) = json_Marshal f) by by apply drop_cr_graphic, marshal_graphic.
  assert (Hlong : (MaxScanTokenSize <=? length (json_Marshal f))%nat = false) by (apply Nat.leb_gt; lia).
  destruct (decide (fs = [])) as [->|Hne]; cbn [map].
  - cbn [spaced until_long]. rewrite Hlong. cbn [map]. by rewrite Hd.
  - rewrite spaced_cons by by apply map_nonempty. cbn [until_long]. rewrite Hlong.
    change (MaxScanTokenSize <=? length (@nil Z))%nat with false. cbn iota. cbn [map].
    rewrite Hd, IH. done.
Qed.

(** A description that fills the scanner's buffer hides itself and all that follow, and the
    list is shorter without an error. *)
Lemma long_description_hides f fs :
  Forall good (f :: fs) -> (MaxScanTokenSize <= length (json_Marshal f))%nat ->
  read_forwards None (scan_lines (listing (map description (f :: fs)))) = Ok None.
Proof.
  intros Hg Hl. unfold scan_lines. rewrite listing_lines by done. cbn [map].
  assert (Hs : exists ls, spaced (json_Marshal f :: map json_Marshal fs) = json_Marshal f :: ls)
    by (destruct (map json_Marshal fs); by eexists).
  destruct Hs as [ls ->]. cbn [until_long]. by rewrite (proj2 (Nat.leb_le _ _) Hl).
Qed.

Lemma read_line acc f ls : good f ->
  read_forwards acc (json_Marshal f :: ls) = read_forwards (Some (default [] acc ++ [f])) ls.
Proof.
  intros Hf. pose proof (Unmarshal_Marshal f Hf) as E.
  destruct (json_Marshal f) as [|b l] eqn:Em; [done|]. cbn [read_forwards]. by rewrite E.
Qed.

Lemma read_spaced acc fs : Forall good fs ->
  read_forwards acc (spaced (map json_Marshal fs)) =
  Ok (match fs with [] => acc | _ => Some (default [] acc ++ fs) end).
Proof.
  intros Hfs. revert acc. induction Hfs as [|f fs Hf Hfs IH]; intros acc; [done|].
  destruct (decide (fs = [])) as [->|Hne]; cbn [map].
  - cbn [spaced]. by rewrite read_line.
  - rewrite spaced_cons, read_line by (done || by apply map_nonempty).
    set (ls := spaced _) in *. cbn [read_forwards]. rewrite IH. destruct fs; [done|].
    do 2 f_equal. exact (eq_sym (app_assoc _ [f] _)).
Qed.

(** ** The table of settings *)

Definition service_of (f : ForwardSetting) : service :=
  {| sv_description := description f; sv_command := socat_args f; sv_active := true |}.

Section Table.
Context {W : Type} `{!Host W} `{!HostFiles W} `{!Terminal W} {L : SystemdLaws W}.

(** The services of the host are the settings of a table, by local port. *)
Definition represents (m : gmap Z ForwardSetting) (w : W) : Prop :=
  services w = kmap unit_name (service_of <$> m) /\
  (forall n f, m !! n = Some f -> LocalPort f = n /\ keeps f /\ unit_name n ∈ fragments w).

Lemma represents_lookup m w n :
  represents m w -> services w !! unit_name n = service_of <$> m !! n.
Proof. intros [-> _]. by rewrite (lookup_kmap unit_name), lookup_fmap. Qed.

Lemma represents_same m (w w' : W) :
  represents m w -> services w' = services w -> fragments w' = fragments w -> represents m w'.
Proof. intros [H1 H2] Es Ef. split; rewrite ?Es, ?Ef; done. Qed.

Lemma represents_insert m (w w' : W) f :
  represents m w -> keeps f ->
  services w' = <[unit_name (LocalPort f) := service_of f]> (services w) ->
  fragments w' = {[unit_name (LocalPort f)]} ∪ fragments w ->
  represents (<[LocalPort f := f]> m) w'.
Proof.
  intros [H1 H2] Hf Es Ef. split.
  - by rewrite Es, H1, fmap_insert, (kmap_insert unit_name).
  - intros n g [[<- <-]|[Hn Hg]]%lookup_insert_Some; rewrite Ef; [set_solver|].
    destruct (H2 n g Hg) as (? & ? & ?). set_solver.
Qed.

Lemma represents_delete m (w w' : W) n :
  represents m w -> services w' = delete (unit_name n) (services w) ->
  fragments w' = fragments w ∖ {[unit_name n]} -> represents (delete n m) w'.
Proof.
  intros [H1 H2] Es Ef. split.
  - by rewrite Es, H1, fmap_delete, (kmap_delete unit_name).
  - intros k g [Hk Hg]%lookup_delete_Some. destruct (H2 k g Hg) as (? & ? & Hu). split_and!; [done..|].
    rewrite Ef. apply elem_of_difference. split; [done|]. intros E%elem_of_singleton.
    by apply (inj unit_name) in E.
Qed.

Lemma add_ok m (w : W) local remote f :
  represents m w -> forward_of_args local remote = Ok f -> keeps f -> m !! LocalPort f = None ->
  exists w', forwardAddCmd [local; remote] w = (Ok tt, w') /\ represents (<[LocalPort f := f]> m) w'.
Proof.
  intros Hw Ef Hk Hm. destruct (log_law w) as (w1 & El & Es1 & Ef1 & _).
  pose proof (represents_same _ _ _ Hw Es1 Ef1) as Hw1.
  destruct (run_law (LocalPort f) (description f) (socat_args f) w1) as [Hr _].
  destruct Hr as (w2 & Er & Es2 & Ef2); [by rewrite (represents_lookup _ _ _ Hw1), Hm|].
  exists w2. split; [|by apply (represents_insert _ w1)].
  unfold forwardAddCmd. erewrite accepted_args by done. unfold forwardAdd_Run.
  unfold sbind, slift at 1 2 3. cbn [arg lookup list_lookup]. rewrite Ef. exact Er.
Qed.

Lemma add_taken m (w : W) local remote f g :
  represents m w -> forward_of_args local remote = Ok f -> m !! LocalPort f = Some g ->
  exists e w', forwardAddCmd [local; remote] w = (Err e, w') /\ represents m w'.
Proof.
  intros Hw Ef Hm. destruct (log_law w) as (w1 & El & Es1 & Ef1 & _).
  pose proof (represents_same _ _ _ Hw Es1 Ef1) as Hw1.
  destruct (run_law (LocalPort f) (description f) (socat_args f) w1) as [_ Hr].
  destruct Hr as (e & w2 & Er & Es2 & Ef2); [by rewrite (represents_lookup _ _ _ Hw1), Hm|].
  exists e, w2. split; [|by apply (represents_same _ w1)].
  unfold forwardAddCmd. erewrite accepted_args by done. unfold forwardAdd_Run.
  unfold sbind, slift at 1 2 3. cbn [arg lookup list_lookup]. rewrite Ef.
  unfold description in Er. by rewrite Er.
Qed.

(** What a service that represents a setting is and does. *)
Lemma represents_forwards m (w : W) n f :
  represents m w -> m !! n = Some f -> exists s, services w !! unit_name n = Some s /\ sv_active s = true /\
    json_Unmarshal (bytes_of_string (sv_description s)) = Ok f /\
    socat_setting (sv_command s) = Some f /\ LocalPort f = n.
Proof.
  intros Hw Hm. destruct (proj2 Hw n f Hm) as (Hn & (Hg & _ & Hp & Hh) & _). exists (service_of f).
  rewrite (represents_lookup _ _ _ Hw), Hm. split_and!; [done..| | |done]; cbn [service_of sv_description sv_command].
  - rewrite description_bytes by done. by apply Unmarshal_Marshal.
  - destruct Hg as (? & _ & _ & ?). by apply socat_setting_args.
Qed.

(** The end of a deletion for a socat that has failed, and for one that has gone. *)
Lemma delete_failed m (w : W) local n f :
  represents m w -> Atoi local = Ok n -> m !! n = Some f -> ends_clean (socat_args f) = false ->
  exists w', forwardDeleteCmd [local] w = (Ok tt, w') /\ represents (delete n m) w'.
Proof.
  intros Hw En Hm Hc. destruct (log_law w) as (w1 & El & Es1 & Ef1 & _).
  pose proof (represents_same _ _ _ Hw Es1 Ef1) as Hw1. destruct (proj2 Hw1 n f Hm) as (_ & _ & Hu).
  destruct (proj1 (stop_unit_law n w1) (service_of f)) as (w2 & E2 & Hs).
  { by rewrite (represents_lookup _ _ _ Hw1), Hm. }
  cbn [service_of sv_command] in Hs. rewrite Hc in Hs. destruct Hs as [Es2 Ef2].
  destruct (disable_law n w2) as (o & w3 & E3 & Es3 & Ef3 & Ho).
  rewrite bool_decide_true in Ho by (by rewrite Ef2). subst o.
  destruct (fragment_law n w3) as (w4 & E4 & Es4 & Ef4); [by rewrite Ef3, Ef2|].
  destruct (reload_law w4) as (w5 & E5 & Es5 & Ef5).
  destruct (reset_failed_law n (service_of f) w5) as (w6 & E6 & Es6 & Ef6).
  { rewrite Es5, Es4, Es3, Es2. apply lookup_insert_eq. }
  { rewrite Ef5, Ef4. set_solver. }
  exists w6. split.
  - unfold forwardDeleteCmd. erewrite accepted_args by done. unfold forwardDelete_Run.
    unfold sbind, slift. cbn [arg lookup list_lookup]. rewrite En, E2, E3, fragment_path, E4, E5. exact E6.
  - apply (represents_delete _ w1); [done| |by rewrite Ef6, Ef5, Ef4, Ef3, Ef2].
    rewrite Es6, Es5, Es4, Es3, Es2. apply delete_insert_eq.
Qed.

Lemma delete_gone m (w : W) local n f :
  represents m w -> Atoi local = Ok n -> m !! n = Some f -> ends_clean (socat_args f) = true ->
  exists e w', forwardDeleteCmd [local] w = (Err e, w') /\ represents (delete n m) w'.
Proof.
  intros Hw En Hm Hc. destruct (log_law w) as (w1 & El & Es1 & Ef1 & _).
  pose proof (represents_same _ _ _ Hw Es1 Ef1) as Hw1.
  destruct (proj1 (stop_unit_law n w1) (service_of f)) as (w2 & E2 & Hs).
  { by rewrite (represents_lookup _ _ _ Hw1), Hm. }
  cbn [service_of sv_command] in Hs. rewrite Hc in Hs. destruct Hs as [Es2 Ef2].
  destruct (disable_law n w2) as (o & w3 & E3 & Es3 & Ef3 & Ho).
  rewrite bool_decide_false in Ho by (rewrite Ef2; set_solver). destruct Ho as [e ->].
  exists e, w3. split.
  - unfold forwardDeleteCmd. erewrite accepted_args by done. unfold forwardDelete_Run.
    unfold sbind, slift. cbn [arg lookup list_lookup]. by rewrite En, E2, E3.
  - apply (represents_delete _ w1); [done| |by rewrite Ef3, Ef2]. by rewrite Es3, Es2.
Qed.

Lemma delete_missing m (w : W) local n :
  represents m w -> Atoi local = Ok n -> m !! n = None ->
  exists e w', forwardDeleteCmd [local] w = (Err e, w') /\ represents m w'.
Proof.
  intros Hw En Hm. destruct (log_law w) as (w1 & El & Es1 & Ef1 & _).
  pose proof (represents_same _ _ _ Hw Es1 Ef1) as Hw1.
  destruct (proj2 (stop_unit_law n w1)) as (e & w2 & E2 & Es2 & Ef2).
  { by rewrite (represents_lookup _ _ _ Hw1), Hm. }
  exists e, w2. split; [|by apply (represents_same _ w1)].
  unfold forwardDeleteCmd. erewrite accepted_args by done. unfold forwardDelete_Run.
  unfold sbind, slift. cbn [arg lookup list_lookup]. by rewrite En, E2.
Qed.

Lemma print_ok fs (w : W) : exists w',
  sfor fs (fun f => fmt_Print (forward_text f)) w = (Ok tt, w') /\
  services w' = services w /\ fragments w' = fragments w /\
  written w' = written w ++ concat (map forward_text fs).
Proof.
  revert w. induction fs as [|f fs IH]; intros w; cbn [sfor map concat].
  - exists w. by rewrite app_nil_r.
  - destruct (stdout_law (forward_text f) w) as (w1 & E1 & Es1 & Ef1 & Ew1).
    destruct (IH w1) as (w2 & E2 & Es2 & Ef2 & Ew2). exists w2.
    unfold sbind, fmt_Print, swarn. rewrite E1. split_and!; [exact E2|congruence..|].
    by rewrite Ew2, Ew1, app_assoc.
Qed.

(** The descriptions systemd shows are those of the settings. *)
Lemma shown_settings m (w : W) l :
  represents m w -> l ≡ₚ map_to_list (services w) ->
  exists fs, fs ≡ₚ (map_to_list m).*2 /\ map (fun kv => sv_description kv.2) l = map description fs.
Proof.
  intros [-> _]. rewrite (map_to_list_kmap unit_name), map_to_list_fmap, <- list_fmap_compose.
  intros Hl. apply Permutation_map_inv in Hl as (l' & -> & Hp). exists l'.*2. split.
  - by rewrite <- Hp.
  - rewrite map_map. clear Hp. induction l' as [|x l' IH]; [done|].
    change ((x :: l').*2) with (x.2 :: l'.*2). cbn [map]. by rewrite IH.
Qed.

(** What is listed: the settings, in the order systemd gives. *)
Lemma list_ok m (w : W) json : represents m w -> exists fs w',
  forwardListCmd json [] w = (Ok tt, w') /\ fs ≡ₚ (map_to_list m).*2 /\ represents m w' /\
  written w' = written w ++
    (if json then json_Encode (match fs with [] => None | _ => Some fs end)
     else concat (map forward_text fs)).
Proof.
  intros Hw. destruct (log_law w) as (w1 & El & Es1 & Ef1 & Ew1).
  pose proof (represents_same _ _ _ Hw Es1 Ef1) as Hw1.
  destruct (show_law w1) as (l & w2 & Hl & E2 & Es2 & Ef2 & Ew2).
  pose proof (represents_same _ _ _ Hw1 Es2 Ef2) as Hw2.
  destruct (shown_settings m w1 l Hw1 Hl) as (fs & Hp & Hd). rewrite Hd in E2.
  assert (Hk : Forall keeps fs).
  { rewrite Hp. apply Forall_fmap, Forall_forall. intros [n f] Hi%elem_of_map_to_list.
    by destruct (proj2 Hw1 n f Hi) as (_ & ? & _). }
  assert (Hr : read_forwards None (scan_lines (listing (map description fs))) =
    Ok (match fs with [] => None | _ => Some fs end)).
  { rewrite scan_listing, read_spaced by (done || (eapply Forall_impl; [exact Hk|by intros f []])). done. }
  assert (Hdef : default [] (match fs with [] => None | _ => Some fs end) = fs) by by destruct fs.
  assert (Erun : forall k, forwardListCmd json [] w = k <->
    (if json then stdout_Write (json_Encode (match fs with [] => None | _ => Some fs end))
     else sfor fs (fun f => fmt_Print (forward_text f))) w2 = k).
  { intros k. unfold forwardListCmd. erewrite accepted_args by done. unfold forwardList_Run, sbind at 1.
    rewrite E2. unfold sbind, slift. rewrite Hr. cbn iota beta. by rewrite Hdef. }
  destruct json.
  - destruct (stdout_law (json_Encode (match fs with [] => None | _ => Some fs end)) w2) as (w3 & E3 & Es3 & Ef3 & Ew3).
    exists fs, w3. split_and!; [by apply Erun|done|by apply (represents_same _ w2)|congruence].
  - destruct (print_ok fs w2) as (w3 & E3 & Es3 & Ef3 & Ew3).
    exists fs, w3. split_and!; [by apply Erun|done|by apply (represents_same _ w2)|congruence].
Qed.

End Table.

(** ** A simulated systemd *)

Record simSystemd : Type := SimSystemd {
  sd_services : gmap string service;
  sd_fragments : gset string;
  sd_out : list Z
}.

Fixpoint strip (n : nat) (s : string) : string :=
  match n, s with
  | S n', String _ s' => strip n' s'
  | _, _ => s
  end.

Definition sim_systemctl (verb u : string) (h : simSystemd) : outcome unit * simSystemd :=
  match sd_services h !! u with
  | Some s =>
      (if String.eqb verb "disable" && bool_decide (u ∉ sd_fragments h)
       then Err (errors_New "no such file") else Ok tt,
              if String.eqb verb "stop"
              then if bool_decide (sv_command s = ["true"])
                   then SimSystemd (delete u (sd_services h)) (sd_fragments h ∖ {[u]}) (sd_out h)
                   else SimSystemd (<[u := failed s]> (sd_services h)) (sd_fragments h) (sd_out h)
              else if String.eqb verb "reset-failed"
              then SimSystemd (delete u (sd_services h)) (sd_fragments h) (sd_out h) else h)
  | None => if String.eqb verb "disable" && bool_decide (u ∈ sd_fragments h)
            then (Ok tt, h) else (Err (errors_New "not loaded"), h)
  end.

Definition sim_exec (args : list string) (h : simSystemd) : outcome unit * simSystemd :=
  match args with
  | p :: u :: d :: cmd =>
      if String.eqb p "systemd-run" then
        let u := strip 7 u in
        match sd_services h !! u with
        | Some _ => (Err (errors_New "already loaded"), h)
        | None => (Ok tt, SimSystemd (<[u := {| sv_description := strip 14 d; sv_command := cmd; sv_active := true |}]> (sd_services h))
                            ({[u]} ∪ sd_fragments h) (sd_out h))
        end
      else sim_systemctl u d h
  | _ => (Ok tt, h)
  end.

(** Calls the commands do not make fail. *)
Definition refuse {A : Type} : st simSystemd A := sthrow (errors_New "not supported").

#[export] Instance simSystemd_Host : Host simSystemd := {|
  os_Stat _ h := (NotExist, h); os_MkdirAll _ := refuse; os_Getwd := refuse; os_Open _ := refuse;
  os_Create _ := refuse; os_OpenFile _ := refuse; file_Close _ h := h; io_Copy _ _ := refuse;
  gzip_NewReader _ := refuse; bzip2_NewReader _ := refuse;
  exec_Run := sim_exec;
  exec_Output _ h := (Ok (listing (map (fun kv => sv_description kv.2) (map_to_list (sd_services h)))), h)
|}.

#[export] Instance simSystemd_HostFiles : HostFiles simSystemd := {|
  os_Remove p h := (Ok tt, SimSystemd (sd_services h) (sd_fragments h ∖ {[strip 23 p]}) (sd_out h));
  os_RemoveAll _ := refuse; os_Mkdir _ := refuse; os_CreateTemp _ _ := refuse;
  file_Sync _ := refuse; os_Rename _ _ := refuse
|}.

#[export] Instance simSystemd_Terminal : Terminal simSystemd := {|
  stdout_Write t h := (Ok tt, SimSystemd (sd_services h) (sd_fragments h) (sd_out h ++ t));
  LogConfig_Apply := sret tt;
  GenCompletion _ := sret tt
|}.

Lemma strip_unit u : strip 7 ("--unit=" +:+ u) = u. Proof. by destruct u. Qed.
Lemma strip_description d : strip 14 ("--description=" +:+ d) = d. Proof. by destruct d. Qed.
Lemma strip_fragment u : strip 23 ("/run/systemd/transient/" +:+ u) = u. Proof. by destruct u. Qed.

#[export] Instance simSystemd_laws : SystemdLaws simSystemd.
Proof.
  refine {| services := sd_services; fragments := sd_fragments; written := sd_out;
            ends_clean cmd := bool_decide (cmd = ["true"]) |}.
  - intros n d cmd w args. subst args. cbn [app exec_Run simSystemd_Host sim_exec String.eqb Ascii.eqb Bool.eqb].
    rewrite strip_unit, strip_description. split.
    + intros ->. by eexists.
    + intros [s ->]. by do 2 eexists.
  - intros n w. cbn. unfold sim_systemctl. split; [intros s ->|intros ->; cbn; by repeat eexists].
    cbn. eexists. split; [reflexivity|]. by destruct (bool_decide (sv_command s = ["true"])).
  - intros n w. cbn. unfold sim_systemctl. destruct (sd_services w !! unit_name n); cbn;
      destruct (bool_decide_reflect (unit_name n ∈ sd_fragments w)) as [H|H];
      rewrite ?(bool_decide_true (unit_name n ∉ _)), ?(bool_decide_false (unit_name n ∉ _)) by tauto;
      eexists _, w; split_and!; try done; by eexists.
  - intros n w Hn. cbn [os_Remove simSystemd_HostFiles]. rewrite strip_fragment. by eexists.
  - intros w. by eexists.
  - intros n s w Hs Hn. cbn. unfold sim_systemctl. rewrite Hs. by eexists.
  - intros w. by exists (map_to_list (sd_services w)), w.
  - intros w. by exists w.
  - intros t w. by eexists.
Defined.

(** ** Properties *)

(** C36: the forward commands implement a table of settings by local port.  On a host whose
    systemd behaves as documented and whose services are the settings of a table, of namespaces and hosts named by
    letters, digits, dots, dashes and underscores: [add]
    with a free port adds the setting of its arguments, with a port in use it fails and
    changes nothing, as it does with bad arguments; [delete] removes the setting of its
    port and nothing else, and fails on a port without one; [list] prints exactly the
    settings of the table, as JSON or one per line, and changes nothing.  Such a service
    is active, its description is the JSON of the setting, and its socat, as socat reads
    its arguments, listens on the local port for any number of connections and connects
    each to the remote host and port in the namespace.  When SIGTERM ends socat in a way
    systemd counts as clean, [delete] still removes the setting but returns an error, as
    the unit is gone before it is disabled.  The JSON names the namespace [pod], where
    docs/pmctl.md shows [netns]. *)
Theorem forward_refines_table {W : Type} `{!Host W} `{!HostFiles W} `{!Terminal W} {L : SystemdLaws W}
  (m : gmap Z ForwardSetting) (w : W) :
  represents m w ->
  (forall local remote f, forward_of_args local remote = Ok f -> keeps f ->
     match m !! LocalPort f with
     | None => exists w', forwardAddCmd [local; remote] w = (Ok tt, w') /\
                 represents (<[LocalPort f := f]> m) w'
     | Some _ => exists e w', forwardAddCmd [local; remote] w = (Err e, w') /\ represents m w'
     end) /\
  (forall args, length args <> 2%nat \/ (exists e, forward_of_args (nth 0 args "") (nth 1 args "") = Err e) ->
     exists e w', forwardAddCmd args w = (Err e, w') /\ represents m w') /\
  (forall local n, Atoi local = Ok n ->
     match m !! n with
     | Some f => exists o w', forwardDeleteCmd [local] w = (o, w') /\ represents (delete n m) w' /\
                   if ends_clean (socat_args f) then exists e, o = Err e else o = Ok tt
     | None => exists e w', forwardDeleteCmd [local] w = (Err e, w') /\ represents m w'
     end) /\
  (forall json, exists fs w', forwardListCmd json [] w = (Ok tt, w') /\
     fs ≡ₚ (map_to_list m).*2 /\ represents m w' /\
     written w' = written w ++
       (if json then json_Encode (match fs with [] => None | _ => Some fs end)
        else concat (map forward_text fs))) /\
  (forall m' w' n f, represents m' w' -> m' !! n = Some f ->
     exists s, services w' !! unit_name n = Some s /\ sv_active s = true /\
       json_Unmarshal (bytes_of_string (sv_description s)) = Ok f /\
       socat_setting (sv_command s) = Some f /\ LocalPort f = n) /\
  (forall f vs, to_json f = Json.Object vs ->
     map fst vs = map bytes_of_string ["local_port"; "pod"; "remote_host"; "remote_port"]).
Proof.
  intros Hw. split_and!.
  - intros local remote f Ef Hk. destruct (m !! LocalPort f) eqn:Hm; [by eapply add_taken|by apply add_ok].
  - intros args Hargs. destruct (decide (length args = 2%nat)) as [H2|H2].
    + destruct Hargs as [?|[e He]]; [done|]. destruct args as [|a [|b [|]]]; try done. cbn [nth] in He.
      destruct (log_law w) as (w1 & El & Es1 & Ef1 & _). exists e, w1. split; [|by apply (represents_same _ w)].
      unfold forwardAddCmd. erewrite accepted_args by done. unfold forwardAdd_Run, sbind, slift.
      cbn [arg lookup list_lookup]. by rewrite He.
    + eexists _, w. split; [|done]. apply refused_args. unfold forwardAdd_Args.
      by rewrite (proj2 (Nat.eqb_neq _ _) H2).
  - intros local n En. destruct (m !! n) as [f|] eqn:Hm; [|by eapply delete_missing].
    destruct (ends_clean (socat_args f)) eqn:Hc.
    + destruct (delete_gone _ _ _ _ _ Hw En Hm Hc) as (e & w' & E & Hr). eexists _, w'. by eauto.
    + destruct (delete_failed _ _ _ _ _ Hw En Hm Hc) as (w' & E & Hr). by exists (Ok tt), w'.
  - intros json. by apply list_ok.
  - intros m' w' n f. apply represents_forwards.
  - by intros f vs [= <-].
Qed.

Definition web : ForwardSetting :=
  {| LocalPort := 30000; PodName := "operation"; RemoteHost := "10.72.0.20"; RemotePort := 80 |}.

Definition web_host : simSystemd :=
  SimSystemd {[unit_name 30000 := service_of web]} {[unit_name 30000]} [].

Lemma web_represents : represents {[30000 := web]} web_host.
Proof.
  split; [vm_compute; reflexivity|]. intros n f [<- <-]%lookup_singleton_Some.
  split; [done|]. split; [|set_solver]. split; [done|].
  split; [apply Nat.ltb_lt; vm_compute; reflexivity|by split].
Qed.

(** The setting of a running service is listed, and another one is added next to it. *)
Lemma forward_refines_table_witness :
  (exists w', forwardListCmd false [] web_host = (Ok tt, w') /\
     written w' = bytes_of_string "30000 operation:10.72.0.20:80" ++ [10]) /\
  (exists w', forwardAddCmd ["+30001"; "operation:10.72.0.21:22"] web_host = (Ok tt, w')) /\
  exists w', forwardDeleteCmd ["30000"] web_host = (Ok tt, w') /\ represents ∅ w'.
Proof.
  destruct (forward_refines_table _ _ web_represents) as (Hadd & _ & Hdel & Hlist & _). split; [|split].
  - destruct (Hlist false) as (fs & w' & E & Hp & _ & Hwr). exists w'. split; [exact E|].
    rewrite Hwr. assert (Hfs : (map_to_list ({[30000 := web]} : gmap Z ForwardSetting)).*2 = [web]) by reflexivity.
    rewrite Hfs in Hp. symmetry in Hp. apply Permutation_singleton_l in Hp. subst fs. reflexivity.
  - specialize (Hadd "+30001" "operation:10.72.0.21:22"
      {| LocalPort := 30001; PodName := "operation"; RemoteHost := "10.72.0.21"; RemotePort := 22 |} eq_refl).
    destruct Hadd as (w' & E & _).
    + split; [done|]. split; [apply Nat.ltb_lt; vm_compute; reflexivity|by split].
    + by exists w'.
  - destruct (Hdel "30000" 30000 eq_refl) as (o & w' & E & Hr & Ho). change (o = Ok tt) in Ho. subst o. exists w'.
    split; [exact E|exact Hr].
Defined.

(** The text of a listing can be given back to [add].  Whatever arguments a setting
    came from, its listed port and [POD:REMOTE_HOST:REMOTE_PORT] are arguments that give
    the same setting, whose service [delete] of the listed port names. *)
Theorem forward_text_roundtrip (local remote : string) (f : ForwardSetting) :
  forward_of_args local remote = Ok f ->
  forward_of_args (pretty (LocalPort f)) (remote_text f) = Ok f /\
  Atoi (pretty (LocalPort f)) = Ok (LocalPort f).
Proof.
  intros (H1 & H2 & H3 & H4)%forward_of_args_wf. split; [|by apply Atoi_pretty]. apply forward_of_args_ok. split; [by apply Atoi_pretty|].
  exists (pretty (RemotePort f)). split; [|by apply Atoi_pretty].
  unfold remote_text. rewrite !Split_app by done. do 2 f_equal.
  apply avoids_byte. by apply pretty_avoids.
Qed.

Lemma forward_text_roundtrip_witness :
  forward_of_args "030000" "operation:10.72.0.20:+80" = Ok web /\
  forward_of_args "30000" "operation:10.72.0.20:80" = Ok web.
Proof.
  split; [reflexivity|].
  exact (proj1 (forward_text_roundtrip "030000" "operation:10.72.0.20:+80" web eq_refl)).
Defined.
