(* ===== verification/Netlink.v ===== *)
(** * The kernel's network configuration (netlink, iptables)

    The calls of the third-party packages netlink, go-iptables and the CNI plugins
    the program makes, as an interface on the host's state; what they document, as
    laws on a view of the links, the firewall chains and the forwarding switches;
    and a simulated kernel. *)

From S2P Require Import Prelude.

Local Open Scope Z_scope.
Local Open Scope go_scope.

(** ** Addresses *)

(** netlink.Addr and net.IP *)
Class AddrOps : Type := {
  addr : Type;
  ip : Type;
  (** [netlink.ParseAddr] *)
  ParseAddr : string -> outcome addr;
  (** [addr.String()] and [addr.IPNet.String()] *)
  addr_String : addr -> string;
  addr_IPNet : addr -> string;
  (** [addr.IP.To4() != nil] *)
  addr_Is4 : addr -> bool;
  (** [prefixLen, _ := addr.Mask.Size()] *)
  addr_PrefixLen : addr -> Z;
  (** [net.ParseIP] and [addr.Contains] *)
  ParseIP : string -> ip;
  addr_Contains : addr -> ip -> bool
}.

(** ** Links and chains *)

Inductive link_kind : Type :=
| Bridge
| Tuntap (queues : Z)
| OtherLink.

(** What the kernel knows of a link. *)
Record link `{!AddrOps} : Type := MkLink {
  l_kind : link_kind;
  l_mtu : Z;
  l_up : bool;
  l_master : option string;
  l_addrs : list addr
}.

(** A [netlink.Link] value: the attributes the program reads. *)
Record Link : Type := { Attrs_Name : string; Attrs_MTU : Z; Link_kind : link_kind }.

(** The type assertion to a pointer to [netlink.Bridge] succeeds. *)
Definition is_bridge (l : Link) : bool := match Link_kind l with Bridge => true | _ => false end.

Inductive protocol : Type :=
| ProtocolIPv4
| ProtocolIPv6.

#[export] Instance protocol_eq_dec : EqDecision protocol.
Proof. solve_decision. Defined.
#[export] Instance protocol_countable : Countable protocol.
Proof.
  refine (inj_countable' (fun p => match p with ProtocolIPv4 => true | ProtocolIPv6 => false end)
            (fun b : bool => if b then ProtocolIPv4 else ProtocolIPv6) _). by intros [].
Defined.

Abbreviation rule := (list string).

(** Chains are named by protocol, table and name. *)
Abbreviation chain := (protocol * string * string)%type.

Class NetOps (W : Type) `{!AddrOps} : Type := {
  LinkAdd : string -> link_kind -> st W unit;
  LinkByName : string -> st W Link;
  LinkList : st W (list Link);
  LinkSetMTU : string -> Z -> st W unit;
  LinkSetUp : string -> st W unit;
  LinkSetMaster : string -> string -> st W unit;
  LinkDel : string -> st W unit;
  AddrAdd : string -> addr -> st W unit;
  (** [iptables.NewWithProtocol] *)
  NewWithProtocol : protocol -> st W unit;
  NewChain : protocol -> string -> string -> st W unit;
  ClearChain : protocol -> string -> string -> st W unit;
  DeleteChain : protocol -> string -> string -> st W unit;
  AppendRule : protocol -> string -> string -> rule -> st W unit;
  DeleteRule : protocol -> string -> string -> rule -> st W unit;
  (** [ip.EnableIP4Forward], [ip.EnableIP6Forward] *)
  EnableForward : protocol -> st W unit
}.

(** ** The view and its laws *)

Record netview `{!AddrOps} : Type := MkView {
  v_links : gmap string link;
  v_chains : gmap chain (list rule);
  v_forward : gset protocol
}.

Definition set_links `{!AddrOps} (f : gmap string link -> gmap string link) (v : netview) : netview :=
  MkView _ (f (v_links v)) (v_chains v) (v_forward v).
Definition set_chains `{!AddrOps} (f : gmap chain (list rule) -> gmap chain (list rule))
  (v : netview) : netview := MkView _ (v_links v) (f (v_chains v)) (v_forward v).
Definition set_forward `{!AddrOps} (p : protocol) (v : netview) : netview :=
  MkView _ (v_links v) (v_chains v) ({[p]} ∪ v_forward v).

(** A new link is down, has the default MTU, no master and no address. *)
Definition new_link `{!AddrOps} (k : link_kind) : link := MkLink _ k 1500 false None [].

Definition with_mtu `{!AddrOps} (m : Z) (l : link) : link :=
  MkLink _ (l_kind l) m (l_up l) (l_master l) (l_addrs l).
Definition with_up `{!AddrOps} (l : link) : link :=
  MkLink _ (l_kind l) (l_mtu l) true (l_master l) (l_addrs l).
Definition with_master `{!AddrOps} (m : string) (l : link) : link :=
  MkLink _ (l_kind l) (l_mtu l) (l_up l) (Some m) (l_addrs l).
Definition with_addr `{!AddrOps} (a : addr) (l : link) : link :=
  MkLink _ (l_kind l) (l_mtu l) (l_up l) (l_master l) (l_addrs l ++ [a]).

(** Deleting a link frees its ports. *)
Definition release `{!AddrOps} (n : string) (l : link) : link :=
  MkLink _ (l_kind l) (l_mtu l) (l_up l)
    (if bool_decide (l_master l = Some n) then None else l_master l) (l_addrs l).
Definition remove_link `{!AddrOps} (n : string) (m : gmap string link) : gmap string link :=
  release n <$> delete n m.

(** The link object of an entry. *)
Definition link_object `{!AddrOps} (name : string) (l : link) : Link :=
  {| Attrs_Name := name; Attrs_MTU := l_mtu l; Link_kind := l_kind l |}.

(** Removing the first occurrence of a rule. *)
Fixpoint remove_rule (r : rule) (rs : list rule) : list rule :=
  match rs with
  | [] => []
  | r' :: rs' => if bool_decide (r = r') then rs' else r' :: remove_rule r rs'
  end.

(** A rule of a table jumps to a chain. *)
Definition jumps_to (name : string) (r : rule) : bool := bool_decide (suffix ["-j"; name] r).

Definition referenced (p : protocol) (table name : string) (cs : gmap chain (list rule)) : Prop :=
  exists c rs r, cs !! (p, table, c) = Some rs /\ r ∈ rs /\ jumps_to name r = true.

(** A call documented by [R]: it succeeds as [R] says or fails without effect. *)
Definition effect {W V A : Type} (view : W -> V) (m : st W A) (R : V -> A -> V -> Prop) : Prop :=
  forall w, match m w with
            | (Ok a, w') => R (view w) a (view w')
            | (Err _, w') => view w' = view w
            | _ => False
            end.

(** A call that succeeds whenever [P] holds. *)
Definition succeeds {W V A : Type} (view : W -> V) (m : st W A) (P : V -> Prop) : Prop :=
  forall w, P (view w) -> exists a w', m w = (Ok a, w').

Class NetLaws (W : Type) `{!AddrOps} `{!NetOps W} : Type := {
  view : W -> netview;
  LinkAdd_law : forall n k, effect view (LinkAdd n k) (fun v _ v' =>
    v_links v !! n = None /\ v' = set_links (insert n (new_link k)) v);
  LinkByName_law : forall n, effect view (LinkByName n) (fun v l v' =>
    v' = v /\ exists e, v_links v !! n = Some e /\ l = link_object n e);
  LinkList_law : effect view LinkList (fun v ls v' =>
    v' = v /\ NoDup (map Attrs_Name ls) /\
    forall n, n ∈ map Attrs_Name ls <-> is_Some (v_links v !! n));
  LinkSetMTU_law : forall n m, effect view (LinkSetMTU n m) (fun v _ v' =>
    is_Some (v_links v !! n) /\ v' = set_links (alter (with_mtu m) n) v);
  LinkSetUp_law : forall n, effect view (LinkSetUp n) (fun v _ v' =>
    is_Some (v_links v !! n) /\ v' = set_links (alter with_up n) v);
  LinkSetMaster_law : forall n m, effect view (LinkSetMaster n m) (fun v _ v' =>
    n <> m /\ is_Some (v_links v !! n) /\ is_Some (v_links v !! m) /\
    v' = set_links (alter (with_master m) n) v);
  LinkDel_law : forall n, effect view (LinkDel n) (fun v _ v' =>
    is_Some (v_links v !! n) /\ v' = set_links (remove_link n) v);
  AddrAdd_law : forall n a, effect view (AddrAdd n a) (fun v _ v' =>
    is_Some (v_links v !! n) /\ v' = set_links (alter (with_addr a) n) v);
  NewWithProtocol_law : forall p, effect view (NewWithProtocol p) (fun v _ v' => v' = v);
  NewChain_law : forall p t c, effect view (NewChain p t c) (fun v _ v' =>
    v_chains v !! (p, t, c) = None /\ v' = set_chains (insert (p, t, c) []) v);
  ClearChain_law : forall p t c, effect view (ClearChain p t c) (fun v _ v' =>
    v' = set_chains (insert (p, t, c) []) v);
  DeleteChain_law : forall p t c, effect view (DeleteChain p t c) (fun v _ v' =>
    v_chains v !! (p, t, c) = Some [] /\ v' = set_chains (delete (p, t, c)) v);
  AppendRule_law : forall p t c r, effect view (AppendRule p t c r) (fun v _ v' =>
    exists rs, v_chains v !! (p, t, c) = Some rs /\ v' = set_chains (insert (p, t, c) (rs ++ [r])) v);
  DeleteRule_law : forall p t c r, effect view (DeleteRule p t c r) (fun v _ v' =>
    exists rs, v_chains v !! (p, t, c) = Some rs /\ r ∈ rs /\
      v' = set_chains (insert (p, t, c) (remove_rule r rs)) v);
  EnableForward_law : forall p, effect view (EnableForward p) (fun v _ v' => v' = set_forward p v)
}.

(** A kernel that does what it can: calls succeed when they are possible. *)
Class NetReliable (W : Type) `{!AddrOps} `{!NetOps W} {L : NetLaws W} : Type := {
  LinkAdd_ok : forall n k, succeeds view (LinkAdd n k) (fun v => v_links v !! n = None);
  LinkByName_ok : forall n, succeeds view (LinkByName n) (fun v => is_Some (v_links v !! n));
  LinkList_ok : succeeds view LinkList (fun _ => True);
  LinkSetMTU_ok : forall n m, succeeds view (LinkSetMTU n m) (fun v => is_Some (v_links v !! n));
  LinkSetUp_ok : forall n, succeeds view (LinkSetUp n) (fun v => is_Some (v_links v !! n));
  LinkSetMaster_ok : forall n m, succeeds view (LinkSetMaster n m) (fun v =>
    n <> m /\ is_Some (v_links v !! n) /\ exists b, v_links v !! m = Some b /\ l_kind b = Bridge);
  LinkDel_ok : forall n, succeeds view (LinkDel n) (fun v => is_Some (v_links v !! n));
  AddrAdd_ok : forall n a, succeeds view (AddrAdd n a) (fun v =>
    exists l, v_links v !! n = Some l /\ a ∉ l_addrs l);
  NewWithProtocol_ok : forall p, succeeds view (NewWithProtocol p) (fun _ => True);
  NewChain_ok : forall p t c, succeeds view (NewChain p t c) (fun v =>
    v_chains v !! (p, t, c) = None);
  ClearChain_ok : forall p t c, succeeds view (ClearChain p t c) (fun _ => True);
  DeleteChain_ok : forall p t c, succeeds view (DeleteChain p t c) (fun v =>
    v_chains v !! (p, t, c) = Some [] /\ ~ referenced p t c (v_chains v));
  AppendRule_ok : forall p t c r, succeeds view (AppendRule p t c r) (fun v =>
    is_Some (v_chains v !! (p, t, c)));
  DeleteRule_ok : forall p t c r, succeeds view (DeleteRule p t c r) (fun v =>
    exists rs, v_chains v !! (p, t, c) = Some rs /\ r ∈ rs);
  EnableForward_ok : forall p, succeeds view (EnableForward p) (fun _ => True)
}.

(** ** Running calls on a reliable kernel *)

Section Yields.
Context {W : Type} `{!AddrOps} `{!NetOps W} {L : NetLaws W} {LR : NetReliable W}.

(** From any state with view [v], [m] succeeds and leaves the view [v']. *)
Definition yields {A : Type} (m : st W A) (v v' : netview) : Prop :=
  forall w, view w = v -> exists a w', m w = (Ok a, w') /\ view w' = v'.

Lemma yields_seq {A B} (m : st W A) (k : st W B) v v1 v2 :
  yields m v v1 -> yields k v1 v2 -> yields (sbind m (fun _ => k)) v v2.
Proof.
  intros Hm Hk w Hw. destruct (Hm w Hw) as (a & w1 & E1 & H1).
  destruct (Hk w1 H1) as (b & w2 & E2 & H2). exists b, w2. unfold sbind. by rewrite E1.
Qed.

Lemma yields_eq {A} (m : st W A) v v1 v2 : yields m v v1 -> v1 = v2 -> yields m v v2.
Proof. by intros Hm <-. Qed.

Lemma yields_ret {A} (a : A) v : yields (sret a) v v.
Proof. intros w Hw. by exists a, w. Qed.

Lemma yields_wrap {A} msg (m : st W A) v v' : yields m v v' -> yields (swrap msg m) v v'.
Proof.
  intros Hm w Hw. destruct (Hm w Hw) as (a & w' & E & H'). exists a, w'. unfold swrap. by rewrite E.
Qed.

Lemma yields_warn {A} (m : st W A) v v' : yields m v v' -> yields (swarn m) v v'.
Proof.
  intros Hm w Hw. destruct (Hm w Hw) as (a & w' & E & H'). exists tt, w'. unfold swarn. by rewrite E.
Qed.

Lemma yields_call {A} (m : st W A) R P v v' :
  effect view m R -> succeeds view m P -> P v -> (forall a v1, R v a v1 -> v1 = v') -> yields m v v'.
Proof.
  intros He Hs HP HR w Hw. subst v. destruct (Hs w HP) as (a & w' & E). specialize (He w).
  rewrite E in He. exists a, w'. split; [done|]. by eapply HR.
Qed.

Lemma yields_LinkAdd n k v :
  v_links v !! n = None -> yields (LinkAdd n k) v (set_links (insert n (new_link k)) v).
Proof. intros. eapply yields_call; [apply LinkAdd_law|apply LinkAdd_ok|done|by intros ? ? [_ ->]]. Qed.

Lemma yields_LinkSetMTU n m v :
  is_Some (v_links v !! n) -> yields (LinkSetMTU n m) v (set_links (alter (with_mtu m) n) v).
Proof.
  intros. eapply yields_call; [apply LinkSetMTU_law|apply LinkSetMTU_ok|done|by intros ? ? [_ ->]].
Qed.

Lemma yields_LinkSetUp n v :
  is_Some (v_links v !! n) -> yields (LinkSetUp n) v (set_links (alter with_up n) v).
Proof.
  intros. eapply yields_call; [apply LinkSetUp_law|apply LinkSetUp_ok|done|by intros ? ? [_ ->]].
Qed.

Lemma yields_LinkSetMaster n m b v :
  n <> m -> is_Some (v_links v !! n) -> v_links v !! m = Some b -> l_kind b = Bridge ->
  yields (LinkSetMaster n m) v (set_links (alter (with_master m) n) v).
Proof.
  intros. eapply yields_call; [apply LinkSetMaster_law|apply LinkSetMaster_ok| |].
  - split_and!; [done..|]. by exists b.
  - by intros ? ? (_ & _ & _ & ->).
Qed.

Lemma yields_LinkDel n v :
  is_Some (v_links v !! n) -> yields (LinkDel n) v (set_links (remove_link n) v).
Proof. intros. eapply yields_call; [apply LinkDel_law|apply LinkDel_ok|done|by intros ? ? [_ ->]]. Qed.

Lemma yields_AddrAdd n a l v :
  v_links v !! n = Some l -> a ∉ l_addrs l ->
  yields (AddrAdd n a) v (set_links (alter (with_addr a) n) v).
Proof.
  intros. eapply yields_call; [apply AddrAdd_law|apply AddrAdd_ok|by exists l|by intros ? ? [_ ->]].
Qed.

Lemma yields_NewWithProtocol p v : yields (NewWithProtocol p) v v.
Proof.
  eapply yields_call; [apply NewWithProtocol_law|apply NewWithProtocol_ok|done|by intros ? ? ->].
Qed.

Lemma yields_EnableForward p v : yields (EnableForward p) v (set_forward p v).
Proof.
  eapply yields_call; [apply EnableForward_law|apply EnableForward_ok|done|by intros ? ? ->].
Qed.

Lemma yields_AppendRule p t c r rs v :
  v_chains v !! (p, t, c) = Some rs ->
  yields (AppendRule p t c r) v (set_chains (insert (p, t, c) (rs ++ [r])) v).
Proof.
  intros Hrs. eapply yields_call; [apply AppendRule_law|apply AppendRule_ok|by exists rs|].
  intros ? ? (rs' & E & ->). congruence.
Qed.

(** Looking a link up. *)
Lemma LinkByName_run n l w :
  v_links (view w) !! n = Some l ->
  exists w', LinkByName n w = (Ok (link_object n l), w') /\ view w' = view w.
Proof.
  intros Hl. destruct (LinkByName_ok n w) as (a & w' & E); [by eexists|].
  pose proof (LinkByName_law n w) as He. rewrite E in He. destruct He as [Hv (e & He & ->)].
  exists w'. split; [|done]. congruence.
Qed.

Lemma LinkByName_absent n w :
  v_links (view w) !! n = None ->
  exists e w', LinkByName n w = (Err e, w') /\ view w' = view w.
Proof.
  intros Hl. pose proof (LinkByName_law n w) as He.
  destruct (LinkByName n w) as [[a|e| |] w'] eqn:E; try done.
  - destruct He as [_ (x & Hx & _)]. congruence.
  - by eexists _, _.
Qed.

End Yields.

(** ** A simulated kernel *)

(** Addresses as texts: a prefix length after the slash, IPv6 with a colon. *)
Fixpoint string_has (c : Ascii.ascii) (s : string) : bool :=
  match s with
  | EmptyString => false
  | String c' s' => bool_decide (c = c') || string_has c s'
  end.
Definition colon : Ascii.ascii := Ascii.Ascii false true false true true true false false.
Definition slash_char : Ascii.ascii := Ascii.Ascii true true true true false true false false.

#[export] Instance text_AddrOps : AddrOps := {|
  addr := string;
  ip := string;
  ParseAddr s := if string_has slash_char s then Ok s else Err (errors_New "invalid CIDR address");
  addr_String s := s;
  addr_IPNet s := s;
  addr_Is4 s := negb (string_has colon s);
  addr_PrefixLen _ := 24;
  ParseIP s := s;
  addr_Contains a i := String.prefix (String.substring 0 7 a) i
|}.

(** The kernel as its view: a call succeeds exactly when it is possible. *)
Definition sim_call (b : bool) (f : netview -> netview) : st netview unit :=
  fun v => if b then (Ok tt, f v) else (Err (errors_New "operation not possible"), v).

Definition sim_if (test : netview -> bool) (f : netview -> netview) : st netview unit :=
  fun v => sim_call (test v) f v.

Definition has_link (n : string) (v : netview) : bool := bool_decide (is_Some (v_links v !! n)).
Definition has_chain (c : chain) (v : netview) : bool := bool_decide (is_Some (v_chains v !! c)).

Definition is_bridge_link (n : string) (v : netview) : bool :=
  match v_links v !! n with
  | Some l => match l_kind l with Bridge => true | _ => false end
  | None => false
  end.

(** Some chain of the table jumps to [c]. *)
Definition referenced_b (p : protocol) (t c : string) (v : netview) : bool :=
  existsb (fun kv => bool_decide (kv.1.1 = (p, t)) && existsb (jumps_to c) kv.2)
    (map_to_list (v_chains v)).

#[export] Instance sim_NetOps : NetOps netview := {|
  LinkAdd n k := sim_if (fun v => negb (has_link n v)) (set_links (insert n (new_link k)));
  LinkByName n v := match v_links v !! n with
                    | Some l => (Ok (link_object n l), v)
                    | None => (Err (errors_New "Link not found"), v)
                    end;
  LinkList v := (Ok (map (fun nl => link_object nl.1 nl.2) (map_to_list (v_links v))), v);
  LinkSetMTU n m := sim_if (has_link n) (set_links (alter (with_mtu m) n));
  LinkSetUp n := sim_if (has_link n) (set_links (alter with_up n));
  LinkSetMaster n m := sim_if (fun v => negb (String.eqb n m) && has_link n v && is_bridge_link m v)
                         (set_links (alter (with_master m) n));
  LinkDel n := sim_if (has_link n) (set_links (remove_link n));
  AddrAdd n a := sim_if (fun v => match v_links v !! n with
                                  | Some l => negb (bool_decide (a ∈ l_addrs l))
                                  | None => false
                                  end) (set_links (alter (with_addr a) n));
  NewWithProtocol p := sret tt;
  NewChain p t c := sim_if (fun v => negb (has_chain (p, t, c) v)) (set_chains (insert (p, t, c) []));
  ClearChain p t c := sim_if (fun _ => true) (set_chains (insert (p, t, c) []));
  DeleteChain p t c := sim_if (fun v => bool_decide (v_chains v !! (p, t, c) = Some []) &&
                                        negb (referenced_b p t c v))
                         (set_chains (delete (p, t, c)));
  AppendRule p t c r v := match v_chains v !! (p, t, c) with
                          | Some rs => (Ok tt, set_chains (insert (p, t, c) (rs ++ [r])) v)
                          | None => (Err (errors_New "no chain"), v)
                          end;
  DeleteRule p t c r v := match v_chains v !! (p, t, c) with
                          | Some rs => if bool_decide (r ∈ rs)
                                       then (Ok tt, set_chains (insert (p, t, c) (remove_rule r rs)) v)
                                       else (Err (errors_New "no rule"), v)
                          | None => (Err (errors_New "no chain"), v)
                          end;
  EnableForward p := sim_if (fun _ => true) (set_forward p)
|}.

Lemma sim_if_effect test f R :
  (forall v, test v = true -> R v tt (f v)) -> effect id (sim_if test f) R.
Proof. intros H v. unfold sim_if, sim_call. destruct (test v) eqn:E; [by apply H|done]. Qed.

Lemma sim_if_succeeds test f P :
  (forall v, P v -> test v = true) -> succeeds id (sim_if test f) P.
Proof. intros H v Hv. unfold sim_if, sim_call. rewrite (H v Hv). by eexists _, _. Qed.

#[export] Instance sim_NetLaws : NetLaws netview.
Proof.
  refine {| view := id |}; intros; try apply sim_if_effect; try done.
  - intros v Hv. split; [|done]. apply negb_true_iff, bool_decide_eq_false in Hv.
    by apply eq_None_not_Some.
  - intros v. cbn. destruct (v_links v !! n) eqn:E; [|done]. split; [done|]. by eexists.
  - intros v. cbn. rewrite map_map. cbn.
    change (map (fun x : string * link => x.1) (map_to_list (v_links v)))
      with (fst <$> map_to_list (v_links v)).
    split_and!; [done|apply NoDup_fst_map_to_list|]. intros n. rewrite list_elem_of_fmap. split.
    + intros ([n' l] & -> & Hin). apply elem_of_map_to_list in Hin. by eexists.
    + intros [l Hl]. exists (n, l). split; [done|]. by apply elem_of_map_to_list.
  - intros v Hv. by apply bool_decide_eq_true in Hv.
  - intros v Hv. by apply bool_decide_eq_true in Hv.
  - intros v Hv. apply andb_prop in Hv as [H1 H2]. apply andb_prop in H1 as [H0 H1].
    apply bool_decide_eq_true in H1. apply negb_true_iff, String.eqb_neq in H0.
    split_and!; [done|done| |done]. unfold is_bridge_link in H2. by destruct (v_links v !! m).
  - intros v Hv. by apply bool_decide_eq_true in Hv.
  - intros v Hv. by destruct (v_links v !! n).
  - intros v Hv. split; [|done]. apply negb_true_iff, bool_decide_eq_false in Hv.
    by apply eq_None_not_Some.
  - intros v Hv. apply andb_prop in Hv as [H1 _]. by apply bool_decide_eq_true in H1.
  - intros v. cbn. destruct (v_chains v !! (p, t, c)) eqn:E; [|done]. by eexists.
  - intros v. cbn. destruct (v_chains v !! (p, t, c)) eqn:E; [|done]. case_bool_decide; [|done].
    by eexists.
Defined.

Lemma referenced_b_spec p t c v : referenced_b p t c v = true -> referenced p t c (v_chains v).
Proof.
  unfold referenced_b. intros H. apply existsb_exists in H as ([[[p' t'] c'] rs] & Hin & H).
  cbn in H. apply andb_prop in H as [H1 H2]. apply bool_decide_eq_true in H1. injection H1 as -> ->.
  apply existsb_exists in H2 as (r & Hr & Hj). exists c', rs, r.
  split_and!; [by apply elem_of_map_to_list, list_elem_of_In|by apply list_elem_of_In|done].
Qed.

#[export] Instance sim_NetReliable : NetReliable netview.
Proof.
  split; intros; try (apply sim_if_succeeds; intros v Hv); try done.
  - apply negb_true_iff, bool_decide_eq_false. rewrite Hv. by intros [? ?].
  - intros v [l Hl]. cbn in *. rewrite Hl. by eexists _, _.
  - intros v _. by eexists _, _.
  - by apply bool_decide_eq_true.
  - by apply bool_decide_eq_true.
  - destruct Hv as (H0 & H1 & b & H2 & H3). unfold is_bridge_link, has_link.
    apply String.eqb_neq in H0. rewrite H0, H2, H3, bool_decide_true; done.
  - by apply bool_decide_eq_true.
  - destruct Hv as (l & Hl & Ha). cbn in *. rewrite Hl. by rewrite bool_decide_false.
  - intros v _. by eexists _, _.
  - apply negb_true_iff, bool_decide_eq_false. intros [rs Hrs]. by pose proof (eq_trans (eq_sym Hrs) Hv).
  - destruct Hv as [H1 H2]. rewrite bool_decide_true by done.
    destruct (referenced_b p t c v) eqn:E; [|done]. by apply referenced_b_spec in E.
  - intros v [rs Hrs]. cbn in *. rewrite Hrs. by eexists _, _.
  - intros v (rs & Hrs & Hr). cbn in *. rewrite Hrs, bool_decide_true by done. by eexists _, _.
Defined.
