(* ===== verification/Files.v ===== *)
(** * What the host's files do

    Laws of the file operations on a view of the file system: a map from paths to
    what is there, the path each open file writes to, and what is left to read from
    each open file.  Calls fail without effect unless their documentation says
    otherwise: a copy that fails leaves a partial file and [os.RemoveAll] may stop
    half way. *)

From S2P Require Import Prelude GoPath Host Netlink.

Local Open Scope Z_scope.
Local Open Scope go_scope.

Inductive inode : Type :=
| Regular (data : list Z)
| Directory
| Socket.

#[export] Instance inode_eq_dec : EqDecision inode.
Proof. solve_decision. Defined.

Definition is_dir (i : inode) : bool := match i with Directory => true | _ => false end.

(** The view: paths, files open for writing, readers. *)
Record fsview : Type := MkFs {
  fs_paths : gmap string inode;
  fs_writes : gmap nat string;
  fs_reads : gmap nat (list Z)
}.

Definition set_paths (f : gmap string inode -> gmap string inode) (v : fsview) : fsview :=
  MkFs (f (fs_paths v)) (fs_writes v) (fs_reads v).

(** The names [os.CreateTemp] makes: the pattern with something added to the end. *)
Definition temp_name (dir pattern name : string) : Prop :=
  exists suffix, plain (pattern +:+ suffix) = true /\ name = Join [dir; pattern +:+ suffix].

(** Nothing but [p] changed. *)
Definition only (p : string) (m m' : gmap string inode) : Prop :=
  forall q, q <> p -> m' !! q = m !! q.

Class FileLaws (W : Type) `{!Host W} `{!HostFiles W} `{!Http W} : Type := {
  fview : W -> fsview;
  (** What a decompressor makes of bytes; what a server delivers for a URL. *)
  decoded : Decompressor -> list Z -> list Z;
  Stat_law : forall p w, fview (os_Stat p w).2 = fview w /\
    match (os_Stat p w).1 with
    | Exists d => exists i, fs_paths (fview w) !! p = Some i /\ d = is_dir i
    | NotExist => fs_paths (fview w) !! p = None
    | StatFailed _ => True
    end;
  Remove_law : forall p, effect fview (os_Remove p) (fun v _ v' =>
    is_Some (fs_paths v !! p) /\ v' = set_paths (delete p) v);
  RemoveAll_law : forall d w, match os_RemoveAll d w with
    | (Ok _, w') => fview w' = set_paths (filter (fun kv => under d kv.1 = false)) (fview w)
    | (Err _, w') => exists m, fview w' = set_paths (fun _ => m) (fview w) /\
        m ⊆ fs_paths (fview w) /\
        (forall p, under d p = false -> m !! p = fs_paths (fview w) !! p)
    | _ => False
    end;
  Mkdir_law : forall d, effect fview (os_Mkdir d) (fun v _ v' =>
    fs_paths v !! d = None /\ v' = set_paths (insert d Directory) v);
  CreateTemp_law : forall d pat, effect fview (os_CreateTemp d pat) (fun v fn v' =>
    temp_name d pat fn.2 /\ fs_paths v !! fn.2 = None /\ fs_writes v !! fn.1 = None /\
    fs_reads v !! fn.1 = None /\
    v' = MkFs (<[fn.2 := Regular []]> (fs_paths v)) (<[fn.1 := fn.2]> (fs_writes v)) (fs_reads v));
  (** Copying into a new file. *)
  Copy_law : forall f g w p c,
    fs_writes (fview w) !! f = Some p -> fs_paths (fview w) !! p = Some (Regular []) ->
    fs_reads (fview w) !! g = Some c ->
    match io_Copy f g w with
    | (Ok _, w') => fs_paths (fview w') = <[p := Regular c]> (fs_paths (fview w)) /\
        fs_writes (fview w') = fs_writes (fview w)
    | (Err _, w') => exists c', fs_paths (fview w') = <[p := Regular c']> (fs_paths (fview w))
    | _ => False
    end;
  Sync_law : forall f, effect fview (file_Sync f) (fun v _ v' => v' = v);
  Close_law : forall f w, fs_paths (fview (file_Close f w)) = fs_paths (fview w);
  Rename_law : forall a b, effect fview (os_Rename a b) (fun v _ v' =>
    exists i, fs_paths v !! a = Some i /\ v' = set_paths (fun m => <[b := i]> (delete a m)) v);
  Open_law : forall p, effect fview (os_Open p) (fun v f v' =>
    exists c, fs_paths v !! p = Some (Regular c) /\
      v' = MkFs (fs_paths v) (fs_writes v) (<[f := c]> (fs_reads v)));
  MkdirAll_law : forall d w, match os_MkdirAll d w with
    | (Ok _, w') => fs_paths (fview w') !! d = Some Directory /\
        fs_paths (fview w) ⊆ fs_paths (fview w')
    | (Err _, w') => fs_paths (fview w) ⊆ fs_paths (fview w')
    | _ => False
    end;
  Decompress_law : forall d f c w, fs_reads (fview w) !! f = Some c ->
    match Decompress d f w with
    | (Ok g, w') => fview w' = MkFs (fs_paths (fview w)) (fs_writes (fview w))
                                 (<[g := decoded d c]> (fs_reads (fview w)))
    | (Err _, w') => fs_paths (fview w') = fs_paths (fview w)
    | _ => False
    end;
  (** A response's body is what the server sends. *)
  Do_law : forall u, effect fview (http_Do u) (fun v r v' =>
    exists c, v' = MkFs (fs_paths v) (fs_writes v) (<[Body r := c]> (fs_reads v)));
  NewRequest_law : forall u, match http_NewRequest u with Ok _ | Err _ => True | _ => False end
}.

(** A host that does what it can. *)
Class FileReliable (W : Type) `{!Host W} `{!HostFiles W} `{!Http W} {L : FileLaws W} : Type := {
  Stat_ok : forall p w e, (os_Stat p w).1 <> StatFailed e;
  Remove_ok : forall p, succeeds fview (os_Remove p) (fun v => is_Some (fs_paths v !! p));
  RemoveAll_ok : forall d, succeeds fview (os_RemoveAll d) (fun _ => True)
}.

Section FileLemmas.
Context {W : Type} `{!Host W} `{!HostFiles W} `{!Http W} {L : FileLaws W}.

Definition paths (w : W) : gmap string inode := fs_paths (fview w).

Lemma paths_stat p w : paths (os_Stat p w).2 = paths w.
Proof. unfold paths. by rewrite (proj1 (Stat_law p w)). Qed.

(** [if _, err := os.Stat(p); err == nil { os.Remove(p) }] with a warning. *)
Definition remove_if_there (p : string) : st W unit :=
  fun w => match os_Stat p w with
           | (Exists _, w') => swarn (os_Remove p) w'
           | (_, w') => (Ok tt, w')
           end.

Definition remove_dir_if_there (d : string) : st W unit :=
  fun w => match os_Stat d w with
           | (Exists _, w') => swarn (os_RemoveAll d) w'
           | (_, w') => (Ok tt, w')
           end.

Lemma remove_if_there_run {LR : FileReliable W} p w :
  exists w', remove_if_there p w = (Ok tt, w') /\ paths w' = delete p (paths w).
Proof.
  unfold remove_if_there. destruct (Stat_law p w) as [Hv Hs]. pose proof (Stat_ok p w) as Hok.
  destruct (os_Stat p w) as [[d| |e] w1]; cbn in *.
  - destruct Hs as (i & Hi & _). rewrite <- Hv in Hi.
    destruct (Remove_ok p w1) as ([] & w2 & E); [by eexists|].
    pose proof (Remove_law p w1) as Hr. rewrite E in Hr. destruct Hr as [_ Hr].
    exists w2. unfold swarn. rewrite E. split; [done|]. unfold paths. by rewrite Hr, Hv.
  - exists w1. split; [done|]. unfold paths. by rewrite delete_id, Hv.
  - by destruct (Hok e).
Qed.

(** If there is something below [d], then there is [d]. *)
Definition rooted_at (d : string) (m : gmap string inode) : Prop :=
  forall p, is_Some (m !! p) -> under d p = true -> is_Some (m !! d).

Lemma remove_dir_if_there_run {LR : FileReliable W} d w :
  rooted_at d (paths w) ->
  exists w', remove_dir_if_there d w = (Ok tt, w') /\
    paths w' = filter (fun kv => under d kv.1 = false) (paths w).
Proof.
  intros Ht. unfold remove_dir_if_there. destruct (Stat_law d w) as [Hv Hs].
  pose proof (Stat_ok d w) as Hok. destruct (os_Stat d w) as [[b| |e] w1]; cbn in *.
  - destruct (RemoveAll_ok d w1 I) as ([] & w2 & E).
    pose proof (RemoveAll_law d w1) as Hr. rewrite E in Hr.
    exists w2. unfold swarn. rewrite E. split; [done|]. unfold paths. by rewrite Hr, Hv.
  - exists w1. split; [done|]. unfold paths in *. rewrite Hv. symmetry. apply map_filter_id.
    intros p i Hi. cbn. destruct (under d p) eqn:Hu; [|done].
    destruct (Ht p (mk_is_Some _ _ Hi) Hu) as [j Hj]. congruence.
  - by destruct (Hok e).
Qed.

End FileLemmas.
