(* ===== verification/Dcnet.v ===== *)
(** * Networks of the data center (dcnet/link.go, dcnet/nat.go, dcnet/network.go)

    Random link names and the removal of all links the program added; the firewall
    chains of the program, made at the start and removed at the end; and networks,
    that is Linux bridges with their addresses and firewall rules. *)

From S2P Require Import Prelude GoBinary GoCrypto Netlink Types.

Local Open Scope Z_scope.
Local Open Scope go_scope.

(** ** Links (link.go) *)

Inductive LinkType : Type :=
| LinkTypeVeth
| LinkTypeTap.

Definition LinkType_string (t : LinkType) : string :=
  match t with LinkTypeVeth => "veth" | LinkTypeTap => "tap" end.

Definition prefix : string := "pm_".

Section Links.
Context {W : Type} `{!AddrOps} `{!NetOps W} `{!Rand W}.

Definition RandomLinkName (typ : LinkType) : st W string :=
  let* entropy := swrap "failed to generate random link name" (Rand_Read 4) in
  sret (prefix +:+ LinkType_string typ +:+ string_of_bytes (hex_Encode entropy)).

Definition CleanupAllLinks : st W unit :=
  let* r := stry LinkList in
  match r with
  | inr _ => sret tt
  | inl links =>
      sfor links (fun link =>
        if String.prefix prefix (Attrs_Name link) then swarn (LinkDel (Attrs_Name link))
        else sret tt)
  end.

End Links.

(** ** Firewall chains (nat.go) *)

Section Nat.
Context {W : Type} `{!AddrOps} `{!NetOps W}.

Definition protocols : list protocol := [ProtocolIPv4; ProtocolIPv6].

Definition newIptables : st W unit :=
  swrap "failed to create iptables for IPv4" (NewWithProtocol ProtocolIPv4) >>>
  swrap "failed to create iptables for IPv6" (NewWithProtocol ProtocolIPv6).

(** The loop bodies of the two functions below. *)
Definition create_chains (ipt : protocol) : st W unit :=
  swrap "failed to create the new chain in filter table" (NewChain ipt "filter" "PLACEMAT") >>>
  swrap "failed to create the new chain in nat table" (NewChain ipt "nat" "PLACEMAT") >>>
  swrap "failed to append the PLACEMAT rule in nat table"
    (AppendRule ipt "nat" "POSTROUTING" ["-j"; "PLACEMAT"]) >>>
  swrap "failed to append the PLACEMAT rule in filter table"
    (AppendRule ipt "filter" "FORWARD" ["-j"; "PLACEMAT"]).

Definition remove_chains (ipt : protocol) : st W unit :=
  swarn (DeleteRule ipt "filter" "FORWARD" ["-j"; "PLACEMAT"]) >>>
  swarn (DeleteRule ipt "nat" "POSTROUTING" ["-j"; "PLACEMAT"]) >>>
  swarn (ClearChain ipt "filter" "PLACEMAT") >>>
  swarn (DeleteChain ipt "filter" "PLACEMAT") >>>
  swarn (ClearChain ipt "nat" "PLACEMAT") >>>
  swarn (DeleteChain ipt "nat" "PLACEMAT").

Definition CreateNatRules : st W unit := newIptables >>> sfor protocols create_chains.

Definition CleanupNatRules : st W unit :=
  let* r := stry newIptables in
  match r with
  | inr _ => sret tt
  | inl _ =>
      sfor protocols remove_chains
  end.

End Nat.

(** ** Networks (network.go) *)

Record network `{!AddrOps} : Type := {
  n_name : string;
  n_typ : NetworkType;
  n_useNAT : bool;
  n_addr : option addr
}.

Definition NewNetwork `{!AddrOps} (spec : NetworkSpec) : outcome network :=
  let! a := if 0 <? Z.of_nat (String.length (nw_Address spec))
            then let! a := ParseAddr (nw_Address spec) in Ok (Some a)
            else Ok None in
  Ok {| n_name := nw_Name spec; n_typ := nw_Type spec; n_useNAT := nw_UseNAT spec; n_addr := a |}.

Definition IsType `{!AddrOps} (n : network) (typ : NetworkType) : bool := String.eqb (n_typ n) typ.

Definition network_Contains `{!AddrOps} (n : network) (i : ip) : bool :=
  match n_addr n with
  | None => false
  | Some a => addr_Contains a i
  end.

Section Network.
Context {W : Type} `{!AddrOps} `{!NetOps W}.

(** [n.addr.X] on a possibly nil address. *)
Definition deref {A : Type} (a : option A) : st W A :=
  match a with
  | Some x => sret x
  | None => slift (Panic NilDereference)
  end.

Definition appendAcceptRule (ipts : list protocol) (ifName : string) : st W unit :=
  sfor ipts (fun ipt =>
    swrap ("failed to append the accept rule to input interface " +:+ ifName)
      (AppendRule ipt "filter" "PLACEMAT" ["-i"; ifName; "-j"; "ACCEPT"]) >>>
    swrap ("failed to append the accept rule to output interface " +:+ ifName)
      (AppendRule ipt "filter" "PLACEMAT" ["-o"; ifName; "-j"; "ACCEPT"])).

Definition appendMasqueradeRule (ipt : protocol) (ipNet : string) : st W unit :=
  AppendRule ipt "nat" "PLACEMAT" ["-s"; ipNet; "!"; "--destination"; ipNet; "-j"; "MASQUERADE"].

Definition network_Cleanup (n : network) : st W unit :=
  let* r := stry (LinkByName (n_name n)) in
  match r with
  | inr _ => sret tt
  | inl link => swarn (LinkDel (Attrs_Name link))
  end.

(** The bridge: link, MTU, state and address. *)
Definition setup_bridge (n : network) (mtu : Z) : st W unit :=
  swrap ("failed to add the bridge " +:+ n_name n) (LinkAdd (n_name n) Bridge) >>>
  (if 0 <? mtu
   then swrap ("failed to set mtu to the bridge " +:+ n_name n) (LinkSetMTU (n_name n) mtu)
   else sret tt) >>>
  swrap ("failed to set up to the bridge " +:+ n_name n) (LinkSetUp (n_name n)) >>>
  match n_addr n with
  | Some a => swrap ("failed to add the address " +:+ addr_String a) (AddrAdd (n_name n) a)
  | None => sret tt
  end.

Definition network_Setup (n : network) (mtu : Z) (force : bool) : st W unit :=
  (if force then network_Cleanup n else sret tt) >>>
  setup_bridge n mtu >>>
  newIptables >>>
  if negb (n_useNAT n) then
    if String.eqb (n_typ n) NetworkInternal then appendAcceptRule protocols (n_name n) else sret tt
  else
    swrap "failed to enable IPv4 forwarding" (EnableForward ProtocolIPv4) >>>
    swrap "failed to enable IPv6 forwarding" (EnableForward ProtocolIPv6) >>>
    let* a := deref (n_addr n) in
    let ipt := if addr_Is4 a then ProtocolIPv4 else ProtocolIPv6 in
    swrap "failed to append accept rule" (appendAcceptRule protocols (n_name n)) >>>
    swrap "failed to append masquerade rule" (appendMasqueradeRule ipt (addr_IPNet a)).

Definition AddAddr (n : network) (address : string) : st W unit :=
  let* a := deref (n_addr n) in
  let* addrWithMask := swrap "failed to parse the address"
    (slift (ParseAddr (address +:+ "/" +:+ pretty (addr_PrefixLen a)))) in
  let* link := swrap ("failed to find the link " +:+ n_name n) (LinkByName (n_name n)) in
  swrap ("failed to add the address " +:+ addr_String addrWithMask)
    (AddrAdd (Attrs_Name link) addrWithMask).

End Network.

(** ** The chains of the program *)

Definition jump : rule := ["-j"; "PLACEMAT"].

(** The chains the program makes. *)
Definition ours (k : chain) : bool :=
  bool_decide (k.2 = "PLACEMAT") && (bool_decide (k.1.2 = "filter") || bool_decide (k.1.2 = "nat")).

(** The chains of the system it appends its jump to. *)
Definition base (p : protocol) (t : string) : chain :=
  (p, t, if String.eqb t "nat" then "POSTROUTING" else "FORWARD").
Definition bases : list chain :=
  [base ProtocolIPv4 "nat"; base ProtocolIPv4 "filter"; base ProtocolIPv6 "nat";
   base ProtocolIPv6 "filter"].

(** A firewall the program has not touched. *)
Definition untouched (cs : gmap chain (list rule)) : Prop :=
  (forall k, ours k = true -> cs !! k = None) /\
  (forall k rs r, cs !! k = Some rs -> r ∈ rs -> jumps_to "PLACEMAT" r = false).

(** The firewall [cs] differs from [cs0] at most by the program's chains and by its
    jump at the end of a base chain. *)
Definition started (cs0 cs : gmap chain (list rule)) : Prop :=
  forall k, ours k = true \/ cs !! k = cs0 !! k \/
    (k ∈ bases /\ exists rs, cs0 !! k = Some rs /\ cs !! k = Some (rs ++ [jump])).

(** [cs] is [started] and agrees with [cs0] on the chains [F]. *)
Definition fixed (cs0 : gmap chain (list rule)) (F : list chain) (cs : gmap chain (list rule))
  : Prop := started cs0 cs /\ forall k, k ∈ F -> cs !! k = cs0 !! k.

Lemma remove_rule_last r rs : r ∉ rs -> remove_rule r (rs ++ [r]) = rs.
Proof.
  induction rs as [|x rs IH]; intros H; cbn.
  - by rewrite bool_decide_true.
  - apply not_elem_of_cons in H as [H1 H2]. rewrite bool_decide_false by done. by rewrite IH.
Qed.

Lemma bases_not_ours k : k ∈ bases -> ours k = false.
Proof. intros H. repeat (apply elem_of_cons in H as [->|H]; [reflexivity|]). by apply elem_of_nil in H. Qed.

Lemma fixed_sub cs0 F F' cs : (forall k, k ∈ F' -> k ∈ F) -> fixed cs0 F cs -> fixed cs0 F' cs.
Proof. intros Hs [H1 H2]. split; [done|]. intros k Hk. by apply H2, Hs. Qed.

(** Updating one of the program's chains. *)
Lemma fixed_ours cs0 F cs k f :
  ours k = true -> (forall k', k' ∈ F -> ours k' = false) ->
  fixed cs0 F cs -> (forall k', k' <> k -> f !! k' = cs !! k') -> fixed cs0 F f.
Proof.
  intros Hk HF [H1 H2] Hf. split.
  - intros k'. destruct (decide (k' = k)) as [->|Hne]; [by left|]. rewrite Hf by done. apply H1.
  - intros k' Hk'. rewrite Hf; [by apply H2|]. intros ->. by rewrite (HF k Hk') in Hk.
Qed.

(** Appending the jump to a base chain that is still as it was. *)
Lemma fixed_append cs0 F cs k rs :
  k ∈ bases -> k ∉ F -> fixed cs0 (k :: F) cs -> cs !! k = Some rs ->
  fixed cs0 F (<[k := rs ++ [jump]]> cs).
Proof.
  intros Hk HF [H1 H2] Hrs. split.
  - intros k'. destruct (decide (k' = k)) as [->|Hne].
    + right; right. split; [done|]. exists rs. rewrite lookup_insert_eq. split; [|done].
      rewrite <- H2; [done|left].
    + rewrite lookup_insert_ne by done. apply H1.
  - intros k' Hk'. rewrite lookup_insert_ne by (by intros ->). apply H2. by right.
Qed.

(** Removing the jump from a base chain. *)
Lemma fixed_delete cs0 F cs k rs :
  untouched cs0 -> k ∈ bases -> fixed cs0 F cs -> cs !! k = Some rs -> jump ∈ rs ->
  fixed cs0 (k :: F) (<[k := remove_rule jump rs]> cs).
Proof.
  intros [_ Hu] Hk [H1 H2] Hrs Hj.
  assert (Hr : <[k := remove_rule jump rs]> cs !! k = cs0 !! k).
  { rewrite lookup_insert_eq. destruct (H1 k) as [Ho|[E|(_ & rs0 & E0 & E)]].
    - by rewrite bases_not_ours in Ho.
    - rewrite Hrs in E. symmetry in E. by pose proof (Hu k rs jump E Hj).
    - rewrite Hrs in E. injection E as ->. rewrite E0, remove_rule_last; [done|].
      intros Hin. by pose proof (Hu k rs0 jump E0 Hin). }
  split.
  - intros k'. destruct (decide (k' = k)) as [->|Hne]; [right; by left|].
    rewrite lookup_insert_ne by done. apply H1.
  - intros k' [->|Hk']%elem_of_cons; [done|].
    destruct (decide (k' = k)) as [->|Hne]; [done|]. rewrite lookup_insert_ne by done. by apply H2.
Qed.

(** A base chain without the jump is as it was. *)
Lemma fixed_absent cs0 F cs k :
  untouched cs0 -> k ∈ bases -> fixed cs0 F cs ->
  (forall rs, cs !! k = Some rs -> jump ∉ rs) -> fixed cs0 (k :: F) cs.
Proof.
  intros Hu Hk [H1 H2] Hno. split; [done|]. intros k' [->|Hk']%elem_of_cons; [|by apply H2].
  destruct (H1 k) as [Ho|[E|(_ & rs & E0 & E)]]; [by rewrite bases_not_ours in Ho|done|].
  exfalso. apply (Hno _ E). apply elem_of_app. right. left.
Qed.

Lemma jumps_jump : jumps_to "PLACEMAT" jump = true.
Proof. reflexivity. Qed.

(** A chain of the program whose table has no more jump to it is not referenced. *)
Lemma not_referenced cs0 F cs p t :
  untouched cs0 -> (t = "filter" \/ t = "nat") -> fixed cs0 F cs -> base p t ∈ F ->
  cs !! (p, t, "PLACEMAT") = Some [] -> ~ referenced p t "PLACEMAT" cs.
Proof.
  intros [_ Hu] Ht [H1 H2] Hb Hc (c & rs & r & Hrs & Hr & Hj).
  destruct (decide (c = "PLACEMAT")) as [->|Hne].
  { rewrite Hc in Hrs. injection Hrs as <-. by apply elem_of_nil in Hr. }
  destruct (H1 (p, t, c)) as [Ho|[E|(Hk & _)]].
  - unfold ours in Ho. apply andb_prop in Ho as [Ho _]. by apply bool_decide_eq_true in Ho.
  - rewrite Hrs in E. symmetry in E. rewrite (Hu _ _ _ E Hr) in Hj. done.
  - assert (Eb : (p, t, c) = base p t).
    { repeat (apply elem_of_cons in Hk as [[= -> -> ->]|Hk]; [reflexivity|]).
      by apply elem_of_nil in Hk. }
    rewrite Eb in Hrs. rewrite (H2 _ Hb) in Hrs. rewrite (Hu _ _ _ Hrs Hr) in Hj. done.
Qed.

(** When everything is fixed the firewall is the one there was. *)
Lemma fixed_all cs0 cs :
  untouched cs0 -> fixed cs0 bases cs -> (forall k, ours k = true -> cs !! k = None) -> cs = cs0.
Proof.
  intros [Ho _] [H1 H2] Hn. apply map_eq. intros k.
  destruct (ours k) eqn:Ek; [by rewrite Hn, Ho|].
  destruct (H1 k) as [E|[E|(Hk & _)]]; [by rewrite Ek in E|done|by apply H2].
Qed.

(** ** The code on the chains *)

Section ChainLemmas.
Context {W : Type} `{!AddrOps} `{!NetOps W} {L : NetLaws W}.

(** A predicate of the chains, on states. *)
Definition onc (P : gmap chain (list rule) -> Prop) (w : W) : Prop := P (v_chains (view w)).

(** A call with a documented effect, on predicates of the view. *)
Lemma effect_safe {A} (m : st W A) R (P : W -> Prop) (Q : A -> W -> Prop) (E : W -> Prop) :
  effect view m R ->
  (forall w a w', P w -> R (view w) a (view w') -> Q a w') ->
  (forall w w', P w -> view w' = view w -> E w') -> safe P m Q E.
Proof.
  intros He HQ HE w Hw. specialize (He w). destruct (m w) as [[] w']; eauto.
Qed.

(** Calls that leave the chains alone keep every predicate of them. *)
Lemma effect_onc {A} (m : st W A) R P :
  effect view m R -> (forall v a v', R v a v' -> v_chains v' = v_chains v) ->
  safe (onc P) m (fun _ => onc P) (onc P).
Proof.
  intros He HR. eapply effect_safe; [done|..]; unfold onc.
  - intros w a w' Hw Hr. by rewrite (HR _ _ _ Hr).
  - intros w w' Hw E. by rewrite E.
Qed.

Ltac links_only := eapply effect_onc; [first [apply LinkAdd_law|apply LinkByName_law|apply LinkDel_law
  |apply LinkSetMTU_law|apply LinkSetUp_law|apply AddrAdd_law|apply NewWithProtocol_law
  |apply EnableForward_law|apply LinkSetMaster_law]|intros ? ? ? Hr; cbn in Hr; naive_solver].

Lemma safe_newIptables P : safe (onc P) newIptables (fun _ => onc P) (onc P).
Proof.
  eapply safe_seq; [apply safe_wrap; links_only|]. apply safe_wrap. links_only.
Qed.

(** A new or updated chain of the program. *)
Lemma safe_new_chain cs0 F p t :
  (t = "filter" \/ t = "nat") -> (forall k, k ∈ F -> ours k = false) ->
  safe (onc (fixed cs0 F)) (NewChain p t "PLACEMAT") (fun _ => onc (fixed cs0 F))
    (onc (fixed cs0 F)).
Proof.
  intros Ht HF. eapply effect_safe; [apply NewChain_law|..]; unfold onc.
  - intros w _ w' Hw [_ ->]. cbn. eapply (fixed_ours _ _ _ (p, t, "PLACEMAT")); [|done..|].
    + by destruct Ht as [->| ->].
    + intros k' Hne. by apply lookup_insert_ne.
  - intros w w' Hw ->. done.
Qed.

Lemma safe_append_ours cs0 F p t r :
  (t = "filter" \/ t = "nat") -> (forall k, k ∈ F -> ours k = false) ->
  safe (onc (fixed cs0 F)) (AppendRule p t "PLACEMAT" r) (fun _ => onc (fixed cs0 F))
    (onc (fixed cs0 F)).
Proof.
  intros Ht HF. eapply effect_safe; [apply AppendRule_law|..]; unfold onc.
  - intros w _ w' Hw (rs & _ & ->). cbn. eapply (fixed_ours _ _ _ (p, t, "PLACEMAT")); [|done..|].
    + by destruct Ht as [->| ->].
    + intros k' Hne. by apply lookup_insert_ne.
  - intros w w' Hw ->. done.
Qed.

(** Appending the jump to the base chains, one after the other. *)
Lemma safe_append_jump cs0 F p t c :
  base p t = (p, t, c) -> (p, t, c) ∈ bases -> (p, t, c) ∉ F ->
  safe (onc (fixed cs0 ((p, t, c) :: F))) (AppendRule p t c jump)
    (fun _ => onc (fixed cs0 F)) (onc (fixed cs0 [])).
Proof.
  intros _ Hb HF. eapply effect_safe; [apply AppendRule_law|..]; unfold onc.
  - intros w _ w' Hw (rs & Hrs & ->). cbn. by apply fixed_append.
  - intros w w' Hw ->. eapply fixed_sub; [|done]. intros k Hk. by apply elem_of_nil in Hk.
Qed.

Lemma safe_weaken {A} (m : st W A) P Q E E' :
  safe P m Q E -> (forall w, E w -> E' w) -> safe P m Q E'.
Proof. intros Hm HE. eapply safe_conseq; eauto. Qed.

Lemma fixed_nil cs0 F w : onc (fixed cs0 F) w -> onc (fixed cs0 []) w.
Proof. apply fixed_sub. intros k Hk. by apply elem_of_nil in Hk. Qed.

Lemma create_one cs0 p F :
  [base p "nat"; base p "filter"] ++ F ⊆ bases -> NoDup ([base p "nat"; base p "filter"] ++ F) ->
  safe (onc (fixed cs0 ([base p "nat"; base p "filter"] ++ F)))
    (create_chains p)
    (fun _ => onc (fixed cs0 F)) (onc (fixed cs0 [])).
Proof.
  intros Hs Hd. cbn [app] in *. apply NoDup_cons in Hd as [Hd1 Hd]. apply NoDup_cons in Hd as [Hd2 _].
  assert (HF : forall k, k ∈ base p "nat" :: base p "filter" :: F -> ours k = false).
  { intros k Hk. by apply bases_not_ours, Hs. }
  eapply safe_seq; [apply safe_wrap; eapply safe_weaken; [by apply safe_new_chain; [left|]|
    apply fixed_nil]|].
  eapply safe_seq; [apply safe_wrap; eapply safe_weaken; [by apply safe_new_chain; [right|]|
    apply fixed_nil]|].
  eapply safe_seq; [apply safe_wrap, safe_append_jump; [done| |done]; apply Hs; left|].
  apply safe_wrap, safe_append_jump; [done| |done]. apply Hs. right. left.
Qed.

(** However [CreateNatRules] ends, the firewall is [started]. *)
Lemma create_started cs0 :
  safe (onc (fun cs => cs = cs0)) CreateNatRules (fun _ => onc (fixed cs0 [])) (onc (fixed cs0 [])).
Proof.
  apply (safe_conseq _ (onc (fixed cs0 bases)) _ _ (fun _ => onc (fixed cs0 [])) _
    (onc (fixed cs0 []))); [|intros w Hw; unfold onc in *; rewrite Hw; split; [intros k; right; by left|done]|done..].
  eapply safe_seq; [eapply safe_weaken; [apply safe_newIptables|apply fixed_nil]|].
  unfold protocols. cbn [sfor].
  eapply safe_seq; [apply (create_one cs0 ProtocolIPv4
    [base ProtocolIPv6 "nat"; base ProtocolIPv6 "filter"]); [done|by apply (bool_decide_unpack _)]|].
  eapply safe_seq; [apply (create_one cs0 ProtocolIPv6 []);
    [set_solver|by apply (bool_decide_unpack _)]|].
  by apply safe_ret.
Qed.

(** The rules of networks go into the program's chains. *)
Lemma safe_accept cs0 ifName ipts :
  safe (onc (fixed cs0 [])) (appendAcceptRule ipts ifName) (fun _ => onc (fixed cs0 []))
    (onc (fixed cs0 [])).
Proof.
  apply safe_for. intros ipt _. eapply safe_seq; [apply safe_wrap, safe_append_ours; [by left|]|].
  - intros k Hk. by apply elem_of_nil in Hk.
  - apply safe_wrap, safe_append_ours; [by left|]. intros k Hk. by apply elem_of_nil in Hk.
Qed.

Lemma safe_cleanup_link n P : safe (onc P) (network_Cleanup n) (fun _ => onc P) (onc P).
Proof.
  unfold network_Cleanup. apply (safe_bind _ _ (fun _ => onc P)).
  - apply safe_try. links_only.
  - intros [link|e]; [|by apply safe_ret]. apply safe_warn. links_only.
Qed.

Lemma safe_setup_bridge n mtu P : safe (onc P) (setup_bridge n mtu) (fun _ => onc P) (onc P).
Proof.
  eapply safe_seq; [apply safe_wrap; links_only|].
  eapply safe_seq; [case_match; [apply safe_wrap; links_only|by apply safe_ret]|].
  eapply safe_seq; [apply safe_wrap; links_only|].
  case_match; [apply safe_wrap; links_only|by apply safe_ret].
Qed.

(** A network that uses NAT has an address. *)
Definition nat_has_addr (n : network) : Prop := n_useNAT n = true -> is_Some (n_addr n).

Lemma safe_network_Setup cs0 n mtu force :
  nat_has_addr n ->
  safe (onc (fixed cs0 [])) (network_Setup n mtu force) (fun _ => onc (fixed cs0 []))
    (onc (fixed cs0 [])).
Proof.
  intros Hn. eapply safe_seq; [case_match; [apply safe_cleanup_link|by apply safe_ret]|].
  eapply safe_seq; [apply safe_setup_bridge|]. eapply safe_seq; [apply safe_newIptables|].
  destruct (n_useNAT n) eqn:Eu; cbn [negb].
  - eapply safe_seq; [apply safe_wrap; links_only|]. eapply safe_seq; [apply safe_wrap; links_only|].
    destruct (Hn Eu) as [a Ea]. rewrite Ea.
    apply (safe_bind _ _ (fun _ => onc (fixed cs0 []))); [by apply safe_ret|]. intros b.
    eapply safe_seq; [apply safe_wrap, safe_accept|].
    apply safe_wrap, safe_append_ours; [by right|]. intros k Hk. by apply elem_of_nil in Hk.
  - case_match; [apply safe_accept|by apply safe_ret].
Qed.

End ChainLemmas.

(** *** Cleaning up *)

Section CleanupLemmas.
Context {W : Type} `{!AddrOps} `{!NetOps W} {L : NetLaws W} {LR : NetReliable W}.
Context (cs0 : gmap chain (list rule)) (Hu : untouched cs0).

(** The base chains [F] are restored and the chains [G] are gone. *)
Definition cleaned (F G : list chain) (cs : gmap chain (list rule)) : Prop :=
  fixed cs0 F cs /\ forall k, k ∈ G -> ours k = true /\ cs !! k = None.

Lemma safe_delete_jump F G p t c :
  (p, t, c) ∈ bases ->
  safe (onc (cleaned F G)) (swarn (DeleteRule p t c jump))
    (fun _ => onc (cleaned ((p, t, c) :: F) G)) (fun _ => False).
Proof.
  intros Hb. apply safe_warn. intros w [HF HG]. pose proof (DeleteRule_law p t c jump w) as He.
  pose proof (DeleteRule_ok p t c jump w) as Hs.
  destruct (DeleteRule p t c jump w) as [[[]|e| |] w'] eqn:E; try done; unfold onc.
  - destruct He as (rs & Hrs & Hj & ->). cbn. split; [by apply fixed_delete|].
    intros k Hk. destruct (HG k Hk) as [Ho Hn]. split; [done|].
    rewrite lookup_insert_ne; [done|]. intros <-. by rewrite bases_not_ours in Ho.
  - rewrite He. split; [|done]. apply fixed_absent; [done..|]. intros rs Hrs Hj.
    destruct Hs as (a & w1 & Ew); [by exists rs|]. discriminate.
Qed.

Lemma safe_remove_chain F G p t :
  (t = "filter" \/ t = "nat") -> base p t ∈ F -> (forall k, k ∈ F -> k ∈ bases) ->
  safe (onc (cleaned F G))
    (swarn (ClearChain p t "PLACEMAT") >>> swarn (DeleteChain p t "PLACEMAT"))
    (fun _ => onc (cleaned F ((p, t, "PLACEMAT") :: G))) (fun _ => False).
Proof.
  intros Ht Hb HF.
  assert (Ho : ours (p, t, "PLACEMAT") = true) by (by destruct Ht as [->| ->]).
  assert (HF' : forall k, k ∈ F -> ours k = false) by (intros k Hk; by apply bases_not_ours, HF).
  apply (safe_seq _ (onc (fun cs => fixed cs0 F cs /\ cs !! (p, t, "PLACEMAT") = Some [] /\
    forall k, k ∈ G -> k <> (p, t, "PLACEMAT") -> ours k = true /\ cs !! k = None))).
  - apply safe_warn. intros w [Hf HG]. pose proof (ClearChain_law p t "PLACEMAT" w) as He.
    destruct (ClearChain_ok p t "PLACEMAT" w I) as (a & w' & E). rewrite E in He |- *. unfold onc.
    rewrite He. cbn. split_and!.
    + eapply (fixed_ours _ _ _ (p, t, "PLACEMAT")); [done..|]. intros k' Hne. by apply lookup_insert_ne.
    + by rewrite lookup_insert_eq.
    + intros k Hk Hne. destruct (HG k Hk). by rewrite lookup_insert_ne.
  - apply safe_warn. intros w (Hf & Hc & HG). pose proof (DeleteChain_law p t "PLACEMAT" w) as He.
    destruct (DeleteChain_ok p t "PLACEMAT" w) as (a & w' & E).
    { split; [done|]. eapply not_referenced; eauto. }
    rewrite E in He |- *. destruct He as [_ He]. unfold onc. rewrite He. cbn. split.
    + eapply (fixed_ours _ _ _ (p, t, "PLACEMAT")); [done..|]. intros k' Hne.
      by apply lookup_delete_ne.
    + intros k Hk. destruct (decide (k = (p, t, "PLACEMAT"))) as [->|Hne].
      * by rewrite lookup_delete_eq.
      * apply elem_of_cons in Hk as [?|Hk]; [done|]. destruct (HG k Hk Hne).
        by rewrite lookup_delete_ne.
Qed.

Lemma cleanup_one F G p :
  p ∈ protocols -> (forall k, k ∈ F -> k ∈ bases) ->
  safe (onc (cleaned F G))
    (remove_chains p)
    (fun _ => onc (cleaned (base p "nat" :: base p "filter" :: F)
                     ((p, "nat", "PLACEMAT") :: (p, "filter", "PLACEMAT") :: G))) (fun _ => False).
Proof.
  intros Hp HF.
  assert (Hb : base p "nat" ∈ bases /\ base p "filter" ∈ bases).
  { split; destruct p; apply (bool_decide_unpack _); reflexivity. }
  assert (HF' : forall k, k ∈ base p "nat" :: base p "filter" :: F -> k ∈ bases).
  { intros k [->|[->|Hk]%elem_of_cons]%elem_of_cons; [apply Hb..|by apply HF]. }
  eapply safe_seq; [apply (safe_delete_jump F G p "filter" "FORWARD"), Hb|].
  eapply safe_seq; [apply (safe_delete_jump _ G p "nat" "POSTROUTING"), Hb|].
  intros w Hw.
  pose proof (safe_remove_chain (base p "nat" :: base p "filter" :: F) G p "filter"
    (or_introl eq_refl) ltac:(right; left) HF') as H1.
  pose proof (safe_remove_chain (base p "nat" :: base p "filter" :: F)
    ((p, "filter", "PLACEMAT") :: G) p "nat" (or_intror eq_refl) ltac:(left) HF') as H2.
  specialize (H1 w Hw). unfold sbind in H1 |- *.
  destruct (swarn (ClearChain p "filter" "PLACEMAT") w) as [[[]| | |] w1]; try done.
  destruct (swarn (DeleteChain p "filter" "PLACEMAT") w1) as [[[]| | |] w2]; try done.
  specialize (H2 w2 H1). unfold sbind in H2. done.
Qed.

(** [CleanupNatRules] undoes whatever part of the set-up was done. *)
Lemma cleanup_restores :
  safe (onc (started cs0)) CleanupNatRules (fun _ => onc (fun cs => cs = cs0)) (fun _ => False).
Proof.
  unfold CleanupNatRules. apply (safe_bind _ _ (fun r => onc (fun cs =>
    (exists u : unit, r = inl u) /\ cleaned [] [] cs))).
  - intros w Hw. unfold stry, newIptables, swrap, sbind.
    pose proof (NewWithProtocol_law ProtocolIPv4 w) as H4.
    destruct (NewWithProtocol_ok ProtocolIPv4 w I) as (a & w1 & E1). rewrite E1 in H4 |- *. cbn.
    pose proof (NewWithProtocol_law ProtocolIPv6 w1) as H6.
    destruct (NewWithProtocol_ok ProtocolIPv6 w1 I) as (b & w2 & E2). rewrite E2 in H6 |- *. cbn.
    unfold onc. rewrite H6, H4. split; [by eexists|].
    split; [split; [done|]|]; intros k Hk; by apply elem_of_nil in Hk.
  - intros [[]|e]; [|by intros w [[u ?] _]]. unfold protocols. cbn [sfor].
    apply (safe_conseq _ (onc (cleaned [] [])) _ _ (fun _ => onc (fun cs => cs = cs0)) _ (fun _ => False));
      [|by intros w [_ Hw]|done..].
    eapply safe_seq; [apply cleanup_one; [left|]; intros k Hk; by apply elem_of_nil in Hk|].
    eapply safe_seq; [apply cleanup_one; [right; left|]|].
    + intros k [->|[->|Hk]%elem_of_cons]%elem_of_cons;
        [apply (bool_decide_unpack _); reflexivity..|by apply elem_of_nil in Hk].
    + apply safe_ret. intros w [Hf HG]. unfold onc in *. apply fixed_all; [done| |].
      * eapply fixed_sub; [|exact Hf]. intros k Hk.
        repeat (apply elem_of_cons in Hk as [->|Hk]; [apply (bool_decide_unpack _); reflexivity|]).
        by apply elem_of_nil in Hk.
      * intros [[p t] c] Ho. apply HG. unfold ours in Ho. apply andb_prop in Ho as [Hc Ht].
        cbn in Hc, Ht. apply bool_decide_eq_true in Hc as ->. apply orb_prop in Ht.
        destruct p, Ht as [Ht|Ht]; apply bool_decide_eq_true in Ht as ->;
          apply (bool_decide_unpack _); reflexivity.
Qed.

End CleanupLemmas.

(** ** What setting up a network does *)

(** The rules of a network, in the order they are appended. *)
Definition accept_rules (ipt : protocol) (ifName : string) : list (chain * rule) :=
  [((ipt, "filter", "PLACEMAT"), ["-i"; ifName; "-j"; "ACCEPT"]);
   ((ipt, "filter", "PLACEMAT"), ["-o"; ifName; "-j"; "ACCEPT"])].
Definition network_rules `{!AddrOps} (n : network) : list (chain * rule) :=
  let accept := accept_rules ProtocolIPv4 (n_name n) ++ accept_rules ProtocolIPv6 (n_name n) in
  if n_useNAT n then
    match n_addr n with
    | Some a =>
        accept ++ [((if addr_Is4 a then ProtocolIPv4 else ProtocolIPv6, "nat", "PLACEMAT"),
                    ["-s"; addr_IPNet a; "!"; "--destination"; addr_IPNet a; "-j"; "MASQUERADE"])]
    | None => []
    end
  else if String.eqb (n_typ n) NetworkInternal then accept else [].

Definition append_rule (kr : chain * rule) (cs : gmap chain (list rule)) : gmap chain (list rule) :=
  alter (fun rs => rs ++ [kr.2]) kr.1 cs.
Definition append_rules (l : list (chain * rule)) (cs : gmap chain (list rule))
  : gmap chain (list rule) := fold_left (fun cs kr => append_rule kr cs) l cs.

(** The bridge of a network. *)
Definition bridge_link `{!AddrOps} (n : network) (mtu : Z) : link :=
  MkLink _ Bridge (if 0 <? mtu then mtu else 1500) true None
    (match n_addr n with Some a => [a] | None => [] end).

(** The kernel after the network is set up. *)
Definition network_view `{!AddrOps} (n : network) (mtu : Z) (force : bool) (v : netview) : netview :=
  let links := if force && bool_decide (is_Some (v_links v !! n_name n))
               then remove_link (n_name n) (v_links v) else v_links v in
  let v' := MkView _ (<[n_name n := bridge_link n mtu]> links)
              (append_rules (network_rules n) (v_chains v)) (v_forward v) in
  if n_useNAT n then set_forward ProtocolIPv6 (set_forward ProtocolIPv4 v') else v'.

(** The program's chains are there. *)
Definition chains_ready (cs : gmap chain (list rule)) : Prop :=
  forall k, ours k = true -> is_Some (cs !! k).

Lemma alter_insert_Some (f : list rule -> list rule) (k : chain) (rs : list rule) (cs : gmap chain (list rule)) :
  cs !! k = Some rs -> alter f k cs = <[k := f rs]> cs.
Proof.
  intros Hk. apply map_eq. intros k'. destruct (decide (k = k')) as [<-|Hne].
  - by rewrite lookup_alter_eq, lookup_insert_eq, Hk.
  - by rewrite lookup_alter_ne, lookup_insert_ne.
Qed.

Section SetupLemmas.
Context {W : Type} `{!AddrOps} `{!NetOps W} {L : NetLaws W} {LR : NetReliable W}.

Lemma append_rule_ready kr cs : chains_ready cs -> chains_ready (append_rule kr cs).
Proof.
  intros Hr k Hk. destruct (Hr k Hk) as [rs Hrs]. unfold append_rule.
  destruct (decide (kr.1 = k)) as [<-|Hne].
  - rewrite lookup_alter_eq, Hrs. by eexists.
  - rewrite lookup_alter_ne, Hrs by done. by eexists.
Qed.

Lemma yields_append p t r v :
  ours (p, t, "PLACEMAT") = true -> chains_ready (v_chains v) ->
  yields (AppendRule p t "PLACEMAT" r) v (set_chains (append_rule ((p, t, "PLACEMAT"), r)) v).
Proof.
  intros Ho Hr. destruct (Hr _ Ho) as [rs Hrs].
  replace (set_chains (append_rule ((p, t, "PLACEMAT"), r)) v)
    with (set_chains (insert (p, t, "PLACEMAT") (rs ++ [r])) v); [by apply yields_AppendRule|].
  unfold set_chains, append_rule. f_equal. cbn. symmetry.
  by apply (alter_insert_Some (fun rs => rs ++ [r])) in Hrs.
Qed.

Lemma yields_accept ipts ifName v :
  chains_ready (v_chains v) ->
  yields (appendAcceptRule ipts ifName) v
    (set_chains (append_rules (flat_map (fun ipt => accept_rules ipt ifName) ipts)) v).
Proof.
  revert v. unfold appendAcceptRule. induction ipts as [|ipt ipts IH]; intros v Hr; cbn [sfor flat_map].
  { destruct v. apply yields_ret. }
  eapply yields_seq.
  { eapply yields_seq; [apply yields_wrap, yields_append; [reflexivity|done]|].
    apply yields_wrap, yields_append; [reflexivity|]. by apply append_rule_ready. }
  apply IH. by apply append_rule_ready, append_rule_ready.
Qed.

(** Bringing a new bridge up and giving it its address. *)
Lemma yields_bridge_up n m v :
  yields
    (swrap ("failed to set up to the bridge " +:+ n_name n) (LinkSetUp (n_name n)) >>>
     match n_addr n with
     | Some a => swrap ("failed to add the address " +:+ addr_String a) (AddrAdd (n_name n) a)
     | None => sret tt
     end)
    (set_links (insert (n_name n) (MkLink _ Bridge m false None [])) v)
    (set_links (insert (n_name n) (MkLink _ Bridge m true None
       (match n_addr n with Some a => [a] | None => [] end))) v).
Proof.
  eapply yields_seq.
  { eapply yields_eq; [apply yields_wrap, yields_LinkSetUp; cbn; rewrite lookup_insert_eq; by eexists|].
    unfold set_links. cbn. rewrite alter_insert_eq. reflexivity. }
  destruct (n_addr n) as [a|]; [|apply yields_ret]. apply yields_wrap.
  eapply yields_eq; [eapply yields_AddrAdd; [cbn; apply lookup_insert_eq|apply not_elem_of_nil]|].
  unfold set_links. cbn. by rewrite alter_insert_eq.
Qed.

Lemma yields_bridge n mtu v :
  v_links v !! n_name n = None ->
  yields (setup_bridge n mtu) v (set_links (insert (n_name n) (bridge_link n mtu)) v).
Proof.
  intros Hn. unfold setup_bridge, bridge_link.
  eapply yields_seq; [by apply yields_wrap, yields_LinkAdd|].
  eapply yields_seq; [|apply yields_bridge_up].
  destruct (0 <? mtu); [|apply yields_ret].
  eapply yields_eq; [apply yields_wrap, yields_LinkSetMTU; cbn; rewrite lookup_insert_eq; by eexists|].
  unfold set_links. cbn. by rewrite alter_insert_eq.
Qed.

Lemma yields_newIptables v : yields newIptables v v.
Proof. eapply yields_seq; apply yields_wrap, yields_NewWithProtocol. Qed.

Lemma yields_network_Cleanup n v :
  yields (network_Cleanup n) v
    (set_links (if bool_decide (is_Some (v_links v !! n_name n)) then remove_link (n_name n) else id) v).
Proof.
  intros w Hw. unfold network_Cleanup, sbind, stry. subst v. case_bool_decide as Hl.
  - destruct Hl as [l Hl]. destruct (LinkByName_run _ _ _ Hl) as (w1 & E & Hv). rewrite E.
    cbn [Attrs_Name link_object].
    destruct (yields_warn _ _ _ (yields_LinkDel (n_name n) (view w) ltac:(by eexists)) w1 Hv)
      as ([] & w2 & E2 & H2). exists tt, w2. by rewrite E2.
  - destruct (LinkByName_absent (n_name n) w) as (e & w1 & E & Hv); [by apply eq_None_not_Some|].
    rewrite E. exists tt, w1. split; [done|]. rewrite Hv. by destruct (view w).
Qed.

(** A network whose name is free, or is freed first, is set up as [network_view] says. *)
Lemma yields_network_Setup n mtu force v :
  nat_has_addr n -> chains_ready (v_chains v) ->
  (force = true \/ v_links v !! n_name n = None) ->
  yields (network_Setup n mtu force) v (network_view n mtu force v).
Proof.
  intros Hn Hr Hf. unfold network_Setup.
  set (links := if force && bool_decide (is_Some (v_links v !! n_name n))
                then remove_link (n_name n) (v_links v) else v_links v).
  apply (yields_seq _ _ _ (set_links (fun _ => links) v)).
  { destruct force; cbn [andb] in links.
    - eapply yields_eq; [apply yields_network_Cleanup|]. unfold set_links, links.
      by case_bool_decide.
    - eapply yields_eq; [apply yields_ret|]. by destruct v. }
  apply (yields_seq _ _ _ (set_links (fun _ => <[n_name n := bridge_link n mtu]> links) v)).
  { apply (yields_bridge n mtu (set_links (fun _ => links) v)). cbn. unfold links.
    case_bool_decide as Hl; [|rewrite andb_false_r; by apply eq_None_not_Some].
    destruct Hf as [->|Hf]; [|by rewrite Hf in Hl; destruct Hl]. cbn.
    unfold remove_link. by rewrite lookup_fmap, lookup_delete_eq. }
  eapply yields_seq; [apply yields_newIptables|]. unfold network_view, network_rules. fold links.
  destruct (n_useNAT n) eqn:Eu; cbn [negb].
  - destruct (Hn Eu) as [a Ea]. rewrite Ea.
    eapply yields_seq; [apply yields_wrap, yields_EnableForward|].
    eapply yields_seq; [apply yields_wrap, yields_EnableForward|].
    eapply (yields_seq (sret a)); [apply yields_ret|].
    eapply yields_seq; [by apply yields_wrap, yields_accept|].
    eapply yields_eq; [apply yields_wrap, yields_append; [by destruct (addr_Is4 a)|]|].
    + by repeat apply append_rule_ready.
    + reflexivity.
  - case_match; [|apply yields_ret]. eapply yields_eq; [by apply yields_accept|reflexivity].
Qed.

End SetupLemmas.

(** ** Links of the program *)

(** The longest name the kernel accepts for a link (IFNAMSIZ with its final zero). *)
Definition max_link_name : nat := 15.

(** What a link keeps when another is deleted. *)
Definition link_core `{!AddrOps} (l : link) : link_kind * Z * bool * list addr :=
  (l_kind l, l_mtu l, l_up l, l_addrs l).

(** Drawing entropy leaves the network alone. *)
Class RandFrame (W : Type) `{!AddrOps} `{!NetOps W} {L : NetLaws W} `{!Rand W} : Prop :=
  Rand_Read_view : forall n w, view (Rand_Read n w).2 = view w.

Section LinkLemmas.
Context {W : Type} `{!AddrOps} `{!NetOps W} {L : NetLaws W} {LR : NetReliable W}.

Lemma remove_link_core n m n' :
  link_core <$> remove_link n m !! n' =
  if bool_decide (n = n') then None else link_core <$> m !! n'.
Proof.
  unfold remove_link. rewrite lookup_fmap. case_bool_decide as E.
  - subst n'. by rewrite lookup_delete_eq.
  - rewrite lookup_delete_ne by done. by destruct (m !! n').
Qed.

(** The loop of [CleanupAllLinks]. *)
Lemma cleanup_loop ls (w : W) :
  NoDup (map Attrs_Name ls) ->
  (forall n, n ∈ map Attrs_Name ls -> is_Some (v_links (view w) !! n)) ->
  exists w', sfor ls (fun link =>
      if String.prefix prefix (Attrs_Name link) then swarn (LinkDel (Attrs_Name link))
      else sret tt) w = (Ok tt, w') /\
    v_chains (view w') = v_chains (view w) /\ v_forward (view w') = v_forward (view w) /\
    forall n, link_core <$> v_links (view w') !! n =
      if bool_decide (n ∈ map Attrs_Name ls) && String.prefix prefix n then None
      else link_core <$> v_links (view w) !! n.
Proof.
  revert w. induction ls as [|l ls IH]; intros w Hd Hs; cbn [sfor map].
  { exists w. done. }
  cbn [map] in *. apply NoDup_cons in Hd as [Hl Hd]. unfold sbind.
  destruct (String.prefix prefix (Attrs_Name l)) eqn:Ep.
  - destruct (yields_warn _ _ _ (yields_LinkDel (Attrs_Name l) (view w) (Hs _ ltac:(left))) w eq_refl)
      as ([] & w1 & E1 & H1). rewrite E1.
    destruct (IH w1 Hd) as (w' & E & Hc & Hf & Hn).
    { intros n Hn. rewrite H1. cbn. apply (fmap_is_Some link_core). rewrite remove_link_core.
      rewrite bool_decide_false by congruence. apply fmap_is_Some, Hs. by right. }
    exists w'. rewrite H1 in Hc, Hf, Hn. cbn in Hc, Hf, Hn. split_and!; [done..|].
    intros n. rewrite Hn, remove_link_core.
    destruct (decide (n = Attrs_Name l)) as [->|Hne].
    + rewrite (bool_decide_true (Attrs_Name l ∈ _ :: _)), Ep by left.
      rewrite (bool_decide_true (Attrs_Name l = _)) by done. by case_match.
    + rewrite (bool_decide_false (Attrs_Name l = n)) by congruence.
      rewrite (bool_decide_ext (n ∈ Attrs_Name l :: map Attrs_Name ls) (n ∈ map Attrs_Name ls));
        [done|]. rewrite elem_of_cons. naive_solver.
  - destruct (IH w Hd) as (w' & E & Hc & Hf & Hn).
    { intros n Hn. apply Hs. by right. }
    exists w'. split_and!; [done..|]. intros n. rewrite Hn.
    destruct (decide (n = Attrs_Name l)) as [->|Hne]; [by rewrite Ep, !andb_false_r|].
    rewrite (bool_decide_ext (n ∈ Attrs_Name l :: map Attrs_Name ls) (n ∈ map Attrs_Name ls));
      [done|]. rewrite elem_of_cons. naive_solver.
Qed.

Lemma CleanupAllLinks_run (w : W) :
  exists w', CleanupAllLinks w = (Ok tt, w') /\
    v_chains (view w') = v_chains (view w) /\ v_forward (view w') = v_forward (view w) /\
    forall n, link_core <$> v_links (view w') !! n =
      if String.prefix prefix n then None else link_core <$> v_links (view w) !! n.
Proof.
  unfold CleanupAllLinks, sbind, stry. destruct (LinkList_ok w I) as (ls & w1 & E1).
  pose proof (LinkList_law w) as Hl. rewrite E1 in Hl |- *. destruct Hl as (Hv & Hd & Hs).
  destruct (cleanup_loop ls w1 Hd) as (w' & E & Hc & Hf & Hn).
  { intros n Hn. rewrite Hv. by apply Hs. }
  exists w'. rewrite Hv in *. split_and!; [done..|]. intros n. rewrite Hn.
  case_bool_decide as Hin; [done|]. cbn. destruct (String.prefix prefix n); [|done].
  destruct (v_links (view w) !! n) eqn:El; [|done]. exfalso. apply Hin, Hs. by eexists.
Qed.

End LinkLemmas.

Lemma RandomLinkName_shape {W : Type} `{!Rand W} {L : RandLaws W} typ (w w' : W) name :
  RandomLinkName typ w = (Ok name, w') ->
  String.prefix prefix name = true /\ (String.length name <= max_link_name)%nat.
Proof.
  unfold RandomLinkName. intros E. apply sbind_ok in E as (l & w1 & E1 & E2).
  injection E2 as <- <-. unfold swrap in E1. destruct (Rand_Read 4 w) as [o w2] eqn:Er.
  destruct o; cbn in E1; try done. injection E1 as <- <-. apply Rand_Read_law in Er as [Hl _].
  assert (Hs : forall k, String.length (string_of_bytes k) = length k).
  { induction k; cbn; congruence. }
  assert (Hlen : String.length (string_of_bytes (hex_Encode a)) = 8%nat).
  { by rewrite Hs, hex_Encode_length, Hl. }
  revert Hlen. generalize (string_of_bytes (hex_Encode a)). intros s Hlen. unfold max_link_name.
  destruct typ; (split; [reflexivity|]).
  - change (7 + String.length s <= 15)%nat. lia.
  - change (6 + String.length s <= 15)%nat. lia.
Qed.

(** ** Properties *)

(** A rule of the system a firewall may have. *)
Definition demo_net : netview :=
  MkView _ {["eth0" := new_link OtherLink; "pm_tap0badcafe" := new_link (Tuntap 1)]}
    (<[(ProtocolIPv4, "filter", "FORWARD") := [["-i"; "eth0"; "-j"; "DROP"]]]>
     (<[(ProtocolIPv4, "nat", "POSTROUTING") := []]>
      (<[(ProtocolIPv6, "filter", "FORWARD") := []]>
       (<[(ProtocolIPv6, "nat", "POSTROUTING") := []]> ∅)))) ∅.

Definition demo_network : network :=
  {| n_name := "ext-net"; n_typ := NetworkExternal; n_useNAT := true; n_addr := Some "10.0.0.1/24" |}.

Lemma demo_untouched : untouched (v_chains demo_net).
Proof.
  split.
  - intros [[p t] c] Ho. unfold ours in Ho. apply andb_prop in Ho as [Hc Ht]. cbn in Hc, Ht.
    apply bool_decide_eq_true in Hc as ->. apply orb_prop in Ht.
    destruct p, Ht as [Ht|Ht]; apply bool_decide_eq_true in Ht as ->; reflexivity.
  - assert (Hf : map_Forall (fun _ rs => forallb (fun r => negb (jumps_to "PLACEMAT" r)) rs = true)
                   (v_chains demo_net)) by (apply (bool_decide_unpack _); vm_compute; exact I).
    intros k rs r Hk Hr. specialize (Hf k rs Hk). cbn in Hf. rewrite forallb_forall in Hf.
    apply negb_true_iff. apply Hf. by apply list_elem_of_In.
Qed.

(** C24: what a network is.  On a reliable kernel whose PLACEMAT chains are there, setting
    up a network whose name is free (or is freed by force) succeeds and changes
    exactly this: a bridge of that name, up, with the MTU and the address; the rules of
    [network_rules]: none for an external network without NAT, acceptance of its
    traffic for an internal one, acceptance and masquerading for one with NAT; and
    forwarding for NAT. *)
Theorem network_setup_correct {W : Type} `{!AddrOps} `{!NetOps W} {L : NetLaws W}
  {LR : NetReliable W} (n : network) (mtu : Z) (force : bool) (w : W) :
  nat_has_addr n -> chains_ready (v_chains (view w)) ->
  (force = true \/ v_links (view w) !! n_name n = None) ->
  exists w', network_Setup n mtu force w = (Ok tt, w') /\
     view w' = network_view n mtu force (view w).
Proof.
  intros Hn Hr Hf. destruct (yields_network_Setup n mtu force (view w) Hn Hr Hf w eq_refl)
    as ([] & w' & E & Hv). by exists w'.
Qed.

Lemma network_setup_correct_witness :
  exists w', network_Setup demo_network 1460 false (CreateNatRules demo_net).2 = (Ok tt, w') /\
     v_links w' !! "ext-net" = Some (MkLink _ Bridge 1460 true None ["10.0.0.1/24"]) /\
     v_chains w' !! (ProtocolIPv4, "nat", "PLACEMAT") =
      Some [["-s"; "10.0.0.1/24"; "!"; "--destination"; "10.0.0.1/24"; "-j"; "MASQUERADE"]].
Proof.
  destruct (network_setup_correct (W := netview) (L := sim_NetLaws) (LR := sim_NetReliable) demo_network 1460 false (CreateNatRules demo_net).2)
    as (w' & E & Hv).
  - intros _. eexists. reflexivity.
  - intros [[p t] c] Ho. unfold ours in Ho. apply andb_prop in Ho as [Hc Ht]. cbn in Hc, Ht.
    apply bool_decide_eq_true in Hc as ->. apply orb_prop in Ht.
    destruct p, Ht as [Ht|Ht]; apply bool_decide_eq_true in Ht as ->; eexists; vm_compute; reflexivity.
  - right. vm_compute. reflexivity.
  - exists w'. split; [exact E|]. cbn in Hv. rewrite Hv. split; vm_compute; reflexivity.
Defined.

(** Forced removal of links.  [CleanupAllLinks] deletes exactly the links whose name
    starts with the program's prefix and leaves the others and the firewall alone; and
    every name [RandomLinkName] gives has that prefix and is short enough for the
    kernel, so links left by an earlier run are always removed. *)
Theorem links_cleaned_up {W : Type} `{!AddrOps} `{!NetOps W} {L : NetLaws W}
  {LR : NetReliable W} `{!Rand W} {RL : RandLaws W} (w : W) :
  (exists w', CleanupAllLinks w = (Ok tt, w') /\
     v_chains (view w') = v_chains (view w) /\ v_forward (view w') = v_forward (view w) /\
     forall n, link_core <$> v_links (view w') !! n =
       if String.prefix prefix n then None else link_core <$> v_links (view w) !! n) /\
     (forall typ name w', RandomLinkName typ w = (Ok name, w') ->
     String.prefix prefix name = true /\ (String.length name <= max_link_name)%nat).
Proof.
  split; [apply CleanupAllLinks_run|]. intros typ name w'. apply RandomLinkName_shape.
Qed.

(** Constant entropy. *)
#[export] Instance const_Rand : Rand netview := {| Rand_Read n w := (Ok (zeros n), w) |}.
#[export] Instance const_RandLaws : RandLaws netview.
Proof.
  split; [|done]. intros n w l w' [= <- <-]. by rewrite length_zeros, is_bytes_zeros.
Qed.

Lemma links_cleaned_up_witness :
  (exists w', CleanupAllLinks demo_net = (Ok tt, w') /\
     link_core <$> v_links w' !! "pm_tap0badcafe" = None /\
     link_core <$> v_links w' !! "eth0" = Some (OtherLink, 1500, false, [])) /\
     String.prefix prefix "pm_veth00000000" = true.
Proof.
  destruct (links_cleaned_up (L := sim_NetLaws) (LR := sim_NetReliable) demo_net) as [(w' & E & _ & _ & Hn) Hr]. split.
  - exists w'. split; [exact E|]. split; [exact (Hn "pm_tap0badcafe")|exact (Hn "eth0")].
  - exact (proj1 (Hr LinkTypeVeth "pm_veth00000000" demo_net eq_refl)).
Defined.
