(* ===== verification/World.v ===== *)
(** * A simulated host

    A concrete host on which the interfaces of [Host], [Netlink] and [GoCrypto] can
    be run together: a file system with open files, web pages, the simulated kernel
    network, entropy that counts, and processes that make sockets when they start.
    Every law the theorems assume holds of it. *)

From S2P Require Import Prelude GoBinary GoCrypto GoPath Machine Qmp Host Netlink Files Dcnet.

Local Open Scope Z_scope.
Local Open Scope go_scope.

(** The monitor of a machine that was just started. *)
Definition fresh_monitor : monitor :=
  {| mon_running := true; mon_ready := false; mon_lines := [] |}.

Record simWorld : Type := {
  sw_fs : fsview;
  sw_next : nat;
  sw_net : netview;
  sw_rand : Z;
  (** status, Content-Length and body of a page *)
  sw_pages : gmap string (Z * string * list Z);
  (** what starting a command of that name leaves behind *)
  sw_starts : list (string * list string);
  sw_started : list (list string);
  (** 100 ms periods before the context is done *)
  sw_ticks : nat;
  (** the disk is full *)
  sw_full : bool;
  (** the monitors of machines, by their socket *)
  sw_mons : string -> monitor
}.

Definition with_fs (v : fsview) (w : simWorld) : simWorld :=
  {| sw_fs := v; sw_next := sw_next w; sw_net := sw_net w; sw_rand := sw_rand w;
     sw_pages := sw_pages w; sw_starts := sw_starts w; sw_started := sw_started w;
     sw_ticks := sw_ticks w; sw_full := sw_full w; sw_mons := sw_mons w |}.
Definition with_net (v : netview) (w : simWorld) : simWorld :=
  {| sw_fs := sw_fs w; sw_next := sw_next w; sw_net := v; sw_rand := sw_rand w;
     sw_pages := sw_pages w; sw_starts := sw_starts w; sw_started := sw_started w;
     sw_ticks := sw_ticks w; sw_full := sw_full w; sw_mons := sw_mons w |}.
Definition with_next (n : nat) (w : simWorld) : simWorld :=
  {| sw_fs := sw_fs w; sw_next := n; sw_net := sw_net w; sw_rand := sw_rand w;
     sw_pages := sw_pages w; sw_starts := sw_starts w; sw_started := sw_started w;
     sw_ticks := sw_ticks w; sw_full := sw_full w; sw_mons := sw_mons w |}.
Definition with_rand (n : Z) (w : simWorld) : simWorld :=
  {| sw_fs := sw_fs w; sw_next := sw_next w; sw_net := sw_net w; sw_rand := n;
     sw_pages := sw_pages w; sw_starts := sw_starts w; sw_started := sw_started w;
     sw_ticks := sw_ticks w; sw_full := sw_full w; sw_mons := sw_mons w |}.
Definition with_started (l : list (list string)) (w : simWorld) : simWorld :=
  {| sw_fs := sw_fs w; sw_next := sw_next w; sw_net := sw_net w; sw_rand := sw_rand w;
     sw_pages := sw_pages w; sw_starts := sw_starts w; sw_started := l;
     sw_ticks := sw_ticks w; sw_full := sw_full w; sw_mons := sw_mons w |}.
Definition with_ticks (n : nat) (w : simWorld) : simWorld :=
  {| sw_fs := sw_fs w; sw_next := sw_next w; sw_net := sw_net w; sw_rand := sw_rand w;
     sw_pages := sw_pages w; sw_starts := sw_starts w; sw_started := sw_started w;
     sw_ticks := n; sw_full := sw_full w; sw_mons := sw_mons w |}.
Definition with_monitor (p : string) (m : monitor) (w : simWorld) : simWorld :=
  {| sw_fs := sw_fs w; sw_next := sw_next w; sw_net := sw_net w; sw_rand := sw_rand w;
     sw_pages := sw_pages w; sw_starts := sw_starts w; sw_started := sw_started w;
     sw_ticks := sw_ticks w; sw_full := sw_full w;
     sw_mons := fun q => if decide (q = p) then m else sw_mons w q |}.

Definition sw_paths (w : simWorld) : gmap string inode := fs_paths (sw_fs w).

(** A file handle no view knows. *)
Definition fresh_handle (v : fsview) : nat :=
  S (max_list (map fst (map_to_list (fs_writes v)) ++ map fst (map_to_list (fs_reads v)))).

Definition no_such_file {A : Type} : outcome A := Err (errors_New "no such file or directory").

Definition sw_stat (p : string) (w : simWorld) : stat_result :=
  match sw_paths w !! p with
  | Some i => Exists (is_dir i)
  | None => NotExist
  end.

Definition sw_open (p : string) : st simWorld nat := fun w =>
  let v := sw_fs w in
  match fs_paths v !! p with
  | Some (Regular c) =>
      let f := fresh_handle v in
      (Ok f, with_fs (MkFs (fs_paths v) (fs_writes v) (<[f := c]> (fs_reads v))) w)
  | _ => (no_such_file, w)
  end.

Definition sw_write (p : string) (w : simWorld) : nat * simWorld :=
  let v := sw_fs w in
  let f := fresh_handle v in
  (f, with_fs (MkFs (<[p := Regular []]> (fs_paths v)) (<[f := p]> (fs_writes v)) (fs_reads v)) w).

Definition sw_copy (f g : nat) : st simWorld unit := fun w =>
  let v := sw_fs w in
  match fs_writes v !! f, fs_reads v !! g with
  | Some p, Some c =>
      if sw_full w
      then (Err (errors_New "no space left on device"),
            with_fs (set_paths (insert p (Regular (take 1 c))) v) w)
      else (Ok tt, with_fs (set_paths (insert p (Regular c)) v) w)
  | _, _ => (Err (errors_New "file already closed"), w)
  end.

(** Decompression that leaves the bytes as they are. *)
Definition sw_reader (f : nat) : st simWorld nat := fun w =>
  let v := sw_fs w in
  match fs_reads v !! f with
  | Some c => let g := fresh_handle v in
              (Ok g, with_fs (MkFs (fs_paths v) (fs_writes v) (<[g := c]> (fs_reads v))) w)
  | None => (Err EOF, w)
  end.

#[export] Instance simWorld_Host : Host simWorld := {|
  os_Stat p w := (sw_stat p w, w);
  os_MkdirAll d w := match sw_paths w !! d with
                     | Some Directory => (Ok tt, w)
                     | Some _ => (Err (errors_New "not a directory"), w)
                     | None => (Ok tt, with_fs (set_paths (insert d Directory) (sw_fs w)) w)
                     end;
  os_Getwd w := (Ok "/root", w);
  os_Open := sw_open;
  os_Create p w := let (f, w') := sw_write p w in (Ok f, w');
  os_OpenFile p w := let (f, w') := sw_write p w in (Ok f, w');
  file_Close f w := w;
  io_Copy := sw_copy;
  gzip_NewReader := sw_reader;
  bzip2_NewReader := sw_reader;
  exec_Run c w := (Ok tt, w);
  exec_Output c w := (Ok [], w)
|}.

Definition sw_temp (d pat : string) (n : nat) : string := Join [d; pat +:+ string_of_bytes (replicate n 48)].

#[export] Instance simWorld_Files : HostFiles simWorld := {|
  os_Remove p w := match sw_paths w !! p with
                   | Some _ => (Ok tt, with_fs (set_paths (delete p) (sw_fs w)) w)
                   | None => (no_such_file, w)
                   end;
  os_RemoveAll d w :=
    (Ok tt, with_fs (set_paths (filter (fun kv => under d kv.1 = false)) (sw_fs w)) w);
  os_Mkdir d w := match sw_paths w !! d with
                  | Some _ => (Err (errors_New "file exists"), w)
                  | None => (Ok tt, with_fs (set_paths (insert d Directory) (sw_fs w)) w)
                  end;
  os_CreateTemp d pat w :=
    let name := sw_temp d pat (sw_next w) in
    match sw_paths w !! name with
    | None => if plain (pat +:+ string_of_bytes (replicate (sw_next w) 48))
              then let (f, w') := sw_write name w in (Ok (f, name), with_next (S (sw_next w)) w')
              else (Err (errors_New "pattern contains path separator"), w)
    | Some _ => (Err (errors_New "file exists"), w)
    end;
  file_Sync f w := (Ok tt, w);
  os_Rename a b w := match sw_paths w !! a with
                     | Some i => (Ok tt, with_fs (set_paths (fun m => <[b := i]> (delete a m)) (sw_fs w)) w)
                     | None => (no_such_file, w)
                     end
|}.

#[export] Instance simWorld_Http : Http simWorld := {|
  http_NewRequest u := Ok tt;
  http_Do u w :=
    let v := sw_fs w in
    match sw_pages w !! u with
    | Some (code, len, c) =>
        let f := fresh_handle v in
        (Ok {| StatusCode := code; Status := "status"; ContentLength := len; Body := f |},
         with_fs (MkFs (fs_paths v) (fs_writes v) (<[f := c]> (fs_reads v))) w)
    | None => (Err (errors_New "no such host"), w)
    end
|}.

Fixpoint start_files (name : string) (l : list (string * list string)) : list string :=
  match l with
  | [] => []
  | (n, ps) :: l' => if String.eqb n name then ps else start_files name l'
  end.

#[export] Instance simWorld_Procs : Procs simWorld := {|
  exec_Start c w :=
    let ps := start_files (hd "" c) (sw_starts w) in
    (Ok (length (sw_started w)),
     with_started (sw_started w ++ [c])
       (with_fs (set_paths (fun m => fold_right (fun p => insert p Socket) m ps) (sw_fs w)) w));
  proc_Wait _ w := (Ok tt, w);
  net_Dial p w := match sw_paths w !! p with
                  | Some Socket => (Ok 1%nat, w)
                  | _ => (Err (errors_New "connect: no such file or directory"), w)
                  end;
  conn_Close _ w := (Ok tt, w);
  wait_tick w := match sw_ticks w with
                 | O => (false, w)
                 | S n => (true, with_ticks n w)
                 end
|}.

(** Entropy that counts in its last byte. *)
#[export] Instance simWorld_Rand : Rand simWorld := {|
  Rand_Read n w := (Ok (take n (u8 (sw_rand w) :: zeros (n - 1))), with_rand (sw_rand w + 1) w)
|}.

(** ** Laws *)

Lemma fresh_handle_max v f :
  f ∈ map fst (map_to_list (fs_writes v)) ++ map fst (map_to_list (fs_reads v)) ->
  (f < fresh_handle v)%nat.
Proof.
  intros Hin. unfold fresh_handle. apply Nat.lt_succ_r.
  revert Hin. generalize (map fst (map_to_list (fs_writes v)) ++ map fst (map_to_list (fs_reads v))).
  intros l Hin. induction l as [|x l IH]; [by apply elem_of_nil in Hin|].
  apply elem_of_cons in Hin as [->|Hin]; cbn; [lia|]. specialize (IH Hin). lia.
Qed.

Lemma fresh_handle_new v :
  fs_writes v !! fresh_handle v = None /\ fs_reads v !! fresh_handle v = None.
Proof.
  split; apply eq_None_not_Some; intros [x Hx]; apply elem_of_map_to_list in Hx;
    apply (list_elem_of_fmap_2 fst) in Hx;
    pose proof (fresh_handle_max v (fresh_handle v)) as Hm; cbn in Hx;
    (assert (H : (fresh_handle v < fresh_handle v)%nat); [|lia]); apply Hm, elem_of_app; auto.
Qed.

#[export] Instance simWorld_FileLaws : FileLaws simWorld.
Proof.
  refine {| fview := sw_fs; decoded := fun _ c => c |}; unfold effect; cbn -[sw_temp plain under sw_copy sw_open sw_reader].
  - intros p w. split; [done|]. unfold sw_stat, sw_paths.
    destruct (fs_paths (sw_fs w) !! p) eqn:E; [by eexists|done].
  - intros p w. unfold sw_paths. destruct (fs_paths (sw_fs w) !! p) eqn:E; [|done]. by split; [eexists|].
  - done.
  - intros d w. unfold sw_paths. by destruct (fs_paths (sw_fs w) !! d) eqn:E.
  - intros d pat w. unfold sw_paths. destruct (fs_paths (sw_fs w) !! sw_temp d pat (sw_next w)) eqn:E; [done|].
    destruct (plain _) eqn:Hp; cbn; [|done]. destruct (fresh_handle_new (sw_fs w)).
    split_and!; try done. by eexists.
  - intros f g w p c Hw Hp Hr. unfold sw_copy. rewrite Hw, Hr. destruct (sw_full w); cbn; [by eexists|done].
  - done.
  - done.
  - intros a b w. unfold sw_paths. destruct (fs_paths (sw_fs w) !! a) eqn:E; [by eexists|done].
  - intros p w. unfold sw_open. destruct (fs_paths (sw_fs w) !! p) as [[c| |]|] eqn:E; try done. by exists c.
  - intros d w. unfold sw_paths. destruct (fs_paths (sw_fs w) !! d) as [[]|] eqn:E; cbn; try done.
    rewrite lookup_insert_eq. split; [done|]. by apply insert_subseteq.
  - intros d f c w Hr. destruct d; cbn; unfold sw_reader; by rewrite Hr.
  - intros u w. destruct (sw_pages w !! u) as [[[code len] c]|]; [by exists c|done].
  - done.
Defined.

#[export] Instance simWorld_FileReliable : FileReliable simWorld.
Proof.
  split; cbn.
  - intros p w e. unfold sw_stat. by destruct (sw_paths w !! p).
  - intros p w [i Hi]. cbn in *. unfold sw_paths. rewrite Hi. by eexists _, _.
  - intros d w _. by eexists _, _.
Defined.

(** The network is that of the simulated kernel. *)
Definition on_net {A : Type} (m : st netview A) : st simWorld A :=
  fun w => let (o, v) := m (sw_net w) in (o, with_net v w).

#[export] Instance simWorld_NetOps : NetOps simWorld := {|
  LinkAdd n k := on_net (LinkAdd n k);
  LinkByName n := on_net (LinkByName n);
  LinkList := on_net LinkList;
  LinkSetMTU n m := on_net (LinkSetMTU n m);
  LinkSetUp n := on_net (LinkSetUp n);
  LinkSetMaster n m := on_net (LinkSetMaster n m);
  LinkDel n := on_net (LinkDel n);
  AddrAdd n a := on_net (AddrAdd n a);
  NewWithProtocol p := on_net (NewWithProtocol p);
  NewChain p t c := on_net (NewChain p t c);
  ClearChain p t c := on_net (ClearChain p t c);
  DeleteChain p t c := on_net (DeleteChain p t c);
  AppendRule p t c r := on_net (AppendRule p t c r);
  DeleteRule p t c r := on_net (DeleteRule p t c r);
  EnableForward p := on_net (EnableForward p)
|}.

Lemma on_net_effect {A} (m : st netview A) R :
  effect (view (NetLaws := sim_NetLaws)) m R -> effect sw_net (on_net m) R.
Proof.
  intros Hm w. specialize (Hm (sw_net w)). unfold on_net. destruct (m (sw_net w)) as [[] v]; exact Hm.
Qed.

Lemma on_net_succeeds {A} (m : st netview A) P :
  succeeds (view (NetLaws := sim_NetLaws)) m P -> succeeds sw_net (on_net m) P.
Proof.
  intros Hm w Hw. destruct (Hm (sw_net w) Hw) as (a & v & E). unfold on_net. rewrite E. by eexists _, _.
Qed.

#[export] Instance simWorld_NetLaws : NetLaws simWorld.
Proof.
  refine {| view := sw_net |}; intros; apply on_net_effect.
  - apply LinkAdd_law. - apply LinkByName_law. - apply LinkList_law. - apply LinkSetMTU_law.
  - apply LinkSetUp_law. - apply LinkSetMaster_law. - apply LinkDel_law. - apply AddrAdd_law.
  - apply NewWithProtocol_law. - apply NewChain_law. - apply ClearChain_law. - apply DeleteChain_law.
  - apply AppendRule_law. - apply DeleteRule_law. - apply EnableForward_law.
Defined.

#[export] Instance simWorld_NetReliable : NetReliable simWorld.
Proof.
  split; intros; apply (on_net_succeeds _ _).
  - apply LinkAdd_ok. - apply LinkByName_ok. - apply LinkList_ok. - apply LinkSetMTU_ok.
  - apply LinkSetUp_ok. - apply LinkSetMaster_ok. - apply LinkDel_ok. - apply AddrAdd_ok.
  - apply NewWithProtocol_ok. - apply NewChain_ok. - apply ClearChain_ok. - apply DeleteChain_ok.
  - apply AppendRule_ok. - apply DeleteRule_ok. - apply EnableForward_ok.
Defined.

#[export] Instance simWorld_RandLaws : RandLaws simWorld.
Proof.
  split; cbn; [|done]. intros n w l w' [= <- _]. destruct n as [|n]; [done|].
  rewrite Nat.sub_succ, Nat.sub_0_r. cbn [take length]. rewrite firstn_all2 by (by rewrite length_zeros).
  rewrite length_zeros. split; [done|]. change (is_u8 (u8 (sw_rand w)) && is_bytes (zeros n) = true).
  by rewrite is_u8_wrap, is_bytes_zeros.
Qed.

#[export] Instance simWorld_RandFrame : RandFrame simWorld.
Proof. done. Qed.

Definition empty_net : netview := MkView _ ∅ ∅ ∅.

Definition empty_world : simWorld :=
  {| sw_fs := MkFs ∅ ∅ ∅; sw_next := 0; sw_net := empty_net; sw_rand := 0; sw_pages := ∅;
     sw_starts := []; sw_started := []; sw_ticks := 0; sw_full := false;
     sw_mons := fun _ => fresh_monitor |}.
