(* ===== verification/Cache.v ===== *)
(** * The image cache (util/cache.go)

    Downloaded images are kept in a directory under the SHA-256 of their URL.  A new
    entry is written to a temporary file that is renamed when it is complete. *)

From S2P Require Import Prelude GoBinary GoCrypto Sha1 Sha256 GoPath GoStrings Host Netlink Files World.

Local Open Scope Z_scope.
Local Open Scope go_scope.

Definition escapeKey (key : string) : string :=
  string_of_bytes (hex_Encode (sha256 (bytes_of_string key))).

Definition cache_Path (c : Cache) (key : string) : string := Join [cache_dir c; escapeKey key].

Section Cache.
Context {W : Type} `{!Host W} `{!HostFiles W} `{!Http W}.

(** The deferred function of [Put]: the file is closed unless it was already, and the
    temporary file is removed, errors ignored. *)
Definition put_deferred {A : Type} (open : bool) (f : file) (dstName : string) (o : outcome A)
  (w : W) : outcome A * W :=
  let w := if open then file_Close f w else w in
  let (o', w) := swarn (os_Remove dstName) w in
  (match o' with Ok _ | Err _ => o | Panic p => Panic p | Diverge => Diverge end, w).

Definition cache_Put (c : Cache) (key : string) (data : file) : st W unit :=
  let ek := escapeKey key in
  let* (f, dstName) := os_CreateTemp (cache_dir c) ".tmp" in
  fun w =>
    match (io_Copy f data >>> file_Sync f) w with
    | (Ok _, w) =>
        let w := file_Close f w in
        let (o, w) := os_Rename dstName (Join [cache_dir c; ek]) w in
        put_deferred false f dstName o w
    | (o, w) => put_deferred true f dstName o w
    end.

Definition cache_Get (c : Cache) (key : string) : st W file := os_Open (cache_Path c key).

Definition cache_Contains (c : Cache) (key : string) (w : W) : bool * W :=
  match os_Stat (cache_Path c key) w with
  | (NotExist, w) => (false, w)
  | (_, w) => (true, w)
  end.

Definition DownloadData (urlString : string) (decomp : option Decompressor) (c : Cache) : st W unit :=
  fun w =>
  let (found, w) := cache_Contains c urlString w in
  if found then (Ok tt, w)
  else (
    slift (http_NewRequest urlString) >>>
    let* res := http_Do urlString in
    with_file (Body res) (
      if negb (StatusCode res =? 200)
      then sthrow (errors_New ("failed to download: " +:+ Status res +:+ ": " +:+ urlString))
      else
        slift (Atoi (ContentLength res)) >>>
        let* src := match decomp with
                    | Some d => Decompress d (Body res)
                    | None => sret (Body res)
                    end in
        cache_Put c urlString src)) w.

End Cache.

(** ** Names of entries *)

Lemma hex_plain s :
  forallb is_hex_digit (bytes_of_string s) = true -> (0 < String.length s)%nat -> plain s = true.
Proof.
  intros Hh Hl. assert (Hs : split_slash s = [s]).
  { clear Hl. induction s as [|c s IH]; [done|]. cbn [bytes_of_string forallb] in Hh.
    apply andb_prop in Hh as [Hc Hs]. cbn [split_slash]. rewrite bool_decide_false, (IH Hs); [done|].
    intros ->. vm_compute in Hc. discriminate. }
  unfold plain. rewrite Hs, bool_decide_true by done.
  rewrite !bool_decide_false; [done|..]; intros ->; vm_compute in Hh; try discriminate.
  cbn in Hl. lia.
Qed.

Lemma escapeKey_hex key :
  forallb is_hex_digit (bytes_of_string (escapeKey key)) = true /\
  String.length (escapeKey key) = 64%nat.
Proof.
  unfold escapeKey. pose proof (hex_Encode_hex _ (sha256_bytes (bytes_of_string key))) as Hh.
  rewrite bytes_of_string_of_bytes by by apply hex_digits_bytes. split; [done|].
  rewrite <- length_bytes_of_string, bytes_of_string_of_bytes by by apply hex_digits_bytes.
  by rewrite hex_Encode_length, sha256_length.
Qed.

Lemma escapeKey_plain key : plain (escapeKey key) = true.
Proof. destruct (escapeKey_hex key) as [H1 H2]. apply hex_plain; [done|lia]. Qed.

Lemma cache_Path_inj c k1 k2 :
  cache_Path c k1 = cache_Path c k2 <-> escapeKey k1 = escapeKey k2.
Proof. apply (Join_run_inj [cache_dir c]); apply escapeKey_plain. Qed.

(** A temporary file is never an entry. *)
Lemma temp_not_entry c key tmp : temp_name (cache_dir c) ".tmp" tmp -> tmp <> cache_Path c key.
Proof.
  intros (s & Hs & ->) E. apply (Join_run_inj [cache_dir c] _ _ Hs (escapeKey_plain key)) in E.
  destruct (escapeKey_hex key) as [H _]. rewrite <- E in H.
  change (".tmp" +:+ s) with (String (Ascii.ascii_of_nat 46) ("tmp" +:+ s)) in H.
  vm_compute in H. discriminate.
Qed.

Section CacheLemmas.
Context {W : Type} `{!Host W} `{!HostFiles W} `{!Http W} {L : FileLaws W}.

(** Removing the temporary file, or not. *)
Lemma warn_remove p (w : W) :
  exists w', swarn (os_Remove p) w = (Ok tt, w') /\
    (paths w' = delete p (paths w) \/ paths w' = paths w).
Proof.
  pose proof (Remove_law p w) as Hr. unfold swarn.
  destruct (os_Remove p w) as [[[]|e| |] w1]; try done; exists w1; (split; [done|]); unfold paths.
  - left. destruct Hr as [_ ->]. done.
  - right. by rewrite Hr.
Qed.

Lemma warn_remove_gone p (w : W) :
  paths w !! p = None -> exists w', swarn (os_Remove p) w = (Ok tt, w') /\ paths w' = paths w.
Proof.
  intros Hp. destruct (warn_remove p w) as (w' & E & [Hd|Hd]); exists w'; (split; [done|]); [|done].
  by rewrite Hd, delete_id.
Qed.

(** What a failing [Put] may leave: its temporary file. *)
Definition untidy (c : Cache) (m m' : gmap string inode) : Prop :=
  exists tmp, temp_name (cache_dir c) ".tmp" tmp /\ m !! tmp = None /\ only tmp m m'.

Lemma only_remove tmp m (w : W) :
  only tmp m (paths w) -> exists w', swarn (os_Remove tmp) w = (Ok tt, w') /\ only tmp m (paths w').
Proof.
  intros Ho. destruct (warn_remove tmp w) as (w' & E & [Hd|Hd]); exists w'; (split; [done|]); rewrite Hd.
  - intros q Hq. rewrite lookup_delete_ne by done. by apply Ho.
  - done.
Qed.

Lemma only_insert tmp i m : only tmp m (<[tmp := i]> m).
Proof. intros q Hq. by apply lookup_insert_ne. Qed.

(** The copy into the temporary file. *)
Lemma copy_sync f data content tmp (w : W) :
  fs_writes (fview w) !! f = Some tmp -> paths w !! tmp = Some (Regular []) ->
  fs_reads (fview w) !! data = Some content ->
  match (io_Copy f data >>> file_Sync f) w with
  | (Ok _, w') => paths w' = <[tmp := Regular content]> (paths w)
  | (Err _, w') => only tmp (paths w) (paths w')
  | _ => False
  end.
Proof.
  intros Hw Hp Hr. pose proof (Copy_law f data w tmp content Hw Hp Hr) as Hc. unfold sbind.
  destruct (io_Copy f data w) as [[u|e| |] w1]; try done.
  - destruct Hc as [Hc _]. pose proof (Sync_law f w1) as Hs.
    destruct (file_Sync f w1) as [[]]; try done; unfold paths; rewrite Hs; [done|].
    rewrite Hc. apply only_insert.
  - destruct Hc as [c' Hc]. unfold paths. rewrite Hc. apply only_insert.
Qed.

(** [Put] is atomic: the entry is complete or nothing of the cache changed. *)
Lemma Put_atomic c key data content (w : W) :
  fs_reads (fview w) !! data = Some content ->
  match cache_Put c key data w with
  | (Ok _, w') => paths w' = <[cache_Path c key := Regular content]> (paths w)
  | (Err _, w') => untidy c (paths w) (paths w') \/ paths w' = paths w
  | _ => False
  end.
Proof.
  intros Hr. unfold cache_Put, sbind at 1. pose proof (CreateTemp_law (cache_dir c) ".tmp" w) as Ht.
  destruct (os_CreateTemp (cache_dir c) ".tmp" w) as [[[f tmp]|e| |] w1]; try done;
    [|right; unfold paths; by rewrite Ht].
  cbn in Ht. destruct Ht as (Htmp & Hnew & Hf & Hf' & Hv).
  pose proof (copy_sync f data content tmp w1) as Hc. unfold paths in Hc. rewrite Hv in Hc. cbn in Hc.
  specialize (Hc (lookup_insert_eq _ _ _) (lookup_insert_eq _ _ _) Hr).
  destruct ((io_Copy f data >>> file_Sync f) w1) as [[u|e| |] w2]; try done.
  - rewrite insert_insert_eq in Hc. unfold put_deferred.
    pose proof (Close_law f w2) as Hcl. set (w3 := file_Close f w2) in *. rewrite Hc in Hcl.
    pose proof (Rename_law tmp (Join [cache_dir c; escapeKey key]) w3) as Hrn.
    destruct (os_Rename tmp _ w3) as [[u'|e| |] w4]; try done.
    + destruct Hrn as (i & Hi & Hv4). rewrite Hcl, lookup_insert_eq in Hi. injection Hi as <-.
      assert (H4 : paths w4 = <[cache_Path c key := Regular content]> (paths w)).
      { unfold paths. rewrite Hv4. cbn. rewrite Hcl, delete_insert_id by done. done. }
      destruct (warn_remove_gone tmp w4) as (w5 & E5 & H5).
      { rewrite H4, lookup_insert_ne by (intros E; by destruct (temp_not_entry c key tmp Htmp)).
        exact Hnew. }
      rewrite E5. by rewrite H5.
    + assert (H4 : paths w4 = <[tmp := Regular content]> (paths w)) by (unfold paths; by rewrite Hrn, Hcl).
      destruct (only_remove tmp (paths w) w4) as (w5 & E5 & H5); [rewrite H4; apply only_insert|].
      rewrite E5. left. by exists tmp.
  - unfold put_deferred. pose proof (Close_law f w2) as Hcl. set (w3 := file_Close f w2) in *.
    destruct (only_remove tmp (paths w) w3) as (w5 & E5 & H5).
    { intros q Hq. unfold paths at 1. rewrite Hcl. rewrite (Hc q Hq). by apply lookup_insert_ne. }
    rewrite E5. left. by exists tmp.
Qed.

(** A failing operation on the cache. *)
Definition refused (c : Cache) (m m' : gmap string inode) : Prop := untidy c m m' \/ m' = m.

Lemma refused_entries c m m' key :
  refused c m m' -> m' !! cache_Path c key = m !! cache_Path c key.
Proof.
  intros [(tmp & Ht & _ & Ho)| ->]; [|done]. apply Ho. intros E.
  by destruct (temp_not_entry c key tmp Ht).
Qed.

(** The bytes that are stored. *)
Definition unpacked (decomp : option Decompressor) (body : list Z) : list Z :=
  match decomp with Some d => decoded d body | None => body end.

Lemma refused_close c f m (w : W) : refused c m (paths w) -> refused c m (paths (file_Close f w)).
Proof. unfold paths. by rewrite Close_law. Qed.

(** Storing the body of a response. *)
Lemma store_body c u decomp res body (w : W) :
  fs_reads (fview w) !! Body res = Some body ->
  match (let* src := match decomp with
                     | Some d => Decompress d (Body res)
                     | None => sret (Body res)
                     end in cache_Put c u src) w with
  | (Ok _, w') => paths w' = <[cache_Path c u := Regular (unpacked decomp body)]> (paths w)
  | (Err _, w') => refused c (paths w) (paths w')
  | _ => False
  end.
Proof.
  intros Hb. unfold sbind. destruct decomp as [d|]; cbn; [|by apply Put_atomic].
  pose proof (Decompress_law d _ _ _ Hb) as Hd.
  destruct (Decompress d (Body res) w) as [[g|e| |] w1]; try done; [|by right].
  pose proof (Put_atomic c u g (decoded d body) w1) as Hp. unfold paths in *. rewrite Hd in Hp.
  cbn in Hp. specialize (Hp (lookup_insert_eq _ _ _)).
  by destruct (cache_Put c u g w1) as [[]].
Qed.

(** The server answered the request with these bytes and a length. *)
Definition served (u : string) (body : list Z) (w : W) : Prop :=
  exists res w1 n, http_Do u w = (Ok res, w1) /\ StatusCode res = 200 /\
    Atoi (ContentLength res) = Ok n /\ fs_reads (fview w1) !! Body res = Some body.

Lemma DownloadData_cases c u decomp (w : W) :
  let w0 := (cache_Contains c u w).2 in
  paths w0 = paths w /\
  match DownloadData u decomp c w with
  | (Ok _, w') =>
      (cache_Contains c u w = (true, w') /\ paths w' = paths w) \/
      (paths w !! cache_Path c u = None /\ exists body, served u body w0 /\
       paths w' = <[cache_Path c u := Regular (unpacked decomp body)]> (paths w))
  | (Err _, w') => refused c (paths w) (paths w')
  | _ => False
  end.
Proof.
  cbn zeta. unfold DownloadData, cache_Contains. destruct (Stat_law (cache_Path c u) w) as [Hv Hs].
  destruct (os_Stat (cache_Path c u) w) as [[b| |e] w0]; cbn [fst snd] in Hv, Hs |- *;
    cbv beta iota; unfold paths in *; rewrite Hv; (split; [done|]); [by left| |by left].
  unfold sbind at 1. pose proof (NewRequest_law u) as Hq. unfold slift.
  destruct (http_NewRequest u) as [[]|e| |]; try done; [|right; by rewrite Hv].
  unfold sbind at 1. pose proof (Do_law u w0) as Hd.
  destruct (http_Do u w0) as [[res|e| |] w1] eqn:Ed; try done; [|right; by rewrite Hd, Hv].
  destruct Hd as [body Hd]. assert (Hp1 : fs_paths (fview w1) = fs_paths (fview w)) by (by rewrite Hd, <- Hv).
  assert (Hb : fs_reads (fview w1) !! Body res = Some body) by (rewrite Hd; apply lookup_insert_eq).
  unfold with_file. destruct (Z.eqb_spec (StatusCode res) 200) as [Hc|Hc]; cbn [negb];
    [|unfold sthrow; right; by rewrite Close_law].
  unfold sbind at 1. destruct (Atoi (ContentLength res)) as [n|e|p|] eqn:Ea.
  2:{ right. by rewrite Close_law. }
  2-3: pose proof (Atoi_safe (ContentLength res)) as Hs'; by rewrite Ea in Hs'.
  pose proof (store_body c u decomp res body w1 Hb) as Hst. unfold paths in Hst. rewrite Hp1 in Hst.
  destruct ((let* src := _ in _) w1) as [[[]|e| |] w2]; try done; cbn beta iota; rewrite Close_law; [|done].
  right. split; [done|]. exists body. rewrite Hst. split; [|done]. by exists res, w1, n.
Qed.

End CacheLemmas.

(** ** Properties *)

(** C18: storing an image is atomic, and what is stored is read back.  On any host that
    obeys the laws of files, [Put] that succeeds changes the entry of its key to
    exactly the bytes of the reader and nothing else; [Get] of the key then reads
    those bytes and [Contains] says yes.  [Put] that fails, even in the middle of the
    copy, leaves every entry of the cache as it was: at most a temporary file, which
    is never an entry, remains. *)
Theorem cache_put_atomic {W : Type} `{!Host W} `{!HostFiles W} `{!Http W} {L : FileLaws W}
  (c : Cache) (key : string) (data : file) (content : list Z) (w : W) :
  fs_reads (fview w) !! data = Some content ->
  match cache_Put c key data w with
  | (Ok _, w') =>
      paths w' = <[cache_Path c key := Regular content]> (paths w) /\
      (cache_Contains c key w').1 = true /\
      (forall f w'', cache_Get c key w' = (Ok f, w'') -> fs_reads (fview w'') !! f = Some content)
  | (Err _, w') =>
      (forall key', paths w' !! cache_Path c key' = paths w !! cache_Path c key') /\
      (paths w' = paths w \/
       exists tmp, temp_name (cache_dir c) ".tmp" tmp /\ paths w !! tmp = None /\
         only tmp (paths w) (paths w'))
  | _ => False
  end.
Proof.
  intros Hr. pose proof (Put_atomic c key data content w Hr) as Hp.
  destruct (cache_Put c key data w) as [[u|e| |] w']; try done.
  - assert (Hl : paths w' !! cache_Path c key = Some (Regular content)) by (rewrite Hp; apply lookup_insert_eq).
    split_and!; [done| |].
    + unfold cache_Contains. destruct (Stat_law (cache_Path c key) w') as [_ Hs].
      destruct (os_Stat (cache_Path c key) w') as [[]]; try done. unfold paths in Hl. cbn [fst] in Hs. congruence.
    + intros f w'' E. pose proof (Open_law (cache_Path c key) w') as Ho. unfold cache_Get in E.
      rewrite E in Ho. destruct Ho as (c' & Hc & ->). cbn. rewrite lookup_insert_eq.
      unfold paths in Hl. congruence.
  - split; [intros key'; by apply (refused_entries c)|]. destruct Hp as [(tmp & H)|H]; [right|left; done].
    by exists tmp.
Qed.

Definition demo_cache : Cache := NewCache "/var/cache/image_cache".
Definition demo_url : string := "https://example.org/ubuntu.img".

(** A world with a reader and a web server. *)
Definition cache_world (full : bool) : simWorld :=
  {| sw_fs := MkFs ∅ ∅ {[ 7%nat := [1; 2; 3] ]}; sw_next := 0; sw_net := empty_net; sw_rand := 0;
     sw_pages := {[ demo_url := (200, "3", [4; 5; 6]) ]};
     sw_starts := []; sw_started := []; sw_ticks := 0; sw_full := full;
     sw_mons := fun _ => fresh_monitor |}.

Lemma cache_put_atomic_witness :
  (exists w', cache_Put demo_cache "key" 7%nat (cache_world false) = (Ok tt, w') /\
     paths w' !! cache_Path demo_cache "key" = Some (Regular [1; 2; 3])) /\
  (exists e w', cache_Put demo_cache "key" 7%nat (cache_world true) = (Err e, w') /\
     paths w' !! cache_Path demo_cache "key" = None).
Proof.
  pose proof (cache_put_atomic demo_cache "key" 7%nat [1; 2; 3] (cache_world false) eq_refl) as H1.
  pose proof (cache_put_atomic demo_cache "key" 7%nat [1; 2; 3] (cache_world true) eq_refl) as H2.
  split.
  - destruct (cache_Put demo_cache "key" 7%nat (cache_world false)) as [o w'] eqn:E.
    assert (Eo : o = Ok tt) by (change o with (o, w').1; rewrite <- E; vm_compute; reflexivity).
    subst o. exists w'. split; [reflexivity|]. destruct H1 as [-> _]. apply lookup_insert_eq.
  - destruct (cache_Put demo_cache "key" 7%nat (cache_world true)) as [o w'] eqn:E.
    assert (Eo : o = Err (errors_New "no space left on device"))
      by (change o with (o, w').1; rewrite <- E; vm_compute; reflexivity).
    subst o. eexists _, w'. split; [reflexivity|]. destruct H2 as [-> _]. reflexivity.
Defined.

(** C19: downloads.  [DownloadData] that succeeds either found an entry for the URL and
    changed nothing, or the server answered 200 with a length and the entry is
    exactly the body it sent, decompressed; every other ending, whatever fails,
    leaves all entries as they were, so that an entry is always a complete download;
    and a second download of the same URL asks no server. *)
Theorem download_complete {W : Type} `{!Host W} `{!HostFiles W} `{!Http W} {L : FileLaws W}
  {LR : FileReliable W} (c : Cache) (u : string) (decomp : option Decompressor) (w : W) :
  match DownloadData u decomp c w with
  | (Ok _, w') =>
      (is_Some (paths w !! cache_Path c u) /\ paths w' = paths w \/
       paths w !! cache_Path c u = None /\
       exists body, served u body (cache_Contains c u w).2 /\
         paths w' = <[cache_Path c u := Regular (unpacked decomp body)]> (paths w)) /\
      DownloadData u decomp c w' = (Ok tt, (os_Stat (cache_Path c u) w').2)
  | (Err _, w') => forall key, paths w' !! cache_Path c key = paths w !! cache_Path c key
  | _ => False
  end.
Proof.
  destruct (DownloadData_cases c u decomp w) as [H0 H]. cbn zeta in H0, H.
  destruct (DownloadData u decomp c w) as [[[]|e| |] w']; try done;
    [|intros key; by apply (refused_entries c)].
  assert (Hs : is_Some (paths w' !! cache_Path c u)).
  { destruct H as [[Hc Hp]|(_ & body & _ & ->)]; [|rewrite lookup_insert_eq; by eexists].
    rewrite Hp. unfold cache_Contains in Hc. destruct (Stat_law (cache_Path c u) w) as [_ Hs].
    pose proof (Stat_ok (cache_Path c u) w) as Hok.
    destruct (os_Stat (cache_Path c u) w) as [[b| |e] w0]; cbn [fst snd] in *; [|done|by destruct (Hok e)].
    destruct Hs as (i & Hi & _). by exists i. }
  split.
  - destruct H as [[Hc Hp]|H]; [|by right]. left. split; [|done]. by rewrite <- Hp.
  - unfold DownloadData, cache_Contains. destruct (Stat_law (cache_Path c u) w') as [_ Hst].
    destruct (os_Stat (cache_Path c u) w') as [[b| |e] w0]; cbn [fst snd] in *; try done.
    destruct Hs as [i Hi]. unfold paths in Hi. congruence.
Qed.

(** The servers of a world with and without the page. *)
Lemma download_complete_witness :
  exists w', DownloadData demo_url None demo_cache (cache_world false) = (Ok tt, w') /\
    paths w' !! cache_Path demo_cache demo_url = Some (Regular [4; 5; 6]) /\
    DownloadData demo_url None demo_cache w' = (Ok tt, w').
Proof.
  pose proof (download_complete demo_cache demo_url None (cache_world false)) as H.
  destruct (DownloadData demo_url None demo_cache (cache_world false)) as [o w'] eqn:E.
  assert (Eo : o = Ok tt) by (change o with (o, w').1; rewrite <- E; vm_compute; reflexivity).
  subst o. exists w'. destruct H as [_ H]. split_and!; [reflexivity| |exact H].
  change w' with (Ok tt, w').2. rewrite <- E. vm_compute. reflexivity.
Defined.

(** A server that does not announce a length is refused. *)
Example download_without_length :
  let w := cache_world false in
  (DownloadData "http://h/x" None demo_cache
    {| sw_fs := sw_fs w; sw_next := 0; sw_net := sw_net w; sw_rand := 0;
       sw_pages := {[ "http://h/x" := (200, "", [4]) ]}; sw_starts := []; sw_started := [];
       sw_ticks := 0; sw_full := false;
     sw_mons := fun _ => fresh_monitor |}).1 = Err (errors_New "invalid syntax").
Proof. vm_compute. reflexivity. Qed.
