(* ===== verification/Volume.v ===== *)
(** * Volumes (vm/volume.go, vm/image.go, volume arguments of vm/qemu.go)

    How a volume specification becomes a volume, how a volume is created on the
    host, and the QEMU arguments it gives.  URL parsing is the parameter
    [UrlOps]. *)

From S2P Require Import Prelude GoPath Host Types GoStrings Json Marshal Cache.

Local Open Scope Z_scope.
Local Open Scope go_scope.

(** net/url *)
Class UrlOps : Type := {
  url : Type;
  url_Parse : string -> outcome url;
  url_String : url -> string
}.

(** ** Images (image.go) *)

Record image `{!UrlOps} : Type := {
  i_name : string;
  i_url : option url;
  i_file : string;
  i_decomp : option Decompressor;
  i_p : string
}.

Definition newImage `{!UrlOps} (spec : ImageSpec) : outcome image :=
  let! u := if (0 <? Z.of_nat (String.length (im_URL spec)))
            then let! u := url_Parse (im_URL spec) in Ok (Some u)
            else Ok None in
  let! decomp := NewDecompressor (im_CompressionMethod spec) in
  Ok {| i_name := im_Name spec; i_url := u; i_file := im_File spec; i_decomp := decomp; i_p := "" |}.

Definition image_path `{!UrlOps} (i : image) : string := i_p i.

(** ** Volume arguments (qemu.go) *)

Inductive volumeArgs : Type :=
| imageVolumeArgs (volumePath : string) (cache : NodeVolumeCache)
| localDSVolumeArgs (volumePath : string) (cache : NodeVolumeCache)
| rawVolumeArgs (volumePath : string) (cache : NodeVolumeCache) (format : NodeVolumeFormat)
| hostPathVolumeArgs (volumePath : string) (cache : NodeVolumeCache) (writable : bool)
    (mountTag : string).

Definition selectAIOforCache (cache : NodeVolumeCache) : string :=
  if String.eqb cache NodeVolumeCacheNone then "native" else "threads".

Definition args (v : volumeArgs) : list string :=
  match v with
  | imageVolumeArgs p cache =>
      ["-drive"; "if=virtio,cache=" +:+ cache +:+ ",aio=" +:+ selectAIOforCache cache +:+
                 ",file=" +:+ p]
  | localDSVolumeArgs p cache =>
      ["-drive"; "if=virtio,cache=" +:+ cache +:+ ",aio=" +:+ selectAIOforCache cache +:+
                 ",format=qcow2,file=" +:+ p]
  | rawVolumeArgs p cache format =>
      ["-drive"; "if=virtio,cache=" +:+ cache +:+ ",aio=" +:+ selectAIOforCache cache +:+
                 ",format=" +:+ format +:+ ",file=" +:+ p]
  | hostPathVolumeArgs p cache writable mountTag =>
      ["-virtfs"; "local,path=" +:+ p +:+ ",mount_tag=" +:+ mountTag +:+ ",security_model=none" +:+
                  (if writable then "" else ",readonly")]
  end.

(** ** Volumes *)

Inductive nodeVolume `{!UrlOps} : Type :=
| imageVolume (name : string) (cache : NodeVolumeCache) (image : image) (copyOnWrite : bool)
    (deviceClassDir : string)
| localDSVolume (name : string) (cache : NodeVolumeCache) (userData networkConfig : string)
    (deviceClassDir : string)
| rawVolume (name : string) (cache : NodeVolumeCache) (size : string) (format : NodeVolumeFormat)
    (deviceClassDir : string)
| hostPathVolume (name path : string) (writable : bool).

(** The loop over the device classes: the last match counts. *)
Definition find_device_class (name : string) (specs : list DeviceClassSpec) : string :=
  fold_left (fun dir spec => if String.eqb name (dc_Name spec) then dc_Path spec else dir) specs "".

(** The loop over the images: the first match counts. *)
Fixpoint find_image (name : string) (specs : list ImageSpec) : option ImageSpec :=
  match specs with
  | [] => None
  | spec :: specs' => if String.eqb name (im_Name spec) then Some spec else find_image name specs'
  end.

(** The structures of the four kinds are the constructors of [nodeVolume]. *)
Definition newImageVolume `{!UrlOps} (name : string) (cache : NodeVolumeCache) (image : image) (cow : bool)
  (deviceClassDir : string) : nodeVolume := imageVolume name cache image cow deviceClassDir.
Definition newLocalDSVolume `{!UrlOps} (name : string) (cache : NodeVolumeCache) (u n deviceClassDir : string)
  : nodeVolume := localDSVolume name cache u n deviceClassDir.
Definition newRawVolume `{!UrlOps} (name : string) (cache : NodeVolumeCache) (size : string)
  (format : NodeVolumeFormat) (deviceClassDir : string) : nodeVolume :=
  rawVolume name cache size format deviceClassDir.
Definition newHosPathVolume `{!UrlOps} (name path : string) (writable : bool) : nodeVolume :=
  hostPathVolume name path writable.

Definition newNodeVolume `{!UrlOps} (spec : NodeVolumeSpec) (imageSpecs : list ImageSpec)
  (deviceClassSpecs : list DeviceClassSpec) : outcome nodeVolume :=
  let! cache :=
    if String.eqb (v_Cache spec) "" then Ok NodeVolumeCacheNone
    else if bool_decide (v_Cache spec ∈ known_caches) then Ok (v_Cache spec)
    else Err (errors_New "invalid cache type for volume") in
  let deviceClassDir := find_device_class (v_DeviceClass spec) deviceClassSpecs in
  if negb (String.eqb (v_DeviceClass spec) "") && String.eqb deviceClassDir ""
  then Err (errors_New ("invalid device-class " +:+ v_DeviceClass spec))
  else if String.eqb (v_Kind spec) NodeVolumeKindImage then
    match find_image (v_Image spec) imageSpecs with
    | Some imageSpec =>
        let! image := owrap ("failed to create the image " +:+ im_Name imageSpec)
                        (newImage imageSpec) in
        Ok (newImageVolume (v_Name spec) cache image (v_CopyOnWrite spec) deviceClassDir)
    | None => Err (errors_New ("failed to find the image " +:+ v_Image spec))
    end
  else if String.eqb (v_Kind spec) NodeVolumeKindLocalds then
    Ok (newLocalDSVolume (v_Name spec) cache (v_UserData spec) (v_NetworkConfig spec) deviceClassDir)
  else if String.eqb (v_Kind spec) NodeVolumeKindRaw then
    let! format :=
      if String.eqb (v_Format spec) "" then Ok NodeVolumeFormatQcow2
      else if String.eqb (v_Format spec) NodeVolumeFormatQcow2 ||
              String.eqb (v_Format spec) NodeVolumeFormatRaw then Ok (v_Format spec)
      else Err (errors_New "invalid format for raw volume") in
    Ok (newRawVolume (v_Name spec) cache (v_Size spec) format deviceClassDir)
  else if String.eqb (v_Kind spec) NodeVolumeKindHostPath then
    Ok (newHosPathVolume (v_Name spec) (v_Path spec) (v_Writable spec))
  else Err (errors_New ("unknown volume kind: " +:+ v_Kind spec)).

Definition volumePath (dataDir name : string) : string := Join [dataDir; name +:+ ".img"].

(** The directory of a volume. *)
Definition volume_dir (dataDir deviceClassDir dataPathLastPart : string) : string :=
  if String.eqb deviceClassDir "" then Join [dataDir; dataPathLastPart]
  else Join [deviceClassDir; dataPathLastPart].

(** The [format] member of the output of [qemu-img info]. *)
Record image_info : Type := { ii_Format : string }.

#[export] Instance json_image_info : JsonType image_info := {|
  json_zero := {| ii_Format := json_zero |};
  to_json i := Json.Object [(bytes_of_string "format", to_json (ii_Format i))];
  from_json := from_struct [field "format" ii_Format (fun x _ => {| ii_Format := x |})]
|}.

Definition unmarshal_format (out : list Z) : outcome string :=
  let! info := json_Unmarshal (A := image_info) out in
  Ok (ii_Format info).

Section Create.
Context {H : Type} `{!Host H} `{!UrlOps}.

Definition makeVolumeDir (dataDir deviceClassDir dataPathLastPart name : string) : st H string :=
  let volumePathFull := volume_dir dataDir deviceClassDir dataPathLastPart in
  fun h =>
    match os_MkdirAll volumePathFull h with
    | (Err e, h') => (Err (Errorf ("failed to make the directory " +:+ volumePathFull) e), h')
    | (o, h') => (let! _ := o in Ok (volumePath volumePathFull name), h')
    end.

Definition createCoWImageFromBase (base dest : string) : st H unit :=
  let* out := exec_Output ["qemu-img"; "info"; "--output=json"; base] in
  let* format := slift (unmarshal_format out) in
  if String.eqb format "" then sthrow (errors_New ("failed to probe file format for " +:+ base))
  else exec_Run ["qemu-img"; "create"; "-f"; "qcow2"; "-F"; format; "-o";
                 "backing_file=" +:+ base; dest].

(** [imageVolume.create] *)
Definition imageVolume_create (name : string) (cache : NodeVolumeCache) (image : image)
  (copyOnWrite : bool) (deviceClassDir dataDir dataPathLastPart : string) : st H volumeArgs :=
  let* vPath := makeVolumeDir dataDir deviceClassDir dataPathLastPart name in
  let done := sret (imageVolumeArgs vPath cache) in
  fun h =>
    match os_Stat vPath h with
    | (Exists _, h) => done h
    | (StatFailed e, h) => (Err e, h)
    | (NotExist, h) =>
        (if negb (String.eqb (i_file image) "") then
           let* fp := filepath_Abs (i_file image) in
           (if copyOnWrite then createCoWImageFromBase fp vPath
            else WriteToFile fp vPath (i_decomp image)) >>>
           done
         else if copyOnWrite then createCoWImageFromBase (image_path image) vPath >>> done
         else
           let* f := os_Open (image_path image) in
           with_file f (
             let* g := os_Create vPath in
             with_file g (io_Copy g f >>> done))) h
    end.

(** [localDSVolume.create] *)
Definition localDSVolume_create (name : string) (cache : NodeVolumeCache)
  (userData networkConfig deviceClassDir dataDir dataPathLastPart : string) : st H volumeArgs :=
  let* vPath := makeVolumeDir dataDir deviceClassDir dataPathLastPart name in
  let done := sret (localDSVolumeArgs vPath cache) in
  fun h =>
    match os_Stat vPath h with
    | (NotExist, h) =>
        (exec_Run (if String.eqb networkConfig "" then ["cloud-localds"; vPath; userData]
                   else ["cloud-localds"; vPath; userData; "--network-config"; networkConfig;
                         "--disk-format"; "qcow2"]) >>>
         done) h
    | (Exists _, h) => done h
    | (StatFailed e, h) => (Err e, h)
    end.

(** [rawVolume.create] *)
Definition rawVolume_create (name : string) (cache : NodeVolumeCache) (size : string)
  (format : NodeVolumeFormat) (deviceClassDir dataDir dataPathLastPart : string)
  : st H volumeArgs :=
  let* vPath := makeVolumeDir dataDir deviceClassDir dataPathLastPart name in
  let done := sret (rawVolumeArgs vPath cache format) in
  fun h =>
    match os_Stat vPath h with
    | (NotExist, h) => (exec_Run ["qemu-img"; "create"; "-f"; format; vPath; size] >>> done) h
    | (Exists _, h) => done h
    | (StatFailed e, h) => (Err e, h)
    end.

(** [hostPathVolume.create] *)
Definition hostPathVolume_create (name path : string) (writable : bool) : st H volumeArgs :=
  let* p := filepath_Abs path in
  fun h =>
    match os_MkdirAll p h with
    | (Err e, h) => (Err (Errorf ("failed to mkdir " +:+ path) e), h)
    | (o, h) => (let! _ := o in Ok (hostPathVolumeArgs p "" writable name), h)
    end.

(** [nodeVolume.create] *)
Definition create (v : nodeVolume) (dataDir dataPathLastPart : string) : st H volumeArgs :=
  match v with
  | imageVolume name cache image cow dcdir =>
      imageVolume_create name cache image cow dcdir dataDir dataPathLastPart
  | localDSVolume name cache ud nc dcdir =>
      localDSVolume_create name cache ud nc dcdir dataDir dataPathLastPart
  | rawVolume name cache size format dcdir =>
      rawVolume_create name cache size format dcdir dataDir dataPathLastPart
  | hostPathVolume name path writable => hostPathVolume_create name path writable
  end.

End Create.

(** ** Preparation: the images are downloaded *)

Section Prepare.
Context {W : Type} `{!Host W} `{!HostFiles W} `{!Http W} `{!UrlOps}.

Definition set_image_path (i : image) (p : string) : image :=
  {| i_name := i_name i; i_url := i_url i; i_file := i_file i; i_decomp := i_decomp i; i_p := p |}.

(** [image.prepare]; the image is mutable and learns its path. *)
Definition image_prepare (c : Cache) : st (W * image) unit :=
  fun s =>
  let '(w, i) := s in
  match i_url i with
  | None => (Ok tt, (w, i))
  | Some u =>
      match DownloadData (url_String u) (i_decomp i) c w with
      | (Ok _, w') => (Ok tt, (w', set_image_path i (cache_Path c (url_String u))))
      | (Err e, w') => (Err e, (w', i))
      | (Panic p, w') => (Panic p, (w', i))
      | (Diverge, w') => (Diverge, (w', i))
      end
  end.

Definition localDSVolume_prepare (c : Cache) : st (W * nodeVolume) unit := sret tt.
Definition rawVolume_prepare (c : Cache) : st (W * nodeVolume) unit := sret tt.
Definition hostPathVolume_prepare (c : Cache) : st (W * nodeVolume) unit := sret tt.

(** [nodeVolume.prepare]: only image volumes have something to prepare. *)
Definition prepare (c : Cache) : st (W * nodeVolume) unit :=
  fun s =>
  match s.2 with
  | imageVolume name cache i cow dcdir =>
      let '(o, (w', i')) := image_prepare c (s.1, i) in (o, (w', imageVolume name cache i' cow dcdir))
  | localDSVolume _ _ _ _ _ => localDSVolume_prepare c s
  | rawVolume _ _ _ _ _ => rawVolume_prepare c s
  | hostPathVolume _ _ _ => hostPathVolume_prepare c s
  end.

End Prepare.

(** ** Construction *)

Lemma find_image_in name specs spec :
  find_image name specs = Some spec -> spec ∈ specs /\ im_Name spec = name.
Proof.
  induction specs as [|s specs IH]; cbn; [done|].
  destruct (String.eqb_spec name (im_Name s)) as [->|_].
  - intros [= <-]. split; [left|done].
  - intros E. destruct (IH E). split; [by right|done].
Qed.

Lemma find_image_some name specs :
  (exists spec, spec ∈ specs /\ im_Name spec = name) -> is_Some (find_image name specs).
Proof.
  intros (spec & Hin & <-). induction specs as [|s specs IH]; [by apply elem_of_nil in Hin|].
  cbn. destruct (String.eqb_spec (im_Name spec) (im_Name s)); [by eexists|].
  apply elem_of_cons in Hin as [->|Hin]; [done|]. by apply IH.
Qed.

(** The directory of a device class is that of some device class of the name. *)
Lemma find_device_class_spec name specs dir :
  let r := fold_left (fun dir spec =>
    if String.eqb name (dc_Name spec) then dc_Path spec else dir) specs dir in
  (r = dir /\ (forall spec, spec ∈ specs -> dc_Name spec <> name)) \/
  (exists spec, spec ∈ specs /\ dc_Name spec = name /\ r = dc_Path spec).
Proof.
  revert dir. induction specs as [|s specs IH]; intros dir; cbn.
  - left. split; [done|]. intros spec Hin. by apply elem_of_nil in Hin.
  - destruct (String.eqb_spec name (dc_Name s)) as [->|Hne].
    + right. destruct (IH (dc_Path s)) as [[E _]|(spec & Hin & Hn & E)].
      * exists s. rewrite E. split; [left|done].
      * exists spec. rewrite E. split; [by right|done].
    + destruct (IH dir) as [[E Hno]|(spec & Hin & Hn & E)].
      * left. split; [done|]. intros spec Hin. apply elem_of_cons in Hin as [->|Hin]; [done|by apply Hno].
      * right. exists spec. split; [by right|done].
Qed.

(** The device class a volume names exists. *)
Definition device_class_found (name : string) (specs : list DeviceClassSpec) : Prop :=
  name = "" \/ exists spec, spec ∈ specs /\ dc_Name spec = name.

Lemma device_class_dir name specs :
  Forall device_class_ok specs -> device_class_found name specs ->
  let dir := find_device_class name specs in
  negb (String.eqb name "") && String.eqb dir "" = false /\
  (dir = "" <-> name = "") /\
  (name <> "" -> exists spec, spec ∈ specs /\ dc_Name spec = name /\ dir = dc_Path spec).
Proof.
  intros Hok Hf dir. rewrite Forall_forall in Hok.
  assert (Hp : forall spec, spec ∈ specs -> dc_Name spec <> "" /\ dc_Path spec <> "").
  { intros spec Hin. destruct (Hok spec Hin) as [Hn Ha]. split; [done|]. by apply IsAbs_nonempty. }
  destruct (find_device_class_spec name specs "") as [[E Hno]|(spec & Hin & Hn & E)];
    fold (find_device_class name specs) in E; fold dir in E.
  - destruct Hf as [->|(spec & Hin & Hn)]; [|by destruct (Hno spec Hin)].
    rewrite E. by split_and!.
  - destruct (Hp spec Hin) as [Hne Hpe]. rewrite Hn in Hne. rewrite E.
    destruct (String.eqb_spec name ""); [done|]. destruct (String.eqb_spec (dc_Path spec) ""); [done|].
    split_and!; [done..|]. intros _. by exists spec.
Qed.

(** The directory of the volumes of a device class: that of the last class of the name. *)
Definition class_directory (name : string) (specs : list DeviceClassSpec) (dir : string) : Prop :=
  (name = "" /\ dir = "") \/
  (name <> "" /\ exists pre c post, specs = pre ++ c :: post /\ dc_Name c = name /\ dc_Path c = dir /\
     Forall (fun c' => dc_Name c' <> name) post).

Lemma find_device_class_snoc name specs c :
  find_device_class name (specs ++ [c]) =
  if String.eqb name (dc_Name c) then dc_Path c else find_device_class name specs.
Proof. unfold find_device_class. by rewrite fold_left_app. Qed.

Lemma class_directory_cases name specs :
  Forall device_class_ok specs ->
  let dir := find_device_class name specs in
  let missing := negb (String.eqb name "") && String.eqb dir "" in
  (missing = false /\ class_directory name specs dir) \/
  (missing = true /\ name ∉ "" :: map dc_Name specs).
Proof.
  intros Hok dir missing. unfold missing. destruct (String.eqb_spec name "") as [->|Hne].
  { left. split; [done|left; split; [done|]]. unfold dir. clear dir missing.
    induction specs as [|c specs IH] using rev_ind; [done|]. apply Forall_app in Hok as [Ho Hc].
    rewrite Forall_singleton in Hc. destruct Hc as [Hc _]. rewrite find_device_class_snoc.
    destruct (String.eqb_spec "" (dc_Name c)); [congruence|]. by apply IH. }
  unfold class_directory, dir. clear dir missing.
  induction specs as [|c specs IH] using rev_ind; [right; set_solver|].
  apply Forall_app in Hok as [Ho Hc]. rewrite Forall_singleton in Hc. destruct Hc as [_ Hp%IsAbs_nonempty].
  rewrite find_device_class_snoc. destruct (String.eqb_spec name (dc_Name c)) as [->|Hn].
  - left. rewrite (proj2 (String.eqb_neq _ _) Hp). split; [done|right]. split; [done|].
    exists specs, c, []. by split_and!.
  - destruct (IH Ho) as [[-> [[]|(_ & pre & c' & post & -> & H1 & H2 & H3)]]|[-> H]]; [done| |].
    + left. split; [done|right]. split; [done|]. exists pre, c', (post ++ [c]).
      rewrite <- app_assoc. split_and!; try done. apply Forall_app. split; [done|]. by apply Forall_singleton.
    + right. split; [done|]. rewrite map_app. set_solver.
Qed.

(** The image an image volume names: the first of the name. *)
Definition first_image (name : string) (specs : list ImageSpec) (spec : ImageSpec) : Prop :=
  exists pre post, specs = pre ++ spec :: post /\ im_Name spec = name /\
    Forall (fun s => im_Name s <> name) pre.

Lemma first_image_unique name specs s1 s2 :
  first_image name specs s1 -> first_image name specs s2 -> s1 = s2.
Proof.
  intros (pre1 & post1 & -> & Hn1 & H1) (pre2 & post2 & E & Hn2 & H2).
  revert pre2 E H2. induction H1 as [|x pre1 Hx _ IH]; intros [|y pre2] E H2; cbn in E; simplify_eq; try done.
  - by inversion H2.
  - inversion H2. by eapply IH.
Qed.

Lemma find_image_cases name specs :
  match find_image name specs with
  | Some spec => first_image name specs spec
  | None => name ∉ map im_Name specs
  end.
Proof.
  induction specs as [|s specs IH]; cbn; [set_solver|].
  destruct (String.eqb_spec name (im_Name s)) as [->|Hn]; [by exists [], specs|].
  destruct (find_image name specs) as [spec|]; [|set_solver].
  destruct IH as (pre & post & -> & H1 & H2). exists (s :: pre), post. by split_and!; [..|constructor].
Qed.

(** The image of a specification, and why there is none. *)
Definition image_built `{!UrlOps} (spec : ImageSpec) (i : image) : Prop :=
  i_name i = im_Name spec /\ i_file i = im_File spec /\ i_p i = "" /\
  ((im_URL spec = "" /\ i_url i = None) \/
   (im_URL spec <> "" /\ exists u, url_Parse (im_URL spec) = Ok u /\ i_url i = Some u)) /\
  ((im_CompressionMethod spec = "" /\ i_decomp i = None) \/
   (im_CompressionMethod spec = "gzip" /\ i_decomp i = Some gzipDecompressor) \/
   (im_CompressionMethod spec = "bzip2" /\ i_decomp i = Some bzip2Decompressor)).

Definition image_unusable `{!UrlOps} (spec : ImageSpec) : Prop :=
  (im_URL spec <> "" /\ exists e, url_Parse (im_URL spec) = Err e) \/
  im_CompressionMethod spec ∉ [""; "gzip"; "bzip2"].

(** [url.Parse] gives a URL or an error. *)
Definition url_total `{!UrlOps} : Prop :=
  forall s, match url_Parse s with Ok _ | Err _ => True | _ => False end.

Lemma decompressor_cases method :
  match NewDecompressor method with
  | Ok d => (method = "" /\ d = None) \/ (method = "gzip" /\ d = Some gzipDecompressor) \/
            (method = "bzip2" /\ d = Some bzip2Decompressor)
  | Err _ => method ∉ [""; "gzip"; "bzip2"]
  | _ => False
  end.
Proof.
  unfold NewDecompressor. destruct (String.eqb_spec method "bzip2"); [auto|].
  destruct (String.eqb_spec method "gzip"); [auto|]. destruct (String.eqb_spec method ""); [auto|set_solver].
Qed.

Lemma newImage_built `{!UrlOps} spec i : newImage spec = Ok i -> image_built spec i.
Proof.
  unfold newImage. intros E. apply obind_ok in E as (u & Eu & E). apply obind_ok in E as (d & Ed & E).
  injection E as <-. pose proof (decompressor_cases (im_CompressionMethod spec)) as Hd. rewrite Ed in Hd.
  unfold image_built. cbn. split_and!; try done. destruct (im_URL spec) as [|a s] eqn:E; cbn in Eu.
  - injection Eu as <-. by left.
  - apply obind_ok in Eu as (u' & Eu & [= <-]). right. split; [done|]. by exists u'.
Qed.

Lemma newImage_cases `{!UrlOps} spec :
  url_total ->
  match newImage spec with Ok i => image_built spec i | Err _ => image_unusable spec | _ => False end.
Proof.
  intros Ht. destruct (newImage spec) as [i|e|p|] eqn:E; [by apply newImage_built|..];
    pose proof (decompressor_cases (im_CompressionMethod spec)) as Hd; unfold newImage in E; specialize (Ht (im_URL spec));
    unfold image_unusable; (destruct (im_URL spec) as [|a s]; cbn in E;
    [|destruct (url_Parse (String a s)) as [u|e'|p'|]; cbn in E]);
    destruct (NewDecompressor (im_CompressionMethod spec)); cbn in E; try done; eauto.
Qed.

(** The volume a valid specification describes. *)
Definition described `{!UrlOps} (v : NodeVolumeSpec) (imageSpecs : list ImageSpec) (dir : string)
  (vol : nodeVolume) : Prop :=
  let v := volume_defaults v in
  (v_Kind v = NodeVolumeKindImage /\ exists spec i, first_image (v_Image v) imageSpecs spec /\
     image_built spec i /\ vol = imageVolume (v_Name v) (v_Cache v) i (v_CopyOnWrite v) dir) \/
  (v_Kind v = NodeVolumeKindLocalds /\
     vol = localDSVolume (v_Name v) (v_Cache v) (v_UserData v) (v_NetworkConfig v) dir) \/
  (v_Kind v = NodeVolumeKindRaw /\
     vol = rawVolume (v_Name v) (v_Cache v) (v_Size v) (v_Format v) dir) \/
  (v_Kind v = NodeVolumeKindHostPath /\ vol = hostPathVolume (v_Name v) (v_Path v) (v_Writable v)).

(** [newNodeVolume] fills in the defaults itself. *)
Lemma newNodeVolume_defaults `{!UrlOps} v imageSpecs deviceClassSpecs :
  newNodeVolume (volume_defaults v) imageSpecs deviceClassSpecs =
  newNodeVolume v imageSpecs deviceClassSpecs.
Proof.
  destruct v as [kind name img ud nc size path cow cache format vg wr dc].
  unfold volume_defaults, is_empty. cbn [v_Cache v_Kind v_Format set_Cache].
  unfold newNodeVolume.
  destruct (String.eqb_spec cache "") as [->|Hc];
    cbn [v_Kind v_Format set_Cache];
    destruct (String.eqb_spec kind NodeVolumeKindRaw) as [->|Hk];
    destruct (String.eqb_spec format "") as [->|Hf]; cbn [andb set_Cache set_Format
      v_Kind v_Name v_Image v_UserData v_NetworkConfig v_Size v_Path v_CopyOnWrite v_Cache v_Format
      v_VG v_Writable v_DeviceClass]; try reflexivity;
    repeat match goal with
           | Hn : ?x <> ?y |- _ => rewrite ?(proj2 (String.eqb_neq x y) Hn); clear Hn
           end; reflexivity.
Qed.

(** The image an image volume names exists and can be opened as an image. *)
Definition image_found `{!UrlOps} (v : NodeVolumeSpec) (specs : list ImageSpec) : Prop :=
  v_Kind v = NodeVolumeKindImage ->
  exists spec i, find_image (v_Image v) specs = Some spec /\ newImage spec = Ok i.

(** What the defaults keep and fill in. *)
Lemma volume_defaults_fields v :
  volume_ok v ->
  let v' := volume_defaults v in
  v_Kind v' = v_Kind v /\ v_Image v' = v_Image v /\ v_DeviceClass v' = v_DeviceClass v /\
  v_Cache v' <> "" /\ v_Cache v' ∈ known_caches /\
  (v_Kind v = NodeVolumeKindRaw ->
     v_Format v' = NodeVolumeFormatQcow2 \/ v_Format v' = NodeVolumeFormatRaw).
Proof.
  intros [Hc Hk]. unfold volume_defaults, volume_kind_ok, is_empty in *.
  assert (Hn : NodeVolumeCacheNone ∈ known_caches) by (right; left).
  assert (Hf : v_Kind v = NodeVolumeKindRaw -> v_Format v <> "" ->
    v_Format v = NodeVolumeFormatQcow2 \/ v_Format v = NodeVolumeFormatRaw).
  { intros Hr. rewrite Hr in Hk. unfold NodeVolumeKindImage, NodeVolumeKindLocalds,
      NodeVolumeKindHostPath, NodeVolumeKindRaw in Hk. intuition congruence. }
  destruct (String.eqb_spec (v_Cache v) "") as [Ec|Ec]; cbn [v_Kind v_Format set_Cache];
    destruct (String.eqb_spec (v_Kind v) NodeVolumeKindRaw) as [Ek|Ek];
    destruct (String.eqb_spec (v_Format v) "") as [Ef|Ef];
    cbn [andb v_Kind v_Image v_DeviceClass v_Cache v_Format set_Cache set_Format];
    split_and!; first [done | by destruct Hc | by auto | by left | by intros ?; auto].
Qed.

Lemma newNodeVolume_ok `{!UrlOps} v imageSpecs deviceClassSpecs :
  volume_ok v -> Forall device_class_ok deviceClassSpecs ->
  device_class_found (v_DeviceClass v) deviceClassSpecs -> image_found v imageSpecs ->
  exists vol, newNodeVolume v imageSpecs deviceClassSpecs = Ok vol /\
    described v imageSpecs (find_device_class (v_DeviceClass v) deviceClassSpecs) vol.
Proof.
  intros Hv Hdc Hf Hi. rewrite <- newNodeVolume_defaults.
  destruct (device_class_dir _ _ Hdc Hf) as (Hg & _).
  unfold described. cbv zeta.
  destruct (volume_defaults_fields v Hv) as (Hk & Him & Hd & Hc & Hc' & Hfm).
  unfold newNodeVolume. rewrite (proj2 (String.eqb_neq _ _) Hc), bool_decide_true by done.
  cbn [obind]. rewrite Hd, Hg, Hk, Him.
  destruct Hv as [_ [[Ek _]|[[Ek _]|[[Ek _]|[Ek _]]]]]; rewrite Ek.
  - destruct (Hi Ek) as (spec & i & Es & Ei). rewrite Es. cbn. rewrite Ei. cbn.
    eexists. split; [reflexivity|]. left. split; [done|]. exists spec, i.
    pose proof (find_image_cases (v_Image v) imageSpecs) as Hs. rewrite Es in Hs.
    split_and!; [done|by apply newImage_built|done].
  - eexists. split; [reflexivity|]. right; left. by rewrite ?Hk.
  - destruct (Hfm Ek) as [Ef|Ef]; rewrite Ef; eexists; (split; [reflexivity|]); right; right; left;
      by rewrite ?Ef.
  - eexists. split; [reflexivity|]. right; right; right. done.
Qed.

(** Why a valid specification gives no volume. *)
Definition volume_unusable `{!UrlOps} (v : NodeVolumeSpec) (imageSpecs : list ImageSpec)
  (deviceClassSpecs : list DeviceClassSpec) : Prop :=
  v_DeviceClass v ∉ "" :: map dc_Name deviceClassSpecs \/
  (v_Kind v = NodeVolumeKindImage /\ v_Image v ∉ map im_Name imageSpecs) \/
  (v_Kind v = NodeVolumeKindImage /\
   exists spec, first_image (v_Image v) imageSpecs spec /\ image_unusable spec).

(** The reasons exclude the volume. *)
Lemma described_usable `{!UrlOps} v imageSpecs deviceClassSpecs dir vol :
  class_directory (v_DeviceClass v) deviceClassSpecs dir -> described v imageSpecs dir vol -> volume_ok v ->
  ~ volume_unusable v imageSpecs deviceClassSpecs.
Proof.
  intros Hdir Hvol Hv.
  destruct (volume_defaults_fields v Hv) as (Hk & Him & _).
  assert (Himg : v_Kind v = NodeVolumeKindImage -> exists spec i, first_image (v_Image v) imageSpecs spec /\
    image_built spec i).
  { intros Ek. unfold described in Hvol. cbv zeta in Hvol. rewrite Hk, Him, Ek in Hvol.
    destruct Hvol as [(_ & spec & i & H1 & H2 & _)|[[]|[[]|[]]]]; [by exists spec, i|done..]. }
  intros [Hx|[[Ek Hx]|(Ek & spec & Hs & Hx)]].
  - destruct Hdir as [[Hn _]|(_ & pre & c & post & -> & Hn & _)]; rewrite Hn in * || rewrite <- Hn in *;
      apply Hx; [left|right]. rewrite map_app. apply elem_of_app; right; left.
  - destruct (Himg Ek) as (spec & i & (pre & post & -> & Hn & _) & _). apply Hx. rewrite <- Hn, map_app. apply elem_of_app; right; left.
  - destruct (Himg Ek) as (spec' & i & Hs' & (_ & _ & _ & Hurl & Hm)).
    assert (spec' = spec) as -> by (by eapply first_image_unique).
    destruct Hx as [(Hne & e & He)|Hx]; [|rewrite !not_elem_of_cons in Hx; intuition congruence].
    destruct Hurl as [[]|(_ & u & Eu & _)]; congruence.
Qed.

Lemma newNodeVolume_cases `{!UrlOps} v imageSpecs deviceClassSpecs :
  volume_ok v -> Forall device_class_ok deviceClassSpecs -> url_total ->
  match newNodeVolume v imageSpecs deviceClassSpecs with
  | Ok vol => exists dir, class_directory (v_DeviceClass v) deviceClassSpecs dir /\ described v imageSpecs dir vol
  | Err _ => volume_unusable v imageSpecs deviceClassSpecs
  | _ => False
  end.
Proof.
  intros Hv Hdc Hu.
  destruct (volume_defaults_fields v Hv) as (Hk & Him & Hd & Hc & Hc' & _).
  destruct (class_directory_cases (v_DeviceClass v) _ Hdc) as [[Hm Hdir]|[Hm Hdir]].
  2:{ rewrite <- newNodeVolume_defaults. unfold newNodeVolume.
      rewrite (proj2 (String.eqb_neq _ _) Hc), bool_decide_true by done. cbn [obind]. rewrite Hd, Hm. by left. }
  assert (Hf : device_class_found (v_DeviceClass v) deviceClassSpecs).
  { destruct Hdir as [[-> _]|(_ & pre & c & post & -> & Hn & _)]; [by left|right]. exists c. set_solver. }
  pose proof (newNodeVolume_ok v imageSpecs deviceClassSpecs Hv Hdc Hf) as Hb.
  destruct (decide (v_Kind v = NodeVolumeKindImage)) as [Ek|Ek];
    [|destruct Hb as (vol & -> & Hv'); [by intros ?|by eexists]].
  pose proof (find_image_cases (v_Image v) imageSpecs) as Hi.
  destruct (find_image (v_Image v) imageSpecs) as [spec|] eqn:Ei; [pose proof (newImage_cases spec Hu) as Hn|];
    [destruct (newImage spec) as [i|e|p|] eqn:En; try done|];
    [destruct Hb as (vol & -> & Hv'); [intros _; by exists spec, i|by eexists]|..];
    rewrite <- newNodeVolume_defaults; unfold newNodeVolume;
    rewrite (proj2 (String.eqb_neq _ _) Hc), bool_decide_true by done; cbn [obind];
    rewrite Hd, Hm, Hk, Him, Ek, Ei; cbn; [rewrite En; cbn; right; right|right; left]; eauto.
Qed.

(** ** Creation *)

(** The volume file of a volume that has one, and the arguments of the volume. *)
Definition volume_file `{!UrlOps} (v : nodeVolume) (dataDir lastPart : string)
  : option (string * string * volumeArgs) :=
  let in_dir dir name k :=
    let d := volume_dir dataDir dir lastPart in let p := volumePath d name in Some (d, p, k p) in
  match v with
  | imageVolume name cache _ _ dir => in_dir dir name (fun p => imageVolumeArgs p cache)
  | localDSVolume name cache _ _ dir => in_dir dir name (fun p => localDSVolumeArgs p cache)
  | rawVolume name cache _ format dir => in_dir dir name (fun p => rawVolumeArgs p cache format)
  | hostPathVolume _ _ _ => None
  end.

Section Creation.
Context {H : Type} `{!Host H} `{!UrlOps}.

(** Finding a volume file: the directory is made and the file looked up, nothing else. *)
Lemma create_existing v dataDir lastPart d p a b (h h1 h2 : H) :
  volume_file v dataDir lastPart = Some (d, p, a) ->
  os_MkdirAll d h = (Ok tt, h1) -> os_Stat p h1 = (Exists b, h2) ->
  create v dataDir lastPart h = (Ok a, h2).
Proof.
  intros Hv Hm Hs. destruct v; cbn [volume_file] in Hv; [injection Hv as <- <- <-..|done];
    cbn [create]; unfold imageVolume_create, localDSVolume_create, rawVolume_create, sbind,
      makeVolumeDir; rewrite Hm; cbn [obind]; by rewrite Hs.
Qed.

End Creation.

(** What the host documents: files and directories stay, [MkdirAll] makes a directory
    and succeeds when it is there, opening for creation and the image commands make
    their output file. *)
Definition output_of (command : list string) : option string :=
  match command with
  | "cloud-localds" :: dest :: _ => Some dest
  | "qemu-img" :: "create" :: params =>
      match params with
      | ["-f"; _; dest; _] => Some dest
      | _ => last params
      end
  | _ => None
  end.

Definition grows {H : Type} (present isdir : H -> string -> bool) (h h' : H) : Prop :=
  forall p, (present h p = true -> present h' p = true) /\ (isdir h p = true -> isdir h' p = true).

Class HostLaws (H : Type) `{!Host H} : Type := {
  present : H -> string -> bool;
  isdir : H -> string -> bool;
  wd : string;
  stat_grows : forall p h, grows present isdir h (os_Stat p h).2;
  close_grows : forall f h, grows present isdir h (file_Close f h);
  mkdir_grows : forall d, preserves (grows present isdir) (os_MkdirAll d);
  getwd_grows : preserves (grows present isdir) os_Getwd;
  open_grows : forall p, preserves (grows present isdir) (os_Open p);
  create_grows : forall p, preserves (grows present isdir) (os_Create p);
  openfile_grows : forall p, preserves (grows present isdir) (os_OpenFile p);
  copy_grows : forall f g, preserves (grows present isdir) (io_Copy f g);
  gzip_grows : forall f, preserves (grows present isdir) (gzip_NewReader f);
  bzip2_grows : forall f, preserves (grows present isdir) (bzip2_NewReader f);
  output_grows : forall base,
    preserves (grows present isdir) (exec_Output ["qemu-img"; "info"; "--output=json"; base]);
  run_grows : forall c, is_Some (output_of c) -> preserves (grows present isdir) (exec_Run c);
  stat_present : forall p h, present h p = true -> exists b, (os_Stat p h).1 = Exists b;
  stat_absent : forall p h b, (os_Stat p h).1 = Exists b -> present h p = true;
  getwd_law : forall h, (os_Getwd h).1 = Ok wd;
  mkdir_makes : forall d h h', os_MkdirAll d h = (Ok tt, h') -> isdir h' d = true;
  mkdir_again : forall d h, isdir h d = true -> exists h', os_MkdirAll d h = (Ok tt, h');
  create_makes : forall p h f h', os_Create p h = (Ok f, h') -> present h' p = true;
  openfile_makes : forall p h f h', os_OpenFile p h = (Ok f, h') -> present h' p = true;
  run_makes : forall c p h h', output_of c = Some p -> exec_Run c h = (Ok tt, h') ->
    present h' p = true
}.

Section CreateAgain.
Context {H : Type} `{!Host H} {L : HostLaws H} `{!UrlOps}.

Abbreviation hle := (grows present isdir).

#[local] Instance hle_pre : PreOrder hle.
Proof. split; [by intros h p|]. intros h1 h2 h3 H12 H23 p. split; intros; by apply H23, H12. Qed.

#[local] Hint Resolve mkdir_grows getwd_grows open_grows create_grows openfile_grows copy_grows
  gzip_grows bzip2_grows output_grows : preserves.

Lemma with_file_grows {A} f (m : st H A) : preserves hle m -> preserves hle (with_file f m).
Proof.
  intros Hm h o h'. unfold with_file. destruct (m h) as [o1 h1] eqn:E. intros [= <- <-].
  etransitivity; [by eapply Hm|apply close_grows].
Qed.

(** Every successful run of [m] leaves the file [p]. *)
Definition makes {A : Type} (m : st H A) (p : string) : Prop :=
  forall h a h', m h = (Ok a, h') -> present h' p = true.

(** Every successful run of [m] returns [a]. *)
Definition returns {A : Type} (m : st H A) (a : A) : Prop :=
  forall h a' h', m h = (Ok a', h') -> a' = a.

Lemma makes_here {A B} (m : st H A) (f : A -> st H B) p :
  makes m p -> (forall a, preserves hle (f a)) -> makes (sbind m f) p.
Proof.
  intros Hm Hf h b h' E. apply sbind_ok in E as (a & h1 & E1 & E2).
  eapply Hf; [exact E2|]. by eapply Hm.
Qed.

Lemma makes_later {A B} (m : st H A) (f : A -> st H B) p :
  (forall a, makes (f a) p) -> makes (sbind m f) p.
Proof. intros Hf h b h' E. apply sbind_ok in E as (a & h1 & E1 & E2). by eapply Hf. Qed.

Lemma makes_with_file {A} f (m : st H A) p : makes m p -> makes (with_file f m) p.
Proof.
  intros Hm h a h'. unfold with_file. destruct (m h) as [o1 h1] eqn:E. intros [= -> <-].
  apply close_grows. by eapply Hm.
Qed.

Lemma returns_bind {A B} (m : st H A) (f : A -> st H B) b :
  (forall a, returns (f a) b) -> returns (sbind m f) b.
Proof. intros Hf h b' h' E. apply sbind_ok in E as (a & h1 & E1 & E2). by eapply Hf. Qed.

Lemma returns_ret {A} (a : A) : returns (sret a) a.
Proof. by intros h a' h' [= <- <-]. Qed.

Lemma returns_with_file {A} f (m : st H A) a : returns m a -> returns (with_file f m) a.
Proof.
  intros Hm h a' h'. unfold with_file. destruct (m h) as [o1 h1] eqn:E. intros [= -> <-].
  by eapply Hm.
Qed.

Lemma makes_run c p : output_of c = Some p -> makes (exec_Run c) p.
Proof. intros Hc h [] h' E. by eapply run_makes. Qed.

Lemma makes_cow base dest : makes (createCoWImageFromBase base dest) dest.
Proof.
  do 2 (apply makes_later; intros ?). case_match; [done|]. by apply makes_run.
Qed.

Lemma decompress_grows d f : preserves hle (Decompress d f).
Proof. destruct d; cbn [Decompress]; preserves. Qed.

#[local] Hint Resolve decompress_grows : preserves.

Lemma makes_write src dest d : makes (WriteToFile src dest d) dest.
Proof.
  apply makes_later. intros f. apply makes_with_file, makes_here.
  - intros h a h'. apply openfile_makes.
  - intros g. apply with_file_grows. preserves.
Qed.

(** Making the volume directory. *)
Lemma makeVolumeDir_ok dataDir dir lastPart name (h h1 : H) vp :
  makeVolumeDir dataDir dir lastPart name h = (Ok vp, h1) ->
  vp = volumePath (volume_dir dataDir dir lastPart) name /\
  isdir h1 (volume_dir dataDir dir lastPart) = true.
Proof.
  unfold makeVolumeDir. destruct (os_MkdirAll _ h) as [[[]| | |] h'] eqn:E; cbn; try done.
  intros [= <- <-]. split; [done|]. by eapply mkdir_makes.
Qed.

(** After a lookup: the file is there, or the body makes it; either way the arguments
    are the volume's and what was there stays. *)
Lemma lookup_or_make {A} p (a : A) (body : st H A) (h h' : H) a' :
  makes body p -> returns body a -> preserves hle body ->
  match os_Stat p h with
  | (Exists _, h1) => (Ok a, h1)
  | (StatFailed e, h1) => (Err e, h1)
  | (NotExist, h1) => body h1
  end = (Ok a', h') ->
  a' = a /\ present h' p = true /\ hle h h'.
Proof.
  intros Hm Hr Hp E. pose proof (stat_grows p h) as Hg. pose proof (stat_absent p h) as Ha.
  destruct (os_Stat p h) as [[b| |e] h1]; cbn in Hg, Ha; [| |done].
  - injection E as <- <-. split_and!; [done| |done]. apply Hg. by eapply Ha.
  - split_and!; [by eapply Hr|by eapply Hm|]. etransitivity; [exact Hg|by eapply Hp].
Qed.

Lemma preserves_if {A} (b : bool) (m1 m2 : st H A) :
  preserves hle m1 -> preserves hle m2 -> preserves hle (if b then m1 else m2).
Proof. by destruct b. Qed.

Lemma cow_grows base dest : preserves hle (createCoWImageFromBase base dest).
Proof.
  unfold createCoWImageFromBase. preserves. by apply run_grows.
Qed.

Lemma write_grows src dest d : preserves hle (WriteToFile src dest d).
Proof.
  unfold WriteToFile. apply preserves_bind; [apply _|preserves|]. intros f. apply with_file_grows.
  apply preserves_bind; [apply _|preserves|]. intros g. apply with_file_grows.
  preserves.
Qed.

Lemma abs_grows p : preserves hle (filepath_Abs p).
Proof. unfold filepath_Abs. preserves. Qed.

Ltac grows :=
  repeat first [ progress preserves | apply with_file_grows | apply cow_grows | apply write_grows
               | apply abs_grows | by apply run_grows
               | apply preserves_bind; [apply _| |intros ?] ].

Ltac returns :=
  repeat first [ apply returns_ret | apply returns_bind; intros ? | apply returns_with_file ].

Lemma image_body_makes (i : image) (cow : bool) (cache p : string) :
  makes (fun h : H => (if negb (String.eqb (i_file i) "") then
           let* fp := filepath_Abs (i_file i) in
           (if cow then createCoWImageFromBase fp p else WriteToFile fp p (i_decomp i)) >>>
           sret (imageVolumeArgs p cache)
         else if cow then createCoWImageFromBase (image_path i) p >>> sret (imageVolumeArgs p cache)
         else
           let* f := os_Open (image_path i) in
           with_file f (
             let* g := os_Create p in
             with_file g (io_Copy g f >>> sret (imageVolumeArgs p cache)))) h) p.
Proof.
  destruct (negb _); [|destruct cow].
  - apply makes_later. intros fp. apply makes_here; [|intros; grows].
    destruct cow; [apply makes_cow|apply makes_write].
  - apply makes_here; [apply makes_cow|intros; grows].
  - apply makes_later. intros f. apply makes_with_file, makes_here; [|intros; grows].
    intros h g h'. apply create_makes.
Qed.

(** A volume that was created successfully has its directory and its file. *)
Lemma create_leaves v dataDir lastPart d p a a' (h h' : H) :
  volume_file v dataDir lastPart = Some (d, p, a) ->
  create v dataDir lastPart h = (Ok a', h') ->
  a' = a /\ present h' p = true /\ isdir h' d = true.
Proof.
  intros Hv E.
  assert (Hs : exists body h1, isdir h1 d = true /\ makes body p /\ returns body a /\
    preserves hle body /\
    match os_Stat p h1 with
    | (Exists _, h2) => (Ok a, h2)
    | (StatFailed e, h2) => (Err e, h2)
    | (NotExist, h2) => body h2
    end = (Ok a', h')).
  2:{ destruct Hs as (body & h1 & Hd & Hm & Hr & Hp & Es).
      destruct (lookup_or_make p a body h1 h' a' Hm Hr Hp Es) as (-> & Hpr & Hg).
      split_and!; [done..|]. by apply Hg. }
  destruct v; cbn [volume_file] in Hv; [injection Hv as <- <- <-..|done]; cbn [create] in E;
    unfold imageVolume_create, localDSVolume_create, rawVolume_create in E;
    apply sbind_ok in E as (vp & h1 & Em & E); apply makeVolumeDir_ok in Em as [-> Hd].
  - eexists _, h1. split; [exact Hd|]. split_and!; [| | |exact E].
    + apply image_body_makes.
    + clear E. repeat case_match; returns.
    + clear E. repeat case_match; grows.
  - eexists _, h1. split; [exact Hd|]. split_and!; [| | |exact E].
    + apply makes_here; [|intros; grows]. apply makes_run. by destruct (String.eqb _ _).
    + returns.
    + clear E. case_match; grows.
  - eexists _, h1. split; [exact Hd|]. split_and!; [| | |exact E].
    + apply makes_here; [|intros; grows]. by apply makes_run.
    + returns.
    + grows.
Qed.

(** A volume whose directory and file are there. *)
Lemma create_present v dataDir lastPart d p a (h : H) :
  volume_file v dataDir lastPart = Some (d, p, a) ->
  isdir h d = true -> present h p = true ->
  exists h1 b h2, os_MkdirAll d h = (Ok tt, h1) /\ os_Stat p h1 = (Exists b, h2) /\
    create v dataDir lastPart h = (Ok a, h2).
Proof.
  intros Hv Hd Hp. destruct (mkdir_again d h Hd) as [h1 E1].
  destruct (stat_present p h1) as [b E2]; [by eapply mkdir_grows|].
  destruct (os_Stat p h1) as [r h2] eqn:E3. cbn in E2. subst r.
  exists h1, b, h2. split_and!; [done..|]. by eapply create_existing.
Qed.

Lemma abs_again path (h h1 h2 : H) p :
  filepath_Abs path h = (Ok p, h1) -> (filepath_Abs path h2).1 = Ok p.
Proof.
  unfold filepath_Abs. destruct (rooted path); [by intros [= <- <-]|]. unfold sbind.
  pose proof (getwd_law h) as W1. pose proof (getwd_law h2) as W2.
  destruct (os_Getwd h) as [o1 k1], (os_Getwd h2) as [o2 k2]. cbn in W1, W2. subst.
  by intros [= <- <-].
Qed.

Lemma hostPath_again name path writable dataDir lastPart a (h h1 : H) :
  create (hostPathVolume name path writable) dataDir lastPart h = (Ok a, h1) ->
  exists h2, create (hostPathVolume name path writable) dataDir lastPart h1 = (Ok a, h2).
Proof.
  cbn [create]. unfold hostPathVolume_create. intros E. apply sbind_ok in E as (p & h0 & Ea & E).
  destruct (os_MkdirAll p h0) as [[[]| | |] h0'] eqn:Em; try done. injection E as <- <-.
  pose proof (abs_again path h h0 h0' p Ea) as Eb. unfold sbind.
  destruct (filepath_Abs path h0') as [o k] eqn:Ek. cbn in Eb. subst o.
  destruct (mkdir_again p k) as [k' Ek']; [|exists k'; by rewrite Ek'].
  eapply (abs_grows path); [exact Ek|]. by eapply mkdir_makes.
Qed.

Lemma create_again v dataDir lastPart a (h h1 : H) :
  create v dataDir lastPart h = (Ok a, h1) ->
  exists h2, create v dataDir lastPart h1 = (Ok a, h2) /\
    forall d p a', volume_file v dataDir lastPart = Some (d, p, a') ->
      exists k b, os_MkdirAll d h1 = (Ok tt, k) /\ os_Stat p k = (Exists b, h2).
Proof.
  intros E. destruct (volume_file v dataDir lastPart) as [[[d p] a0]|] eqn:Ev.
  - destruct (create_leaves _ _ _ _ _ _ _ _ _ Ev E) as (-> & Hp & Hd).
    destruct (create_present _ _ _ _ _ _ h1 Ev Hd Hp) as (k & b & h2 & E1 & Es & E2). exists h2.
    split; [done|]. intros ? ? ? [= <- <- <-]. by exists k, b.
  - destruct v; try done. apply hostPath_again in E as [h2 E2]. by exists h2.
Qed.

End CreateAgain.

(** ** A simulated host *)

(** The files and directories there are; copying can be made to fail. *)
Record simHost : Type := {
  sim_files : gset string;
  sim_dirs : gset string;
  sim_full : bool
}.

Definition sim_add_file (p : string) (h : simHost) : simHost :=
  {| sim_files := {[p]} ∪ sim_files h; sim_dirs := sim_dirs h; sim_full := sim_full h |}.
Definition sim_add_dir (d : string) (h : simHost) : simHost :=
  {| sim_files := sim_files h; sim_dirs := {[d]} ∪ sim_dirs h; sim_full := sim_full h |}.

(** The output of [qemu-img info] for a qcow2 file. *)
Definition sim_info : list Z :=
  [123; 34] ++ bytes_of_string "format" ++ [34; 58; 34] ++ bytes_of_string "qcow2" ++ [34; 125].

#[export] Instance simHost_Host : Host simHost := {|
  os_Stat p h := (if bool_decide (p ∈ sim_files h) then Exists false else NotExist, h);
  os_MkdirAll d h := (Ok tt, sim_add_dir d h);
  os_Getwd h := (Ok "/root", h);
  os_Open p h := (Ok 3%nat, h);
  os_Create p h := (Ok 4%nat, sim_add_file p h);
  os_OpenFile p h := (Ok 4%nat, sim_add_file p h);
  file_Close f h := h;
  io_Copy f g h := (if sim_full h then Err (errors_New "no space left on device") else Ok tt, h);
  gzip_NewReader f h := (Ok 5%nat, h);
  bzip2_NewReader f h := (Ok 5%nat, h);
  exec_Run c h := (Ok tt, match output_of c with Some p => sim_add_file p h | None => h end);
  exec_Output c h := (Ok sim_info, h)
|}.

Definition sim_present (h : simHost) (p : string) : bool := bool_decide (p ∈ sim_files h).
Definition sim_isdir (h : simHost) (d : string) : bool := bool_decide (d ∈ sim_dirs h).

Lemma sim_grows h h' :
  sim_files h ⊆ sim_files h' -> sim_dirs h ⊆ sim_dirs h' -> grows sim_present sim_isdir h h'.
Proof.
  intros Hf Hd p. unfold sim_present, sim_isdir. rewrite !bool_decide_eq_true. set_solver.
Qed.

Lemma sim_add_file_present p h : sim_present (sim_add_file p h) p = true.
Proof. apply bool_decide_eq_true. set_solver. Qed.

#[export] Instance simHost_Laws : HostLaws simHost.
Proof.
  refine {| present := sim_present; isdir := sim_isdir; wd := "/root" |};
    unfold preserves; cbn.
  1-12: intros; simplify_eq/=; apply sim_grows; try case_match; cbn; set_solver.
  - intros p h Hp. unfold sim_present in Hp. rewrite Hp. by eexists.
  - intros p h b. unfold sim_present. by case_bool_decide.
  - done.
  - intros d h h' [= <-]. apply bool_decide_eq_true. set_solver.
  - intros d h _. by eexists.
  - intros p h f h' [= <- <-]. apply sim_add_file_present.
  - intros p h f h' [= <- <-]. apply sim_add_file_present.
  - intros c p h h' Hc [= <-]. rewrite Hc. apply sim_add_file_present.
Defined.

(** URLs that are taken as they are. *)
#[export] Instance plain_UrlOps : UrlOps := {| url := string; url_Parse := Ok; url_String := id |}.

Definition demo_volume (kind : NodeVolumeKind) : NodeVolumeSpec :=
  {| v_Kind := kind; v_Name := "data"; v_Image := "ubuntu"; v_UserData := "seed.yml";
     v_NetworkConfig := ""; v_Size := "10G"; v_Path := "/data"; v_CopyOnWrite := false;
     v_Cache := ""; v_Format := ""; v_VG := ""; v_Writable := false; v_DeviceClass := "ssd" |}.

Definition demo_classes : list DeviceClassSpec :=
  [{| dc_Kind := "DeviceClass"; dc_Name := "ssd"; dc_Path := "/mnt/ssd" |}].

Definition demo_images : list ImageSpec :=
  [{| im_Kind := "Image"; im_Name := "ubuntu"; im_URL := ""; im_File := "ubuntu.img.gz";
      im_CompressionMethod := "gzip" |}].

Definition empty_host : simHost := {| sim_files := ∅; sim_dirs := ∅; sim_full := false |}.

(** ** Properties *)

(** C21: what a volume specification that validation accepts becomes.  Validation works on
    copies and its defaults are lost, but construction fills in the same defaults.  The
    result is exactly the described volume, with the default cache and format where none
    is given, in the directory of the last device class of its name, and for an image
    volume with the first image of the name: its URL parsed if there is one, its file,
    and the decompressor of its compression method.  There is an error exactly when there
    is no device class or no image of the name, or that image has a URL that cannot be
    parsed or an unknown compression method; validation does not look at these. *)
Theorem valid_volume_built `{!UrlOps} (v : NodeVolumeSpec) (imageSpecs : list ImageSpec)
  (deviceClassSpecs : list DeviceClassSpec) (v' : NodeVolumeSpec) :
  NodeVolumeSpec_validate v = Ok v' -> Forall device_class_ok deviceClassSpecs -> url_total ->
  newNodeVolume v imageSpecs deviceClassSpecs = newNodeVolume v' imageSpecs deviceClassSpecs /\
  match newNodeVolume v imageSpecs deviceClassSpecs with
  | Ok vol => exists dir, class_directory (v_DeviceClass v) deviceClassSpecs dir /\ described v imageSpecs dir vol
  | Err _ => volume_unusable v imageSpecs deviceClassSpecs
  | _ => False
  end /\
  (volume_unusable v imageSpecs deviceClassSpecs ->
   exists e, newNodeVolume v imageSpecs deviceClassSpecs = Err e).
Proof.
  intros Hv Hdc Hu. apply NodeVolumeSpec_validate_ok in Hv as [Hv ->].
  pose proof (newNodeVolume_cases v imageSpecs deviceClassSpecs Hv Hdc Hu) as Hc.
  split_and!; [symmetry; apply newNodeVolume_defaults|exact Hc|]. intros Hx.
  destruct (newNodeVolume v imageSpecs deviceClassSpecs) as [vol|e| |]; [|by exists e|done..].
  destruct Hc as (dir & Hdir & Hvol). by destruct (described_usable _ _ _ _ _ Hdir Hvol Hv).
Qed.

(** An image volume, and one whose image is missing. *)
Lemma valid_volume_built_witness :
  (exists vol dir, newNodeVolume (demo_volume NodeVolumeKindImage) demo_images demo_classes = Ok vol /\
    class_directory "ssd" demo_classes dir /\ described (demo_volume NodeVolumeKindImage) demo_images dir vol) /\
  exists e, newNodeVolume (demo_volume NodeVolumeKindImage) [] demo_classes = Err e.
Proof.
  assert (Hu : url_total) by done.
  assert (Hdc : Forall device_class_ok demo_classes) by (constructor; [by split|constructor]).
  split.
  - destruct (valid_volume_built (demo_volume NodeVolumeKindImage) demo_images demo_classes
      (volume_defaults (demo_volume NodeVolumeKindImage)) eq_refl Hdc Hu) as (_ & H & _).
    destruct (newNodeVolume _ _ _) as [vol|e| |] eqn:E; [|discriminate E..].
    destruct H as (dir & H1 & H2). exists vol, dir. split; [reflexivity|]. split; [exact H1|exact H2].
  - destruct (valid_volume_built (demo_volume NodeVolumeKindImage) [] demo_classes
      (volume_defaults (demo_volume NodeVolumeKindImage)) eq_refl Hdc Hu) as (_ & _ & H).
    apply H. right; left. split; [reflexivity|]. cbn. set_solver +.
Defined.

(** C20: creating a volume is idempotent.  On a host that behaves as documented, a
    volume of any kind that was created once is found again by the next creation,
    which succeeds with the same arguments for QEMU; for a volume with a file that
    second creation makes the directory and looks the file up, and does nothing else
    on the host: no command runs and the file is not opened. *)
Theorem volume_create_idempotent {H : Type} `{!Host H} {L : HostLaws H} `{!UrlOps}
  (v : nodeVolume) (dataDir lastPart : string) (a : volumeArgs) (h h1 : H) :
  create v dataDir lastPart h = (Ok a, h1) ->
  exists h2, create v dataDir lastPart h1 = (Ok a, h2) /\
    forall d p a', volume_file v dataDir lastPart = Some (d, p, a') ->
      exists k b, os_MkdirAll d h1 = (Ok tt, k) /\ os_Stat p k = (Exists b, h2).
Proof. apply create_again. Qed.

Lemma volume_create_idempotent_witness :
  let v := localDSVolume "seed" "none" "seed.yml" "network.yml" "/mnt/ssd" in
  exists h1 h2,
    create v "/var/placemat" "volumes/boot-0" empty_host =
      (Ok (localDSVolumeArgs "/mnt/ssd/volumes/boot-0/seed.img" "none"), h1) /\
    create v "/var/placemat" "volumes/boot-0" h1 =
      (Ok (localDSVolumeArgs "/mnt/ssd/volumes/boot-0/seed.img" "none"), h2).
Proof.
  intros v. destruct (create v "/var/placemat" "volumes/boot-0" empty_host) as [o h1] eqn:E.
  assert (Eo : o = Ok (localDSVolumeArgs "/mnt/ssd/volumes/boot-0/seed.img" "none")).
  { change o with (o, h1).1. rewrite <- E. vm_compute. reflexivity. }
  subst o. exists h1.
  destruct (volume_create_idempotent v "/var/placemat" "volumes/boot-0" _ empty_host h1 E)
    as (h2 & E2 & _).
  exists h2. split; [reflexivity|exact E2].
Defined.

(** A copy that fails leaves its file behind, and the next creation takes that
    partial copy for the volume. *)
Theorem partial_copy_reused {H : Type} `{!Host H} {L : HostLaws H} `{!UrlOps}
  (name cache dir dataDir lastPart d p : string) (i : image) (a : volumeArgs) (e : error)
  (f g : file) (h h1 h2 h3 h4 h5 : H) :
  let v := imageVolume name cache i false dir in
  i_file i = "" -> volume_file v dataDir lastPart = Some (d, p, a) ->
  os_MkdirAll d h = (Ok tt, h1) -> os_Stat p h1 = (NotExist, h2) ->
  os_Open (image_path i) h2 = (Ok f, h3) -> os_Create p h3 = (Ok g, h4) ->
  io_Copy g f h4 = (Err e, h5) ->
  let h' := file_Close f (file_Close g h5) in
  create v dataDir lastPart h = (Err e, h') /\
  exists h'', create v dataDir lastPart h' = (Ok a, h'').
Proof.
  intros v Hf Hv Em Es Eo Ec Ecp h'. split.
  - cbn [volume_file v] in Hv. injection Hv as <- <- <-. cbn [create v].
    unfold imageVolume_create, sbind, makeVolumeDir. rewrite Em. cbn [obind]. rewrite Es, Hf.
    cbn [String.eqb negb]. unfold sbind. rewrite Eo. unfold with_file. rewrite Ec.
    cbn [fst snd]. by rewrite Ecp.
  - destruct (create_present v dataDir lastPart d p a h' Hv) as (? & ? & h'' & _ & _ & E);
      [| |by exists h''].
    + do 2 apply close_grows. eapply copy_grows; [exact Ecp|]. eapply create_grows; [exact Ec|].
      eapply open_grows; [exact Eo|]. pose proof (stat_grows p h1) as Hg. rewrite Es in Hg.
      apply Hg. by eapply mkdir_makes.
    + do 2 apply close_grows. eapply copy_grows; [exact Ecp|]. by eapply create_makes.
Qed.
