(* ===== verification/Qemu.v ===== *)
(** * The QEMU command line (vm/qemu.go)

    How a node's configuration becomes the argument list of QEMU: processors,
    memory and NUMA nodes, firmware, SMBIOS, network devices with generated MAC
    addresses, volumes, TPM and sockets. *)

From S2P Require Import Prelude GoCrypto Sha1 GoPath Host Types Volume.

Local Open Scope Z_scope.
Local Open Scope go_scope.

(** ** Structures *)

Record smBIOSConfig : Type := { manufacturer : string; product : string; serial : string }.

Record smpSpec : Type := {
  cpus : Z;
  cores : Z;
  threads : Z;
  dies : Z;
  sockets : Z;
  maxCpus : Z
}.

Record numaSpec : Type := { nodes : Z }.

Record tapInfo : Type := { tap : string; bridge : string; mtu : Z }.

Record qemu : Type := {
  q_name : string;
  q_taps : list tapInfo;
  q_volumes : list volumeArgs;
  q_ignitionFile : string;
  q_smp : smpSpec;
  q_memory : string;
  q_numa : numaSpec;
  q_networkDeviceQueue : Z;
  q_uefi : bool;
  q_tpm : bool;
  q_smbios : smBIOSConfig
}.

Definition defaultOVMFCodePath : string := "/usr/share/OVMF/OVMF_CODE.fd".
Definition defaultOVMFVarsPath : string := "/usr/share/OVMF/OVMF_VARS.fd".
(** [int64(defaultRebootTimeout/time.Millisecond)] *)
Definition defaultRebootTimeout_ms : Z := 30000.

(** [%d] *)
Definition itoa (z : Z) : string := pretty z.

(** [%x] of a byte array *)
Definition hex_string (l : list Z) : string := string_of_bytes (hex_Encode l).

(** [int] arithmetic *)
Definition int64 (z : Z) : Z := (z + 2 ^ 63) mod 2 ^ 64 - 2 ^ 63.

(** ** MAC addresses *)

Class macGenerator (G : Type) : Type := { generate : st G string }.

Definition vendorPrefix : string := "52:54:00".

Definition macGeneratorForKVM {G : Type} `{!Rand G} : macGenerator G := {|
  generate := fun g =>
    match Rand_Read 3 g with
    | (Ok buf, g') =>
        (Ok (vendorPrefix +:+ ":" +:+ hex_string [nth 0 buf 0] +:+ ":" +:+ hex_string [nth 1 buf 0]
               +:+ ":" +:+ hex_string [nth 2 buf 0]), g')
    | (Err e, g') => (Panic (PanicMsg "crypto/rand"), g')
    | (Panic p, g') => (Panic p, g')
    | (Diverge, g') => (Diverge, g')
    end
|}.

(** The generator on an entropy stream: its state is the position. *)
Definition macGeneratorOf (ent : entropy) : macGenerator nat :=
  macGeneratorForKVM (Rand0 := {| Rand_Read := rand_Read ent |}).

(** ** Parameters *)

(** [if n != 0 { s += fmt.Sprintf(",name=%d", n) }] *)
Definition smp_param (name : string) (n : Z) : string :=
  if n =? 0 then "" else "," +:+ name +:+ "=" +:+ itoa n.

Definition smp_params (s : smpSpec) : string :=
  itoa (cpus s) +:+ smp_param "cores" (cores s) +:+ smp_param "threads" (threads s) +:+
  smp_param "dies" (dies s) +:+ smp_param "sockets" (sockets s) +:+
  smp_param "maxcpus" (maxCpus s).

(** The first and last CPU of each NUMA node. *)
Definition numa_ranges (cpus nodes : Z) : list (Z * Z) :=
  let cpuPerNode := Z.quot cpus nodes in
  map (fun i => (cpuPerNode * i, cpuPerNode * (i + 1) - 1)) (seqZ 0 nodes).

Definition numa_param (r : Z * Z) : list string :=
  ["-numa"; "node,cpus=" +:+ itoa r.1 +:+ "-" +:+ itoa r.2].

Definition set_serial (c : qemu) (s : string) : qemu :=
  {| q_name := q_name c; q_taps := q_taps c; q_volumes := q_volumes c;
     q_ignitionFile := q_ignitionFile c; q_smp := q_smp c; q_memory := q_memory c;
     q_numa := q_numa c; q_networkDeviceQueue := q_networkDeviceQueue c; q_uefi := q_uefi c;
     q_tpm := q_tpm c;
     q_smbios := {| manufacturer := manufacturer (q_smbios c); product := product (q_smbios c);
                    serial := s |} |}.

(** [fmt.Sprintf("%x", sha1.Sum([]byte(name)))] *)
Definition default_serial (name : string) : string := hex_string (sha1 (bytes_of_string name)).

(** [qemuParams]; the receiver is a pointer and keeps the serial it fills in. *)
Definition qemuParams (c : qemu) (r : Runtime) : list string * qemu :=
  let params := ["-enable-kvm"] in
  let params :=
    if String.eqb (q_ignitionFile c) "" then params
    else params ++ ["-fw_cfg"; "opt/com.coreos/config,file=" +:+ q_ignitionFile c] in
  let params :=
    if cpus (q_smp c) =? 0 then params else params ++ ["-smp"; smp_params (q_smp c)] in
  let params :=
    if String.eqb (q_memory c) "" then params else params ++ ["-m"; q_memory c] in
  let params :=
    if nodes (q_numa c) =? 0 then params
    else params ++ flat_map numa_param (numa_ranges (cpus (q_smp c)) (nodes (q_numa c))) in
  let params :=
    if Graphic r then params
    else params ++ ["-nographic"; "-serial";
                    "unix:" +:+ socketPath r (q_name c) +:+ ",server,nowait"] in
  let params :=
    if q_uefi c then
      params ++ ["-drive"; "if=pflash,file=" +:+ defaultOVMFCodePath +:+ ",format=raw,readonly";
                 "-drive"; "if=pflash,file=" +:+ nvramPath r (q_name c) +:+ ",format=raw"]
    else params in
  let smbios :=
    "type=1" +:+
    (if String.eqb (manufacturer (q_smbios c)) "" then ""
     else ",manufacturer=" +:+ manufacturer (q_smbios c)) +:+
    (if String.eqb (product (q_smbios c)) "" then "" else ",product=" +:+ product (q_smbios c)) in
  let c := if String.eqb (serial (q_smbios c)) "" then set_serial c (default_serial (q_name c))
           else c in
  (params ++ ["-smbios"; smbios +:+ ",serial=" +:+ serial (q_smbios c)], c).

(** [strings.Join(l, ",")] *)
Fixpoint join_comma (l : list string) : string :=
  match l with
  | [] => ""
  | [s] => s
  | s :: l' => s +:+ "," +:+ join_comma l'
  end.

Section Command.
Context {G : Type} `{!macGenerator G} (vhostNetSupported : bool).

(** The options of a network device with address [mac]. *)
Definition net_options (c : qemu) (t : tapInfo) (mac : string) : list string :=
  let netdev := "tap,id=" +:+ bridge t +:+ ",ifname=" +:+ tap t +:+ ",script=no,downscript=no" +:+
                (if vhostNetSupported then ",vhost=on" else "") +:+
                (if 1 <? q_networkDeviceQueue c
                 then ",queues=" +:+ itoa (q_networkDeviceQueue c) else "") in
  let devParams :=
    ["virtio-net-pci"; "host_mtu=" +:+ itoa (mtu t); "netdev=" +:+ bridge t; "mac=" +:+ mac] ++
    (if 1 <? q_networkDeviceQueue c
     then ["mq=on"; "vectors=" +:+ itoa (int64 (2 * q_networkDeviceQueue c + 2))] else []) ++
    (if q_uefi c then ["romfile="] else []) in
  ["-netdev"; netdev; "-device"; join_comma devParams].

Definition tap_params (c : qemu) (t : tapInfo) : st G (list string) :=
  let* mac := generate in sret (net_options c t mac).

(** The loop over the taps. *)
Fixpoint taps_params (c : qemu) (ts : list tapInfo) (params : list string) : st G (list string) :=
  match ts with
  | [] => sret params
  | t :: ts' => let* p := tap_params c t in taps_params c ts' (params ++ p)
  end.

(** The options after the volumes. *)
Definition tail_params (c : qemu) (r : Runtime) : list string :=
  (if q_tpm c then
     ["-chardev"; "socket,id=chrtpm,path=" +:+ swtpmSocketPath r (q_name c);
      "-tpmdev"; "emulator,id=tpm0,chardev=chrtpm"; "-device"; "tpm-tis,tpmdev=tpm0"]
   else []) ++
  ["-boot"; "reboot-timeout=" +:+ itoa defaultRebootTimeout_ms] ++
  ["-chardev"; "socket,id=char0,path=" +:+ guestSocketPath r (q_name c) +:+ ",server,nowait";
   "-device"; "virtio-serial";
   "-device"; "virtserialport,chardev=char0,name=placemat";
   "-qmp"; "unix:" +:+ qmpSocketPath r (q_name c) +:+ ",server,nowait";
   "-object"; "rng-random,id=rng0,filename=/dev/urandom";
   "-device"; "virtio-rng-pci,rng=rng0";
   "-cpu"; "host"].

Definition command (c : qemu) (r : Runtime) : st G (list string * qemu) :=
  let (params, c) := qemuParams c r in
  let* params := taps_params c (q_taps c) params in
  let params := params ++ flat_map args (q_volumes c) in
  let params := params ++ tail_params c r in
  sret ("qemu-system-x86_64" :: params, c).

End Command.

(** ** The commands of qemu_test.go *)

Definition macGeneratorMock : macGenerator unit := {| generate := sret "placemat" |}.

Definition test_runtime : Runtime :=
  {| Force := false; Graphic := false; RunDir := "/temp/run"; DataDir := "/temp/data";
     ListenAddr := "127.0.0.1:10808"; ImageCache := NewCache "/temp/cache" |}.

Definition test_qemu (smp : smpSpec) (numa : Z) (uefi tpm : bool) : qemu :=
  {| q_name := "boot-0";
     q_taps := [{| tap := "pm_tap1"; bridge := "r0-node1"; mtu := 1460 |};
                {| tap := "pm_tap2"; bridge := "r0-node2"; mtu := 1460 |}];
     q_volumes := [imageVolumeArgs "/temp/data/root.img" "writeback";
                   localDSVolumeArgs "/temp/data/seed.img" "none";
                   hostPathVolumeArgs "/temp/shared-dir" "" false "sabakan"];
     q_ignitionFile := ""; q_smp := smp; q_memory := "2G"; q_numa := {| nodes := numa |};
     q_networkDeviceQueue := 16; q_uefi := uefi; q_tpm := tpm;
     q_smbios := {| manufacturer := ""; product := "";
                    serial := "fb8f2417d0b4db30050719c31ce02a2e8141bbd8" |} |}.

Definition joined (o : outcome (list string * qemu) * unit) : string :=
  match o with
  | (Ok (l, _), _) => fold_right (fun s acc => s +:+ " " +:+ acc) "" l
  | _ => ""
  end.

Example command_test_smp :
  joined (command (macGenerator0 := macGeneratorMock) true
    (test_qemu {| cpus := 72; cores := 3; threads := 2; dies := 6; sockets := 4; maxCpus := 100 |}
       6 false false) test_runtime tt) =
  "qemu-system-x86_64 -enable-kvm -smp 72,cores=3,threads=2,dies=6,sockets=4,maxcpus=100 -m 2G " +:+
  "-numa node,cpus=0-11 -numa node,cpus=12-23 -numa node,cpus=24-35 -numa node,cpus=36-47 " +:+
  "-numa node,cpus=48-59 -numa node,cpus=60-71 -nographic " +:+
  "-serial unix:/temp/run/boot-0.socket,server,nowait " +:+
  "-smbios type=1,serial=fb8f2417d0b4db30050719c31ce02a2e8141bbd8 " +:+
  "-netdev tap,id=r0-node1,ifname=pm_tap1,script=no,downscript=no,vhost=on,queues=16 " +:+
  "-device virtio-net-pci,host_mtu=1460,netdev=r0-node1,mac=placemat,mq=on,vectors=34 " +:+
  "-netdev tap,id=r0-node2,ifname=pm_tap2,script=no,downscript=no,vhost=on,queues=16 " +:+
  "-device virtio-net-pci,host_mtu=1460,netdev=r0-node2,mac=placemat,mq=on,vectors=34 " +:+
  "-drive if=virtio,cache=writeback,aio=threads,file=/temp/data/root.img " +:+
  "-drive if=virtio,cache=none,aio=native,format=qcow2,file=/temp/data/seed.img " +:+
  "-virtfs local,path=/temp/shared-dir,mount_tag=sabakan,security_model=none,readonly " +:+
  "-boot reboot-timeout=30000 -chardev socket,id=char0,path=/temp/run/boot-0.guest,server,nowait " +:+
  "-device virtio-serial -device virtserialport,chardev=char0,name=placemat " +:+
  "-qmp unix:/temp/run/boot-0.qmp,server,nowait " +:+
  "-object rng-random,id=rng0,filename=/dev/urandom -device virtio-rng-pci,rng=rng0 -cpu host ".
Proof. vm_compute. reflexivity. Qed.

Example command_test_uefi :
  joined (command (macGenerator0 := macGeneratorMock) true
    (test_qemu {| cpus := 8; cores := 0; threads := 0; dies := 0; sockets := 0; maxCpus := 0 |}
       0 true true) test_runtime tt) =
  "qemu-system-x86_64 -enable-kvm -smp 8 -m 2G -nographic " +:+
  "-serial unix:/temp/run/boot-0.socket,server,nowait " +:+
  "-drive if=pflash,file=/usr/share/OVMF/OVMF_CODE.fd,format=raw,readonly " +:+
  "-drive if=pflash,file=/temp/data/nvram/boot-0.fd,format=raw " +:+
  "-smbios type=1,serial=fb8f2417d0b4db30050719c31ce02a2e8141bbd8 " +:+
  "-netdev tap,id=r0-node1,ifname=pm_tap1,script=no,downscript=no,vhost=on,queues=16 " +:+
  "-device virtio-net-pci,host_mtu=1460,netdev=r0-node1,mac=placemat,mq=on,vectors=34,romfile= " +:+
  "-netdev tap,id=r0-node2,ifname=pm_tap2,script=no,downscript=no,vhost=on,queues=16 " +:+
  "-device virtio-net-pci,host_mtu=1460,netdev=r0-node2,mac=placemat,mq=on,vectors=34,romfile= " +:+
  "-drive if=virtio,cache=writeback,aio=threads,file=/temp/data/root.img " +:+
  "-drive if=virtio,cache=none,aio=native,format=qcow2,file=/temp/data/seed.img " +:+
  "-virtfs local,path=/temp/shared-dir,mount_tag=sabakan,security_model=none,readonly " +:+
  "-chardev socket,id=chrtpm,path=/temp/run/boot-0/swtpm.socket " +:+
  "-tpmdev emulator,id=tpm0,chardev=chrtpm -device tpm-tis,tpmdev=tpm0 " +:+
  "-boot reboot-timeout=30000 -chardev socket,id=char0,path=/temp/run/boot-0.guest,server,nowait " +:+
  "-device virtio-serial -device virtserialport,chardev=char0,name=placemat " +:+
  "-qmp unix:/temp/run/boot-0.qmp,server,nowait " +:+
  "-object rng-random,id=rng0,filename=/dev/urandom -device virtio-rng-pci,rng=rng0 -cpu host ".
Proof. vm_compute. reflexivity. Qed.

(** ** Lemmas *)

Lemma seqZ_lookup n i : (i < Z.to_nat n)%nat -> seqZ 0 n !! i = Some (Z.of_nat i).
Proof. intros H. apply lookup_seqZ. lia. Qed.

Lemma numa_ranges_spec cpus nodes (i : nat) rg :
  numa_ranges cpus nodes !! i = Some rg <->
  (i < Z.to_nat nodes)%nat /\
  rg = (Z.quot cpus nodes * Z.of_nat i, Z.quot cpus nodes * (Z.of_nat i + 1) - 1).
Proof.
  unfold numa_ranges. rewrite list_lookup_fmap_Some. split.
  - intros (x & -> & Hx). apply lookup_seqZ in Hx as [-> Hi]. split; [lia|]. f_equal; lia.
  - intros [Hi ->]. exists (Z.of_nat i). split; [done|by apply seqZ_lookup].
Qed.

(** Which CPUs the NUMA nodes have. *)
Lemma numa_ranges_cover cpus nodes x :
  0 <= cpus -> 0 < nodes ->
  (exists rg, rg ∈ numa_ranges cpus nodes /\ rg.1 <= x <= rg.2) <-> 0 <= x < nodes * (cpus / nodes).
Proof.
  intros Hc Hn. rewrite <- Z.quot_div_nonneg by lia. set (k := Z.quot cpus nodes).
  assert (Hk : 0 <= k) by (apply Z.quot_pos; lia). split.
  - intros (rg & Hin & Hx). apply list_elem_of_lookup in Hin as [i Hi].
    apply numa_ranges_spec in Hi as [Hi ->]. fold k in Hx. cbn in Hx. nia.
  - intros Hx. assert (k <> 0) by (intros ->; lia).
    exists (k * (x / k), k * (x / k + 1) - 1). cbn. pose proof (Z.div_mod x k).
    pose proof (Z.mod_pos_bound x k). split; [|lia].
    apply list_elem_of_lookup. exists (Z.to_nat (x / k)). apply numa_ranges_spec.
    assert (0 <= x / k < nodes) by (split; [apply Z.div_pos; lia|apply Z.div_lt_upper_bound; lia]).
    rewrite Z2Nat.id by lia. fold k. split; [lia|done].
Qed.

(** Where the NUMA options are. *)
Lemma qemuParams_numa c r :
  nodes (q_numa c) <> 0 ->
  exists before after, (qemuParams c r).1 =
    before ++ flat_map numa_param (numa_ranges (cpus (q_smp c)) (nodes (q_numa c))) ++ after.
Proof.
  intros Hn. unfold qemuParams. rewrite (proj2 (Z.eqb_neq _ _) Hn). cbn [fst].
  destruct (Graphic r), (q_uefi c); rewrite <- ?app_assoc; by eexists _, _.
Qed.

(** The address generated at entropy position [pos]. *)
Definition kvm_mac (ent : entropy) (pos : nat) : string :=
  let buf := ent_bytes ent pos 3 in
  "52:54:00" +:+ ":" +:+ hex_string [nth 0 buf 0] +:+ ":" +:+ hex_string [nth 1 buf 0] +:+ ":" +:+
  hex_string [nth 2 buf 0].

Lemma generate_kvm ent pos :
  ent_fail ent pos = None ->
  generate (macGenerator := macGeneratorOf ent) pos = (Ok (kvm_mac ent pos), (pos + 3)%nat).
Proof. intros E. cbn. unfold rand_Read. by rewrite E. Qed.

Lemma hex_digit_inj a b : 0 <= a < 16 -> 0 <= b < 16 -> hex_digit a = hex_digit b -> a = b.
Proof. unfold hex_digit. intros. repeat case_match; bools; lia. Qed.

Lemma hex_byte_inj a b :
  is_u8 a = true -> is_u8 b = true -> hex_Encode [a] = hex_Encode [b] -> a = b.
Proof.
  rewrite !is_u8_spec. intros Ha Hb [= E1 E2]. apply hex_digit_inj in E1; [|dlia..].
  apply hex_digit_inj in E2; [|dlia..]. dlia.
Qed.

(** The bytes of an address. *)
Lemma kvm_mac_bytes ent pos :
  exists a b c, ent_bytes ent pos 3 = [a; b; c] /\
    is_u8 a = true /\ is_u8 b = true /\ is_u8 c = true /\
    bytes_of_string (kvm_mac ent pos) =
      bytes_of_string vendorPrefix ++ 58 :: hex_Encode [a] ++ 58 :: hex_Encode [b] ++ 58 :: hex_Encode [c].
Proof.
  unfold kvm_mac. pose proof (ent_bytes_length ent pos 3) as Hl.
  pose proof (ent_bytes_bytes ent pos 3) as Hb.
  destruct (ent_bytes ent pos 3) as [|a [|b [|c [|]]]]; try done. cbn in Hb. bools.
  exists a, b, c. split_and!; [done..|]. cbn [nth]. unfold hex_string.
  rewrite !bytes_of_string_app, !bytes_of_string_of_bytes; [done|..];
    apply hex_digits_bytes, hex_Encode_hex; cbn; apply andb_true_intro; done.
Qed.

Section Layout.
Context (ent : entropy) (vhost : bool).
Hypothesis (no_fail : forall i, ent_fail ent i = None).

Lemma taps_params_layout c ts params pos :
  taps_params (macGenerator0 := macGeneratorOf ent) vhost c ts params pos =
  (Ok (params ++ concat (imap (fun i t => net_options vhost c t (kvm_mac ent (pos + 3 * i))) ts)),
   (pos + 3 * length ts)%nat).
Proof.
  revert params pos. induction ts as [|t ts IH]; intros params pos.
  - cbn. rewrite app_nil_r. f_equal. lia.
  - cbn [taps_params]. unfold tap_params, sbind. rewrite generate_kvm by done.
    cbn [sret]. rewrite IH. cbn [imap concat length]. rewrite <- app_assoc.
    replace (pos + 3 * 0)%nat with pos by lia. f_equal; [|lia]. do 4 f_equal.
    apply imap_ext. intros i x _. cbn. do 2 f_equal. lia.
Qed.

Lemma net_options_serial c s t mac : net_options vhost (set_serial c s) t mac = net_options vhost c t mac.
Proof. done. Qed.

End Layout.

(** The serial number QEMU is given. *)
Definition effective_serial (c : qemu) : string :=
  if String.eqb (serial (q_smbios c)) "" then default_serial (q_name c) else serial (q_smbios c).

Lemma qemuParams_serial c r :
  (qemuParams c r).2 = set_serial c (effective_serial c) /\
  exists before smbios,
    (qemuParams c r).1 = before ++ ["-smbios"; smbios +:+ ",serial=" +:+ effective_serial c].
Proof.
  unfold qemuParams, effective_serial. cbn [fst snd].
  destruct (String.eqb (serial (q_smbios c)) "");
    (split; [|eexists _, _; cbn [serial q_smbios set_serial]; reflexivity]); [done|].
  by destruct c as [? ? ? ? ? ? ? ? ? ? []].
Qed.

Lemma default_serial_hex name :
  String.length (default_serial name) = 40%nat /\
  forallb is_hex_digit (bytes_of_string (default_serial name)) = true.
Proof.
  pose proof (hex_Encode_hex _ (sha1_bytes (bytes_of_string name))) as Hh.
  assert (Hs : forall l, String.length (string_of_bytes l) = length l).
  { induction l; cbn; congruence. }
  unfold default_serial, hex_string. rewrite Hs, hex_Encode_length, sha1_length.
  split; [done|]. by rewrite bytes_of_string_of_bytes by by apply hex_digits_bytes.
Qed.

(** The serial number of the node in qemu_test.go is the default one. *)
Example default_serial_boot0 : default_serial "boot-0" = "fb8f2417d0b4db30050719c31ce02a2e8141bbd8".
Proof. vm_compute. reflexivity. Qed.

(** ** How QEMU reads the command line *)

(** Two of the options stand alone, the others take the next word, whatever it is. *)
Definition lone_options : list string := ["-enable-kvm"; "-nographic"].

Fixpoint read_options (l : list string) : option (list (string * string)) :=
  match l with
  | [] => Some []
  | o :: l' =>
      if bool_decide (o ∈ lone_options) then cons (o, "") <$> read_options l'
      else match l' with v :: l'' => cons (o, v) <$> read_options l'' | [] => None end
  end.

(** The values given for an option, in order. *)
Definition values (name : string) (opts : list (string * string)) : list string :=
  map snd (filter (fun o => o.1 = name) opts).

(** The parts of a value: those [key=v] that are given. *)
Definition parts (l : list (string * option string)) : list string :=
  omap (fun p => (fun v => p.1 +:+ "=" +:+ v) <$> p.2) l.
Definition nonzero (n : Z) : option string := if n =? 0 then None else Some (itoa n).
Definition nonempty (s : string) : option string := if String.eqb s "" then None else Some s.
Definition given_if {A : Type} (b : bool) (a : A) : option A := if b then Some a else None.

(** *** What a machine needs *)

Fixpoint assoc (name : string) (l : list (string * list string)) : list string :=
  match l with
  | [] => []
  | (n, vs) :: l' => if String.eqb name n then vs else assoc name l'
  end.

(** The values of an option besides those of the network devices and volumes. *)
Definition machine_values (c : qemu) (r : Runtime) (name : string) : list string :=
  let only_if (b : bool) (l : list string) := if b then l else [] in
  let k := Z.quot (cpus (q_smp c)) (nodes (q_numa c)) in
  assoc name
  [("-enable-kvm", [""]);
   ("-fw_cfg", option_list ((fun f => "opt/com.coreos/config,file=" +:+ f) <$> nonempty (q_ignitionFile c)));
   ("-smp", only_if (negb (cpus (q_smp c) =? 0))
      [join_comma (itoa (cpus (q_smp c)) ::
         parts [("cores", nonzero (cores (q_smp c))); ("threads", nonzero (threads (q_smp c)));
                ("dies", nonzero (dies (q_smp c))); ("sockets", nonzero (sockets (q_smp c)));
                ("maxcpus", nonzero (maxCpus (q_smp c)))])]);
   ("-m", option_list (nonempty (q_memory c)));
   ("-numa", map (fun i => "node,cpus=" +:+ itoa (k * i) +:+ "-" +:+ itoa (k * (i + 1) - 1))
               (seqZ 0 (nodes (q_numa c))));
   ("-nographic", only_if (negb (Graphic r)) [""]);
   ("-serial", only_if (negb (Graphic r)) ["unix:" +:+ socketPath r (q_name c) +:+ ",server,nowait"]);
   ("-drive", only_if (q_uefi c)
      ["if=pflash,file=/usr/share/OVMF/OVMF_CODE.fd,format=raw,readonly";
       "if=pflash,file=" +:+ nvramPath r (q_name c) +:+ ",format=raw"]);
   ("-smbios",
      [join_comma ("type=1" ::
         parts [("manufacturer", nonempty (manufacturer (q_smbios c)));
                ("product", nonempty (product (q_smbios c))); ("serial", Some (effective_serial c))])]);
   ("-chardev", only_if (q_tpm c) ["socket,id=chrtpm,path=" +:+ swtpmSocketPath r (q_name c)] ++
      ["socket,id=char0,path=" +:+ guestSocketPath r (q_name c) +:+ ",server,nowait"]);
   ("-tpmdev", only_if (q_tpm c) ["emulator,id=tpm0,chardev=chrtpm"]);
   ("-device", only_if (q_tpm c) ["tpm-tis,tpmdev=tpm0"] ++
      ["virtio-serial"; "virtserialport,chardev=char0,name=placemat"; "virtio-rng-pci,rng=rng0"]);
   ("-boot", ["reboot-timeout=30000"]);
   ("-qmp", ["unix:" +:+ qmpSocketPath r (q_name c) +:+ ",server,nowait"]);
   ("-object", ["rng-random,id=rng0,filename=/dev/urandom"]);
   ("-cpu", ["host"])].

(** The two options of a network device. *)
Definition device_options (vhost : bool) (c : qemu) (t : tapInfo) (mac : string) : list (string * string) :=
  let queues := q_networkDeviceQueue c in
  let many := 1 <? queues in
  [("-netdev", join_comma ("tap" ::
      parts [("id", Some (bridge t)); ("ifname", Some (tap t)); ("script", Some "no");
             ("downscript", Some "no"); ("vhost", given_if vhost "on");
             ("queues", given_if many (itoa queues))]));
   ("-device", join_comma ("virtio-net-pci" ::
      parts [("host_mtu", Some (itoa (mtu t))); ("netdev", Some (bridge t)); ("mac", Some mac);
             ("mq", given_if many "on"); ("vectors", given_if many (itoa (int64 (2 * queues + 2))));
             ("romfile", given_if (q_uefi c) "")]))].

(** The option of a volume. *)
Definition volume_option (v : volumeArgs) : string * string :=
  let drive cache format path :=
    ("-drive", join_comma (parts
       [("if", Some "virtio"); ("cache", Some cache);
        ("aio", Some (if String.eqb cache "none" then "native" else "threads"));
        ("format", format); ("file", Some path)])) in
  match v with
  | imageVolumeArgs p cache => drive cache None p
  | localDSVolumeArgs p cache => drive cache (Some "qcow2") p
  | rawVolumeArgs p cache format => drive cache (Some format) p
  | hostPathVolumeArgs p cache writable mountTag =>
      ("-virtfs", join_comma ("local" ::
         parts [("path", Some p); ("mount_tag", Some mountTag); ("security_model", Some "none")] ++
         (if writable then [] else ["readonly"])))
  end.

(** *** Lemmas *)

(** The words of a list of options. *)
Definition words (opts : list (string * string)) : list string :=
  flat_map (fun o => if bool_decide (o.1 ∈ lone_options) then [o.1] else [o.1; o.2]) opts.

Lemma read_words opts :
  Forall (fun o => o.1 ∈ lone_options -> o.2 = "") opts -> read_options (words opts) = Some opts.
Proof.
  induction 1 as [|[o v] opts Ho _ IH]; [done|]. cbn [words flat_map fst snd] in *.
  fold (words opts). destruct (decide (o ∈ lone_options)) as [Hl|Hl].
  - rewrite bool_decide_true by done. cbn [app read_options]. rewrite bool_decide_true by done.
    by rewrite IH, (Ho Hl).
  - rewrite bool_decide_false by done. cbn [app read_options]. rewrite bool_decide_false by done. by rewrite IH.
Qed.

Lemma words_app l1 l2 : words (l1 ++ l2) = words l1 ++ words l2.
Proof. apply flat_map_app. Qed.

Lemma values_app name l1 l2 : values name (l1 ++ l2) = values name l1 ++ values name l2.
Proof. unfold values. by rewrite filter_app, map_app. Qed.

Lemma join_comma_cons s t l : join_comma (s :: t :: l) = s +:+ "," +:+ join_comma (t :: l).
Proof. done. Qed.

(** A value grows by its parts. *)
Lemma join_comma_parts s l :
  join_comma (s :: parts l) =
  s +:+ foldr (fun p acc => match p.2 with Some v => "," +:+ p.1 +:+ "=" +:+ v +:+ acc | None => acc end) "" l.
Proof.
  revert s. induction l as [|[k [v|]] l IH]; intros s.
  - cbn. by rewrite string_app_nil_r.
  - change (parts ((k, Some v) :: l)) with ((k +:+ "=" +:+ v) :: parts l).
    rewrite join_comma_cons, IH, !string_app_assoc. done.
  - change (parts ((k, None) :: l)) with (parts l). apply IH.
Qed.

(** The options of the machine, and those after the volumes. *)
Definition machine_block (c : qemu) (r : Runtime) (name : string) : list (string * string) :=
  map (pair name) (machine_values c r name).

Definition head_names : list string :=
  ["-enable-kvm"; "-fw_cfg"; "-smp"; "-m"; "-numa"; "-nographic"; "-serial"; "-drive"; "-smbios"].

Definition tail_options (c : qemu) (r : Runtime) : list (string * string) :=
  (if q_tpm c then zip ["-chardev"; "-tpmdev"; "-device"]
     ["socket,id=chrtpm,path=" +:+ swtpmSocketPath r (q_name c); "emulator,id=tpm0,chardev=chrtpm";
      "tpm-tis,tpmdev=tpm0"] else []) ++
  zip ["-boot"; "-chardev"; "-device"; "-device"; "-qmp"; "-object"; "-device"; "-cpu"]
    ["reboot-timeout=30000"; "socket,id=char0,path=" +:+ guestSocketPath r (q_name c) +:+ ",server,nowait";
     "virtio-serial"; "virtserialport,chardev=char0,name=placemat";
     "unix:" +:+ qmpSocketPath r (q_name c) +:+ ",server,nowait";
     "rng-random,id=rng0,filename=/dev/urandom"; "virtio-rng-pci,rng=rng0"; "host"].

Lemma values_cons name o opts :
  values name (o :: opts) = (if decide (o.1 = name) then [o.2] else []) ++ values name opts.
Proof. unfold values. rewrite filter_cons. by destruct (decide (o.1 = name)). Qed.

Lemma values_block name (n : string) vs : values name (map (pair n) vs) = if String.eqb name n then vs else [].
Proof.
  destruct (String.eqb_spec name n) as [->|Hn]; induction vs as [|v vs IH]; try done;
    cbn [map]; rewrite values_cons, IH; cbn [fst snd].
  - by rewrite decide_True.
  - by rewrite decide_False by congruence.
Qed.

Lemma values_blocks c r name names :
  NoDup names ->
  values name (flat_map (machine_block c r) names) = if bool_decide (name ∈ names) then machine_values c r name else [].
Proof.
  induction 1 as [|n names Hn _ IH]; [done|]. cbn [flat_map]. rewrite values_app, IH.
  unfold machine_block. rewrite values_block. destruct (String.eqb_spec name n) as [->|Hne].
  - rewrite bool_decide_false, bool_decide_true by (done || left). apply app_nil_r.
  - cbn [app]. apply (f_equal (fun b : bool => if b then _ else _)), bool_decide_ext. set_solver.
Qed.

Lemma values_other name opts : name ∉ map fst opts -> values name opts = [].
Proof.
  induction opts as [|[n v] opts IH]; [done|]. cbn [map fst]. intros [H1 H2]%not_elem_of_cons.
  rewrite values_cons, decide_False by (cbn; congruence). by apply IH.
Qed.

Lemma machine_options c r name :
  values name (flat_map (machine_block c r) head_names ++ tail_options c r) = machine_values c r name.
Proof.
  rewrite values_app, values_blocks by (apply (bool_decide_unpack _); vm_compute; exact I).
  destruct (decide (name ∈ head_names)) as [Hh|Hh].
  - rewrite bool_decide_true by done. rewrite (values_other _ (tail_options c r)); [apply app_nil_r|].
    unfold head_names in Hh. unfold tail_options. destruct (q_tpm c); cbn; set_solver.
  - rewrite bool_decide_false by done. cbn [app]. unfold head_names in Hh. rewrite !not_elem_of_cons in Hh.
    destruct Hh as (H1 & H2 & H3 & H4 & H5 & H6 & H7 & H8 & H9 & _).
    unfold machine_values. cbn [assoc]. rewrite !(proj2 (String.eqb_neq name _)) by done.
    unfold tail_options.
    repeat match goal with
    | |- context [String.eqb name ?s] =>
        destruct (String.eqb_spec name s) as [->|]; [destruct (q_tpm c); reflexivity|]
    end.
    apply values_other. destruct (q_tpm c); cbn; set_solver.
Qed.

(** *** The words of the code *)

Lemma words_block c r name :
  name ∉ lone_options -> words (machine_block c r name) = flat_map (fun v => [name; v]) (machine_values c r name).
Proof.
  intros Hn. unfold machine_block. induction (machine_values c r name) as [|v vs IH]; [done|].
  cbn [map words flat_map fst snd]. rewrite bool_decide_false by done. fold (words (map (pair name) vs)).
  by rewrite IH.
Qed.

(** Reads a value by its parts. *)
Ltac by_parts :=
  rewrite join_comma_parts; unfold nonzero, nonempty, given_if; cbn [foldr fst snd];
  repeat match goal with |- context [if ?b then _ else _] => destruct b end;
  cbn [foldr fst snd]; rewrite ?string_app_assoc, ?string_app_nil_r; reflexivity.

Lemma smp_params_parts s :
  smp_params s = join_comma (itoa (cpus s) ::
    parts [("cores", nonzero (cores s)); ("threads", nonzero (threads s)); ("dies", nonzero (dies s));
           ("sockets", nonzero (sockets s)); ("maxcpus", nonzero (maxCpus s))]).
Proof. unfold smp_params, smp_param. by_parts. Qed.

Lemma if_snoc {A : Type} (b : bool) (p x : list A) :
  (if b then p else p ++ x) = p ++ (if b then [] else x) /\
  (if b then p ++ x else p) = p ++ (if b then x else []).
Proof. destruct b; by rewrite app_nil_r. Qed.

Lemma numa_words c r :
  (if nodes (q_numa c) =? 0 then []
   else flat_map numa_param (numa_ranges (cpus (q_smp c)) (nodes (q_numa c)))) =
  words (machine_block c r "-numa").
Proof.
  rewrite words_block by (apply (bool_decide_unpack _); vm_compute; exact I).
  unfold machine_values, numa_ranges. cbn [assoc String.eqb Ascii.eqb Bool.eqb].
  destruct (Z.eqb_spec (nodes (q_numa c)) 0) as [->|_]; [done|].
  induction (seqZ 0 (nodes (q_numa c))) as [|i l IH]; [done|]. cbn [map flat_map]. by rewrite IH.
Qed.

Lemma smbios_words c r :
  ["-smbios"; "type=1" +:+
    (if String.eqb (manufacturer (q_smbios c)) "" then ""
     else ",manufacturer=" +:+ manufacturer (q_smbios c)) +:+
    (if String.eqb (product (q_smbios c)) "" then "" else ",product=" +:+ product (q_smbios c))
    +:+ ",serial=" +:+ effective_serial c] = words (machine_block c r "-smbios").
Proof.
  rewrite words_block by (apply (bool_decide_unpack _); vm_compute; exact I).
  unfold machine_values. cbn [assoc String.eqb Ascii.eqb Bool.eqb flat_map app]. do 2 f_equal. by_parts.
Qed.

Lemma qemuParams_words c r : (qemuParams c r).1 = words (flat_map (machine_block c r) head_names).
Proof.
  unfold head_names. cbn [flat_map]. rewrite !words_app, <- numa_words, <- smbios_words.
  unfold qemuParams. cbn [fst].
  replace (serial (q_smbios (if String.eqb (serial (q_smbios c)) "" then set_serial c (default_serial (q_name c))
    else c))) with (effective_serial c)
    by (unfold effective_serial; by destruct (String.eqb (serial (q_smbios c)) "")).
  rewrite !(proj1 (if_snoc _ _ _)), !(proj2 (if_snoc _ _ _)), !string_app_assoc, <- !app_assoc.
  cbn [words flat_map]. rewrite !app_nil_r. rewrite smp_params_parts.
  generalize (if nodes (q_numa c) =? 0 then []
   else flat_map numa_param (numa_ranges (cpus (q_smp c)) (nodes (q_numa c)))). intros numa.
  unfold machine_block, machine_values, nonempty. cbn [assoc String.eqb Ascii.eqb Bool.eqb].
  destruct (String.eqb (q_ignitionFile c) ""), (cpus (q_smp c) =? 0), (String.eqb (q_memory c) ""), (Graphic r),
    (q_uefi c); reflexivity.
Qed.

Lemma net_options_words vhost c t mac : net_options vhost c t mac = words (device_options vhost c t mac).
Proof.
  unfold net_options, device_options. cbn [words flat_map fst snd app].
  rewrite !bool_decide_false by (apply (bool_decide_unpack _); vm_compute; exact I).
  cbn [app]. f_equal. f_equal; [by_parts|]. f_equal. f_equal.
  destruct (1 <? q_networkDeviceQueue c), (q_uefi c); reflexivity.
Qed.

Lemma volume_words vs : flat_map args vs = words (map volume_option vs).
Proof.
  induction vs as [|v vs IH]; [done|]. cbn [flat_map map]. rewrite IH.
  change (volume_option v :: map volume_option vs) with ([volume_option v] ++ map volume_option vs).
  rewrite words_app. f_equal.
  destruct v as [p cache|p cache|p cache format|p cache [] tag]; cbn [args volume_option words flat_map fst snd];
    rewrite bool_decide_false by (apply (bool_decide_unpack _); vm_compute; exact I); reflexivity.
Qed.

(** The words of the options of all network devices. *)
Lemma words_concat (f : nat -> tapInfo -> list (string * string)) (ts : list tapInfo) :
  concat (imap (fun i t => words (f i t)) ts) = words (concat (imap f ts)).
Proof.
  revert f. induction ts as [|t ts IH]; intros f; [done|]. cbn [imap concat].
  rewrite words_app. f_equal. apply (IH (fun i => f (S i))).
Qed.

(** The options that stand alone have no value. *)
Definition lone_ok (o : string * string) : Prop := o.1 ∈ lone_options -> o.2 = "".

Lemma other_lone name v : bool_decide (name ∈ lone_options) = false -> lone_ok (name, v).
Proof. intros H%bool_decide_eq_false ?. done. Qed.

Lemma block_lone c r name : Forall lone_ok (machine_block c r name).
Proof.
  unfold machine_block. apply Forall_fmap, Forall_forall. intros v Hv Hl. cbn [fst snd compose] in *.
  unfold lone_options in Hl. rewrite !elem_of_cons in Hl. destruct Hl as [->|[->|[]%not_elem_of_nil]];
    unfold machine_values in Hv; cbn [assoc String.eqb Ascii.eqb Bool.eqb] in Hv;
    [|destruct (Graphic r); cbn in Hv; [by apply not_elem_of_nil in Hv|]]; by apply list_elem_of_singleton in Hv.
Qed.

Lemma options_lone vhost c r (macs : nat -> string) :
  Forall lone_ok (flat_map (machine_block c r) head_names ++
    concat (imap (fun i t => device_options vhost c t (macs i)) (q_taps c)) ++
    map volume_option (q_volumes c) ++ tail_options c r).
Proof.
  apply Forall_app; split; [|apply Forall_app; split; [|apply Forall_app; split]].
  - apply Forall_flat_map, Forall_forall. intros; apply block_lone.
  - apply Forall_concat, Forall_forall. intros l (i & t & -> & _)%elem_of_lookup_imap_1.
    repeat constructor; by apply other_lone.
  - apply Forall_fmap, Forall_forall. intros [] _; by apply other_lone.
  - unfold tail_options. destruct (q_tpm c); repeat constructor; by apply other_lone.
Qed.

Lemma tail_words c r : tail_params c r = words (tail_options c r).
Proof. unfold tail_params, tail_options. by destruct (q_tpm c). Qed.

(** ** Properties *)

(** C23: the CPUs of the NUMA nodes.  For a machine with NUMA nodes the options name
    one range per node, in order and disjoint; together they are the CPUs below the
    number of nodes times the CPUs per node, which is every CPU exactly when the
    nodes divide the CPUs; with fewer CPUs than nodes every range is the malformed
    0 to -1. *)
Theorem numa_nodes_partition (c : qemu) (r : Runtime) :
  let n := nodes (q_numa c) in let k := cpus (q_smp c) in
  let rs := numa_ranges k n in
  0 <= k -> 0 < n ->
  (exists before after, (qemuParams c r).1 = before ++ flat_map numa_param rs ++ after) /\
  length rs = Z.to_nat n /\
  (forall i j a b, (i < j)%nat -> rs !! i = Some a -> rs !! j = Some b -> a.2 < b.1) /\
  (forall x, (exists rg, rg ∈ rs /\ rg.1 <= x <= rg.2) <-> 0 <= x < n * (k / n)) /\
  (n * (k / n) = k <-> k mod n = 0) /\
  (k < n -> Forall (fun rg => rg = (0, -1)) rs).
Proof.
  intros n k rs Hk Hn. split_and!.
  - apply qemuParams_numa. fold n. lia.
  - unfold rs, numa_ranges. by rewrite length_map, length_seqZ.
  - intros i j a b Hij Ha Hb. apply numa_ranges_spec in Ha as [_ ->], Hb as [_ ->]. cbn.
    pose proof (Z.quot_pos k n). nia.
  - intros x. by apply numa_ranges_cover.
  - pose proof (Z.div_mod k n). lia.
  - intros Hlt. apply Forall_lookup. intros i rg Hi. apply numa_ranges_spec in Hi as [_ ->].
    rewrite Z.quot_small by lia. f_equal; lia.
Qed.

Lemma numa_nodes_partition_witness :
  let c := test_qemu {| cpus := 72; cores := 3; threads := 2; dies := 6; sockets := 4;
                        maxCpus := 100 |} 6 false false in
  (exists rg, rg ∈ numa_ranges 72 6 /\ rg.1 <= 71 <= rg.2) /\
  (exists before after, (qemuParams c test_runtime).1 =
     before ++ flat_map numa_param [(0, 11); (12, 23); (24, 35); (36, 47); (48, 59); (60, 71)] ++
     after).
Proof.
  intros c. destruct (numa_nodes_partition c test_runtime) as (H1 & _ & _ & H2 & _);
    [cbn; lia..|].
  split; [apply (H2 71); split; [lia|vm_compute; reflexivity]|exact H1].
Defined.

Definition demo_entropy : entropy := Entropy Z.of_nat (fun _ => None).

(** C22: the command line, as QEMU reads it.  With working entropy, the words after the
    program are options with their values, in this order: options of the machine, then
    two for each network device in the order of the taps, with the tap, the bridge, the
    MTU, the queues and the address from the next three bytes of entropy, then one for
    each volume, then options of the machine again (network devices come before volumes,
    as cloud-init needs).  The options of the machine have exactly the values of
    [machine_values] and there are no others: accelerator, ignition file, processors,
    memory, NUMA nodes, console, firmware, SMBIOS with the configured serial number or
    the SHA-1 of the node's name, TPM, boot, the sockets of the guest and of QMP, the
    random number device and the processor model. *)
Theorem qemu_command_layout (ent : entropy) (vhost : bool) (c : qemu) (r : Runtime) (pos : nat) :
  (forall i, ent_fail ent i = None) ->
  exists l c' before after,
    command (macGenerator0 := macGeneratorOf ent) vhost c r pos =
      (Ok ("qemu-system-x86_64" :: l, c'), (pos + 3 * length (q_taps c))%nat) /\
    read_options l =
      Some (before ++ concat (imap (fun i t => device_options vhost c t (kvm_mac ent (pos + 3 * i))) (q_taps c)) ++
            map volume_option (q_volumes c) ++ after) /\
    (forall name, values name (before ++ after) = machine_values c r name) /\
    c' = set_serial c (if String.eqb (serial (q_smbios c)) ""
                       then hex_string (sha1 (bytes_of_string (q_name c))) else serial (q_smbios c)).
Proof.
  intros Hnf. destruct (qemuParams_serial c r) as [E2 _]. pose proof (qemuParams_words c r) as E1.
  eexists _, _, _, _. split_and!; [| |intros name; apply machine_options|reflexivity].
  - unfold command. destruct (qemuParams c r) as [params c']. cbn [fst snd] in E1, E2. subst params c'.
    unfold sbind. rewrite taps_params_layout by done. cbn [q_taps q_volumes set_serial]. reflexivity.
  - rewrite volume_words, tail_words. erewrite imap_ext; [|intros; apply net_options_words].
    rewrite words_concat, <- !words_app. rewrite <- !app_assoc. apply read_words, options_lone.
Qed.

Lemma qemu_command_layout_witness :
  let c := test_qemu {| cpus := 8; cores := 0; threads := 0; dies := 0; sockets := 0;
                        maxCpus := 0 |} 0 true true in
  exists l c' opts, command (macGenerator0 := macGeneratorOf demo_entropy) true c test_runtime 0%nat =
    (Ok ("qemu-system-x86_64" :: l, c'), 6%nat) /\ read_options l = Some opts.
Proof.
  intros c. destruct (qemu_command_layout demo_entropy true c test_runtime 0%nat)
    as (l & c' & b & a & E & R & _); [reflexivity|]. eexists l, c', _. split; [exact E|exact R].
Defined.

(** Generated addresses: a generated MAC address has QEMU's prefix and three
    groups of two lower-case hexadecimal digits, and two addresses are equal only
    if the entropy gave the same three bytes. *)
Theorem mac_addresses (ent : entropy) (i j : nat) :
  (ent_fail ent i = None ->
   generate (macGenerator := macGeneratorOf ent) i = (Ok (kvm_mac ent i), (i + 3)%nat)) /\
  length (bytes_of_string (kvm_mac ent i)) = 17%nat /\
  take 9 (bytes_of_string (kvm_mac ent i)) = bytes_of_string "52:54:00:" /\
  (kvm_mac ent i = kvm_mac ent j <-> ent_bytes ent i 3 = ent_bytes ent j 3).
Proof.
  destruct (kvm_mac_bytes ent i) as (a & b & c & Ei & Ha & Hb & Hc & Bi).
  destruct (kvm_mac_bytes ent j) as (a' & b' & c' & Ej & Ha' & Hb' & Hc' & Bj).
  split; [apply generate_kvm|]. rewrite Bi. split_and!; [done..|]. split.
  - intros E. rewrite E, Bj in Bi. rewrite Ei, Ej. cbn -[hex_Encode] in Bi.
    assert (Hx : hex_Encode [a'] = hex_Encode [a] /\ hex_Encode [b'] = hex_Encode [b] /\
                 hex_Encode [c'] = hex_Encode [c]).
    { cbn in Bi |- *. injection Bi as -> -> -> -> -> ->. done. }
    destruct Hx as (Xa & Xb & Xc).
    by rewrite (hex_byte_inj a' a), (hex_byte_inj b' b), (hex_byte_inj c' c).
  - unfold kvm_mac. by intros ->.
Qed.
