(* ===== verification/Tap.v ===== *)
(** * Tap devices (vm/tap.go)

    A tap connects a virtual machine to the bridge of a network.  The program's tap
    object is mutable: it learns the name of its device when the device is created,
    so operations run on the host's state together with the object. *)

From S2P Require Import Prelude GoBinary GoCrypto Netlink Dcnet Qemu.

Local Open Scope Z_scope.
Local Open Scope go_scope.

Record tap : Type := {
  t_bridge : Link;
  t_tapName : string
}.

Section Taps.
Context {W : Type} `{!AddrOps} `{!NetOps W} `{!Rand W}.

Definition newTap (bridgeName : string) : st W tap :=
  let* bridge := swrap ("failed to find the bridge " +:+ bridgeName) (LinkByName bridgeName) in
  sret {| t_bridge := bridge; t_tapName := "" |}.

Definition set_tapName (name : string) : st (W * tap) unit :=
  fun s => (Ok tt, (s.1, {| t_bridge := t_bridge s.2; t_tapName := name |})).

(** The queues of the device; flags are set for more than one. *)
Definition tap_queues (netDevQueue : Z) : Z := if 1 <? netDevQueue then netDevQueue else 0.

(** [t.bridge.( *netlink.Bridge)] *)
Definition assert_bridge (l : Link) : outcome string :=
  if is_bridge l then Ok (Attrs_Name l) else Panic (PanicMsg "interface conversion").

Definition tap_create (mtu netDevQueue : Z) : st (W * tap) tapInfo :=
  fun s =>
  let bridge := t_bridge s.2 in
  (let* name := on_host (swrap "failed to generate random tap name" (RandomLinkName LinkTypeTap)) in
   on_host (swrap ("failed to add the tap " +:+ name)
              (LinkAdd name (Tuntap (tap_queues netDevQueue)))) >>>
   (if 0 <? mtu then on_host (LinkSetMTU name mtu) else sret tt) >>>
   on_host (LinkSetUp name) >>>
   let* master := slift (assert_bridge bridge) in
   on_host (swrap ("failed to set " +:+ name +:+ " to bridge " +:+ Attrs_Name bridge)
              (LinkSetMaster name master)) >>>
   set_tapName name >>>
   let* createdTap := on_host (swrap "failed to find the created tap" (LinkByName name)) in
   sret {| Qemu.tap := name; Qemu.bridge := Attrs_Name bridge; Qemu.mtu := Attrs_MTU createdTap |}) s.

Definition TapInfo (t : tap) : tapInfo :=
  {| Qemu.tap := t_tapName t; Qemu.bridge := Attrs_Name (t_bridge t); Qemu.mtu := 0 |}.

Definition tap_Cleanup (t : tap) : st W unit :=
  let* r := stry (LinkByName (t_tapName t)) in
  match r with
  | inr _ => sret tt
  | inl link => swarn (LinkDel (Attrs_Name link))
  end.

End Taps.

(** ** What a tap is *)

(** Every link's master is a link. *)
Definition masters_exist `{!AddrOps} (v : netview) : Prop :=
  forall n l m, v_links v !! n = Some l -> l_master l = Some m -> is_Some (v_links v !! m).

(** The device of a tap: a port of its bridge, up, with the MTU that was asked for. *)
Definition tap_link `{!AddrOps} (bridge : string) (mtu netDevQueue : Z) : link :=
  MkLink _ (Tuntap (tap_queues netDevQueue)) (if 0 <? mtu then mtu else 1500) true (Some bridge) [].

Section TapLemmas.
Context {W : Type} `{!AddrOps} `{!NetOps W} {L : NetLaws W} `{!Rand W} {RL : RandLaws W}
  {RF : RandFrame W}.

(** A documented call that succeeded. *)
Lemma effect_ok {A} (m : st W A) R w a w' :
  effect view m R -> m w = (Ok a, w') -> R (view w) a (view w').
Proof. intros Hm E. specialize (Hm w). by rewrite E in Hm. Qed.

Lemma RandomLinkName_view typ w o w' : RandomLinkName typ w = (o, w') -> view w' = view w.
Proof.
  unfold RandomLinkName, sbind, swrap. pose proof (Rand_Read_view 4 w) as Hv.
  destruct (Rand_Read 4 w) as [[]]; cbn in *; by intros [= <- <-].
Qed.

(** Inverts the next call of a successful run. *)
Ltac host_step E w Hx :=
  let t := fresh "t" in let Ht := fresh "Ht" in
  apply sbind_ok in E as (? & [w t] & Hx & E); apply on_host_ok in Hx as [Hx Ht];
  cbn [fst snd] in Hx, Ht; subst t; try apply swrap_ok in Hx.

(** Updates of a link that was just added. *)
Lemma set_links_fresh (f : link -> link) n l v v' :
  v = set_links (insert n l) v' -> set_links (alter f n) v = set_links (insert n (f l)) v'.
Proof. intros ->. unfold set_links. cbn. f_equal. apply alter_insert_eq. Qed.

(** What a successful [create] did, whatever kernel and entropy. *)
Lemma tap_create_ok mtu q w t info w' t' :
  tap_create mtu q (w, t) = (Ok info, (w', t')) ->
  let name := t_tapName t' in let bridge := Attrs_Name (t_bridge t) in
  t' = {| t_bridge := t_bridge t; t_tapName := name |} /\
  is_bridge (t_bridge t) = true /\
  String.prefix prefix name = true /\
  v_links (view w) !! name = None /\
  is_Some (v_links (view w) !! bridge) /\
  view w' = set_links (insert name (tap_link bridge mtu q)) (view w) /\
  info = {| Qemu.tap := name; Qemu.bridge := bridge; Qemu.mtu := l_mtu (tap_link bridge mtu q) |}.
Proof.
  unfold tap_create. cbn [snd]. intros E. host_step E w1 E1.
  pose proof (RandomLinkName_view _ _ _ _ E1) as V1. rename x into name.
  pose proof (RandomLinkName_shape _ _ _ _ E1) as [Hpre _].
  host_step E w2 E2. apply (effect_ok _ _ _ _ _ (LinkAdd_law _ _)) in E2 as [Hfree V2].
  rewrite V1 in Hfree, V2.
  apply sbind_ok in E as ([] & [w3 t3] & E3 & E).
  assert (V3 : t3 = t /\ view w3 = set_links (insert name
            (MkLink _ (Tuntap (tap_queues q)) (if 0 <? mtu then mtu else 1500) false None [])) (view w)).
  { destruct (0 <? mtu); [|by injection E3 as <- <-].
    apply on_host_ok in E3 as [E3 Ht]. cbn [fst snd] in E3, Ht. subst t3.
    apply (effect_ok _ _ _ _ _ (LinkSetMTU_law _ _)) in E3 as [_ ->].
    split; [done|by rewrite (set_links_fresh _ _ _ _ _ V2)]. }
  destruct V3 as [-> V3].
  host_step E w4 E4. apply (effect_ok _ _ _ _ _ (LinkSetUp_law _)) in E4 as [_ V4].
  rewrite (set_links_fresh _ _ _ _ _ V3) in V4.
  apply sbind_ok in E as (master & [w5 t5] & E5 & E). unfold slift, assert_bridge in E5.
  destruct (is_bridge (t_bridge t)) eqn:Hb; [|done]. injection E5 as <- <- <-.
  host_step E w6 E6. apply (effect_ok _ _ _ _ _ (LinkSetMaster_law _ _)) in E6 as (Hne & _ & Hm & V6).
  rewrite V4 in Hm. rewrite (set_links_fresh _ _ _ _ _ V4) in V6.
  apply sbind_ok in E as ([] & [w7 t7] & E7 & E). unfold set_tapName in E7. cbn in E7.
  injection E7 as <- <-.
  host_step E w8 E8. apply (effect_ok _ _ _ _ _ (LinkByName_law _)) in E8 as (V8 & e & He & ->).
  injection E as <- <- <-. cbn [t_tapName t_bridge]. rewrite V8.
  rewrite V6 in He. cbn in He. rewrite lookup_insert_eq in He. injection He as <-.
  split_and!; try done. cbn in Hm. by rewrite lookup_insert_ne in Hm.
Qed.

(** ** Taps of a node *)

(** The links are those of [m0] and the taps [S], whose bridges are in [m0]. *)
Record plugged (m0 S m : gmap string link) : Prop := {
  plugged_links : m = m0 ∪ S;
  plugged_disjoint : m0 ##ₘ S;
  plugged_closed : forall n l b, m0 !! n = Some l -> l_master l = Some b -> is_Some (m0 !! b);
  plugged_bridges : forall n l b, S !! n = Some l -> l_master l = Some b -> is_Some (m0 !! b)
}.

Lemma plugged_start (v : netview) : masters_exist v -> plugged (v_links v) ∅ (v_links v).
Proof.
  intros Hm. split; [by rewrite map_union_empty|apply map_disjoint_empty_r|exact Hm|].
  intros n l b E. by rewrite lookup_empty in E.
Qed.

Lemma plugged_add m0 S m n b mtu q :
  plugged m0 S m -> m !! n = None -> is_Some (m0 !! b) ->
  plugged m0 (<[n := tap_link b mtu q]> S) (<[n := tap_link b mtu q]> m).
Proof.
  intros [-> Hd Hc Hb] Hn Hbr. apply lookup_union_None in Hn as [Hn0 HnS]. split; [|by apply map_disjoint_insert_r|done|].
  - by rewrite insert_union_r.
  - intros n' l b' E Hl. destruct (decide (n' = n)) as [->|Hne].
    + rewrite lookup_insert_eq in E. injection E as <-. cbn in Hl. by injection Hl as <-.
    + rewrite lookup_insert_ne in E by done. by eapply Hb.
Qed.

Lemma release_others (m m0 : gmap string link) n :
  m0 !! n = None ->
  (forall k l b, m !! k = Some l -> l_master l = Some b -> is_Some (m0 !! b)) ->
  release n <$> m = m.
Proof.
  intros Hn Hm. apply map_eq. intros k. rewrite lookup_fmap. destruct (m !! k) as [l|] eqn:E; [|done].
  cbn. f_equal. unfold release. rewrite bool_decide_false; [by destruct l|].
  intros Hl. destruct (Hm k l n E Hl). congruence.
Qed.

Lemma plugged_remove m0 S m n :
  plugged m0 S m -> is_Some (S !! n) -> plugged m0 (delete n S) (remove_link n m).
Proof.
  intros [-> Hd Hc Hb] [l Hl].
  assert (Hn0 : m0 !! n = None) by (by eapply map_disjoint_Some_r).
  split; [|by apply map_disjoint_delete_r|done|].
  - unfold remove_link. rewrite delete_union, (delete_id m0 n) by done.
    apply (release_others _ m0); [done|]. intros k e b E Hm.
    apply lookup_union_Some in E as [E|E]; [by eapply Hc| |by apply map_disjoint_delete_r].
    apply lookup_delete_Some in E as [_ E]. by eapply Hb.
  - intros k e b E. apply lookup_delete_Some in E as [_ E]. by eapply Hb.
Qed.

Definition tap_has_bridge (m0 : gmap string link) (t : tap) : Prop :=
  is_Some (m0 !! Attrs_Name (t_bridge t)).

(** Creating taps one after the other. *)
Lemma each_create mtu q m0 ts w infos w' ts' S :
  plugged m0 S (v_links (view w)) -> Forall (tap_has_bridge m0) ts ->
  each (tap_create mtu q) ts w = (Ok infos, (w', ts')) ->
  exists S', plugged m0 S' (v_links (view w')) /\
    dom S' = dom S ∪ list_to_set (map t_tapName ts') /\
    NoDup (map t_tapName ts') /\ (forall t, t ∈ ts' -> t_tapName t ∉ dom S) /\
    infos = map (fun t => {| Qemu.tap := t_tapName t; Qemu.bridge := Attrs_Name (t_bridge t);
                             Qemu.mtu := if 0 <? mtu then mtu else 1500 |}) ts' /\
    map t_bridge ts' = map t_bridge ts /\
    Forall (fun t => S' !! t_tapName t = Some (tap_link (Attrs_Name (t_bridge t)) mtu q)) ts' /\
    (forall n, n ∈ dom S -> S' !! n = S !! n) /\
    v_chains (view w') = v_chains (view w) /\ v_forward (view w') = v_forward (view w).
Proof.
  revert w infos w' ts' S. induction ts as [|t ts IH]; intros w infos w' ts' S HS Hb E; cbn in E.
  - injection E as <- <- <-. exists S. split_and!; first [done|by constructor|set_solver].
  - apply Forall_cons in Hb as [Hb1 Hb2].
    destruct (tap_create mtu q (w, t)) as [[info|e|p|] [w1 t1]] eqn:E1; try done.
    destruct (each _ ts w1) as [o [w2 ts2]] eqn:E2. injection E as Eo <- <-.
    destruct o as [infos2| | |]; try done. injection Eo as <-.
    apply tap_create_ok in E1 as (Et & _ & _ & Hfree & _ & Hv & Hi).
    set (S1 := <[t_tapName t1 := tap_link (Attrs_Name (t_bridge t)) mtu q]> S).
    assert (HS1 : plugged m0 S1 (v_links (view w1))).
    { rewrite Hv. by apply plugged_add. }
    destruct (IH w1 infos2 w2 ts2 S1 HS1 Hb2 E2) as (S' & H1 & H2 & H3 & H4 & H5 & H6 & H7 & H8 & H9 & H10).
    assert (HnS : t_tapName t1 ∉ dom S).
    { destruct HS as [Em _ _ _]. rewrite Em in Hfree. apply lookup_union_None in Hfree as [_ HnS]. by apply not_elem_of_dom. }
    assert (Hdom : dom S1 = {[t_tapName t1]} ∪ dom S) by apply dom_insert_L.
    assert (Eb : t_bridge t1 = t_bridge t) by (by rewrite Et).
    exists S'. cbn [map]. rewrite H2, Hdom, H9, H10, Hv. split_and!; try done.
    + set_solver.
    + constructor; [|done]. rewrite list_elem_of_fmap. intros (t2 & Hn & Hin).
      apply (H4 t2 Hin). rewrite Hdom, <- Hn. set_solver.
    + intros t2 Hin. apply elem_of_cons in Hin as [->|Hin]; [done|].
      pose proof (H4 t2 Hin) as Hno. rewrite Hdom in Hno. set_solver.
    + by rewrite Hi, H5, Eb.
    + by rewrite H6, Eb.
    + constructor; [|done]. rewrite H8 by (rewrite Hdom; set_solver). unfold S1.
      by rewrite lookup_insert_eq, Eb.
    + intros n Hn. rewrite H8 by (rewrite Hdom; set_solver). apply lookup_insert_ne. set_solver.
Qed.

(** Removing them again, on a kernel where removal works. *)
Lemma tap_Cleanup_run {LR : NetReliable W} t w l :
  v_links (view w) !! t_tapName t = Some l ->
  exists w', tap_Cleanup t w = (Ok tt, w') /\ view w' = set_links (remove_link (t_tapName t)) (view w).
Proof.
  intros Hl. destruct (LinkByName_run _ _ _ Hl) as (w1 & E1 & V1).
  assert (Hl1 : is_Some (v_links (view w1) !! t_tapName t)) by (rewrite V1; by eexists).
  destruct (yields_warn _ _ _ (yields_LinkDel _ _ Hl1) w1 eq_refl) as ([] & w2 & E2 & V2).
  exists w2. unfold tap_Cleanup, sbind, stry. rewrite E1. cbn. rewrite E2, V2, V1. done.
Qed.

Lemma taps_Cleanup_run {LR : NetReliable W} m0 ts w S :
  plugged m0 S (v_links (view w)) -> NoDup (map t_tapName ts) ->
  (forall t, t ∈ ts -> is_Some (S !! t_tapName t)) ->
  exists w' S', sfor ts tap_Cleanup w = (Ok tt, w') /\ plugged m0 S' (v_links (view w')) /\
    dom S' = dom S ∖ list_to_set (map t_tapName ts) /\
    v_chains (view w') = v_chains (view w) /\ v_forward (view w') = v_forward (view w).
Proof.
  revert w S. induction ts as [|t ts IH]; intros w S HS Hnd Hin.
  - exists w, S. split_and!; try done. cbn. set_solver.
  - cbn [map] in Hnd. apply NoDup_cons in Hnd as [Hn Hnd].
    destruct (Hin t ltac:(left)) as [l Hl].
    assert (Hw : v_links (view w) !! t_tapName t = Some l).
    { destruct HS as [Em Hd _ _]. rewrite Em. by apply lookup_union_Some_r. }
    destruct (tap_Cleanup_run t w l Hw) as (w1 & E1 & V1).
    destruct (IH w1 (delete (t_tapName t) S)) as (w' & S' & E & H1 & H2 & H3 & H4).
    + rewrite V1. apply plugged_remove; [done|by eexists].
    + done.
    + intros t' Ht'. rewrite lookup_delete_ne; [apply Hin; by right|]. intros En. apply Hn.
      rewrite En. apply list_elem_of_fmap. by exists t'.
    + exists w', S'. cbn [sfor map]. unfold sbind. rewrite E1, E. rewrite V1 in H3, H4.
      split_and!; try done. rewrite H2, dom_delete_L. cbn. set_solver.
Qed.

(** An interface that names a link which is not a bridge: the device is made, then the
    type assertion panics, and the tap does not know the device. *)
Lemma tap_create_not_bridge {LR : NetReliable W} mtu q w t name w1 :
  is_bridge (t_bridge t) = false ->
  RandomLinkName LinkTypeTap w = (Ok name, w1) -> v_links (view w) !! name = None ->
  exists w', tap_create mtu q (w, t) = (Panic (PanicMsg "interface conversion"), (w', t)) /\
    is_Some (v_links (view w') !! name).
Proof.
  intros Hb En Hfree. pose proof (RandomLinkName_view _ _ _ _ En) as V1.
  rewrite <- V1 in Hfree.
  destruct (yields_LinkAdd name (Tuntap (tap_queues q)) _ Hfree w1 eq_refl) as ([] & w2 & E2 & V2).
  assert (H2 : is_Some (v_links (view w2) !! name)).
  { rewrite V2. cbn. rewrite lookup_insert_eq. by eexists. }
  assert (H3 : exists w3, (if 0 <? mtu then on_host (LinkSetMTU name mtu) else sret tt) (w2, t) =
            (Ok tt, (w3, t)) /\ is_Some (v_links (view w3) !! name)).
  { destruct (0 <? mtu); [|by exists w2].
    destruct (yields_LinkSetMTU name mtu _ H2 w2 eq_refl) as ([] & w3 & E3 & V3).
    exists w3. unfold on_host. cbn. rewrite E3. split; [done|]. rewrite V3. cbn.
    rewrite lookup_alter_eq. by apply fmap_is_Some. }
  destruct H3 as (w3 & E3 & H3).
  destruct (yields_LinkSetUp name _ H3 w3 eq_refl) as ([] & w4 & E4 & V4).
  exists w4. split.
  - unfold tap_create, sbind. unfold on_host at 1, swrap at 1. cbn [fst snd]. rewrite En. cbn [owrap].
    unfold on_host at 1, swrap at 1. cbn [fst snd]. rewrite E2. cbn [owrap]. rewrite E3.
    unfold on_host at 1. cbn [fst snd]. rewrite E4. unfold slift, assert_bridge. by rewrite Hb.
  - rewrite V4. cbn. rewrite lookup_alter_eq. by apply fmap_is_Some.
Qed.

End TapLemmas.
