(* ===== verification/Bmc.v ===== *)
(** * BMC start-up (vm/bmc.go)

    A guest writes the address of its BMC to its virtual serial port; the connection
    handler passes the first line on, and the BMC server puts the address on the
    bridge of a BMC network and starts an IPMI and a Redfish server on it for the
    machine with the guest's serial number. *)

From S2P Require Import Prelude GoBinary GoCrypto Netlink Types Dcnet.

Local Open Scope Z_scope.
Local Open Scope go_scope.

(** ** The guest's side *)

Record BMCInfo : Type := { bi_serial : string; bi_bmcAddress : string }.

Record guestConnection : Type := { gc_serial : string; gc_sent : bool; gc_guest : nat }.

#[export] Instance guestConnection_eq_dec : EqDecision guestConnection.
Proof. solve_decision. Defined.

(** The white space of bytes.TrimSpace: ASCII and, in UTF-8, the other characters of
    unicode.IsSpace. *)
Definition ascii_spaces : list (list Z) := [[9]; [10]; [11]; [12]; [13]; [32]].
Definition unicode_spaces : list (list Z) :=
  [[194; 133]; [194; 160]; [225; 154; 128]] ++
  map (fun b => [226; 128; b]) (seqZ 128 11) ++
  [[226; 128; 168]; [226; 128; 169]; [226; 128; 175]; [226; 129; 159]; [227; 128; 128]].

(** The first of [ps] that [l] starts with is dropped. *)
Fixpoint drop_one_of (ps : list (list Z)) (l : list Z) : option (list Z) :=
  match ps with
  | [] => None
  | p :: ps' => if bool_decide (take (length p) l = p) then Some (drop (length p) l)
                else drop_one_of ps' l
  end.

Fixpoint trim_prefixes (ps : list (list Z)) (n : nat) (l : list Z) : list Z :=
  match n with
  | O => l
  | S n' => match drop_one_of ps l with
            | Some l' => trim_prefixes ps n' l'
            | None => l
            end
  end.

Definition TrimSpace (l : list Z) : list Z :=
  let ps := ascii_spaces ++ unicode_spaces in
  let l := trim_prefixes ps (length l) l in
  reverse (trim_prefixes (map reverse ps) (length l) (reverse l)).

(** [bufr.ReadBytes('\n')] until it fails: the complete lines of the stream, with
    their newlines.  What comes after the last newline is returned with an error. *)
Fixpoint read_lines (acc : list Z) (l : list Z) : list (list Z) :=
  match l with
  | [] => []
  | b :: l' => if b =? 10 then (acc ++ [b]) :: read_lines [] l' else read_lines (acc ++ [b]) l'
  end.

(** The body of the loop for a line: the connection and what is sent. *)
Definition handle_line (g : guestConnection) (line : list Z) : guestConnection * list BMCInfo :=
  if gc_sent g then (g, [])
  else
    let bmcAddress := string_of_bytes (TrimSpace line) in
    ({| gc_serial := gc_serial g; gc_sent := true; gc_guest := gc_guest g |},
     [{| bi_serial := gc_serial g; bi_bmcAddress := bmcAddress |}]).

Fixpoint handle_lines (g : guestConnection) (lines : list (list Z)) : guestConnection * list BMCInfo :=
  match lines with
  | [] => (g, [])
  | line :: lines' =>
      let (g1, out1) := handle_line g line in
      let (g2, out2) := handle_lines g1 lines' in
      (g2, out1 ++ out2)
  end.

(** [guestConnection.handle] on everything the guest writes. *)
Definition guest_handle (g : guestConnection) (stream : list Z) : guestConnection * list BMCInfo :=
  handle_lines g (read_lines [] stream).

(** ** The server's side *)

(** net.ResolveUDPAddr and net.ListenUDP, net.ResolveTCPAddr and net.ListenTCP; a nil
    address is [None]. *)
Class Listen (W : Type) : Type := {
  ResolveUDPAddr : string -> outcome nat;
  ListenUDP : option nat -> st W nat;
  ResolveTCPAddr : string -> outcome nat;
  ListenTCP : option nat -> st W nat
}.

Record bmcServer `{!AddrOps} (VM : Type) : Type := MkBmcServer {
  bs_networks : list network;
  bs_vms : gmap string VM
}.
Arguments bs_networks {_ VM}.
Arguments bs_vms {_ VM}.

Definition NewBMCServer `{!AddrOps} {VM : Type} (vms : gmap string VM) (networks : list network)
  : bmcServer VM :=
  {| bs_networks := filter (fun n => IsType n NetworkBMC = true) networks; bs_vms := vms |}.

(** A server handed to the environment: its socket, nil when listening failed, and
    its machine, nil when no machine has the serial number. *)
Inductive bmc_service (VM : Type) : Type :=
| IPMIServer (conn : option nat) (machine : option VM)
| RedfishServer (listener : option nat) (machine : option VM).
Arguments IPMIServer {VM}.
Arguments RedfishServer {VM}.

Section Server.
Context {W VM : Type} `{!AddrOps} `{!NetOps W} `{!Listen W}.

Fixpoint find_network (i : ip) (ns : list network) : option network :=
  match ns with
  | [] => None
  | n :: ns' => if network_Contains n i then Some n else find_network i ns'
  end.

Definition findBridge (s : bmcServer VM) (address : string) : outcome network :=
  match find_network (ParseIP address) (bs_networks s) with
  | Some n => Ok n
  | None => Err (errors_New ("BMC address not in range of BMC networks: " +:+ address))
  end.

Definition addBMCAddrToNetwork (s : bmcServer VM) (info : BMCInfo) : st W unit :=
  let* br := slift (findBridge s (bi_bmcAddress info)) in
  swrap ("failed to add IP Address: " +:+ bi_bmcAddress info) (AddAddr br (bi_bmcAddress info)).

(** [x, err := m()] where the error is only logged: nil remains. *)
Definition or_nil {A : Type} (m : st W A) : st W (option A) :=
  let* r := stry m in sret (match r with inl a => Some a | inr _ => None end).

(** One message of the channel. *)
Definition start_bmc (s : bmcServer VM) (info : BMCInfo) : st W (list (bmc_service VM)) :=
  swarn (addBMCAddrToNetwork s info) >>>
  let* serverAddr := or_nil (slift (ResolveUDPAddr (bi_bmcAddress info +:+ ":623"))) in
  let* conn := or_nil (ListenUDP serverAddr) in
  let* addr := or_nil (slift (ResolveTCPAddr (bi_bmcAddress info +:+ ":443"))) in
  let* listener := or_nil (ListenTCP addr) in
  sret [IPMIServer conn (bs_vms s !! bi_serial info);
        RedfishServer listener (bs_vms s !! bi_serial info)].

(** [bmcServer.Start]: the messages received before the context is done. *)
Definition bmc_Start (s : bmcServer VM) (infos : list BMCInfo) : st W (list (list (bmc_service VM))) :=
  smap (start_bmc s) infos.

End Server.

(** ** Lemmas *)

Lemma handle_lines_sent g lines :
  gc_sent g = true -> handle_lines g lines = (g, []).
Proof.
  intros Hs. induction lines as [|l lines IH]; [done|]. cbn [handle_lines]. unfold handle_line.
  by rewrite Hs, IH.
Qed.

Lemma read_lines_app acc l :
  10 ∉ l -> forall rest, read_lines acc (l ++ 10 :: rest) = (acc ++ l ++ [10]) :: read_lines [] rest.
Proof.
  revert acc. induction l as [|b l IH]; intros acc Hn rest; cbn.
  - done.
  - apply not_elem_of_cons in Hn as [Hb Hn]. rewrite (proj2 (Z.eqb_neq b 10)) by congruence.
    rewrite IH by done. by rewrite <- app_assoc.
Qed.

Lemma read_lines_none acc l : 10 ∉ l -> read_lines acc l = [].
Proof.
  revert acc. induction l as [|b l IH]; intros acc Hn; [done|]. cbn.
  apply not_elem_of_cons in Hn as [Hb Hn]. rewrite (proj2 (Z.eqb_neq b 10)) by congruence. by apply IH.
Qed.

(** Plain text, such as an address, has no white space at its ends. *)
Lemma drop_one_of_none ps l :
  Forall (fun p => take (length p) l <> p) ps -> drop_one_of ps l = None.
Proof.
  induction 1 as [|p ps Hp _ IH]; [done|]. cbn. by rewrite bool_decide_false.
Qed.

Section BmcLemmas.
Context {W VM : Type} `{!AddrOps} `{!NetOps W} {L : NetLaws W}.

Lemma find_network_some i ns n :
  find_network i ns = Some n -> n ∈ ns /\ network_Contains n i = true.
Proof.
  induction ns as [|n' ns IH]; cbn; [done|]. destruct (network_Contains n' i) eqn:E.
  - intros [= <-]. split; [left|done].
  - intros Hf. destruct (IH Hf). split; [by right|done].
Qed.

(** A bridge that was found has an address, so [AddAddr] does not dereference nil. *)
Lemma findBridge_addr (s : bmcServer VM) a n : findBridge s a = Ok n -> is_Some (n_addr n).
Proof.
  unfold findBridge. destruct (find_network _ _) as [n'|] eqn:E; [|done]. intros [= <-].
  apply find_network_some in E as [_ Hc]. unfold network_Contains in Hc.
  destruct (n_addr n'); [by eexists|done].
Qed.

(** Parsing an address has no run-time panic. *)
Definition parse_total : Prop :=
  forall s, match ParseAddr s with Ok _ | Err _ => True | _ => False end.

(** The effect of one message on the network. *)
Definition bmc_view (s : bmcServer VM) (info : BMCInfo) (v v' : netview) : Prop :=
  v' = v \/
  exists n a b, find_network (ParseIP (bi_bmcAddress info)) (bs_networks s) = Some n /\
    n_addr n = Some a /\
    ParseAddr (bi_bmcAddress info +:+ "/" +:+ pretty (addr_PrefixLen a)) = Ok b /\
    is_Some (v_links v !! n_name n) /\
    v' = set_links (alter (with_addr b) (n_name n)) v.

Lemma add_addr_cases (s : bmcServer VM) info w :
  parse_total ->
  match addBMCAddrToNetwork s info w with
  | (Ok _, w') | (Err _, w') => bmc_view s info (view w) (view w')
  | _ => False
  end.
Proof.
  intros Hp. unfold addBMCAddrToNetwork, sbind, slift.
  destruct (findBridge s (bi_bmcAddress info)) as [n|e|p|] eqn:Ef; try (by left);
    try (unfold findBridge in Ef; by case_match).
  destruct (findBridge_addr _ _ _ Ef) as [a Ha].
  unfold findBridge in Ef. destruct (find_network _ _) as [n'|] eqn:En; [|done]. injection Ef as ->.
  unfold swrap, AddAddr, sbind, deref, slift. rewrite Ha. cbn [sret].
  specialize (Hp (bi_bmcAddress info +:+ "/" +:+ pretty (addr_PrefixLen a))).
  destruct (ParseAddr _) as [b|e|p|] eqn:Eb; try done; cbn; [|by left].
  unfold swrap. pose proof (LinkByName_law (n_name n) w) as Hl.
  destruct (LinkByName (n_name n) w) as [[l|e|p|] w1]; try done; cbn; [|left; by rewrite Hl].
  destruct Hl as (V1 & le & Hle & ->). pose proof (AddrAdd_law (n_name n) b w1) as Haa. cbn.
  destruct (AddrAdd (n_name n) b w1) as [[u|e|p|] w2]; try done; cbn; rewrite V1 in Haa.
  - right. destruct Haa as [Hs ->]. exists n, a, b. split_and!; done.
  - left. by rewrite Haa.
Qed.

(** On a reliable kernel the address of the first network that contains it is put on
    that network's bridge. *)
Lemma add_addr_run {LR : NetReliable W} (s : bmcServer VM) info n a b l w :
  find_network (ParseIP (bi_bmcAddress info)) (bs_networks s) = Some n -> n_addr n = Some a ->
  ParseAddr (bi_bmcAddress info +:+ "/" +:+ pretty (addr_PrefixLen a)) = Ok b ->
  v_links (view w) !! n_name n = Some l -> b ∉ l_addrs l ->
  exists w', addBMCAddrToNetwork s info w = (Ok tt, w') /\
    view w' = set_links (alter (with_addr b) (n_name n)) (view w).
Proof.
  intros En Ha Eb Hl Hn. destruct (LinkByName_run _ _ _ Hl) as (w1 & E1 & V1).
  rewrite <- V1 in Hl. destruct (yields_AddrAdd (n_name n) b l (view w1) Hl Hn w1 eq_refl)
    as ([] & w2 & E2 & V2).
  exists w2. rewrite V2, V1. split; [|done].
  unfold addBMCAddrToNetwork, findBridge. rewrite En. unfold sbind at 1, slift at 1.
  unfold swrap at 1, AddAddr, sbind, deref. rewrite Ha. cbn [sret].
  unfold slift, swrap. rewrite Eb. cbn [owrap]. rewrite E1. cbn [owrap Attrs_Name link_object].
  by rewrite E2.
Qed.

(** Opening sockets leaves the network configuration alone and does not panic. *)
Class ListenLaws `{!Listen W} : Prop := {
  ListenUDP_law : forall a, effect view (ListenUDP a) (fun v _ v' => v' = v);
  ListenTCP_law : forall a, effect view (ListenTCP a) (fun v _ v' => v' = v);
  ResolveUDP_total : forall s, match ResolveUDPAddr s with Ok _ | Err _ => True | _ => False end;
  ResolveTCP_total : forall s, match ResolveTCPAddr s with Ok _ | Err _ => True | _ => False end
}.

Lemma or_nil_lift {A} (o : outcome A) (w : W) :
  match o with Ok _ | Err _ => True | _ => False end ->
  or_nil (slift o) w = (Ok (match o with Ok a => Some a | _ => None end), w).
Proof. by destruct o. Qed.

Lemma or_nil_run {A} (m : st W A) w :
  effect view m (fun v _ v' => v' = v) ->
  exists w', or_nil m w = (Ok (match (m w).1 with Ok a => Some a | _ => None end), w') /\
    view w' = view w.
Proof.
  intros Hm. specialize (Hm w). unfold or_nil, sbind, stry.
  destruct (m w) as [[a|e|p|] w1]; try done; exists w1; by split.
Qed.

(** One message: the servers of the guest's machine are started in any case. *)
Lemma start_bmc_run `{!Listen W} {LL : ListenLaws} (s : bmcServer VM) info w :
  parse_total ->
  exists c l w', start_bmc s info w =
      (Ok [IPMIServer c (bs_vms s !! bi_serial info); RedfishServer l (bs_vms s !! bi_serial info)], w') /\
    bmc_view s info (view w) (view w') /\
    view w' = view (swarn (addBMCAddrToNetwork s info) w).2.
Proof.
  intros Hp. pose proof (add_addr_cases s info w Hp) as Ha.
  assert (H1 : exists w1, swarn (addBMCAddrToNetwork s info) w = (Ok tt, w1) /\
            bmc_view s info (view w) (view w1)).
  { unfold swarn. destruct (addBMCAddrToNetwork s info w) as [[u|e|p|] w1]; try done; by exists w1. }
  destruct H1 as (w1 & E1 & V1).
  unfold start_bmc. unfold sbind at 1. rewrite E1. unfold sbind at 1.
  rewrite (or_nil_lift _ _ (ResolveUDP_total _)). unfold sbind at 1.
  match goal with |- context [or_nil (ListenUDP ?a) w1] =>
    destruct (or_nil_run (ListenUDP a) w1 (ListenUDP_law a)) as (w2 & E2 & V2) end. rewrite E2.
  unfold sbind at 1. rewrite (or_nil_lift _ _ (ResolveTCP_total _)). unfold sbind at 1.
  match goal with |- context [or_nil (ListenTCP ?a) w2] =>
    destruct (or_nil_run (ListenTCP a) w2 (ListenTCP_law a)) as (w3 & E3 & V3) end. rewrite E3.
  eexists _, _, w3. split; [reflexivity|]. rewrite V3, V2. by split.
Qed.

(** The network through a sequence of messages. *)
Inductive bmc_views (s : bmcServer VM) : list BMCInfo -> netview -> netview -> Prop :=
| views_nil v : bmc_views s [] v v
| views_cons info infos v v1 v' :
    bmc_view s info v v1 -> bmc_views s infos v1 v' -> bmc_views s (info :: infos) v v'.

(** The servers of a message. *)
Definition serves (vms : gmap string VM) (info : BMCInfo) (l : list (bmc_service VM)) : Prop :=
  exists c r, l = [IPMIServer c (vms !! bi_serial info); RedfishServer r (vms !! bi_serial info)].

Lemma bmc_Start_run `{!Listen W} {LL : ListenLaws} (s : bmcServer VM) infos w :
  parse_total ->
  exists services w', bmc_Start s infos w = (Ok services, w') /\
    Forall2 (serves (bs_vms s)) infos services /\ bmc_views s infos (view w) (view w').
Proof.
  intros Hp. revert w. induction infos as [|info infos IH]; intros w.
  - exists [], w. split_and!; [done|constructor|constructor].
  - destruct (start_bmc_run s info w Hp) as (c & r & w1 & E1 & V1 & _).
    destruct (IH w1) as (services & w2 & E2 & HF & HV). eexists _, w2.
    split_and!.
    + unfold bmc_Start in *. cbn [smap]. unfold sbind. rewrite E1, E2. reflexivity.
    + constructor; [by exists c, r|done].
    + by econstructor.
Qed.

End BmcLemmas.

(** ** Properties *)

(** The servers of a simulated host: every address can be listened on. *)
#[export] Instance sim_Listen : Listen netview := {|
  ResolveUDPAddr s := Ok (String.length s);
  ListenUDP a := sret (match a with Some n => n | None => 0%nat end);
  ResolveTCPAddr s := Ok (String.length s);
  ListenTCP a := sret (match a with Some n => n | None => 0%nat end)
|}.
#[export] Instance sim_ListenLaws : ListenLaws (W := netview) (L := sim_NetLaws).
Proof. split; [by intros ? ?..| |]; done. Qed.

Lemma text_parse_total : parse_total (H := text_AddrOps).
Proof. intros s. cbn. by destruct (string_has slash_char s). Qed.

Definition bmc_network : network :=
  {| n_name := "bmc"; n_typ := NetworkBMC; n_useNAT := false; n_addr := Some "10.72.17.1/24" |}.

Definition bmc_net : netview :=
  MkView _ {[ "bmc" := MkLink _ Bridge 1500 true None ["10.72.17.1/24"] ]} ∅ ∅.

Definition demo_info : BMCInfo := {| bi_serial := "fb8f"; bi_bmcAddress := "10.72.17.100" |}.

(** From a guest's first line to its BMC.  Whatever a guest writes, its connection
    handler sends at most one message: the first complete line without surrounding
    white space, with the serial number of the guest's node; later lines and an
    unfinished line send nothing. *)
Lemma guest_sends_first_line (g : guestConnection) (line rest : list Z) :
  gc_sent g = false -> 10 ∉ line ->
  guest_handle g (line ++ 10 :: rest) =
    ({| gc_serial := gc_serial g; gc_sent := true; gc_guest := gc_guest g |},
     [{| bi_serial := gc_serial g; bi_bmcAddress := string_of_bytes (TrimSpace (line ++ [10])) |}]) /\
  guest_handle g line = (g, []).
Proof.
  intros Hs Hn. unfold guest_handle. rewrite read_lines_app, (read_lines_none [] line) by done.
  cbn [handle_lines app]. unfold handle_line. rewrite Hs, handle_lines_sent by done. done.
Qed.

Example guest_line :
  (guest_handle {| gc_serial := "fb8f"; gc_sent := false; gc_guest := 1 |}
    (bytes_of_string " 10.72.17.100" ++ [13; 10] ++ bytes_of_string "10.0.0.1" ++ [10])).2 =
  [demo_info].
Proof. vm_compute. reflexivity. Qed.

(** C26: starting BMCs never panics.  The BMC server handles every message, in order:
    whether or not the address can be put on a bridge or listened on, an IPMI and a
    Redfish server are handed the machine registered under the message's serial
    number (nil if there is none); the kernel's network changes only by adding the
    address, with the prefix length of the network, to the bridge of the first BMC
    network that contains it, and on a reliable kernel that address is added. *)
Theorem bmc_start_correct {W VM : Type} `{!AddrOps} `{!NetOps W} {L : NetLaws W}
  {LR : NetReliable W} `{!Listen W} {LL : ListenLaws} (vms : gmap string VM)
  (networks : list network) (infos : list BMCInfo) (w : W) :
  let s := NewBMCServer vms networks in
  parse_total ->
  (forall n, n ∈ bs_networks s <-> n ∈ networks /\ n_typ n = NetworkBMC) /\
  (exists services w', bmc_Start s infos w = (Ok services, w') /\
    Forall2 (serves vms) infos services /\ bmc_views s infos (view w) (view w')) /\
  (forall info n a b l, infos = [info] ->
    find_network (ParseIP (bi_bmcAddress info)) (bs_networks s) = Some n -> n_addr n = Some a ->
    ParseAddr (bi_bmcAddress info +:+ "/" +:+ pretty (addr_PrefixLen a)) = Ok b ->
    v_links (view w) !! n_name n = Some l -> b ∉ l_addrs l ->
    view (bmc_Start s infos w).2 = set_links (alter (with_addr b) (n_name n)) (view w)).
Proof.
  intros s Hp. split_and!.
  - intros n. cbn. rewrite list_elem_of_filter. unfold IsType. rewrite String.eqb_eq. tauto.
  - by apply bmc_Start_run.
  - intros info n a b l -> Hf Ha Hb Hl Hn. destruct (start_bmc_run s info w Hp) as (c & r & w1 & E & _ & V).
    destruct (add_addr_run s info n a b l w Hf Ha Hb Hl Hn) as (w2 & E2 & V2).
    unfold bmc_Start. cbn [smap]. unfold sbind. rewrite E. cbn. rewrite V. unfold swarn. by rewrite E2.
Qed.

Lemma bmc_start_correct_witness :
  let vms : gmap string string := {[ "fb8f" := "boot-0" ]} in
  let s := NewBMCServer vms [demo_network; bmc_network] in
  (exists w', bmc_Start s [demo_info; {| bi_serial := "unknown"; bi_bmcAddress := "192.168.0.1" |}] bmc_net =
    (Ok [[IPMIServer (Some 16%nat) (Some "boot-0"); RedfishServer (Some 16%nat) (Some "boot-0")];
         [IPMIServer (Some 15%nat) None; RedfishServer (Some 15%nat) None]], w')) /\
  v_links (bmc_Start s [demo_info] bmc_net).2 !! "bmc" =
    Some (MkLink _ Bridge 1500 true None ["10.72.17.1/24"; "10.72.17.100/24"]).
Proof.
  intros vms s. split; [eexists; vm_compute; reflexivity|].
  destruct (bmc_start_correct (L := sim_NetLaws) (LR := sim_NetReliable) vms [demo_network; bmc_network]
    [demo_info] bmc_net text_parse_total) as (_ & _ & H).
  specialize (H demo_info bmc_network "10.72.17.1/24" "10.72.17.100/24" _ eq_refl eq_refl eq_refl eq_refl eq_refl
    ltac:(vm_compute; set_solver)). cbn [view sim_NetLaws] in H. unfold id in H. unfold s. rewrite H.
  reflexivity.
Defined.
