(* ===== verification/BmcEnv.v ===== *)
(** * The BMC servers together (bmcServer.Start of vm/bmc.go)

    The loop of [bmcServer.Start] receives the messages of the guests from a buffered
    channel and hands two servers for each to an environment of package well, until the
    context is done; then it cancels the environment and waits.  Guests, loop and
    servers run at the same time: their interleavings are a labelled step relation.
    The environment is an interface with the documented behaviour of [Go], [Cancel] and
    [Wait].  A panic of a server ends the process, and with it any run described here. *)

From S2P Require Import Prelude GoBinary GoCrypto Netlink Types Dcnet Bmc.

Local Open Scope Z_scope.
Local Open Scope go_scope.

(** ** Package well *)

(** An environment of goroutines, described by the goroutines that have not returned,
    whether [Cancel] was called, and the error [Wait] gives when all have returned.
    [goroutine_returns i r] is the return of the [i]-th goroutine. *)
Class Environment (E F : Type) : Type := {
  NewEnvironment : E;
  env_Go : F -> E -> E;
  env_Cancel : option error -> E -> E;
  goroutine_returns : nat -> option error -> E -> E;
  goroutines : E -> list F;
  env_cancelled : E -> bool;
  env_error : E -> option error
}.

(** "Once canceled, Go will not start new goroutines"; "for second and later calls, Cancel
    does nothing"; a goroutine that returns an error cancels the environment with it. *)
Class EnvironmentLaws (E F : Type) `{!Environment E F} : Prop := {
  New_goroutines : goroutines NewEnvironment = [];
  New_cancelled : env_cancelled NewEnvironment = false;
  Go_goroutines : forall f e,
    goroutines (env_Go f e) = if env_cancelled e then goroutines e else goroutines e ++ [f];
  Go_cancelled : forall f e, env_cancelled (env_Go f e) = env_cancelled e;
  Go_error : forall f e, env_error (env_Go f e) = env_error e;
  Cancel_goroutines : forall r e, goroutines (env_Cancel r e) = goroutines e;
  Cancel_cancelled : forall r e, env_cancelled (env_Cancel r e) = true;
  Cancel_error : forall r e, env_error (env_Cancel r e) = if env_cancelled e then env_error e else r;
  returns_goroutines : forall i r e, goroutines (goroutine_returns i r e) = delete i (goroutines e);
  returns_cancelled : forall i r e, env_cancelled (goroutine_returns i r e) =
    match r with Some _ => true | None => env_cancelled e end;
  returns_error : forall i r e, env_error (goroutine_returns i r e) =
    match r with
    | Some x => if env_cancelled e then env_error e else Some x
    | None => env_error e
    end
}.

Create Rewrite HintDb environment.
#[export] Hint Rewrite @New_goroutines @New_cancelled @Go_goroutines @Go_cancelled @Go_error
  @Cancel_goroutines @Cancel_cancelled @Cancel_error @returns_goroutines @returns_cancelled @returns_error
  using typeclasses eauto : environment.

(** ** The state *)

(** A socket that could not be opened. *)
Definition nil_socket {VM : Type} (f : bmc_service VM) : bool :=
  match f with
  | IPMIServer None _ | RedfishServer None _ => true
  | _ => false
  end.

(** What the standard library returns once a socket or a listener was closed: the error
    of the operation on it wraps [net.ErrClosed], and [http.Server.Serve] may give
    [http.ErrServerClosed] in its place. *)
Definition net_ErrClosed : error := errors_New "use of closed network connection".
Definition http_ErrServerClosed : error := errors_New "http: Server closed".

Definition closed_error {VM : Type} (f : bmc_service VM) (e : error) : Prop :=
  match f with
  | IPMIServer _ _ => exists op, e = Errorf op net_ErrClosed
  | RedfishServer _ _ => (exists op, e = Errorf op net_ErrClosed) \/ e = http_ErrServerClosed
  end.

(** [make(chan vm.BMCInfo, len(c.nodeSpecs))]: a send waits while the channel holds as
    many messages as there are nodes. *)
Definition nodeCh_room (nodes : nat) (ch : list BMCInfo) : bool := (length ch <? nodes)%nat.

Inductive bmc_event (VM : Type) : Type :=
| GuestLine (out : list BMCInfo)                              (** a guest's handler read a line *)
| Received (info : BMCInfo) (fs : list (bmc_service VM))      (** a turn of the loop *)
| ServerReturned (f : bmc_service VM) (e : error)
| ContextDone
| LoopLeft.
Arguments GuestLine {VM}.
Arguments Received {VM}.
Arguments ServerReturned {VM}.
Arguments ContextDone {VM}.
Arguments LoopLeft {VM}.

Section Steps.
Context {W VM E : Type} `{!AddrOps} `{!NetOps W} `{!Listen W} `{!Environment E (bmc_service VM)}.

Record bmc_state : Type := {
  b_host : W;
  (** the connection handlers, and the lines their guests will still write *)
  b_guests : list (guestConnection * list (list Z));
  b_nodeCh : list BMCInfo;
  b_env : E;
  b_done : bool;      (** [ctx] is done *)
  b_loop : bool       (** the loop runs *)
}.

Context (s : bmcServer VM) (nodes : nat) (broken : bmc_service VM -> bool).

(** A server can return by itself when it has no socket, or when its socket or the
    certificate fails. *)
Definition may_fail (f : bmc_service VM) : bool := nil_socket f || broken f.

(** The errors a server can return, once its context is done or before. *)
Definition server_error (f : bmc_service VM) (ctx_done : bool) (e : error) : Prop :=
  may_fail f = true \/ (ctx_done = true /\ closed_error f e).

Inductive bmc_step : bmc_state -> bmc_event VM -> bmc_state -> Prop :=
(** The handler of a guest takes a line; a send needs room in the channel. *)
| guest_line w i g g' line lines gs out ch env d l :
    gs !! i = Some (g, line :: lines) -> handle_line g line = (g', out) ->
    (out = [] \/ nodeCh_room nodes ch = true) ->
    bmc_step
      {| b_host := w; b_guests := gs; b_nodeCh := ch; b_env := env; b_done := d; b_loop := l |}
      (GuestLine out)
      {| b_host := w; b_guests := <[i := (g', lines)]> gs; b_nodeCh := ch ++ out; b_env := env;
         b_done := d; b_loop := l |}
(** [case info := <-s.nodeCh], with the two [env.Go] *)
| loop_receives w w' gs info ch fs env d :
    start_bmc s info w = (Ok fs, w') ->
    bmc_step
      {| b_host := w; b_guests := gs; b_nodeCh := info :: ch; b_env := env; b_done := d; b_loop := true |}
      (Received info fs)
      {| b_host := w'; b_guests := gs; b_nodeCh := ch; b_env := foldl (fun e f => env_Go f e) env fs;
         b_done := d; b_loop := true |}
(** A server returns: by itself, with any error, or with the error of the closed socket,
    because the context of the environment, which descends from [ctx], is done. *)
| server_returns w gs ch env d l i f e :
    goroutines env !! i = Some f -> server_error f (env_cancelled env || d) e ->
    bmc_step
      {| b_host := w; b_guests := gs; b_nodeCh := ch; b_env := env; b_done := d; b_loop := l |}
      (ServerReturned f e)
      {| b_host := w; b_guests := gs; b_nodeCh := ch; b_env := goroutine_returns i (Some e) env;
         b_done := d; b_loop := l |}
| context_done w gs ch env l :
    bmc_step
      {| b_host := w; b_guests := gs; b_nodeCh := ch; b_env := env; b_done := false; b_loop := l |}
      ContextDone
      {| b_host := w; b_guests := gs; b_nodeCh := ch; b_env := env; b_done := true; b_loop := l |}
(** [case <-ctx.Done(): break OUTER], then [env.Cancel(nil)] *)
| loop_leaves w gs ch env :
    bmc_step
      {| b_host := w; b_guests := gs; b_nodeCh := ch; b_env := env; b_done := true; b_loop := true |}
      LoopLeft
      {| b_host := w; b_guests := gs; b_nodeCh := ch; b_env := env_Cancel None env; b_done := true;
         b_loop := false |}.

Inductive bmc_run : bmc_state -> list (bmc_event VM) -> bmc_state -> Prop :=
| bmc_run_nil b : bmc_run b [] b
| bmc_run_cons b1 ev b2 tr b3 : bmc_step b1 ev b2 -> bmc_run b2 tr b3 -> bmc_run b1 (ev :: tr) b3.

(** [return env.Wait()]: the result of [Start] when the loop and all servers ended. *)
Definition Start_returns (b : bmc_state) (r : option error) : Prop :=
  b_loop b = false /\ goroutines (b_env b) = [] /\ env_error (b_env b) = r.

(** At the start of [Start] for guests with the given streams. *)
Definition bmc_init (w : W) (guests : list (guestConnection * list Z)) : bmc_state :=
  {| b_host := w; b_guests := map (fun '(g, stream) => (g, read_lines [] stream)) guests;
     b_nodeCh := []; b_env := NewEnvironment; b_done := false; b_loop := true |}.

(** Every run from [b] comes to the end of [Start], with [P]. *)
Inductive bmc_ends (P : bmc_state -> Prop) (b : bmc_state) : Prop :=
| bmc_ends_now r : Start_returns b r -> P b -> bmc_ends P b
| bmc_ends_later : (exists ev b', bmc_step b ev b') ->
    (forall ev b', bmc_step b ev b' -> bmc_ends P b') -> bmc_ends P b.

End Steps.
Arguments bmc_state : clear implicits.

(** ** Traces *)

Section Traces.
Context {VM : Type}.

(** What the guests sent, what the loop received, and the servers it handed over. *)
Definition sent_of (ev : bmc_event VM) : list BMCInfo :=
  match ev with GuestLine out => out | _ => [] end.
Definition received_of (ev : bmc_event VM) : list BMCInfo :=
  match ev with Received info _ => [info] | _ => [] end.
Definition servers_of (ev : bmc_event VM) : list (bmc_service VM) :=
  match ev with Received _ fs => fs | _ => [] end.

Definition sent (tr : list (bmc_event VM)) : list BMCInfo := tr ≫= sent_of.
Definition received (tr : list (bmc_event VM)) : list BMCInfo := tr ≫= received_of.
Definition servers (tr : list (bmc_event VM)) : list (bmc_service VM) := tr ≫= servers_of.

(** Whatever ends the servers first, the loop or one of them, and its error. *)
Fixpoint first_end (tr : list (bmc_event VM)) : option (option error) :=
  match tr with
  | ServerReturned _ e :: _ => Some (Some e)
  | LoopLeft :: _ => Some None
  | _ :: tr => first_end tr
  | [] => None
  end.

Lemma first_end_snoc tr ev :
  first_end (tr ++ [ev]) = match first_end tr with Some r => Some r | None => first_end [ev] end.
Proof. induction tr as [|[] tr IH]; cbn [app first_end]; done. Qed.

Lemma sent_snoc tr ev : sent (tr ++ [ev]) = sent tr ++ sent_of ev.
Proof. unfold sent. rewrite bind_app. cbn. by rewrite app_nil_r. Qed.
Lemma received_snoc tr ev : received (tr ++ [ev]) = received tr ++ received_of ev.
Proof. unfold received. rewrite bind_app. cbn. by rewrite app_nil_r. Qed.
Lemma servers_snoc tr ev : servers (tr ++ [ev]) = servers tr ++ servers_of ev.
Proof. unfold servers. rewrite bind_app. cbn. by rewrite app_nil_r. Qed.
End Traces.

(** ** Lemmas *)

Lemma sum_insert {A : Type} (f : A -> nat) (l : list A) i x y :
  l !! i = Some x -> (sum_list_with f (<[i := y]> l) + f x = sum_list_with f l + f y)%nat.
Proof.
  revert i. induction l as [|a l IH]; intros [|i] Hi; try done; simpl in *.
  - injection Hi as ->. lia.
  - specialize (IH i Hi). lia.
Qed.

(** The error of an operation on a closed socket. *)
Definition context_closed : error := Errorf "read" net_ErrClosed.

Lemma context_closed_error {VM : Type} (f : bmc_service VM) : closed_error f context_closed.
Proof. destruct f; cbn; [|left]; by exists "read". Qed.

Section EnvLemmas.
Context {E F : Type} `{!Environment E F} {EL : EnvironmentLaws E F}.
Implicit Types (e : E) (fs : list F).

Abbreviation go_all := (foldl (fun e f => env_Go f e)).

Lemma go_all_cancelled fs e : env_cancelled (go_all e fs) = env_cancelled e.
Proof. revert e. induction fs as [|f fs IH]; intros e; cbn; [done|]. by rewrite IH, Go_cancelled. Qed.

Lemma go_all_error fs e : env_error (go_all e fs) = env_error e.
Proof. revert e. induction fs as [|f fs IH]; intros e; cbn; [done|]. by rewrite IH, Go_error. Qed.

Lemma go_all_goroutines fs e :
  goroutines (go_all e fs) = if env_cancelled e then goroutines e else goroutines e ++ fs.
Proof.
  revert e. induction fs as [|f fs IH]; intros e; cbn; [by rewrite app_nil_r; destruct (env_cancelled e)|].
  rewrite IH, Go_cancelled, Go_goroutines. destruct (env_cancelled e); [done|]. by rewrite <- app_assoc.
Qed.
End EnvLemmas.
#[export] Hint Rewrite @go_all_cancelled @go_all_error @go_all_goroutines using typeclasses eauto : environment.

Section Lemmas.
Context {W VM E : Type} `{!AddrOps} `{!NetOps W} {L : NetLaws W} `{!Listen W} {LL : ListenLaws (W := W)}.
Context `{!Environment E (bmc_service VM)} {EL : EnvironmentLaws E (bmc_service VM)}.
Context (s : bmcServer VM) (nodes : nat) (broken : bmc_service VM -> bool).
Implicit Types (b : bmc_state W E) (tr : list (bmc_event VM)).

#[local] Abbreviation step := (bmc_step s nodes broken).
#[local] Abbreviation run := (bmc_run s nodes broken).

Ltac b_cbn := cbn [b_host b_guests b_nodeCh b_env b_done b_loop] in *.

Lemma start_bmc_serves info w fs w' :
  parse_total -> start_bmc s info w = (Ok fs, w') -> serves (bs_vms s) info fs.
Proof.
  intros Hp Es. destruct (start_bmc_run s info w Hp) as (c & r & w1 & E1 & _).
  rewrite E1 in Es. injection Es as <- <-. by exists c, r.
Qed.

Lemma bmc_run_app b1 tr1 b2 tr2 b3 : run b1 tr1 b2 -> run b2 tr2 b3 -> run b1 (tr1 ++ tr2) b3.
Proof. induction 1; [done|]. intros. econstructor; eauto. Qed.

(** An invariant over the events so far. *)
Lemma run_invariant (I : list (bmc_event VM) -> bmc_state W E -> Prop) :
  (forall tr b ev b', I tr b -> step b ev b' -> I (tr ++ [ev]) b') ->
  forall b tr b' tr0, run b tr b' -> I tr0 b -> I (tr0 ++ tr) b'.
Proof.
  intros Hs b tr b' tr0 Hr. revert tr0. induction Hr as [b|b1 ev b2 tr b3 Hst _ IH]; intros tr0 H0.
  - by rewrite app_nil_r.
  - replace (tr0 ++ ev :: tr) with ((tr0 ++ [ev]) ++ tr) by (by rewrite <- app_assoc).
    apply IH. by eapply Hs.
Qed.

(** *** Messages *)

Definition unsent (p : guestConnection * list (list Z)) : nat := if gc_sent p.1 then 0 else 1.

(** The message of a guest: its first complete line. *)
Definition first_message (g : guestConnection) (stream : list Z) (info : BMCInfo) : Prop :=
  exists line lines, read_lines [] stream = line :: lines /\
    info = {| bi_serial := gc_serial g; bi_bmcAddress := string_of_bytes (TrimSpace line) |}.

(** A handler that has not sent has read nothing. *)
Definition guest_at (p : guestConnection * list Z) (q : guestConnection * list (list Z)) : Prop :=
  gc_serial q.1 = gc_serial p.1 /\ (gc_sent q.1 = false -> q.2 = read_lines [] p.2).

Definition messages_inv (guests : list (guestConnection * list Z)) tr b : Prop :=
  Forall2 guest_at guests (b_guests b) /\
  (sum_list_with unsent (b_guests b) + length (sent tr) <= length guests)%nat /\
  sent tr = received tr ++ b_nodeCh b /\
  Forall (fun info => exists g stream, (g, stream) ∈ guests /\ first_message g stream info) (sent tr).

Lemma handle_line_sent g line g' out :
  handle_line g line = (g', out) ->
  gc_serial g' = gc_serial g /\ gc_sent g' = true /\
  length out = (if gc_sent g then 0 else 1)%nat /\
  (gc_sent g = false ->
   out = [{| bi_serial := gc_serial g; bi_bmcAddress := string_of_bytes (TrimSpace line) |}]).
Proof. unfold handle_line. destruct (gc_sent g) eqn:Es; intros [= <- <-]; by split_and!. Qed.

Lemma messages_step guests tr b ev b' :
  messages_inv guests tr b -> step b ev b' -> messages_inv guests (tr ++ [ev]) b'.
Proof.
  intros (HG & HN & HQ & HM) Hs. unfold messages_inv.
  rewrite sent_snoc, received_snoc. destruct Hs as
    [w i g g' line lines gs out ch env d l Hi Hh Hr|w w' gs info ch fs env d Es| | |]; b_cbn;
    cbn [sent_of received_of]; rewrite ?app_nil_r; try (by split_and!).
  - destruct (handle_line_sent _ _ _ _ Hh) as (H1 & H2 & H3 & H4).
    destruct (Forall2_lookup_r _ _ _ _ _ HG Hi) as ([g0 stream] & H0 & Ha & Hb). cbn [fst snd] in *.
    split_and!.
    + rewrite <- (list_insert_id guests i (g0, stream)) by done. apply Forall2_insert; [done|].
      split; cbn; [by rewrite H1|by rewrite H2].
    + pose proof (sum_insert unsent gs i (g, line :: lines) (g', lines) Hi) as Hsum.
      unfold unsent in Hsum at 2 4. cbn [fst] in Hsum. rewrite H2 in Hsum. rewrite length_app, H3.
      destruct (gc_sent g); lia.
    + by rewrite HQ, app_assoc.
    + apply Forall_app. split; [done|]. destruct (gc_sent g) eqn:Eg; [by destruct out|].
      rewrite (H4 eq_refl). apply Forall_singleton. exists g0, stream.
      split; [by eapply list_elem_of_lookup_2|]. exists line, lines. by rewrite <- Hb, Ha.
  - split_and!; try done. by rewrite HQ, <- app_assoc.
Qed.

Lemma messages_init w guests :
  Forall (fun p => gc_sent p.1 = false) guests -> messages_inv guests [] (bmc_init w guests).
Proof.
  intros Hf. split_and!; cbn.
  - apply Forall2_fmap_r, Forall_Forall2_diag, Forall_forall. intros [g stream] _. by split.
  - rewrite Nat.add_0_r. induction Hf as [|[g stream] guests Hg _ IH]; cbn; [done|].
    unfold unsent at 1. cbn in *. rewrite Hg. lia.
  - done.
  - constructor.
Qed.

(** A guest that has a line to hand over is never kept waiting. *)
Lemma guest_not_blocked guests tr b i g line lines :
  messages_inv guests tr b -> (length guests <= nodes)%nat ->
  b_guests b !! i = Some (g, line :: lines) ->
  exists out b' g', step b (GuestLine out) b' /\ b_guests b' !! i = Some (g', lines).
Proof.
  intros (_ & HN & HQ & _) Hn Hi. destruct (handle_line g line) as [g' out] eqn:Eh.
  destruct b as [w gs ch env d l]. b_cbn. eexists out, _, g'. split.
  - eapply (guest_line s nodes broken w i g g' line lines); [exact Hi|exact Eh|].
    unfold handle_line in Eh. destruct (gc_sent g) eqn:Eg; injection Eh as <- <-; [by left|right].
    unfold nodeCh_room. apply Nat.ltb_lt. rewrite HQ, length_app in HN.
    pose proof (sum_insert unsent gs i (g, line :: lines) ({| gc_serial := ""; gc_sent := true; gc_guest := 0 |}, []) Hi)
      as Hsum. unfold unsent in Hsum at 2 4. cbn [fst gc_sent] in Hsum. rewrite Eg in Hsum. lia.
  - cbn. apply list_lookup_insert_eq. by eapply lookup_lt_Some.
Qed.

(** *** Servers *)

(** While the context is not done and no server could fail, all that were started run. *)
Definition servers_inv tr b : Prop :=
  Forall (fun ev => match ev with Received info fs => serves (bs_vms s) info fs | _ => True end) tr /\
  (b_loop b = false -> b_done b = true /\ env_cancelled (b_env b) = true) /\
  (b_done b = false -> Forall (fun f => may_fail broken f = false) (servers tr) ->
   goroutines (b_env b) = servers tr /\ env_cancelled (b_env b) = false).

Lemma servers_step tr b ev b' :
  parse_total -> servers_inv tr b -> step b ev b' -> servers_inv (tr ++ [ev]) b'.
Proof.
  intros Hp (HS & HL & HR) Hs. unfold servers_inv. rewrite servers_snoc, (Forall_app _ tr), Forall_singleton.
  destruct Hs as [|w w' gs info ch fs env d Es|w gs ch env d l i f e Hi Hf| |]; b_cbn;
    cbn [servers_of]; rewrite ?app_nil_r; autorewrite with environment; split_and!; try done.
  - by eapply start_bmc_serves.
  - intros Hd [Hf1 Hf2]%Forall_app. destruct (HR Hd Hf1) as [-> Hc]. by rewrite Hc.
  - intros Hl. by destruct (HL Hl).
  - intros Hd Hok. destruct (HR Hd Hok) as [Hg Hc]. rewrite Hg in Hi.
    rewrite Forall_forall in Hok. specialize (Hok f (list_elem_of_lookup_2 _ _ _ Hi)).
    destruct Hf as [Hf|[Hf _]]; [congruence|]. by rewrite Hc, Hd in Hf.
  - intros Hl. by destruct (HL Hl).
Qed.

Lemma servers_init w guests : servers_inv [] (bmc_init w guests).
Proof.
  split_and!; [constructor|done|]. intros _ _. cbn. by autorewrite with environment.
Qed.

(** Both hold in every state that is reached. *)
Lemma reached_invariants guests w tr b :
  parse_total -> Forall (fun p => gc_sent p.1 = false) guests -> run (bmc_init w guests) tr b ->
  messages_inv guests tr b /\ servers_inv tr b.
Proof.
  intros Hp Hg Hr. split.
  - exact (run_invariant _ (messages_step guests) _ _ _ [] Hr (messages_init w guests Hg)).
  - exact (run_invariant _ (fun tr b ev b' => servers_step tr b ev b' Hp) _ _ _ [] Hr (servers_init w guests)).
Qed.

(** *** After a cancellation *)

Lemma cancelled_step b ev b' :
  step b ev b' -> env_cancelled (b_env b) = true ->
  env_cancelled (b_env b') = true /\ env_error (b_env b') = env_error (b_env b) /\
  goroutines (b_env b') `sublist_of` goroutines (b_env b).
Proof.
  intros Hs Hc. destruct Hs; b_cbn; autorewrite with environment; rewrite ?Hc; split_and!;
    try done; apply sublist_delete.
Qed.

Lemma cancelled_run b tr b' :
  run b tr b' -> env_cancelled (b_env b) = true ->
  env_cancelled (b_env b') = true /\ env_error (b_env b') = env_error (b_env b) /\
  goroutines (b_env b') `sublist_of` goroutines (b_env b).
Proof.
  induction 1 as [b|b1 ev b2 tr b3 Hs _ IH]; intros Hc; [done|].
  destruct (cancelled_step _ _ _ Hs Hc) as (H1 & H2 & H3). destruct (IH H1) as (H4 & H5 & H6).
  split_and!; [done|congruence|by etrans].
Qed.

(** The environment is cancelled by what ends the servers first, and keeps its error; the
    servers that run were started, and those that returned did so for a reason. *)
Definition result_inv tr b : Prop :=
  (if env_cancelled (b_env b) then first_end tr = Some (env_error (b_env b)) else first_end tr = None) /\
  (forall f, f ∈ goroutines (b_env b) -> f ∈ servers tr) /\
  (forall e, first_end tr = Some (Some e) ->
    exists f, f ∈ servers tr /\ (may_fail broken f = true \/ closed_error f e)).

Lemma result_step tr b ev b' : result_inv tr b -> step b ev b' -> result_inv (tr ++ [ev]) b'.
Proof.
  intros (HC & HG & HE) Hs. unfold result_inv. rewrite first_end_snoc, servers_snoc.
  destruct Hs as [|w w' gs info ch fs env d Es|w gs ch env d l i f e Hi Hf| |]; b_cbn;
    cbn [servers_of first_end]; rewrite ?app_nil_r; autorewrite with environment.
  1, 4: destruct (env_cancelled env); rewrite HC in *; by split_and!.
  - assert (HE' : forall e, first_end tr = Some (Some e) -> exists g, g ∈ servers tr ++ fs /\
      (may_fail broken g = true \/ closed_error g e)).
    { intros e He. destruct (HE e He) as (g & Hg & Hx). exists g. rewrite elem_of_app. auto. }
    destruct (env_cancelled env); rewrite HC in *; split_and!; try done; intros g; rewrite !elem_of_app;
      naive_solver.
  - assert (Hf' : exists g, g ∈ servers tr /\ (may_fail broken g = true \/ closed_error g e)).
    { exists f. split; [by apply HG; eapply list_elem_of_lookup_2|]. destruct Hf as [Hf|[_ Hf]]; auto. }
    assert (HG' : forall g, g ∈ delete i (goroutines env) -> g ∈ servers tr).
    { intros g Hg. by eapply HG, list_elem_of_delete_inv. }
    destruct (env_cancelled env); rewrite HC in *; split_and!; try done. by intros e' [= <-].
  - destruct (env_cancelled env); rewrite HC in *; by split_and!.
Qed.

Lemma result_init w guests : result_inv [] (bmc_init w guests).
Proof.
  split_and!; cbn; autorewrite with environment; [done|intros f []%not_elem_of_nil|done].
Qed.

Lemma server_can_return b i f e :
  goroutines (b_env b) !! i = Some f ->
  server_error broken f (env_cancelled (b_env b) || b_done b) e ->
  step b (ServerReturned f e)
    {| b_host := b_host b; b_guests := b_guests b; b_nodeCh := b_nodeCh b;
       b_env := goroutine_returns i (Some e) (b_env b); b_done := b_done b; b_loop := b_loop b |}.
Proof. destruct b. b_cbn. apply server_returns. Qed.

(** *** The end *)

(** The work left: a line may become a message, a message two servers. *)
Definition bmc_left b : nat :=
  (sum_list_with (fun p => 4 * length p.2) (b_guests b) + 3 * length (b_nodeCh b) +
   length (goroutines (b_env b)) + (if b_loop b then 1 else 0))%nat.

Lemma bmc_left_decreases b ev b' :
  parse_total -> b_done b = true -> step b ev b' -> b_done b' = true /\ (bmc_left b' < bmc_left b)%nat.
Proof.
  intros Hp Hd Hs. unfold bmc_left. destruct Hs as
    [w i g g' line lines gs out ch env d l Hi Hh Hr|w w' gs info ch fs env d Es
    |w gs ch env d l i f e Hi Hf| |]; b_cbn; autorewrite with environment; split; try done; try lia.
  - pose proof (sum_insert (fun p => 4 * length p.2)%nat gs i (g, line :: lines) (g', lines) Hi) as Hsum.
    cbn [snd length] in Hsum. rewrite length_app. destruct (handle_line_sent _ _ _ _ Hh) as (_ & _ & Ho & _).
    rewrite Ho. destruct (gc_sent g); lia.
  - destruct (start_bmc_serves _ _ _ _ Hp Es) as (c & r & ->). cbn [length].
    destruct (env_cancelled env); rewrite ?length_app; cbn [length]; lia.
  - pose proof (lookup_lt_Some _ _ _ Hi). rewrite length_delete by (by eexists). lia.
Qed.

Lemma bmc_progress b : b_done b = true -> (exists r, Start_returns b r) \/ exists ev b', step b ev b'.
Proof.
  intros Hd. destruct b as [w gs ch env d l]. b_cbn. subst d. destruct l.
  - right. eexists _, _. apply loop_leaves.
  - destruct (goroutines env) as [|f fs] eqn:Eg; [left; by eexists|right].
    exists (ServerReturned f context_closed). eexists. eapply (server_returns _ _ _ _ _ _ _ _ _ 0);
      b_cbn; [by rewrite Eg|right]. split; [apply orb_true_r|apply context_closed_error].
Qed.

Lemma bmc_ends_done (P : bmc_state W E -> Prop) b :
  parse_total -> b_done b = true -> (forall ev b1 b2, step b1 ev b2 -> P b1 -> P b2) -> P b ->
  bmc_ends s nodes broken P b.
Proof.
  intros Hp Hd HP Hb. remember (bmc_left b) as n eqn:En. revert b En Hd Hb.
  induction (lt_wf n) as [n _ IH]. intros b -> Hd Hb. destruct (bmc_progress b Hd) as [[r Hr]|Hs].
  - by apply (bmc_ends_now _ _ _ _ _ r).
  - apply bmc_ends_later; [done|]. intros ev b' Hst. destruct (bmc_left_decreases _ _ _ Hp Hd Hst).
    eapply IH; eauto.
Qed.

(** The servers of a cancelled environment return one after the other. *)
Lemma drain b : b_done b = true -> b_loop b = false -> env_cancelled (b_env b) = true ->
  exists tr b', run b tr b' /\ Start_returns b' (env_error (b_env b)).
Proof.
  intros Hd Hl Hc. remember (goroutines (b_env b)) as fs eqn:Ef. revert b Hd Hl Hc Ef.
  induction fs as [|f fs IH]; intros b Hd Hl Hc Ef.
  - exists [], b. split; [constructor|done].
  - pose proof (server_can_return b 0 f context_closed) as Hs.
    rewrite <- Ef in Hs.
    specialize (Hs eq_refl (or_intror (conj (orb_true_intro _ _ (or_introl Hc)) (context_closed_error f)))).
    match type of Hs with bmc_step _ _ _ _ _ ?b1 => destruct (IH b1 Hd Hl) as (tr & b' & Hr & HS) end.
    + b_cbn. by autorewrite with environment.
    + b_cbn. autorewrite with environment. by rewrite <- Ef.
    + eexists _, b'. split; [by eapply bmc_run_cons|]. revert HS. b_cbn. autorewrite with environment.
      by rewrite Hc.
Qed.

(** The loop sees first that the context is done. *)
Lemma leaves_first b : b_done b = true -> b_loop b = true -> env_cancelled (b_env b) = false ->
  exists tr b', run b tr b' /\ Start_returns b' None.
Proof.
  destruct b as [w gs ch env d l]. b_cbn. intros -> -> Hc.
  destruct (drain {| b_host := w; b_guests := gs; b_nodeCh := ch;
    b_env := env_Cancel None env; b_done := true; b_loop := false |}) as (tr & b' & Hr & HS); try done.
  { cbn. by autorewrite with environment. }
  exists (LoopLeft :: tr), b'. split; [econstructor; [apply loop_leaves|done]|].
  revert HS. cbn. autorewrite with environment. by rewrite Hc.
Qed.

(** A server sees it first. *)
Lemma returns_first b i f e :
  b_done b = true -> b_loop b = true -> env_cancelled (b_env b) = false ->
  goroutines (b_env b) !! i = Some f -> closed_error f e ->
  exists tr b', run b tr b' /\ Start_returns b' (Some e).
Proof.
  destruct b as [w gs ch env d l]. b_cbn. intros -> -> Hc Hi He.
  destruct (drain {| b_host := w; b_guests := gs; b_nodeCh := ch;
    b_env := env_Cancel None (goroutine_returns i (Some e) env); b_done := true; b_loop := false |})
    as (tr & b' & Hr & HS); try done.
  { cbn. by autorewrite with environment. }
  exists (ServerReturned f e :: LoopLeft :: tr), b'. split.
  - econstructor; [|econstructor; [apply loop_leaves|exact Hr]].
    apply server_returns; [done|right]. split; [apply orb_true_r|done].
  - revert HS. cbn. autorewrite with environment. by rewrite Hc.
Qed.

(** What ended the servers, and the loop, in a state that is reached. *)
Lemma reached_result guests w tr b :
  parse_total -> run (bmc_init w guests) tr b ->
  result_inv tr b /\ (b_loop b = false -> b_done b = true /\ env_cancelled (b_env b) = true).
Proof.
  intros Hp Hr. split.
  - exact (run_invariant _ result_step _ _ _ [] Hr (result_init w guests)).
  - exact (proj1 (proj2 (run_invariant _ (fun tr b ev b' => servers_step tr b ev b' Hp) _ _ _ [] Hr
      (servers_init w guests)))).
Qed.

End Lemmas.

(** ** Properties *)

(** An environment that keeps what the interface describes. *)
Record well_env (F : Type) : Type := MkEnv {
  we_running : list F;
  we_cancelled : bool;
  we_error : option error
}.
Arguments MkEnv {F}.
Arguments we_running {F}.
Arguments we_cancelled {F}.
Arguments we_error {F}.

Definition sim_Cancel {F : Type} (r : option error) (e : well_env F) : well_env F :=
  if we_cancelled e then e else MkEnv (we_running e) true r.

#[export] Instance sim_Environment (F : Type) : Environment (well_env F) F := {|
  NewEnvironment := MkEnv [] false None;
  env_Go f e := if we_cancelled e then e else MkEnv (we_running e ++ [f]) false (we_error e);
  env_Cancel := sim_Cancel;
  goroutine_returns i r e :=
    let e := MkEnv (delete i (we_running e)) (we_cancelled e) (we_error e) in
    match r with Some x => sim_Cancel (Some x) e | None => e end;
  goroutines := we_running;
  env_cancelled := we_cancelled;
  env_error := we_error
|}.

#[export] Instance sim_EnvironmentLaws (F : Type) : EnvironmentLaws (well_env F) F.
Proof.
  split; try done; intros; cbn; unfold sim_Cancel; repeat (case_match; cbn in *; simplify_eq; try done).
Qed.

Section Properties.
Context {W VM E : Type} `{!AddrOps} `{!NetOps W} {L : NetLaws W} `{!Listen W} {LL : ListenLaws (W := W)}.
Context `{!Environment E (bmc_service VM)} {EL : EnvironmentLaws E (bmc_service VM)}.
Context (vms : gmap string VM) (networks : list network) (nodes : nat) (broken : bmc_service VM -> bool).

#[local] Abbreviation server := (NewBMCServer vms networks).

(** C27: guests, the channel and the servers.  In every state the BMC server reaches, when
    there are no more guests than nodes and whatever they write: no guest's handler waits
    for room in the channel; the loop receives what was sent, in the order it was sent,
    and a message that waits can be received; a guest sends at most once, its first
    line; each message gave an IPMI and a Redfish server the machine of its serial number;
    and while the context is not done and none of these servers has a nil socket or
    fails, all of them run. *)
Theorem bmc_servers_run (guests : list (guestConnection * list Z)) (w : W) (tr : list (bmc_event VM))
  (b : bmc_state W E) :
  parse_total -> Forall (fun p => gc_sent p.1 = false) guests -> (length guests <= nodes)%nat ->
  bmc_run server nodes broken (bmc_init w guests) tr b ->
  (forall i g line lines, b_guests b !! i = Some (g, line :: lines) ->
    exists out b' g', bmc_step server nodes broken b (GuestLine out) b' /\ b_guests b' !! i = Some (g', lines)) /\
  sent tr = received tr ++ b_nodeCh b /\
  (forall info ch, b_nodeCh b = info :: ch -> b_loop b = true ->
    exists fs b', bmc_step server nodes broken b (Received info fs) b') /\
  (length (sent tr) <= length guests)%nat /\
  (forall info, info ∈ sent tr -> exists g stream, (g, stream) ∈ guests /\ first_message g stream info) /\
  (forall info fs, Received info fs ∈ tr -> serves vms info fs) /\
  (b_done b = false -> Forall (fun f => may_fail broken f = false) (servers tr) ->
   b_loop b = true /\ goroutines (b_env b) = servers tr).
Proof.
  intros Hp Hg Hn Hr.
  destruct (reached_invariants _ _ _ _ _ _ _ Hp Hg Hr) as [HM (HS & HL & HR)].
  pose proof HM as (HG & HN & HQ & HF). split_and!.
  - intros i g line lines Hi. by eapply guest_not_blocked.
  - done.
  - intros info ch Hc Hl. destruct b as [wb gs ch0 env d l]. cbn in Hc, Hl. subst ch0 l.
    destruct (start_bmc_run server info wb Hp) as (c & r & w1 & E1 & _).
    eexists _, _. by apply loop_receives.
  - lia.
  - by rewrite Forall_forall in HF.
  - intros info fs Hin. rewrite Forall_forall in HS. exact (HS _ Hin).
  - intros Hd Hok. destruct (HR Hd Hok) as [-> Hc]. split; [|done].
    destruct (b_loop b) eqn:El; [done|]. destruct (HL eq_refl). congruence.
Qed.

(** C28: the shut-down.  Once the context is done, every interleaving of guests, loop and
    servers comes to the end of [Start], with every server returned; the messages still
    in the channel may be served or not.  What [Start] returns is decided by who ended
    first: nil if the loop left, otherwise the error of the first server that returned,
    which is the error of a closed socket or listener unless that server failed by
    itself.  A shut-down can end either way: while nobody has ended yet, a run gives nil,
    and for every running server and every error of its closed socket a run gives that
    error. *)
Theorem bmc_Start_ends (guests : list (guestConnection * list Z)) (w : W) (tr : list (bmc_event VM))
  (b : bmc_state W E) :
  parse_total -> bmc_run server nodes broken (bmc_init w guests) tr b -> b_done b = true ->
  bmc_ends server nodes broken (fun b' => b_done b' = true) b /\
  (forall tr' b' r, bmc_run server nodes broken b tr' b' -> Start_returns b' r ->
    first_end (tr ++ tr') = Some r /\
    forall e, r = Some e ->
      exists f, f ∈ servers (tr ++ tr') /\ (may_fail broken f = true \/ closed_error f e)) /\
  (first_end tr = None ->
   (exists tr' b', bmc_run server nodes broken b tr' b' /\ Start_returns b' None) /\
   forall f e, f ∈ goroutines (b_env b) -> closed_error f e ->
     exists tr' b', bmc_run server nodes broken b tr' b' /\ Start_returns b' (Some e)).
Proof.
  intros Hp Hr Hd. split_and!.
  - apply bmc_ends_done; try done. intros ev b1 b2 Hs Hd1. by eapply bmc_left_decreases.
  - intros tr' b' r Hr' (Hl & _ & Hres). pose proof (bmc_run_app _ _ _ _ _ _ _ _ Hr Hr') as Hall.
    destruct (reached_result _ _ _ _ _ _ _ Hp Hall) as [(HC & _ & HE) HL].
    destruct (HL Hl) as [_ Hc]. rewrite Hc, Hres in HC. split; [done|]. intros e ->. by apply HE.
  - intros Hf. destruct (reached_result _ _ _ _ _ _ _ Hp Hr) as [(HC & _) HL].
    assert (Hc : env_cancelled (b_env b) = false) by (destruct (env_cancelled (b_env b)); congruence).
    assert (Hl : b_loop b = true) by (destruct (b_loop b); [done|destruct (HL eq_refl); congruence]).
    split; [by apply leaves_first|]. intros f e [i Hi]%list_elem_of_lookup_1 He. by eapply returns_first.
Qed.

(** C29: one server that fails stops every BMC.  A server with a nil socket, or whose socket
    or certificate fails, returns its error and cancels the environment all BMCs share.
    From then on, in every run: each of the other servers can only end, and no server is
    started any more, although the loop goes on receiving messages; nobody is told, as
    [Start] does not return before the context is done, and only then returns that error. *)
Theorem bmc_failure_stops_all (guests : list (guestConnection * list Z)) (w : W) (tr : list (bmc_event VM))
  (b : bmc_state W E) (i : nat) (f : bmc_service VM) (e : error) :
  parse_total -> bmc_run server nodes broken (bmc_init w guests) tr b ->
  goroutines (b_env b) !! i = Some f -> may_fail broken f = true -> env_cancelled (b_env b) = false ->
  exists b1, bmc_step server nodes broken b (ServerReturned f e) b1 /\
    forall tr' b', bmc_run server nodes broken b1 tr' b' ->
      goroutines (b_env b') `sublist_of` delete i (goroutines (b_env b)) /\
      (forall j f', goroutines (b_env b') !! j = Some f' ->
        exists b2, bmc_step server nodes broken b' (ServerReturned f' context_closed) b2) /\
      (forall info ch, b_nodeCh b' = info :: ch -> b_loop b' = true ->
        exists fs b2, bmc_step server nodes broken b' (Received info fs) b2 /\
          goroutines (b_env b2) = goroutines (b_env b')) /\
      (b_done b' = false -> b_loop b' = true) /\
      (forall r, Start_returns b' r -> b_done b' = true /\ r = Some e).
Proof.
  intros Hp Hr Hi Hf Hc. eexists. split; [by apply server_can_return; [|left]|].
  intros tr' b' Hr'. pose proof (cancelled_run _ _ _ _ _ _ Hr') as HC. cbn in HC.
  rewrite returns_cancelled, returns_error, returns_goroutines, Hc in HC.
  destruct (HC eq_refl) as (Hc' & He' & Hs').
  assert (Hall : bmc_run server nodes broken (bmc_init w guests) (tr ++ ServerReturned f e :: tr') b').
  { eapply bmc_run_app; [exact Hr|]. econstructor; [|exact Hr']. by apply server_can_return; [|left]. }
  pose proof (run_invariant _ _ _ _ (fun tr b ev b' => servers_step server nodes broken tr b ev b' Hp) _ _ _ [] Hall
    (servers_init server broken w guests)) as (_ & HL & _).
  split_and!; [done| | | |].
  - intros j f' Hj. eexists. apply server_can_return; [exact Hj|right].
    split; [by rewrite Hc'|apply context_closed_error].
  - intros info ch Hch Hl. destruct b' as [wb gs ch0 env d l]. cbn in *. subst ch0 l.
    destruct (start_bmc_run server info wb Hp) as (c & r & w1 & E1 & _).
    eexists _, _. split; [by apply loop_receives|]. cbn. autorewrite with environment. by rewrite Hc'.
  - intros Hd. destruct (b_loop b'); [done|]. by destruct (HL eq_refl); congruence.
  - intros r (Hl & _ & Hr1). destruct (HL Hl) as [Hd _]. split; [done|congruence].
Qed.
End Properties.

(** One guest on a host, and one on a host whose port 443 is taken. *)
Definition demo_vms : gmap string string := {[ "fb8f" := "boot-0" ]}.
Definition demo_server : bmcServer string := NewBMCServer demo_vms [bmc_network].
Definition demo_guests : list (guestConnection * list Z) :=
  [({| gc_serial := "fb8f"; gc_sent := false; gc_guest := 1 |}, bytes_of_string "10.72.17.100" ++ [10])].

Definition busy_Listen : Listen netview := {|
  ResolveUDPAddr s := Ok (String.length s);
  ListenUDP a := sret (match a with Some n => n | None => 0%nat end);
  ResolveTCPAddr s := Ok (String.length s);
  ListenTCP _ := sthrow (errors_New "bind: address already in use")
|}.
Lemma busy_ListenLaws : ListenLaws (W := netview) (L := sim_NetLaws) (Listen0 := busy_Listen).
Proof. split; [by intros ? ?..| |]; done. Qed.

Definition started (fs : list (bmc_service string)) (done : bool) : bmc_state netview (well_env (bmc_service string)) :=
  {| b_host := (addBMCAddrToNetwork demo_server demo_info bmc_net).2;
     b_guests := [({| gc_serial := "fb8f"; gc_sent := true; gc_guest := 1 |}, [])];
     b_nodeCh := []; b_env := MkEnv fs false None; b_done := done; b_loop := true |}.

(** The guest's line arrives and its BMC is started. *)
Lemma demo_started (Li : Listen netview) fs :
  start_bmc (Listen0 := Li) demo_server demo_info bmc_net =
    (Ok fs, (addBMCAddrToNetwork demo_server demo_info bmc_net).2) -> length fs = 2%nat ->
  bmc_run (Listen0 := Li) demo_server 1 (fun _ => false) (bmc_init bmc_net demo_guests)
    [GuestLine [demo_info]; Received demo_info fs] (started fs false).
Proof.
  intros Es Hl. destruct fs as [|f1 [|f2 [|]]]; try done. econstructor.
  - eapply (guest_line _ _ _ _ 0); [vm_compute; reflexivity|vm_compute; reflexivity|right; reflexivity].
  - econstructor; [|constructor]. exact (loop_receives _ _ _ _ _ _ _ _ _ _ _ Es).
Qed.

Definition demo_servers : list (bmc_service string) :=
  [IPMIServer (Some 16%nat) (Some "boot-0"); RedfishServer (Some 16%nat) (Some "boot-0")].
Definition busy_servers : list (bmc_service string) :=
  [IPMIServer (Some 16%nat) (Some "boot-0"); RedfishServer None (Some "boot-0")].

Lemma bmc_servers_run_witness :
  let b := started demo_servers false in
  received [GuestLine [demo_info]; Received demo_info demo_servers] = [demo_info] /\
  b_loop b = true /\ goroutines (b_env b) = demo_servers.
Proof.
  intros b. split; [reflexivity|].
  destruct (bmc_servers_run (L := sim_NetLaws) demo_vms [bmc_network] 1 (fun _ => false) demo_guests bmc_net
    [GuestLine [demo_info]; Received demo_info demo_servers] b text_parse_total) as (_ & _ & _ & _ & _ & _ & H).
  - by repeat constructor.
  - vm_compute. lia.
  - apply demo_started; [vm_compute; reflexivity|reflexivity].
  - apply H; [reflexivity|]. by repeat constructor.
Defined.

(** The Redfish server sees the closed listener before the loop sees the context. *)
Lemma bmc_Start_ends_witness :
  bmc_ends demo_server 1 (fun _ => false) (fun b' => b_done b' = true) (started demo_servers true) /\
  (exists tr' b', bmc_run demo_server 1 (fun _ => false) (started demo_servers true) tr' b' /\
    Start_returns b' None) /\
  exists tr' b', bmc_run demo_server 1 (fun _ => false) (started demo_servers true) tr' b' /\
    Start_returns b' (Some http_ErrServerClosed).
Proof.
  destruct (bmc_Start_ends (L := sim_NetLaws) demo_vms [bmc_network] 1 (fun _ => false) demo_guests bmc_net
    ([GuestLine [demo_info]; Received demo_info demo_servers] ++ [ContextDone]) (started demo_servers true))
    as (H1 & _ & H2); [exact text_parse_total| |reflexivity|].
  - eapply bmc_run_app; [apply demo_started; [vm_compute; reflexivity|reflexivity]|].
    econstructor; [apply context_done|constructor].
  - split; [exact H1|]. destruct (H2 eq_refl) as [H3 H4]. split; [exact H3|].
    apply (H4 (RedfishServer (Some 16%nat) (Some "boot-0"))); [|right; reflexivity].
    apply list_elem_of_further, list_elem_of_here.
Defined.

(** Port 443 is taken: the Redfish server of the first BMC ends all. *)
Lemma bmc_failure_stops_all_witness :
  exists b1, bmc_step (Listen0 := busy_Listen) demo_server 1 (fun _ => false) (started busy_servers false)
      (ServerReturned (RedfishServer None (Some "boot-0")) (errors_New "invalid argument")) b1 /\
    forall tr' b', bmc_run (Listen0 := busy_Listen) demo_server 1 (fun _ => false) b1 tr' b' ->
      (b_done b' = false -> b_loop b' = true) /\
      (forall r, Start_returns b' r -> r = Some (errors_New "invalid argument")).
Proof.
  destruct (bmc_failure_stops_all (L := sim_NetLaws) (LL := busy_ListenLaws) demo_vms [bmc_network] 1
    (fun _ => false) demo_guests bmc_net [GuestLine [demo_info]; Received demo_info busy_servers]
    (started busy_servers false) 1 (RedfishServer None (Some "boot-0")) (errors_New "invalid argument")
    text_parse_total) as (b1 & H1 & H2); try reflexivity.
  - apply demo_started; [vm_compute; reflexivity|reflexivity].
  - exists b1. split; [exact H1|]. intros tr' b' Hr. destruct (H2 tr' b' Hr) as (_ & _ & _ & H3 & H4).
    split; [exact H3|]. intros r HS. apply (H4 r HS).
Defined.
