(* ===== verification/Node.v ===== *)
(** * Virtual machines (vm/node.go)

    The life of a node: made from its specification, prepared (images are
    downloaded), set up (volumes, taps, TPM, NVRAM, the QEMU process and its sockets)
    and cleaned up.  The node is mutable: its taps and volumes learn what was made
    for them.  The power operations of the running machine are those of [Qmp], on the
    monitor socket of the machine. *)

From S2P Require Import Prelude GoBinary GoCrypto Sha1 GoPath Host Netlink Files Dcnet World Cache.
From S2P Require Import Types Volume Qemu Tap Machine Qmp Bmc.

Local Open Scope Z_scope.
Local Open Scope go_scope.

(** ** Structures *)

Record node `{!UrlOps} : Type := {
  n_name : string;
  n_taps : list tap;
  n_volumes : list nodeVolume;
  n_ignitionFile : string;
  n_smp : smpSpec;
  n_memory : string;
  n_numa : numaSpec;
  n_networkDeviceQueue : Z;
  n_uefi : bool;
  n_tpm : bool;
  n_smbios : smBIOSConfig
}.

Record vm : Type := {
  vm_cmd : nat;
  vm_qmp : string;
  vm_connGuest : nat;
  vm_guest : string;
  vm_socket : string;
  vm_swtpmDir : string
}.

(** The interface VM. *)
Class VM (W V : Type) : Type := {
  VM_PowerStatus : V -> st W PowerStatus;
  VM_PowerOn : V -> st W unit;
  VM_PowerOff : V -> st W unit;
  VM_Wait : V -> st W unit;
  VM_SocketPath : V -> string;
  VM_Cleanup : V -> st W unit
}.

(** What [Setup] returns, with the handler it started for the guest's connection. *)
Record setup_result : Type := {
  sr_vm : option vm;
  sr_serial : string;
  sr_guest : option guestConnection
}.

#[export] Instance vm_eq_dec : EqDecision vm.
Proof. solve_decision. Defined.
#[export] Instance setup_result_eq_dec : EqDecision setup_result.
Proof. solve_decision. Defined.

(** The connections to the monitors, by the path of their socket. *)
Class Monitors (W : Type) : Type := monitor_at : string -> QmpConn W.

Section Node.
Context {W : Type} `{!Host W} `{!HostFiles W} `{!Http W} `{!Procs W} `{!UrlOps} `{!AddrOps}
  `{!NetOps W} `{!Rand W}.

(** ** Construction and preparation *)

Definition smp_of (s : SMPSpec) : smpSpec :=
  {| cpus := smp_CPUs s; cores := smp_Cores s; threads := smp_Threads s; dies := smp_Dies s;
     sockets := smp_Sockets s; maxCpus := smp_MaxCPUs s |}.

Definition NewNode (spec : NodeSpec) (imageSpecs : list ImageSpec)
  (deviceClassSpecs : list DeviceClassSpec) : st W node :=
  let* smp := deref (nd_SMP spec) in
  let* volumes := smap (fun v =>
    swrap ("failed to create the node volume " +:+ v_Name v)
      (slift (newNodeVolume v imageSpecs deviceClassSpecs))) (nd_Volumes spec) in
  let* taps := smap (fun i =>
    swrap ("failed to new type tap: bridge is " +:+ i) (newTap i)) (nd_Interfaces spec) in
  sret {| n_name := nd_Name spec; n_taps := taps; n_volumes := volumes;
          n_ignitionFile := nd_IgnitionFile spec; n_smp := smp_of smp; n_memory := nd_Memory spec;
          n_numa := {| nodes := numa_Nodes (nd_NUMA spec) |};
          n_networkDeviceQueue := nd_NetworkDeviceQueue spec; n_uefi := nd_UEFI spec;
          n_tpm := nd_TPM spec;
          n_smbios := {| manufacturer := smb_Manufacturer (nd_SMBIOS spec);
                         product := smb_Product (nd_SMBIOS spec);
                         serial := smb_Serial (nd_SMBIOS spec) |} |}.

Definition set_taps (n : node) (ts : list tap) : node :=
  {| n_name := n_name n; n_taps := ts; n_volumes := n_volumes n; n_ignitionFile := n_ignitionFile n;
     n_smp := n_smp n; n_memory := n_memory n; n_numa := n_numa n;
     n_networkDeviceQueue := n_networkDeviceQueue n; n_uefi := n_uefi n; n_tpm := n_tpm n;
     n_smbios := n_smbios n |}.
Definition set_volumes (n : node) (vs : list nodeVolume) : node :=
  {| n_name := n_name n; n_taps := n_taps n; n_volumes := vs; n_ignitionFile := n_ignitionFile n;
     n_smp := n_smp n; n_memory := n_memory n; n_numa := n_numa n;
     n_networkDeviceQueue := n_networkDeviceQueue n; n_uefi := n_uefi n; n_tpm := n_tpm n;
     n_smbios := n_smbios n |}.

Definition Prepare (c : Cache) : st (W * node) unit :=
  fun s =>
  let '(o, (w', vs)) := each (prepare c) (n_volumes s.2) s.1 in
  (let! _ := o in Ok tt, (w', set_volumes s.2 vs)).

(** ** Set-up *)

Definition createVolumes (n : node) (dataDir : string) : st W (list volumeArgs) :=
  let volumePathLastPart := Join ["volumes"; n_name n] in
  smap (fun v => swrap "failed to create the volume" (create v dataDir volumePathLastPart))
    (n_volumes n).

Definition createTaps (mtu : Z) : st (W * node) (list tapInfo) :=
  fun s =>
  let '(o, (w', ts)) :=
    each (swrap "failed to create the tap" (tap_create mtu (n_networkDeviceQueue s.2)))
      (n_taps s.2) s.1 in
  (o, (w', set_taps s.2 ts)).

Definition createNVRAM (p : string) : st W unit :=
  fun w => match os_Stat p w with
           | (NotExist, w) => exec_Run ["cp"; defaultOVMFVarsPath; p] w
           | (_, w) => (Ok tt, w)
           end.

(** Looks at the paths in turn: all there, or an error other than absence. *)
Fixpoint stat_all (ps : list string) (there : bool) : st W bool :=
  match ps with
  | [] => sret there
  | p :: ps' => fun w => match os_Stat p w with
                         | (Exists _, w) => stat_all ps' there w
                         | (NotExist, w) => stat_all ps' false w
                         | (StatFailed e, w) => (Err e, w)
                         end
  end.

(** The polling loops: [true] when the sockets are there, [false] when the context is
    done. *)
Fixpoint wait_for (fuel : nat) (ps : list string) : st W bool :=
  match fuel with
  | O => slift Diverge
  | S fuel' =>
      let* there := stat_all ps true in
      if there then sret true
      else fun w => let (tick, w) := wait_tick w in
                    if tick then wait_for fuel' ps w else (Ok false, w)
  end.

Definition startSWTPM (fuel : nat) (n : node) (r : Runtime) : st W unit :=
  os_Mkdir (swtpmSocketDirPath r (n_name n)) >>>
  exec_Start ["swtpm"; "socket"; "--tpmstate"; "dir=" +:+ swtpmSocketDirPath r (n_name n); "--tpm2";
              "--ctrl"; "type=unixio,path=" +:+ swtpmSocketPath r (n_name n)] >>>
  wait_for fuel [swtpmSocketPath r (n_name n)] >>>
  sret tt.

(** The files of a machine: the three sockets and the TPM directory. *)
Definition remove_files (files : list string) (dir : string) : st W unit :=
  sfor files remove_if_there >>> remove_dir_if_there dir.

Definition CleanupGarbage (n : node) (r : Runtime) : st W unit :=
  remove_files [guestSocketPath r (n_name n); qmpSocketPath r (n_name n); socketPath r (n_name n)]
    (swtpmSocketDirPath r (n_name n)).

Definition newQemu (nodeName : string) (taps : list tapInfo) (volumes : list volumeArgs)
  (ignitionFile : string) (smp : smpSpec) (memory : string) (numa : numaSpec)
  (networkDeviceQueue : Z) (uefi tpm : bool) (smbios : smBIOSConfig) : qemu :=
  {| q_name := nodeName; q_taps := taps; q_volumes := volumes; q_ignitionFile := ignitionFile;
     q_smp := smp; q_memory := memory; q_numa := numa; q_networkDeviceQueue := networkDeviceQueue;
     q_uefi := uefi; q_tpm := tpm; q_smbios := smbios |}.

(** After QEMU was started: waiting for its sockets and connecting to the guest. *)
Definition connect_guest (fuel : nat) (n : node) (r : Runtime) (cmd : nat) : st W setup_result :=
  let guest := guestSocketPath r (n_name n) in
  let qmp := qmpSocketPath r (n_name n) in
  let* there := wait_for fuel [qmp; guest] in
  if negb there then sret {| sr_vm := None; sr_serial := ""; sr_guest := None |}
  else
    let* connGuest := net_Dial guest in
    sret {| sr_vm := Some {| vm_cmd := cmd; vm_qmp := qmp; vm_connGuest := connGuest;
                             vm_guest := guest; vm_socket := socketPath r (n_name n);
                             vm_swtpmDir := swtpmSocketDirPath r (n_name n) |};
            sr_serial := serial (n_smbios n);
            sr_guest := Some {| gc_serial := serial (n_smbios n); gc_sent := false;
                                gc_guest := connGuest |} |}.

Definition node_Setup (vhostNetSupported : bool) (fuel : nat) (r : Runtime) (mtu : Z)
  : st (W * node) setup_result :=
  fun s =>
  let n := s.2 in
  (on_host (if Force r then CleanupGarbage n r else sret tt) >>>
   on_host (if n_tpm n then startSWTPM fuel n r else sret tt) >>>
   let* vArgs := on_host (createVolumes n (DataDir r)) in
   let* tapInfos := createTaps mtu in
   on_host (if n_uefi n then createNVRAM (nvramPath r (n_name n)) else sret tt) >>>
   let qemu := newQemu (n_name n) tapInfos vArgs (n_ignitionFile n) (n_smp n) (n_memory n)
                 (n_numa n) (n_networkDeviceQueue n) (n_uefi n) (n_tpm n) (n_smbios n) in
   let* c := on_host (command (macGenerator0 := macGeneratorForKVM) vhostNetSupported qemu r) in
   let* cmd := on_host (swrap "failed to start qemuCommand" (exec_Start c.1)) in
   on_host (connect_guest fuel n r cmd)) s.

(** ** Taps and clean-up *)

Definition Taps (n : node) : gmap string string :=
  fold_left (fun taps t => <[Attrs_Name (t_bridge t) := t_tapName t]> taps) (n_taps n) ∅.

Definition node_Cleanup (n : node) : st W unit := sfor (n_taps n) tap_Cleanup.

Definition vm_Cleanup (v : vm) : st W unit :=
  (fun w => match os_Stat (vm_guest v) w with
            | (Exists _, w) => swarn (conn_Close (vm_connGuest v)) w
            | (_, w) => (Ok tt, w)
            end) >>>
  remove_files [vm_guest v; vm_qmp v; vm_socket v] (vm_swtpmDir v).

#[global] Instance vm_VM `{!Monitors W} : VM W vm := {|
  VM_PowerStatus v := vm_PowerStatus (QmpConn0 := monitor_at (vm_qmp v));
  VM_PowerOn v := vm_PowerOn (QmpConn0 := monitor_at (vm_qmp v));
  VM_PowerOff v := vm_PowerOff (QmpConn0 := monitor_at (vm_qmp v));
  VM_Wait v := proc_Wait (vm_cmd v);
  VM_SocketPath v := vm_socket v;
  VM_Cleanup := vm_Cleanup
|}.

End Node.

(** ** Files of a machine *)

(** What clean-up removes for a node: its sockets, and its TPM directory with what is
    below it. *)
Definition gone (r : Runtime) (h p : string) : Prop :=
  p ∈ [guestSocketPath r h; qmpSocketPath r h; socketPath r h] \/
  under (swtpmSocketDirPath r h) p = true.

#[export] Instance gone_dec r h p : Decision (gone r h p).
Proof. unfold gone. apply _. Defined.

(** The paths of a running node. *)
Definition node_paths (r : Runtime) (h : string) : list string :=
  [guestSocketPath r h; qmpSocketPath r h; socketPath r h; swtpmSocketDirPath r h; swtpmSocketPath r h].

(** Names that are not another node's socket. *)
Definition apart (h1 h2 : string) : Prop :=
  h1 <> h2 /\ h1 <> h2 +:+ ".guest" /\ h1 <> h2 +:+ ".qmp" /\ h1 <> h2 +:+ ".socket" /\
  h2 <> h1 +:+ ".guest" /\ h2 <> h1 +:+ ".qmp" /\ h2 <> h1 +:+ ".socket".

Lemma swtpm_socket_file r h h' e :
  node_name h = true -> node_name h' = true -> plain e = true -> (2 <= String.length e)%nat ->
  Join [RunDir r; h'; "swtpm.socket"] <> Join [RunDir r; h +:+ e].
Proof.
  intros Hh Hh' He Hl. rewrite Join_in_node by done.
  change [RunDir r; h +:+ e] with ([RunDir r] ++ [h +:+ e]). rewrite Join_snoc by by apply plain_ext.
  intros E. apply (inj _) in E. pose proof (plain_split _ (plain_ext h e Hh He Hl)) as Hs.
  rewrite <- E, split_slash_app, !plain_split in Hs by done. discriminate.
Qed.

Lemma gone_own r h p : node_name h = true -> p ∈ node_paths r h -> gone r h p.
Proof.
  intros Hh. unfold node_paths, gone. rewrite !elem_of_cons, elem_of_nil.
  intros [->|[->|[->|[->|[->|[]]]]]]; try (left; set_solver +); right.
  - unfold under. by rewrite String.eqb_refl.
  - unfold under, swtpmSocketPath, swtpmSocketDirPath. rewrite Join_in_node by done.
    change [RunDir r; h] with ([RunDir r] ++ [h]). rewrite Join_snoc by done.
    rewrite !string_app_assoc, !prefix_app. apply orb_true_r.
Qed.

Lemma gone_other r h1 h2 p :
  node_name h1 = true -> node_name h2 = true -> apart h1 h2 -> p ∈ node_paths r h2 -> ~ gone r h1 p.
Proof.
  intros H1 H2 (Hne & Hg & Hq & Hs & Hg' & Hq' & Hs').
  destruct (runtime_paths_distinct r h1 h2 H1 H2) as (D1 & D2 & D3 & _ & D5 & D6 & D7 & D8 & _).
  destruct (runtime_paths_distinct r h2 h1 H2 H1) as (_ & _ & _ & _ & _ & E6 & E7 & E8 & E9 & E10 & E11).
  unfold node_paths. rewrite !elem_of_cons, elem_of_nil. intros Hp [Hf|Hu].
  - rewrite !elem_of_cons, elem_of_nil in Hf.
    destruct Hp as [->|[->|[->|[->|[->|[]]]]]], Hf as [Hf|[Hf|[Hf|[]]]]; try (by destruct D1; intuition);
      try tauto; try (by apply eq_sym in Hf; tauto);
      by apply swtpm_socket_file in Hf; [..|cbn; lia].
  - assert (Ex : forall e, plain e = true -> (2 <= String.length e)%nat -> h1 <> h2 +:+ e ->
      under (swtpmSocketDirPath r h1) (Join [RunDir r; h2 +:+ e]) = false).
    { intros e He Hl Hn. unfold swtpmSocketDirPath.
      rewrite under_run by (done || by apply plain_ext). apply String.eqb_neq. congruence. }
    destruct Hp as [->|[->|[->|[->|[->|[]]]]]].
    + unfold guestSocketPath in Hu. rewrite Ex in Hu; [done|done|cbn; lia|done].
    + unfold qmpSocketPath in Hu. rewrite Ex in Hu; [done|done|cbn; lia|done].
    + unfold socketPath in Hu. rewrite Ex in Hu; [done|done|cbn; lia|done].
    + unfold swtpmSocketDirPath in Hu. rewrite under_run in Hu by done.
      apply String.eqb_eq in Hu. congruence.
    + unfold swtpmSocketPath, swtpmSocketDirPath in Hu. by rewrite under_run_in in Hu.
Qed.

Section FileRemoval.
Context {W : Type} `{!Host W} `{!HostFiles W} `{!Http W} {L : FileLaws W} {LR : FileReliable W}
  `{!Procs W}.

Lemma remove_list_run files (w : W) :
  exists w', sfor files remove_if_there w = (Ok tt, w') /\
    forall p, paths w' !! p = if decide (p ∈ files) then None else paths w !! p.
Proof.
  revert w. induction files as [|f files IH]; intros w.
  - exists w. split; [done|]. intros p. by rewrite decide_False by apply not_elem_of_nil.
  - destruct (remove_if_there_run f w) as (w1 & E1 & P1). destruct (IH w1) as (w2 & E2 & P2).
    exists w2. cbn [sfor]. unfold sbind. rewrite E1, E2. split; [done|]. intros p. rewrite P2, P1.
    destruct (decide (p ∈ files)) as [Hin|Hn]; [by rewrite decide_True by by right|].
    destruct (decide (p = f)) as [->|Hne].
    + rewrite lookup_delete_eq, decide_True; [done|left].
    + rewrite lookup_delete_ne by done. rewrite decide_False; [done|].
      rewrite elem_of_cons. tauto.
Qed.

Lemma remove_files_run files d (w : W) :
  d ∉ files -> rooted_at d (paths w) ->
  exists w', remove_files files d w = (Ok tt, w') /\
    forall p, paths w' !! p =
      if decide (p ∈ files \/ under d p = true) then None else paths w !! p.
Proof.
  intros Hd Hr. destruct (remove_list_run files w) as (w1 & E1 & P1).
  destruct (remove_dir_if_there_run d w1) as (w2 & E2 & P2).
  { intros p Hp Hu. rewrite P1 in Hp. rewrite P1, decide_False by done. apply (Hr p); [|done].
    by destruct (decide (p ∈ files)) as [|]; [destruct Hp|]. }
  exists w2. unfold remove_files, sbind. rewrite E1, E2. split; [done|]. intros p. rewrite P2.
  destruct (under d p) eqn:Hu.
  - rewrite decide_True by (by right). apply map_lookup_filter_None_2. right. cbn. congruence.
  - rewrite map_lookup_filter, P1. destruct (decide (p ∈ files)) as [Hin|Hn].
    + by rewrite decide_True by (by left).
    + rewrite decide_False by (intros [|]; congruence). destruct (paths w !! p); [|done]. cbn.
      by rewrite option_guard_True.
Qed.

(** The files of one node. *)
Definition node_rooted (r : Runtime) (h : string) (w : W) : Prop :=
  rooted_at (swtpmSocketDirPath r h) (paths w).

Lemma dir_not_socket r h :
  node_name h = true ->
  swtpmSocketDirPath r h ∉ [guestSocketPath r h; qmpSocketPath r h; socketPath r h].
Proof.
  intros Hh. rewrite !elem_of_cons, elem_of_nil.
  destruct (runtime_paths_distinct r h h Hh Hh) as (_ & _ & _ & _ & _ & _ & _ & _ & E1 & E2 & E3).
  assert (Hn : forall e, (0 < String.length e)%nat -> h <> h +:+ e).
  { intros e Hl E. apply (f_equal String.length) in E. rewrite <- !length_bytes_of_string in E.
    rewrite bytes_of_string_app, length_app, !length_bytes_of_string in E. lia. }
  intros [E|[E|[E|[]]]]; [apply E3 in E|apply E2 in E|apply E1 in E]; revert E; apply Hn; cbn; lia.
Qed.

Lemma remove_node_run r h (w : W) :
  node_name h = true -> node_rooted r h w ->
  exists w', remove_files [guestSocketPath r h; qmpSocketPath r h; socketPath r h]
               (swtpmSocketDirPath r h) w = (Ok tt, w') /\
    forall p, paths w' !! p = if decide (gone r h p) then None else paths w !! p.
Proof.
  intros Hh Hr. destruct (remove_files_run _ _ w (dir_not_socket r h Hh) Hr) as (w' & E & P).
  exists w'. split; [done|]. intros p. rewrite P. by destruct (decide (gone r h p)) as [H|H];
    [rewrite decide_True|rewrite decide_False].
Qed.

(** Closing a connection leaves the files alone. *)
Class ConnFrame : Prop := conn_Close_law : forall c, effect fview (conn_Close c) (fun v _ v' => v' = v).

(** The machine [Setup] returns. *)
Definition machine_of (r : Runtime) (h : string) (cmd conn : nat) : vm :=
  {| vm_cmd := cmd; vm_qmp := qmpSocketPath r h; vm_connGuest := conn;
     vm_guest := guestSocketPath r h; vm_socket := socketPath r h;
     vm_swtpmDir := swtpmSocketDirPath r h |}.

Lemma vm_Cleanup_run {CF : ConnFrame} r h cmd conn (w : W) :
  node_name h = true -> node_rooted r h w ->
  exists w', vm_Cleanup (machine_of r h cmd conn) w = (Ok tt, w') /\
    forall p, paths w' !! p = if decide (gone r h p) then None else paths w !! p.
Proof.
  intros Hh Hr. unfold vm_Cleanup, sbind. cbn [machine_of vm_guest vm_qmp vm_socket vm_swtpmDir vm_connGuest].
  assert (H1 : exists w1, (match os_Stat (guestSocketPath r h) w with
            | (Exists _, w) => swarn (conn_Close conn) w
            | (_, w) => (Ok tt, w)
            end) = (Ok tt, w1) /\ paths w1 = paths w).
  { pose proof (paths_stat (guestSocketPath r h) w) as Hs.
    destruct (os_Stat (guestSocketPath r h) w) as [[] w1]; cbn in Hs; [|by exists w1..].
    pose proof (conn_Close_law conn w1) as Hc. unfold swarn, paths in *.
    destruct (conn_Close conn w1) as [[] w2]; try done; exists w2; (split; [done|]); by rewrite Hc. }
  destruct H1 as (w1 & -> & P1). destruct (remove_node_run r h w1 Hh) as (w2 & E2 & P2).
  { unfold node_rooted. by rewrite P1. }
  exists w2. split; [done|]. intros p. by rewrite P2, P1.
Qed.

End FileRemoval.

(** ** Taps of a node *)

Section NodeTaps.
Context {W : Type} `{!AddrOps} `{!NetOps W} {L : NetLaws W} {LR : NetReliable W} `{!Rand W}
  {RL : RandLaws W} {RF : RandFrame W} `{!UrlOps}.

(** The devices of a node whose taps were created. *)
Definition tap_infos (mtu : Z) (n : node) : list tapInfo :=
  map (fun t => {| Qemu.tap := t_tapName t; Qemu.bridge := Attrs_Name (t_bridge t);
                   Qemu.mtu := if 0 <? mtu then mtu else 1500 |}) (n_taps n).

Lemma createTaps_ok mtu w (n : node) infos w1 n1 :
  masters_exist (view w) -> Forall (tap_has_bridge (v_links (view w))) (n_taps n) ->
  createTaps mtu (w, n) = (Ok infos, (w1, n1)) ->
  infos = tap_infos mtu n1 /\ map t_bridge (n_taps n1) = map t_bridge (n_taps n) /\
  NoDup (map t_tapName (n_taps n1)) /\
  (forall t, t ∈ n_taps n1 -> v_links (view w) !! t_tapName t = None /\
     v_links (view w1) !! t_tapName t =
       Some (tap_link (Attrs_Name (t_bridge t)) mtu (n_networkDeviceQueue n))) /\
  exists w2, node_Cleanup n1 w1 = (Ok tt, w2) /\ view w2 = view w.
Proof.
  intros Hm Hb E. unfold createTaps in E. cbn [fst snd] in E.
  destruct (each _ (n_taps n) w) as [o [w1' ts]] eqn:Ee. injection E as -> <- <-.
  apply each_wrap in Ee.
  destruct (each_create _ _ _ _ _ _ _ _ ∅ (plugged_start _ Hm) Hb Ee)
    as (S & HS & Hd & Hnd & _ & Hi & Hbr & Hl & _ & Hc & Hf).
  cbn [set_taps n_taps] in *. rewrite dom_empty_L, (left_id_L ∅ (∪)) in Hd.
  assert (Hin : forall t, t ∈ ts -> is_Some (S !! t_tapName t)).
  { intros t Ht. apply elem_of_dom. rewrite Hd. apply elem_of_list_to_set, list_elem_of_fmap. by exists t. }
  split_and!; [exact Hi|done|done| |].
  - intros t Ht. pose proof Hl as Hl'. rewrite Forall_forall in Hl'. specialize (Hl' t Ht).
    destruct HS as [Em Hdisj _ _]. split; [by eapply map_disjoint_Some_r|].
    rewrite Em. by apply lookup_union_Some_r.
  - destruct (taps_Cleanup_run _ ts w1' S HS Hnd Hin) as (w2 & S2 & E2 & HS2 & Hd2 & Hc2 & Hf2).
    exists w2. split; [exact E2|]. rewrite Hd, difference_diag_L in Hd2. apply dom_empty_inv_L in Hd2 as ->.
    destruct HS2 as [Em2 _ _ _]. rewrite map_union_empty in Em2. rewrite Hc in Hc2. rewrite Hf in Hf2.
    destruct (view w2), (view w). cbn in *. congruence.
Qed.

End NodeTaps.

(** ** What Setup returns *)

Section SetupLemmas.
Context {W : Type} `{!Host W} `{!HostFiles W} `{!Http W} `{!Procs W} `{!UrlOps} `{!AddrOps}
  `{!NetOps W} `{!Rand W}.

(** The QEMU a node starts. *)
Definition node_qemu (n : node) (infos : list tapInfo) (vArgs : list volumeArgs) : qemu :=
  newQemu (n_name n) infos vArgs (n_ignitionFile n) (n_smp n) (n_memory n)
    (n_numa n) (n_networkDeviceQueue n) (n_uefi n) (n_tpm n) (n_smbios n).

(** A machine that is running: its process, its connection and its serial number. *)
Definition running_result (r : Runtime) (n : node) (cmd conn : nat) : setup_result :=
  {| sr_vm := Some (machine_of r (n_name n) cmd conn); sr_serial := serial (n_smbios n);
     sr_guest := Some {| gc_serial := serial (n_smbios n); gc_sent := false; gc_guest := conn |} |}.

Definition interrupted : setup_result := {| sr_vm := None; sr_serial := ""; sr_guest := None |}.

(** The last look at the sockets found them, or one was missing and the context done. *)
Lemma wait_for_ok fuel ps there (w w' : W) :
  wait_for fuel ps w = (Ok there, w') ->
  if there then exists wa, stat_all ps true wa = (Ok true, w')
  else exists wa wb, stat_all ps true wa = (Ok false, wb) /\ wait_tick wb = (false, w').
Proof.
  revert w. induction fuel as [|fuel IH]; intros w E; [done|]. cbn [wait_for] in E.
  apply sbind_ok in E as ([] & w1 & E1 & E); [injection E as <- <-; by exists w|].
  destruct (wait_tick w1) as [[] w2] eqn:Et; [by apply IH in E|]. injection E as <- <-. by exists w, w1.
Qed.

Lemma connect_guest_ok fuel n r cmd (w w' : W) res :
  connect_guest fuel n r cmd w = (Ok res, w') ->
  (res = interrupted /\
   wait_for fuel [qmpSocketPath r (n_name n); guestSocketPath r (n_name n)] w = (Ok false, w')) \/
  (exists conn w1, wait_for fuel [qmpSocketPath r (n_name n); guestSocketPath r (n_name n)] w = (Ok true, w1) /\
     net_Dial (guestSocketPath r (n_name n)) w1 = (Ok conn, w') /\ res = running_result r n cmd conn).
Proof.
  unfold connect_guest. intros E. apply sbind_ok in E as (there & w1 & E1 & E).
  destruct there; cbn [negb] in E; [|injection E as <- <-; by left; split].
  apply sbind_ok in E as (conn & w2 & E2 & E). injection E as <- <-. right. by exists conn, w1.
Qed.

(** A successful [Setup], by its steps. *)
Lemma node_Setup_ok vhost fuel r mtu (w w' : W) n n' res :
  node_Setup vhost fuel r mtu (w, n) = (Ok res, (w', n')) ->
  exists vArgs infos c cmd w1 w2 w3 w4 w5 w6 w7,
    (if Force r then CleanupGarbage n r else sret tt) w = (Ok tt, w1) /\
    (if n_tpm n then startSWTPM fuel n r else sret tt) w1 = (Ok tt, w2) /\
    createVolumes n (DataDir r) w2 = (Ok vArgs, w3) /\
    createTaps mtu (w3, n) = (Ok infos, (w4, n')) /\
    (if n_uefi n then createNVRAM (nvramPath r (n_name n)) else sret tt) w4 = (Ok tt, w5) /\
    command (macGenerator0 := macGeneratorForKVM) vhost (node_qemu n infos vArgs) r w5 = (Ok c, w6) /\
    exec_Start c.1 w6 = (Ok cmd, w7) /\
    connect_guest fuel n r cmd w7 = (Ok res, w').
Proof.
  unfold node_Setup. cbn [snd]. intros E.
  apply sbind_ok in E as ([] & [w1 n1] & E1 & E). apply on_host_run in E1 as [E1 H1]. cbn in E1, H1. subst n1.
  apply sbind_ok in E as ([] & [w2 n2] & E2 & E). apply on_host_run in E2 as [E2 H2]. cbn in E2, H2. subst n2.
  apply sbind_ok in E as (vArgs & [w3 n3] & E3 & E). apply on_host_run in E3 as [E3 H3].
  cbn [fst snd] in E3, H3. subst n3.
  apply sbind_ok in E as (infos & [w4 n4] & E4 & E).
  apply sbind_ok in E as ([] & [w5 n5] & E5 & E). apply on_host_run in E5 as [E5 H5].
  cbn [fst snd] in E5, H5. subst n5.
  apply sbind_ok in E as (c & [w6 n6] & E6 & E). apply on_host_run in E6 as [E6 H6].
  cbn [fst snd] in E6, H6. subst n6.
  apply sbind_ok in E as (cmd & [w7 n7] & E7 & E). apply on_host_run in E7 as [E7 H7].
  cbn [fst snd] in E7, H7. subst n7. apply swrap_ok in E7.
  apply on_host_run in E as [E H8]. cbn [fst snd] in E, H8. subst n'.
  exists vArgs, infos, c, cmd, w1, w2, w3, w4, w5, w6, w7. split_and!; assumption.
Qed.

(** The command line names the node's effective serial number. *)
Lemma command_serial vhost (c : qemu) r (w w' : W) l c' :
  command (macGenerator0 := macGeneratorForKVM) vhost c r w = (Ok (l, c'), w') ->
  exists smbios, "-smbios" ∈ l /\ (smbios +:+ ",serial=" +:+ effective_serial c) ∈ l.
Proof.
  unfold command. destruct (qemuParams_serial c r) as [_ (before & smbios & Hp)].
  destruct (qemuParams c r) as [params c1]. cbn in Hp. subst params. intros E.
  apply sbind_ok in E as (params & w1 & E1 & E). injection E as <- <- <-.
  assert (Hsub : forall x, x ∈ before ++ ["-smbios"; smbios +:+ ",serial=" +:+ effective_serial c] ->
    x ∈ params).
  { clear -E1. revert E1. generalize (before ++ ["-smbios"; smbios +:+ ",serial=" +:+ effective_serial c]).
    generalize (q_taps c1). intros ts. revert w. induction ts as [|t ts IH]; intros w ps E x Hx; cbn in E.
    - by injection E as <- _.
    - apply sbind_ok in E as (p & w2 & _ & E). apply (IH _ _ E). apply elem_of_app. by left. }
  exists smbios. split; right; apply elem_of_app; left; apply elem_of_app; left; apply Hsub, elem_of_app;
    right; set_solver +.
Qed.

End SetupLemmas.

(** ** Waiting *)

(** A context that is done after some more periods; looking at files does not take
    time. *)
Class Clock (W : Type) `{!Host W} `{!Procs W} : Type := {
  ticks_left : W -> nat;
  tick_law : forall w w', wait_tick w = (true, w') -> (ticks_left w' < ticks_left w)%nat;
  stat_time : forall p w, ticks_left (os_Stat p w).2 = ticks_left w
}.

Section Waiting.
Context {W : Type} `{!Host W} `{!Procs W} {C : Clock W}.

Lemma stat_all_time ps b (w : W) :
  ticks_left (stat_all ps b w).2 = ticks_left w /\
  match (stat_all ps b w).1 with Ok _ | Err _ => True | _ => False end.
Proof.
  revert b w. induction ps as [|p ps IH]; intros b w; [done|]. cbn [stat_all].
  pose proof (stat_time p w) as Ht. destruct (os_Stat p w) as [[] w1]; cbn in Ht; rewrite <- Ht; [apply IH..|done].
Qed.

(** The loops end: enough fuel is one more than the periods that are left. *)
Lemma wait_for_ends fuel ps (w : W) :
  (ticks_left w < fuel)%nat ->
  match (wait_for fuel ps w).1 with Ok _ | Err _ => True | _ => False end.
Proof.
  revert w. induction fuel as [|fuel IH]; intros w Hf; [lia|]. cbn [wait_for]. unfold sbind.
  destruct (stat_all_time ps true w) as [Ht Hok].
  destruct (stat_all ps true w) as [[[]|e|p|] w1]; cbn [fst snd] in *; try done.
  destruct (wait_tick w1) as [[] w2] eqn:E; [|done]. apply IH. pose proof (tick_law _ _ E). lia.
Qed.

End Waiting.

(** ** Construction *)

Section Construction.
Context {W : Type} `{!AddrOps} `{!NetOps W} {L : NetLaws W} {LR : NetReliable W} `{!UrlOps}.

Lemma smap_lift_ok {A B} (f : A -> outcome B) msg (R : A -> B -> Prop) l (w : W) :
  (forall x, x ∈ l -> exists y, f x = Ok y /\ R x y) ->
  exists ys, smap (fun x => swrap (msg x) (slift (f x))) l w = (Ok ys, w) /\ Forall2 R l ys.
Proof.
  induction l as [|x l IH]; intros Hf; [by exists []|].
  destruct (Hf x ltac:(left)) as (y & E & HR). destruct IH as (ys & E' & HF); [intros; apply Hf; by right|].
  assert (E0 : swrap (msg x) (slift (f x)) w = (Ok y, w)) by (unfold swrap, slift; by rewrite E).
  exists (y :: ys). cbn [smap]. unfold sbind. rewrite E0, E'. by split; [|constructor].
Qed.

Lemma newTaps_ok ifs (w : W) :
  (forall i, i ∈ ifs -> is_Some (v_links (view w) !! i)) ->
  exists ts w', smap (fun i => swrap ("failed to new type tap: bridge is " +:+ i) (newTap i)) ifs w = (Ok ts, w') /\
    view w' = view w /\ map (fun t => Attrs_Name (t_bridge t)) ts = ifs /\
    Forall (fun t => t_tapName t = "" /\ tap_has_bridge (v_links (view w)) t) ts.
Proof.
  revert w. induction ifs as [|i ifs IH]; intros w Hi; [by exists [], w|].
  destruct (Hi i ltac:(left)) as [l Hl]. destruct (LinkByName_run _ _ _ Hl) as (w1 & E1 & V1).
  destruct (IH w1) as (ts & w2 & E2 & V2 & Hn & Hf); [intros j Hj; rewrite V1; apply Hi; by right|].
  eexists _, w2. cbn [smap]. unfold sbind at 1, swrap at 1, newTap at 1, sbind at 1, swrap at 1.
  rewrite E1. cbn [owrap sret]. unfold sbind at 1. rewrite E2. split; [reflexivity|].
  rewrite V2, V1. split_and!; [done| |].
  - cbn. by rewrite Hn.
  - constructor; [split; [done|]; by exists l|]. by rewrite V1 in Hf.
Qed.

Lemma NewNode_ok spec imageSpecs deviceClassSpecs (w : W) :
  node_ok spec -> Forall device_class_ok deviceClassSpecs ->
  Forall (fun v => device_class_found (v_DeviceClass v) deviceClassSpecs /\ image_found v imageSpecs)
    (nd_Volumes spec) ->
  (forall i, i ∈ nd_Interfaces spec -> is_Some (v_links (view w) !! i)) ->
  exists n w', NewNode spec imageSpecs deviceClassSpecs w = (Ok n, w') /\ view w' = view w /\
    n_name n = nd_Name spec /\ serial (n_smbios n) = smb_Serial (nd_SMBIOS spec) /\
    (exists smp, nd_SMP spec = Some smp /\ n_smp n = smp_of smp) /\
    Forall2 (fun v => described v imageSpecs (find_device_class (v_DeviceClass v) deviceClassSpecs))
      (nd_Volumes spec) (n_volumes n) /\
    map (fun t => Attrs_Name (t_bridge t)) (n_taps n) = nd_Interfaces spec /\
    Forall (fun t => t_tapName t = "" /\ tap_has_bridge (v_links (view w)) t) (n_taps n).
Proof.
  intros (_ & Hv & _ & [smp Hs]) Hdc Hf Hi.
  destruct (smap_lift_ok (fun v => newNodeVolume v imageSpecs deviceClassSpecs)
    (fun v => "failed to create the node volume " +:+ v_Name v)
    (fun v => described v imageSpecs (find_device_class (v_DeviceClass v) deviceClassSpecs)) (nd_Volumes spec) w)
    as (vs & E1 & HF).
  { intros v Hin. rewrite Forall_forall in Hv, Hf. destruct (Hf v Hin). apply newNodeVolume_ok; auto. }
  destruct (newTaps_ok (nd_Interfaces spec) w Hi) as (ts & w' & E2 & V & Hn & Ht).
  eexists _, w'. unfold NewNode. rewrite Hs. cbn [deref]. unfold sbind at 1. cbn [sret].
  unfold sbind at 1. rewrite E1. unfold sbind. rewrite E2. split; [reflexivity|].
  cbn. split_and!; try done. by exists smp.
Qed.

End Construction.

(** ** Properties *)

(** A validated node specification becomes the node it describes.  On a reliable
    kernel where the bridges of its interfaces exist, and when the images and device
    classes its volumes name exist, [NewNode] never dereferences nil and gives a node
    with the specification's name, serial number and processors, the described volumes
    and one tap per interface on the bridge of that name, and changes nothing. *)
Theorem node_built {W : Type} `{!AddrOps} `{!NetOps W} {L : NetLaws W} {LR : NetReliable W}
  `{!UrlOps} (spec0 spec : NodeSpec) (imageSpecs : list ImageSpec)
  (deviceClassSpecs : list DeviceClassSpec) (w : W) :
  NodeSpec_validate spec0 = Ok spec -> Forall device_class_ok deviceClassSpecs ->
  Forall (fun v => device_class_found (v_DeviceClass v) deviceClassSpecs /\ image_found v imageSpecs)
    (nd_Volumes spec) ->
  (forall i, i ∈ nd_Interfaces spec -> is_Some (v_links (view w) !! i)) ->
  exists n w', NewNode spec imageSpecs deviceClassSpecs w = (Ok n, w') /\ view w' = view w /\
    n_name n = nd_Name spec /\ serial (n_smbios n) = smb_Serial (nd_SMBIOS spec) /\
    (exists smp, nd_SMP spec = Some smp /\ n_smp n = smp_of smp) /\
    Forall2 (fun v => described v imageSpecs (find_device_class (v_DeviceClass v) deviceClassSpecs))
      (nd_Volumes spec) (n_volumes n) /\
    map (fun t => Attrs_Name (t_bridge t)) (n_taps n) = nd_Interfaces spec /\
    Forall (fun t => t_tapName t = "" /\ tap_has_bridge (v_links (view w)) t) (n_taps n).
Proof. intros Hv. apply NewNode_ok. by eapply node_normal_ok. Qed.

Definition demo_node_spec : NodeSpec :=
  {| nd_Kind := "Node"; nd_Name := "boot-0"; nd_Interfaces := ["r0-node1"; "r0-node2"];
     nd_Volumes := [demo_volume NodeVolumeKindRaw]; nd_IgnitionFile := ""; nd_CPU := 2;
     nd_SMP := None; nd_Memory := "2G"; nd_NUMA := {| numa_Nodes := 0 |}; nd_NetworkDeviceQueue := 0;
     nd_UEFI := false; nd_TPM := true;
     nd_SMBIOS := {| smb_Manufacturer := "cybozu"; smb_Product := "mk2"; smb_Serial := "" |} |}.

Definition bridge_entry : link := MkLink _ Bridge 1500 true None [].

(** A host with two bridges, whose QEMU and swtpm make their sockets. *)
Definition node_world (ticks : nat) (starts : list (string * list string)) : simWorld :=
  {| sw_fs := MkFs {[ "/run/boot-0.qmp" := Socket; "/run/boot-1.qmp" := Socket; "/run/boot-1" := Directory ]} ∅ ∅;
     sw_next := 0;
     sw_net := MkView _ {[ "r0-node1" := bridge_entry; "r0-node2" := bridge_entry ]} ∅ ∅;
     sw_rand := 0; sw_pages := ∅; sw_starts := starts; sw_started := [];
     sw_ticks := ticks; sw_full := false;
     sw_mons := fun _ => fresh_monitor |}.

Definition good_starts : list (string * list string) :=
  [("swtpm", ["/run/boot-0/swtpm.socket"]);
   ("qemu-system-x86_64", ["/run/boot-0.qmp"; "/run/boot-0.guest"; "/run/boot-0.socket"])].

Definition node_runtime : Runtime :=
  {| Force := true; Graphic := false; RunDir := "/run"; DataDir := "/data"; ListenAddr := "";
     ImageCache := NewCache "/cache" |}.

Lemma demo_node_bridges (i : string) :
  i ∈ nd_Interfaces (node_normal demo_node_spec) ->
  is_Some (v_links (sw_net (node_world 0 [])) !! i).
Proof. intros Hi. repeat (apply elem_of_cons in Hi as [->|Hi]; [by eexists|]). by apply elem_of_nil in Hi. Qed.

Lemma node_built_witness :
  exists n w', NewNode (node_normal demo_node_spec) demo_images demo_classes (node_world 0 []) = (Ok n, w') /\
    map (fun t => Attrs_Name (t_bridge t)) (n_taps n) = ["r0-node1"; "r0-node2"].
Proof.
  destruct (node_built (L := simWorld_NetLaws) (LR := simWorld_NetReliable) demo_node_spec
    (node_normal demo_node_spec) demo_images demo_classes (node_world 0 [])) as
    (n & w' & E & _ & _ & _ & _ & _ & Ht & _).
  - reflexivity.
  - constructor; [by split|constructor].
  - constructor; [|constructor]. split; [|discriminate]. right. eexists. split; [left|reflexivity].
  - exact demo_node_bridges.
  - exists n, w'. split; [exact E|exact Ht].
Defined.

(** C31: taps come and go.  When the taps of a node were created, there is one device
    per interface, named afresh, up, with the MTU and queues, a port of its bridge, and
    QEMU is told exactly these names; cleaning the node up then gives back exactly the
    links there were before. *)
Theorem node_taps_restored {W : Type} `{!AddrOps} `{!NetOps W} {L : NetLaws W} {LR : NetReliable W}
  `{!Rand W} {RL : RandLaws W} {RF : RandFrame W} `{!UrlOps} (mtu : Z) (w : W) (n : node)
  (infos : list tapInfo) (w1 : W) (n1 : node) :
  masters_exist (view w) -> Forall (tap_has_bridge (v_links (view w))) (n_taps n) ->
  createTaps mtu (w, n) = (Ok infos, (w1, n1)) ->
  infos = tap_infos mtu n1 /\ map t_bridge (n_taps n1) = map t_bridge (n_taps n) /\
  NoDup (map t_tapName (n_taps n1)) /\
  (forall t, t ∈ n_taps n1 -> v_links (view w) !! t_tapName t = None /\
     v_links (view w1) !! t_tapName t =
       Some (tap_link (Attrs_Name (t_bridge t)) mtu (n_networkDeviceQueue n))) /\
  exists w2, node_Cleanup n1 w1 = (Ok tt, w2) /\ view w2 = view w.
Proof. apply createTaps_ok. Qed.

Definition demo_bridge (name : string) : Link :=
  {| Attrs_Name := name; Attrs_MTU := 1500; Link_kind := Bridge |}.

Definition demo_node (serial : string) : node :=
  {| n_name := "boot-0";
     n_taps := [{| t_bridge := demo_bridge "r0-node1"; t_tapName := "" |};
                {| t_bridge := demo_bridge "r0-node2"; t_tapName := "" |}];
     n_volumes := []; n_ignitionFile := ""; n_smp := smp_of (smp_of_cpu 2); n_memory := "2G";
     n_numa := {| nodes := 0 |}; n_networkDeviceQueue := 0; n_uefi := false; n_tpm := true;
     n_smbios := {| manufacturer := ""; product := ""; serial := serial |} |}.

Lemma demo_node_wf :
  masters_exist (sw_net (node_world 0 [])) /\
  Forall (tap_has_bridge (v_links (sw_net (node_world 0 [])))) (n_taps (demo_node "")).
Proof.
  split.
  - intros n l m Hl. cbn in Hl. apply lookup_insert_Some in Hl as [[_ <-]|[_ Hl]]; [done|].
    apply lookup_singleton_Some in Hl as [_ <-]. done.
  - repeat constructor; by eexists.
Qed.

Lemma node_taps_restored_witness :
  exists infos w1 n1 w2, createTaps 1460 (node_world 0 [], demo_node "") = (Ok infos, (w1, n1)) /\
    map Qemu.tap infos = ["pm_tap00000000"; "pm_tap01000000"] /\
    node_Cleanup n1 w1 = (Ok tt, w2) /\ sw_net w2 = sw_net (node_world 0 []).
Proof.
  destruct (createTaps 1460 (node_world 0 [], demo_node "")) as [o [w1 n1]] eqn:E.
  assert (Eo : exists infos, o = Ok infos /\ map Qemu.tap infos = ["pm_tap00000000"; "pm_tap01000000"]).
  { change o with (o, (w1, n1)).1. rewrite <- E. eexists. vm_compute. split; reflexivity. }
  destruct Eo as (infos & -> & Hi).
  destruct (node_taps_restored (L := simWorld_NetLaws) (LR := simWorld_NetReliable) 1460 _ _ _ _ _
    (proj1 demo_node_wf) (proj2 demo_node_wf) E) as (_ & _ & _ & _ & w2 & E2 & V).
  exists infos, w1, n1, w2. split_and!; [reflexivity|exact Hi|exact E2|exact V].
Defined.

(** A machine's files are cleaned up, and only those.  On a reliable host, both the
    forced removal of garbage before a set-up and the clean-up of a machine remove the
    node's sockets and its TPM directory with everything below it and nothing else: no
    path of a node whose name is not built from this one with a socket's extension is
    touched, and doing it again changes nothing. *)
Theorem node_files_removed {W : Type} `{!Host W} `{!HostFiles W} `{!Http W} {L : FileLaws W}
  {LR : FileReliable W} `{!Procs W} {CF : ConnFrame} `{!UrlOps} (r : Runtime) (n : node)
  (cmd conn : nat) (w : W) :
  let h := n_name n in
  node_name h = true -> node_rooted r h w ->
  (exists w', CleanupGarbage n r w = (Ok tt, w') /\
     forall p, paths w' !! p = if decide (gone r h p) then None else paths w !! p) /\
  (exists w', vm_Cleanup (machine_of r h cmd conn) w = (Ok tt, w') /\
     (forall p, paths w' !! p = if decide (gone r h p) then None else paths w !! p) /\
     exists w'', vm_Cleanup (machine_of r h cmd conn) w' = (Ok tt, w'') /\ paths w'' = paths w') /\
  (forall p, p ∈ node_paths r h -> gone r h p) /\
  (forall h' p, node_name h' = true -> apart h h' -> p ∈ node_paths r h' -> ~ gone r h p).
Proof.
  intros h Hh Hr. split_and!.
  - by apply remove_node_run.
  - destruct (vm_Cleanup_run r h cmd conn w Hh Hr) as (w' & E & P). exists w'. split_and!; [done..|].
    destruct (vm_Cleanup_run r h cmd conn w' Hh) as (w'' & E'' & P'').
    { intros p [i Hp] Hu. rewrite P, decide_True in Hp by (by right). done. }
    exists w''. split; [done|]. apply map_eq. intros p. rewrite P'', P. by destruct (decide (gone r h p)).
  - intros p. by apply gone_own.
  - intros h' p Hh' Ha. by apply gone_other.
Qed.

#[export] Instance simWorld_ConnFrame : ConnFrame.
Proof. by intros c w. Qed.

Lemma node_files_removed_witness :
  exists w', CleanupGarbage (demo_node "") node_runtime (node_world 0 []) = (Ok tt, w') /\
    paths w' !! "/run/boot-0.qmp" = None /\ paths w' !! "/run/boot-1.qmp" = Some Socket /\
    paths w' !! "/run/boot-1" = Some Directory.
Proof.
  assert (Hr : node_rooted node_runtime "boot-0" (node_world 0 [])).
  { intros p Hp Hu. exfalso. destruct Hp as [i Hp]. cbn in Hp.
    apply lookup_insert_Some in Hp as [[<- _]|[_ Hp]]; [vm_compute in Hu; discriminate|].
    apply lookup_insert_Some in Hp as [[<- _]|[_ Hp]]; [vm_compute in Hu; discriminate|].
    apply lookup_singleton_Some in Hp as [<- _]. vm_compute in Hu. discriminate. }
  destruct (node_files_removed node_runtime (demo_node "") 0 1 (node_world 0 []) eq_refl Hr)
    as ((w' & E & P) & _ & Hown & Hoth).
  exists w'. split; [exact E|]. rewrite !P.
  assert (Ha : apart "boot-0" "boot-1") by (repeat split; discriminate).
  split_and!.
  - rewrite decide_True; [reflexivity|]. apply Hown. vm_compute. set_solver +.
  - rewrite decide_False; [reflexivity|]. apply (Hoth "boot-1"); [reflexivity|exact Ha|].
    vm_compute. set_solver +.
  - rewrite decide_False; [reflexivity|]. apply (Hoth "boot-1"); [reflexivity|exact Ha|].
    vm_compute. set_solver +.
Defined.


Lemma unset_serial `{!UrlOps} (n : node) :
  serial (n_smbios n) = "" ->
  (if String.eqb (serial (n_smbios n)) "" then default_serial (n_name n) else serial (n_smbios n)) =
  default_serial (n_name n).
Proof. by intros ->. Qed.

