(* ===== verification/Netns.v ===== *)
(** * Network namespaces (dcnet/netns.go)

    A network namespace with its interfaces, that is veth pairs whose host ends are
    ports of bridges, its init scripts and its applications.  The namespace object
    is mutable: it collects the names of the host ends.  Calls made inside
    [createdNS.Do] run in the namespace; entering and leaving are the interface
    [NsOps]. *)

From S2P Require Import Prelude GoBinary GoCrypto GoPath Host Netlink Types Files Dcnet World Bmc.

Local Open Scope Z_scope.
Local Open Scope go_scope.

(** ** Packages netns, ns, ip and sysctl *)

Class NsOps (W : Type) : Type := {
  (** [netns.Get], [netns.NewNamed], [netns.Set], [netns.DeleteNamed] *)
  netns_Get : st W nat;
  netns_NewNamed : string -> st W nat;
  netns_Set : nat -> st W unit;
  netns_DeleteNamed : string -> st W unit;
  netns_Close : nat -> W -> W;
  (** [ns.GetNS(path)] and [Close] *)
  ns_GetNS : string -> st W nat;
  ns_Close : nat -> W -> W;
  (** the switch of [ns.Do] to a namespace and back *)
  ns_Enter : nat -> st W unit;
  ns_Leave : W -> W;
  (** [ip.SetupVethWithName(contVethName, hostVethName, mtu, "", hostNS)]: the names
      of the host's and the container's ends *)
  SetupVethWithName : string -> string -> Z -> st W (string * string);
  sysctl_Sysctl : string -> string -> st W unit;
  (** [os.Getenv], the owner of a file where [os.Stat] gives one, [os.Geteuid] *)
  os_Getenv : string -> W -> string;
  stat_Uid : string -> W -> option Z;
  os_Geteuid : W -> Z
}.

(** ** Structures *)

Record app : Type := { ap_name : string; ap_command : list string }.

Record iface `{!AddrOps} : Type := { if_network : Link; if_addresses : list addr }.

Record netNS `{!AddrOps} : Type := {
  ns_name : string;
  ns_initScripts : list string;
  ns_interfaces : list iface;
  ns_apps : list app;
  ns_hostVethNames : list string
}.

Definition HostVethNames `{!AddrOps} (n : netNS) : list string := ns_hostVethNames n.

Definition add_veth `{!AddrOps} (n : netNS) (name : string) : netNS :=
  {| ns_name := ns_name n; ns_initScripts := ns_initScripts n; ns_interfaces := ns_interfaces n;
     ns_apps := ns_apps n; ns_hostVethNames := ns_hostVethNames n ++ [name] |}.

Section NetNS.
Context {W : Type} `{!AddrOps} `{!NetOps W} `{!Rand W} `{!Host W} `{!NsOps W}.

(** ** Construction *)

Definition stat_ok (p : string) : st W unit :=
  fun w => match os_Stat p w with
           | (Exists _, w) => (Ok tt, w)
           | (NotExist, w) => (Err (errors_New "no such file or directory"), w)
           | (StatFailed e, w) => (Err e, w)
           end.

Definition new_script (script : string) : st W string :=
  let* script := filepath_Abs script in
  stat_ok script >>> sret script.

(** A nil interface is dereferenced at [i.Network]. *)
Definition new_iface (i : option NetNSInterfaceSpec) : st W iface :=
  let* i := deref i in
  let* bridge := swrap ("failed to find the bridge " +:+ nsi_Network i) (LinkByName (nsi_Network i)) in
  let* addrs := smap (fun a => swrap ("failed to parse the address " +:+ a) (slift (ParseAddr a)))
                  (nsi_Addresses i) in
  sret {| if_network := bridge; if_addresses := addrs |}.

Definition new_app (a : option NetNSAppSpec) : st W app :=
  let* a := deref a in sret {| ap_name := nsa_Name a; ap_command := nsa_Command a |}.

Definition NewNetNS (spec : NetNSSpec) : st W netNS :=
  let* scripts := smap new_script (ns_InitScripts spec) in
  let* interfaces := smap new_iface (ns_Interfaces spec) in
  let* apps := smap new_app (ns_Apps spec) in
  sret {| ns_name := ns_Name spec; ns_initScripts := scripts; ns_interfaces := interfaces;
          ns_apps := apps; ns_hostVethNames := [] |}.

(** ** Set-up *)

Definition getNsRunDir (w : W) : string :=
  let xdgRuntimeDir := os_Getenv "XDG_RUNTIME_DIR" w in
  if negb (String.eqb xdgRuntimeDir "") then
    match stat_Uid "/var/run" w with
    | Some uid => if negb (uid =? os_Geteuid w) then Join [xdgRuntimeDir; "netns"] else "/var/run/netns"
    | None => "/var/run/netns"
    end
  else "/var/run/netns".

(** [defer nsHandle.Close()] around a body. *)
Definition with_handle {A : Type} (h : nat) (body : st W A) : st W A :=
  fun w => let (o, w') := body w in (o, netns_Close h w').

Definition createNetNS (n : netNS) : st W nat :=
  let* currentNs := swrap "failed to get the current NetNS" netns_Get in
  let* nsHandle := swrap ("failed to create network namespace " +:+ ns_name n) (netns_NewNamed (ns_name n)) in
  with_handle nsHandle (
    swrap "failed to set the original NetNS" (netns_Set currentNs) >>>
    fun w => swrap ("failed to get network namespace " +:+ ns_name n)
               (ns_GetNS (Join [getNsRunDir w; ns_name n])) w).

(** [createdNS.Do(f)] *)
Definition ns_Do {X A : Type} (ns : nat) (body : st (W * X) A) : st (W * X) A :=
  on_host (ns_Enter ns) >>>
  fun s => let '(o, (w', x')) := body s in (o, (ns_Leave w', x')).

Definition enable_forwarding : st W unit :=
  let* lo := swrap "failed to find lo" (LinkByName "lo") in
  swrap "failed to set up to lo " (LinkSetUp (Attrs_Name lo)) >>>
  swrap "failed to enable IPv4 forwarding" (EnableForward ProtocolIPv4) >>>
  swrap "failed to enable IPv6 forwarding" (EnableForward ProtocolIPv6) >>>
  swrap "failed to set net.ipv4.conf.default.rp_filter=0"
    (sysctl_Sysctl "net.ipv4.conf.default.rp_filter" "0") >>>
  swrap "failed to set net.ipv4.conf.all.rp_filter=0"
    (sysctl_Sysctl "net.ipv4.conf.all.rp_filter" "0").

(** One turn of the loop over the interfaces. *)
Definition create_veth (mtu : Z) (i : nat) (ifc : iface) : st (W * netNS) unit :=
  let* hostVethName := on_host (RandomLinkName LinkTypeVeth) in
  let* veths := on_host (swrap "failed to set up veth"
    (SetupVethWithName ("eth" +:+ pretty (Z.of_nat i)) hostVethName mtu)) in
  (fun s => (Ok tt, (s.1, add_veth s.2 veths.1))) >>>
  let* containerVethLink := on_host (swrap ("failed to find the container veth " +:+ veths.2)
    (LinkByName veths.2)) in
  on_host (sfor (if_addresses ifc) (fun addr =>
    swrap ("failed to add the address " +:+ addr_String addr +:+ " to " +:+ Attrs_Name containerVethLink)
      (AddrAdd (Attrs_Name containerVethLink) addr))) >>>
  on_host (swrap ("failed to set " +:+ Attrs_Name containerVethLink +:+ " up")
    (LinkSetUp (Attrs_Name containerVethLink))).

Fixpoint create_veths (mtu : Z) (i : nat) (ifcs : list iface) : st (W * netNS) unit :=
  match ifcs with
  | [] => sret tt
  | ifc :: ifcs' => create_veth mtu i ifc >>> create_veths mtu (S i) ifcs'
  end.

(** [for i, hostVethName := range n.hostVethNames], with [n.interfaces[i]]. *)
Fixpoint connect_veths (i : nat) (names : list string) (ifcs : list iface) : st W unit :=
  match names with
  | [] => sret tt
  | name :: names' =>
      let* hostVethLink := swrap ("failed to find the host veth " +:+ name) (LinkByName name) in
      let* ifc := match ifcs !! i with
                  | Some ifc => sret ifc
                  | None => slift (Panic IndexOutOfRange)
                  end in
      swrap ("failed to set " +:+ Attrs_Name hostVethLink +:+ " to bridge " +:+
             Attrs_Name (if_network ifc))
        (LinkSetMaster (Attrs_Name hostVethLink) (Attrs_Name (if_network ifc))) >>>
      connect_veths (S i) names' ifcs
  end.

Definition run_scripts (scripts : list string) : st W unit :=
  sfor scripts (fun script => swrap ("failed to run the script " +:+ script) (exec_Run [script])).

(** An application: [app.command[0]] is evaluated, then the command runs. *)
Definition run_app (ns : nat) (a : app) : st (W * netNS) unit :=
  ns_Do ns (match ap_command a with
            | [] => slift (Panic IndexOutOfRange)
            | c => on_host (exec_Run c)
            end).

(** The applications run in an environment of their own: all are run and the first
    error is returned. *)
Fixpoint run_apps (ns : nat) (apps : list app) : st (W * netNS) unit :=
  match apps with
  | [] => sret tt
  | a :: apps' =>
      let* r := stry (run_app ns a) in
      match r with
      | inl _ => run_apps ns apps'
      | inr e => swarn (run_apps ns apps') >>> sthrow e
      end
  end.

Definition netns_Cleanup (n : netNS) : st W unit := swarn (netns_DeleteNamed (ns_name n)).

Definition netns_Setup (mtu : Z) (force : bool) : st (W * netNS) unit :=
  fun s =>
  let n := s.2 in
  (on_host (if force then netns_Cleanup n else sret tt) >>>
   let* createdNS := on_host (createNetNS n) in
   fun s =>
   let '(o, (w', n')) := (
     swrap ("failed to create veths in the namespace " +:+ ns_name n)
       (ns_Do createdNS (on_host enable_forwarding >>> create_veths mtu 0 (ns_interfaces n))) >>>
     (fun s => on_host (connect_veths 0 (ns_hostVethNames s.2) (ns_interfaces s.2)) s) >>>
     swrap ("failed to run init scripts in namespace " +:+ ns_name n)
       (ns_Do createdNS (on_host (run_scripts (ns_initScripts n)))) >>>
     run_apps createdNS (ns_apps n)) s in
   (o, (ns_Close createdNS w', n'))) s.

End NetNS.

(** ** Lemmas *)

(** The calls of these packages end with a value or an error, and a new veth pair has
    the names that were asked for. *)
Class NsLaws (W : Type) `{!NsOps W} `{!Host W} : Prop := {
  netns_Get_total : total netns_Get;
  netns_NewNamed_total : forall n, total (netns_NewNamed n);
  netns_Set_total : forall n, total (netns_Set n);
  netns_DeleteNamed_total : forall n, total (netns_DeleteNamed n);
  ns_GetNS_total : forall p, total (ns_GetNS p);
  ns_Enter_total : forall n, total (ns_Enter n);
  sysctl_total : forall k v, total (sysctl_Sysctl k v);
  exec_Run_total : forall c, total (exec_Run c);
  Getwd_total : total os_Getwd;
  SetupVeth_total : forall c h m, total (SetupVethWithName c h m);
  SetupVeth_names : forall c h m w r w', SetupVethWithName c h m w = (Ok r, w') -> r = (h, c)
}.

#[export] Hint Resolve netns_Get_total netns_NewNamed_total netns_Set_total netns_DeleteNamed_total
  ns_GetNS_total ns_Enter_total sysctl_total exec_Run_total Getwd_total SetupVeth_total : total.

Section NetNSLemmas.
Context {W : Type} `{!AddrOps} `{!NetOps W} {L : NetLaws W} `{!Rand W} {RL : RandLaws W} `{!Host W}
  `{!NsOps W} {NL : NsLaws W}.

Lemma effect_total {A} (m : st W A) R : effect view m R -> total m.
Proof. intros Hm w. specialize (Hm w). by destruct (m w) as [[] ]. Qed.

Lemma LinkByName_total n : total (LinkByName n). Proof. eapply effect_total, LinkByName_law. Qed.
Lemma LinkSetUp_total n : total (LinkSetUp n). Proof. eapply effect_total, LinkSetUp_law. Qed.
Lemma LinkSetMaster_total n m : total (LinkSetMaster n m).
Proof. eapply effect_total, LinkSetMaster_law. Qed.
Lemma AddrAdd_total n a : total (AddrAdd n a). Proof. eapply effect_total, AddrAdd_law. Qed.
Lemma EnableForward_total p : total (EnableForward p). Proof. eapply effect_total, EnableForward_law. Qed.
Lemma RandomLinkName_total t : total (RandomLinkName t).
Proof.
  unfold RandomLinkName. apply total_bind; [apply total_wrap|intros; apply total_ret].
  intros w. apply (Rand_Read_safe 4 w).
Qed.

#[local] Hint Resolve LinkByName_total LinkSetUp_total LinkSetMaster_total AddrAdd_total
  EnableForward_total RandomLinkName_total : total.

Lemma with_handle_total {A} h (m : st W A) : total m -> total (with_handle h m).
Proof. intros Hm w. specialize (Hm w). unfold with_handle. by destruct (m w) as [[] ]. Qed.

Lemma createNetNS_total n : total (createNetNS n).
Proof.
  unfold createNetNS. total. apply with_handle_total. total. intros w. apply ns_GetNS_total.
Qed.

Lemma enable_forwarding_total : total enable_forwarding.
Proof. unfold enable_forwarding. total. Qed.

Lemma run_scripts_total l : total (run_scripts l).
Proof. unfold run_scripts. total. Qed.

(** Facts about the namespace object; the host's state is arbitrary. *)
Definition obj (Q : netNS -> Prop) : W * netNS -> Prop := fun s => Q s.2.

Lemma safe_host {A} (m : st W A) (Q E : netNS -> Prop) :
  total m -> (forall n, Q n -> E n) -> safe (obj Q) (on_host m) (fun _ => obj Q) (obj E).
Proof.
  intros Hm HE [w n] Hn. specialize (Hm w). unfold on_host. cbn [fst snd].
  destruct (m w) as [[] w1]; try done. by apply HE.
Qed.

Lemma safe_host_val {A} (m : st W A) (P : A -> Prop) (Q E : netNS -> Prop) :
  total m -> (forall w a w', m w = (Ok a, w') -> P a) -> (forall n, Q n -> E n) ->
  safe (obj Q) (on_host m) (fun a => obj (fun n => P a /\ Q n)) (obj E).
Proof.
  intros Hm HP HE [w n] Hn. specialize (Hm w). unfold on_host. cbn [fst snd].
  destruct (m w) as [[] w1] eqn:E1; try done; [split; [by eapply HP|done]|by apply HE].
Qed.

Lemma safe_Do {A} ns (body : st (W * netNS) A) (Q Q' E : netNS -> Prop) :
  (forall n, Q n -> E n) -> safe (obj Q) body (fun _ => obj Q') (obj E) ->
  safe (obj Q) (ns_Do ns body) (fun _ => obj Q') (obj E).
Proof.
  intros HE Hb. unfold ns_Do. apply (safe_seq _ (obj Q)); [by apply safe_host; [eauto with total|]|].
  intros s Hs. specialize (Hb s Hs). by destruct (body s) as [[] [w' n']].
Qed.

Lemma safe_closing {A} ns (body : st (W * netNS) A) (Q Q' E : netNS -> Prop) :
  safe (obj Q) body (fun _ => obj Q') (obj E) ->
  safe (obj Q) (fun s => let '(o, (w', n')) := body s in (o, (ns_Close ns w', n')))
    (fun _ => obj Q') (obj E).
Proof. intros Hb s Hs. specialize (Hb s Hs). by destruct (body s) as [[] [w' n']]. Qed.

(** [k] interfaces have a host end, with a name of the program. *)
Definition veths (ifcs : list iface) (k : nat) (n : netNS) : Prop :=
  ns_interfaces n = ifcs /\ length (ns_hostVethNames n) = k /\
  Forall (fun name => String.prefix prefix name = true) (ns_hostVethNames n).

(** At most one host end per interface. *)
Definition some_veths (ifcs : list iface) (n : netNS) : Prop :=
  exists k, (k <= length ifcs)%nat /\ veths ifcs k n.

Lemma veths_some ifcs k n : (k <= length ifcs)%nat -> veths ifcs k n -> some_veths ifcs n.
Proof. intros Hk Hn. by exists k. Qed.

Lemma create_veth_safe mtu i ifc ifcs :
  (S i <= length ifcs)%nat ->
  safe (obj (veths ifcs i)) (create_veth mtu i ifc) (fun _ => obj (veths ifcs (S i)))
    (obj (some_veths ifcs)).
Proof.
  intros Hi. assert (HE0 : forall n, veths ifcs i n -> some_veths ifcs n) by (intros n; apply veths_some; lia).
  assert (HE : forall n, veths ifcs (S i) n -> some_veths ifcs n) by (intros n; by apply veths_some).
  unfold create_veth.
  eapply safe_bind; [apply (safe_host_val _ (fun name => String.prefix prefix name = true));
    [eauto with total| |apply HE0]|].
  { intros w name w' E. by destruct (RandomLinkName_shape _ _ _ _ E). }
  intros name. cbv beta.
  eapply safe_bind; [apply (safe_host_val _ (fun r => r.1 = name));
    [total| |intros n [_ Hn]; by apply HE0]|].
  { intros w r w' E. apply swrap_ok in E. apply SetupVeth_names in E as ->. done. }
  intros r. cbv beta. apply (safe_seq _ (obj (veths ifcs (S i)))).
  { intros [w n] (Hr & Hp & Hif & Hl & Hf). cbn in *. split_and!; [done| |].
    - cbn. rewrite length_app, Hl. cbn. lia.
    - cbn. apply Forall_app. split; [done|]. constructor; [congruence|constructor]. }
  eapply (safe_bind _ _ (fun _ => obj (veths ifcs (S i)))); [apply safe_host; [total|apply HE]|].
  intros l. apply (safe_seq _ (obj (veths ifcs (S i)))); apply safe_host; try apply HE; total.
Qed.

Lemma create_veths_safe mtu ifcs l i :
  (i + length l <= length ifcs)%nat ->
  safe (obj (veths ifcs i)) (create_veths mtu i l) (fun _ => obj (veths ifcs (i + length l)))
    (obj (some_veths ifcs)).
Proof.
  revert i. induction l as [|ifc l IH]; intros i Hi; cbn [create_veths length] in *.
  - apply safe_ret. intros s. by rewrite Nat.add_0_r.
  - eapply safe_seq; [apply create_veth_safe; lia|]. rewrite Nat.add_succ_r. apply IH. lia.
Qed.

(** Every host end has its interface. *)
Lemma connect_veths_total i names (ifcs : list iface) :
  (i + length names <= length ifcs)%nat -> total (connect_veths i names ifcs).
Proof.
  revert i. induction names as [|name names IH]; intros i Hi; cbn [connect_veths length] in *; [total|].
  apply total_bind; [total|]. intros l. destruct (lookup_lt_is_Some_2 ifcs i) as [ifc ->]; [lia|].
  apply total_bind; [total|]. intros c. apply total_bind; [total|]. intros _. apply IH. lia.
Qed.

Lemma run_app_safe ns a Q : ap_command a <> [] -> safe (obj Q) (run_app ns a) (fun _ => obj Q) (obj Q).
Proof.
  intros Hc. apply safe_Do; [done|]. destruct (ap_command a) as [|c l]; [done|].
  apply safe_host; [eauto with total|done].
Qed.

Lemma run_apps_safe ns apps Q :
  Forall (fun a => ap_command a <> []) apps -> safe (obj Q) (run_apps ns apps) (fun _ => obj Q) (obj Q).
Proof.
  induction 1 as [|a apps Ha _ IH]; cbn [run_apps]; [by apply safe_ret|].
  eapply safe_bind; [apply (safe_try _ _ (obj Q)); by apply run_app_safe|]. intros [[]|e]; [done|].
  apply (safe_seq _ (obj Q)); [by apply safe_warn|]. by intros s Hs.
Qed.

(** What [Setup] does once the namespace is there. *)
Lemma setup_body_safe mtu ns n ifcs :
  Forall (fun a => ap_command a <> []) (ns_apps n) ->
  safe (obj (veths ifcs 0)) (
    swrap ("failed to create veths in the namespace " +:+ ns_name n)
      (ns_Do ns (on_host enable_forwarding >>> create_veths mtu 0 ifcs)) >>>
    (fun s => on_host (connect_veths 0 (ns_hostVethNames s.2) (ns_interfaces s.2)) s) >>>
    swrap ("failed to run init scripts in namespace " +:+ ns_name n)
      (ns_Do ns (on_host (run_scripts (ns_initScripts n)))) >>>
    run_apps ns (ns_apps n)) (fun _ => obj (veths ifcs (length ifcs))) (obj (some_veths ifcs)).
Proof.
  intros Ha. set (k := length ifcs).
  assert (HE0 : forall m, veths ifcs 0 m -> some_veths ifcs m) by (intros m; apply veths_some; lia).
  assert (HE : forall m, veths ifcs k m -> some_veths ifcs m) by (intros m; by apply veths_some).
  apply (safe_seq _ (obj (veths ifcs k))).
  { apply safe_wrap, safe_Do; [apply HE0|]. apply (safe_seq _ (obj (veths ifcs 0))).
    - apply safe_host; [apply enable_forwarding_total|apply HE0].
    - by apply (create_veths_safe mtu ifcs ifcs 0). }
  apply (safe_seq _ (obj (veths ifcs k))).
  { intros [w1 n1] (Hi & Hl & Hf). cbn [snd] in *. rewrite Hi.
    assert (Ht : total (connect_veths 0 (ns_hostVethNames n1) ifcs)).
    { apply connect_veths_total. cbn. by rewrite Hl. }
    apply (safe_host _ (veths ifcs k) (some_veths ifcs) Ht HE (w1, n1)). by split_and!. }
  apply (safe_seq _ (obj (veths ifcs k))).
  { apply safe_wrap, safe_Do; [apply HE|]. apply safe_host; [apply run_scripts_total|apply HE]. }
  eapply safe_conseq; [by apply (run_apps_safe ns _ (veths ifcs k))|done|done|].
  intros s Hv. by apply HE.
Qed.

Lemma netns_Setup_safe mtu force n (w : W) :
  ns_hostVethNames n = [] -> Forall (fun a => ap_command a <> []) (ns_apps n) ->
  match netns_Setup mtu force (w, n) with
  | (Ok _, (_, n')) => veths (ns_interfaces n) (length (ns_interfaces n)) n'
  | (Err _, (_, n')) => some_veths (ns_interfaces n) n'
  | _ => False
  end.
Proof.
  intros Hn Ha. set (ifcs := ns_interfaces n).
  assert (H0 : veths ifcs 0 n) by (split_and!; [done|by rewrite Hn|rewrite Hn; constructor]).
  assert (HE : forall m, veths ifcs 0 m -> some_veths ifcs m) by (intros m; apply veths_some; lia).
  unfold netns_Setup. cbn [snd]. fold ifcs.
  match goal with |- context [sbind ?a ?b (w, n)] =>
    assert (Hb : safe (obj (veths ifcs 0)) (sbind a b) (fun _ => obj (veths ifcs (length ifcs)))
                   (obj (some_veths ifcs))) end.
  - apply (safe_seq _ (obj (veths ifcs 0))).
    { apply safe_host; [|apply HE]. destruct force; [unfold netns_Cleanup|]; total. }
    eapply (safe_bind _ _ (fun _ => obj (veths ifcs 0))).
    { apply safe_host; [apply createNetNS_total|apply HE]. }
    intros ns. apply safe_closing. by apply setup_body_safe.
  - specialize (Hb (w, n) H0). unfold obj in Hb.
    match goal with |- context [sbind ?a ?b (w, n)] => by destruct (sbind a b (w, n)) as [[] [w' n']] end.
Qed.

(** The namespace of a valid specification. *)
Lemma smap_length {S A B} (f : A -> st S B) l s ys s' : smap f l s = (Ok ys, s') -> length ys = length l.
Proof.
  revert s ys. induction l as [|x l IH]; intros s ys E; cbn [smap] in E; [by injection E as <- _|].
  apply sbind_ok in E as (y & s1 & _ & E). apply sbind_ok in E as (ys' & s2 & E & E').
  injection E' as <- <-. cbn. f_equal. by eapply IH.
Qed.

Lemma smap_ok_each {S A B} (f : A -> st S B) (P : A -> B -> Prop) l s ys s' :
  (forall x t y t', f x t = (Ok y, t') -> P x y) -> smap f l s = (Ok ys, s') -> Forall2 P l ys.
Proof.
  intros HP. revert s ys. induction l as [|x l IH]; intros s ys E; cbn [smap] in E; [by injection E as <- _|].
  apply sbind_ok in E as (y & s1 & E1 & E). apply sbind_ok in E as (ys' & s2 & E & E').
  injection E' as <- <-. constructor; [by eapply HP|by eapply IH].
Qed.

Lemma new_iface_Some i (w w' : W) ifc : new_iface i w = (Ok ifc, w') -> is_Some i.
Proof. destruct i; [by eexists|done]. Qed.

Lemma NewNetNS_ok spec (w w' : W) n :
  NewNetNS spec w = (Ok n, w') ->
  ns_name n = ns_Name spec /\ ns_hostVethNames n = [] /\
  length (ns_interfaces n) = length (ns_Interfaces spec) /\ Forall is_Some (ns_Interfaces spec) /\
  Forall2 (fun a b => exists a', a = Some a' /\ ap_command b = nsa_Command a') (ns_Apps spec) (ns_apps n).
Proof.
  unfold NewNetNS. intros E. apply sbind_ok in E as (scripts & w1 & _ & E).
  apply sbind_ok in E as (ifcs & w2 & E2 & E). apply sbind_ok in E as (apps & w3 & E3 & E).
  injection E as <- _. cbn. split_and!; try done; [by eapply smap_length| |].
  - pose proof (smap_ok_each new_iface (fun i _ => is_Some i) _ _ _ _ (fun i t y t' => new_iface_Some i t t' y) E2) as HF.
    clear -HF. by induction HF; constructor.
  - eapply smap_ok_each; [|exact E3]. intros [a|] t y t' E; [|done]. injection E as <- <-. by exists a.
Qed.

(** A call that ends, or dereferences nil for the reason [P]. *)
Definition nil_only {A : Type} (P : Prop) (m : st W A) : Prop :=
  forall w, match (m w).1 with
            | Ok _ | Err _ => True
            | Panic p => p = NilDereference /\ P
            | Diverge => False
            end.

Lemma nil_only_total {A} P (m : st W A) : total m -> nil_only P m.
Proof. intros Hm w. specialize (Hm w). by destruct (m w).1. Qed.

Lemma nil_only_bind {A B} P (m : st W A) (f : A -> st W B) :
  nil_only P m -> (forall a, nil_only P (f a)) -> nil_only P (sbind m f).
Proof.
  intros Hm Hf w. specialize (Hm w). unfold sbind. destruct (m w) as [[a|e|p|] w1]; try done. apply Hf.
Qed.

Lemma nil_only_map {A B} (P : Prop) (f : A -> st W B) l :
  (forall x, x ∈ l -> nil_only P (f x)) -> nil_only P (smap f l).
Proof.
  induction l as [|x l IH]; intros Hf; cbn [smap]; [apply nil_only_total; total|].
  apply nil_only_bind; [apply Hf; left|]. intros y. apply nil_only_bind; [|intros; apply nil_only_total; total].
  apply IH. intros z Hz. apply Hf. by right.
Qed.

Lemma new_script_total p : total (new_script p).
Proof.
  unfold new_script, filepath_Abs. total.
  all: intros w; unfold stat_ok; by destruct (os_Stat _ w) as [[] ].
Qed.

Lemma NewNetNS_nil_only spec :
  parse_total -> netns_ok spec -> nil_only (None ∈ ns_Interfaces spec) (NewNetNS spec).
Proof.
  intros Hp (_ & _ & Ha). unfold NewNetNS.
  apply nil_only_bind; [apply nil_only_total, total_map; apply new_script_total|]. intros scripts.
  apply nil_only_bind.
  { apply nil_only_map. intros [i|] Hi; [|intros w; by split]. apply nil_only_total.
    unfold new_iface, deref. total. intros w. apply Hp. }
  intros ifcs. apply nil_only_bind; [|intros; apply nil_only_total; total].
  apply nil_only_map. intros a Hin. rewrite Forall_forall in Ha. destruct (Ha a Hin) as (a' & -> & _).
  apply nil_only_total. unfold new_app, deref. total.
Qed.

End NetNSLemmas.

(** ** Properties *)

(** C25: building and setting a namespace up.  For a validated specification, however the
    calls end: [NewNetNS] panics only on a nil interface, a null in the YAML that
    validation lets through, and it never builds a namespace from a specification with
    one; and [Setup] of a namespace that was built never panics, as no index is out of
    range: neither the command of an application nor the interface of a host end.  A
    set-up that succeeds has made exactly one host end per interface; one that fails has
    made at most one per interface and remembers those it made.  All are named so that
    the forced removal of links finds them. *)
Theorem netns_setup_safe {W : Type} `{!AddrOps} `{!NetOps W} {L : NetLaws W} `{!Rand W}
  {RL : RandLaws W} `{!Host W} `{!NsOps W} {NL : NsLaws W} (spec spec' : NetNSSpec) (w0 : W) :
  parse_total -> NetNSSpec_validate spec = Ok spec' ->
  match NewNetNS spec' w0 with
  | (Ok n, _) =>
      None ∉ ns_Interfaces spec' /\
      forall (w : W) (mtu : Z) (force : bool),
        match netns_Setup mtu force (w, n) with
        | (Ok _, (_, n')) =>
            length (HostVethNames n') = length (ns_Interfaces spec') /\
            Forall (fun name => String.prefix prefix name = true) (HostVethNames n')
        | (Err _, (_, n')) =>
            (length (HostVethNames n') <= length (ns_Interfaces spec'))%nat /\
            Forall (fun name => String.prefix prefix name = true) (HostVethNames n')
        | _ => False
        end
  | (Err _, _) => True
  | (Panic p, _) => p = NilDereference /\ None ∈ ns_Interfaces spec'
  | (Diverge, _) => False
  end.
Proof.
  intros Hp Hv. apply NetNSSpec_validate_ok in Hv as [Hok ->].
  pose proof (NewNetNS_nil_only spec Hp Hok w0) as Hnil.
  destruct (NewNetNS spec w0) as [[n|e|p|] w1] eqn:Hn; cbn [fst] in Hnil; try done.
  destruct (NewNetNS_ok _ _ _ _ Hn) as (_ & Hh & Hl & Hs & Hc). split.
  { intros Hin. rewrite Forall_forall in Hs. by destruct (Hs None Hin). }
  intros w mtu force.
  assert (Ha : Forall (fun a => ap_command a <> []) (ns_apps n)).
  { destruct Hok as (_ & _ & Hok). clear -Hok Hc. induction Hc as [|a b la lb (a' & -> & Hb) _ IH]; [constructor|].
    apply Forall_cons in Hok as [Ha Hok]. constructor; [|by apply IH]. rewrite Hb. by apply app_ok_Some. }
  pose proof (netns_Setup_safe mtu force n w Hh Ha) as HS. unfold HostVethNames.
  destruct (netns_Setup mtu force (w, n)) as [[] [w2 n']]; try done.
  - destruct HS as (_ & H1 & H2). by rewrite H1.
  - destruct HS as (k & Hk & _ & <- & H2). by rewrite <- Hl.
Qed.

(** Namespaces on the simulated host: one network for all of them. *)
#[export] Instance simWorld_NsOps : NsOps simWorld := {|
  netns_Get w := (Ok 0%nat, w);
  netns_NewNamed _ w := (Ok 1%nat, w);
  netns_Set _ w := (Ok tt, w);
  netns_DeleteNamed _ w := (Ok tt, w);
  netns_Close _ w := w;
  ns_GetNS _ w := (Ok 1%nat, w);
  ns_Close _ w := w;
  ns_Enter _ w := (Ok tt, w);
  ns_Leave w := w;
  SetupVethWithName c h m w :=
    (Ok (h, c), with_net (set_links (fun l => <[h := new_link OtherLink]> (<[c := new_link OtherLink]> l))
                            (sw_net w)) w);
  sysctl_Sysctl _ _ w := (Ok tt, w);
  os_Getenv _ _ := "";
  stat_Uid _ _ := None;
  os_Geteuid _ := 0
|}.

#[export] Instance simWorld_NsLaws : NsLaws simWorld.
Proof. split; try done. by intros c h m w r w' [= <- _]. Qed.

Definition demo_netns : NetNSSpec :=
  {| ns_Kind := "NetworkNamespace"; ns_Name := "core";
     ns_Interfaces := [Some {| nsi_Network := "r0-node1"; nsi_Addresses := ["10.0.0.1/24"] |};
                       Some {| nsi_Network := "r0-node2"; nsi_Addresses := [] |}];
     ns_Apps := [Some {| nsa_Name := "bird"; nsa_Command := ["bird"; "-d"] |}]; ns_InitScripts := [] |}.

Definition netns_world : simWorld :=
  {| sw_fs := MkFs ∅ ∅ ∅; sw_next := 0;
     sw_net := MkView _ {[ "r0-node1" := MkLink _ Bridge 1500 true None [];
                           "r0-node2" := MkLink _ Bridge 1500 true None [];
                           "lo" := new_link OtherLink ]} ∅ ∅;
     sw_rand := 0; sw_pages := ∅; sw_starts := []; sw_started := []; sw_ticks := 0; sw_full := false;
     sw_mons := fun _ => fresh_monitor |}.

(** A specification with a null interface. *)
Definition null_netns : NetNSSpec :=
  {| ns_Kind := "NetworkNamespace"; ns_Name := "core"; ns_Interfaces := [None]; ns_Apps := [];
     ns_InitScripts := [] |}.

Lemma netns_setup_safe_witness :
  (exists n w1 w' n', NewNetNS demo_netns netns_world = (Ok n, w1) /\
    netns_Setup 1460 false (netns_world, n) = (Ok tt, (w', n')) /\
    length (HostVethNames n') = 2%nat /\
    v_links (sw_net w') !! "pm_veth01000000" = Some (MkLink _ OtherLink 1500 false (Some "r0-node2") [])) /\
  NetNSSpec_validate null_netns = Ok null_netns /\
  (NewNetNS null_netns netns_world).1 = Panic NilDereference.
Proof.
  split; [|split; [reflexivity|vm_compute; reflexivity]].
  pose proof (netns_setup_safe demo_netns demo_netns netns_world text_parse_total eq_refl) as H.
  destruct (NewNetNS demo_netns netns_world) as [o w1] eqn:E.
  assert (Eo : exists n, o = Ok n) by (change o with (o, w1).1; rewrite <- E; eexists; vm_compute; reflexivity).
  destruct Eo as [n ->]. destruct H as [_ H]. specialize (H netns_world 1460 false).
  destruct (netns_Setup 1460 false (netns_world, n)) as [o2 [w' n']] eqn:E2.
  assert (En : n = match (NewNetNS demo_netns netns_world).1 with Ok n => n | _ => n end) by (by rewrite E).
  assert (Eo : o2 = Ok tt).
  { change o2 with (o2, (w', n')).1. rewrite <- E2, En. vm_compute. reflexivity. }
  subst o2. exists n, w1, w', n'. split_and!; [reflexivity|exact E2|apply H|].
  change w' with (Ok tt, (w', n')).2.1. rewrite <- E2, En. vm_compute. reflexivity.
Defined.
