(* ===== verification/Runtime.v ===== *)
(** * Runtime information (vm/runtime.go)

    The directories of a run are made when the runtime is; the kernel module for fast
    network devices is looked for once. *)

From S2P Require Import Prelude GoBinary GoPath Host Netlink Files Dcnet World Cache.

Local Open Scope Z_scope.
Local Open Scope go_scope.

(** [bufio.NewScanner(f)]: the lines it yields; none on a nil file. *)
Class Scanner (W : Type) : Type := { scan_lines : nat -> st W (list (list Z)) }.

(** [strings.Contains] on the bytes of a string *)
Fixpoint bytes_Contains (l sub : list Z) : bool :=
  bool_decide (take (length sub) l = sub) ||
  match l with
  | [] => false
  | _ :: l' => bytes_Contains l' sub
  end.

Section Runtime.
Context {W : Type} `{!Host W} `{!Scanner W}.

(** [LoadModules]: the value of [vhostNetSupported] afterwards. *)
Definition LoadModules : st W bool :=
  swarn (exec_Run ["modprobe"; "vhost-net"]) >>>
  let* f := stry (os_Open "/proc/modules") in
  match f with
  | inr _ => sret false
  | inl f =>
      with_file f (
        let* lines := scan_lines f in
        sret (existsb (fun line => bytes_Contains line (bytes_of_string "vhost_net")) lines))
  end.

(** The directory is there, or is made. *)
Definition ensure_dir (dir : string) : st W unit :=
  fun w => match os_Stat dir w with
           | (Exists isDir, w) =>
               if isDir then (Ok tt, w) else (Err (errors_New (dir +:+ " is not a directory")), w)
           | (NotExist, w) => os_MkdirAll dir w
           | (StatFailed e, w) => (Err e, w)
           end.

Definition NewRuntime (force graphic : bool) (runDir dataDir cacheDir listenAddr : string)
  : st W Runtime :=
  ensure_dir cacheDir >>>
  let imageCacheDir := Join [cacheDir; "image_cache"] in
  os_MkdirAll imageCacheDir >>>
  ensure_dir dataDir >>>
  os_MkdirAll (Join [dataDir; "volumes"]) >>>
  os_MkdirAll (Join [dataDir; "nvram"]) >>>
  sret {| Force := force; Graphic := graphic; RunDir := runDir; DataDir := dataDir;
          ListenAddr := listenAddr; ImageCache := NewCache imageCacheDir |}.

End Runtime.

(** ** Lemmas *)

Section RuntimeLemmas.
Context {W : Type} `{!Host W} `{!HostFiles W} `{!Http W} {L : FileLaws W}.

(** Making directories only adds to the file system. *)
Definition adds (w w' : W) : Prop := paths w ⊆ paths w'.

#[local] Instance adds_pre : PreOrder adds.
Proof. split; [intros w; unfold adds; reflexivity|]. intros w1 w2 w3. unfold adds. apply transitivity. Qed.

Lemma MkdirAll_safe d (P : W -> Prop) :
  (forall w w', P w -> adds w w' -> P w') ->
  safe P (os_MkdirAll d) (fun _ w => P w /\ paths w !! d = Some Directory) P.
Proof.
  intros HP w Hw. pose proof (MkdirAll_law d w) as Hm.
  destruct (os_MkdirAll d w) as [[] w']; try done.
  - destruct Hm as [Hd Ha]. split; [by eapply HP|done].
  - by eapply HP.
Qed.

Lemma ensure_dir_safe d (P : W -> Prop) :
  (forall w w', P w -> adds w w' -> P w') ->
  safe P (ensure_dir d) (fun _ w => P w /\ paths w !! d = Some Directory) P.
Proof.
  intros HP w Hw. unfold ensure_dir. destruct (Stat_law d w) as [Hv Hs].
  destruct (os_Stat d w) as [[b| |e] w1]; cbn [fst snd] in Hv, Hs.
  - assert (H1 : P w1) by (apply (HP w); [done|unfold adds, paths; by rewrite Hv]).
    destruct b; [|done]. split; [done|]. destruct Hs as (i & Hi & Hd). unfold paths. rewrite Hv, Hi.
    by destruct i.
  - apply (MkdirAll_safe d P HP w1). apply (HP w); [done|]. unfold adds, paths. by rewrite Hv.
  - apply (HP w); [done|]. unfold adds, paths. by rewrite Hv.
Qed.

(** Directories that are there. *)
Definition dirs (w0 : W) (ds : list string) (w : W) : Prop :=
  adds w0 w /\ Forall (fun d => paths w !! d = Some Directory) ds.

Lemma dirs_adds w0 ds w w' : dirs w0 ds w -> adds w w' -> dirs w0 ds w'.
Proof.
  intros [Ha Hf] Hw. split; [by etransitivity|]. eapply Forall_impl; [done|].
  intros d Hd. exact (lookup_weaken _ _ _ _ Hd Hw).
Qed.

Lemma dirs_next w0 ds d (m : st W unit) :
  (forall P, (forall w w', P w -> adds w w' -> P w') ->
     safe P m (fun _ w => P w /\ paths w !! d = Some Directory) P) ->
  safe (dirs w0 ds) m (fun _ => dirs w0 (d :: ds)) (fun w => adds w0 w).
Proof.
  intros Hm. eapply safe_conseq; [apply (Hm (dirs w0 ds))| | |]; cbn.
  - intros w w'. apply dirs_adds.
  - done.
  - intros _ w [[Ha Hf] Hd]. split; [done|]. by constructor.
  - by intros w [Ha _].
Qed.

Lemma NewRuntime_safe force graphic runDir dataDir cacheDir listenAddr w0 :
  safe (dirs w0 []) (NewRuntime force graphic runDir dataDir cacheDir listenAddr)
    (fun r w => r = {| Force := force; Graphic := graphic; RunDir := runDir; DataDir := dataDir;
                       ListenAddr := listenAddr; ImageCache := NewCache (Join [cacheDir; "image_cache"]) |} /\
       dirs w0 [Join [dataDir; "nvram"]; Join [dataDir; "volumes"]; dataDir;
                Join [cacheDir; "image_cache"]; cacheDir] w)
    (fun w => adds w0 w).
Proof.
  unfold NewRuntime.
  eapply safe_seq; [apply dirs_next; intros P HP; by apply ensure_dir_safe|].
  eapply safe_seq; [apply dirs_next; intros P HP; by apply MkdirAll_safe|].
  eapply safe_seq; [apply dirs_next; intros P HP; by apply ensure_dir_safe|].
  eapply safe_seq; [apply dirs_next; intros P HP; by apply MkdirAll_safe|].
  eapply safe_seq; [apply dirs_next; intros P HP; by apply MkdirAll_safe|].
  by apply safe_ret.
Qed.

End RuntimeLemmas.

(** ** Properties *)

(** A new runtime has its directories.  [NewRuntime] that succeeds returns the
    runtime of its arguments, with the image cache below the cache directory, and the
    cache, data, volume and NVRAM directories are there; whether it succeeds or not,
    nothing that was on the file system is removed or replaced; and a data or cache
    directory that is a file is refused. *)
Theorem runtime_directories {W : Type} `{!Host W} `{!HostFiles W} `{!Http W} {L : FileLaws W}
  (force graphic : bool) (runDir dataDir cacheDir listenAddr : string) (w : W) :
  match NewRuntime force graphic runDir dataDir cacheDir listenAddr w with
  | (Ok r, w') =>
      r = {| Force := force; Graphic := graphic; RunDir := runDir; DataDir := dataDir;
             ListenAddr := listenAddr; ImageCache := NewCache (Join [cacheDir; "image_cache"]) |} /\
      Forall (fun d => paths w' !! d = Some Directory)
        [Join [dataDir; "nvram"]; Join [dataDir; "volumes"]; dataDir; cache_dir (ImageCache r); cacheDir] /\
      paths w ⊆ paths w'
  | (Err _, w') => paths w ⊆ paths w'
  | _ => False
  end /\
  (forall i, is_dir i = false ->
    paths w !! cacheDir = Some i \/ paths w !! dataDir = Some i ->
    forall r w', NewRuntime force graphic runDir dataDir cacheDir listenAddr w <> (Ok r, w')).
Proof.
  pose proof (NewRuntime_safe force graphic runDir dataDir cacheDir listenAddr w w
    (conj (reflexivity (paths w)) (proj2 (Forall_nil _) I))) as H.
  split.
  - destruct (NewRuntime _ _ _ _ _ _ w) as [[] w']; try done. destruct H as [-> [Ha Hf]]. done.
  - intros i Hi Hp r w' E. rewrite E in H. destruct H as [_ [Ha Hf]].
    rewrite !Forall_cons in Hf. destruct Hf as (_ & _ & Hd & _ & Hc & _).
    destruct Hp as [Hp|Hp]; apply (lookup_weaken _ _ _ _ Hp) in Ha;
      [rewrite Hc in Ha|rewrite Hd in Ha]; injection Ha as <-; done.
Qed.

Lemma runtime_directories_witness :
  (NewRuntime false false "/run" "/data" "/cache" ":80" empty_world).1 =
    Ok {| Force := false; Graphic := false; RunDir := "/run"; DataDir := "/data"; ListenAddr := ":80";
          ImageCache := NewCache "/cache/image_cache" |} /\
  (forall r w', NewRuntime false false "/run" "/data" "/cache" ":80"
    (with_fs (MkFs {[ "/data" := Regular [] ]} ∅ ∅) empty_world) <> (Ok r, w')).
Proof.
  split; [vm_compute; reflexivity|].
  apply (proj2 (runtime_directories false false "/run" "/data" "/cache" ":80"
    (with_fs (MkFs {[ "/data" := Regular [] ]} ∅ ∅) empty_world)) (Regular []) eq_refl).
  right. reflexivity.
Defined.
