(* ===== verification/Cluster.v ===== *)
(** * The cluster (placemat/cluster.go)

    A cluster is set up in phases: firewall chains, networks, nodes (made and prepared
    one by one, then set up concurrently), namespaces and servers; everything is
    cleaned up at the end, however the set-up ends.

    The state is the host's and the cluster object.  Nodes are shared by pointer
    between [c.nodes] and [c.nodeMap], so the map holds positions in the list.  The
    concurrent set-ups of the nodes touch the cluster only where the machine is
    registered, under a lock: they are run one after the other in the order of their
    registration, which is arbitrary, as is the order in which a map is ranged over. *)

From S2P Require Import Prelude GoBinary GoCrypto GoPath Host Netlink Types Files Dcnet World Cache.
From S2P Require Import Volume Qemu Tap Machine Qmp Bmc Node Netns.

Local Open Scope Z_scope.
Local Open Scope go_scope.

Record cluster `{!UrlOps} `{!AddrOps} : Type := {
  c_networkSpecs : list NetworkSpec;
  c_netNSSpecs : list NetNSSpec;
  c_deviceClassSpecs : list DeviceClassSpec;
  c_nodeSpecs : list NodeSpec;
  c_imageSpecs : list ImageSpec;
  c_networks : list network;
  c_netNss : list netNS;
  c_nodes : list node;
  (** a nil VM is [None] *)
  c_vms : gmap string (option vm);
  c_networkMap : gmap string network;
  c_nodeSpecMap : gmap string NodeSpec;
  c_nodeMap : gmap string nat
}.

Section Updates.
Context `{!UrlOps} `{!AddrOps}.

Definition set_networks (c : cluster) (ns : list network) (m : gmap string network) : cluster :=
  {| c_networkSpecs := c_networkSpecs c; c_netNSSpecs := c_netNSSpecs c;
     c_deviceClassSpecs := c_deviceClassSpecs c; c_nodeSpecs := c_nodeSpecs c;
     c_imageSpecs := c_imageSpecs c; c_networks := ns; c_netNss := c_netNss c; c_nodes := c_nodes c;
     c_vms := c_vms c; c_networkMap := m; c_nodeSpecMap := c_nodeSpecMap c; c_nodeMap := c_nodeMap c |}.
Definition set_nodes (c : cluster) (ns : list node) (m : gmap string nat) : cluster :=
  {| c_networkSpecs := c_networkSpecs c; c_netNSSpecs := c_netNSSpecs c;
     c_deviceClassSpecs := c_deviceClassSpecs c; c_nodeSpecs := c_nodeSpecs c;
     c_imageSpecs := c_imageSpecs c; c_networks := c_networks c; c_netNss := c_netNss c; c_nodes := ns;
     c_vms := c_vms c; c_networkMap := c_networkMap c; c_nodeSpecMap := c_nodeSpecMap c;
     c_nodeMap := m |}.
Definition set_vms (c : cluster) (vms : gmap string (option vm)) : cluster :=
  {| c_networkSpecs := c_networkSpecs c; c_netNSSpecs := c_netNSSpecs c;
     c_deviceClassSpecs := c_deviceClassSpecs c; c_nodeSpecs := c_nodeSpecs c;
     c_imageSpecs := c_imageSpecs c; c_networks := c_networks c; c_netNss := c_netNss c;
     c_nodes := c_nodes c; c_vms := vms; c_networkMap := c_networkMap c;
     c_nodeSpecMap := c_nodeSpecMap c; c_nodeMap := c_nodeMap c |}.
Definition set_netNss (c : cluster) (l : list netNS) : cluster :=
  {| c_networkSpecs := c_networkSpecs c; c_netNSSpecs := c_netNSSpecs c;
     c_deviceClassSpecs := c_deviceClassSpecs c; c_nodeSpecs := c_nodeSpecs c;
     c_imageSpecs := c_imageSpecs c; c_networks := c_networks c; c_netNss := l;
     c_nodes := c_nodes c; c_vms := c_vms c; c_networkMap := c_networkMap c;
     c_nodeSpecMap := c_nodeSpecMap c; c_nodeMap := c_nodeMap c |}.

Definition NewCluster (spec : ClusterSpec) : cluster :=
  {| c_networkSpecs := cs_Networks spec; c_netNSSpecs := cs_NetNSs spec;
     c_deviceClassSpecs := cs_DeviceClasses spec; c_nodeSpecs := cs_Nodes spec;
     c_imageSpecs := cs_Images spec; c_networks := []; c_netNss := []; c_nodes := []; c_vms := ∅;
     c_networkMap := ∅;
     c_nodeSpecMap := fold_left (fun m n => <[nd_Name n := n]> m) (cs_Nodes spec) ∅;
     c_nodeMap := ∅ |}.

End Updates.

(** [defer d()] around a body: [d] runs when the body returns or panics, and its panic
    replaces the result. *)
Definition with_defer {S A : Type} (d : st S unit) (body : st S A) : st S A :=
  fun s => match body s with
           | (Diverge, s1) => (Diverge, s1)
           | (o, s1) =>
               match d s1 with
               | (Ok _, s2) | (Err _, s2) => (o, s2)
               | (Panic p, s2) => (Panic p, s2)
               | (Diverge, s2) => (Diverge, s2)
               end
           end.

(** netutil.DetectMTU *)
Class DetectMtu (W : Type) : Type := { DetectMTU : st W Z }.

Section Cluster.
Context {W : Type} `{!Host W} `{!HostFiles W} `{!Http W} `{!Procs W} `{!UrlOps} `{!AddrOps}
  `{!NetOps W} `{!Rand W} `{!NsOps W} `{!DetectMtu W}.

Abbreviation cst := (st (W * cluster)).

Definition modify (f : cluster -> cluster) : cst unit := fun s => (Ok tt, (s.1, f s.2)).

(** ** Phases *)

Definition setup_network (mtu : Z) (force : bool) (spec : NetworkSpec) : cst unit :=
  let* network := slift (NewNetwork spec) in
  modify (fun c => set_networks c (c_networks c ++ [network])
                     (<[nw_Name spec := network]> (c_networkMap c))) >>>
  on_host (swrap "failed to create Network" (network_Setup network mtu force)).

(** The new node is appended and prepared; what preparation does to it is kept. *)
Definition prepare_node (cache : Cache) (spec : NodeSpec) : cst unit :=
  fun s =>
  match NewNode spec (c_imageSpecs s.2) (c_deviceClassSpecs s.2) s.1 with
  | (Ok node, w1) =>
      let '(o, (w2, node')) := swrap "failed to prepare Node" (Prepare cache) (w1, node) in
      (o, (w2, set_nodes s.2 (c_nodes s.2 ++ [node'])
                 (<[nd_Name spec := length (c_nodes s.2)]> (c_nodeMap s.2))))
  | (Err e, w1) => (Err e, (w1, s.2))
  | (Panic p, w1) => (Panic p, (w1, s.2))
  | (Diverge, w1) => (Diverge, (w1, s.2))
  end.

(** The goroutine of the [i]-th node: set-up and registration. *)
Definition setup_node (vhost : bool) (fuel : nat) (r : Runtime) (mtu : Z) (i : nat)
  : cst (option guestConnection) :=
  fun s =>
  match c_nodes s.2 !! i with
  | None => (Ok None, s)
  | Some n =>
      let '(o, (w', n')) := node_Setup vhost fuel r mtu (s.1, n) in
      let c := set_nodes s.2 (<[i := n']> (c_nodes s.2)) (c_nodeMap s.2) in
      match o with
      | Ok res => (Ok (sr_guest res), (w', set_vms c (<[sr_serial res := sr_vm res]> (c_vms c))))
      | Err e => (Err e, (w', c))
      | Panic p => (Panic p, (w', c))
      | Diverge => (Diverge, (w', c))
      end
  end.

(** All goroutines run; the environment returns the first error. *)
Fixpoint setup_nodes (vhost : bool) (fuel : nat) (r : Runtime) (mtu : Z) (order : list nat)
  : cst (list guestConnection) :=
  match order with
  | [] => sret []
  | i :: order' =>
      let* res := stry (setup_node vhost fuel r mtu i) in
      match res with
      | inl g => let* gs := setup_nodes vhost fuel r mtu order' in
                 sret (match g with Some g => g :: gs | None => gs end)
      | inr e => swarn (setup_nodes vhost fuel r mtu order') >>> sthrow e
      end
  end.

Definition add_netns (spec : NetNSSpec) : cst unit :=
  let* netNs := on_host (NewNetNS spec) in
  modify (fun c => set_netNss c (c_netNss c ++ [netNs])).

(** ** Clean-up *)

(** [for _, vm := range c.vms { vm.Cleanup() }]: a nil VM is a nil dereference. *)
Definition cleanup_vms (order : list (option vm) -> list (option vm)) : cst unit :=
  fun s =>
  on_host (sfor (order (snd <$> map_to_list (c_vms s.2))) (fun v =>
    let* v := deref v in vm_Cleanup v)) s.

Definition cluster_cleanup (order : list (option vm) -> list (option vm)) : cst unit :=
  on_host CleanupNatRules >>>
  (fun s => on_host (sfor (c_networks s.2) network_Cleanup) s) >>>
  (fun s => on_host (sfor (c_nodes s.2) node_Cleanup) s) >>>
  (fun s => on_host (sfor (c_netNss s.2) netns_Cleanup) s) >>>
  cleanup_vms order.

(** ** Set-up *)

(** Everything before the nodes are set up; the MTU is returned. *)
Definition setup_before (r : Runtime) : cst Z :=
  on_host (if Force r then CleanupNatRules >>> CleanupAllLinks else sret tt) >>>
  on_host CreateNatRules >>>
  let* mtu := on_host (swrap "failed to detect MTU" DetectMTU) in
  (fun s => sfor (c_networkSpecs s.2) (setup_network mtu (Force r)) s) >>>
  (fun s => sfor (c_nodeSpecs s.2) (prepare_node (ImageCache r)) s) >>>
  sret mtu.

End Cluster.

(** ** Registration of the machines *)

Definition register (results : list setup_result) (vms : gmap string (option vm))
  : gmap string (option vm) :=
  fold_left (fun m res => <[sr_serial res := sr_vm res]> m) results vms.

Lemma register_other results vms s :
  (forall res, res ∈ results -> sr_serial res <> s) -> register results vms !! s = vms !! s.
Proof.
  revert vms. induction results as [|res results IH]; intros vms Hn; [done|]. cbn.
  etransitivity; [apply IH; intros; apply Hn; by right|]. apply lookup_insert_ne. apply Hn. left.
Qed.

Lemma register_lookup results vms res :
  NoDup (map sr_serial results) -> res ∈ results ->
  register results vms !! sr_serial res = Some (sr_vm res).
Proof.
  revert vms. induction results as [|r0 results IH]; intros vms Hnd Hin; [by apply elem_of_nil in Hin|].
  cbn in Hnd |- *. apply NoDup_cons in Hnd as [Hn Hnd]. apply elem_of_cons in Hin as [->|Hin]; [|by apply IH].
  etransitivity; [apply register_other|apply lookup_insert_eq].
  intros res Hr E. apply Hn. rewrite <- E. apply list_elem_of_fmap. by exists res.
Qed.

Lemma register_dom results vms :
  dom (register results vms) = dom vms ∪ list_to_set (map sr_serial results).
Proof.
  revert vms. induction results as [|res results IH]; intros vms; cbn; [set_solver|].
  unfold register in IH. rewrite IH, dom_insert_L. set_solver.
Qed.

Lemma Forall2_elem_impl {A B} (P Q : A -> B -> Prop) l k :
  Forall2 P l k -> (forall x y, x ∈ l -> P x y -> Q x y) -> Forall2 Q l k.
Proof.
  induction 1 as [|a b l k HR _ IH]; intros Hi; constructor; [apply Hi; [left|done]|].
  apply IH. intros x y Hx. apply Hi. by right.
Qed.

Lemma Forall2_zip_elem {A B} (R : A -> B -> Prop) l k x :
  Forall2 R l k -> x ∈ l -> exists y, y ∈ k /\ R x y.
Proof.
  induction 1 as [|a b l k HR _ IH]; intros Hin; [by apply elem_of_nil in Hin|].
  apply elem_of_cons in Hin as [->|Hin]; [exists b; split; [left|done]|].
  destruct (IH Hin) as (y & Hy & HR'). exists y. split; [by right|done].
Qed.

Section Registration.
Context {W : Type} `{!Host W} `{!HostFiles W} `{!Http W} `{!Procs W} `{!UrlOps} `{!AddrOps}
  `{!NetOps W} `{!Rand W}.

(** What the set-up of a node can end with. *)
Definition node_result (r : Runtime) (n : node) (res : setup_result) : Prop :=
  res = interrupted \/ exists cmd conn, res = running_result r n cmd conn.

Lemma node_Setup_result vhost fuel r mtu (w w' : W) n n' res :
  node_Setup vhost fuel r mtu (w, n) = (Ok res, (w', n')) -> node_result r n res.
Proof.
  intros E. destruct (node_Setup_ok _ _ _ _ _ _ _ _ _ E)
    as (vArgs & infos & c & cmd & w1 & w2 & w3 & w4 & w5 & w6 & w7 & _ & _ & _ & _ & _ & _ & _ & E8).
  destruct (connect_guest_ok _ _ _ _ _ _ _ E8) as [[-> _]|(conn & w8 & _ & _ & ->)]; [by left|].
  right. by exists cmd, conn.
Qed.

(** A node before and after its set-up. *)
Definition same_node (n n' : node) : Prop := n_name n' = n_name n /\ n_smbios n' = n_smbios n.

Lemma node_Setup_same vhost fuel r mtu (w w' : W) n n' res :
  node_Setup vhost fuel r mtu (w, n) = (Ok res, (w', n')) -> same_node n n'.
Proof.
  intros E. destruct (node_Setup_ok _ _ _ _ _ _ _ _ _ E)
    as (vArgs & infos & c & cmd & w1 & w2 & w3 & w4 & w5 & w6 & w7 & _ & _ & _ & E4 & _).
  unfold createTaps in E4. cbn [fst snd] in E4. destruct (each _ _ w3) as [o [w8 ts]].
  by injection E4 as _ _ <-.
Qed.

#[local] Instance same_node_trans : Transitive same_node.
Proof. intros n1 n2 n3 [H1 H2] [H3 H4]. split; congruence. Qed.

Lemma Forall2_insert_same (R : node -> node -> Prop) l i n n' :
  (forall m, R m m) -> l !! i = Some n -> R n n' -> Forall2 R l (<[i := n']> l).
Proof.
  intros Hr. revert i. induction l as [|m l IH]; intros [|i] Hi Hn; [done..| |]; cbn in *.
  - injection Hi as ->. constructor; [done|]. by apply Forall_Forall2_diag, Forall_true.
  - constructor; [done|by apply IH].
Qed.

Lemma setup_nodes_ok vhost fuel r mtu order (w w' : W) (c c' : cluster) gs :
  NoDup order -> Forall (fun i => is_Some (c_nodes c !! i)) order ->
  setup_nodes vhost fuel r mtu order (w, c) = (Ok gs, (w', c')) ->
  exists results,
    Forall2 (fun i res => exists n, c_nodes c !! i = Some n /\ node_result r n res) order results /\
    c_vms c' = register results (c_vms c) /\ Forall2 same_node (c_nodes c) (c_nodes c') /\
    c_nodeMap c' = c_nodeMap c /\ c_nodeSpecMap c' = c_nodeSpecMap c /\
    c_nodeSpecs c' = c_nodeSpecs c.
Proof.
  revert w c gs. induction order as [|i order IH]; intros w c gs Hnd Hf E.
  - injection E as <- <- <-. exists []. split_and!; try done. by apply Forall_Forall2_diag, Forall_true.
  - apply NoDup_cons in Hnd as [Hi Hnd]. apply Forall_cons in Hf as [[n Hn] Hf]. cbn [setup_nodes] in E.
    apply sbind_ok in E as (res & [w1 c1] & E1 & E). unfold stry, setup_node in E1. cbn [fst snd] in E1.
    rewrite Hn in E1. destruct (node_Setup vhost fuel r mtu (w, n)) as [o [w2 n2]] eqn:Es.
    destruct o as [rs|e|p|]; try done; injection E1 as <- <- <-.
    2:{ apply sbind_ok in E as (u & [w3 c3] & _ & E). done. }
    apply sbind_ok in E as (gs' & [w3 c3] & E3 & E). injection E as _ <- <-.
    apply IH in E3 as (results & HF & Hv & Hsn & Hm & Hs & Hsp); [|done|].
    + exists (rs :: results). split_and!; [|done| |done..].
      2:{ etransitivity; [|exact Hsn]. apply (Forall2_insert_same _ _ _ n); [done..|].
          by eapply node_Setup_same. }
      constructor.
      * exists n. split; [done|]. by eapply node_Setup_result.
      * eapply Forall2_elem_impl; [exact HF|]. cbn. intros j rs' Hj (m & Hm' & HR).
        rewrite list_lookup_insert_ne in Hm' by (intros ->; done). by exists m.
    + rewrite Forall_forall in Hf |- *. intros j Hj. cbn.
      rewrite list_lookup_insert_ne by (intros ->; done). by apply Hf.
Qed.

(** Serial numbers that are set and distinct. *)
Definition distinct_serials (c : cluster) : Prop :=
  forall i j n m, c_nodes c !! i = Some n -> c_nodes c !! j = Some m ->
    serial (n_smbios n) <> "" /\ (serial (n_smbios n) = serial (n_smbios m) -> i = j).

(** A machine of this node, as [Setup] makes it. *)
Definition is_machine (r : Runtime) (n : node) (v : vm) : Prop :=
  exists cmd conn, v = machine_of r (n_name n) cmd conn.

(** An interrupted set-up leaves a nil machine. *)
Lemma register_nil results vms :
  (forall res, res ∈ results -> sr_serial res = "" -> sr_vm res = None) ->
  vms !! "" = Some None \/ (exists res, res ∈ results /\ sr_serial res = "") ->
  register results vms !! "" = Some None.
Proof.
  revert vms. induction results as [|res results IH]; intros vms Hn [H1|(r0 & Hin & H1)]; cbn;
    try done; [by apply elem_of_nil in Hin| |].
  - apply IH; [intros; apply Hn; [by right|done]|]. left. destruct (decide (sr_serial res = "")) as [E|E].
    + rewrite E, lookup_insert_eq, (Hn res ltac:(left) E). done.
    + by rewrite lookup_insert_ne.
  - apply IH; [intros; apply Hn; [by right|done]|]. apply elem_of_cons in Hin as [->|Hin].
    + left. rewrite H1, lookup_insert_eq, (Hn res ltac:(left) H1). done.
    + right. by exists r0.
Qed.

Lemma results_serials r (c : cluster) order results :
  distinct_serials c -> NoDup order ->
  Forall2 (fun i res => exists n cmd conn, c_nodes c !! i = Some n /\ res = running_result r n cmd conn)
    order results ->
  NoDup (map sr_serial results).
Proof.
  intros Hd Hnd HF. induction HF as [|i res order results (n & cmd & conn & Hn & ->) HF IH]; [constructor|].
  apply NoDup_cons in Hnd as [Hi Hnd]. cbn. apply NoDup_cons. split; [|by apply IH].
  rewrite list_elem_of_fmap. intros (res' & Es & Hin).
  apply Forall2_flip in HF. destruct (Forall2_zip_elem _ _ _ _ HF Hin) as (j & Hj & m & cmd' & conn' & Hm & ->).
  cbn in Es. destruct (Hd i j n m Hn Hm) as [_ E]. rewrite (E Es) in Hi. done.
Qed.

Lemma machines_of_nodes vhost fuel r mtu order (w w' : W) (c c' : cluster) gs :
  NoDup order -> (forall i, i ∈ order <-> is_Some (c_nodes c !! i)) -> distinct_serials c ->
  setup_nodes vhost fuel r mtu order (w, c) = (Ok gs, (w', c')) ->
  c_vms c' !! "" = Some None \/
  (forall i n, c_nodes c !! i = Some n ->
    exists v, c_vms c' !! serial (n_smbios n) = Some (Some v) /\ is_machine r n v).
Proof.
  intros Hnd Ho Hd E. apply setup_nodes_ok in E as (results & HF & Hv & _); [|done|].
  2:{ apply Forall_forall. intros i Hi. by apply Ho. }
  destruct (decide (interrupted ∈ results)) as [Hi|Hi].
  - left. rewrite Hv. apply register_nil; [|right; by exists interrupted].
    intros res Hin Hs. apply Forall2_flip in HF.
    destruct (Forall2_zip_elem _ _ _ _ HF Hin) as (i & _ & n & Hn & [->|(cmd & conn & ->)]); [done|].
    cbn in Hs. by destruct (Hd i i n n Hn Hn).
  - right. intros i n Hn.
    assert (HF' : Forall2 (fun i res => exists n cmd conn, c_nodes c !! i = Some n /\
                    res = running_result r n cmd conn) order results).
    { apply Forall2_flip in HF. apply Forall2_flip. eapply Forall2_elem_impl; [exact HF|]. cbn.
      intros res j Hin (m & Hm & [->|(cmd & conn & ->)]); [done|]. by exists m, cmd, conn. }
    destruct (Forall2_zip_elem _ _ _ i HF') as (res & Hin & m & cmd & conn & Hm & ->).
    { apply Ho. by eexists. }
    assert (m = n) as -> by congruence. exists (machine_of r (n_name n) cmd conn).
    split; [|by exists cmd, conn]. rewrite Hv.
    apply (register_lookup results (c_vms c) (running_result r n cmd conn)); [|done].
    by eapply results_serials.
Qed.

(** Nodes without a serial number are all registered under the empty one. *)
Lemma unset_serials_collide vhost fuel r mtu order (w w' : W) (c c' : cluster) gs :
  NoDup order -> (forall i, i ∈ order <-> is_Some (c_nodes c !! i)) ->
  (forall i n, c_nodes c !! i = Some n -> serial (n_smbios n) = "") -> c_vms c = ∅ ->
  setup_nodes vhost fuel r mtu order (w, c) = (Ok gs, (w', c')) ->
  forall s, is_Some (c_vms c' !! s) -> s = "".
Proof.
  intros Hnd Ho Hu Hempty E s Hs. apply setup_nodes_ok in E as (results & HF & Hv & _); [|done|].
  2:{ apply Forall_forall. intros i Hi. by apply Ho. }
  apply elem_of_dom in Hs. rewrite Hv, register_dom, Hempty, dom_empty_L in Hs.
  apply elem_of_union in Hs as [Hs|Hs]; [by apply elem_of_empty in Hs|].
  apply elem_of_list_to_set, list_elem_of_fmap in Hs as (res & -> & Hin). apply Forall2_flip in HF.
  destruct (Forall2_zip_elem _ _ _ _ HF Hin) as (i & _ & n & Hn & [->|(cmd & conn & ->)]); [done|].
  cbn. by eapply Hu.
Qed.

End Registration.

(** The MTU of the simulated host. *)
#[export] Instance simWorld_Mtu : DetectMtu simWorld := {| DetectMTU w := (Ok 1500, w) |}.
