(* ===== verification/Api.v ===== *)
(** * The API server (placemat/server.go)

    The HTTP API that lists nodes and starts, stops and restarts them.  gin (routing
    and the JSON writer) is third-party: a handler is what it answers, a code and the
    value it passes to the writer, and its effect on the host.  The handlers are
    written against the interface [VM]. *)

From S2P Require Import Prelude GoBinary GoCrypto GoPath Host Netlink Types Files Dcnet World Cache.
From S2P Require Import Volume Qemu Tap Machine Qmp Bmc Node Netns Cluster.

Local Open Scope Z_scope.
Local Open Scope go_scope.

Record SMBIOSStatus : Type := { ss_Manufacturer : string; ss_Product : string; ss_Serial : string }.

(** [None] is a nil map or slice. *)
Record NodeStatus : Type := {
  st_Name : string;
  st_Taps : option (gmap string string);
  st_Volumes : option (list string);
  st_CPU : Z;
  st_Memory : string;
  st_UEFI : bool;
  st_TPM : bool;
  st_SMBIOS : SMBIOSStatus;
  st_PowerStatus : string;
  st_SocketPath : string
}.

Inductive api_body : Type :=
| NilBody
| NodeBody (s : NodeStatus)
| NodesBody (l : list NodeStatus).

(** [c.JSON(code, body)] *)
Record api_response : Type := { ar_code : Z; ar_body : api_body }.

(** The requests of the route table. *)
Inductive api_request : Type :=
| GetNodes
| GetNode (name : string)
| PostAction (name action : string).

Record apiServer `{!UrlOps} `{!AddrOps} : Type := newAPIServer { as_cluster : cluster; as_runtime : Runtime }.

Section Api.
Context {W : Type} `{!VM W vm} `{!UrlOps} `{!AddrOps}.

(** A method call on a nil interface. *)
Definition not_nil {A : Type} (v : option A) : st W A :=
  match v with
  | Some v => sret v
  | None => slift (Panic NilDereference)
  end.

Definition newNodeStatus (spec : NodeSpec) (node : option node) (v : option vm) (r : Runtime)
  : st W NodeStatus :=
  let* v := not_nil v in
  let* powerStatus := stry (VM_PowerStatus v) in
  let* node := not_nil node in
  sret {| st_Name := nd_Name spec; st_Taps := Some (Taps node);
          st_Volumes := Some (map v_Name (nd_Volumes spec));
          st_CPU := nd_CPU spec; st_Memory := nd_Memory spec; st_UEFI := nd_UEFI spec;
          st_TPM := nd_TPM spec;
          st_SMBIOS := {| ss_Manufacturer := smb_Manufacturer (nd_SMBIOS spec);
                          ss_Product := smb_Product (nd_SMBIOS spec);
                          ss_Serial := smb_Serial (nd_SMBIOS spec) |};
          st_PowerStatus := PowerStatus_string
            match powerStatus with inl p => p | inr _ => PowerStatusUnknown end;
          st_SocketPath := if Graphic r then "" else VM_SocketPath v |}.

(** [s.cluster.nodeMap[name]] and [s.cluster.vms[serial]]: nil when absent. *)
Definition node_of (c : cluster) (name : string) : option node :=
  i ← c_nodeMap c !! name; c_nodes c !! i.
Definition vm_of (c : cluster) (spec : NodeSpec) : option vm :=
  default None (c_vms c !! smb_Serial (nd_SMBIOS spec)).

Definition status_of (s : apiServer) (spec : NodeSpec) : st W NodeStatus :=
  newNodeStatus spec (node_of (as_cluster s) (nd_Name spec)) (vm_of (as_cluster s) spec) (as_runtime s).

Definition handleNode (s : apiServer) (name : string) : st W api_response :=
  match c_nodeSpecMap (as_cluster s) !! name with
  | None => sret {| ar_code := 404; ar_body := NilBody |}
  | Some spec =>
      let* status := newNodeStatus spec (node_of (as_cluster s) name) (vm_of (as_cluster s) spec)
                       (as_runtime s) in
      sret {| ar_code := 200; ar_body := NodeBody status |}
  end.

Definition handleNodes (s : apiServer) : st W api_response :=
  let* statuses := smap (status_of s) (c_nodeSpecs (as_cluster s)) in
  sret {| ar_code := 200; ar_body := NodesBody statuses |}.

(** [if err := m(); err != nil { c.JSON(500, nil); return }], then [k]. *)
Definition or_500 (m : st W unit) (k : st W api_response) : st W api_response :=
  let* r := stry m in
  match r with
  | inl _ => k
  | inr _ => sret {| ar_code := 500; ar_body := NilBody |}
  end.

Definition handleNodeAction (s : apiServer) (name action : string) : st W api_response :=
  match c_nodeSpecMap (as_cluster s) !! name with
  | None => sret {| ar_code := 404; ar_body := NilBody |}
  | Some spec =>
      let v := vm_of (as_cluster s) spec in
      let done := sret {| ar_code := 200; ar_body := NilBody |} in
      if String.eqb action "start" then
        or_500 (let* v := not_nil v in VM_PowerOn v) done
      else if String.eqb action "stop" then
        or_500 (let* v := not_nil v in VM_PowerOff v) done
      else if String.eqb action "restart" then
        or_500 (let* v := not_nil v in VM_PowerOff v)
          (or_500 (let* v := not_nil v in VM_PowerOn v) done)
      else sret {| ar_code := 400; ar_body := NilBody |}
  end.

(** [prepareRouter]: the handler of a request. *)
Definition api_route (s : apiServer) (req : api_request) : st W api_response :=
  match req with
  | GetNodes => handleNodes s
  | GetNode name => handleNode s name
  | PostAction name action => handleNodeAction s name action
  end.

End Api.

(** ** Reliable machines side by side *)

(** Machines whose operations do what is due and do not touch other machines. *)
Class ReliableVMs (W : Type) `{!VM W vm} : Type := {
  vm_on : vm -> W -> bool;
  VM_status_ok : forall v w, exists w',
    VM_PowerStatus v w = (Ok (if vm_on v w then PowerStatusOn else PowerStatusOff), w') /\
    forall v', vm_on v' w' = vm_on v' w;
  VM_on_ok : forall v w, vm_on v w = false -> exists w',
    VM_PowerOn v w = (Ok tt, w') /\
    forall v', vm_on v' w' = if decide (vm_qmp v' = vm_qmp v) then true else vm_on v' w;
  VM_off_ok : forall v w, vm_on v w = true -> exists w',
    VM_PowerOff v w = (Ok tt, w') /\
    forall v', vm_on v' w' = if decide (vm_qmp v' = vm_qmp v) then false else vm_on v' w
}.

(** Monitors that behave as QMP documents, each on its own socket. *)
Class MonitorLaws (W : Type) `{!Monitors W} : Type := {
  monitor_laws :: forall p, QmpQuiet W (QmpConn0 := monitor_at p);
  dial_frame : forall p p', p <> p' -> preserves (fun w w' =>
    running (QmpQuiet := monitor_laws p') w' = running (QmpQuiet := monitor_laws p') w)
    (qmp_Dial (QmpConn := monitor_at p));
  deadline_frame : forall p p', p <> p' -> preserves (fun w w' =>
    running (QmpQuiet := monitor_laws p') w' = running (QmpQuiet := monitor_laws p') w)
    (qmp_SetDeadline (QmpConn := monitor_at p));
  read_frame : forall p p', p <> p' -> preserves (fun w w' =>
    running (QmpQuiet := monitor_laws p') w' = running (QmpQuiet := monitor_laws p') w)
    (qmp_ReadBytes (QmpConn := monitor_at p));
  write_frame : forall p p' l, p <> p' -> preserves (fun w w' =>
    running (QmpQuiet := monitor_laws p') w' = running (QmpQuiet := monitor_laws p') w)
    (qmp_Write (QmpConn := monitor_at p) l);
  close_frame : forall p p' w, p <> p' ->
    running (QmpQuiet := monitor_laws p') (qmp_Close (QmpConn := monitor_at p) w) =
    running (QmpQuiet := monitor_laws p') w
}.

(** What every call on a connection preserves, the power operations do. *)
Lemma dialogue_preserves {Q : Type} `{!QmpConn Q} (R : Q -> Q -> Prop) `{!PreOrder R} :
  preserves R qmp_Dial -> preserves R qmp_SetDeadline -> preserves R qmp_ReadBytes ->
  (forall l, preserves R (qmp_Write l)) -> (forall q, R q (qmp_Close q)) ->
  preserves R vm_PowerStatus /\ preserves R vm_PowerOn /\ preserves R vm_PowerOff.
Proof.
  intros Hd Hs Hr Hw Hc.
  assert (Hb : forall A (body : st Q A), preserves R body -> preserves R (with_conn body)).
  { intros A body Hb. apply preserves_bind; [done..|]. intros _. apply preserves_bind; [done..|].
    intros _ q o q'. destruct (body q) as [o1 q1] eqn:E. intros [= _ <-].
    etransitivity; [by eapply Hb|apply Hc]. }
  unfold vm_PowerStatus, vm_PowerOn, vm_PowerOff, writeCommand, qmp_read.
  split_and!; apply Hb; preserves; first [apply Hr|apply Hw].
Qed.

Section MonitorVMs.
Context {W : Type} `{!Host W} `{!HostFiles W} `{!Procs W} `{!Monitors W} {L : MonitorLaws W}.

Definition running_at (p : string) (w : W) : bool := running (QmpQuiet := monitor_laws p) w.

Definition same_at (p : string) (w w' : W) : Prop := running_at p w' = running_at p w.

#[local] Instance same_at_pre p : PreOrder (same_at p).
Proof. split; [done|]. intros w1 w2 w3 H1 H2. unfold same_at in *. congruence. Qed.

(** A dialogue on one socket leaves the other machines alone. *)
Lemma dialogue_frame p p' :
  p <> p' ->
  preserves (same_at p') (vm_PowerStatus (QmpConn0 := monitor_at p)) /\
  preserves (same_at p') (vm_PowerOn (QmpConn0 := monitor_at p)) /\
  preserves (same_at p') (vm_PowerOff (QmpConn0 := monitor_at p)).
Proof.
  intros Hp. apply dialogue_preserves; [apply _|by apply dial_frame|by apply deadline_frame|
    by apply read_frame|intros l; by apply write_frame|intros w; by apply close_frame].
Qed.

#[global] Instance vm_ReliableVMs : ReliableVMs W.
Proof.
  refine {| vm_on v w := running_at (vm_qmp v) w |}; cbn.
  - intros v w. destruct (vm_status_ok (QmpConn0 := monitor_at (vm_qmp v)) w) as (w' & E & Hr).
    exists w'. split; [exact E|]. intros v'. destruct (decide (vm_qmp v = vm_qmp v')) as [<-|Hne]; [exact Hr|].
    destruct (dialogue_frame _ _ Hne) as (Hf & _ & _). by eapply Hf.
  - intros v w Hw. destruct (vm_on_ok (QmpConn0 := monitor_at (vm_qmp v)) w Hw) as (w' & E & Hr).
    exists w'. split; [exact E|]. intros v'. destruct (decide (vm_qmp v' = vm_qmp v)) as [->|Hne]; [exact Hr|].
    destruct (dialogue_frame (vm_qmp v) (vm_qmp v')) as (_ & Hf & _); [congruence|]. by eapply Hf.
  - intros v w Hw. destruct (vm_off_ok (QmpConn0 := monitor_at (vm_qmp v)) w Hw) as (w' & E & Hr).
    exists w'. split; [exact E|]. intros v'. destruct (decide (vm_qmp v' = vm_qmp v)) as [->|Hne]; [exact Hr|].
    destruct (dialogue_frame (vm_qmp v) (vm_qmp v')) as (_ & _ & Hf); [congruence|]. by eapply Hf.
Defined.

End MonitorVMs.

(** ** Monitors of the simulated host *)

Definition on_monitor {A : Type} (p : string) (m : st monitor A) : st simWorld A :=
  fun w => let (o, q) := m (sw_mons w p) in (o, with_monitor p q w).

#[export] Instance simWorld_Monitors : Monitors simWorld := fun p => {|
  qmp_Dial := on_monitor p qmp_Dial;
  qmp_SetDeadline := on_monitor p qmp_SetDeadline;
  qmp_Close w := with_monitor p (qmp_Close (sw_mons w p)) w;
  qmp_ReadBytes := on_monitor p qmp_ReadBytes;
  qmp_Write l := on_monitor p (qmp_Write l)
|}.

Lemma with_monitor_same p q w : sw_mons (with_monitor p q w) p = q.
Proof. cbn. by rewrite decide_True. Qed.

Lemma with_monitor_other p p' q w : p <> p' -> sw_mons (with_monitor p q w) p' = sw_mons w p'.
Proof. intros Hp. cbn. by rewrite decide_False. Qed.

Lemma on_monitor_law {A} p (m : st monitor A) a w (P : monitor -> Prop) :
  (exists q', m (sw_mons w p) = (Ok a, q') /\ P q') ->
  exists w', on_monitor p m w = (Ok a, w') /\ P (sw_mons w' p).
Proof.
  intros (q' & E & HP). unfold on_monitor. rewrite E. eexists. split; [reflexivity|].
  by rewrite with_monitor_same.
Qed.

Lemma on_monitor_frame {A} p p' (m : st monitor A) :
  p <> p' -> preserves (fun w w' => mon_running (sw_mons w' p') = mon_running (sw_mons w p')) (on_monitor p m).
Proof.
  intros Hp w o w'. unfold on_monitor. destruct (m (sw_mons w p)) as [o1 q]. intros [= _ <-].
  by rewrite with_monitor_other.
Qed.

#[export] Instance simWorld_QmpQuiet p : QmpQuiet simWorld (QmpConn0 := monitor_at p).
Proof.
  refine {| running w := mon_running (sw_mons w p); ready w := mon_ready (sw_mons w p);
            pending w := length (mon_lines (sw_mons w p)) |}.
  - intros w. exact (on_monitor_law p _ _ w _ (dial_law (QmpQuiet := monitor_QmpQuiet) (sw_mons w p))).
  - intros w. exact (on_monitor_law p _ _ w _ (deadline_law (QmpQuiet := monitor_QmpQuiet) (sw_mons w p))).
  - intros w. exact (f_equal mon_running (with_monitor_same p _ w)).
  - intros w Hw. destruct (read_law (QmpQuiet := monitor_QmpQuiet) (sw_mons w p) Hw) as (l & q' & E & HP). exists l.
    apply (on_monitor_law p qmp_ReadBytes l w (fun q' => mon_running q' = mon_running (sw_mons w p) /\
      mon_ready q' = mon_ready (sw_mons w p) /\
      length (mon_lines q') = Nat.pred (length (mon_lines (sw_mons w p))))). by exists q'.
  - intros w. exact (on_monitor_law p _ _ w _ (capabilities_law (QmpQuiet := monitor_QmpQuiet) (sw_mons w p))).
  - intros w Hr Hp. destruct (status_law (QmpQuiet := monitor_QmpQuiet) (sw_mons w p) Hr Hp) as (q1 & l & q2 & r & E1 & E2 & E3 & E4 & E5).
    exists (with_monitor p q1 w), l, (with_monitor p q2 (with_monitor p q1 w)), r. split_and!; try done.
    + change (on_monitor p (qmp_Write (marshal_command {| Execute := "query-status" |})) w =
        (Ok tt, with_monitor p q1 w)). unfold on_monitor. by rewrite E1.
    + change (on_monitor p qmp_ReadBytes (with_monitor p q1 w) =
        (Ok l, with_monitor p q2 (with_monitor p q1 w))). unfold on_monitor. by rewrite with_monitor_same, E2.
    + by rewrite with_monitor_same.
  - intros w Hr. exact (on_monitor_law p _ _ w _ (reset_law (QmpQuiet := monitor_QmpQuiet) (sw_mons w p) Hr)).
  - intros w Hr Hrun. exact (on_monitor_law p _ _ w _ (stop_law (QmpQuiet := monitor_QmpQuiet) (sw_mons w p) Hr Hrun)).
  - intros w Hr Hrun. exact (on_monitor_law p _ _ w _ (cont_law (QmpQuiet := monitor_QmpQuiet) (sw_mons w p) Hr Hrun)).
Defined.

#[export] Instance simWorld_MonitorLaws : MonitorLaws simWorld.
Proof.
  refine {| monitor_laws := simWorld_QmpQuiet |}; intros; try by apply on_monitor_frame.
  by apply (f_equal mon_running), with_monitor_other.
Defined.

Lemma simWorld_vm_frame (v : vm) w :
  sw_net (VM_PowerStatus v w).2 = sw_net w /\ sw_net (VM_PowerOn v w).2 = sw_net w /\
  sw_net (VM_PowerOff v w).2 = sw_net w.
Proof.
  set (R := fun w w' : simWorld => sw_net w' = sw_net w).
  assert (HR : PreOrder R) by (split; [done|intros w1 w2 w3 H1 H2; unfold R in *; congruence]).
  assert (Hm : forall A (m : st monitor A), preserves R (on_monitor (vm_qmp v) m)).
  { intros A m w0 o w'. unfold on_monitor. destruct (m _) as [o1 q]. by intros [= _ <-]. }
  destruct (dialogue_preserves (QmpConn0 := monitor_at (vm_qmp v)) R) as (H1 & H2 & H3);
    [apply Hm..|intros l; apply Hm|done|].
  split_and!; [eapply H1|eapply H2|eapply H3]; apply surjective_pairing.
Qed.
