(* ===== verification/Status.v ===== *)
(** * The status of a node as JSON (placemat/server.go)

    How the structures [NodeStatus] and [SMBIOSStatus] are printed by the API server and
    read by its clients, after their field tags. *)

From S2P Require Import Prelude GoBinary GoCrypto GoPath GoStrings Json Marshal Host Netlink Types Files.
From S2P Require Import Dcnet World Cache Volume Qemu Tap Machine Qmp Bmc Node Netns Cluster Api.

Local Open Scope Z_scope.
Local Open Scope go_scope.

Definition set_ss_Manufacturer (x : string) (s : SMBIOSStatus) : SMBIOSStatus :=
  {| ss_Manufacturer := x; ss_Product := ss_Product s; ss_Serial := ss_Serial s |}.
Definition set_ss_Product (x : string) (s : SMBIOSStatus) : SMBIOSStatus :=
  {| ss_Manufacturer := ss_Manufacturer s; ss_Product := x; ss_Serial := ss_Serial s |}.
Definition set_ss_Serial (x : string) (s : SMBIOSStatus) : SMBIOSStatus :=
  {| ss_Manufacturer := ss_Manufacturer s; ss_Product := ss_Product s; ss_Serial := x |}.

Definition smbios_fields : list (json_field SMBIOSStatus) :=
  [field "manufacturer" ss_Manufacturer set_ss_Manufacturer;
   field "product" ss_Product set_ss_Product;
   field "serial" ss_Serial set_ss_Serial].

#[export] Instance json_SMBIOSStatus : JsonType SMBIOSStatus := {|
  json_zero := {| ss_Manufacturer := json_zero; ss_Product := json_zero; ss_Serial := json_zero |};
  to_json s := Json.Object
    [(bytes_of_string "manufacturer", to_json (ss_Manufacturer s));
     (bytes_of_string "product", to_json (ss_Product s));
     (bytes_of_string "serial", to_json (ss_Serial s))];
  from_json := from_struct smbios_fields
|}.

Definition set_st_Name (x : string) (s : NodeStatus) : NodeStatus :=
  {| st_Name := x; st_Taps := st_Taps s; st_Volumes := st_Volumes s; st_CPU := st_CPU s;
     st_Memory := st_Memory s; st_UEFI := st_UEFI s; st_TPM := st_TPM s;
     st_SMBIOS := st_SMBIOS s; st_PowerStatus := st_PowerStatus s;
     st_SocketPath := st_SocketPath s |}.
Definition set_st_Taps (x : option (gmap string string)) (s : NodeStatus) : NodeStatus :=
  {| st_Name := st_Name s; st_Taps := x; st_Volumes := st_Volumes s; st_CPU := st_CPU s;
     st_Memory := st_Memory s; st_UEFI := st_UEFI s; st_TPM := st_TPM s;
     st_SMBIOS := st_SMBIOS s; st_PowerStatus := st_PowerStatus s;
     st_SocketPath := st_SocketPath s |}.
Definition set_st_Volumes (x : option (list string)) (s : NodeStatus) : NodeStatus :=
  {| st_Name := st_Name s; st_Taps := st_Taps s; st_Volumes := x; st_CPU := st_CPU s;
     st_Memory := st_Memory s; st_UEFI := st_UEFI s; st_TPM := st_TPM s;
     st_SMBIOS := st_SMBIOS s; st_PowerStatus := st_PowerStatus s;
     st_SocketPath := st_SocketPath s |}.
Definition set_st_CPU (x : Z) (s : NodeStatus) : NodeStatus :=
  {| st_Name := st_Name s; st_Taps := st_Taps s; st_Volumes := st_Volumes s; st_CPU := x;
     st_Memory := st_Memory s; st_UEFI := st_UEFI s; st_TPM := st_TPM s;
     st_SMBIOS := st_SMBIOS s; st_PowerStatus := st_PowerStatus s;
     st_SocketPath := st_SocketPath s |}.
Definition set_st_Memory (x : string) (s : NodeStatus) : NodeStatus :=
  {| st_Name := st_Name s; st_Taps := st_Taps s; st_Volumes := st_Volumes s;
     st_CPU := st_CPU s; st_Memory := x; st_UEFI := st_UEFI s; st_TPM := st_TPM s;
     st_SMBIOS := st_SMBIOS s; st_PowerStatus := st_PowerStatus s;
     st_SocketPath := st_SocketPath s |}.
Definition set_st_UEFI (x : bool) (s : NodeStatus) : NodeStatus :=
  {| st_Name := st_Name s; st_Taps := st_Taps s; st_Volumes := st_Volumes s;
     st_CPU := st_CPU s; st_Memory := st_Memory s; st_UEFI := x; st_TPM := st_TPM s;
     st_SMBIOS := st_SMBIOS s; st_PowerStatus := st_PowerStatus s;
     st_SocketPath := st_SocketPath s |}.
Definition set_st_TPM (x : bool) (s : NodeStatus) : NodeStatus :=
  {| st_Name := st_Name s; st_Taps := st_Taps s; st_Volumes := st_Volumes s;
     st_CPU := st_CPU s; st_Memory := st_Memory s; st_UEFI := st_UEFI s; st_TPM := x;
     st_SMBIOS := st_SMBIOS s; st_PowerStatus := st_PowerStatus s;
     st_SocketPath := st_SocketPath s |}.
Definition set_st_SMBIOS (x : SMBIOSStatus) (s : NodeStatus) : NodeStatus :=
  {| st_Name := st_Name s; st_Taps := st_Taps s; st_Volumes := st_Volumes s;
     st_CPU := st_CPU s; st_Memory := st_Memory s; st_UEFI := st_UEFI s;
     st_TPM := st_TPM s; st_SMBIOS := x; st_PowerStatus := st_PowerStatus s;
     st_SocketPath := st_SocketPath s |}.
Definition set_st_PowerStatus (x : string) (s : NodeStatus) : NodeStatus :=
  {| st_Name := st_Name s; st_Taps := st_Taps s; st_Volumes := st_Volumes s;
     st_CPU := st_CPU s; st_Memory := st_Memory s; st_UEFI := st_UEFI s;
     st_TPM := st_TPM s; st_SMBIOS := st_SMBIOS s; st_PowerStatus := x;
     st_SocketPath := st_SocketPath s |}.
Definition set_st_SocketPath (x : string) (s : NodeStatus) : NodeStatus :=
  {| st_Name := st_Name s; st_Taps := st_Taps s; st_Volumes := st_Volumes s;
     st_CPU := st_CPU s; st_Memory := st_Memory s; st_UEFI := st_UEFI s;
     st_TPM := st_TPM s; st_SMBIOS := st_SMBIOS s; st_PowerStatus := st_PowerStatus s;
     st_SocketPath := x |}.

Definition status_fields : list (json_field NodeStatus) :=
  [field "name" st_Name set_st_Name;
   field "taps" st_Taps set_st_Taps;
   field "volumes" st_Volumes set_st_Volumes;
   field "cpu" st_CPU set_st_CPU;
   field "memory" st_Memory set_st_Memory;
   field "uefi" st_UEFI set_st_UEFI;
   field "tpm" st_TPM set_st_TPM;
   field "smbios" st_SMBIOS set_st_SMBIOS;
   field "power_status" st_PowerStatus set_st_PowerStatus;
   field "socket_path" st_SocketPath set_st_SocketPath].

#[export] Instance json_NodeStatus : JsonType NodeStatus := {|
  json_zero := {| st_Name := json_zero; st_Taps := json_zero; st_Volumes := json_zero;
                  st_CPU := json_zero; st_Memory := json_zero; st_UEFI := json_zero;
                  st_TPM := json_zero; st_SMBIOS := json_zero; st_PowerStatus := json_zero;
                  st_SocketPath := json_zero |};
  to_json s := Json.Object
    [(bytes_of_string "name", to_json (st_Name s));
     (bytes_of_string "taps", to_json (st_Taps s));
     (bytes_of_string "volumes", to_json (st_Volumes s));
     (bytes_of_string "cpu", to_json (st_CPU s));
     (bytes_of_string "memory", to_json (st_Memory s));
     (bytes_of_string "uefi", to_json (st_UEFI s));
     (bytes_of_string "tpm", to_json (st_TPM s));
     (bytes_of_string "smbios", to_json (st_SMBIOS s));
     (bytes_of_string "power_status", to_json (st_PowerStatus s));
     (bytes_of_string "socket_path", to_json (st_SocketPath s))];
  from_json := from_struct status_fields
|}.

(** ** Laws *)

#[export] Instance json_SMBIOSStatus_laws : JsonLaws SMBIOSStatus.
Proof.
  refine {| good s := good (ss_Manufacturer s) /\ good (ss_Product s) /\ good (ss_Serial s) |}.
  - intros s (H1 & H2 & H3). constructor.
    repeat (apply Forall_cons_2; [split; [done|by apply to_json_printable]|]). constructor.
  - intros [x0 x1 x2] (H1 & H2 & H3). cbn [ss_Manufacturer ss_Product ss_Serial] in *.
    change (fold_left (store_member smbios_fields)
      [(bytes_of_string "manufacturer", valid_value (to_json x0));
       (bytes_of_string "product", valid_value (to_json x1));
       (bytes_of_string "serial", valid_value (to_json x2))]
      (json_zero, None) = ({| ss_Manufacturer := x0; ss_Product := x1; ss_Serial := x2 |}, None)).
    unfold smbios_fields. repeat store_field. reflexivity.
Defined.

#[export] Instance json_NodeStatus_laws : JsonLaws NodeStatus.
Proof.
  refine {| good s := good (st_Name s) /\
    good (st_Taps s) /\
    good (st_Volumes s) /\
    good (st_CPU s) /\
    good (st_Memory s) /\
    good (st_UEFI s) /\
    good (st_TPM s) /\
    good (st_SMBIOS s) /\
    good (st_PowerStatus s) /\
    good (st_SocketPath s) |}.
  - intros s Hs. destruct_and! Hs. constructor.
    repeat (apply Forall_cons_2; [split; [done|by apply to_json_printable]|]). constructor.
  - intros [x0 x1 x2 x3 x4 x5 x6 x7 x8 x9] Hs. cbn [st_Name st_Taps st_Volumes st_CPU st_Memory st_UEFI st_TPM st_SMBIOS st_PowerStatus st_SocketPath] in Hs.
    destruct_and! Hs.
    change (fold_left (store_member status_fields)
      [(bytes_of_string "name", valid_value (to_json x0));
       (bytes_of_string "taps", valid_value (to_json x1));
       (bytes_of_string "volumes", valid_value (to_json x2));
       (bytes_of_string "cpu", valid_value (to_json x3));
       (bytes_of_string "memory", valid_value (to_json x4));
       (bytes_of_string "uefi", valid_value (to_json x5));
       (bytes_of_string "tpm", valid_value (to_json x6));
       (bytes_of_string "smbios", valid_value (to_json x7));
       (bytes_of_string "power_status", valid_value (to_json x8));
       (bytes_of_string "socket_path", valid_value (to_json x9))]
      (json_zero, None) = ({| st_Name := x0; st_Taps := x1; st_Volumes := x2; st_CPU := x3;
        st_Memory := x4; st_UEFI := x5; st_TPM := x6; st_SMBIOS := x7;
        st_PowerStatus := x8; st_SocketPath := x9 |}, None)).
    unfold status_fields. repeat store_field. reflexivity.
Defined.
