(* ===== verification/Lifecycle.v ===== *)
(** * The life of a cluster (placemat/cluster.go)

    [cluster.Setup] as a whole.  When the nodes are set up, the BMC server, the
    namespaces, the machines and the API server run until they end; what they do is a
    sequence of events, in any order:

    - a guest writes to its serial device, and the message its handler sends is taken
      by the BMC server;
    - the goroutine of a namespace runs;
    - the process of a machine is waited for;
    - the API server answers a request (gin recovers the panic of a handler).

    A panic in a goroutine ends the process, and then no deferred function runs. *)

From S2P Require Import Prelude GoBinary GoCrypto GoPath Host Netlink Types Files Dcnet World Cache.
From S2P Require Import Volume Qemu Tap Machine Qmp Bmc Node Netns Cluster Api.

Local Open Scope Z_scope.
Local Open Scope go_scope.

Inductive event : Type :=
| GuestWrites (i : nat) (stream : list Z)
| NamespaceRuns (i : nat)
| MachineWaits (serial : string)
| ApiCall (req : api_request).

(** The guests' connections, and the first error of the environment. *)
Record serving : Type := { sv_guests : list guestConnection; sv_error : option error }.

Definition note (e : error) (sv : serving) : serving :=
  {| sv_guests := sv_guests sv;
     sv_error := match sv_error sv with Some e0 => Some e0 | None => Some e end |}.

Section Lifecycle.
Context {W : Type} `{!Host W} `{!HostFiles W} `{!Http W} `{!Procs W} `{!UrlOps} `{!AddrOps}
  `{!NetOps W} `{!Rand W} `{!NsOps W} `{!DetectMtu W} `{!Listen W} `{!VM W vm}.

Abbreviation cst := (st (W * cluster)).

(** ** Events *)

Definition guest_writes (i : nat) (stream : list Z) (sv : serving) : cst serving :=
  fun s =>
  match sv_guests sv !! i with
  | None => (Ok sv, s)
  | Some g =>
      let (g', infos) := guest_handle g stream in
      (let* _ := on_host (bmc_Start (NewBMCServer (c_vms s.2) (c_networks s.2)) infos) in
       sret {| sv_guests := <[i := g']> (sv_guests sv); sv_error := sv_error sv |}) s
  end.

Definition namespace_runs (mtu : Z) (force : bool) (i : nat) (sv : serving) : cst serving :=
  fun s =>
  match c_netNss s.2 !! i with
  | None => (Ok sv, s)
  | Some n =>
      let '(o, (w', n')) := netns_Setup mtu force (s.1, n) in
      let s' := (w', set_netNss s.2 (<[i := n']> (c_netNss s.2))) in
      match o with
      | Ok _ => (Ok sv, s')
      | Err e => (Ok (note e sv), s')
      | Panic p => (Panic p, s')
      | Diverge => (Diverge, s')
      end
  end.

Definition machine_waits (serial : string) (sv : serving) : cst serving :=
  fun s =>
  match c_vms s.2 !! serial with
  | None => (Ok sv, s)
  | Some v =>
      (let* res := stry (on_host (let* v := deref v in VM_Wait v)) in
       sret (match res with inl _ => sv | inr e => note e sv end)) s
  end.

(** The handler of a request; its answer goes to the client. *)
Definition api_call (r : Runtime) (req : api_request) (sv : serving) : cst serving :=
  fun s =>
  match api_route (newAPIServer _ _ s.2 r) req s.1 with
  | (Diverge, w') => (Diverge, (w', s.2))
  | (_, w') => (Ok sv, (w', s.2))
  end.

Definition handle_event (r : Runtime) (mtu : Z) (e : event) : serving -> cst serving :=
  match e with
  | GuestWrites i stream => guest_writes i stream
  | NamespaceRuns i => namespace_runs mtu (Force r) i
  | MachineWaits serial => machine_waits serial
  | ApiCall req => api_call r req
  end.

Fixpoint handle_events (r : Runtime) (mtu : Z) (events : list event) (sv : serving) : cst serving :=
  match events with
  | [] => sret sv
  | e :: events' =>
      let* sv' := handle_event r mtu e sv in
      handle_events r mtu events' sv'
  end.

(** ** Set-up *)

(** [apiServer.start] up to [Serve], which ends with the error of the schedule: the method
    [Addr] of a nil listener is a nil dereference. *)
Definition apiServer_start (listener : option nat) : cst unit :=
  match listener with
  | Some _ => sret tt
  | None => slift (Panic NilDereference)
  end.

(** The namespaces are made and the API server's port is opened. *)
Definition open_api (r : Runtime) : cst unit :=
  (fun s => sfor (c_netNSSpecs s.2) add_netns s) >>>
  let* addr := on_host (or_nil (slift (ResolveTCPAddr (ListenAddr r)))) in
  let* listener := on_host (or_nil (ListenTCP addr)) in
  apiServer_start listener.

(** Events until the API server ends, with its error or with the environment's. *)
Definition serve (r : Runtime) (mtu : Z) (guests : list guestConnection) (events : list event)
  (served : option error) : cst unit :=
  let* sv := handle_events r mtu events {| sv_guests := guests; sv_error := None |} in
  match served with
  | Some e => sthrow e
  | None => match sv_error sv with
            | Some e => sthrow e
            | None => sret tt
            end
  end.

(** What the main goroutine does with a result: the deferred functions. *)
Definition shutdown (vm_order : list (option vm) -> list (option vm)) (o : outcome unit) : cst unit :=
  with_defer (cluster_cleanup vm_order) (with_defer (cleanup_vms vm_order) (slift o)).

(** After the set-up of the nodes. *)
Definition setup_after (r : Runtime) (mtu : Z) (guests : list guestConnection)
  (vm_order : list (option vm) -> list (option vm)) (events : list event) (served : option error)
  : cst unit :=
  fun s =>
  match open_api r s with
  | (Ok _, s1) =>
      match serve r mtu guests events served s1 with
      | (Panic p, s2) => (Panic p, s2)
      | (o, s2) => shutdown vm_order o s2
      end
  | (o, s1) => shutdown vm_order o s1
  end.

Definition cluster_Setup (vhost : bool) (fuel : nat) (r : Runtime) (node_order : list nat)
  (vm_order : list (option vm) -> list (option vm)) (events : list event) (served : option error)
  : cst unit :=
  fun s =>
  match setup_before r s with
  | (Ok mtu, s1) =>
      match stry (setup_nodes vhost fuel r mtu node_order) s1 with
      | (Ok (inl guests), s2) => setup_after r mtu guests vm_order events served s2
      | (Ok (inr e), s2) => shutdown vm_order (Err e) s2
      | (Err e, s2) => (Err e, s2)
      | (Panic p, s2) => (Panic p, s2)
      | (Diverge, s2) => (Diverge, s2)
      end
  | (Err e, s1) => with_defer (cluster_cleanup vm_order) (sthrow e) s1
  | (Panic p, s1) => with_defer (cluster_cleanup vm_order) (slift (Panic p)) s1
  | (Diverge, s1) => (Diverge, s1)
  end.

End Lifecycle.

(** ** Sockets of the simulated host *)

#[export] Instance simWorld_Listen : Listen simWorld := {|
  ResolveUDPAddr s := Ok (String.length s);
  ListenUDP a := sret (default 0%nat a);
  ResolveTCPAddr s := Ok (String.length s);
  ListenTCP a := sret (default 0%nat a)
|}.

#[export] Instance simWorld_ListenLaws : ListenLaws (W := simWorld).
Proof. split; [by intros ? ?..| |]; done. Qed.
