(* ===== verification/Firewall.v ===== *)
(** * The firewall through the life of a cluster

    The chains of the firewall are changed by the firewall chains of the program and by
    networks only.  Everything else a cluster does leaves them alone, so that the
    clean-up restores the firewall however the set-up ends. *)

From S2P Require Import Prelude GoBinary GoCrypto GoPath GoStrings Host Netlink Types Files Dcnet World Cache.
From S2P Require Import Volume Qemu Tap Machine Qmp Bmc Node Netns Cluster Api Lifecycle.

Local Open Scope Z_scope.
Local Open Scope go_scope.

(** The program's commands that do not configure the network. *)
Definition disk_command (c : list string) : Prop := hd "" c ∈ ["cp"; "qemu-img"; "cloud-localds"; "modprobe"].

(** Files, processes, entropy and downloads leave the network configuration alone. *)
Class NetFrame (W : Type) `{!AddrOps} `{!NetOps W} {L : NetLaws W} `{!Host W} `{!HostFiles W}
  `{!Http W} `{!Procs W} `{!Rand W} `{!NsOps W} `{!DetectMtu W} : Prop := {
  nf_stat : forall p w, view (os_Stat p w).2 = view w;
  nf_close : forall f w, view (file_Close f w) = view w;
  nf_tick : forall w, view (wait_tick w).2 = view w;
  nf_mkdirall : forall d w, view (os_MkdirAll d w).2 = view w;
  nf_getwd : forall w, view (os_Getwd w).2 = view w;
  nf_open : forall p w, view (os_Open p w).2 = view w;
  nf_create : forall p w, view (os_Create p w).2 = view w;
  nf_openfile : forall p w, view (os_OpenFile p w).2 = view w;
  nf_copy : forall f g w, view (io_Copy f g w).2 = view w;
  nf_gzip : forall f w, view (gzip_NewReader f w).2 = view w;
  nf_bzip2 : forall f w, view (bzip2_NewReader f w).2 = view w;
  nf_run : forall c w, disk_command c -> view (exec_Run c w).2 = view w;
  nf_output : forall c w, disk_command c -> view (exec_Output c w).2 = view w;
  nf_remove : forall p w, view (os_Remove p w).2 = view w;
  nf_removeall : forall p w, view (os_RemoveAll p w).2 = view w;
  nf_mkdir : forall p w, view (os_Mkdir p w).2 = view w;
  nf_temp : forall d p w, view (os_CreateTemp d p w).2 = view w;
  nf_sync : forall f w, view (file_Sync f w).2 = view w;
  nf_rename : forall a b w, view (os_Rename a b w).2 = view w;
  nf_do : forall u w, view (http_Do u w).2 = view w;
  nf_start : forall c w, view (exec_Start c w).2 = view w;
  nf_dial : forall p w, view (net_Dial p w).2 = view w;
  nf_conn : forall c w, view (conn_Close c w).2 = view w;
  nf_rand : forall n w, view (Rand_Read n w).2 = view w;
  nf_delete : forall n w, v_chains (view (netns_DeleteNamed n w).2) = v_chains (view w);
  nf_mtu : forall w, view (DetectMTU w).2 = view w
}.

(** A namespace is entered and left again: meanwhile [outside] is the firewall of the
    host, and what runs inside does not touch it.  Machines do not either. *)
Class NsFrame (W : Type) `{!AddrOps} `{!NetOps W} {L : NetLaws W} `{!Host W} `{!Rand W}
  `{!NsOps W} `{!VM W vm} : Type := {
  outside : W -> gmap chain (list rule);
  nsf_get : forall w, view (netns_Get w).2 = view w;
  nsf_new : forall n w, match netns_NewNamed n w with
    | (Ok _, w') => outside w' = v_chains (view w)
    | (_, w') => v_chains (view w') = v_chains (view w)
    end;
  nsf_set : forall h w, exists w', netns_Set h w = (Ok tt, w') /\ v_chains (view w') = outside w;
  nsf_close : forall h w, view (netns_Close h w) = view w;
  nsf_getns : forall p w, view (ns_GetNS p w).2 = view w;
  nsf_nsclose : forall h w, view (ns_Close h w) = view w;
  nsf_enter : forall n w, match ns_Enter n w with
    | (Ok _, w') => outside w' = v_chains (view w)
    | (_, w') => v_chains (view w') = v_chains (view w)
    end;
  nsf_leave : forall w, v_chains (view (ns_Leave w)) = outside w;
  nsf_link : forall n w, outside (LinkByName n w).2 = outside w;
  nsf_up : forall n w, outside (LinkSetUp n w).2 = outside w;
  nsf_forward : forall p w, outside (EnableForward p w).2 = outside w;
  nsf_addr : forall n a w, outside (AddrAdd n a w).2 = outside w;
  nsf_veth : forall c h m w, outside (SetupVethWithName c h m w).2 = outside w;
  nsf_sysctl : forall k v w, outside (sysctl_Sysctl k v w).2 = outside w;
  nsf_rand : forall n w, outside (Rand_Read n w).2 = outside w;
  nsf_exec : forall c w, outside (exec_Run c w).2 = outside w;
  nsf_status : forall v w, view (VM_PowerStatus v w).2 = view w;
  nsf_on : forall v w, view (VM_PowerOn v w).2 = view w;
  nsf_off : forall v w, view (VM_PowerOff v w).2 = view w;
  nsf_wait : forall v w, view (VM_Wait v w).2 = view w
}.

Section Frames.
Context {W : Type} `{!AddrOps} `{!NetOps W} {L : NetLaws W} `{!Host W} `{!HostFiles W}
  `{!Http W} `{!Procs W} `{!Rand W} `{!NsOps W} `{!DetectMtu W} {NF : NetFrame W} `{!UrlOps}.

(** The chains are as they were. *)
Definition same_chains (w w' : W) : Prop := v_chains (view w') = v_chains (view w).

#[export] Instance same_chains_pre : PreOrder same_chains.
Proof. split; [done|]. intros w1 w2 w3 H1 H2. unfold same_chains in *. congruence. Qed.

Lemma keep {A} (m : st W A) : (forall w, view (m w).2 = view w) -> preserves same_chains m.
Proof. intros Hm w o w' E. unfold same_chains. specialize (Hm w). rewrite E in Hm. by rewrite <- Hm. Qed.

Lemma keep_chains {A} (m : st W A) : (forall w, same_chains w (m w).2) -> preserves same_chains m.
Proof. intros Hm w o w' E. specialize (Hm w). by rewrite E in Hm. Qed.

Lemma keep_link {A} (m : st W A) R :
  effect view m R -> (forall v a v', R v a v' -> v_chains v' = v_chains v) -> preserves same_chains m.
Proof.
  intros He HR w o w' E. specialize (He w). rewrite E in He. unfold same_chains.
  destruct o; try done; [by apply HR in He|by rewrite He].
Qed.

Ltac link_op law := eapply keep_link; [apply law|intros ? ? ? Hr; cbn in Hr; naive_solver].

Lemma keep_LinkAdd n k : preserves same_chains (LinkAdd n k). Proof. link_op LinkAdd_law. Qed.
Lemma keep_LinkByName n : preserves same_chains (LinkByName n). Proof. link_op LinkByName_law. Qed.
Lemma keep_LinkList : preserves same_chains LinkList. Proof. link_op LinkList_law. Qed.
Lemma keep_LinkSetMTU n m : preserves same_chains (LinkSetMTU n m). Proof. link_op LinkSetMTU_law. Qed.
Lemma keep_LinkSetUp n : preserves same_chains (LinkSetUp n). Proof. link_op LinkSetUp_law. Qed.
Lemma keep_LinkSetMaster n m : preserves same_chains (LinkSetMaster n m).
Proof. link_op LinkSetMaster_law. Qed.
Lemma keep_LinkDel n : preserves same_chains (LinkDel n). Proof. link_op LinkDel_law. Qed.

Lemma keep_mkdirall d : preserves same_chains (os_MkdirAll d). Proof. apply keep, nf_mkdirall. Qed.
Lemma keep_getwd : preserves same_chains os_Getwd. Proof. apply keep, nf_getwd. Qed.
Lemma keep_open p : preserves same_chains (os_Open p). Proof. apply keep, nf_open. Qed.
Lemma keep_create p : preserves same_chains (os_Create p). Proof. apply keep, nf_create. Qed.
Lemma keep_openfile p : preserves same_chains (os_OpenFile p). Proof. apply keep, nf_openfile. Qed.
Lemma keep_copy f g : preserves same_chains (io_Copy f g). Proof. apply keep, nf_copy. Qed.
Lemma keep_gzip f : preserves same_chains (gzip_NewReader f). Proof. apply keep, nf_gzip. Qed.
Lemma keep_bzip2 f : preserves same_chains (bzip2_NewReader f). Proof. apply keep, nf_bzip2. Qed.
Lemma keep_run c : disk_command c -> preserves same_chains (exec_Run c).
Proof. intros Hc. apply keep. intros w. by apply nf_run. Qed.
Lemma keep_output c : disk_command c -> preserves same_chains (exec_Output c).
Proof. intros Hc. apply keep. intros w. by apply nf_output. Qed.
Lemma keep_remove p : preserves same_chains (os_Remove p). Proof. apply keep, nf_remove. Qed.
Lemma keep_removeall p : preserves same_chains (os_RemoveAll p). Proof. apply keep, nf_removeall. Qed.
Lemma keep_mkdir p : preserves same_chains (os_Mkdir p). Proof. apply keep, nf_mkdir. Qed.
Lemma keep_temp d p : preserves same_chains (os_CreateTemp d p). Proof. apply keep, nf_temp. Qed.
Lemma keep_sync f : preserves same_chains (file_Sync f). Proof. apply keep, nf_sync. Qed.
Lemma keep_rename a b : preserves same_chains (os_Rename a b). Proof. apply keep, nf_rename. Qed.
Lemma keep_do u : preserves same_chains (http_Do u). Proof. apply keep, nf_do. Qed.
Lemma keep_start c : preserves same_chains (exec_Start c). Proof. apply keep, nf_start. Qed.
Lemma keep_dial p : preserves same_chains (net_Dial p). Proof. apply keep, nf_dial. Qed.
Lemma keep_conn c : preserves same_chains (conn_Close c). Proof. apply keep, nf_conn. Qed.
Lemma keep_rand n : preserves same_chains (Rand_Read n). Proof. apply keep, nf_rand. Qed.
Lemma keep_delete n : preserves same_chains (netns_DeleteNamed n).
Proof. apply keep_chains, nf_delete. Qed.
Lemma keep_mtu : preserves same_chains DetectMTU. Proof. apply keep, nf_mtu. Qed.

#[local] Hint Resolve keep_LinkAdd keep_LinkByName keep_LinkList keep_LinkSetMTU keep_LinkSetUp
  keep_LinkSetMaster keep_LinkDel keep_mkdirall keep_getwd keep_open keep_create keep_openfile
  keep_copy keep_gzip keep_bzip2 keep_remove keep_removeall keep_mkdir keep_temp keep_sync
  keep_rename keep_do keep_start keep_dial keep_conn keep_rand keep_delete keep_mtu : preserves.

(** Code that looks at a file, closes one, or waits. *)
Lemma keep_stat {A} p (f : stat_result -> st W A) (m : st W A) :
  (forall w, m w = f (os_Stat p w).1 (os_Stat p w).2) -> (forall x, preserves same_chains (f x)) ->
  preserves same_chains m.
Proof.
  intros Hm Hf w o w' E. rewrite Hm in E. pose proof (nf_stat p w) as Hv.
  destruct (os_Stat p w) as [x w1]. cbn in *. unfold same_chains. rewrite <- Hv. by eapply Hf.
Qed.

Lemma keep_with_file {A} f (m : st W A) :
  preserves same_chains m -> preserves same_chains (with_file f m).
Proof.
  intros Hm w o w'. unfold with_file. destruct (m w) as [o1 w1] eqn:E. intros [= <- <-].
  unfold same_chains. rewrite nf_close. by eapply Hm.
Qed.

Lemma keep_remove_if p : preserves same_chains (remove_if_there p).
Proof.
  apply (keep_stat p (fun x => match x with Exists _ => swarn (os_Remove p) | _ => sret tt end)).
  - intros w. unfold remove_if_there. by destruct (os_Stat p w) as [[] ].
  - intros []; preserves.
Qed.

Lemma keep_remove_dir d : preserves same_chains (remove_dir_if_there d).
Proof.
  apply (keep_stat d (fun x => match x with Exists _ => swarn (os_RemoveAll d) | _ => sret tt end)).
  - intros w. unfold remove_dir_if_there. by destruct (os_Stat d w) as [[] ].
  - intros []; preserves.
Qed.

#[local] Hint Resolve keep_remove_if keep_remove_dir : preserves.

Lemma keep_Decompress d f : preserves same_chains (Decompress d f).
Proof. destruct d; cbn [Decompress]; preserves. Qed.

#[local] Hint Resolve keep_Decompress : preserves.

(** ** Images and volumes *)

Lemma keep_put_deferred {A} b f p (m : st W A) :
  preserves same_chains m ->
  preserves same_chains (fun w => let (o, w1) := m w in put_deferred b f p o w1).
Proof.
  intros Hm w o w'. destruct (m w) as [o1 w1] eqn:E1. unfold put_deferred.
  assert (H2 : same_chains w1 (if b then file_Close f w1 else w1)).
  { destruct b; [unfold same_chains; by rewrite nf_close|reflexivity]. }
  destruct (swarn (os_Remove p) _) as [o2 w2] eqn:E2. intros [= <- <-].
  assert (H3 : preserves same_chains (swarn (os_Remove p))) by preserves.
  etransitivity; [by eapply Hm|]. etransitivity; [exact H2|]. by eapply H3.
Qed.

Lemma keep_Put c key data : preserves same_chains (cache_Put c key data).
Proof.
  unfold cache_Put. apply preserves_bind; [apply _|preserves|]. intros [f tmp] w o w' E.
  assert (Hc : preserves same_chains (io_Copy f data >>> file_Sync f)) by preserves.
  destruct ((io_Copy f data >>> file_Sync f) w) as [o1 w1] eqn:E1. pose proof (Hc _ _ _ E1) as H1.
  destruct o1 as [u|e|q|].
  2-4: etransitivity; [exact H1|]; eapply (keep_put_deferred true f tmp (slift _)); [|exact E]; apply preserves_lift; apply _.
  etransitivity; [exact H1|].
  assert (H2 : same_chains w1 (file_Close f w1)) by (unfold same_chains; by rewrite nf_close).
  etransitivity; [exact H2|].
  eapply (keep_put_deferred false f tmp (os_Rename tmp (Join [cache_dir c; escapeKey key]))); [preserves|exact E].
Qed.

#[local] Hint Resolve keep_Put : preserves.

Lemma keep_DownloadData u d c : preserves same_chains (DownloadData u d c).
Proof.
  apply (keep_stat (cache_Path c u) (fun x => match x with
    | NotExist => slift (http_NewRequest u) >>>
        let* res := http_Do u in
        with_file (Body res) (
          if negb (StatusCode res =? 200)
          then sthrow (errors_New ("failed to download: " +:+ Status res +:+ ": " +:+ u))
          else slift (Atoi (ContentLength res)) >>>
            let* src := match d with Some d => Decompress d (Body res) | None => sret (Body res) end in
            cache_Put c u src)
    | _ => sret tt end)).
  - intros w. unfold DownloadData, cache_Contains. by destruct (os_Stat (cache_Path c u) w) as [[] ].
  - intros []; [preserves| |preserves]. apply preserves_bind; [apply _|preserves|]. intros _.
    apply preserves_bind; [apply _|preserves|]. intros res. apply keep_with_file. preserves.
Qed.

Lemma keep_prepare (c : Cache) (w w' : W) (v v' : nodeVolume) o :
  prepare c (w, v) = (o, (w', v')) -> same_chains w w'.
Proof.
  unfold prepare. cbn [fst snd]. destruct v as [name cache i cow dir| | |]; try by intros [= _ <- _].
  unfold image_prepare. destruct (i_url i) as [u|]; [|by intros [= _ <- _]].
  destruct (DownloadData (url_String u) (i_decomp i) c w) as [o1 w1] eqn:E.
  apply keep_DownloadData in E. by destruct o1; intros [= _ <- _].
Qed.

Lemma keep_each {X B} (f : st (W * X) B) xs (w w' : W) xs' o :
  (forall w x o w' x', f (w, x) = (o, (w', x')) -> same_chains w w') ->
  each f xs w = (o, (w', xs')) -> same_chains w w'.
Proof.
  intros Hf. revert w o xs'. induction xs as [|x xs IH]; intros w o xs'; cbn [each].
  - by intros [= <- <- <-].
  - destruct (f (w, x)) as [o1 [w1 x1]] eqn:E1. pose proof (Hf _ _ _ _ _ E1) as H1.
    destruct o1; try (intros [= _ <- _]; exact H1).
    destruct (each f xs w1) as [o2 [w2 xs2]] eqn:E2. intros [= _ <- _].
    etransitivity; [exact H1|]. by eapply IH.
Qed.

Lemma disk_command_cons c l : c ∈ ["cp"; "qemu-img"; "cloud-localds"; "modprobe"] -> disk_command (c :: l).
Proof. done. Qed.

Ltac disk := apply keep_run || apply keep_output; apply disk_command_cons; set_solver +.

Lemma keep_Abs p : preserves same_chains (filepath_Abs p).
Proof. unfold filepath_Abs. preserves. Qed.

Lemma keep_cow b d : preserves same_chains (createCoWImageFromBase b d).
Proof. unfold createCoWImageFromBase. preserves; disk. Qed.

Lemma keep_write a b d : preserves same_chains (WriteToFile a b d).
Proof.
  unfold WriteToFile. apply preserves_bind; [apply _|preserves|]. intros f. apply keep_with_file.
  apply preserves_bind; [apply _|preserves|]. intros g. apply keep_with_file. preserves.
Qed.

Lemma keep_make_dir a b c d : preserves same_chains (makeVolumeDir a b c d).
Proof.
  intros w o w'. unfold makeVolumeDir. destruct (os_MkdirAll _ w) as [o1 w1] eqn:E.
  apply keep_mkdirall in E. by destruct o1; intros [= _ <-].
Qed.

#[local] Hint Resolve keep_Abs keep_cow keep_write keep_make_dir : preserves.

(** A file that is looked up and made when absent: what remains is its making. *)
Ltac when_absent p :=
  let w := fresh "w" in let w1 := fresh "w" in let o := fresh "o" in let w' := fresh "w" in
  let Hs := fresh "Hs" in
  intros w o w'; pose proof (nf_stat p w) as Hs; destruct (os_Stat p w) as [[] w1]; cbn [snd] in Hs;
  [by intros [= _ <-]; unfold same_chains; rewrite Hs| |by intros [= _ <-]; unfold same_chains; rewrite Hs];
  match goal with |- ?m w1 = (o, w') -> _ =>
    let HX := fresh "HX" in let E := fresh "E" in
    cut (preserves same_chains m);
      [intros HX E; apply HX in E; unfold same_chains in *; by rewrite <- Hs|]
  end.

Lemma keep_create_volume v a b : preserves same_chains (create v a b).
Proof.
  destruct v as [name cache i cow dir|name cache ud nc dir|name cache size format dir|name path wr];
    cbn [create].
  - unfold imageVolume_create. apply preserves_bind; [apply _|preserves|]. intros vp. when_absent vp.
    destruct (negb (String.eqb (i_file i) "")); [preserves|]. destruct cow; [preserves|].
    apply preserves_bind; [apply _|preserves|]. intros f. apply keep_with_file.
    apply preserves_bind; [apply _|preserves|]. intros g. apply keep_with_file. preserves.
  - unfold localDSVolume_create. apply preserves_bind; [apply _|preserves|]. intros vp. when_absent vp.
    apply preserves_bind; [apply _| |intros _; preserves]. destruct (String.eqb nc ""); disk.
  - unfold rawVolume_create. apply preserves_bind; [apply _|preserves|]. intros vp. when_absent vp.
    apply preserves_bind; [apply _|disk|intros _; preserves].
  - unfold hostPathVolume_create. apply preserves_bind; [apply _|preserves|]. intros p w o w'.
    destruct (os_MkdirAll p w) as [o1 w1] eqn:E. apply keep_mkdirall in E. by destruct o1; intros [= _ <-].
Qed.

(** ** Nodes *)

Lemma keep_RandomLinkName t : preserves same_chains (RandomLinkName t).
Proof. unfold RandomLinkName. preserves. Qed.

Lemma keep_CleanupAllLinks : preserves same_chains CleanupAllLinks.
Proof. unfold CleanupAllLinks. preserves. Qed.

#[local] Hint Resolve keep_create_volume keep_RandomLinkName keep_CleanupAllLinks : preserves.

Lemma keep_tap_Cleanup t : preserves same_chains (tap_Cleanup t).
Proof. unfold tap_Cleanup. preserves. Qed.

(** On the host's state together with an object. *)
Definition same2 {X : Type} (s s' : W * X) : Prop := same_chains s.1 s'.1.

#[export] Instance same2_pre {X : Type} : PreOrder (same2 (X := X)).
Proof. split; [by intros s|]. intros s1 s2 s3 H1 H2. unfold same2 in *. by etransitivity. Qed.

Lemma keep_on_host {X A} (m : st W A) : preserves same_chains m -> preserves (same2 (X := X)) (on_host m).
Proof.
  intros Hm [w x] o s'. unfold on_host. cbn. destruct (m w) as [o1 w1] eqn:E. intros [= <- <-].
  by eapply Hm.
Qed.

Lemma keep_tap_create mtu q : preserves same2 (tap_create (W := W) mtu q).
Proof.
  intros s. unfold tap_create. cbv beta zeta. generalize (t_bridge s.2). intros b. revert s.
  match goal with |- forall s o s', ?m s = (o, s') -> _ => change (preserves same2 m) end.
  assert (Hn : forall n, preserves (same2 (X := tap)) (set_tapName n)) by (by intros n s o s' [= <- <-]).
  apply preserves_bind; [apply _|apply keep_on_host; preserves|]. intros name.
  apply preserves_bind; [apply _|apply keep_on_host; preserves|]. intros _.
  apply preserves_bind; [apply _|case_match; [apply keep_on_host|]; preserves|]. intros _.
  apply preserves_bind; [apply _|apply keep_on_host; preserves|]. intros _.
  apply preserves_bind; [apply _|preserves|]. intros m.
  apply preserves_bind; [apply _|apply keep_on_host; preserves|]. intros _.
  apply preserves_bind; [apply _|apply Hn|]. intros _.
  apply preserves_bind; [apply _|apply keep_on_host; preserves|]. intros l. preserves.
Qed.

Lemma keep_createTaps mtu : preserves same2 (createTaps (W := W) mtu).
Proof.
  intros [w n] o [w' n']. unfold createTaps. cbn [fst snd].
  destruct (each _ (n_taps n) w) as [o1 [w1 ts]] eqn:E. intros [= _ <- _].
  eapply keep_each; [|exact E]. intros w2 t o2 w3 t' E2.
  assert (Hw : preserves same2 (swrap "failed to create the tap"
            (tap_create (W := W) mtu (n_networkDeviceQueue n)))) by (apply preserves_wrap, keep_tap_create).
  exact (Hw _ _ _ E2).
Qed.

Lemma keep_stat_all ps b : preserves same_chains (stat_all ps b).
Proof.
  revert b. induction ps as [|p ps IH]; intros b; cbn [stat_all]; [preserves|].
  apply (keep_stat p (fun x => match x with
    | Exists _ => stat_all ps b | NotExist => stat_all ps false | StatFailed e => sthrow e end)).
  - intros w. by destruct (os_Stat p w) as [[] ].
  - intros []; [apply IH..|preserves].
Qed.

Lemma keep_wait_for fuel ps : preserves same_chains (wait_for fuel ps).
Proof.
  induction fuel as [|fuel IH]; cbn [wait_for]; [preserves|].
  apply preserves_bind; [apply _|apply keep_stat_all|]. intros []; [preserves|]. intros w o w'.
  pose proof (nf_tick w) as Ht. destruct (wait_tick w) as [[] w1]; cbn in Ht.
  - intros E. apply IH in E. unfold same_chains in *. by rewrite <- Ht.
  - intros [= _ <-]. unfold same_chains. by rewrite Ht.
Qed.

#[local] Hint Resolve keep_wait_for keep_tap_Cleanup : preserves.

Lemma keep_mac : preserves same_chains (generate (macGenerator := macGeneratorForKVM (G := W))).
Proof.
  intros w o w'. cbn. destruct (Rand_Read 3 w) as [o1 w1] eqn:E. apply keep_rand in E.
  by destruct o1; intros [= _ <-].
Qed.

Lemma keep_command vhost q r :
  preserves same_chains (command (macGenerator0 := macGeneratorForKVM (G := W)) vhost q r).
Proof.
  unfold command. destruct (qemuParams q r) as [params c].
  apply preserves_bind; [apply _| |intros; preserves].
  revert params. induction (q_taps c) as [|t ts IH]; intros params; cbn [taps_params]; [preserves|].
  apply preserves_bind; [apply _| |intros; apply IH].
  apply preserves_bind; [apply _|apply keep_mac|intros; preserves].
Qed.

Lemma keep_CleanupGarbage n r : preserves same_chains (CleanupGarbage (W := W) n r).
Proof. unfold CleanupGarbage, remove_files. preserves. Qed.

Lemma keep_startSWTPM fuel n r : preserves same_chains (startSWTPM (W := W) fuel n r).
Proof. unfold startSWTPM. preserves. Qed.

Lemma keep_createNVRAM p : preserves same_chains (createNVRAM (W := W) p).
Proof.
  apply (keep_stat p (fun x => match x with
    | NotExist => exec_Run ["cp"; defaultOVMFVarsPath; p] | _ => sret tt end)).
  - intros w. unfold createNVRAM. by destruct (os_Stat p w) as [[] ].
  - intros []; [preserves|disk|preserves].
Qed.

Lemma keep_node_Setup vhost fuel r mtu : preserves same2 (node_Setup (W := W) vhost fuel r mtu).
Proof.
  intros s. unfold node_Setup. cbv beta zeta. generalize (s.2). intros n. revert s.
  match goal with |- forall s o s', ?m s = (o, s') -> _ => change (preserves same2 m) end.
  apply preserves_bind; [apply _|apply keep_on_host; case_match; [apply keep_CleanupGarbage|preserves]|].
  intros _.
  apply preserves_bind; [apply _|apply keep_on_host; case_match; [apply keep_startSWTPM|preserves]|].
  intros _.
  apply preserves_bind; [apply _|apply keep_on_host; unfold createVolumes; preserves|]. intros vArgs.
  apply preserves_bind; [apply _|apply keep_createTaps|]. intros infos.
  apply preserves_bind; [apply _|apply keep_on_host; case_match; [apply keep_createNVRAM|preserves]|].
  intros _.
  apply preserves_bind; [apply _|apply keep_on_host, keep_command|]. intros c.
  apply preserves_bind; [apply _|apply keep_on_host; preserves|]. intros cmd.
  apply keep_on_host. unfold connect_guest. preserves.
Qed.

Lemma keep_NewNode spec im dc : preserves same_chains (NewNode (W := W) spec im dc).
Proof.
  unfold NewNode. apply preserves_bind; [apply _|destruct (nd_SMP spec); cbn; preserves|]. intros smp.
  apply preserves_bind; [apply _|preserves|]. intros vs.
  apply preserves_bind; [apply _| |intros; preserves].
  apply preserves_map; [apply _|]. intros i. unfold newTap. preserves.
Qed.

Lemma keep_Prepare c : preserves same2 (Prepare (W := W) c).
Proof.
  intros [w n] o [w' n']. unfold Prepare. cbn [fst snd].
  destruct (each (prepare c) (n_volumes n) w) as [o1 [w1 vs]] eqn:E. intros [= _ <- _].
  eapply keep_each; [|exact E]. intros. by eapply keep_prepare.
Qed.

Lemma keep_vm_Cleanup v : preserves same_chains (vm_Cleanup (W := W) v).
Proof.
  unfold vm_Cleanup. apply preserves_bind; [apply _| |intros _; unfold remove_files; preserves].
  apply (keep_stat (vm_guest v) (fun x => match x with
    | Exists _ => swarn (conn_Close (vm_connGuest v)) | _ => sret tt end)).
  - intros w. by destruct (os_Stat (vm_guest v) w) as [[] ].
  - intros []; preserves.
Qed.

End Frames.

(** ** Events *)

Section Events.
Context {W : Type} `{!AddrOps} `{!NetOps W} {L : NetLaws W} `{!Host W} `{!HostFiles W}
  `{!Http W} `{!Procs W} `{!Rand W} `{!NsOps W} `{!DetectMtu W} {NF : NetFrame W} `{!UrlOps}
  `{!Listen W} {LL : ListenLaws (W := W)} `{!VM W vm} {SF : NsFrame W}.

(** Inside a namespace. *)
Definition same_outside {X : Type} (s s' : W * X) : Prop := outside s'.1 = outside s.1.

#[local] Instance same_outside_pre {X : Type} : PreOrder (same_outside (X := X)).
Proof. split; [done|]. intros s1 s2 s3 H1 H2. unfold same_outside in *. congruence. Qed.

Definition out (w w' : W) : Prop := outside w' = outside w.

#[local] Instance out_pre : PreOrder out.
Proof. split; [done|]. intros w1 w2 w3 H1 H2. unfold out in *. congruence. Qed.

Abbreviation inside_only m := (preserves out m).

Lemma inside {A} (m : st W A) : (forall w, outside (m w).2 = outside w) -> inside_only m.
Proof. intros Hm w o w' E. unfold out. specialize (Hm w). by rewrite E in Hm. Qed.

Lemma inside_host {X A} (m : st W A) : inside_only m -> preserves (same_outside (X := X)) (on_host m).
Proof.
  intros Hm [w x] o s'. unfold on_host. cbn. destruct (m w) as [o1 w1] eqn:E. intros [= <- <-].
  by eapply Hm.
Qed.

Lemma inside_link n : inside_only (LinkByName n). Proof. apply inside, nsf_link. Qed.
Lemma inside_up n : inside_only (LinkSetUp n). Proof. apply inside, nsf_up. Qed.
Lemma inside_forward p : inside_only (EnableForward p). Proof. apply inside, nsf_forward. Qed.
Lemma inside_addr n a : inside_only (AddrAdd n a). Proof. apply inside, nsf_addr. Qed.
Lemma inside_veth c h m : inside_only (SetupVethWithName c h m). Proof. apply inside, nsf_veth. Qed.
Lemma inside_sysctl k v : inside_only (sysctl_Sysctl k v). Proof. apply inside, nsf_sysctl. Qed.
Lemma inside_rand n : inside_only (Rand_Read n). Proof. apply inside, nsf_rand. Qed.
Lemma inside_exec c : inside_only (exec_Run c). Proof. apply inside, nsf_exec. Qed.

#[local] Hint Resolve inside_link inside_up inside_forward inside_addr inside_veth inside_sysctl
  inside_rand inside_exec : preserves.

Lemma inside_enable : inside_only enable_forwarding.
Proof. unfold enable_forwarding. preserves. Qed.

Lemma inside_scripts l : inside_only (run_scripts l).
Proof. unfold run_scripts. preserves. Qed.

Lemma inside_create_veth mtu i ifc : preserves same_outside (create_veth (W := W) mtu i ifc).
Proof.
  unfold create_veth.
  apply preserves_bind; [apply _|apply inside_host; unfold RandomLinkName; preserves|]. intros name.
  apply preserves_bind; [apply _|apply inside_host; preserves|]. intros vs.
  apply preserves_bind; [apply _|by intros s o s' [= _ <-]|]. intros _.
  apply preserves_bind; [apply _|apply inside_host; preserves|]. intros l.
  apply preserves_bind; [apply _|apply inside_host; preserves|]. intros _.
  apply inside_host; preserves.
Qed.

Lemma inside_create_veths mtu i ifcs : preserves same_outside (create_veths (W := W) mtu i ifcs).
Proof.
  revert i. induction ifcs as [|ifc ifcs IH]; intros i; cbn [create_veths]; [preserves|].
  apply preserves_bind; [apply _|apply inside_create_veth|]. intros _. apply IH.
Qed.

(** What runs in a namespace leaves the host's firewall alone. *)
Lemma keep_Do {X A} ns (body : st (W * X) A) :
  preserves same_outside body -> preserves same2 (ns_Do ns body).
Proof.
  intros Hb [w x] o s'. unfold ns_Do, sbind, on_host. cbn [fst snd]. pose proof (nsf_enter ns w) as He.
  destruct (ns_Enter ns w) as [[u|e|p|] w1]; try (intros [= _ <-]; exact He).
  destruct (body (w1, x)) as [o2 [w2 x2]] eqn:E. intros [= _ <-]. unfold same2, same_chains. cbn.
  rewrite nsf_leave, <- He. exact (Hb _ _ _ E).
Qed.

Lemma keep_createNetNS n : preserves same_chains (createNetNS (W := W) n).
Proof.
  unfold createNetNS. apply preserves_bind; [apply _|apply preserves_wrap, keep, nsf_get|].
  intros cur w o w'. unfold sbind at 1, swrap at 1. pose proof (nsf_new (ns_name n) w) as Hn.
  destruct (netns_NewNamed (ns_name n) w) as [[h|e|p|] w1]; try (by intros [= _ <-]).
  unfold with_handle, sbind, swrap. destruct (nsf_set cur w1) as (w2 & -> & H2).
  pose proof (nsf_getns (Join [getNsRunDir w2; ns_name n]) w2) as H3.
  destruct (ns_GetNS _ w2) as [o3 w3]. cbn in H3. intros [= _ <-]. unfold same_chains.
  by rewrite nsf_close, H3, H2, Hn.
Qed.

Lemma keep_connect i names ifcs : preserves same_chains (connect_veths (W := W) i names ifcs).
Proof.
  revert i. induction names as [|name names IH]; intros i; cbn [connect_veths]; [preserves|].
  apply preserves_bind; [apply _|apply preserves_wrap, keep_LinkByName|]. intros l.
  apply preserves_bind; [apply _|case_match; preserves|]. intros ifc.
  apply preserves_bind; [apply _|apply preserves_wrap, keep_LinkSetMaster|]. intros _. apply IH.
Qed.

Lemma keep_run_apps ns apps : preserves same2 (run_apps (W := W) ns apps).
Proof.
  induction apps as [|a apps IH]; cbn [run_apps]; [preserves|].
  apply preserves_bind; [apply _| |intros [u|e]; [exact IH|]].
  - apply preserves_try, keep_Do. case_match; [preserves|]. apply inside_host; preserves.
  - apply preserves_bind; [apply _|apply preserves_warn, IH|]. intros _. preserves.
Qed.

Lemma keep_netns_Setup mtu force : preserves same2 (netns_Setup (W := W) mtu force).
Proof.
  intros s. unfold netns_Setup. cbv zeta. generalize s.2. intros n. revert s.
  match goal with |- forall s o s', ?m s = (o, s') -> _ => change (preserves same2 m) end.
  apply preserves_bind; [apply _|apply keep_on_host|].
  { destruct force; [apply preserves_warn, keep_delete|preserves]. }
  intros _. apply preserves_bind; [apply _|apply keep_on_host, keep_createNetNS|]. intros ns s o s'.
  match goal with |- context [sbind ?a ?b s] => assert (Hb : preserves same2 (sbind a b)) end.
  { apply preserves_bind; [apply _|apply preserves_wrap, keep_Do|].
    { apply preserves_bind; [apply _|apply inside_host, inside_enable|]. intros _. apply inside_create_veths. }
    intros _. apply preserves_bind; [apply _| |].
    { intros t. apply (keep_on_host (connect_veths 0 (ns_hostVethNames t.2) (ns_interfaces t.2))), keep_connect. }
    intros _. apply preserves_bind; [apply _|apply preserves_wrap, keep_Do, inside_host, inside_scripts|].
    intros _. apply keep_run_apps. }
  match goal with |- context [sbind ?a ?b s] => destruct (sbind a b s) as [o1 [w1 n1]] eqn:E end.
  intros [= _ <-]. unfold same2, same_chains. cbn. rewrite nsf_nsclose. exact (Hb _ _ _ E).
Qed.

(** ** The BMC server, the machines and the API server *)

Lemma keep_AddrAdd n a : preserves same_chains (AddrAdd n a).
Proof. eapply keep_link; [apply AddrAdd_law|]. intros ? ? ? Hr; cbn in Hr; naive_solver. Qed.

Lemma keep_bmc_Start {V} (s : bmcServer V) infos : preserves same_chains (bmc_Start (W := W) s infos).
Proof.
  apply preserves_map; [apply _|]. intros info. unfold start_bmc, or_nil, addBMCAddrToNetwork, AddAddr.
  assert (Hu : forall a, preserves same_chains (ListenUDP a)).
  { intros a. eapply keep_link; [apply ListenUDP_law|]. by intros ? ? ? ->. }
  assert (Ht : forall a, preserves same_chains (ListenTCP a)).
  { intros a. eapply keep_link; [apply ListenTCP_law|]. by intros ? ? ? ->. }
  preserves; try (apply Hu || apply Ht || apply keep_LinkByName || apply keep_AddrAdd).
  unfold deref. case_match; preserves.
Qed.

Lemma keep_status v : preserves same_chains (VM_PowerStatus v). Proof. apply keep, nsf_status. Qed.
Lemma keep_on v : preserves same_chains (VM_PowerOn v). Proof. apply keep, nsf_on. Qed.
Lemma keep_off v : preserves same_chains (VM_PowerOff v). Proof. apply keep, nsf_off. Qed.
Lemma keep_vm_wait v : preserves same_chains (VM_Wait v). Proof. apply keep, nsf_wait. Qed.

#[local] Hint Resolve keep_status keep_on keep_off keep_vm_wait : preserves.

Lemma keep_api_route s req : preserves same_chains (api_route (W := W) s req).
Proof.
  destruct req; cbn [api_route]; unfold handleNodes, status_of, handleNode, handleNodeAction, or_500,
    newNodeStatus, not_nil; preserves.
Qed.

End Events.

(** ** The phases of a cluster *)

Section Phases.
Context {W : Type} `{!AddrOps} `{!NetOps W} {L : NetLaws W} {LR : NetReliable W} `{!Host W}
  `{!HostFiles W} `{!Http W} `{!Procs W} `{!Rand W} `{!NsOps W} `{!DetectMtu W} {NF : NetFrame W}
  `{!UrlOps} `{!Listen W} {LL : ListenLaws (W := W)} `{!VM W vm} {SF : NsFrame W}.
Context (cs0 : gmap chain (list rule)) (Hu : untouched cs0).

Definition fw (P : gmap chain (list rule) -> Prop) (s : W * cluster) : Prop :=
  P (v_chains (view s.1)).

Lemma same2_fw P (s s' : W * cluster) : same2 s s' -> fw P s -> fw P s'.
Proof. unfold same2, same_chains, fw. by intros ->. Qed.

Definition valid_networks (P : gmap chain (list rule) -> Prop) (s : W * cluster) : Prop :=
  fw P s /\ Forall network_ok (c_networkSpecs s.2).

Lemma on_host_triple {A} (m : st W A) (P P' : gmap chain (list rule) -> Prop) :
  triple (onc P) m (fun _ => onc P') (onc (started cs0)) ->
  triple (valid_networks P) (on_host m) (fun _ => valid_networks P') (fw (started cs0)).
Proof.
  intros Hm [w c] [Hp Hq]. specialize (Hm w Hp). unfold on_host. cbn [fst snd].
  destruct (m w) as [[] w1]; done.
Qed.

(** The firewall is ours to restore, and the networks are valid. *)
Abbreviation ready_networks := (valid_networks (started cs0)).

Lemma same_triple {A} (m : st W A) P :
  (forall cs, P cs -> started cs0 cs) -> preserves same_chains m ->
  triple (onc P) m (fun _ => onc P) (onc (started cs0)).
Proof.
  intros HP Hm w Hw. unfold onc in *. destruct (m w) as [o w1] eqn:E. specialize (Hm _ _ _ E).
  unfold same_chains in Hm. destruct o; rewrite Hm; auto.
Qed.

Lemma started_refl : started cs0 cs0.
Proof. intros k. right. by left. Qed.

(** A valid network that uses NAT has an address. *)
Lemma NewNetwork_nat spec n : network_ok spec -> NewNetwork spec = Ok n -> nat_has_addr n.
Proof.
  intros [_ Hn] E Hnat. unfold NewNetwork in E. destruct (0 <? Z.of_nat (String.length (nw_Address spec))) eqn:El.
  - destruct (ParseAddr (nw_Address spec)); try done. injection E as <-. by eexists.
  - exfalso. injection E as <-. cbn in Hnat.
    destruct Hn as [(_ & Hf & _)|[(_ & Ha)|(_ & Hf & _)]]; [congruence| |congruence].
    destruct (nw_Address spec); [done|]. apply Z.ltb_ge in El. cbn [String.length] in El. lia.
Qed.

Lemma setup_network_triple mtu force spec :
  network_ok spec -> triple ready_networks (setup_network (W := W) mtu force spec)
    (fun _ => ready_networks) (fw (started cs0)).
Proof.
  intros Hok s Hs. unfold setup_network. unfold sbind at 1. unfold slift.
  destruct (NewNetwork spec) as [n|e|p|] eqn:En; [|by destruct Hs..].
  revert s Hs. change (triple ready_networks (modify (fun c => set_networks c (c_networks c ++ [n])
    (<[nw_Name spec := n]> (c_networkMap c))) >>>
    on_host (swrap "failed to create Network" (network_Setup n mtu force)))
    (fun _ => ready_networks) (fw (started cs0))).
  apply (triple_bind _ _ (fun _ => ready_networks)); [by intros s Hs|]. intros _.
  apply on_host_triple, safe_triple, safe_wrap.
  eapply safe_conseq; [apply (safe_network_Setup cs0 n mtu force)| | |]; unfold onc.
  - by eapply NewNetwork_nat.
  - intros w Hw. split; [done|]. intros k Hk. by apply elem_of_nil in Hk.
  - by intros _ w [Hw _].
  - by intros w [Hw _].
Qed.

(** Phases that leave the chains and the network specifications alone. *)
Definition quiet {A : Type} (m : st (W * cluster) A) : Prop :=
  preserves (fun s s' => same2 s s' /\ c_networkSpecs s'.2 = c_networkSpecs s.2) m.

#[local] Instance quiet_pre :
  PreOrder (fun s s' : W * cluster => same2 s s' /\ c_networkSpecs s'.2 = c_networkSpecs s.2).
Proof.
  split; [by intros s|]. intros s1 s2 s3 [H1 H2] [H3 H4]. split; [by etransitivity|congruence].
Qed.

Lemma quiet_triple {A} (m : st (W * cluster) A) :
  quiet m -> triple ready_networks m (fun _ => ready_networks) (fw (started cs0)).
Proof.
  intros Hm s [Hs Hn]. destruct (m s) as [o s'] eqn:E. destruct (Hm _ _ _ E) as [H1 H2].
  assert (Hf : fw (started cs0) s') by (by eapply same2_fw).
  destruct o; [split; [done|by rewrite H2]|done..].
Qed.

Lemma quiet_on_host {A} (m : st W A) : preserves same_chains m -> quiet (on_host m).
Proof.
  intros Hm [w c] o s'. unfold on_host. cbn. destruct (m w) as [o1 w1] eqn:E. intros [= <- <-].
  split; [by eapply Hm|done].
Qed.

Lemma quiet_prepare_node cache spec : quiet (prepare_node (W := W) cache spec).
Proof.
  intros [w c] o s'. unfold prepare_node. cbn [fst snd].
  destruct (NewNode spec (c_imageSpecs c) (c_deviceClassSpecs c) w) as [o1 w1] eqn:E1.
  apply keep_NewNode in E1. destruct o1 as [n|e|p|]; try (by intros [= <- <-]).
  destruct (swrap _ (Prepare cache) (w1, n)) as [o2 [w2 n2]] eqn:E2. intros [= <- <-].
  split; [|done]. unfold same2. cbn. etransitivity; [exact E1|].
  assert (Hp : preserves same2 (swrap "failed to prepare Node" (Prepare (W := W) cache)))
    by (apply preserves_wrap, keep_Prepare).
  exact (Hp _ _ _ E2).
Qed.

Lemma quiet_setup_node vhost fuel r mtu i : quiet (setup_node (W := W) vhost fuel r mtu i).
Proof.
  intros [w c] o s'. unfold setup_node. cbn [fst snd].
  destruct (c_nodes c !! i) as [n|]; [|by intros [= <- <-]].
  destruct (node_Setup vhost fuel r mtu (w, n)) as [o1 [w1 n1]] eqn:E. apply keep_node_Setup in E.
  destruct o1; by intros [= <- <-].
Qed.

Lemma quiet_setup_nodes vhost fuel r mtu order : quiet (setup_nodes (W := W) vhost fuel r mtu order).
Proof.
  induction order as [|i order IH]; cbn [setup_nodes]; [apply preserves_ret, _|].
  apply preserves_bind; [apply _|apply preserves_try, quiet_setup_node|].
  intros [g|e]; (apply preserves_bind; [apply _| |intros; preserves]); [exact IH|].
  apply preserves_warn, IH.
Qed.

Lemma quiet_for {A} (l : list A) (body : A -> st (W * cluster) unit) :
  (forall x, quiet (body x)) -> quiet (sfor l body).
Proof. intros Hb. apply preserves_for; [apply _|done]. Qed.

Lemma quiet_cleanup_vms order : quiet (cleanup_vms (W := W) order).
Proof.
  intros s. unfold cleanup_vms. generalize (order (snd <$> map_to_list (c_vms s.2))). intros l.
  revert s. apply (quiet_on_host (sfor l (fun v => let* v := deref v in vm_Cleanup v))).
  apply preserves_for; [apply _|]. intros v. apply preserves_bind; [apply _|destruct v; cbn; preserves|].
  intros. apply keep_vm_Cleanup.
Qed.

Lemma quiet_add_netns spec : quiet (add_netns (W := W) spec).
Proof.
  unfold add_netns. apply preserves_bind; [apply _| |intros n; by intros s o s' [= <- <-]].
  apply quiet_on_host. unfold NewNetNS. apply preserves_bind; [apply _| |intros scripts].
  - apply preserves_map; [apply _|]. intros p. unfold new_script.
    apply preserves_bind; [apply _|apply keep_Abs|]. intros q.
    apply preserves_bind; [apply _| |intros; preserves].
    apply (keep_stat q (fun x => match x with
      | Exists _ => sret tt | NotExist => sthrow (errors_New "no such file or directory")
      | StatFailed e => sthrow e end)).
    + intros w. unfold stat_ok. by destruct (os_Stat q w) as [[] ].
    + intros []; preserves.
  - apply preserves_bind; [apply _| |intros ifaces; apply preserves_bind; [apply _| |intros; preserves]];
      (apply preserves_map; [apply _|]).
    + intros [i|]; unfold new_iface, deref; preserves. apply keep_LinkByName.
    + intros [a|]; unfold new_app, deref; preserves.
Qed.

(** ** Set-up and clean-up *)

Lemma setup_before_triple r :
  triple (valid_networks (fun cs => if Force r then started cs0 cs else cs = cs0))
    (setup_before (W := W) r) (fun _ => ready_networks) (fw (started cs0)).
Proof.
  unfold setup_before.
  apply (triple_bind _ _ (fun _ => valid_networks (fun cs => cs = cs0))).
  { destruct (Force r).
    - apply on_host_triple. apply (triple_bind _ _ (fun _ => onc (fun cs => cs = cs0))).
      + eapply triple_conseq; [apply safe_triple, (cleanup_restores cs0 Hu)|done|done|done].
      + intros _. apply same_triple; [intros cs ->; apply started_refl|apply keep_CleanupAllLinks].
    - apply on_host_triple. apply triple_ret. done. }
  intros _. apply (triple_bind _ _ (fun _ => ready_networks)).
  { apply on_host_triple. eapply triple_conseq; [apply safe_triple, (create_started cs0)|done| |];
      unfold onc; [by intros _ w [Hw _]|by intros w [Hw _]]. }
  intros _. apply (triple_bind _ _ (fun _ => ready_networks)).
  { apply quiet_triple, quiet_on_host, preserves_wrap, keep_mtu. }
  intros mtu. apply (triple_bind _ _ (fun _ => ready_networks)).
  { intros s Hs. apply (triple_for (c_networkSpecs s.2) (setup_network mtu (Force r)) ready_networks); [|done].
    intros spec Hin. apply setup_network_triple. destruct Hs as [_ Hn]. rewrite Forall_forall in Hn. by apply Hn. }
  intros _. apply (triple_bind _ _ (fun _ => ready_networks)).
  { intros s Hs. apply (quiet_triple (sfor (c_nodeSpecs s.2) (prepare_node (ImageCache r)))); [|done].
    apply quiet_for. intros. apply quiet_prepare_node. }
  intros _. by apply triple_ret.
Qed.

Lemma keep_network_Cleanup n : preserves same_chains (network_Cleanup (W := W) n).
Proof.
  apply preserves_bind; [apply _|apply preserves_try, keep_LinkByName|]. intros [l|e]; [|preserves].
  apply preserves_warn, keep_LinkDel.
Qed.

Lemma quiet_read {A} (m : W * cluster -> st (W * cluster) A) :
  (forall t, quiet (m t)) -> quiet (fun s => m s s).
Proof. intros Hm s. apply Hm. Qed.

(** What follows the chains in the clean-up. *)
Definition cleanup_rest (order : list (option vm) -> list (option vm)) : st (W * cluster) unit :=
  (fun s => on_host (sfor (c_networks s.2) network_Cleanup) s) >>>
  (fun s => on_host (sfor (c_nodes s.2) node_Cleanup) s) >>>
  (fun s => on_host (sfor (c_netNss s.2) netns_Cleanup) s) >>> cleanup_vms order.

Lemma quiet_cleanup_rest order : quiet (cleanup_rest order).
Proof.
  unfold cleanup_rest. apply preserves_bind; [apply _| |intros _].
  { apply (quiet_read (fun t => on_host (sfor (c_networks t.2) network_Cleanup))). intros t.
    apply quiet_on_host, preserves_for; [apply _|]. apply keep_network_Cleanup. }
  apply preserves_bind; [apply _| |intros _].
  { apply (quiet_read (fun t => on_host (sfor (c_nodes t.2) node_Cleanup))). intros t.
    apply quiet_on_host, preserves_for; [apply _|]. intros n. apply preserves_for; [apply _|].
    apply keep_tap_Cleanup. }
  apply preserves_bind; [apply _| |intros _; apply quiet_cleanup_vms].
  apply (quiet_read (fun t => on_host (sfor (c_netNss t.2) netns_Cleanup))). intros t.
  apply quiet_on_host, preserves_for; [apply _|]. intros n. apply preserves_warn, keep_delete.
Qed.

(** However the clean-up ends, it restores the firewall. *)
Lemma cleanup_firewall order (s s' : W * cluster) o :
  fw (started cs0) s -> cluster_cleanup (W := W) order s = (o, s') -> fw (fun cs => cs = cs0) s'.
Proof.
  change (cluster_cleanup (W := W) order) with (on_host CleanupNatRules >>> cleanup_rest order).
  intros Hs E. unfold sbind in E. unfold on_host in E. pose proof (cleanup_restores cs0 Hu s.1 Hs) as Hc.
  destruct (CleanupNatRules s.1) as [[[]|e|p|] w1]; try done.
  destruct (quiet_cleanup_rest order (w1, s.2) o s' E) as [H1 _]. by eapply (same2_fw _ (w1, s.2)).
Qed.

(** Deferred functions of the main goroutine. *)
Definition ended (o : outcome unit) (s : W * cluster) : Prop :=
  match o with
  | Ok _ | Err _ => fw (fun cs => cs = cs0) s
  | _ => fw (started cs0) s
  end.

Lemma restored_started s : fw (fun cs => cs = cs0) s -> fw (started cs0) s.
Proof. unfold fw. intros ->. apply started_refl. Qed.

Lemma with_defer_cleanup order (body : st (W * cluster) unit) (s s' : W * cluster) o :
  (forall o1 s1, body s = (o1, s1) -> fw (started cs0) s1) ->
  with_defer (cluster_cleanup order) body s = (o, s') -> ended o s'.
Proof.
  intros Hb. unfold with_defer. destruct (body s) as [o1 s1] eqn:E1. specialize (Hb _ _ eq_refl).
  destruct (cluster_cleanup order s1) as [o2 s2] eqn:E2. apply cleanup_firewall in E2; [|done].
  pose proof (restored_started _ E2). unfold ended.
  destruct o1; [..|by intros [= <- <-]]; destruct o2; by intros [= <- <-].
Qed.

Lemma quiet_defer {A} d (body : st (W * cluster) A) : quiet d -> quiet body -> quiet (with_defer d body).
Proof.
  intros Hd Hb s o s'. unfold with_defer. destruct (body s) as [o1 s1] eqn:E1.
  pose proof (Hb _ _ _ E1) as H1. destruct (d s1) as [o2 s2] eqn:E2. pose proof (Hd _ _ _ E2) as H2.
  assert (H3 : same2 s s2 /\ c_networkSpecs s2.2 = c_networkSpecs s.2) by exact (transitivity H1 H2).
  destruct o1; [..|by intros [= _ <-]]; destruct o2; by intros [= _ <-].
Qed.

Lemma shutdown_ended order o0 (s s' : W * cluster) o :
  fw (started cs0) s -> shutdown order o0 s = (o, s') -> ended o s'.
Proof.
  intros Hs. apply with_defer_cleanup. intros o1 s1 E.
  assert (Hq : quiet (with_defer (cleanup_vms order) (slift o0))).
  { apply quiet_defer; [apply quiet_cleanup_vms|apply preserves_lift, _]. }
  destruct (Hq _ _ _ E) as [H1 _]. by eapply same2_fw.
Qed.

Lemma quiet_event r mtu e sv : quiet (handle_event (W := W) r mtu e sv).
Proof.
  intros [w c] o s'. destruct e as [i stream|i|sn|req]; cbn [handle_event].
  - unfold guest_writes. cbn [fst snd]. destruct (sv_guests sv !! i) as [g|]; [|by intros [= _ <-]].
    destruct (guest_handle g stream) as [g' infos].
    assert (Hq : forall b : bmcServer (option vm), quiet (let* _ := on_host (bmc_Start b infos) in
       sret {| sv_guests := <[i := g']> (sv_guests sv); sv_error := sv_error sv |})).
    { intros b. apply preserves_bind; [apply _|apply quiet_on_host, keep_bmc_Start|]. intros. apply preserves_ret, _. }
    apply Hq.
  - unfold namespace_runs. cbn [fst snd]. destruct (c_netNss c !! i) as [n|]; [|by intros [= _ <-]].
    destruct (netns_Setup mtu (Force r) (w, n)) as [o1 [w1 n1]] eqn:E. apply keep_netns_Setup in E.
    destruct o1; by intros [= _ <-].
  - unfold machine_waits. cbn [fst snd]. destruct (c_vms c !! sn) as [v|]; [|by intros [= _ <-]].
    assert (Hq : quiet (let* res := stry (on_host (let* v := deref v in VM_Wait v)) in
       sret (match res with inl _ => sv | inr e => note e sv end))).
    { apply preserves_bind; [apply _|apply preserves_try, quiet_on_host|intros; apply preserves_ret, _].
      apply preserves_bind; [apply _|destruct v; cbn; preserves|]. intros. apply keep_vm_wait. }
    apply Hq.
  - unfold api_call. cbn [fst snd]. destruct (api_route _ req w) as [o1 w1] eqn:E.
    apply keep_api_route in E. destruct o1; by intros [= _ <-].
Qed.

Lemma quiet_events r mtu events sv : quiet (handle_events (W := W) r mtu events sv).
Proof.
  revert sv. induction events as [|e events IH]; intros sv; cbn [handle_events]; [apply preserves_ret, _|].
  apply preserves_bind; [apply _|apply quiet_event|]. intros. apply IH.
Qed.

Lemma quiet_serve r mtu guests events served : quiet (serve (W := W) r mtu guests events served).
Proof.
  apply preserves_bind; [apply _|apply quiet_events|]. intros sv. preserves.
Qed.

Lemma quiet_open_api r : quiet (open_api (W := W) r).
Proof.
  apply preserves_bind; [apply _| |intros _].
  { apply (quiet_read (fun t => sfor (c_netNSSpecs t.2) add_netns)). intros t.
    apply quiet_for. intros. apply quiet_add_netns. }
  apply preserves_bind; [apply _|apply quiet_on_host; unfold or_nil; preserves|]. intros a.
  apply preserves_bind; [apply _|apply quiet_on_host|intros; unfold apiServer_start; preserves].
  unfold or_nil. preserves. eapply keep_link; [apply ListenTCP_law|]. by intros ? ? ? ->.
Qed.

Lemma setup_after_ended r mtu guests order events served (s s' : W * cluster) o :
  fw (started cs0) s -> setup_after r mtu guests order events served s = (o, s') -> ended o s'.
Proof.
  intros Hs. unfold setup_after. destruct (open_api r s) as [o1 s1] eqn:E1.
  destruct (quiet_open_api _ _ _ _ E1) as [H1 _]. apply (same2_fw _ _ _ H1) in Hs.
  destruct o1 as [u|e|p|]; try (by apply shutdown_ended).
  destruct (serve r mtu guests events served s1) as [o2 s2] eqn:E2.
  destruct (quiet_serve _ _ _ _ _ _ _ _ E2) as [H2 _]. apply (same2_fw _ _ _ H2) in Hs.
  destruct o2; try (by apply shutdown_ended). by intros [= <- <-].
Qed.

Lemma cluster_Setup_ended vhost fuel r node_order vm_order events served (s s' : W * cluster) o :
  valid_networks (fun cs => if Force r then started cs0 cs else cs = cs0) s ->
  cluster_Setup vhost fuel r node_order vm_order events served s = (o, s') -> ended o s'.
Proof.
  intros Hs. unfold cluster_Setup. pose proof (setup_before_triple r s Hs) as Hb.
  destruct (setup_before r s) as [[mtu|e|p|] s1].
  2,3: apply with_defer_cleanup; by intros o1 s2 [= _ <-].
  2: by intros [= <- <-].
  destruct Hb as [Hb _].
  assert (Hq : quiet (stry (setup_nodes (W := W) vhost fuel r mtu node_order)))
    by (apply preserves_try, quiet_setup_nodes).
  destruct (stry (setup_nodes vhost fuel r mtu node_order) s1) as [o2 s2] eqn:E2.
  destruct (Hq _ _ _ E2) as [H2 _]. apply (same2_fw _ _ _ H2) in Hb.
  destruct o2 as [[guests|e]|e|p|].
  - by apply setup_after_ended.
  - by apply shutdown_ended.
  - exfalso. unfold stry in E2. by destruct (setup_nodes _ _ _ _ _ s1) as [[] ].
  - by intros [= <- <-].
  - by intros [= <- <-].
Qed.

End Phases.

(** ** On the simulated host *)

#[export] Instance simWorld_NetFrame : NetFrame simWorld.
Proof.
  split; cbn; intros; try done.
  - by destruct (sw_ticks w).
  - by destruct (sw_paths w !! d) as [[]|].
  - unfold sw_open. by destruct (fs_paths (sw_fs w) !! p) as [[]|].
  - unfold sw_copy. destruct (fs_writes (sw_fs w) !! f), (fs_reads (sw_fs w) !! g); try done.
    by destruct (sw_full w).
  - unfold sw_reader. by destruct (fs_reads (sw_fs w) !! f).
  - unfold sw_reader. by destruct (fs_reads (sw_fs w) !! f).
  - by destruct (sw_paths w !! p).
  - by destruct (sw_paths w !! p).
  - by destruct (sw_paths w !! _); [|destruct (plain _)].
  - by destruct (sw_paths w !! a).
  - by destruct (sw_pages w !! u) as [[[] ]|].
  - by destruct (sw_paths w !! p) as [[]|].
Qed.

Lemma on_net_chains {A} (m : st netview A) R (w : simWorld) :
  effect (view (NetLaws := sim_NetLaws)) m R -> (forall v a v', R v a v' -> v_chains v' = v_chains v) ->
  v_chains (sw_net (on_net m w).2) = v_chains (sw_net w).
Proof.
  intros He HR. specialize (He (sw_net w)). unfold on_net. destruct (m (sw_net w)) as [[a|e|p|] v]; try done.
  - by apply HR in He.
  - exact (f_equal v_chains He).
Qed.

#[export] Instance simWorld_NsFrame : NsFrame simWorld.
Proof.
  refine {| outside w := v_chains (sw_net w) |}; try done.
  - intros h w. by exists w.
  - intros n w. eapply (on_net_chains (LinkByName n)); [apply LinkByName_law|]. naive_solver.
  - intros n w. eapply (on_net_chains (LinkSetUp n)); [apply LinkSetUp_law|]. naive_solver.
  - intros n a w. eapply (on_net_chains (AddrAdd n a)); [apply AddrAdd_law|]. naive_solver.
  - intros v w. apply (simWorld_vm_frame v w).
  - intros v w. apply (simWorld_vm_frame v w).
  - intros v w. apply (simWorld_vm_frame v w).
Defined.

(** A host whose firewall has rules of its own. *)
Definition demo_host : simWorld :=
  {| sw_fs := MkFs ∅ ∅ ∅; sw_next := 0; sw_net := set_links (insert "lo" (new_link OtherLink)) demo_net;
     sw_rand := 0; sw_pages := ∅; sw_starts := []; sw_started := []; sw_ticks := 0; sw_full := false;
     sw_mons := fun _ => fresh_monitor |}.
