(* ===== verification/Machines.v ===== *)
(** * From a specification to its machines

    A node of the specification is known to the cluster by its name, its machine by
    the serial number, and the machine's monitor by a path made from the name.  This
    file shows that the three agree, and what the API does with them. *)

From S2P Require Import Prelude GoBinary GoCrypto GoPath Machine Qmp Host Netlink Types Files Dcnet.
From S2P Require Import World Cache Volume Qemu Tap Bmc Node Netns Cluster Api Lifecycle.

Local Open Scope Z_scope.
Local Open Scope go_scope.

(** ** The nodes of a cluster *)

Section Nodes.
Context {W : Type} `{!Host W} `{!HostFiles W} `{!Http W} `{!Procs W} `{!UrlOps} `{!AddrOps}
  `{!NetOps W} `{!Rand W} `{!NsOps W} `{!DetectMtu W}.

(** The node made from a specification. *)
Definition node_for (spec : NodeSpec) (n : node) : Prop :=
  n_name n = nd_Name spec /\ serial (n_smbios n) = smb_Serial (nd_SMBIOS spec).

(** The positions of nodes by their names, counted from [k]. *)
Fixpoint positions (k : nat) (specs : list NodeSpec) (m : gmap string nat) : gmap string nat :=
  match specs with
  | [] => m
  | n :: specs' => positions (S k) specs' (<[nd_Name n := k]> m)
  end.

(** The cluster after the nodes of [specs] are made: one node each, in this order, found
    by its name; no machine yet. *)
Definition holds_nodes (spec : ClusterSpec) (specs : list NodeSpec) (c : cluster) : Prop :=
  Forall2 node_for specs (c_nodes c) /\
  c_nodeMap c = positions 0 specs ∅ /\
  c_vms c = ∅ /\ c_nodeSpecs c = cs_Nodes spec /\ c_nodeSpecMap c = c_nodeSpecMap (NewCluster spec).

Lemma NewNode_for spec im dc (w w' : W) n : NewNode spec im dc w = (Ok n, w') -> node_for spec n.
Proof.
  unfold NewNode. intros E. apply sbind_ok in E as (smp & w1 & _ & E).
  apply sbind_ok in E as (vs & w2 & _ & E). apply sbind_ok in E as (ts & w3 & _ & E).
  by injection E as <- _.
Qed.

Lemma Prepare_for cache (w w' : W) n n' o spec :
  swrap "failed to prepare Node" (Prepare cache) (w, n) = (o, (w', n')) -> node_for spec n -> node_for spec n'.
Proof.
  unfold swrap, Prepare. cbn [fst snd]. destruct (each _ _ w) as [o1 [w1 vs]]. by intros [= _ _ <-].
Qed.

Lemma positions_snoc k specs n m :
  positions k (specs ++ [n]) m = <[nd_Name n := (k + length specs)%nat]> (positions k specs m).
Proof.
  revert k m. induction specs as [|n0 specs IH]; intros k m; cbn; [by rewrite Nat.add_0_r|].
  by rewrite IH, Nat.add_succ_comm.
Qed.

Lemma positions_other k specs m s :
  s ∉ map nd_Name specs -> positions k specs m !! s = m !! s.
Proof.
  revert k m. induction specs as [|n specs IH]; intros k m Hs; cbn in *; [done|].
  apply not_elem_of_cons in Hs as [H1 H2]. rewrite IH by done. by apply lookup_insert_ne.
Qed.

Lemma positions_lookup k specs m i n :
  NoDup (map nd_Name specs) -> specs !! i = Some n -> positions k specs m !! nd_Name n = Some (k + i)%nat.
Proof.
  revert k m i. induction specs as [|n0 specs IH]; intros k m i Hnd Hi; [done|]. cbn [map] in Hnd.
  apply NoDup_cons in Hnd as [Hn0 Hnd]. cbn [positions]. destruct i as [|i]; cbn in Hi.
  - injection Hi as ->. rewrite positions_other, lookup_insert_eq by done. by rewrite Nat.add_0_r.
  - rewrite <- Nat.add_succ_comm. by apply IH.
Qed.

Lemma prepare_node_holds spec specs cache nd (w w' : W) (c c' : cluster) :
  holds_nodes spec specs c -> prepare_node cache nd (w, c) = (Ok tt, (w', c')) ->
  holds_nodes spec (specs ++ [nd]) c'.
Proof.
  intros (HF & Hm & Hv & Hs & Hsm). unfold prepare_node. cbn [fst snd].
  destruct (NewNode nd _ _ w) as [[n|e|p|] w1] eqn:E1; try done. apply NewNode_for in E1.
  destruct (swrap _ (Prepare cache) (w1, n)) as [o [w2 n']] eqn:E2.
  pose proof (Prepare_for _ _ _ _ _ _ _ E2 E1) as Hn'. intros [= -> <- <-].
  split_and!; try done; cbn.
  - apply Forall2_app; [done|]. by constructor.
  - by rewrite positions_snoc, <- Hm, (Forall2_length _ _ _ HF).
Qed.

Lemma prepare_nodes_hold spec cache nds specs (w w' : W) (c c' : cluster) :
  holds_nodes spec specs c -> sfor nds (prepare_node cache) (w, c) = (Ok tt, (w', c')) ->
  holds_nodes spec (specs ++ nds) c'.
Proof.
  revert specs w c. induction nds as [|nd nds IH]; intros specs w c Hc E.
  - injection E as _ <-. by rewrite app_nil_r.
  - cbn [sfor] in E. apply sbind_ok in E as ([] & [w1 c1] & E1 & E).
    rewrite cons_middle, app_assoc. eapply IH; [|exact E]. by eapply prepare_node_holds.
Qed.

(** The phases before leave the nodes alone. *)
Definition same_nodes (s s' : W * cluster) : Prop :=
  c_nodes s'.2 = c_nodes s.2 /\ c_nodeMap s'.2 = c_nodeMap s.2 /\ c_vms s'.2 = c_vms s.2 /\
  c_nodeSpecs s'.2 = c_nodeSpecs s.2 /\ c_nodeSpecMap s'.2 = c_nodeSpecMap s.2.

#[local] Instance same_nodes_pre : PreOrder same_nodes.
Proof.
  split; [done|]. intros s1 s2 s3 (H1 & H2 & H3 & H4 & H5) (H6 & H7 & H8 & H9 & H10).
  split_and!; congruence.
Qed.

Lemma on_host_nodes {A} (m : st W A) : preserves same_nodes (on_host m).
Proof. intros s o s'. unfold on_host. destruct (m s.1) as [o1 w1]. by intros [= _ <-]. Qed.

Lemma setup_network_nodes mtu force spec : preserves same_nodes (setup_network (W := W) mtu force spec).
Proof.
  unfold setup_network. apply preserves_bind; [apply _|preserves|]. intros n.
  apply preserves_bind; [apply _|by intros s o s' [= _ <-]|]. intros _. apply on_host_nodes.
Qed.

Lemma setup_before_holds r spec mtu (w w' : W) c' :
  setup_before r (w, NewCluster spec) = (Ok mtu, (w', c')) -> holds_nodes spec (cs_Nodes spec) c'.
Proof.
  unfold setup_before. intros E. apply sbind_ok in E as (? & s1 & E1 & E). apply on_host_nodes in E1.
  apply sbind_ok in E as (? & s2 & E2 & E). apply on_host_nodes in E2.
  apply sbind_ok in E as (mtu' & s3 & E3 & E). apply on_host_nodes in E3.
  apply sbind_ok in E as (? & [w4 c4] & E4 & E).
  assert (H4 : same_nodes s3 (w4, c4)).
  { eapply (preserves_for same_nodes (c_networkSpecs s3.2) (setup_network mtu' (Force r)));
      [apply setup_network_nodes|exact E4]. }
  apply sbind_ok in E as ([] & [w5 c5] & E5 & E). injection E as _ _ <-.
  assert (HS : same_nodes (w, NewCluster spec) (w4, c4)) by (do 3 (etransitivity; [eassumption|]); done).
  destruct HS as (H5 & H6 & H7 & H8 & H9). cbn [snd] in *.
  rewrite H8 in E5. apply (prepare_nodes_hold spec _ _ [] _ _ c4) in E5; [exact E5|].
  split_and!; try done. by rewrite H5.
Qed.

End Nodes.

(** ** The registered machines *)

(** A cluster in which every node of the specification is found by its name, and its
    machine by the serial number, with the paths of that node. *)
Definition registered `{!UrlOps} `{!AddrOps} (r : Runtime) (spec : ClusterSpec) (c : cluster) : Prop :=
  c_nodeSpecs c = cs_Nodes spec /\
  forall nd, nd ∈ cs_Nodes spec ->
    c_nodeSpecMap c !! nd_Name nd = Some nd /\
    (exists n, node_of c (nd_Name nd) = Some n /\ n_name n = nd_Name nd) /\
    exists cmd conn, vm_of c nd = Some (machine_of r (nd_Name nd) cmd conn).

(** Nodes with different names, and serial numbers that are set and different. *)
Definition named_apart (specs : list NodeSpec) : Prop :=
  NoDup (map nd_Name specs) /\ NoDup (map (fun nd => smb_Serial (nd_SMBIOS nd)) specs) /\
  Forall (fun nd => smb_Serial (nd_SMBIOS nd) <> "") specs.

Lemma NoDup_map_inj {A B} (f : A -> B) l i j x y :
  NoDup (map f l) -> l !! i = Some x -> l !! j = Some y -> f x = f y -> i = j.
Proof.
  intros Hnd Hx Hy E. apply (NoDup_lookup (map f l) i j (f x)); [done|..];
    change (map f l) with (f <$> l); rewrite list_lookup_fmap; [by rewrite Hx|by rewrite Hy, E].
Qed.

Section Registered.
Context {W : Type} `{!Host W} `{!HostFiles W} `{!Http W} `{!Procs W} `{!UrlOps} `{!AddrOps}
  `{!NetOps W} `{!Rand W} `{!NsOps W} `{!DetectMtu W}.

Lemma nodeSpecMap_lookup specs (m : gmap string NodeSpec) i nd :
  NoDup (map nd_Name specs) -> specs !! i = Some nd ->
  fold_left (fun m n => <[nd_Name n := n]> m) specs m !! nd_Name nd = Some nd.
Proof.
  assert (Hother : forall specs (m : gmap string NodeSpec) s, s ∉ map nd_Name specs ->
    fold_left (fun m n => <[nd_Name n := n]> m) specs m !! s = m !! s).
  { clear. induction specs as [|n specs IH]; intros m s Hs; [done|]. cbn in *.
    apply not_elem_of_cons in Hs as [H1 H2]. rewrite IH by done. by apply lookup_insert_ne. }
  revert m i. induction specs as [|n specs IH]; intros m i Hnd Hi; [done|]. cbn [map] in Hnd.
  apply NoDup_cons in Hnd as [Hn Hnd]. cbn [fold_left]. destruct i as [|i]; cbn in Hi.
  - injection Hi as ->. by rewrite Hother, lookup_insert_eq.
  - by eapply IH.
Qed.

Lemma holds_distinct spec c :
  named_apart (cs_Nodes spec) -> holds_nodes spec (cs_Nodes spec) c -> distinct_serials c.
Proof.
  intros (_ & Hs & He) (HF & _) i j n m Hi Hj.
  destruct (Forall2_lookup_r _ _ _ _ _ HF Hi) as (ni & Hni & _ & En).
  destruct (Forall2_lookup_r _ _ _ _ _ HF Hj) as (nj & Hnj & _ & Em). rewrite En, Em. split.
  - by eapply (Forall_lookup_1 _ _ _ _ He).
  - exact (NoDup_map_inj _ _ i j ni nj Hs Hni Hnj).
Qed.

Lemma registered_setup vhost fuel r mtu order spec (w w1 w2 : W) c1 c2 guests :
  named_apart (cs_Nodes spec) -> Permutation order (seq 0 (length (cs_Nodes spec))) ->
  setup_before r (w, NewCluster spec) = (Ok mtu, (w1, c1)) ->
  setup_nodes vhost fuel r mtu order (w1, c1) = (Ok guests, (w2, c2)) ->
  c_vms c2 !! "" = Some None \/ registered r spec c2.
Proof.
  intros Hn Ho E1 E2. apply setup_before_holds in E1 as Hh. pose proof (holds_distinct _ _ Hn Hh) as Hd.
  destruct Hh as (HF & Hm & Hv & Hs & Hsm). destruct Hn as (Hnd & _ & _).
  assert (Hnd' : NoDup order) by (rewrite Ho; apply NoDup_seq).
  assert (Hin : forall i, i ∈ order <-> is_Some (c_nodes c1 !! i)).
  { intros i. rewrite Ho, elem_of_seq, lookup_lt_is_Some, <- (Forall2_length _ _ _ HF). lia. }
  destruct (machines_of_nodes _ _ _ _ _ _ _ _ _ _ Hnd' Hin Hd E2) as [Hnil|Hmach]; [by left|right].
  apply setup_nodes_ok in E2 as (results & _ & _ & Hsn & Hm2 & Hsm2 & Hs2); [|done|].
  2:{ apply Forall_forall. intros i Hi. by apply Hin. }
  split; [congruence|]. intros nd Hnd2. apply list_elem_of_lookup in Hnd2 as [i Hi].
  destruct (Forall2_lookup_l _ _ _ _ _ HF Hi) as (n & Hni & Hname & Hser).
  destruct (Forall2_lookup_l _ _ _ _ _ Hsn Hni) as (n2 & Hn2 & Hname2 & _). split_and!.
  - rewrite Hsm2, Hsm. by eapply nodeSpecMap_lookup.
  - exists n2. split; [|congruence]. unfold node_of. rewrite Hm2, Hm, (positions_lookup 0 _ _ i nd) by done. done.
  - destruct (Hmach i n Hni) as (v & Hv2 & cmd & conn & ->). exists cmd, conn. unfold vm_of.
    by rewrite <- Hser, Hv2, Hname.
Qed.

End Registered.

(** ** The API on registered machines *)

Section ApiLemmas.
Context {W : Type} `{!VM W vm} {RV : ReliableVMs W} `{!UrlOps} `{!AddrOps}.
Context (r : Runtime) (spec : ClusterSpec) (c : cluster).
Hypothesis Hreg : registered r spec c.
Hypothesis Hnames : Forall (fun nd => node_name (nd_Name nd) = true) (cs_Nodes spec).

Definition answer (code : Z) : api_response := {| ar_code := code; ar_body := NilBody |}.

(** [w'] is [w] where the machine of [name] is now [on]. *)
Definition powered (name : string) (on : bool) (w w' : W) : Prop :=
  forall nd v, nd ∈ cs_Nodes spec -> vm_of c nd = Some v ->
    vm_on v w' = if decide (nd_Name nd = name) then on else vm_on v w.

(** All machines are as they were. *)
Definition same_power (w w' : W) : Prop := forall v, vm_on v w' = vm_on v w.

Lemma same_paths nd nd' v v' :
  nd ∈ cs_Nodes spec -> nd' ∈ cs_Nodes spec -> vm_of c nd = Some v -> vm_of c nd' = Some v' ->
  vm_qmp v' = vm_qmp v <-> nd_Name nd' = nd_Name nd.
Proof.
  intros H1 H2 E1 E2. rewrite Forall_forall in Hnames. destruct Hreg as [_ Hr].
  destruct (Hr nd H1) as (_ & _ & cmd & conn & E3). destruct (Hr nd' H2) as (_ & _ & cmd' & conn' & E4).
  rewrite E1 in E3. rewrite E2 in E4. injection E3 as ->. injection E4 as ->. cbn.
  apply (runtime_paths_distinct r (nd_Name nd') (nd_Name nd)); by apply Hnames.
Qed.

Lemma powered_of nd v on w w' :
  nd ∈ cs_Nodes spec -> vm_of c nd = Some v ->
  (forall v', vm_on v' w' = if decide (vm_qmp v' = vm_qmp v) then on else vm_on v' w) ->
  powered (nd_Name nd) on w w'.
Proof.
  intros H1 E1 Hv nd' v' H2 E2. rewrite Hv. pose proof (same_paths _ _ _ _ H1 H2 E1 E2) as Hp.
  destruct (decide (vm_qmp v' = vm_qmp v)), (decide (nd_Name nd' = nd_Name nd)); tauto.
Qed.

Lemma start_ok nd v w :
  nd ∈ cs_Nodes spec -> vm_of c nd = Some v -> vm_on v w = false ->
  exists w', api_route (newAPIServer _ _ c r) (PostAction (nd_Name nd) "start") w = (Ok (answer 200), w') /\
    powered (nd_Name nd) true w w'.
Proof.
  intros Hin Ev Hoff. destruct (proj2 Hreg nd Hin) as (Es & _ & _).
  destruct (VM_on_ok v w Hoff) as (w' & E & Hw). exists w'. split; [|by eapply powered_of].
  cbn [api_route]. unfold handleNodeAction. cbn [as_cluster]. rewrite Es, Ev. cbn [String.eqb Ascii.eqb].
  unfold or_500, sbind, stry. cbn. by rewrite E.
Qed.

Lemma stop_ok nd v w :
  nd ∈ cs_Nodes spec -> vm_of c nd = Some v -> vm_on v w = true ->
  exists w', api_route (newAPIServer _ _ c r) (PostAction (nd_Name nd) "stop") w = (Ok (answer 200), w') /\
    powered (nd_Name nd) false w w'.
Proof.
  intros Hin Ev Hon. destruct (proj2 Hreg nd Hin) as (Es & _ & _).
  destruct (VM_off_ok v w Hon) as (w' & E & Hw). exists w'. split; [|by eapply powered_of].
  cbn [api_route]. unfold handleNodeAction. cbn [as_cluster]. rewrite Es, Ev.
  unfold or_500, sbind, stry. cbn. by rewrite E.
Qed.

Lemma restart_ok nd v w :
  nd ∈ cs_Nodes spec -> vm_of c nd = Some v -> vm_on v w = true ->
  exists w', api_route (newAPIServer _ _ c r) (PostAction (nd_Name nd) "restart") w = (Ok (answer 200), w') /\
    powered (nd_Name nd) true w w'.
Proof.
  intros Hin Ev Hon. destruct (proj2 Hreg nd Hin) as (Es & _ & _).
  destruct (VM_off_ok v w Hon) as (w1 & E1 & Hw1).
  destruct (VM_on_ok v w1) as (w2 & E2 & Hw2); [by rewrite Hw1, decide_True|].
  exists w2. split.
  - cbn [api_route]. unfold handleNodeAction. cbn [as_cluster]. rewrite Es, Ev.
    unfold or_500, sbind, stry. cbn. by rewrite E1, E2.
  - eapply powered_of; [done..|]. intros v'. rewrite Hw2, Hw1. by case_decide.
Qed.

Lemma status_ok nd v w :
  nd ∈ cs_Nodes spec -> vm_of c nd = Some v ->
  exists status w', status_of (newAPIServer _ _ c r) nd w = (Ok status, w') /\ same_power w w' /\
    st_Name status = nd_Name nd /\ st_SMBIOS status = {| ss_Manufacturer := smb_Manufacturer (nd_SMBIOS nd);
      ss_Product := smb_Product (nd_SMBIOS nd); ss_Serial := smb_Serial (nd_SMBIOS nd) |} /\
    st_PowerStatus status = if vm_on v w then "On" else "Off".
Proof.
  intros Hin Ev. destruct (proj2 Hreg nd Hin) as (_ & (n & En & _) & _).
  destruct (VM_status_ok v w) as (w' & E & Hw). unfold status_of, newNodeStatus. cbn [as_cluster].
  rewrite Ev, En. unfold not_nil, sbind, stry. cbn. rewrite E. eexists _, w'. split_and!; try done. cbn. by destruct (vm_on v w).
Qed.

Lemma statuses_ok nds w :
  (forall nd, nd ∈ nds -> nd ∈ cs_Nodes spec) ->
  exists statuses w', smap (status_of (newAPIServer _ _ c r)) nds w = (Ok statuses, w') /\ same_power w w' /\
    Forall2 (fun nd status => st_Name status = nd_Name nd /\ forall v, vm_of c nd = Some v ->
      st_PowerStatus status = if vm_on v w then "On" else "Off") nds statuses.
Proof.
  revert w. induction nds as [|nd nds IH]; intros w Hin; cbn [smap].
  - eexists _, w. by split_and!.
  - assert (Hnd : nd ∈ cs_Nodes spec) by (apply Hin; left).
    destruct (proj2 Hreg nd Hnd) as (_ & _ & cmd & conn & Ev).
    destruct (status_ok nd _ w Hnd Ev) as (status & w1 & E1 & Hw1 & Hn & _ & Hp).
    destruct (IH w1) as (statuses & w2 & E2 & Hw2 & HF); [intros; apply Hin; by right|].
    exists (status :: statuses), w2. unfold sbind. rewrite E1, E2. split_and!; [done| |].
    + intros v. by rewrite Hw2, Hw1.
    + constructor; [split; [done|]; intros v Ev'; rewrite Ev' in Ev; by injection Ev as ->|].
      eapply Forall2_impl; [exact HF|]. cbn. intros nd' st' [H1 H2]. split; [done|]. intros v' E'.
      by rewrite (H2 v' E'), Hw1.
Qed.

End ApiLemmas.

(** ** Properties *)

(** C33: the machines of a cluster.  When the phases of the set-up succeed for nodes whose
    names differ and whose serial numbers are set and differ, in whatever order the
    nodes register, then either the set-up of a node was interrupted, and a nil machine
    is registered, or every node of the specification is found by its name and its
    machine under the serial number, with the sockets of that node.  When no serial
    number is set, all machines share the empty one: at most one of them is left. *)
Theorem machines_registered {W : Type} `{!Host W} `{!HostFiles W} `{!Http W} `{!Procs W}
  `{!UrlOps} `{!AddrOps} `{!NetOps W} `{!Rand W} `{!NsOps W} `{!DetectMtu W} (vhost : bool)
  (fuel : nat) (r : Runtime) (mtu : Z) (order : list nat) (spec : ClusterSpec) (w w1 w2 : W)
  (c1 c2 : cluster) (guests : list guestConnection) :
  Permutation order (seq 0 (length (cs_Nodes spec))) ->
  setup_before r (w, NewCluster spec) = (Ok mtu, (w1, c1)) ->
  setup_nodes vhost fuel r mtu order (w1, c1) = (Ok guests, (w2, c2)) ->
  (named_apart (cs_Nodes spec) -> c_vms c2 !! "" = Some None \/ registered r spec c2) /\
  (Forall (fun nd => smb_Serial (nd_SMBIOS nd) = "") (cs_Nodes spec) ->
   forall s, is_Some (c_vms c2 !! s) -> s = "").
Proof.
  intros Ho E1 E2. split; [intros Hn; by eapply registered_setup|]. intros Hs s.
  destruct (setup_before_holds _ _ _ _ _ _ E1) as (HF & _ & Hv & _).
  assert (Hin : forall i, i ∈ order <-> is_Some (c_nodes c1 !! i)).
  { intros i. rewrite Ho, elem_of_seq, lookup_lt_is_Some, <- (Forall2_length _ _ _ HF). lia. }
  eapply unset_serials_collide; [|exact Hin| |exact Hv|exact E2]; [rewrite Ho; apply NoDup_seq|].
  intros i n Hi. destruct (Forall2_lookup_r _ _ _ _ _ HF Hi) as (nd & Hnd & _ & ->).
  by apply (Forall_lookup_1 _ _ _ _ Hs Hnd).
Qed.

(** Two nodes on one network. *)
Definition small_node (name sn : string) : NodeSpec :=
  {| nd_Kind := "Node"; nd_Name := name; nd_Interfaces := ["r0-node1"]; nd_Volumes := [];
     nd_IgnitionFile := ""; nd_CPU := 0;
     nd_SMP := Some {| smp_CPUs := 1; smp_Cores := 0; smp_Threads := 0; smp_Dies := 0;
                       smp_Sockets := 0; smp_MaxCPUs := 0 |};
     nd_Memory := "2G"; nd_NUMA := {| numa_Nodes := 0 |}; nd_NetworkDeviceQueue := 0;
     nd_UEFI := false; nd_TPM := false;
     nd_SMBIOS := {| smb_Manufacturer := ""; smb_Product := ""; smb_Serial := sn |} |}.

Definition two_nodes : ClusterSpec :=
  {| cs_Networks := [{| nw_Kind := "Network"; nw_Name := "r0-node1"; nw_Type := NetworkInternal;
                        nw_UseNAT := false; nw_Address := "" |}];
     cs_NetNSs := []; cs_DeviceClasses := []; cs_Images := [];
     cs_Nodes := [small_node "boot-0" "fb8f2417"; small_node "boot-1" "fa8a6e4b"] |}.

Definition two_world (starts : list string) : simWorld :=
  {| sw_fs := MkFs ∅ ∅ ∅; sw_next := 0; sw_net := demo_net; sw_rand := 0; sw_pages := ∅;
     sw_starts := [("qemu-system-x86_64", starts)]; sw_started := []; sw_ticks := 0; sw_full := false;
     sw_mons := fun _ => fresh_monitor |}.

Definition two_sockets : list string :=
  ["/run/boot-0.qmp"; "/run/boot-0.guest"; "/run/boot-1.qmp"; "/run/boot-1.guest"].

Definition two_before (starts : list string) : outcome Z * (simWorld * cluster) :=
  setup_before node_runtime (two_world starts, NewCluster two_nodes).

Definition two_run (starts : list string) : outcome (list guestConnection) * (simWorld * cluster) :=
  setup_nodes false 1 node_runtime 1500 [1%nat; 0%nat] (two_before starts).2.

Lemma two_apart : named_apart (cs_Nodes two_nodes).
Proof. split_and!; [apply (bool_decide_unpack _); vm_compute; exact I..|]. repeat constructor; discriminate. Qed.

Lemma machines_registered_witness :
  (two_before two_sockets).1 = Ok 1500 /\
  (exists guests, (two_run two_sockets).1 = Ok guests /\ length guests = 2%nat) /\
  registered node_runtime two_nodes (two_run two_sockets).2.2 /\
  c_vms (two_run two_sockets).2.2 !! "fa8a6e4b" = Some (Some (machine_of node_runtime "boot-1" 0 1)) /\
  c_vms (two_run ["/run/boot-0.qmp"; "/run/boot-0.guest"]).2.2 !! "" = Some None.
Proof.
  assert (E1 : (two_before two_sockets).1 = Ok 1500) by (vm_compute; reflexivity).
  assert (Eo : exists guests, (two_run two_sockets).1 = Ok guests /\ length guests = 2%nat /\
    c_vms (two_run two_sockets).2.2 !! "" = None /\
    c_vms (two_run two_sockets).2.2 !! "fa8a6e4b" = Some (Some (machine_of node_runtime "boot-1" 0 1))).
  { eexists. split_and!; vm_compute; reflexivity. }
  destruct Eo as (guests & Eg & Hl & Hnil & Hv). split; [exact E1|].
  split; [exists guests; exact (conj Eg Hl)|]. destruct (two_run two_sockets) as [o [w2 c2]] eqn:E2. cbn [fst snd] in *. subst o.
  destruct (two_before two_sockets) as [o1 [w1 c1]] eqn:Eb. cbn [fst] in E1. subst o1. split.
  - destruct (machines_registered false 1 node_runtime 1500 [1%nat; 0%nat] two_nodes (two_world two_sockets)
      w1 w2 c1 c2 guests) as [H _].
    + apply Permutation_swap.
    + exact Eb.
    + unfold two_run in E2. rewrite Eb in E2. exact E2.
    + destruct (H two_apart) as [H1|H1]; [|exact H1]. cbn [snd] in *. rewrite H1 in Hnil. discriminate.
  - split; [exact Hv|vm_compute; reflexivity].
Defined.

(** What the API does.  On a cluster whose machines are registered, with machines
    that do what they are told: [start] of a stopped machine and [stop] and [restart] of
    a running one answer 200 and change the power of the machine of that node and of no
    other; reading a node or all nodes answers 200 with one status per node of the
    specification, in its order, each with the power of its machine, and changes
    nothing; an unknown node is answered with 404 and an unknown action with 400, without
    effect. *)
Theorem api_controls_nodes {W : Type} `{!VM W vm} {RV : ReliableVMs W} `{!UrlOps} `{!AddrOps}
  (r : Runtime) (spec : ClusterSpec) (c : cluster) (nd : NodeSpec) (v : vm) (w : W) :
  registered r spec c -> Forall (fun nd => node_name (nd_Name nd) = true) (cs_Nodes spec) ->
  nd ∈ cs_Nodes spec -> vm_of c nd = Some v ->
  let s := newAPIServer _ _ c r in
  (vm_on v w = false -> exists w', api_route s (PostAction (nd_Name nd) "start") w = (Ok (answer 200), w') /\
     powered spec c (nd_Name nd) true w w') /\
  (vm_on v w = true -> exists w', api_route s (PostAction (nd_Name nd) "stop") w = (Ok (answer 200), w') /\
     powered spec c (nd_Name nd) false w w') /\
  (vm_on v w = true -> exists w', api_route s (PostAction (nd_Name nd) "restart") w = (Ok (answer 200), w') /\
     powered spec c (nd_Name nd) true w w') /\
  (exists status w', api_route s (GetNode (nd_Name nd)) w =
       (Ok {| ar_code := 200; ar_body := NodeBody status |}, w') /\
     st_Name status = nd_Name nd /\
     st_PowerStatus status = (if vm_on v w then "On" else "Off") /\ same_power w w') /\
  (exists statuses w', api_route s GetNodes w =
       (Ok {| ar_code := 200; ar_body := NodesBody statuses |}, w') /\
     Forall2 (fun nd status => st_Name status = nd_Name nd /\ forall v, vm_of c nd = Some v ->
       st_PowerStatus status = if vm_on v w then "On" else "Off")
       (cs_Nodes spec) statuses /\ same_power w w') /\
  (forall action, action ∉ ["start"; "stop"; "restart"] ->
     api_route s (PostAction (nd_Name nd) action) w = (Ok (answer 400), w)) /\
  (forall name action, c_nodeSpecMap c !! name = None ->
     api_route s (GetNode name) w = (Ok (answer 404), w) /\
     api_route s (PostAction name action) w = (Ok (answer 404), w)).
Proof.
  intros Hreg Hn Hin Ev s. destruct (proj2 Hreg nd Hin) as (Es & _ & _). split_and!.
  - intros Hoff. by eapply start_ok.
  - intros Hon. by eapply stop_ok.
  - intros Hon. by eapply restart_ok.
  - destruct (status_ok r spec c Hreg nd v w Hin Ev) as (status & w' & E & Hw & H1 & _ & H2).
    exists status, w'. split_and!; try done. cbn [api_route]. unfold handleNode. cbn [as_cluster s].
    rewrite Es. unfold status_of in E. cbn in E. unfold sbind. cbn. by rewrite E.
  - destruct (statuses_ok r spec c Hreg (cs_Nodes spec) w) as (sts & w' & E & Hw & HF); [done|].
    exists sts, w'. split_and!; try done. subst s. cbn [api_route]. unfold handleNodes.
    cbn [as_cluster]. rewrite (proj1 Hreg). unfold sbind. by rewrite E.
  - intros action Ha. cbn [api_route]. unfold handleNodeAction. cbn [as_cluster s]. rewrite Es.
    apply not_elem_of_cons in Ha as [H1 Ha]. apply not_elem_of_cons in Ha as [H2 Ha].
    apply not_elem_of_cons in Ha as [H3 _]. apply String.eqb_neq in H1, H2, H3. by rewrite H1, H2, H3.
  - intros name action Hno. cbn [api_route]. unfold handleNode, handleNodeAction. cbn [as_cluster s].
    by rewrite Hno.
Qed.

Definition two_cluster : cluster := (two_run two_sockets).2.2.

Lemma two_registered : registered node_runtime two_nodes two_cluster.
Proof.
  split; [vm_compute; reflexivity|]. intros nd Hin.
  repeat (apply elem_of_cons in Hin as [->|Hin]; [
    split; [vm_compute; reflexivity|]; split; [eexists; split; vm_compute; reflexivity|];
    eexists _, _; vm_compute; reflexivity|]). by apply elem_of_nil in Hin.
Qed.

(** Stopping the first of two machines. *)
Lemma api_controls_nodes_witness :
  exists w', api_route (newAPIServer _ _ two_cluster node_runtime) (PostAction "boot-0" "stop")
    (two_world []) = (Ok (answer 200), w') /\
    vm_on (machine_of node_runtime "boot-0" 1 1) w' = false /\
    vm_on (machine_of node_runtime "boot-1" 0 1) w' = true.
Proof.
  destruct (api_controls_nodes node_runtime two_nodes two_cluster (small_node "boot-0" "fb8f2417")
    (machine_of node_runtime "boot-0" 1 1) (two_world []) two_registered) as (_ & Hstop & _).
  - repeat constructor.
  - left.
  - vm_compute. reflexivity.
  - destruct Hstop as (w' & E & Hp); [reflexivity|]. exists w'. split; [exact E|]. split.
    + apply (Hp (small_node "boot-0" "fb8f2417")); [left|vm_compute; reflexivity].
    + rewrite (Hp (small_node "boot-1" "fa8a6e4b")); [reflexivity|right; left|vm_compute; reflexivity].
Defined.

(** A guest gets its own BMC.  On a cluster whose machines are registered, the first
    complete line a guest writes, without surrounding white space, is taken as its BMC
    address: an IPMI and a Redfish server for that address are given the machine of
    the guest's own node, and the network changes at most by that address on a BMC
    network.  An unfinished line and everything after the first line start nothing. *)
Theorem guest_gets_its_bmc {W : Type} `{!AddrOps} `{!NetOps W} {L : NetLaws W}
  {LR : NetReliable W} `{!Listen W} {LL : ListenLaws (W := W)} `{!UrlOps} (r : Runtime)
  (spec : ClusterSpec) (c : cluster) (nd : NodeSpec) (g : guestConnection) (line rest more : list Z)
  (w : W) :
  parse_total -> registered r spec c -> nd ∈ cs_Nodes spec ->
  gc_serial g = smb_Serial (nd_SMBIOS nd) ->
  gc_sent g = false -> 10 ∉ line ->
  guest_handle g line = (g, []) /\
  exists g' info, guest_handle g (line ++ 10 :: rest) = (g', [info]) /\
    guest_handle g' more = (g', []) /\
    bi_bmcAddress info = string_of_bytes (TrimSpace (line ++ [10])) /\
    exists conn listener cmd gconn w',
      let v := machine_of r (nd_Name nd) cmd gconn in
      bmc_Start (NewBMCServer (c_vms c) (c_networks c)) [info] w =
        (Ok [[IPMIServer conn (Some (Some v)); RedfishServer listener (Some (Some v))]], w') /\
      bmc_view (NewBMCServer (c_vms c) (c_networks c)) info (view w) (view w').
Proof.
  intros Hp [_ Hreg] Hin Hg Hsent Hl.
  destruct (guest_sends_first_line g line rest Hsent Hl) as [E1 E2]. split; [exact E2|].
  eexists _, _. split; [exact E1|]. split; [by apply handle_lines_sent|]. split; [done|].
  destruct (Hreg nd Hin) as (_ & _ & cmd & gconn & Ev). unfold vm_of in Ev.
  destruct (c_vms c !! smb_Serial (nd_SMBIOS nd)) as [v|] eqn:Ec; [|done]. cbn in Ev. subst v.
  set (s := NewBMCServer (c_vms c) (c_networks c)). set (info := Build_BMCInfo _ _).
  destruct (start_bmc_run s info w Hp) as (conn & listener & w1 & E & V & _).
  exists conn, listener, cmd, gconn, w1. split; [|exact V]. unfold bmc_Start. cbn [smap]. unfold sbind.
  rewrite E. cbn [sret]. unfold s, info. cbn [bs_vms NewBMCServer bi_serial]. by rewrite Hg, Ec.
Qed.

Lemma guest_gets_its_bmc_witness :
  exists info w', (guest_handle {| gc_serial := "fa8a6e4b"; gc_sent := false; gc_guest := 1 |}
      (bytes_of_string "10.72.17.101" ++ [13; 10])).2 = [info] /\
    let v := machine_of node_runtime "boot-1" 0 1 in
    bmc_Start (NewBMCServer (c_vms two_cluster) (c_networks two_cluster)) [info] (two_world []) =
      (Ok [[IPMIServer (Some 16%nat) (Some (Some v)); RedfishServer (Some 16%nat) (Some (Some v))]], w').
Proof.
  destruct (guest_gets_its_bmc (LR := simWorld_NetReliable) (LL := simWorld_ListenLaws) node_runtime two_nodes
    two_cluster (small_node "boot-1" "fa8a6e4b") {| gc_serial := "fa8a6e4b"; gc_sent := false; gc_guest := 1 |}
    (bytes_of_string "10.72.17.101" ++ [13]) [] [] (two_world []) text_parse_total two_registered)
    as (_ & g' & info & E & _ & _ & conn & listener & cmd & gconn & w' & E2 & _).
  - right. left.
  - reflexivity.
  - reflexivity.
  - vm_compute. set_solver.
  - exists info, w'. split; [exact (f_equal snd E)|].
    assert (Ei : [info] = [{| bi_serial := "fa8a6e4b"; bi_bmcAddress := "10.72.17.101" |}]).
    { transitivity (guest_handle {| gc_serial := "fa8a6e4b"; gc_sent := false; gc_guest := 1 |}
        (bytes_of_string "10.72.17.101" ++ [13; 10])).2; [symmetry; exact (f_equal snd E)|vm_compute; reflexivity]. }
    injection Ei as ->. intros v. rewrite E2. apply (f_equal (fun o => (o, w'))).
    transitivity (bmc_Start (NewBMCServer (c_vms two_cluster) (c_networks two_cluster))
      [{| bi_serial := "fa8a6e4b"; bi_bmcAddress := "10.72.17.101" |}] (two_world [])).1;
      [by rewrite E2|vm_compute; reflexivity].
Defined.
