(* ===== verification/ClusterBmcs.v ===== *)
(** * The BMCs of a cluster (placemat/cluster.go with vm/bmc.go)

    The set-up of a cluster makes the channel, one connection handler per node and the
    BMC server over the registered machines.  This file puts [Machines] and [BmcEnv]
    together: from the specification of a cluster to the servers that run for each of
    its guests, at the same time. *)

From S2P Require Import Prelude GoBinary GoCrypto GoPath Machine Qmp Host Netlink Types Files Dcnet.
From S2P Require Import World Cache Volume Qemu Tap Bmc BmcEnv Node Netns Cluster Api Lifecycle Machines.

Local Open Scope Z_scope.
Local Open Scope go_scope.

Section Guests.
Context {W : Type} `{!Host W} `{!HostFiles W} `{!Http W} `{!Procs W} `{!UrlOps} `{!AddrOps}
  `{!NetOps W} `{!Rand W} `{!NsOps W} `{!DetectMtu W}.

(** A connection handler as the set-up of one of [ns] leaves it. *)
Definition fresh_guest (ns : list node) (g : guestConnection) : Prop :=
  gc_sent g = false /\ exists n, n ∈ ns /\ gc_serial g = serial (n_smbios n).

Lemma fresh_guest_insert ns i n n' g :
  ns !! i = Some n -> same_node n n' -> fresh_guest (<[i := n']> ns) g -> fresh_guest ns g.
Proof.
  intros Hi [_ Hs] [Hg (m & Hm & Hser)]. split; [done|].
  apply list_elem_of_lookup in Hm as [j Hj]. destruct (decide (i = j)) as [<-|Hij].
  - rewrite list_lookup_insert_eq in Hj by (by eapply lookup_lt_Some). injection Hj as <-.
    exists n. split; [by eapply list_elem_of_lookup_2|congruence].
  - rewrite list_lookup_insert_ne in Hj by done. exists m. split; [by eapply list_elem_of_lookup_2|done].
Qed.

Lemma result_guest r n res g : node_result r n res -> sr_guest res = Some g ->
  gc_sent g = false /\ gc_serial g = serial (n_smbios n).
Proof. intros [->|(cmd & conn & ->)]; [done|]. cbn. by intros [= <-]. Qed.

(** At most one handler per goroutine, each with the serial number of a node. *)
Lemma setup_nodes_guests vhost fuel r mtu order (w w' : W) (c c' : cluster) gs :
  setup_nodes vhost fuel r mtu order (w, c) = (Ok gs, (w', c')) ->
  (length gs <= length order)%nat /\ Forall (fresh_guest (c_nodes c)) gs.
Proof.
  revert w c gs. induction order as [|i order IH]; intros w c gs E.
  - injection E as <- <- <-. split; [done|constructor].
  - cbn [setup_nodes] in E. apply sbind_ok in E as (res & [w1 c1] & E1 & E).
    unfold stry, setup_node in E1. cbn [fst snd] in E1. destruct (c_nodes c !! i) as [n|] eqn:Hn.
    2:{ injection E1 as <- <- <-. apply sbind_ok in E as (gs' & [w3 c3] & E3 & E). injection E as <- <- <-.
        destruct (IH _ _ _ E3) as [H1 H2]. split; [cbn; lia|exact H2]. }
    destruct (node_Setup vhost fuel r mtu (w, n)) as [o [w2 n2]] eqn:Es.
    destruct o as [rs|e|p|]; try done; injection E1 as <- <- <-.
    2:{ apply sbind_ok in E as (u & [w3 c3] & _ & E). done. }
    apply sbind_ok in E as (gs' & [w3 c3] & E3 & E). injection E as <- <- <-.
    destruct (IH _ _ _ E3) as [H1 H2]. cbn [c_nodes set_vms set_nodes] in H2.
    assert (HF : Forall (fresh_guest (c_nodes c)) gs').
    { eapply Forall_impl; [exact H2|]. intros g. apply (fresh_guest_insert _ _ n _ _ Hn).
      by eapply node_Setup_same. }
    destruct (sr_guest rs) as [g|] eqn:Eg; (split; [cbn; lia|]); [|done]. constructor; [|done].
    destruct (result_guest r n rs g (node_Setup_result _ _ _ _ _ _ _ _ _ Es) Eg) as [Hs Hser].
    split; [done|]. exists n. split; [by eapply list_elem_of_lookup_2|done].
Qed.

(** The same in terms of the specification. *)
Lemma cluster_guests vhost fuel r mtu order spec (w w1 w2 : W) c1 c2 guests :
  Permutation order (seq 0 (length (cs_Nodes spec))) ->
  setup_before r (w, NewCluster spec) = (Ok mtu, (w1, c1)) ->
  setup_nodes vhost fuel r mtu order (w1, c1) = (Ok guests, (w2, c2)) ->
  (length guests <= length (cs_Nodes spec))%nat /\
  Forall (fun g => gc_sent g = false /\ exists nd, nd ∈ cs_Nodes spec /\
    gc_serial g = smb_Serial (nd_SMBIOS nd)) guests.
Proof.
  intros Ho E1 E2. destruct (setup_before_holds _ _ _ _ _ _ E1) as (HF & _).
  destruct (setup_nodes_guests _ _ _ _ _ _ _ _ _ _ E2) as [Hl Hg].
  rewrite Ho, length_seq in Hl. split; [done|]. eapply Forall_impl; [exact Hg|].
  intros g [Hs (n & Hn & Hser)]. split; [done|]. apply list_elem_of_lookup in Hn as [i Hi].
  destruct (Forall2_lookup_r _ _ _ _ _ HF Hi) as (nd & Hnd & _ & Hsm).
  exists nd. split; [by eapply list_elem_of_lookup_2|]. by rewrite Hser, Hsm.
Qed.
End Guests.

Lemma received_in {VM : Type} info fs (tr : list (bmc_event VM)) : Received info fs ∈ tr -> info ∈ received tr.
Proof.
  intros Hin. unfold received. apply list_elem_of_bind. exists (Received info fs).
  split; [apply list_elem_of_singleton|]; done.
Qed.

(** The machine a server was given. *)
Definition serves_machine (v : vm) (fs : list (bmc_service (option vm))) : Prop :=
  exists c l, fs = [IPMIServer c (Some (Some v)); RedfishServer l (Some (Some v))].

(** ** Properties *)

(** C34: the BMCs of a cluster.  When the set-up of a cluster whose nodes have different
    names and serial numbers succeeded without an interruption, in whatever order its
    nodes registered, then whatever its guests write and however guests, loop and servers
    interleave: no guest waits for the BMC server; every message the loop received is the
    first line of a guest, and its two servers were given the machine of that guest's own
    node; and all servers run while the context is not done and none of them failed. *)
Theorem cluster_bmcs_serve {W E : Type} `{!Host W} `{!HostFiles W} `{!Http W} `{!Procs W} `{!UrlOps} `{!AddrOps}
  `{!NetOps W} {L : NetLaws W} `{!Rand W} `{!NsOps W} `{!DetectMtu W} `{!Listen W} {LL : ListenLaws (W := W)}
  `{!Environment E (bmc_service (option vm))} {EL : EnvironmentLaws E (bmc_service (option vm))}
  (vhost : bool) (fuel : nat) (r : Runtime) (mtu : Z) (order : list nat) (spec : ClusterSpec)
  (w w1 w2 w3 : W) (c1 c2 : cluster) (guests : list guestConnection) (streams : list (list Z))
  (broken : bmc_service (option vm) -> bool) (tr : list (bmc_event (option vm))) (b : bmc_state W E) :
  let s := NewBMCServer (c_vms c2) (c_networks c2) in
  let nodes := length (cs_Nodes spec) in
  parse_total -> named_apart (cs_Nodes spec) -> Permutation order (seq 0 nodes) ->
  setup_before r (w, NewCluster spec) = (Ok mtu, (w1, c1)) ->
  setup_nodes vhost fuel r mtu order (w1, c1) = (Ok guests, (w2, c2)) ->
  c_vms c2 !! "" <> Some None ->
  bmc_run s nodes broken (bmc_init w3 (zip guests streams)) tr b ->
  (forall i g line lines, b_guests b !! i = Some (g, line :: lines) ->
    exists out b' g', bmc_step s nodes broken b (GuestLine out) b' /\ b_guests b' !! i = Some (g', lines)) /\
  (forall info fs, Received info fs ∈ tr ->
    exists g stream nd cmd conn, (g, stream) ∈ zip guests streams /\ first_message g stream info /\
      nd ∈ cs_Nodes spec /\ gc_serial g = smb_Serial (nd_SMBIOS nd) /\
      serves_machine (machine_of r (nd_Name nd) cmd conn) fs) /\
  (b_done b = false -> Forall (fun f => may_fail broken f = false) (servers tr) ->
   goroutines (b_env b) = servers tr).
Proof.
  intros s nodes Hp Hn Ho E1 E2 Hnil Hr.
  destruct (cluster_guests _ _ _ _ _ _ _ _ _ _ _ _ Ho E1 E2) as [Hl Hg].
  destruct (registered_setup _ _ _ _ _ _ _ _ _ _ _ _ Hn Ho E1 E2) as [?|[_ Hreg]]; [done|].
  assert (Hz : forall p, p ∈ zip guests streams -> p.1 ∈ guests).
  { intros [g stream] Hin. by apply elem_of_zip_l in Hin. }
  assert (Hf : Forall (fun p => gc_sent p.1 = false) (zip guests streams)).
  { apply Forall_forall. intros p Hin. rewrite Forall_forall in Hg. by destruct (Hg _ (Hz p Hin)). }
  destruct (reached_invariants _ _ _ _ _ _ _ Hp Hf Hr) as [HM (HS & _ & HR)].
  split_and!.
  - intros i g line lines Hi. eapply guest_not_blocked; [exact HM| |exact Hi].
    etransitivity; [|exact Hl]. rewrite length_zip_with. lia.
  - intros info fs Hin. destruct HM as (_ & _ & HQ & HF). rewrite Forall_forall in HF. rewrite Forall_forall in Hg.
    destruct (HF info) as (g & stream & Hgs & Hm); [rewrite HQ; apply elem_of_app; left; by eapply received_in|].
    destruct (Hg g (Hz _ Hgs)) as (_ & nd & Hnd & Hser).
    destruct (Hreg nd Hnd) as (_ & _ & cmd & conn & Ev). exists g, stream, nd, cmd, conn. split_and!; try done.
    destruct (proj1 (Forall_forall _ _) HS _ Hin) as (c & l & ->). destruct Hm as (line & lines & _ & ->). cbn [bi_serial bs_vms s NewBMCServer].
    unfold vm_of in Ev. rewrite Hser. destruct (c_vms c2 !! smb_Serial (nd_SMBIOS nd)) as [v|]; [|done].
    cbn in Ev. subst v. by exists c, l.
  - intros Hd Hok. by destruct (HR Hd Hok).
Qed.

(** The two guests of a cluster; the second one writes first. *)
Lemma cluster_bmcs_serve_witness :
  exists guests w1 c1 w2 c2, two_before two_sockets = (Ok 1500, (w1, c1)) /\
    two_run two_sockets = (Ok guests, (w2, c2)) /\
    forall tr b, bmc_run (E := well_env (bmc_service (option vm)))
      (NewBMCServer (c_vms c2) (c_networks c2)) 2 (fun _ => false)
      (bmc_init w2 (zip guests [bytes_of_string "10.72.17.101" ++ [10]; bytes_of_string "10.72.17.100" ++ [10]])) tr b ->
      forall info fs, Received info fs ∈ tr ->
        exists nd cmd conn, nd ∈ cs_Nodes two_nodes /\ serves_machine (machine_of node_runtime (nd_Name nd) cmd conn) fs.
Proof.
  assert (E1 : (two_before two_sockets).1 = Ok 1500) by (vm_compute; reflexivity).
  assert (Eo : exists guests, (two_run two_sockets).1 = Ok guests /\ c_vms (two_run two_sockets).2.2 !! "" = None).
  { eexists. split; vm_compute; reflexivity. }
  destruct Eo as (guests & Eg & Hnil). destruct (two_run two_sockets) as [o [w2 c2]] eqn:E2. cbn [fst snd] in *. subst o.
  destruct (two_before two_sockets) as [o1 [w1 c1]] eqn:Eb. cbn [fst] in E1. subst o1.
  exists guests, w1, c1, w2, c2. split; [reflexivity|]. split; [reflexivity|]. intros tr b Hr info fs Hin.
  unfold two_run in E2. rewrite Eb in E2. cbn [snd] in E2.
  destruct (cluster_bmcs_serve (LL := simWorld_ListenLaws) false 1 node_runtime 1500 [1%nat; 0%nat] two_nodes
    (two_world two_sockets) w1 w2 w2 c1 c2 guests
    [bytes_of_string "10.72.17.101" ++ [10]; bytes_of_string "10.72.17.100" ++ [10]] (fun _ => false) tr b
    text_parse_total two_apart) as (_ & H & _).
  - apply Permutation_swap.
  - exact Eb.
  - exact E2.
  - rewrite Hnil. discriminate.
  - exact Hr.
  - destruct (H info fs Hin) as (g & stream & nd & cmd & conn & _ & _ & H3 & _ & H5).
    exists nd, cmd, conn. split; [exact H3|exact H5].
Defined.
