(* ===== verification/Pmctl.v ===== *)
(** * The client of the API (cmd/pmctl2/cmd/client.go, node_action.go, node_list.go, node_show.go)

    The commands that show nodes and control their power.  net/http is the interface
    [HttpClient]; that a request reaches the handler of its route and brings back the JSON
    of the answer is [ApiClientLaws].  Commands are followed down to the machine. *)

From S2P Require Import Prelude GoBinary GoCrypto GoPath GoStrings Json Marshal Host Command Netlink Types.
From S2P Require Import Files Dcnet World Cache Volume Qemu Tap Machine Qmp Bmc Node Netns Cluster Api Status.
From S2P Require Import Lifecycle Machines.

Local Open Scope Z_scope.
Local Open Scope go_scope.

(** ** net/http and net/url *)

(** url.Values *)
Abbreviation url_Values := (gmap string (list string)).

(** [q.Add(k, v)] *)
Definition url_Add (k v : string) (q : url_Values) : url_Values :=
  <[k := default [] (q !! k) ++ [v]]> q.

Record http_response : Type := { hr_StatusCode : Z; hr_Status : string; hr_Body : list Z }.

Class HttpClient (X : Type) : Type := {
  request : Type;
  (** [http.NewRequest(method, url, nil)], [req.URL.Query()], [q.Encode()] and
      [req.URL.RawQuery = s] *)
  NewRequest : string -> string -> outcome request;
  URL_Query : request -> url_Values;
  url_Encode : url_Values -> string;
  set_RawQuery : string -> request -> request;
  (** [client.Do(req)] with the body of the response, and [resp.Body.Close()] *)
  client_Do : request -> st X http_response;
  body_Close : http_response -> X -> X
}.

(** ** client.go *)

Section Client.
Context {X : Type} `{!HttpClient X} `{!Terminal X} (g : globalParams).

(** The request of both functions.  The error of [http.NewRequest] is dropped, and
    [req.URL] of a nil request panics. *)
Definition make_request (method p : string) (params : gmap string string) : outcome request :=
  match NewRequest method (endpoint g +:+ p) with
  | Ok req => Ok (set_RawQuery (url_Encode (map_fold url_Add (URL_Query req) params)) req)
  | Err _ => Panic NilDereference
  | Panic e => Panic e
  | Diverge => Diverge
  end.

(** [defer resp.Body.Close()] *)
Definition with_body {A : Type} (resp : http_response) (body : st X A) : st X A :=
  fun x => let (o, x') := body x in (o, body_Close resp x').

Definition getJSON {A : Type} `{!JsonType A} (p : string) (params : gmap string string) : st X A :=
  let* req := slift (make_request "GET" p params) in
  let* resp := client_Do req in
  with_body resp (
    if negb (hr_StatusCode resp =? 200) then sthrow (errors_New (hr_Status resp))
    else slift (json_Decode (hr_Body resp))).

Definition postAction (p : string) (params : gmap string string) : st X unit :=
  let* req := slift (make_request "POST" p params) in
  let* resp := client_Do req in
  if negb (hr_StatusCode resp =? 200) then sthrow (errors_New (hr_Status resp)) else sret tt.

(** ** node_action.go *)

Definition nodeActionStart : string := "start".
Definition nodeActionStop : string := "stop".
Definition nodeActionRestart : string := "restart".

Definition nodeAction_valid (n : string) : outcome unit :=
  if bool_decide (n ∈ [nodeActionStart; nodeActionStop; nodeActionRestart]) then Ok tt
  else Err (errors_New ("invalid node action: " +:+ n +:+ ": valid actions are [" +:+ nodeActionStart +:+
              "|" +:+ nodeActionStop +:+ "|" +:+ nodeActionRestart +:+ "]")).

Definition nodeAction_Args (args : list string) : outcome unit :=
  match length args with
  | O => Err (errors_New "action name not specified")
  | S O => Err (errors_New "node name not specified")
  | S (S O) => Ok tt
  | _ => Err (errors_New "too many arguments")
  end.

Definition nodeAction_Run (args : list string) : st X unit :=
  let* action := slift (arg args 0) in
  let* node := slift (arg args 1) in
  slift (nodeAction_valid action) >>>
  postAction ("/nodes/" +:+ node +:+ "/" +:+ action) ∅.

Definition nodeActionCmd : list string -> st X unit := run_command nodeAction_Args nodeAction_Run.

(** ** node_list.go *)

Definition nodeList_Run (json : bool) (args : list string) : st X unit :=
  let* status := getJSON (A := option (list NodeStatus)) "/nodes" ∅ in
  if json then stdout_Write (json_Encode status)
  else sfor (default [] status) (fun s => fmt_Print (bytes_of_string (st_Name s) ++ [10])).

Definition nodeListCmd (json : bool) : list string -> st X unit :=
  run_command any_args (nodeList_Run json).

(** ** node_show.go *)

Definition one_node_Args (args : list string) : outcome unit :=
  match length args with
  | O => Err (errors_New "node name not specified")
  | S O => Ok tt
  | _ => Err (errors_New "too many arguments")
  end.

Definition nodeShow_Run (args : list string) : st X unit :=
  let* node := slift (arg args 0) in
  let* status := getJSON (A := NodeStatus) ("/nodes/" +:+ node) ∅ in
  stdout_Write (json_Encode status).

Definition nodeShowCmd : list string -> st X unit := run_command one_node_Args nodeShow_Run.

End Client.

(** ** Routes *)

(** [prepareRouter]: gin matches the elements of a path, [:name] any element. *)
Definition route (method path : string) : option api_request :=
  match split_slash path with
  | [""; a] =>
      if String.eqb method "GET" && String.eqb a "nodes" then Some GetNodes else None
  | [""; a; name] =>
      if String.eqb method "GET" && String.eqb a "nodes" && negb (String.eqb name "")
      then Some (GetNode name) else None
  | [""; a; name; action] =>
      if String.eqb method "POST" && String.eqb a "nodes" && negb (String.eqb name "") &&
         negb (String.eqb action "")
      then Some (PostAction name action) else None
  | _ => None
  end.

(** What the JSON writer of gin sends. *)
Definition body_text (b : api_body) : list Z :=
  match b with
  | NilBody => encode Json.Null
  | NodeBody s => json_Marshal s
  | NodesBody l => json_Marshal (Some l)
  end.

(** Characters that mean themselves in a URL (RFC 3986, unreserved). *)
Definition unreserved (b : Z) : bool :=
  is_digit b || within 65 90 b || within 97 122 b || (b =? 45) || (b =? 46) || (b =? 95) || (b =? 126).
Definition url_name (s : string) : bool := forallb unreserved (bytes_of_string s) && plain s.
Definition url_path (s : string) : bool :=
  forallb (fun b => unreserved b || (b =? 47)) (bytes_of_string s).

(** A client whose endpoint is served by [s]: requests with plain paths are made, a request
    runs the handler of its route on the server's side, and the answer comes back. *)
Class ApiClientLaws (X W : Type) `{!HttpClient X} `{!Terminal X} `{!VM W vm} `{!UrlOps} `{!AddrOps}
  (g : globalParams) (s : apiServer) : Type := {
  server : X -> W;
  shown : X -> list Z;
  request_law : forall method path, url_path path = true -> exists req,
    NewRequest method (endpoint g +:+ path) = Ok req /\ URL_Query req = ∅;
  do_law : forall method path req a x, NewRequest method (endpoint g +:+ path) = Ok req ->
    route method path = Some a ->
    match api_route s a (server x) with
    | (Ok resp, w') => exists status x',
        client_Do (set_RawQuery (url_Encode ∅) req) x =
          (Ok {| hr_StatusCode := ar_code resp; hr_Status := status; hr_Body := body_text (ar_body resp) |}, x') /\
        server x' = w' /\ shown x' = shown x
    | _ => True
    end;
  close_body_law : forall r x, server (body_Close r x) = server x /\ shown (body_Close r x) = shown x;
  apply_law : forall x, exists x', LogConfig_Apply x = (Ok tt, x') /\
    server x' = server x /\ shown x' = shown x;
  write_law : forall t x, exists x', stdout_Write t x = (Ok tt, x') /\
    server x' = server x /\ shown x' = shown x ++ t
}.

(** ** Lemmas *)

Lemma url_name_path s : url_name s = true -> url_path s = true.
Proof.
  unfold url_name, url_path. intros H. bools. rewrite forallb_forall in *.
  intros b Hb. by rewrite (H b Hb).
Qed.

Lemma url_path_app a b : url_path (a +:+ b) = url_path a && url_path b.
Proof. unfold url_path. by rewrite bytes_of_string_app, forallb_app. Qed.

Lemma nodes_path name : url_name name = true -> split_slash ("/nodes/" +:+ name) = [""; "nodes"; name].
Proof.
  intros Hn. unfold url_name in Hn. bools. change ("/nodes/" +:+ name) with ("/nodes" +:+ String slash name).
  rewrite split_slash_app, (plain_split name) by done. done.
Qed.

Lemma nonempty_plain s : url_name s = true -> String.eqb s "" = false.
Proof. intros Hs. by destruct s. Qed.

Lemma route_node name : url_name name = true -> route "GET" ("/nodes/" +:+ name) = Some (GetNode name).
Proof. intros Hn. unfold route. rewrite nodes_path, nonempty_plain by done. done. Qed.

Lemma route_action name action : url_name name = true -> url_name action = true ->
  route "POST" ("/nodes/" +:+ name +:+ "/" +:+ action) = Some (PostAction name action).
Proof.
  intros Hn Ha. unfold route. 
  change ("/nodes/" +:+ name +:+ "/" +:+ action) with ("/nodes/" +:+ (name +:+ String slash action)).
  rewrite <- string_app_assoc, split_slash_app, nodes_path by done.
  assert (Hs : split_slash action = [action]).
  { apply plain_split. unfold url_name in Ha. by bools. }
  rewrite Hs. cbn [Datatypes.app]. by rewrite !nonempty_plain by done.
Qed.

Section ClientLemmas.
Context {X W : Type} `{!HttpClient X} `{!Terminal X} `{!VM W vm} `{!UrlOps} `{!AddrOps}
  {g : globalParams} {s : apiServer} {L : ApiClientLaws X W g s}.

(** A request without parameters is answered by the handler of its route. *)
Lemma request_ok method path a x resp w' :
  url_path path = true -> route method path = Some a -> api_route s a (server x) = (Ok resp, w') ->
  exists req status x', make_request g method path ∅ = Ok req /\
    client_Do req x =
      (Ok {| hr_StatusCode := ar_code resp; hr_Status := status; hr_Body := body_text (ar_body resp) |}, x') /\
    server x' = w' /\ shown x' = shown x.
Proof.
  intros Hp Hr Ea. destruct (request_law method path Hp) as (req & Eq & Hq).
  pose proof (do_law method path req a x Eq Hr) as Hd. rewrite Ea in Hd.
  destruct Hd as (status & x' & Ed & Hx). eexists _, status, x'. split; [|by split; [exact Ed|]].
  unfold make_request. by rewrite Eq, Hq, map_fold_empty.
Qed.

Lemma post_ok path a x resp w' :
  url_path path = true -> route "POST" path = Some a -> api_route s a (server x) = (Ok resp, w') ->
  exists x', server x' = w' /\ shown x' = shown x /\
    (ar_code resp = 200 -> postAction g path ∅ x = (Ok tt, x')) /\
    (ar_code resp <> 200 -> exists e, postAction g path ∅ x = (Err e, x')).
Proof.
  intros Hp Hr Ea. destruct (request_ok _ _ _ _ _ _ Hp Hr Ea) as (req & status & x' & Eq & Ed & Hs & Hw).
  exists x'. split_and!; [done..| |]; intros Hc; unfold postAction, slift, sbind; rewrite Eq, Ed; cbn.
  - by rewrite Hc.
  - rewrite (proj2 (Z.eqb_neq _ _) Hc). by eexists.
Qed.

Lemma get_ok {A} `{!JsonType A} {J : JsonLaws A} path a x b w' (v : A) :
  url_path path = true -> route "GET" path = Some a ->
  api_route s a (server x) = (Ok {| ar_code := 200; ar_body := b |}, w') ->
  body_text b = json_Marshal v -> good v ->
  exists x', getJSON g path ∅ x = (Ok v, x') /\ server x' = w' /\ shown x' = shown x.
Proof.
  intros Hp Hr Ea Hb Hv. destruct (request_ok _ _ _ _ _ _ Hp Hr Ea) as (req & status & x' & Eq & Ed & Hs & Hw).
  exists (body_Close {| hr_StatusCode := 200; hr_Status := status; hr_Body := body_text b |} x').
  destruct (close_body_law {| hr_StatusCode := 200; hr_Status := status; hr_Body := body_text b |} x') as [H1 H2].
  rewrite H1, H2. split; [|done]. unfold getJSON, slift, sbind. rewrite Eq, Ed. unfold with_body.
  cbn [ar_code ar_body hr_StatusCode hr_Body Z.eqb Pos.eqb negb]. cbn iota. rewrite Hb.
  rewrite <- (app_nil_r (json_Marshal v)) at 1. by rewrite Decode_Marshal.
Qed.

Lemma print_names l x : exists x',
  sfor l (fun s => fmt_Print (bytes_of_string (st_Name s) ++ [10])) x = (Ok tt, x') /\
  server x' = server x /\ shown x' = shown x ++ concat (map (fun s => bytes_of_string (st_Name s) ++ [10]) l).
Proof.
  revert x. induction l as [|y l IH]; intros x; cbn [sfor map concat].
  - exists x. by rewrite app_nil_r.
  - destruct (write_law (bytes_of_string (st_Name y) ++ [10]) x) as (x1 & E1 & Hs1 & Hw1).
    destruct (IH x1) as (x2 & E2 & Hs2 & Hw2). exists x2.
    unfold sbind, fmt_Print, swarn. rewrite E1. split_and!; [exact E2|congruence|].
    rewrite Hw2, Hw1. by rewrite <- !app_assoc.
Qed.

(** A command line that is accepted does what the API does. *)
Lemma action_ok node action x resp w' :
  url_name node = true -> action ∈ ["start"; "stop"; "restart"] ->
  api_route s (PostAction node action) (server x) = (Ok resp, w') ->
  exists x', server x' = w' /\ shown x' = shown x /\
    (ar_code resp = 200 -> nodeActionCmd g [action; node] x = (Ok tt, x')) /\
    (ar_code resp <> 200 -> exists e, nodeActionCmd g [action; node] x = (Err e, x')).
Proof.
  intros Hn Ha Ea. destruct (apply_law x) as (x1 & E1 & Hs1 & Hw1). rewrite <- Hs1 in Ea.
  assert (Hu : url_name action = true).
  { repeat (apply elem_of_cons in Ha as [->|Ha]; [done|]). by apply elem_of_nil in Ha. }
  destruct (post_ok ("/nodes/" +:+ node +:+ "/" +:+ action) (PostAction node action) x1 resp w')
    as (x2 & Hs2 & Hw2 & Hok & Hbad); [|by apply route_action|done|].
  { by rewrite !url_path_app, (url_name_path node), (url_name_path action). }
  assert (Erun : nodeActionCmd g [action; node] x = postAction g ("/nodes/" +:+ node +:+ "/" +:+ action) ∅ x1).
  { unfold nodeActionCmd. erewrite accepted_args by done. unfold nodeAction_Run, sbind, slift.
    cbn [arg lookup list_lookup]. unfold nodeAction_valid. by rewrite bool_decide_true. }
  exists x2. rewrite Erun. split_and!; [done|congruence|done|done].
Qed.

(** The JSON of a node is printed as it was served. *)
Lemma show_ok node x status w' :
  url_name node = true -> good status ->
  api_route s (GetNode node) (server x) = (Ok {| ar_code := 200; ar_body := NodeBody status |}, w') ->
  exists x', nodeShowCmd g [node] x = (Ok tt, x') /\ server x' = w' /\
    shown x' = shown x ++ json_Encode status.
Proof.
  intros Hn Hg Ea. destruct (apply_law x) as (x1 & E1 & Hs1 & Hw1). rewrite <- Hs1 in Ea.
  destruct (get_ok ("/nodes/" +:+ node) (GetNode node) x1 (NodeBody status) w' status) as (x2 & E2 & Hs2 & Hw2);
    [by rewrite url_path_app, (url_name_path node)|by apply route_node|done|done|done|].
  destruct (write_law (json_Encode status) x2) as (x3 & E3 & Hs3 & Hw3).
  exists x3. split_and!; [|congruence..]. unfold nodeShowCmd. erewrite accepted_args by done.
  unfold nodeShow_Run, sbind, slift. cbn [arg lookup list_lookup]. by rewrite E2.
Qed.

(** The list of nodes, in both formats. *)
Lemma list_nodes_ok json x statuses w' :
  good (Some statuses) ->
  api_route s GetNodes (server x) = (Ok {| ar_code := 200; ar_body := NodesBody statuses |}, w') ->
  exists x', nodeListCmd g json [] x = (Ok tt, x') /\ server x' = w' /\
    shown x' = shown x ++ (if json then json_Encode (Some statuses)
      else concat (map (fun s => bytes_of_string (st_Name s) ++ [10]) statuses)).
Proof.
  intros Hg Ea. destruct (apply_law x) as (x1 & E1 & Hs1 & Hw1). rewrite <- Hs1 in Ea.
  destruct (get_ok "/nodes" GetNodes x1 (NodesBody statuses) w' (Some statuses)) as (x2 & E2 & Hs2 & Hw2);
    [done..|].
  assert (Erun : nodeListCmd g json [] x =
    (if json then stdout_Write (json_Encode (Some statuses))
     else sfor statuses (fun s => fmt_Print (bytes_of_string (st_Name s) ++ [10]))) x2).
  { unfold nodeListCmd. erewrite accepted_args by done. unfold nodeList_Run, sbind. by rewrite E2. }
  rewrite Erun. destruct json.
  - destruct (write_law (json_Encode (Some statuses)) x2) as (x3 & E3 & Hs3 & Hw3). exists x3.
    split_and!; [done|congruence..].
  - destruct (print_names statuses x2) as (x3 & E3 & Hs3 & Hw3). exists x3. split_and!; [done|congruence..].
Qed.

End ClientLemmas.

(** An endpoint that is not a URL crashes every command that talks to the API. *)
Lemma bad_endpoint_panics {X : Type} `{!HttpClient X} (g : globalParams) p params e (x : X) :
  (NewRequest "POST" (endpoint g +:+ p) = Err e ->
   postAction g p params x = (Panic NilDereference, x)) /\
  (NewRequest "GET" (endpoint g +:+ p) = Err e ->
   getJSON (A := NodeStatus) g p params x = (Panic NilDereference, x)).
Proof.
  split; intros E; unfold postAction, getJSON, make_request, sbind, slift; by rewrite E.
Qed.

(** ** A simulated client *)

(** The server's side and standard output. *)
Definition simClient : Type := simWorld * list Z.

Definition strip_prefix (p s : string) : option string :=
  if String.prefix p s then Some (String.substring (String.length p) (String.length s) s) else None.

#[export] Instance simClient_Terminal : Terminal simClient := {|
  stdout_Write t x := (Ok tt, (x.1, x.2 ++ t));
  LogConfig_Apply := sret tt;
  GenCompletion _ := sret tt
|}.

Section SimClient.
Context `{!UrlOps} `{!AddrOps} (g : globalParams) (s : apiServer).

Definition sim_answer (r : api_response) : http_response :=
  {| hr_StatusCode := ar_code r; hr_Status := pretty (ar_code r); hr_Body := body_text (ar_body r) |}.

Definition sim_do (req : string * string) : st simClient http_response := fun x =>
  match route req.1 req.2 with
  | Some a => let (o, w) := api_route s a x.1 in (obind o (fun r => Ok (sim_answer r)), (w, x.2))
  | None => (Ok (sim_answer {| ar_code := 404; ar_body := NilBody |}), x)
  end.

#[local] Instance simClient_Http : HttpClient simClient := {|
  request := string * string;
  NewRequest method url := match strip_prefix (endpoint g) url with
                           | Some p => Ok (method, p)
                           | None => Err (errors_New "parse")
                           end;
  URL_Query _ := ∅;
  url_Encode _ := "";
  set_RawQuery _ req := req;
  client_Do := sim_do;
  body_Close _ x := x
|}.

Lemma substring_more n p : (String.length p <= n)%nat -> String.substring 0 n p = p.
Proof.
  revert n. induction p as [|c p IH]; intros [|n] Hn; cbn in *; try done; [lia|]. rewrite IH by lia. done.
Qed.

Lemma strip_prefix_app p q : strip_prefix p (p +:+ q) = Some q.
Proof.
  unfold strip_prefix. assert (Hp : String.prefix p (p +:+ q) = true).
  { assert (E : p +:+ "" = p).
    { rewrite <- (string_of_bytes_of_string (p +:+ "")), bytes_of_string_app.
      cbn [bytes_of_string]. by rewrite app_nil_r, string_of_bytes_of_string. }
    rewrite <- E at 1. rewrite prefix_app. by destruct q. }
  rewrite Hp. f_equal. assert (Hl : forall n, (String.length q <= n)%nat -> String.substring (String.length p) n (p +:+ q) = q).
  { clear Hp. induction p as [|c p IH]; intros n Hn; [by apply substring_more|].
    exact (IH n Hn). }
  apply Hl. rewrite <- !length_bytes_of_string, bytes_of_string_app, length_app. lia.
Qed.

#[local] Instance simClient_laws : ApiClientLaws simClient simWorld g s.
Proof.
  refine {| server x := x.1; shown x := x.2 |}.
  - intros method path _. cbn [NewRequest simClient_Http]. rewrite strip_prefix_app. by eexists.
  - intros method path req a x. cbn [NewRequest simClient_Http]. rewrite strip_prefix_app.
    intros [= <-] Hr. destruct (api_route s a x.1) as [[resp| | |] w'] eqn:Ea; try done.
    eexists _, (w', x.2). split; [|done]. cbn [client_Do simClient_Http set_RawQuery]. unfold sim_do.
    cbn [fst snd]. rewrite Hr, Ea. reflexivity.
  - done.
  - intros x. by exists x.
  - intros t x. by eexists.
Defined.

End SimClient.

(** ** Properties *)

(** C37: node actions from the command line to the machine.  When the endpoint serves a
    cluster whose machines are registered and do what they are told, [node action] with
    [start] of a stopped machine and [stop] and [restart] of a running one succeeds and
    changes the power of the machine of that node and of no other; an action that is not
    one of the three, a wrong number of arguments and an unknown node are errors without
    effect on any machine. *)
Theorem pmctl_controls_nodes {X W : Type} `{!HttpClient X} `{!Terminal X} `{!VM W vm} {RV : ReliableVMs W}
  `{!UrlOps} `{!AddrOps} (g : globalParams) (r : Runtime) (spec : ClusterSpec) (c : cluster)
  {L : ApiClientLaws X W g (newAPIServer _ _ c r)} (nd : NodeSpec) (v : vm) (x : X) :
  registered r spec c -> Forall (fun nd => node_name (nd_Name nd) = true) (cs_Nodes spec) ->
  nd ∈ cs_Nodes spec -> vm_of c nd = Some v -> url_name (nd_Name nd) = true ->
  (vm_on v (server x) = false -> exists x', nodeActionCmd g ["start"; nd_Name nd] x = (Ok tt, x') /\
     powered spec c (nd_Name nd) true (server x) (server x')) /\
  (vm_on v (server x) = true -> exists x', nodeActionCmd g ["stop"; nd_Name nd] x = (Ok tt, x') /\
     powered spec c (nd_Name nd) false (server x) (server x')) /\
  (vm_on v (server x) = true -> exists x', nodeActionCmd g ["restart"; nd_Name nd] x = (Ok tt, x') /\
     powered spec c (nd_Name nd) true (server x) (server x')) /\
  (forall action node, action ∉ ["start"; "stop"; "restart"] \/
       (url_name node = true /\ c_nodeSpecMap c !! node = None) ->
     exists e x', nodeActionCmd g [action; node] x = (Err e, x') /\ server x' = server x) /\
  (forall args, length args <> 2%nat -> exists e, nodeActionCmd g args x = (Err e, x)).
Proof.
  intros Hreg Hn Hin Ev Hu.
  assert (Hact : forall action w', action ∈ ["start"; "stop"; "restart"] ->
    api_route (newAPIServer _ _ c r) (PostAction (nd_Name nd) action) (server x) = (Ok (answer 200), w') ->
    exists x', nodeActionCmd g [action; nd_Name nd] x = (Ok tt, x') /\ server x' = w').
  { intros action w' Ha Ea. destruct (action_ok _ _ _ _ _ Hu Ha Ea) as (x' & Hs & _ & Hok & _).
    exists x'. by split; [apply Hok|]. }
  split_and!.
  - intros Hoff. destruct (start_ok r spec c Hreg Hn nd v _ Hin Ev Hoff) as (w' & E & Hp).
    destruct (Hact "start" w') as (x' & Ex & <-); [set_solver|done|]. by exists x'.
  - intros Hon. destruct (stop_ok r spec c Hreg Hn nd v _ Hin Ev Hon) as (w' & E & Hp).
    destruct (Hact "stop" w') as (x' & Ex & <-); [set_solver|done|]. by exists x'.
  - intros Hon. destruct (restart_ok r spec c Hreg Hn nd v _ Hin Ev Hon) as (w' & E & Hp).
    destruct (Hact "restart" w') as (x' & Ex & <-); [set_solver|done|]. by exists x'.
  - intros action node Hbad. destruct (decide (action ∈ ["start"; "stop"; "restart"])) as [Ha|Ha].
    + destruct Hbad as [?|[Hnode Hno]]; [done|].
      destruct (action_ok node action x (answer 404) (server x) Hnode Ha) as (x' & Hs & _ & _ & Herr).
      { cbn [api_route]. unfold handleNodeAction. cbn [as_cluster]. by rewrite Hno. }
      destruct Herr as [e He]; [done|]. by exists e, x'.
    + destruct (apply_law x) as (x1 & E1 & Hs1 & _). eexists _, x1. split; [|done].
      unfold nodeActionCmd. erewrite accepted_args by done. unfold nodeAction_Run, sbind, slift.
      cbn [arg lookup list_lookup]. unfold nodeAction_valid. by rewrite bool_decide_false.
  - intros args Hl. unfold nodeActionCmd. destruct args as [|a [|b [|d args]]]; try done;
      eexists; apply refused_args; reflexivity.
Qed.

Definition two_server : apiServer := newAPIServer _ _ two_cluster node_runtime.

(** Stopping one of two machines from the command line. *)
Lemma pmctl_controls_nodes_witness :
  let client := simClient_Http default_params two_server in
  exists x' : simClient,
    nodeActionCmd default_params ["stop"; "boot-0"] ((two_world [], []) : simClient) = (Ok tt, x') /\
    vm_on (machine_of node_runtime "boot-0" 1 1) x'.1 = false /\
    vm_on (machine_of node_runtime "boot-1" 0 1) x'.1 = true.
Proof.
  intros client.
  destruct (pmctl_controls_nodes (L := simClient_laws default_params two_server) default_params node_runtime
    two_nodes two_cluster (small_node "boot-0" "fb8f2417") (machine_of node_runtime "boot-0" 1 1)
    (two_world [], []) two_registered) as (_ & Hstop & _).
  - repeat constructor.
  - left.
  - vm_compute. reflexivity.
  - reflexivity.
  - destruct Hstop as (x' & E & Hp); [reflexivity|]. exists x'. split; [exact E|]. split.
    + apply (Hp (small_node "boot-0" "fb8f2417")); [left|vm_compute; reflexivity].
    + rewrite (Hp (small_node "boot-1" "fa8a6e4b")); [reflexivity|right; left|vm_compute; reflexivity].
Defined.

(** C38: what is shown is what the cluster has.  When the endpoint serves a cluster whose
    machines are registered, [node show] prints the JSON of the status the API server has
    for the node, with the power of its machine; [node list] prints the names of the nodes
    of the specification in its order, or with [--json] all statuses; what is printed as
    JSON is read back as the same status, and no machine is touched. *)
Theorem pmctl_shows_nodes {X W : Type} `{!HttpClient X} `{!Terminal X} `{!VM W vm} {RV : ReliableVMs W}
  `{!UrlOps} `{!AddrOps} (g : globalParams) (r : Runtime) (spec : ClusterSpec) (c : cluster)
  {L : ApiClientLaws X W g (newAPIServer _ _ c r)} (nd : NodeSpec) (v : vm) (x : X) :
  registered r spec c -> nd ∈ cs_Nodes spec -> vm_of c nd = Some v -> url_name (nd_Name nd) = true ->
  let s := newAPIServer _ _ c r in
  (forall status w', status_of s nd (server x) = (Ok status, w') -> good status ->
     st_PowerStatus status = (if vm_on v (server x) then "On" else "Off") /\
     json_Decode (json_Encode status) = Ok status /\
     exists x', nodeShowCmd g [nd_Name nd] x = (Ok tt, x') /\ shown x' = shown x ++ json_Encode status /\
       same_power (server x) (server x')) /\
  (forall statuses w', smap (status_of s) (cs_Nodes spec) (server x) = (Ok statuses, w') ->
     good (Some statuses) ->
     (exists x', nodeListCmd g true [] x = (Ok tt, x') /\ same_power (server x) (server x') /\
        shown x' = shown x ++ json_Encode (Some statuses)) /\
     (exists x', nodeListCmd g false [] x = (Ok tt, x') /\ same_power (server x) (server x') /\
        shown x' = shown x ++ concat (map (fun nd => bytes_of_string (nd_Name nd) ++ [10]) (cs_Nodes spec)))).
Proof.
  intros Hreg Hin Ev Hu s. subst s. split.
  - intros status w' Est Hg.
    destruct (status_ok r spec c Hreg nd v (server x) Hin Ev) as (status' & w0 & E' & Hsame & _ & _ & Hp).
    rewrite Est in E'. injection E' as <- <-. split; [done|]. split; [by apply Decode_Marshal|].
    destruct (show_ok (L := L) (nd_Name nd) x status w' Hu Hg) as (x' & Ex & Hs & Hw).
    { cbn [api_route]. unfold handleNode. cbn [as_cluster].
      destruct (proj2 Hreg nd Hin) as (Es & _ & _). rewrite Es. unfold status_of in Est. cbn in Est.
      unfold sbind. cbn. by rewrite Est. }
    exists x'. split_and!; [done..|]. by rewrite Hs.
  - intros statuses w' Est Hg.
    destruct (statuses_ok r spec c Hreg (cs_Nodes spec) (server x)) as (sts & w0 & E' & Hsame & HF); [done|].
    rewrite Est in E'. injection E' as <- <-.
    assert (Ea : api_route (newAPIServer _ _ c r) GetNodes (server x) =
      (Ok {| ar_code := 200; ar_body := NodesBody statuses |}, w')).
    { cbn [api_route]. unfold handleNodes. cbn [as_cluster]. rewrite (proj1 Hreg). unfold sbind. by rewrite Est. }
    destruct (list_nodes_ok (L := L) true x statuses w' Hg Ea) as (x1 & E1 & Hs1 & Hw1).
    destruct (list_nodes_ok (L := L) false x statuses w' Hg Ea) as (x2 & E2 & Hs2 & Hw2).
    split; [exists x1|exists x2]; (split; [done|]); (split; [by rewrite ?Hs1, ?Hs2|]); [done|].
    rewrite Hw2. do 2 f_equal. clear -HF.
    induction HF as [|nd st nds sts [Hn _] _ IH]; [done|]. cbn [map]. by rewrite IH, Hn.
Qed.

Definition small_status (name sn tap : string) : NodeStatus :=
  {| st_Name := name; st_Taps := Some {["r0-node1" := tap]}; st_Volumes := Some []; st_CPU := 0;
     st_Memory := "2G"; st_UEFI := false; st_TPM := false;
     st_SMBIOS := {| ss_Manufacturer := ""; ss_Product := ""; ss_Serial := sn |};
     st_PowerStatus := "On"; st_SocketPath := "/run/" +:+ name +:+ ".socket" |}.

Lemma small_good : good (Some [small_status "boot-0" "fb8f2417" "pm_tap02000000";
                               small_status "boot-1" "fa8a6e4b" "pm_tap00000000"]).
Proof.
  repeat (apply Forall_cons_2; [split_and!; try done; [apply map_Forall_singleton; done|constructor]|]).
  constructor.
Qed.

(** Both nodes are listed, and the first is shown. *)
Lemma pmctl_shows_nodes_witness :
  let client := simClient_Http default_params two_server in
  (exists x' : simClient, nodeListCmd default_params false [] ((two_world [], []) : simClient) = (Ok tt, x') /\
     x'.2 = bytes_of_string "boot-0" ++ [10] ++ bytes_of_string "boot-1" ++ [10]) /\
  (exists x' : simClient, nodeShowCmd default_params ["boot-0"] ((two_world [], []) : simClient) = (Ok tt, x') /\
     json_Decode x'.2 = Ok (small_status "boot-0" "fb8f2417" "pm_tap02000000")).
Proof.
  intros client.
  destruct (pmctl_shows_nodes (L := simClient_laws default_params two_server) default_params node_runtime
    two_nodes two_cluster (small_node "boot-0" "fb8f2417") (machine_of node_runtime "boot-0" 1 1)
    (two_world [], []) two_registered) as (Hshow & Hlist).
  - left.
  - vm_compute. reflexivity.
  - reflexivity.
  - pose proof small_good as Hg. split.
    + destruct (smap (status_of (newAPIServer _ _ two_cluster node_runtime)) (cs_Nodes two_nodes)
        (server (ApiClientLaws := simClient_laws default_params two_server) ((two_world [], []) : simClient)))
        as [o w'] eqn:E.
      assert (Eo : o = Ok [small_status "boot-0" "fb8f2417" "pm_tap02000000";
                           small_status "boot-1" "fa8a6e4b" "pm_tap00000000"]).
      { transitivity (o, w').1; [reflexivity|]. rewrite <- E. vm_compute. reflexivity. }
      rewrite Eo in E. destruct (Hlist _ w' E Hg) as [_ (x' & El & _ & Hs)].
      exists x'. split; [exact El|]. exact Hs.
    + destruct (status_of (newAPIServer _ _ two_cluster node_runtime) (small_node "boot-0" "fb8f2417")
        (server (ApiClientLaws := simClient_laws default_params two_server) ((two_world [], []) : simClient)))
        as [o w'] eqn:E.
      assert (Eo : o = Ok (small_status "boot-0" "fb8f2417" "pm_tap02000000")).
      { transitivity (o, w').1; [reflexivity|]. rewrite <- E. vm_compute. reflexivity. }
      rewrite Eo in E. apply Forall_cons in Hg as [Hg _].
      destruct (Hshow _ w' E Hg) as (_ & Hd & x' & Ex & Hs & _). exists x'. split; [exact Ex|].
      change (shown _) with x'.2 in Hs at 1. rewrite Hs. exact Hd.
Defined.
