(* ===== verification/Enter.v ===== *)
(** * node enter (cmd/pmctl2/cmd/node_enter.go)

    Three goroutines connect the terminal to the serial console of a machine: one asks the
    API for the socket, one runs socat between the socket and a pseudo terminal, one runs
    picocom on the pseudo terminal.  They hand over values on unbuffered channels and share
    a context, which is cancelled by the first error and by a signal.  The interleavings are
    a step relation on the positions of the goroutines; what the API and [os.Stat] answer
    is a parameter. *)

From S2P Require Import Prelude GoBinary GoCrypto GoPath GoStrings Json Marshal Host Command Netlink Types.
From S2P Require Import Files Dcnet World Cache Volume Qemu Tap Machine Qmp Bmc Node Netns Cluster Api Status.
From S2P Require Import Lifecycle Machines.

Local Open Scope Z_scope.
Local Open Scope go_scope.

Definition ptyPath (host : string) : string := Join ["/tmp"; "placemat_" +:+ host].

Definition enter_Args (args : list string) : outcome unit :=
  match length args with
  | O => Err (errors_New "node name not specified")
  | S O => Ok tt
  | _ => Err (errors_New "too many arguments")
  end.

Definition context_Canceled : error := errors_New "context canceled".
Definition errSignaled : error := errors_New "signaled".

Definition dquote : string := String (Ascii.ascii_of_nat 34) EmptyString.
Definition cannot_connect (node : string) : error :=
  errors_New ("unable to connect to " +:+ dquote +:+ node +:+ dquote).

(** ** Positions of the goroutines *)

Inductive asker : Type :=
| Asking                            (** in [getJSON] *)
| SendingSock (sock : string)       (** at [sockCh <- sock] *)
| AskerDone.

Inductive connector : Type :=
| WaitingSock                       (** in the first [select] *)
| Statting (sock : string)
| SendingPty (sock : string)        (** at [ptyCh <- pty], with [defer os.Remove(pty)] *)
| StartingSocat (sock : string)
| RunningSocat (sock : string)
| ConnectorDone.

Inductive viewer : Type :=
| WaitingPty                        (** in the second [select] *)
| Sleeping (pty : string)
| RunningPicocom (pty : string)
| ViewerDone.

Record session : Type := {
  e_asker : asker;
  e_connector : connector;
  e_viewer : viewer;
  (** the error the context was cancelled with *)
  e_ctx : option error;
  (** the commands started so far *)
  e_started : list (list string);
  (** whether the pseudo terminal may exist *)
  e_pty : bool
}.

Definition enter_start : session :=
  {| e_asker := Asking; e_connector := WaitingSock; e_viewer := WaitingPty; e_ctx := None;
     e_started := []; e_pty := false |}.

Definition socat_command (sock pty : string) : list string :=
  ["socat"; "UNIX-CONNECT:" +:+ sock; "PTY,link=" +:+ pty].
Definition picocom_command (pty : string) : list string := ["picocom"; "-e"; "q"; pty].

(** A goroutine that returns an error cancels the context, the first one wins. *)
Definition cancelled (ctx : option error) (e : error) : option error :=
  match ctx with Some e' => Some e' | None => Some e end.

Definition returned (ctx : option error) (r : option error) : option error :=
  match r with Some e => cancelled ctx e | None => ctx end.

(** ** Steps *)

Section Steps.
Context (node : string) (answer : NodeStatus + error) (stat : string -> stat_result).

(** [os.IsNotExist(err)] of [os.Stat(sock)] *)
Definition missing (sock : string) : bool := match stat sock with NotExist => true | _ => false end.

Inductive enter_step : session -> session -> Prop :=
(** [getJSON] returns the status, or an error: its own or that of the context. *)
| ask_ok status g2 g3 ctx cs p : answer = inl status ->
    enter_step {| e_asker := Asking; e_connector := g2; e_viewer := g3; e_ctx := ctx; e_started := cs; e_pty := p |}
      {| e_asker := SendingSock (st_SocketPath status); e_connector := g2; e_viewer := g3; e_ctx := ctx;
         e_started := cs; e_pty := p |}
| ask_err e g2 g3 ctx cs p : answer = inr e \/ is_Some ctx ->
    enter_step {| e_asker := Asking; e_connector := g2; e_viewer := g3; e_ctx := ctx; e_started := cs; e_pty := p |}
      {| e_asker := AskerDone; e_connector := g2; e_viewer := g3; e_ctx := cancelled ctx e;
         e_started := cs; e_pty := p |}
(** A value passes an unbuffered channel when both sides are there. *)
| pass_sock sock g3 ctx cs p :
    enter_step {| e_asker := SendingSock sock; e_connector := WaitingSock; e_viewer := g3; e_ctx := ctx;
         e_started := cs; e_pty := p |}
      {| e_asker := AskerDone; e_connector := Statting sock; e_viewer := g3; e_ctx := ctx;
         e_started := cs; e_pty := p |}
(** [case <-ctx.Done()] *)
| connector_cancelled g1 g3 e cs p :
    enter_step {| e_asker := g1; e_connector := WaitingSock; e_viewer := g3; e_ctx := Some e;
         e_started := cs; e_pty := p |}
      {| e_asker := g1; e_connector := ConnectorDone; e_viewer := g3; e_ctx := Some e;
         e_started := cs; e_pty := p |}
| stat_missing sock g1 g3 ctx cs p : missing sock = true ->
    enter_step {| e_asker := g1; e_connector := Statting sock; e_viewer := g3; e_ctx := ctx;
         e_started := cs; e_pty := p |}
      {| e_asker := g1; e_connector := ConnectorDone; e_viewer := g3;
         e_ctx := cancelled ctx (cannot_connect node); e_started := cs; e_pty := p |}
| stat_there sock g1 g3 ctx cs p : missing sock = false ->
    enter_step {| e_asker := g1; e_connector := Statting sock; e_viewer := g3; e_ctx := ctx;
         e_started := cs; e_pty := p |}
      {| e_asker := g1; e_connector := SendingPty sock; e_viewer := g3; e_ctx := ctx;
         e_started := cs; e_pty := p |}
| pass_pty sock g1 ctx cs p :
    enter_step {| e_asker := g1; e_connector := SendingPty sock; e_viewer := WaitingPty; e_ctx := ctx;
         e_started := cs; e_pty := p |}
      {| e_asker := g1; e_connector := StartingSocat sock; e_viewer := Sleeping (ptyPath node); e_ctx := ctx;
         e_started := cs; e_pty := p |}
(** A command is not started under a cancelled context. *)
| socat_refused sock g1 g3 e cs p :
    enter_step {| e_asker := g1; e_connector := StartingSocat sock; e_viewer := g3; e_ctx := Some e;
         e_started := cs; e_pty := p |}
      {| e_asker := g1; e_connector := ConnectorDone; e_viewer := g3; e_ctx := Some e;
         e_started := cs; e_pty := false |}
| socat_started sock g1 g3 cs p :
    enter_step {| e_asker := g1; e_connector := StartingSocat sock; e_viewer := g3; e_ctx := None;
         e_started := cs; e_pty := p |}
      {| e_asker := g1; e_connector := RunningSocat sock; e_viewer := g3; e_ctx := None;
         e_started := cs ++ [socat_command sock (ptyPath node)]; e_pty := true |}
(** socat ends, by itself or killed by the context; then [os.Remove(pty)]. *)
| socat_ends sock g1 g3 ctx cs p r :
    enter_step {| e_asker := g1; e_connector := RunningSocat sock; e_viewer := g3; e_ctx := ctx;
         e_started := cs; e_pty := p |}
      {| e_asker := g1; e_connector := ConnectorDone; e_viewer := g3; e_ctx := returned ctx r;
         e_started := cs; e_pty := false |}
| viewer_cancelled g1 g2 e cs p :
    enter_step {| e_asker := g1; e_connector := g2; e_viewer := WaitingPty; e_ctx := Some e;
         e_started := cs; e_pty := p |}
      {| e_asker := g1; e_connector := g2; e_viewer := ViewerDone; e_ctx := Some e;
         e_started := cs; e_pty := p |}
(** After a second. *)
| picocom_refused pty g1 g2 e cs p :
    enter_step {| e_asker := g1; e_connector := g2; e_viewer := Sleeping pty; e_ctx := Some e;
         e_started := cs; e_pty := p |}
      {| e_asker := g1; e_connector := g2; e_viewer := ViewerDone; e_ctx := Some e;
         e_started := cs; e_pty := p |}
| picocom_started pty g1 g2 cs p :
    enter_step {| e_asker := g1; e_connector := g2; e_viewer := Sleeping pty; e_ctx := None;
         e_started := cs; e_pty := p |}
      {| e_asker := g1; e_connector := g2; e_viewer := RunningPicocom pty; e_ctx := None;
         e_started := cs ++ [picocom_command pty]; e_pty := p |}
(** picocom ends: with its error, or [context.Canceled]. *)
| picocom_ends pty g1 g2 ctx cs p r :
    enter_step {| e_asker := g1; e_connector := g2; e_viewer := RunningPicocom pty; e_ctx := ctx;
         e_started := cs; e_pty := p |}
      {| e_asker := g1; e_connector := g2; e_viewer := ViewerDone; e_ctx := cancelled ctx (default context_Canceled r);
         e_started := cs; e_pty := p |}.

(** A signal cancels the context. *)
Definition signal (s : session) : session :=
  {| e_asker := e_asker s; e_connector := e_connector s; e_viewer := e_viewer s;
     e_ctx := cancelled (e_ctx s) errSignaled; e_started := e_started s; e_pty := e_pty s |}.

(** Runs with signals at any time. *)
Inductive enter_run : session -> session -> Prop :=
| run_refl s : enter_run s s
| run_step s1 s2 s3 : enter_run s1 s2 -> enter_step s2 s3 -> enter_run s1 s3
| run_signal s1 s2 : enter_run s1 s2 -> enter_run s1 (signal s2).

(** [well.Wait()] returns when all goroutines have: the error of the context. *)
Definition finished (s : session) : Prop :=
  e_asker s = AskerDone /\ e_connector s = ConnectorDone /\ e_viewer s = ViewerDone.

(** Every run from [s] without signals reaches a finished state where [P] holds. *)
Inductive ends (P : session -> Prop) (s : session) : Prop :=
| ends_now : finished s -> P s -> ends P s
| ends_later : (exists s', enter_step s s') -> (forall s', enter_step s s' -> ends P s') -> ends P s.

End Steps.

(** ** Invariants *)

Section Lemmas.
Context (node : string) (answer : NodeStatus + error) (stat : string -> stat_result).

#[local] Abbreviation step := (enter_step node answer stat).
#[local] Abbreviation run := (enter_run node answer stat).

Definition asker_left (g : asker) : nat :=
  match g with Asking => 2 | SendingSock _ => 1 | AskerDone => 0 end.
Definition connector_left (g : connector) : nat :=
  match g with
  | WaitingSock => 5 | Statting _ => 4 | SendingPty _ => 3 | StartingSocat _ => 2 | RunningSocat _ => 1
  | ConnectorDone => 0
  end.
Definition viewer_left (g : viewer) : nat :=
  match g with WaitingPty => 3 | Sleeping _ => 2 | RunningPicocom _ => 1 | ViewerDone => 0 end.

(** Goroutines only move on. *)
Definition left_to_do (s : session) : nat :=
  asker_left (e_asker s) + connector_left (e_connector s) + viewer_left (e_viewer s).

Lemma step_decreases s s' : step s s' -> (left_to_do s' < left_to_do s)%nat.
Proof. destruct 1; unfold left_to_do; cbn [e_asker e_connector e_viewer asker_left connector_left viewer_left]; lia. Qed.

(** Where the goroutines are together when there was no signal: a sender has a receiver. *)
Definition together (s : session) : Prop :=
  match e_asker s, e_connector s, e_viewer s, e_ctx s with
  | Asking, WaitingSock, WaitingPty, None
  | SendingSock _, WaitingSock, WaitingPty, None
  | AskerDone, (Statting _ | SendingPty _), WaitingPty, None
  | AskerDone, (StartingSocat _ | RunningSocat _), (Sleeping _ | RunningPicocom _), None
  | AskerDone, (StartingSocat _ | RunningSocat _ | WaitingSock), ViewerDone, Some _
  | AskerDone, (WaitingSock | ConnectorDone), WaitingPty, Some _
  | AskerDone, ConnectorDone, (Sleeping _ | RunningPicocom _), _
  | AskerDone, ConnectorDone, ViewerDone, Some _ => True
  | _, _, _, _ => False
  end.

Lemma together_step s s' : together s -> step s s' -> together s'.
Proof.
  intros Ht Hs. destruct Hs; unfold together, returned, cancelled in *;
    cbn [e_asker e_connector e_viewer e_ctx] in *; repeat case_match; by simplify_eq.
Qed.

Lemma together_progress s : together s -> finished s \/ exists s', step s s'.
Proof.
  destruct s as [g1 g2 g3 ctx cs p]. unfold together, finished. cbn.
  destruct g1 as [|sock|].
  - intros Ht. right. destruct answer as [status|e] eqn:Ea; eexists; [by eapply ask_ok|].
    apply ask_err. by left.
  - destruct g2, g3, ctx; try done. intros _. right. eexists. apply pass_sock.
  - destruct g2 as [|sock|sock|sock|sock|]; intros Ht.
    + destruct ctx; [|by destruct g3]. right. eexists. apply connector_cancelled.
    + right. destruct (missing stat sock) eqn:Em; eexists; [by apply stat_missing|by apply stat_there].
    + destruct g3, ctx; try done. right. eexists. apply pass_pty.
    + right. destruct ctx; eexists; [apply socat_refused|apply socat_started].
    + right. eexists. apply (socat_ends _ _ _ _ _ _ _ _ _ None).
    + destruct g3 as [|pty|pty|]; [right|right|right|by left].
      * destruct ctx; [|done]. eexists. apply viewer_cancelled.
      * destruct ctx; eexists; [apply picocom_refused|apply picocom_started].
      * eexists. apply (picocom_ends _ _ _ _ _ _ _ _ _ None).
Qed.

(** What is true at any time, with signals too: which commands run, and what is cleaned up. *)
Definition right_sock (sock : string) : Prop := exists status, answer = inl status /\ sock = st_SocketPath status.

Definition right_command (c : list string) : Prop :=
  c = picocom_command (ptyPath node) \/
  exists sock, right_sock sock /\ missing stat sock = false /\ c = socat_command sock (ptyPath node).

Definition orderly (s : session) : Prop :=
  match e_asker s with SendingSock sock => right_sock sock | _ => True end /\
  match e_connector s with
  | Statting sock => right_sock sock
  | SendingPty sock | StartingSocat sock | RunningSocat sock => right_sock sock /\ missing stat sock = false
  | _ => True
  end /\
  match e_viewer s with
  | Sleeping pty | RunningPicocom pty => pty = ptyPath node
  | ViewerDone => is_Some (e_ctx s)
  | _ => True
  end /\
  (e_pty s = true -> exists sock, e_connector s = RunningSocat sock) /\
  Forall right_command (e_started s).

Lemma cancelled_Some ctx e : is_Some (cancelled ctx e).
Proof. by destruct ctx; eexists. Qed.

Lemma returned_keeps ctx r : is_Some ctx -> is_Some (returned ctx r).
Proof. intros [e ->]. destruct r; by eexists. Qed.

Lemma no_pty {p : bool} {g : connector} :
  (p = true -> exists sock, g = RunningSocat sock) -> (forall sock, g <> RunningSocat sock) -> p = false.
Proof. intros H Hg. destruct p; [|done]. destruct H as [sock E]; [done|]. by destruct (Hg sock). Qed.

Lemma orderly_step s s' : orderly s -> step s s' -> orderly s'.
Proof.
  intros (H1 & H2 & H3 & H4 & H5) Hs. destruct Hs; unfold orderly in *;
    cbn [e_asker e_connector e_viewer e_ctx e_started e_pty] in *;
    try match type of H2 with _ /\ _ => destruct H2 as [H2 Hm] end; split_and!;
    try done; try (by destruct H4); try apply cancelled_Some; try by eexists.
  all: try (intros Hp; destruct (H4 Hp) as [? ?]; done).
  all: try (case_match; try done; try apply cancelled_Some; by apply returned_keeps).
  - apply Forall_app. split; [done|]. apply Forall_singleton. right. by eexists.
  - subst. apply Forall_app. split; [done|]. apply Forall_singleton. by left.
Qed.

Lemma orderly_start : orderly enter_start.
Proof. by split_and!. Qed.

Lemma orderly_run s s' : orderly s -> run s s' -> orderly s'.
Proof.
  intros Hs Hr. induction Hr as [s|s s1 s2 _ IH Hst|s s1 _ IH]; [done|by eapply orderly_step; [apply IH|]|].
  destruct (IH Hs) as (H1 & H2 & H3 & H4 & H5). split_and!; try done.
  cbn. destruct (e_viewer s1); try done. apply cancelled_Some.
Qed.

(** A run without signals ends. *)
Lemma ends_together P s :
  together s -> orderly s -> (forall s', finished s' -> orderly s' -> P s') ->
  ends node answer stat P s.
Proof.
  intros Ht Ho HP. remember (left_to_do s) as n eqn:En. revert s En Ht Ho.
  induction (lt_wf n) as [n _ IH]. intros s -> Ht Ho.
  destruct (together_progress s Ht) as [Hf|[s' Hs]].
  - apply ends_now; [done|]. by apply HP.
  - apply ends_later; [by exists s'|]. intros s2 Hs2.
    apply (IH (left_to_do s2)); [by apply step_decreases|done|by eapply together_step|by eapply orderly_step].
Qed.

End Lemmas.

(** ** With the API server *)

(** The socket in a status is the console of the node, and there is none with a graphical
    console. *)
Lemma status_socket {W : Type} `{!Host W} `{!HostFiles W} `{!Procs W} `{!Monitors W} `{!UrlOps} `{!AddrOps}
  (r : Runtime) (spec : ClusterSpec) (c : cluster) (nd : NodeSpec) (w w' : W) status :
  registered r spec c -> nd ∈ cs_Nodes spec ->
  status_of (newAPIServer _ _ c r) nd w = (Ok status, w') ->
  st_SocketPath status = if Graphic r then "" else socketPath r (nd_Name nd).
Proof.
  intros Hreg Hin. destruct (proj2 Hreg nd Hin) as (_ & (n & En & _) & cmd & conn & Ev).
  unfold status_of, newNodeStatus. cbn [as_cluster as_runtime]. rewrite Ev, En. unfold not_nil.
  intros E. apply sbind_ok in E as (v & w1 & [= <- <-] & E). apply sbind_ok in E as (ps & w2 & _ & E).
  apply sbind_ok in E as (n' & w3 & [= <- <-] & [= <- _]). done.
Qed.

(** A session on a node of a cluster runs nothing but socat between the console of that
    node and its pseudo terminal, and picocom, signals or not. *)
Theorem enter_reaches_node {W : Type} `{!Host W} `{!HostFiles W} `{!Procs W} `{!Monitors W} `{!UrlOps} `{!AddrOps}
  (r : Runtime) (spec : ClusterSpec) (c : cluster) (nd : NodeSpec) (w w' : W) status stat s :
  registered r spec c -> nd ∈ cs_Nodes spec -> Graphic r = false ->
  status_of (newAPIServer _ _ c r) nd w = (Ok status, w') ->
  enter_run (nd_Name nd) (inl status) stat enter_start s ->
  Forall (fun cmd => cmd = picocom_command (ptyPath (nd_Name nd)) \/
    cmd = socat_command (socketPath r (nd_Name nd)) (ptyPath (nd_Name nd))) (e_started s).
Proof.
  intros Hreg Hin Hg Es Hr. pose proof (status_socket _ _ _ _ _ _ _ Hreg Hin Es) as Hs. rewrite Hg in Hs.
  destruct (orderly_run _ _ _ _ _ (orderly_start _ _ _) Hr) as (_ & _ & _ & _ & Hc).
  eapply Forall_impl; [exact Hc|]. intros cmd [->|(sock & (status' & [= <-] & ->) & _ & ->)]; [by left|].
  right. by rewrite Hs.
Qed.

(** ** Properties *)

(** C39: a session ends and cleans up.  Whatever the API and the file system answer, every
    interleaving of the three goroutines without signals comes to its end, given that socat
    and picocom end: no goroutine waits for ever on a channel.  When all have returned, the
    pseudo terminal was removed, the only commands that ran are socat on the socket the API
    named, which exists, and picocom on the pseudo terminal of the node, and the command
    reports an error, after a normal end of picocom too. *)
Theorem enter_terminates (node : string) (answer : NodeStatus + error) (stat : string -> stat_result) :
  ends node answer stat (fun s =>
    e_pty s = false /\ Forall (right_command node answer stat) (e_started s) /\ is_Some (e_ctx s))
    enter_start.
Proof.
  apply ends_together; [done|apply orderly_start|].
  intros s (Hf1 & Hf2 & Hf3) (_ & _ & Hv & Hp & Hc). rewrite Hf3 in Hv. split_and!; [|done|done].
  apply (no_pty Hp). intros sock. by rewrite Hf2.
Qed.

(** C40: a signal can hang the command.  Whatever the API answers, if it answers with a
    status, a signal that arrives after the answer and before the socket is handed over can
    leave a state the run never leaves: the first goroutine waits to send on a channel
    nobody will receive from, so [well.Wait] does not return, and further signals change
    nothing. *)
Theorem enter_hangs (node : string) (answer : NodeStatus + error) (stat : string -> stat_result)
  (status : NodeStatus) :
  answer = inl status ->
  exists s, enter_run node answer stat enter_start s /\ ~ finished s /\
    forall s', enter_run node answer stat s s' -> s' = s.
Proof.
  intros Ha. set (s := {| e_asker := SendingSock (st_SocketPath status); e_connector := ConnectorDone;
    e_viewer := ViewerDone; e_ctx := Some errSignaled; e_started := []; e_pty := false |}).
  exists s. split_and!.
  - eapply run_step; [|apply viewer_cancelled]. eapply run_step; [|apply connector_cancelled].
    exact (run_signal _ _ _ _ _ (run_step _ _ _ _ _ _ (run_refl _ _ _ _) (ask_ok _ _ _ _ _ _ _ _ _ Ha))).
  - intros [H _]. discriminate.
  - intros s' Hr. remember s as s0 eqn:E0. induction Hr as [s0|s0 s1 s2 _ IH Hs|s0 s1 _ IH]; [done|..].
    + rewrite (IH E0), E0 in Hs. subst s. inversion Hs.
    + rewrite (IH E0), E0. reflexivity.
Qed.

Definition demo_status : NodeStatus :=
  {| st_Name := "boot-0"; st_Taps := None; st_Volumes := None; st_CPU := 0; st_Memory := ""; st_UEFI := false;
     st_TPM := false; st_SMBIOS := {| ss_Manufacturer := ""; ss_Product := ""; ss_Serial := "" |};
     st_PowerStatus := "On"; st_SocketPath := "/run/boot-0.socket" |}.

Lemma enter_hangs_witness :
  exists s, enter_run "boot-0" (inl demo_status) (fun _ => Exists false) enter_start s /\ ~ finished s.
Proof.
  destruct (enter_hangs "boot-0" (inl demo_status) (fun _ => Exists false) demo_status eq_refl) as (s & H1 & H2 & _).
  exists s. split; [exact H1|exact H2].
Defined.
