(* ===== verification/ColoredLog.v ===== *)
(** * The coloured log writer (util/colored_log.go)

    The output of a process is cut into lines, and each line is printed in the colour
    of the process with a prefix.  An incomplete line is kept for the next write.  The
    package color is third-party: printing a line in a colour is the interface
    [ColorPrinter]. *)

From S2P Require Import Prelude GoBinary GoPath.

Local Open Scope Z_scope.
Local Open Scope go_scope.

(** ** Colours *)

Inductive Attribute : Type := FgRed | FgGreen | FgYellow | FgBlue | FgMagenta | FgCyan.

#[export] Instance Attribute_eq_dec : EqDecision Attribute.
Proof. solve_decision. Defined.

Definition colors : list Attribute := [FgRed; FgGreen; FgYellow; FgBlue; FgMagenta; FgCyan].

(** [fnv.New32a]: FNV-1a on 32 bits. *)
Definition fnv_offset : Z := 2166136261.
Definition fnv_prime : Z := 16777619.
Definition fnv32a (data : list Z) : Z :=
  fold_left (fun h b => u32 (Z.lxor h b * fnv_prime)) data fnv_offset.

Example fnv_a : fnv32a [97] = 0xe40c292c. Proof. reflexivity. Qed.
Example fnv_foobar : fnv32a (bytes_of_string "foobar") = 0xbf9cf968. Proof. reflexivity. Qed.

Definition chooseColor (data : string) : outcome Attribute :=
  let num := Z.to_nat (fnv32a (bytes_of_string data) mod Z.of_nat (length colors)) in
  match colors !! num with
  | Some c => Ok c
  | None => Panic IndexOutOfRange
  end.

(** ** The writer *)

(** [color.New(c).Fprintln(w, s)] *)
Class ColorPrinter (W : Type) : Type := { color_Fprintln : Attribute -> list Z -> st W unit }.

Record coloredLogWriter : Type := {
  lw_prefix : list Z;
  lw_color : Attribute;
  lw_prev : list Z
}.

Definition NewColoredLogWriter (kind name : string) : outcome coloredLogWriter :=
  let! c := chooseColor name in
  Ok {| lw_prefix := bytes_of_string ("[" +:+ kind +:+ "] " +:+ name +:+ " - ");
        lw_color := c; lw_prev := [] |}.

(** [strings.Replace(s, "\r\n", "\n", -1)] *)
Fixpoint replace_crlf (l : list Z) : list Z :=
  match l with
  | [] => []
  | b :: l' =>
      if (b =? 13) && bool_decide (head l' = Some 10) then replace_crlf l' else b :: replace_crlf l'
  end.

(** [strings.Split(s, "\n")]: the complete lines, and what follows the last one. *)
Fixpoint split_lines (acc : list Z) (l : list Z) : list (list Z) * list Z :=
  match l with
  | [] => ([], acc)
  | b :: l' =>
      if b =? 10
      then let (ls, rest) := split_lines [] l' in (acc :: ls, rest)
      else split_lines (acc ++ [b]) l'
  end.

Definition set_prev (w : coloredLogWriter) (prev : list Z) : coloredLogWriter :=
  {| lw_prefix := lw_prefix w; lw_color := lw_color w; lw_prev := prev |}.

Section Write.
Context {W : Type} `{!ColorPrinter W}.

(** The count is that of the bytes received, whatever happens. *)
Definition log_Write (p : list Z) : st (W * coloredLogWriter) Z :=
  fun s =>
  let input := lw_prev s.2 ++ replace_crlf p in
  let (inputs, prev) := split_lines [] input in
  (on_host (sfor inputs (fun l => color_Fprintln (lw_color s.2) (lw_prefix s.2 ++ l))) >>>
   sret (Z.of_nat (length p))) (s.1, set_prev s.2 prev).

(** A sequence of writes, stopping at an error. *)
Fixpoint log_writes (ps : list (list Z)) : st (W * coloredLogWriter) unit :=
  match ps with
  | [] => sret tt
  | p :: ps' => log_Write p >>> log_writes ps'
  end.

End Write.

(** ** Lemmas *)

(** A printer that prints. *)
Class PrinterLaws (W : Type) `{!ColorPrinter W} : Type := {
  printed : W -> list (Attribute * list Z);
  Fprintln_law : forall c l w, exists w', color_Fprintln c l w = (Ok tt, w') /\
    printed w' = printed w ++ [(c, l)]
}.

(** There is a colour for every name. *)
Lemma chooseColor_ok data : exists c, chooseColor data = Ok c /\ c ∈ colors.
Proof.
  unfold chooseColor. set (num := Z.to_nat _).
  destruct (lookup_lt_is_Some_2 colors num) as [c Hc].
  { unfold num. pose proof (Z.mod_pos_bound (fnv32a (bytes_of_string data)) 6 eq_refl). cbn. lia. }
  rewrite Hc. exists c. split; [done|]. by eapply list_elem_of_lookup_2.
Qed.

Lemma split_lines_app acc a b :
  split_lines acc (a ++ b) =
  ((split_lines acc a).1 ++ (split_lines (split_lines acc a).2 b).1,
   (split_lines (split_lines acc a).2 b).2).
Proof.
  revert acc. induction a as [|x a IH]; intros acc; cbn [app split_lines fst snd].
  - by destruct (split_lines acc b).
  - destruct (x =? 10); [|apply IH]. rewrite IH. by destruct (split_lines [] a).
Qed.

(** Lines and rest are the text again, and hold no line feed. *)
Lemma split_lines_text acc l :
  flat_map (fun x => x ++ [10]) (split_lines acc l).1 ++ (split_lines acc l).2 = acc ++ l.
Proof.
  revert acc. induction l as [|b l IH]; intros acc; cbn [split_lines]; [by rewrite app_nil_r|].
  destruct (Z.eqb_spec b 10) as [->|Hb].
  - specialize (IH []). destruct (split_lines [] l) as [ls rest]. cbn in IH |- *.
    by rewrite <- !app_assoc, IH.
  - by rewrite IH, <- app_assoc.
Qed.

Lemma split_lines_free acc l :
  10 ∉ acc -> Forall (fun x => 10 ∉ x) ((split_lines acc l).2 :: (split_lines acc l).1).
Proof.
  revert acc. induction l as [|b l IH]; intros acc Ha; cbn [split_lines]; [by repeat constructor|].
  destruct (Z.eqb_spec b 10) as [->|Hb].
  - specialize (IH [] (not_elem_of_nil 10)). destruct (split_lines [] l) as [ls rest]. cbn in *.
    apply Forall_cons in IH as [H1 H2]. by repeat constructor.
  - apply IH. rewrite elem_of_app, list_elem_of_singleton. intros [H|H]; [done|congruence].
Qed.

Lemma split_lines_skip acc l r : 10 ∉ l -> split_lines acc (l ++ r) = split_lines (acc ++ l) r.
Proof.
  revert acc. induction l as [|b l IH]; intros acc Hl; cbn [app split_lines]; [by rewrite app_nil_r|].
  apply not_elem_of_cons in Hl as [H1 H2]. destruct (Z.eqb_spec b 10); [congruence|].
  by rewrite (IH _ H2), <- app_assoc.
Qed.

Lemma replace_crlf_skip l r : 13 ∉ l -> replace_crlf (l ++ r) = l ++ replace_crlf r.
Proof.
  induction l as [|b l IH]; intros Hl; [done|]. apply not_elem_of_cons in Hl as [H1 H2]. cbn.
  destruct (Z.eqb_spec b 13); [congruence|]. cbn. by rewrite IH.
Qed.

Lemma replace_crlf_app a b :
  last a <> Some 13 -> replace_crlf (a ++ b) = replace_crlf a ++ replace_crlf b.
Proof.
  induction a as [|x a IH]; intros Hl; [done|]. destruct a as [|y a].
  - cbn in Hl |- *. destruct (Z.eqb_spec x 13) as [->|Hx]; [done|]. done.
  - change (last (x :: y :: a)) with (last (y :: a)) in Hl. specialize (IH Hl).
    cbn [app replace_crlf head] in IH |- *. rewrite IH. by destruct ((x =? 13) && _).
Qed.

Section WriteLemmas.
Context {W : Type} `{!ColorPrinter W} {L : PrinterLaws W}.

Lemma print_lines c pre ls (w : W) :
  exists w', sfor ls (fun l => color_Fprintln c (pre ++ l)) w = (Ok tt, w') /\
    printed w' = printed w ++ map (fun l => (c, pre ++ l)) ls.
Proof.
  revert w. induction ls as [|l ls IH]; intros w; cbn [sfor map].
  - exists w. by rewrite app_nil_r.
  - destruct (Fprintln_law c (pre ++ l) w) as (w1 & E1 & H1). destruct (IH w1) as (w2 & E2 & H2).
    exists w2. unfold sbind. rewrite E1, E2. by rewrite H2, H1, <- app_assoc.
Qed.

Lemma log_Write_ok p (w : W) lw :
  let (ls, rest) := split_lines (lw_prev lw) (replace_crlf p) in
  10 ∉ lw_prev lw ->
  exists w', log_Write p (w, lw) = (Ok (Z.of_nat (length p)), (w', set_prev lw rest)) /\
    printed w' = printed w ++ map (fun l => (lw_color lw, lw_prefix lw ++ l)) ls.
Proof.
  destruct (split_lines (lw_prev lw) (replace_crlf p)) as [ls rest] eqn:E. intros Hp.
  assert (Es : split_lines [] (lw_prev lw ++ replace_crlf p) = (ls, rest)).
  { by rewrite split_lines_skip. }
  unfold log_Write. cbn [fst snd]. rewrite Es.
  destruct (print_lines (lw_color lw) (lw_prefix lw) ls w) as (w' & E1 & H1). exists w'.
  unfold sbind, on_host. cbn [fst snd]. by rewrite E1.
Qed.

(** Writes that do not end in a carriage return are one write. *)
Lemma log_writes_ok ps (w : W) lw :
  10 ∉ lw_prev lw -> Forall (fun p => last p <> Some 13) ps ->
  exists w', log_writes ps (w, lw) =
      (Ok tt, (w', set_prev lw (split_lines (lw_prev lw) (replace_crlf (concat ps))).2)) /\
    printed w' = printed w ++ map (fun l => (lw_color lw, lw_prefix lw ++ l))
      (split_lines (lw_prev lw) (replace_crlf (concat ps))).1.
Proof.
  intros Hp HF. revert w lw Hp. induction HF as [|p ps Hl _ IH]; intros w lw Hp; cbn [log_writes concat].
  - exists w. cbn. rewrite app_nil_r. by destruct lw.
  - rewrite replace_crlf_app, split_lines_app by done. pose proof (log_Write_ok p w lw) as Hw.
    pose proof (split_lines_free (lw_prev lw) (replace_crlf p) Hp) as Hfree.
    destruct (split_lines (lw_prev lw) (replace_crlf p)) as [ls rest]. cbn [fst snd] in *.
    destruct (Hw Hp) as (w1 & E1 & H1). apply Forall_cons in Hfree as [Hrest _].
    destruct (IH w1 (set_prev lw rest) Hrest) as (w2 & E2 & H2). exists w2. unfold sbind. rewrite E1, E2.
    split; [done|]. cbn in H2 |- *. by rewrite H2, H1, map_app, <- app_assoc.
Qed.

(** A line that ends in CRLF, in one write and cut in two. *)
Lemma cut_crlf l (w : W) lw :
  lw_prev lw = [] -> 10 ∉ l -> 13 ∉ l ->
  (exists w', log_writes [l ++ [13]; [10]] (w, lw) = (Ok tt, (w', set_prev lw [])) /\
    printed w' = printed w ++ [(lw_color lw, lw_prefix lw ++ l ++ [13])]) /\
  (exists w', log_writes [l ++ [13; 10]] (w, lw) = (Ok tt, (w', set_prev lw [])) /\
    printed w' = printed w ++ [(lw_color lw, lw_prefix lw ++ l)]).
Proof.
  intros Hp H1 H2. split.
  - pose proof (log_Write_ok (l ++ [13]) w lw) as Hw. rewrite Hp, replace_crlf_skip, split_lines_skip in Hw by done.
    cbn in Hw. destruct (Hw (not_elem_of_nil 10)) as (w1 & E1 & P1). rewrite app_nil_r in P1.
    pose proof (log_Write_ok [10] w1 (set_prev lw (l ++ [13]))) as Hw2. cbn in Hw2.
    destruct Hw2 as (w2 & E2 & P2); [set_solver|]. exists w2. cbn [log_writes]. unfold sbind.
    rewrite E1, E2. by rewrite P2, P1.
  - pose proof (log_Write_ok (l ++ [13; 10]) w lw) as Hw.
    rewrite Hp, replace_crlf_skip, split_lines_skip in Hw by done. cbn in Hw.
    destruct (Hw (not_elem_of_nil 10)) as (w1 & E1 & P1). exists w1. cbn [log_writes]. unfold sbind.
    by rewrite E1.
Qed.

End WriteLemmas.

(** ** Properties *)

(** C35: the log of a process does not depend on how its output is cut into writes.
    There is a writer for every process, in a colour chosen by its name.  For any
    writes that do not end in a carriage return, it prints, in that colour and after the
    prefix, exactly the lines of the whole output, where the end of a line is LF or CRLF,
    and keeps what follows the last one.  A CRLF that is cut in two is not recognised:
    the carriage return is printed. *)
Theorem colored_log_lines {W : Type} `{!ColorPrinter W} {L : PrinterLaws W} (kind name : string) :
  exists lw, NewColoredLogWriter kind name = Ok lw /\ lw_color lw ∈ colors /\
  (forall ps w, Forall (fun p => last p <> Some 13) ps ->
    exists lines rest w', log_writes ps (w, lw) = (Ok tt, (w', set_prev lw rest)) /\
      printed w' = printed w ++ map (fun l => (lw_color lw, lw_prefix lw ++ l)) lines /\
      flat_map (fun l => l ++ [10]) lines ++ rest = replace_crlf (concat ps) /\
      Forall (fun l => 10 ∉ l) (rest :: lines)) /\
  (forall l w, 10 ∉ l -> 13 ∉ l -> exists w' w'' lw',
    log_writes [l ++ [13]; [10]] (w, lw) = (Ok tt, (w', lw')) /\
      printed w' = printed w ++ [(lw_color lw, lw_prefix lw ++ l ++ [13])] /\
    log_writes [l ++ [13; 10]] (w, lw) = (Ok tt, (w'', lw')) /\
      printed w'' = printed w ++ [(lw_color lw, lw_prefix lw ++ l)]).
Proof.
  destruct (chooseColor_ok name) as (c & Ec & Hc). eexists. split; [unfold NewColoredLogWriter; by rewrite Ec|].
  split; [done|]. set (lw := Build_coloredLogWriter _ _ _). split.
  - intros ps w HF. destruct (log_writes_ok ps w lw (not_elem_of_nil 10) HF) as (w' & E & Hw).
    eexists _, _, w'. split; [exact E|]. split; [exact Hw|].
    split; [apply (split_lines_text [])|apply split_lines_free, not_elem_of_nil].
  - intros l w H1 H2. destruct (cut_crlf l w lw eq_refl H1 H2) as [(w1 & E1 & P1) (w2 & E2 & P2)].
    by exists w1, w2, (set_prev lw []).
Qed.

(** A printer into a list. *)
#[export] Instance list_Printer : ColorPrinter (list (Attribute * list Z)) := {|
  color_Fprintln c l w := (Ok tt, w ++ [(c, l)])
|}.
#[export] Instance list_PrinterLaws : PrinterLaws (list (Attribute * list Z)).
Proof. refine {| printed w := w |}. intros c l w. by eexists. Defined.

Lemma colored_log_lines_witness :
  exists lw, NewColoredLogWriter "qemu" "boot-0" = Ok lw /\ lw_color lw = FgRed /\
    exists w' lw', log_writes [bytes_of_string "ab"; [99; 10; 13; 10; 100]] ([], lw) = (Ok tt, (w', lw')) /\
      w' = [(FgRed, bytes_of_string "[qemu] boot-0 - abc"); (FgRed, bytes_of_string "[qemu] boot-0 - ")] /\
      lw_prev lw' = [100].
Proof.
  destruct (colored_log_lines (L := list_PrinterLaws) "qemu" "boot-0") as (lw & E & _ & H & _).
  exists lw. split; [exact E|]. assert (Ec := E). vm_compute in Ec. injection Ec as <-. split; [reflexivity|].
  destruct (H [bytes_of_string "ab"; [99; 10; 13; 10; 100]] []) as (lines & rest & w' & E1 & _).
  { repeat constructor; discriminate. }
  eexists w', _. split; [exact E1|]. vm_compute in E1. injection E1 as <- <-. split; reflexivity.
Defined.
