(* ===== verification/Run.v ===== *)
(** * Running a cluster (cmd/placemat2/sub/run.go)

    The command reads the cluster's resources from the YAML files of its arguments,
    makes the runtime and sets the cluster up: the composition of the parser, the
    runtime and the life of the cluster. *)

From S2P Require Import Prelude GoBinary GoCrypto GoPath Machine Qmp Types Host Netlink Files Dcnet.
From S2P Require Import World Cache Volume Qemu Tap Bmc Node Netns Runtime Cluster Api Lifecycle.
From S2P Require Import Firewall Command.

Local Open Scope Z_scope.
Local Open Scope go_scope.

(** The flags. *)
Record config : Type := {
  cf_runDir : string;
  cf_cacheDir : string;
  cf_dataDir : string;
  cf_sharedDir : string;   (** no flag sets it, nothing reads it *)
  cf_listenAddr : string;
  cf_graphic : bool;
  cf_debug : bool;
  cf_force : bool
}.

(** root.go: the defaults of the flags, and the version. *)
Definition defaultRunPath : string := "/tmp".
Definition defaultCacheDir : string := "".
Definition defaultDataDir : string := "/var/scratch/placemat".
Definition defaultListenAddr : string := "127.0.0.1:10808".

Definition default_config : config :=
  {| cf_runDir := defaultRunPath; cf_cacheDir := defaultCacheDir; cf_dataDir := defaultDataDir;
     cf_sharedDir := ""; cf_listenAddr := defaultListenAddr; cf_graphic := false; cf_debug := false;
     cf_force := false |}.

Definition Version : string := "2.4.11".

(** [gin.SetMode(gin.ReleaseMode)] *)
Class GinMode (W : Type) : Type := { gin_SetReleaseMode : W -> W }.

(** [os.Chdir], and the framer of [Parse] on an open file. *)
Class Chdir (W : Type) : Type := { os_Chdir : string -> st W unit }.
Class FrameFiles (W R : Type) : Type := { file_frames : file -> W -> R }.

(** [filepath.Dir]: the path up to its last slash, cleaned. *)
Definition filepath_Dir (path : string) : string :=
  match rev (split_slash path) with
  | _ :: ((_ :: _) as es) => Clean (join_slash (rev es) +:+ "/")
  | _ => Clean ""
  end.

Example dir_file : filepath_Dir "/home/cybozu/dc/cluster.yml" = "/home/cybozu/dc". Proof. reflexivity. Qed.
Example dir_top : filepath_Dir "/cluster.yml" = "/". Proof. reflexivity. Qed.
Example dir_here : filepath_Dir "cluster.yml" = ".". Proof. reflexivity. Qed.

Section Run.
Context {W R : Type} `{!Host W} `{!HostFiles W} `{!Http W} `{!Procs W} `{!UrlOps} `{!AddrOps}
  `{!NetOps W} `{!Rand W} `{!NsOps W} `{!DetectMtu W} `{!Listen W} `{!VM W vm} `{!Scanner W}
  `{!Chdir W} `{!FrameReader R} `{!YamlOps} `{!FrameFiles W R}.

(** ** Loading *)

Definition loadClusterFromFile (fuel : nat) (p : string) : st W ClusterSpec :=
  let* f := os_Open p in
  with_file f (fun w => ((Parse fuel (file_frames f w)).1, w)).

Fixpoint load_loop (fuel : nat) (args : list string) (cluster : ClusterSpec) : st W ClusterSpec :=
  match args with
  | [] => sret cluster
  | p :: args' =>
      let* c := loadClusterFromFile fuel p in
      load_loop fuel args' (Append cluster c)
  end.

Definition loadClusterFromFiles (fuel : nat) (args : list string) : st W ClusterSpec :=
  load_loop fuel args empty_cluster.

(** ** The command *)

(** [config.cacheDir] after its default is filled in. *)
Definition cache_dir_of (cf : config) (w : W) : string :=
  if String.eqb (cf_cacheDir cf) "" then
    if negb (String.eqb (os_Getenv "SUDO_USER" w) "")
    then "/home/" +:+ os_Getenv "SUDO_USER" w +:+ "/placemat_data"
    else cf_dataDir cf
  else cf_cacheDir cf.

(** What the environment decides: how long loops may run, the order in which nodes
    register and machines are cleaned up, the events while the cluster runs, and how
    the API server ends. *)
Record schedule : Type := {
  sc_fuel : nat;
  sc_nodes : list nat;
  sc_vms : list (option vm) -> list (option vm);
  sc_events : list event;
  sc_served : option error
}.

(** The set-up of the cluster, which is forgotten afterwards. *)
Definition setup_cluster (sc : schedule) (vhost : bool) (r : Runtime) (spec : ClusterSpec) : st W unit :=
  fun w =>
  let (o, s) := cluster_Setup vhost (sc_fuel sc) r (sc_nodes sc) (sc_vms sc) (sc_events sc) (sc_served sc)
                  (w, NewCluster spec) in
  (o, s.1).

Definition run (sc : schedule) (cf : config) (yamls : list string) : st W unit :=
  match yamls with
  | [] => sthrow (errors_New "no YAML files specified")
  | _ =>
      let* yamls := smap filepath_Abs yamls in
      swarn (os_Chdir (filepath_Dir (hd "" yamls))) >>>
      (fun w =>
       let cacheDir := cache_dir_of cf w in
       (let* vhost := LoadModules in
        let* r := NewRuntime (cf_force cf) (cf_graphic cf) (cf_runDir cf) (cf_dataDir cf) cacheDir
                    (cf_listenAddr cf) in
        let* spec := loadClusterFromFiles (sc_fuel sc) yamls in
        setup_cluster sc vhost r spec) w)
  end.

(** A log configuration that cannot be applied ends the process. *)
Definition subMain `{!Terminal W} `{!GinMode W} (sc : schedule) (cf : config) (args : list string) : st W unit :=
  LogConfig_Apply >>>
  (fun w =>
   let w := if negb (cf_debug cf) then gin_SetReleaseMode w else w in
   run sc cf args w).

(** [main] of placemat2: [Execute] of root.go runs [subMain]. *)
Definition placemat2_main `{!Terminal W} `{!GinMode W} (sc : schedule) (cf : config) (args : list string) : st W Z :=
  Execute (subMain sc cf args).

(** The process ends with status 0 when the cluster came up and was shut down without an
    error; otherwise the error is printed and the status is 1. *)
Lemma placemat2_status `{!Terminal W} `{!GinMode W} sc cf args (w : W) :
  match subMain sc cf args w with
  | (Ok _, w') => placemat2_main sc cf args w = (Ok 0, w')
  | (Err e, w') => (forall text w1, exists w2, stdout_Write text w1 = (Ok tt, w2)) ->
      exists w2, placemat2_main sc cf args w = (Ok 1, w2) /\
        stdout_Write (bytes_of_string (error_Error e) ++ [10]) w' = (Ok tt, w2)
  | (Panic p, w') => placemat2_main sc cf args w = (Panic p, w')
  | (Diverge, w') => placemat2_main sc cf args w = (Diverge, w')
  end.
Proof.
  unfold placemat2_main, Execute, sbind, stry. destruct (subMain sc cf args w) as [[[]|e|p|] w']; try done.
  intros Hw. destruct (Hw (bytes_of_string (error_Error e) ++ [10]) w') as [w2 E2].
  exists w2. split; [|exact E2]. unfold fmt_Print, swarn. by rewrite E2.
Qed.

(** Neither the log configuration nor the mode of gin decides what [run] does. *)
Lemma subMain_run `{!Terminal W} `{!GinMode W} sc cf args (w w1 : W) :
  LogConfig_Apply w = (Ok tt, w1) ->
  subMain sc cf args w = run sc cf args (if cf_debug cf then w1 else gin_SetReleaseMode w1).
Proof. intros E. unfold subMain, sbind. rewrite E. by destruct (cf_debug cf). Qed.

End Run.

(** ** Loading *)

(** Regular files can be opened, and the framer on an open file finds the documents of
    its content. *)
Class FrameLaws (W R : Type) `{!Host W} `{!HostFiles W} `{!Http W} {L : FileLaws W}
  `{!FrameReader R} {FL : FrameReaderLaws R} `{!FrameFiles W R} : Type := {
  documents : list Z -> list (list Z);
  Open_ok : forall p, succeeds fview (os_Open p) (fun v => exists c, fs_paths v !! p = Some (Regular c));
  frames_law : forall f w c, fs_reads (fview w) !! f = Some c -> frames (file_frames f w) = documents c
}.

(** Documents that can be read with [fuel] rounds. *)
Definition in_bounds (fuel : nat) (ds : list (list Z)) : Prop :=
  (length ds < fuel)%nat /\ Forall (fun d => Z.of_nat (length d) <= maxBytes) ds.

Section LoadLemmas.
Context {W R : Type} `{!Host W} `{!HostFiles W} `{!Http W} {L : FileLaws W} `{!FrameReader R}
  {FL : FrameReaderLaws R} `{!YamlOps} `{!FrameFiles W R} {RL : FrameLaws W R}.

Lemma load_file fuel p c (w : W) :
  paths w !! p = Some (Regular c) -> in_bounds fuel (documents c) ->
  exists w', loadClusterFromFile fuel p w = (parse_docs (documents c) empty_cluster, w') /\
    paths w' = paths w.
Proof.
  intros Hp [Hf Hs]. destruct (Open_ok p w) as (f & w1 & E); [by exists c|].
  pose proof (Open_law p w) as Ho. rewrite E in Ho. destruct Ho as (c' & Hc' & Hv).
  unfold paths in Hp. rewrite Hp in Hc'. injection Hc' as <-.
  assert (Hd : frames (file_frames f w1) = documents c) by (apply frames_law; rewrite Hv; apply lookup_insert_eq).
  exists (file_Close f w1). unfold loadClusterFromFile, sbind. rewrite E. unfold with_file. cbn. split.
  - unfold Parse. by rewrite (parse_loop_docs (documents c)).
  - unfold paths. by rewrite Close_law, Hv.
Qed.

Lemma load_docs fuel ps contents c (w : W) :
  Forall2 (fun p content => paths w !! p = Some (Regular content)) ps contents ->
  Forall (fun content => in_bounds fuel (documents content)) contents ->
  (load_loop fuel ps c w).1 = parse_docs (concat (map documents contents)) c.
Proof.
  revert c w contents. induction ps as [|p ps IH]; intros c w contents HF Hb.
  { by apply Forall2_nil_inv_l in HF as ->. }
  apply Forall2_cons_inv_l in HF as (content & contents' & Hp & HF & ->).
  apply Forall_cons in Hb as [Hb Hbs]. cbn [load_loop map concat].
  destruct (load_file fuel p content w Hp Hb) as (w1 & E & Hw). unfold sbind. rewrite E, parse_docs_app.
  replace (parse_docs (documents content) c) with (parse_docs (documents content) (Append c empty_cluster))
    by (by rewrite Append_empty_r). rewrite parse_docs_shift.
  destruct (parse_docs (documents content) empty_cluster) as [c'|e|q|]; cbn [obind]; [|done..].
  apply IH; [|done]. eapply Forall2_impl; [exact HF|]. cbn. intros q content'. by rewrite Hw.
Qed.

End LoadLemmas.

Section Valid.
Context {W R : Type} `{!Host W} `{!FrameReader R} `{!YamlOps} `{!FrameFiles W R}.

Lemma Append_ok c c' : cluster_ok c -> cluster_ok c' -> cluster_ok (Append c c').
Proof.
  intros (H1 & H2 & H3 & H4 & H5) (K1 & K2 & K3 & K4 & K5).
  unfold cluster_ok. cbn. rewrite !Forall_app. tauto.
Qed.

Lemma load_loop_valid fuel ps c (w w' : W) c' :
  cluster_ok c -> load_loop fuel ps c w = (Ok c', w') -> cluster_ok c'.
Proof.
  revert c w. induction ps as [|p ps IH]; intros c w Hc E; cbn [load_loop] in E; [by injection E as <- <-|].
  apply sbind_ok in E as (c1 & w1 & E1 & E). eapply IH; [|exact E].
  unfold loadClusterFromFile in E1. apply sbind_ok in E1 as (f & w2 & _ & E1). unfold with_file in E1.
  destruct (Parse fuel (file_frames f w2)) as [o r'] eqn:Ep. cbn in E1. injection E1 as -> _.
  apply Append_ok; [done|]. eapply parse_loop_ok; [exact Ep|apply empty_cluster_ok].
Qed.

End Valid.

(** ** The firewall *)

(** Changing the directory and reading lines leave the network alone. *)
Class RunFrame (W : Type) `{!AddrOps} `{!NetOps W} {L : NetLaws W} `{!Chdir W} `{!Scanner W} : Prop := {
  rf_chdir : forall d w, view (os_Chdir d w).2 = view w;
  rf_scan : forall f w, view (scan_lines f w).2 = view w
}.

Section RunLemmas.
Context {W R : Type} `{!AddrOps} `{!NetOps W} {L : NetLaws W} {LR : NetReliable W} `{!Host W}
  `{!HostFiles W} `{!Http W} `{!Procs W} `{!Rand W} `{!NsOps W} `{!DetectMtu W} {NF : NetFrame W}
  `{!UrlOps} `{!Listen W} {LL : ListenLaws (W := W)} `{!VM W vm} {SF : NsFrame W} `{!Scanner W}
  `{!Chdir W} {RF : RunFrame W} `{!FrameReader R} `{!YamlOps} `{!FrameFiles W R}.
Context (cs0 : gmap chain (list rule)) (Hu : untouched cs0).

Lemma keep_scan f : preserves same_chains (scan_lines f).
Proof. apply keep, rf_scan. Qed.

Lemma keep_LoadModules : preserves same_chains LoadModules.
Proof.
  unfold LoadModules. apply preserves_bind; [apply _|apply preserves_warn, keep_run; set_solver +|]. intros _.
  apply preserves_bind; [apply _|apply preserves_try, keep_open|]. intros [f|e]; [|preserves].
  apply keep_with_file. apply preserves_bind; [apply _|apply keep_scan|]. intros; preserves.
Qed.

Lemma keep_ensure_dir d : preserves same_chains (ensure_dir d).
Proof.
  apply (keep_stat d (fun x => match x with
    | Exists isDir => if isDir then sret tt else sthrow (errors_New (d +:+ " is not a directory"))
    | NotExist => os_MkdirAll d | StatFailed e => sthrow e end)).
  - intros w. unfold ensure_dir. by destruct (os_Stat d w) as [[[]| |] ].
  - intros [[]| |]; [preserves..|apply keep_mkdirall|preserves].
Qed.

Lemma keep_NewRuntime a b c d e f : preserves same_chains (NewRuntime (W := W) a b c d e f).
Proof.
  unfold NewRuntime. preserves; first [apply keep_ensure_dir|apply keep_mkdirall].
Qed.

Lemma NewRuntime_force a b c d e f (w w' : W) r : NewRuntime a b c d e f w = (Ok r, w') -> Force r = a.
Proof.
  unfold NewRuntime. intros E. do 5 (apply sbind_ok in E as (? & ? & _ & E)). by injection E as <- _.
Qed.

Lemma keep_load_loop fuel ps c : preserves same_chains (load_loop (W := W) (R := R) fuel ps c).
Proof.
  revert c. induction ps as [|p ps IH]; intros c; cbn [load_loop]; [preserves|].
  apply preserves_bind; [apply _| |intros; apply IH].
  unfold loadClusterFromFile. apply preserves_bind; [apply _|apply keep_open|]. intros f.
  apply keep_with_file. by intros w o w' [= _ <-].
Qed.

(** How a run ends. *)
Definition ends (force : bool) (m : st W unit) : Prop :=
  forall w o w', (if force then started cs0 (v_chains (view w)) else v_chains (view w) = cs0) ->
    m w = (o, w') ->
    v_chains (view w') = v_chains (view w) \/
    match o with
    | Ok _ | Err _ => v_chains (view w') = cs0
    | _ => started cs0 (v_chains (view w'))
    end.

Lemma ends_bind {A} force (m : st W A) (f : A -> st W unit) :
  preserves same_chains m -> (forall w a w', m w = (Ok a, w') -> ends force (f a)) ->
  ends force (sbind m f).
Proof.
  intros Hm Hf w o w' Hw. unfold sbind. destruct (m w) as [[a|e|p|] w1] eqn:E;
    pose proof (Hm _ _ _ E) as Hk; unfold same_chains in Hk; try (intros [= <- <-]; by left).
  intros E2. rewrite <- Hk in Hw |- *. by eapply (Hf _ _ _ E).
Qed.

Lemma setup_cluster_ends sc vhost r spec :
  cluster_ok spec -> ends (Force r) (setup_cluster sc vhost r spec).
Proof.
  intros [Hn _] w o w' Hw. unfold setup_cluster.
  destruct (cluster_Setup _ _ _ _ _ _ _ (w, NewCluster spec)) as [o1 s] eqn:E. intros [= <- <-]. right.
  apply (cluster_Setup_ended cs0 Hu) in E; [exact E|]. split; [|exact Hn].
  unfold fw. cbn [fst]. by destruct (Force r).
Qed.

Lemma run_ends sc cf yamls : ends (cf_force cf) (run (W := W) (R := R) sc cf yamls).
Proof.
  unfold run. destruct yamls as [|y yamls]; [intros w o w' _ [= _ <-]; by left|].
  apply ends_bind; [apply preserves_map; [apply _|apply keep_Abs]|]. intros _ ys _ _.
  apply ends_bind; [apply preserves_warn, keep, rf_chdir|]. intros _ _ _ _ w.
  generalize (cache_dir_of cf w). intros d. revert w.
  match goal with |- forall w o w', _ -> ?m w = (o, w') -> _ => change (ends (cf_force cf) m) end.
  apply ends_bind; [apply keep_LoadModules|]. intros _ vhost _ _.
  apply ends_bind; [apply keep_NewRuntime|]. intros w1 r w2 Er. apply NewRuntime_force in Er. rewrite <- Er.
  apply ends_bind; [apply keep_load_loop|]. intros w3 spec w4 Es. apply setup_cluster_ends.
  eapply load_loop_valid; [apply empty_cluster_ok|exact Es].
Qed.

End RunLemmas.

(** ** Properties *)

(** C32: the firewall through a run of the command.  On a kernel where removal works, from
    any firewall without the program's chains (or, with the option force, with what an
    earlier run left of them), whatever files, flags, resources, failures and events
    there are: either the run ended before the cluster was touched and the firewall is
    as it was found, or, when the command returns, with or without an error, the chains
    and rules of the host are exactly those there were without the program.  When the
    process is ended by a panic instead, the difference is only in what is the
    program's own, which a forced run then removes. *)
Theorem run_restores_firewall {W R : Type} `{!AddrOps} `{!NetOps W} {L : NetLaws W}
  {LR : NetReliable W} `{!Host W} `{!HostFiles W} `{!Http W} `{!Procs W} `{!Rand W} `{!NsOps W}
  `{!DetectMtu W} {NF : NetFrame W} `{!UrlOps} `{!Listen W} {LL : ListenLaws (W := W)} `{!VM W vm}
  {SF : NsFrame W} `{!Scanner W} `{!Chdir W} {RF : RunFrame W} `{!FrameReader R} `{!YamlOps}
  `{!FrameFiles W R} (cs0 : gmap chain (list rule)) (sc : schedule) (cf : config)
  (yamls : list string) (w : W) :
  untouched cs0 ->
  (if cf_force cf then started cs0 (v_chains (view w)) else v_chains (view w) = cs0) ->
  let (o, w') := run sc cf yamls w in
  v_chains (view w') = v_chains (view w) \/
  match o with
  | Ok _ | Err _ => v_chains (view w') = cs0
  | _ => started cs0 (v_chains (view w'))
  end.
Proof.
  intros Hu Hw. destruct (run sc cf yamls w) as [o w'] eqn:E. exact (run_ends cs0 Hu sc cf yamls w o w' Hw E).
Qed.

(** Several files are one.  When the files of the arguments are there, loading them
    one by one and appending their clusters is handling the documents of all files in
    their order, errors included; and the cluster has only valid resources. *)
Theorem files_loaded {W R : Type} `{!Host W} `{!HostFiles W} `{!Http W} {L : FileLaws W}
  `{!FrameReader R} {FL : FrameReaderLaws R} `{!YamlOps} `{!FrameFiles W R} {RL : FrameLaws W R}
  (fuel : nat) (args : list string) (contents : list (list Z)) (w : W) :
  Forall2 (fun p content => paths w !! p = Some (Regular content)) args contents ->
  Forall (fun content => in_bounds fuel (documents content)) contents ->
  (loadClusterFromFiles fuel args w).1 = parse_docs (concat (map documents contents)) empty_cluster /\
  forall spec w', loadClusterFromFiles fuel args w = (Ok spec, w') -> cluster_ok spec.
Proof.
  intros HF Hb. split; [by apply load_docs|]. intros spec w'. apply load_loop_valid, empty_cluster_ok.
Qed.

(** ** On the simulated host *)

#[export] Instance simWorld_Chdir : Chdir simWorld := {| os_Chdir _ w := (Ok tt, w) |}.
#[export] Instance simWorld_Scanner : Scanner simWorld := {| scan_lines _ w := (Ok [], w) |}.
#[export] Instance simWorld_RunFrame : RunFrame simWorld.
Proof. by split. Qed.

(** A file is one document. *)
#[export] Instance simWorld_FrameFiles : FrameFiles simWorld (list (list Z)) := {|
  file_frames f w := match fs_reads (sw_fs w) !! f with Some c => [c] | None => [] end
|}.

#[export] Instance simWorld_FrameLaws : FrameLaws simWorld (list (list Z)) (FL := list_reader_laws).
Proof.
  refine {| documents c := [c] |}.
  - intros p w (c & Hc). cbn in Hc |- *. unfold sw_open. rewrite Hc. by eexists _, _.
  - intros f w c Hc. cbn in Hc |- *. by rewrite Hc.
Defined.

Definition run_host : simWorld :=
  with_fs (MkFs {[ "/root/a.yml" := Regular (doc "Network" "net");
                   "/root/b.yml" := Regular (doc "NetworkNamespace" "core") ]} ∅ ∅) demo_host.

Definition run_config : config :=
  {| cf_runDir := "/run"; cf_cacheDir := ""; cf_dataDir := "/data"; cf_sharedDir := "";
     cf_listenAddr := ":80"; cf_graphic := false; cf_debug := false; cf_force := false |}.

Definition run_schedule : schedule :=
  {| sc_fuel := 5; sc_nodes := []; sc_vms := fun l => l; sc_events := [NamespaceRuns 0; ApiCall GetNodes]; sc_served := None |}.

Lemma run_restores_firewall_witness :
  let m := run (R := list (list Z)) run_schedule run_config ["a.yml"; "b.yml"] run_host in
  m.1 = Ok tt /\ v_chains (sw_net m.2) = v_chains demo_net /\
  paths m.2 !! "/data/image_cache" = Some Directory /\ is_Some (v_links (sw_net m.2) !! "pm_veth00000000").
Proof.
  intros m. assert (E : m.1 = Ok tt) by (vm_compute; reflexivity). split; [exact E|]. split; [|split; [|eexists]; vm_compute; reflexivity].
  pose proof (run_restores_firewall (R := list (list Z)) (LR := simWorld_NetReliable) (NF := simWorld_NetFrame)
    (RF := simWorld_RunFrame) (v_chains demo_net) run_schedule run_config ["a.yml"; "b.yml"] run_host
    demo_untouched eq_refl) as H.
  fold m in H. destruct m as [o w']. cbn [fst snd] in *. subst o. destruct H as [H|H]; exact H.
Defined.

Lemma files_loaded_witness :
  exists spec w', loadClusterFromFiles (R := list (list Z)) 5 ["/root/a.yml"; "/root/b.yml"] run_host = (Ok spec, w') /\
    map nw_Name (cs_Networks spec) = ["net"] /\ map ns_Name (cs_NetNSs spec) = ["core"] /\ cluster_ok spec.
Proof.
  destruct (files_loaded (R := list (list Z)) (RL := simWorld_FrameLaws) 5 ["/root/a.yml"; "/root/b.yml"]
    [doc "Network" "net"; doc "NetworkNamespace" "core"] run_host) as [H1 H2].
  - repeat constructor.
  - repeat constructor; vm_compute; discriminate || lia.
  - destruct (loadClusterFromFiles _ _ run_host) as [o w'] eqn:E. cbn [fst] in H1.
    assert (Ho : exists spec, o = Ok spec /\ map nw_Name (cs_Networks spec) = ["net"] /\
      map ns_Name (cs_NetNSs spec) = ["core"]).
    { rewrite H1. eexists. split_and!; vm_compute; reflexivity. }
    destruct Ho as (spec & -> & Hn & Hs). exists spec, w'. split_and!; [reflexivity|exact Hn|exact Hs|by eapply H2].
Defined.
